(* ===== verification/_CoqProject ===== *)
-Q . S2P
Prelude.v
Memory.v
Address.v
FrameBitmap.v
Physical.v
ListAllocator.v
Region.v
PageTable.v
ProcMemory.v
Alternate.v
Fork.v
RingBuffer.v
Ports.v
Time.v
Blocking.v
TextMode.v
Descriptors.v
Files.v
Pipes.v
Drivers.v
Serial.v
Keyboard.v
Tty.v
DevFs.v
Devices.v
InitFs.v
Floppy.v
FloppyController.v
Fat12.v
Fat12Fs.v
Mount.v
Process.v
ComReaders.v
Vfs.v
Syscalls.v
Exceptions.v
Interrupts.v
Boot.v
Loader.v
LoaderSpec.v
PowerOn.v
