(* ===== verification/Prelude.v ===== *)
(** * A verification of the IMM-DOS kernel

    The program under [src/] is the kernel of a DOS-like operating system for the 80386,
    written in Rust: physical and virtual memory, a heap, processes with cooperative
    scheduling and signals, files on four file systems, device drivers and terminals.  The
    development is a shallow embedding: pure code is a function, code that changes state
    passes the state on, code that can panic, wait for itself or loop returns in the monad
    [comp], [Result] is the type [result].

    ** How the parts interact

    The boot loader enters [_start], which builds the frame allocator, the page tables, the
    heap, the devices, the file systems and the first processes.  Programs enter the kernel by
    the system call interrupt; the dispatcher calls the file and process operations of the
    current process; file operations go through the map of file systems to a file system and
    from there to memory, pipes, or a driver.  Page faults fill the address space of a process
    on demand.  Device interrupts record what happened and wake a process: the input thread
    turns scan codes into key actions for the terminals, drivers continue their transfers.

    ** Files and what they model

    Foundations.  [Prelude]: machine integers, the monads, list and integer lemmas.
    [Memory]: byte memory with little-endian words.  [Address]: [memory/address.rs],
    [physical/frame.rs], [physical/frame_range.rs].  [Ports]: [x86/io.rs], [hardware/pic.rs],
    [hardware/pit.rs].

    Physical memory.  [FrameBitmap]: [physical/frame_bitmap.rs], [physical/bios.rs].
    [Physical]: [physical/frame_refcount.rs], [physical/mod.rs]; the two statics are the record
    [PhysState].

    Kernel heap.  [ListAllocator]: [heap/list_allocator.rs], [heap/mod.rs]; nodes are words of
    the byte memory, as the raw pointers of the source see them.

    Virtual memory.  [Region]: [virt/region.rs].  [PageTable]: [virt/page_entry.rs],
    [virt/page_table.rs], [virt/page_directory.rs], [virt/mod.rs]; every access to a table goes
    through the processor's two-level walk.  [ProcMemory]: [process/memory.rs].  [Alternate] and
    [Fork] hold the proofs about writing another directory and copying an address space.
    [Descriptors]: [gdt.rs], [idt.rs], [x86/segments.rs].

    Processes.  [Process]: [process/process_state.rs], [process/signals.rs], [process/map.rs],
    [process/id.rs], [process/subsystem.rs], [process/files.rs], [process/exec.rs],
    [process/mod.rs].  [Exceptions]: [interrupts/exceptions.rs],
    [interrupts/syscall_legacy.rs].  [Syscalls]: [syscalls/file.rs], [syscalls/exec.rs],
    [interrupts/syscall.rs] and the program side in [syscall/src/lib.rs].

    Files.  [Files]: [collections/slotlist.rs] and [files/].  [RingBuffer]: [buffers.rs].
    [Pipes]: [pipes/].  [InitFs]: [filesystems/init/mod.rs].  [DevFs]:
    [filesystems/dev/mod.rs].  [Fat12], [Fat12Fs] and [Mount]: [filesystems/fat12/].  [Vfs]:
    [filesystems/filesystem.rs], [filesystems/mod.rs].

    Devices.  [Drivers]: [drivers/driver.rs], [drivers/mod.rs], [drivers/null/mod.rs],
    [drivers/zero/mod.rs].  [Blocking]: [drivers/blocking.rs], [drivers/queue.rs].  [Serial]:
    [drivers/com/]; [ComReaders] puts it on the processes and signals of [Process].  [Keyboard]: [drivers/keyboard/], [tty/keyboard.rs].  [TextMode]:
    [hardware/vga/text_mode.rs].  [Tty]: the rest of [tty/].  [Floppy]:
    [drivers/floppy/].  [FloppyController]: [hardware/floppy.rs], [hardware/dma.rs].  [Time]:
    [time/], [hardware/rtc.rs].  [Interrupts]: [interrupts/pic.rs], [input.rs].  [Devices]:
    [devices.rs], the table of drivers and the start-up of the chips.

    Start-up.  [Loader]: the two stages of the boot loader under [bootloader/], with memory,
    the BIOS and the loader's variables as the record [Loader]; [LoaderSpec]: what they do.
    [Boot]: the start-up of memory in [lib.rs].  [PowerOn]: the two in a row.

    Components meet at interfaces: [Ports] (the machine behind the ports), [System] (what a
    driver sees of the scheduler), [ReadQueue], [DeviceDriver], [DiskDriver] (what a file
    system needs of a disk), [FileSystem], and [Uart], [Cmos] and [FdcSystem], which state the
    documented behaviour of the UART, the clock chip and the floppy controller as laws; [Bios] and
    its laws [DiskBios] do so for the BIOS under the boot loader.  [Line] is the one assumption
    about other processes: a reader asleep in a queue gets the processor back.
    Theorems about clients are proved from the laws; every law has a concrete instance in the
    witnesses.

    ** What the theorems show

    Memory: the memory map frees the frames of which it covers a byte; the frame allocator
    finds the first free range and freeing undoes it; reference counts follow copy-on-write;
    the heap takes the first fitting node, never hands out memory twice, and gets back what is
    freed as long as a node is free, while a block freed into an empty list is lost; mapping and unmapping change exactly one
    translation; the boot directory maps the kernel twice; page faults back the faulting page
    with the lowest free frame and fill pages of mapped files; the break of a process stays
    mapped, except in the last page of the address space; a fork gives the child
    every mapped page, shared or copied as its permissions say, and leaves the parent alone.

    Start-up: the first stage brings the second to its place; the second brings the kernel, the
    archive and the memory map to theirs and enters the kernel with its stack and argument; from
    there memory comes up with the image intact, code and stack mapped, a heap that holds the
    reference counts, and exactly the frames in use that should be; with more frames than the
    first heap of 256 KiB has room to count, about a gibibyte of memory, it panics.

    Processes: the process map keeps its invariant over every reachable state, the scheduler
    gets to every runnable process within one round as long as the pids in use stay within a
    finite set (and with a new process in every round may never), sleeping processes wake on time,
    switching away and back restores the registers, exit informs the parent.

    Files: programs read files of the initial file system and send bytes through pipes by the
    system call interface; handles are the lowest free ones; ring buffers are queues, also
    when reader and writer interleave; the allocation table is decoded exactly and chains are
    followed across sectors; archives are served as they were written.

    Devices: over the chips' laws the floppy driver is the byte stream of the disk up to the
    end of the track, a serial read returns the bytes in order of arrival and hands over to the
    next reader, terminals show what a reference terminal with control sequences shows and stay
    in their window, typed text reaches the reading program, the clock's locks
    never deadlock with the timer interrupt, dates are those of the calendar.

    Theorems named after a flaw ([cluster_chain_breaks], [long_read_overruns_buffer], ...)
    show where the code departs from what it means to do.

    ** Integers, fuel and bounds

    Integers are kept at their width by [u8], [u16], [u32], [u64]; the kernel is built in
    release mode, so arithmetic wraps and only indexing, division and [unwrap] panic.  A loop
    that is not structural takes fuel and returns [OutOfFuel] when it is used up; the
    theorems give a sufficient bound on the fuel (the length of the list walked, the number
    of pages, sectors or bytes) and a result, so termination is part of them.  A loop that
    never ends in the source is shown to use up every fuel.  The recursion of [reset] and
    [send_command] in the floppy controller has a depth besides its fuel.  The boot loader's
    loops have the fuel their 16-bit registers allow: 64 sectors to a buffer, 1024 buffers to a
    file, 2048 directory entries, 170 entries of the memory map and 65536 sections.

    ** Not modelled

    [asm/syscall.s] (it saves and restores registers), the linker script, [panic.rs] and
    [debug.rs] (printing and halting), the stack of the boot loader below 0x7c00, the part of
    [_start] after the start-up of memory and [disks.rs] (they call modelled operations in a
    row), the [Debug] formatting of values, the instructions behind [llvm_asm!] blocks other
    than port, paging and stack switches, the release of heap blocks by [Drop], and
    [promise.rs], which no code uses.  Spin locks are modelled where a thread can meet its own
    lock (terminating processes, the clock); elsewhere the kernel is not preempted.  Text printed for debugging is left out. *)

From stdpp Require Export base tactics numbers list gmap.
From Stdlib Require Export ZArith Lia.
From Stdlib Require Ascii String.

(** * Notation scope of the development *)

Declare Scope mach_scope.
Delimit Scope mach_scope with mach.
Global Open Scope Z_scope.

(** * Machine integers

    Every Rust integer is a [Z]; an operation that can leave the range of its type is
    followed by the reduction of that type.  The kernel is built with
    [cargo xbuild --release] (Makefile), so unchecked arithmetic wraps and never panics;
    indexing and division keep their checks. *)

Definition u8 (x : Z) : Z := x mod 256.
Definition u16 (x : Z) : Z := x mod 65536.
Definition u32 (x : Z) : Z := x mod 4294967296.
Definition u64 (x : Z) : Z := x mod 18446744073709551616.

(** [x as i32] (and [as isize]) of an unsigned 32-bit value. *)
Definition i32 (x : Z) : Z :=
  if u32 x <? 2147483648 then u32 x else u32 x - 4294967296.

Notation "a +u b" := (u32 (a + b)) (at level 50, left associativity) : mach_scope.
Notation "a -u b" := (u32 (a - b)) (at level 50, left associativity) : mach_scope.
Notation "a *u b" := (u32 (a * b)) (at level 40, left associativity) : mach_scope.
Notation "a <<u b" := (u32 (Z.shiftl a b)) (at level 52, left associativity) : mach_scope.
Notation "a >>u b" := (Z.shiftr a b) (at level 52, left associativity) : mach_scope.
Notation "a &u b" := (Z.land a b) (at level 53, left associativity) : mach_scope.
Notation "a |u b" := (Z.lor a b) (at level 54, left associativity) : mach_scope.
Global Open Scope mach_scope.

(** [!x] of the given width. *)
Definition not8 (x : Z) : Z := 255 - x.
Definition not32 (x : Z) : Z := 4294967295 - x.

Definition is_u8 (x : Z) : Prop := 0 <= x < 256.
Definition is_u16 (x : Z) : Prop := 0 <= x < 65536.
Definition is_u32 (x : Z) : Prop := 0 <= x < 4294967296.
Definition is_u64 (x : Z) : Prop := 0 <= x < 18446744073709551616.

Ltac mach_unfold :=
  unfold is_u8, is_u16, is_u32, is_u64, u8, u16, u32, u64, i32, not8, not32 in *.

(** [mlia] is [lia] with machine reductions and constant divisions turned into linear facts. *)
Ltac mlia :=
  mach_unfold; Z.to_euclidean_division_equations; lia.

(** * Effects

    A computation returns, panics (bounds check, [unwrap] of [None], [panic!]), waits for a
    spin lock it already holds, or has used up the fuel that bounds a loop. *)

Inductive comp (A : Type) : Type :=
| Ret (a : A)
| Panic
| Deadlock
| OutOfFuel.
Arguments Ret {A} a.
Arguments Panic {A}.
Arguments Deadlock {A}.
Arguments OutOfFuel {A}.

#[global] Instance comp_ret : MRet comp := fun _ a => Ret a.
#[global] Instance comp_bind : MBind comp := fun _ _ k c =>
  match c with
  | Ret a => k a
  | Panic => Panic
  | Deadlock => Deadlock
  | OutOfFuel => OutOfFuel
  end.

(** Rust's [Result]. *)
Inductive result (A E : Type) : Type :=
| Ok (a : A)
| Err (e : E).
Arguments Ok {A E} a.
Arguments Err {A E} e.

Definition ok_or {A E} (o : option A) (e : E) : result A E :=
  match o with Some a => Ok a | None => Err e end.
Definition map_err {A E F} (f : E -> F) (r : result A E) : result A F :=
  match r with Ok a => Ok a | Err e => Err (f e) end.
Definition is_ok {A E} (r : result A E) : bool :=
  match r with Ok _ => true | Err _ => false end.
Definition unwrap {A} (o : option A) : comp A :=
  match o with Some a => Ret a | None => Panic end.

(** * Arrays

    [Vec]s and slices are lists indexed by [Z].  Reads and writes out of range panic. *)

Definition nthZ {A} (l : list A) (i : Z) : option A :=
  if 0 <=? i then l !! Z.to_nat i else None.
Definition setZ {A} (l : list A) (i : Z) (a : A) : list A :=
  if 0 <=? i then <[Z.to_nat i := a]> l else l.
Definition lenZ {A} (l : list A) : Z := Z.of_nat (length l).
Definition index {A} (l : list A) (i : Z) : comp A := unwrap (nthZ l i).
Definition store {A} (l : list A) (i : Z) (a : A) : comp (list A) :=
  if (0 <=? i) && (i <? lenZ l) then Ret (setZ l i a) else Panic.

(** [for x in l { s = f(x, s)? }] *)
Fixpoint for_each {A S} (f : A -> S -> comp S) (l : list A) (s : S) : comp S :=
  match l with
  | [] => Ret s
  | a :: l' => s' ← f a s; for_each f l' s'
  end.

(** The values of [a..=b]. *)
Definition range_incl (a b : Z) : list Z := seqZ a (b - a + 1).

(** * Tactics *)

(** Case analysis on the scrutinee of a [match] or [if] of the goal or a hypothesis. *)
Ltac split_match :=
  match goal with
  | |- context [match ?x with _ => _ end] => destruct x eqn:?
  | H : context [match ?x with _ => _ end] |- _ => destruct x eqn:?
  end.

(** Turn boolean comparisons into propositions. *)
Ltac bool_to_prop :=
  repeat match goal with
  | H : (_ && _)%bool = true |- _ => apply andb_prop in H as [? ?]
  | H : (_ && _)%bool = false |- _ => apply andb_false_iff in H
  | H : (_ || _)%bool = true |- _ => apply orb_prop in H
  | H : (_ || _)%bool = false |- _ => apply orb_false_iff in H as [? ?]
  | H : negb _ = true |- _ => apply negb_true_iff in H
  | H : negb _ = false |- _ => apply negb_false_iff in H
  | H : (_ <? _) = true |- _ => apply Z.ltb_lt in H
  | H : (_ <? _) = false |- _ => apply Z.ltb_ge in H
  | H : (_ <=? _) = true |- _ => apply Z.leb_le in H
  | H : (_ <=? _) = false |- _ => apply Z.leb_gt in H
  | H : (_ =? _) = true |- _ => apply Z.eqb_eq in H
  | H : (_ =? _) = false |- _ => apply Z.eqb_neq in H
  | H : (_ >? _) = true |- _ => apply Z.gtb_gt in H
  | H : (_ >? _) = false |- _ => rewrite Z.gtb_ltb in H
  | H : (_ >=? _) = true |- _ => rewrite Z.geb_leb in H
  | H : (_ >=? _) = false |- _ => rewrite Z.geb_leb in H
  end.

Create HintDb mach.
Create Rewrite HintDb bits.

(** * Integer and bit lemmas *)

Lemma u32_range x : is_u32 (u32 x).
Proof. mlia. Qed.
Lemma u8_range x : is_u8 (u8 x).
Proof. mlia. Qed.
Lemma u16_range x : is_u16 (u16 x).
Proof. mlia. Qed.
Lemma u32_small x : is_u32 x -> u32 x = x.
Proof. mlia. Qed.
Lemma u8_small x : is_u8 x -> u8 x = x.
Proof. mlia. Qed.
Lemma u16_small x : is_u16 x -> u16 x = x.
Proof. mlia. Qed.
Lemma u64_small x : is_u64 x -> u64 x = x.
Proof. mlia. Qed.
Lemma u32_idem x : u32 (u32 x) = u32 x.
Proof. mlia. Qed.
#[export] Hint Resolve u32_range u8_range u16_range : mach.

Lemma shr_div x n : 0 <= n -> Z.shiftr x n = x / 2 ^ n.
Proof. apply Z.shiftr_div_pow2. Qed.

Lemma land_low x n : 0 <= n -> Z.land x (Z.ones n) = x mod 2 ^ n.
Proof. apply Z.land_ones. Qed.

Lemma land_fff x : Z.land x 0xfff = x mod 4096.
Proof. exact (Z.land_ones x 12 ltac:(lia)). Qed.
Lemma land_3ff x : Z.land x 0x3ff = x mod 1024.
Proof. exact (Z.land_ones x 10 ltac:(lia)). Qed.
Lemma land_ff x : Z.land x 0xff = x mod 256.
Proof. exact (Z.land_ones x 8 ltac:(lia)). Qed.
Lemma land_7 x : Z.land x 7 = x mod 8.
Proof. exact (Z.land_ones x 3 ltac:(lia)). Qed.
Lemma land_ffff x : Z.land x 0xffff = x mod 65536.
Proof. exact (Z.land_ones x 16 ltac:(lia)). Qed.
Lemma land_7fffffff x : Z.land x 0x7fffffff = x mod 2147483648.
Proof. exact (Z.land_ones x 31 ltac:(lia)). Qed.

(** Clearing the low [n] bits of a 32-bit value rounds it down. *)
Lemma land_high x n :
  is_u32 x -> 0 <= n <= 32 -> Z.land x (Z.ones 32 - Z.ones n) = x - x mod 2 ^ n.
Proof.
  intros Hx Hn.
  assert (Hm : Z.ones 32 - Z.ones n = Z.ldiff (Z.ones 32) (Z.ones n)).
  { rewrite Z.sub_nocarry_ldiff; [done|].
    apply Z.bits_inj'. intros i Hi.
    rewrite Z.ldiff_spec, Z.bits_0, !Z.testbit_ones_nonneg by lia.
    destruct (Z.ltb_spec i n), (Z.ltb_spec i 32); simpl; try done; lia. }
  rewrite Hm, <- Z.land_ones by lia.
  rewrite Z.sub_nocarry_ldiff.
  - apply Z.bits_inj'. intros i Hi.
    rewrite !Z.land_spec, !Z.ldiff_spec, Z.land_spec, !Z.testbit_ones_nonneg by lia.
    destruct (Z.ltb_spec i 32).
    + destruct (Z.testbit x i), (i <? n); done.
    + assert (Z.testbit x i = false) as ->; [|done].
      rewrite <- (Z.mod_small x (2 ^ 32)) by (mach_unfold; lia).
      by apply Z.mod_pow2_bits_high; lia.
  - apply Z.bits_inj'. intros i Hi.
    rewrite Z.ldiff_spec, Z.land_spec, Z.bits_0.
    destruct (Z.testbit x i), (Z.testbit (Z.ones n) i); done.
Qed.

Lemma land_page x : is_u32 x -> Z.land x 0xfffff000 = x - x mod 4096.
Proof. intros Hx. exact (land_high x 12 Hx ltac:(lia)). Qed.

#[export] Hint Rewrite land_fff land_3ff land_ff land_7 land_ffff land_7fffffff : bits.

Lemma testbit_high x n i : 0 <= x < 2 ^ n -> 0 <= n <= i -> Z.testbit x i = false.
Proof.
  intros Hx Hn. rewrite <- (Z.mod_small x (2 ^ n)) by lia.
  apply Z.mod_pow2_bits_high. lia.
Qed.

Lemma bits_bound x n :
  0 <= n -> 0 <= x -> (forall i, n <= i -> Z.testbit x i = false) -> x < 2 ^ n.
Proof.
  intros Hn Hx Hb. assert (x = x mod 2 ^ n) as ->.
  { apply Z.bits_inj'. intros i Hi. destruct (Z.lt_ge_cases i n).
    - by rewrite Z.mod_pow2_bits_low by lia.
    - by rewrite Z.mod_pow2_bits_high, Hb by lia. }
  apply Z.mod_pos_bound. apply Z.pow_pos_nonneg; lia.
Qed.

Lemma lor_bound a b n :
  0 <= n -> 0 <= a < 2 ^ n -> 0 <= b < 2 ^ n -> 0 <= Z.lor a b < 2 ^ n.
Proof.
  intros Hn Ha Hb. assert (0 <= Z.lor a b) by (apply Z.lor_nonneg; lia).
  split; [done|]. apply bits_bound; [done..|]. intros i Hi.
  by rewrite Z.lor_spec, (testbit_high a n), (testbit_high b n) by lia.
Qed.

Lemma lor_u32 a b : is_u32 a -> is_u32 b -> is_u32 (Z.lor a b).
Proof. intros Ha Hb. by apply (lor_bound a b 32). Qed.

Lemma land_bound a b n : 0 <= n -> 0 <= a < 2 ^ n -> 0 <= Z.land a b < 2 ^ n.
Proof.
  intros Hn Ha. assert (0 <= Z.land a b) by (apply Z.land_nonneg; lia).
  split; [done|]. apply bits_bound; [done..|]. intros i Hi.
  by rewrite Z.land_spec, (testbit_high a n) by lia.
Qed.

(** A bit test written as the source writes it. *)
Lemma land_1 x : Z.land x 1 = x mod 2.
Proof. exact (Z.land_ones x 1 ltac:(lia)). Qed.

(** Disjoint low and high bits. *)
Lemma lor_low x h n : 0 <= n -> 0 <= x < 2 ^ n -> Z.lor x (h * 2 ^ n) = x + h * 2 ^ n.
Proof.
  intros Hn Hx. pose proof (Z.add_lor_land x (h * 2 ^ n)) as H.
  assert (Hz : Z.land x (h * 2 ^ n) = 0); [|lia].
  apply Z.bits_inj'. intros i Hi. rewrite Z.land_spec, Z.bits_0. destruct (Z.lt_ge_cases i n).
  - rewrite (Z.mul_pow2_bits_low h n i) by lia. by rewrite andb_false_r.
  - by rewrite (testbit_high x n) by lia.
Qed.

Lemma land_bit x i : 0 <= i -> Z.land x (Z.shiftl 1 i) = if Z.testbit x i then 2 ^ i else 0.
Proof.
  intros Hi. rewrite Z.shiftl_1_l. apply Z.bits_inj'. intros k Hk.
  rewrite Z.land_spec, Z.pow2_bits_eqb by lia.
  destruct (Z.eqb_spec i k) as [->|].
  - destruct (Z.testbit x k); simpl; [by rewrite Z.pow2_bits_true|by rewrite Z.bits_0].
  - rewrite andb_false_r. destruct (Z.testbit x i); [|by rewrite Z.bits_0].
    rewrite Z.pow2_bits_false; done.
Qed.

Lemma land_bit_nonzero x i :
  0 <= i -> negb (Z.land x (Z.shiftl 1 i) =? 0) = Z.testbit x i.
Proof.
  intros Hi. rewrite land_bit by done. destruct (Z.testbit x i); [|done].
  assert (0 < 2 ^ i) by (apply Z.pow_pos_nonneg; lia).
  destruct (Z.eqb_spec (2 ^ i) 0); [lia|done].
Qed.

(** * List lemmas *)

Lemma nthZ_Some {A} (l : list A) i a : nthZ l i = Some a -> 0 <= i < lenZ l.
Proof.
  unfold nthZ, lenZ. destruct (Z.leb_spec 0 i); [|done].
  intros H1. apply lookup_lt_Some in H1. lia.
Qed.

Lemma nthZ_is_Some {A} (l : list A) i : 0 <= i < lenZ l -> exists a, nthZ l i = Some a.
Proof.
  unfold nthZ, lenZ. intros Hi. destruct (Z.leb_spec 0 i); [|lia].
  destruct (lookup_lt_is_Some_2 l (Z.to_nat i)) as [a Ha]; [lia|eauto].
Qed.

Lemma nthZ_None {A} (l : list A) i : nthZ l i = None <-> ~ (0 <= i < lenZ l).
Proof.
  split.
  - intros H1 Hi. destruct (nthZ_is_Some l i Hi). congruence.
  - intros Hi. destruct (nthZ l i) eqn:E; [|done]. by apply nthZ_Some in E.
Qed.

Lemma lenZ_setZ {A} (l : list A) i a : lenZ (setZ l i a) = lenZ l.
Proof. unfold lenZ, setZ. case_match; [by rewrite length_insert|done]. Qed.

Lemma nthZ_setZ {A} (l : list A) i j a :
  nthZ (setZ l i a) j = if (i =? j) && (0 <=? i) && (i <? lenZ l) then Some a else nthZ l j.
Proof.
  unfold nthZ, setZ, lenZ.
  destruct (Z.leb_spec 0 i), (Z.leb_spec 0 j), (Z.eqb_spec i j),
    (Z.ltb_spec i (Z.of_nat (length l))); simpl; subst; try done; try lia.
  - apply list_lookup_insert_eq. lia.
  - by rewrite list_insert_ge by lia.
  - apply list_lookup_insert_ne. lia.
  - by rewrite list_insert_ge by lia.
Qed.

Lemma nthZ_setZ_ne {A} (l : list A) i j a : i <> j -> nthZ (setZ l i a) j = nthZ l j.
Proof. intros Hij. rewrite nthZ_setZ. by destruct (Z.eqb_spec i j). Qed.
Lemma nthZ_setZ_in {A} (l : list A) i j a :
  0 <= i < lenZ l -> nthZ (setZ l i a) j = if i =? j then Some a else nthZ l j.
Proof.
  intros Hi. rewrite nthZ_setZ. destruct (Z.leb_spec 0 i), (Z.ltb_spec i (lenZ l)); try lia.
  by rewrite !andb_true_r.
Qed.

Lemma store_Ret {A} (l : list A) i a : 0 <= i < lenZ l -> store l i a = Ret (setZ l i a).
Proof.
  intros Hi. unfold store. by destruct (Z.leb_spec 0 i), (Z.ltb_spec i (lenZ l)); try lia.
Qed.

Lemma index_Ret {A} (l : list A) i a : nthZ l i = Some a -> index l i = Ret a.
Proof. intros H. unfold index. by rewrite H. Qed.

Lemma lenZ_cons {A} (a : A) l : lenZ (a :: l) = lenZ l + 1.
Proof. unfold lenZ. cbn. lia. Qed.
Lemma lenZ_app {A} (l k : list A) : lenZ (l ++ k) = lenZ l + lenZ k.
Proof. unfold lenZ. rewrite length_app. lia. Qed.

Lemma lenZ_nonneg {A} (l : list A) : 0 <= lenZ l.
Proof. unfold lenZ. lia. Qed.
#[export] Hint Resolve lenZ_nonneg : mach.

Lemma nthZ_app_l {A} (l k : list A) i : i < lenZ l -> nthZ (l ++ k) i = nthZ l i.
Proof.
  unfold nthZ, lenZ. intros Hi. destruct (Z.leb_spec 0 i); [|done].
  apply lookup_app_l. lia.
Qed.

Lemma nthZ_snoc {A} (l : list A) a : nthZ (l ++ [a]) (lenZ l) = Some a.
Proof.
  unfold nthZ, lenZ. destruct (Z.leb_spec 0 (Z.of_nat (length l))); [|lia].
  rewrite Nat2Z.id, lookup_app_r by lia. by rewrite Nat.sub_diag.
Qed.

Lemma nthZ_app_r {A} (l k : list A) i :
  lenZ l <= i -> nthZ (l ++ k) i = nthZ k (i - lenZ l).
Proof.
  unfold nthZ, lenZ. intros Hi. destruct (Z.leb_spec 0 i), (Z.leb_spec 0 (i - Z.of_nat (length l))); try lia.
  rewrite lookup_app_r by lia. f_equal. lia.
Qed.

Lemma nthZ_replicate {A} n (a : A) i :
  0 <= i < Z.of_nat n -> nthZ (replicate n a) i = Some a.
Proof.
  intros Hi. unfold nthZ. destruct (Z.leb_spec 0 i); [|lia].
  apply lookup_replicate_2. lia.
Qed.

Lemma lenZ_replicate {A} n (a : A) : lenZ (replicate n a) = Z.of_nat n.
Proof. unfold lenZ. by rewrite length_replicate. Qed.

Lemma list_eq_nthZ {A} (l k : list A) :
  lenZ l = lenZ k -> (forall i, 0 <= i < lenZ l -> nthZ l i = nthZ k i) -> l = k.
Proof.
  intros Hlen H. apply list_eq. intros i.
  destruct (decide (Z.of_nat i < lenZ l)) as [Hi|Hi].
  - specialize (H (Z.of_nat i) ltac:(lia)). unfold nthZ in H.
    destruct (Z.leb_spec 0 (Z.of_nat i)); [|lia]. by rewrite Nat2Z.id in H.
  - unfold lenZ in *. rewrite !lookup_ge_None_2 by lia. done.
Qed.

(** * Loops *)

Lemma for_each_app {A S} (f : A -> S -> comp S) l k s :
  for_each f (l ++ k) s = (s' ← for_each f l s; for_each f k s').
Proof.
  revert s. induction l as [|a l IH]; intros s; simpl; [done|].
  unfold mbind, comp_bind in *. by destruct (f a s).
Qed.

(** Invariant rule: [I] is indexed by the elements already visited. *)
Lemma for_each_inv {A S} (I : list A -> S -> Prop) (f : A -> S -> comp S) l s :
  I [] s ->
  (forall done a todo s, l = done ++ a :: todo -> I done s ->
     exists s', f a s = Ret s' /\ I (done ++ [a]) s') ->
  exists s', for_each f l s = Ret s' /\ I l s'.
Proof.
  intros H0 Hstep.
  enough (forall done todo s, l = done ++ todo -> I done s ->
    exists s', for_each f todo s = Ret s' /\ I l s') as Hgen by exact (Hgen [] l s eq_refl H0).
  intros dn todo. revert dn. induction todo as [|a todo IH]; intros dn s1 Hl HI; simpl.
  - rewrite app_nil_r in Hl. subst. eauto.
  - destruct (Hstep dn a todo s1 Hl HI) as (s2 & Hf & HI2).
    unfold mbind, comp_bind. rewrite Hf.
    apply (IH (dn ++ [a])); [by rewrite <- app_assoc|done].
Qed.

Lemma elem_of_range_incl a b x : x ∈ range_incl a b <-> a <= x <= b.
Proof. unfold range_incl. rewrite elem_of_seqZ. lia. Qed.

(** Splitting a range at one of its elements. *)
Lemma range_incl_split a b dn x todo :
  range_incl a b = dn ++ x :: todo ->
  a <= x <= b /\ dn = seqZ a (x - a) /\ (forall y, y ∈ dn <-> a <= y < x).
Proof.
  intros H. assert (Hx : x = a + Z.of_nat (length dn)).
  { assert (range_incl a b !! length dn = Some x) as Hl.
    { rewrite H, lookup_app_r by lia. by rewrite Nat.sub_diag. }
    unfold range_incl in Hl. apply lookup_seqZ in Hl. lia. }
  assert (Hd : dn = seqZ a (x - a)).
  { assert (Hin : x ∈ range_incl a b) by (rewrite H; set_solver).
    apply elem_of_range_incl in Hin.
    apply (list_eq_same_length _ _ (length dn)); [| done |].
    - rewrite length_seqZ. lia.
    - intros i x1 y1 Hi H1 H2.
      assert (range_incl a b !! i = Some x1) as Hl by (rewrite H; by apply lookup_app_l_Some).
      unfold range_incl in Hl. apply lookup_seqZ in Hl, H2. lia. }
  assert (Hin : x ∈ range_incl a b) by (rewrite H; set_solver).
  apply elem_of_range_incl in Hin.
  split; [lia|]. split; [done|]. intros y. rewrite Hd, elem_of_seqZ. lia.
Qed.

Lemma seqZ_snoc a n : 0 <= n -> seqZ a (n + 1) = seqZ a n ++ [a + n].
Proof.
  intros Hn. replace n with (Z.of_nat (Z.to_nat n)) by lia.
  replace (Z.of_nat (Z.to_nat n) + 1) with (Z.of_nat (S (Z.to_nat n))) by lia. by rewrite seqZ_S.
Qed.

Lemma nthZ_nil {A} i : nthZ (@nil A) i = None.
Proof. unfold nthZ. by destruct (0 <=? i). Qed.
Lemma nthZ_cons {A} (x : A) l i : 0 < i -> nthZ (x :: l) i = nthZ l (i - 1).
Proof.
  intros Hi. unfold nthZ. rewrite !Zle_imp_le_bool by lia. replace (Z.to_nat i) with (S (Z.to_nat (i - 1))) by lia. done.
Qed.
Lemma fmap_seqZ_nthZ {A} (f : Z -> A) l : (forall i x, nthZ l i = Some x -> f i = x) -> f <$> seqZ 0 (lenZ l) = l.
Proof.
  induction l as [|x l IH] using rev_ind; intros Hf; [done|]. rewrite lenZ_app. change (lenZ [x]) with 1.
  rewrite seqZ_snoc, fmap_app by apply lenZ_nonneg. f_equal.
  - apply IH. intros i y Hi. apply Hf. by rewrite nthZ_app_l by apply (nthZ_Some _ _ _ Hi).
  - cbn. rewrite Z.add_0_l. f_equal. apply Hf. apply nthZ_snoc.
Qed.

Lemma bind_step {A C} (c : comp A) (f : A -> comp C) a r : c = Ret a -> f a = r -> (x ← c; f x) = r.
Proof. by intros -> <-. Qed.

(** The bytes of a string literal. *)
Definition ascii_bytes (s : String.string) : list Z :=
  (fun c => Z.of_N (Ascii.N_of_ascii c)) <$> String.list_ascii_of_string s.

Lemma nthZ_Forall {A} (P : A -> Prop) (l : list A) i x : Forall P l -> nthZ l i = Some x -> P x.
Proof. intros Hl. unfold nthZ. destruct (0 <=? i); [|done]. intros Hx. by apply (Forall_lookup_1 _ _ _ _ Hl Hx). Qed.

Lemma nthZ_fmap {A B} (f : A -> B) l i : nthZ (f <$> l) i = f <$> nthZ l i.
Proof. unfold nthZ. destruct (0 <=? i); [apply list_lookup_fmap|done]. Qed.
Lemma nthZ_fmap_seqZ {A} (f : Z -> A) a n i : 0 <= i < n -> nthZ (f <$> seqZ a n) i = Some (f (a + i)).
Proof.
  intros Hi. unfold nthZ. destruct (Z.leb_spec 0 i); [|lia]. rewrite list_lookup_fmap.
  assert (seqZ a n !! Z.to_nat i = Some (a + i)) as ->; [|done]. apply lookup_seqZ. lia.
Qed.

Lemma lenZ_fmap_seqZ {A} (f : Z -> A) a n : 0 <= n -> lenZ (f <$> seqZ a n) = n.
Proof. intros Hn. unfold lenZ. rewrite length_fmap, length_seqZ. lia. Qed.

Lemma nthZ_drop {A} n (l : list A) i : 0 <= i -> nthZ (drop n l) i = nthZ l (Z.of_nat n + i).
Proof.
  intros Hi. unfold nthZ. destruct (Z.leb_spec 0 i), (Z.leb_spec 0 (Z.of_nat n + i)); try lia.
  rewrite lookup_drop. f_equal. lia.
Qed.

Lemma lenZ_drop {A} (l : list A) n : 0 <= n <= lenZ l -> lenZ (drop (Z.to_nat n) l) = lenZ l - n.
Proof. unfold lenZ. intros Hn. rewrite length_drop. lia. Qed.

Lemma lenZ_take {A} (l : list A) n : 0 <= n <= lenZ l -> lenZ (take (Z.to_nat n) l) = n.
Proof. unfold lenZ. intros Hn. rewrite length_take. lia. Qed.

(** A loop that stores [g i] at every index [i] below [n]. *)
Lemma for_each_copy {A} (f : Z -> list A -> comp (list A)) (g : Z -> A) n buffer :
  0 <= n <= lenZ buffer ->
  (forall i b, 0 <= i < n -> lenZ b = lenZ buffer -> f i b = store b i (g i)) ->
  for_each f (seqZ 0 n) buffer = Ret ((g <$> seqZ 0 n) ++ drop (Z.to_nat n) buffer).
Proof.
  intros [Hn0 Hn]. revert Hn. pattern n. apply natlike_ind; [done| |done]. clear n Hn0.
  intros n Hn IH Hle Hf. change (Z.succ n) with (n + 1).
  assert (Hl : lenZ ((g <$> seqZ 0 n) ++ drop (Z.to_nat n) buffer) = lenZ buffer)
    by (rewrite lenZ_app, lenZ_fmap_seqZ, lenZ_drop by lia; lia).
  rewrite seqZ_snoc, for_each_app, IH by (try lia; intros; apply Hf; lia). cbn [for_each mbind comp_bind].
  rewrite Hf by lia. rewrite Z.add_0_l, store_Ret by lia. cbn [mbind comp_bind]. f_equal. apply list_eq_nthZ.
  - rewrite lenZ_setZ, Hl, fmap_app, !lenZ_app, lenZ_fmap_seqZ, lenZ_drop by lia. change (lenZ (g <$> [n])) with 1. lia.
  - rewrite lenZ_setZ, Hl. intros i Hi. rewrite nthZ_setZ_in by lia.
    assert (Hd : forall j, n < j < lenZ buffer -> nthZ (drop (Z.to_nat n) buffer) (j - n) = nthZ (drop (Z.to_nat (n + 1)) buffer) (j - (n + 1))).
    { intros j Hj. unfold nthZ. destruct (Z.leb_spec 0 (j - n)), (Z.leb_spec 0 (j - (n + 1))); try lia.
      rewrite !lookup_drop. f_equal. lia. }
    rewrite fmap_app. change (g <$> [n]) with [g n].
    destruct (Z.eqb_spec n i) as [<-|Hne].
    + rewrite <- app_assoc, nthZ_app_r by (rewrite lenZ_fmap_seqZ; lia). rewrite lenZ_fmap_seqZ by lia. by rewrite Z.sub_diag.
    + destruct (Z.lt_ge_cases i n).
      * rewrite <- app_assoc, !nthZ_app_l by (rewrite lenZ_fmap_seqZ; lia). done.
      * rewrite !nthZ_app_r by (rewrite ?lenZ_app, lenZ_fmap_seqZ by lia; change (lenZ [g n]) with 1; lia).
        rewrite lenZ_app, lenZ_fmap_seqZ by lia. change (lenZ [g n]) with 1. by rewrite Hd by lia.
Qed.
