(* ===== verification/Memory.v ===== *)
(** Byte-addressed memory, as the kernel's raw pointers see it: little-endian 32-bit loads
    and stores over a finite map of bytes, with the frame lemmas the components share. *)

From S2P Require Import Prelude.

Notation mem := (gmap Z Z).

Definition load8 (m : mem) (a : Z) : Z := u8 (default 0 (m !! u32 a)).
Definition store8 (m : mem) (a v : Z) : mem := <[u32 a := u8 v]> m.

Definition load32 (m : mem) (a : Z) : Z :=
  load8 m a + 256 * load8 m (a + 1) + 65536 * load8 m (a + 2) + 16777216 * load8 m (a + 3).
Definition store32 (m : mem) (a v : Z) : mem :=
  store8 (store8 (store8 (store8 m a v) (a + 1) (v / 256)) (a + 2) (v / 65536)) (a + 3) (v / 16777216).

Definition load16 (m : mem) (a : Z) : Z := load8 m a + 256 * load8 m (a + 1).

(** The [n] bytes from [a] on, as a slice made from a raw pointer. *)
Definition load_bytes (m : mem) (a n : Z) : list Z := (fun i => load8 m (a + i)) <$> seqZ 0 n.

Fixpoint store_bytes (m : mem) (a : Z) (l : list Z) : mem :=
  match l with [] => m | x :: l => store_bytes (store8 m a x) (a + 1) l end.

(** [a .. a + n) lies in the address space. *)
Definition in_space (a n : Z) : Prop := 0 <= a /\ a + n <= 4294967296.

(** Two address ranges do not overlap. *)
Definition apart (a n b k : Z) : Prop := a + n <= b \/ b + k <= a.

Lemma load8_range m a : is_u8 (load8 m a).
Proof. apply u8_range. Qed.

Lemma load32_range m a : is_u32 (load32 m a).
Proof.
  unfold load32. pose proof (load8_range m a). pose proof (load8_range m (a + 1)).
  pose proof (load8_range m (a + 2)). pose proof (load8_range m (a + 3)). mach_unfold. lia.
Qed.
#[export] Hint Resolve load8_range load32_range : mach.

Lemma load8_store8 m a b v :
  load8 (store8 m a v) b = if u32 a =? u32 b then u8 v else load8 m b.
Proof.
  unfold load8, store8. destruct (Z.eqb_spec (u32 a) (u32 b)) as [->|Hne].
  - rewrite lookup_insert_eq. simpl. unfold u8. rewrite Z.mod_mod; lia.
  - by rewrite lookup_insert_ne.
Qed.

Lemma load32_store32_eq m a v : is_u32 v -> load32 (store32 m a v) a = v.
Proof.
  intros Hv. unfold load32, store32. rewrite !load8_store8.
  repeat match goal with |- context [u32 ?x =? u32 ?y] =>
    first [ replace (u32 x =? u32 y) with true by (symmetry; apply Z.eqb_eq; mlia)
          | replace (u32 x =? u32 y) with false by (symmetry; apply Z.eqb_neq; mlia) ] end.
  mlia.
Qed.

(** A store leaves the bytes outside its four untouched. *)
Lemma store32_lookup_ne m a v x :
  in_space a 4 -> ~ (a <= x < a + 4) -> store32 m a v !! x = m !! x.
Proof.
  intros [H1 H2] Hx. unfold store32, store8.
  rewrite !u32_small by (mach_unfold; lia). by rewrite !lookup_insert_ne by lia.
Qed.

Lemma load8_ext m m' a : m' !! u32 a = m !! u32 a -> load8 m' a = load8 m a.
Proof. unfold load8. by intros ->. Qed.

Lemma load8_u32 m a b : u32 a = u32 b -> load8 m a = load8 m b.
Proof. unfold load8. by intros ->. Qed.

(** Memories that agree on four bytes agree on the word. *)
Lemma load32_ext m m' a :
  in_space a 4 -> (forall x, a <= x < a + 4 -> m' !! x = m !! x) -> load32 m' a = load32 m a.
Proof.
  intros [H1 H2] Hx. unfold load32.
  by rewrite !(load8_ext m m') by (rewrite u32_small by (mach_unfold; lia); apply Hx; lia).
Qed.

Lemma load32_store32_ne m a b v :
  in_space a 4 -> in_space b 4 -> apart a 4 b 4 -> load32 (store32 m a v) b = load32 m b.
Proof.
  intros Ha Hb Hab. apply load32_ext; [done|]. intros x Hx.
  apply store32_lookup_ne; [done|]. unfold apart in Hab. lia.
Qed.

Lemma store32_congr m m' a v x :
  m !! x = m' !! x -> store32 m a v !! x = store32 m' a v !! x.
Proof.
  intros H. unfold store32, store8. rewrite !lookup_insert. by repeat case_decide.
Qed.

(** A loop that writes [n] zero words from [ptr]. *)
Fixpoint zero_words (n : nat) (ptr : Z) (m : mem) : mem :=
  match n with
  | O => m
  | S n' => zero_words n' (ptr +u 4) (store32 m ptr 0)
  end.

(** It clears the aligned words of its range and no others. *)
Lemma zero_words_load n ptr m a :
  ptr mod 4 = 0 -> a mod 4 = 0 -> in_space a 4 -> in_space ptr (4 * Z.of_nat n) ->
  load32 (zero_words n ptr m) a =
  if (ptr <=? a) && (a <? ptr + 4 * Z.of_nat n) then 0 else load32 m a.
Proof.
  revert ptr m. induction n as [|n IH]; intros ptr m Hp Ha [Hsa1 Hsa2] [Hs1 Hs2]; cbn [zero_words].
  - destruct (Z.leb_spec ptr a), (Z.ltb_spec a (ptr + 4 * Z.of_nat 0)); simpl; done || lia.
  - destruct (decide (n = 0)%nat) as [->|Hn]; cbn [zero_words];
      [|rewrite u32_small by (mach_unfold; lia); rewrite IH by (unfold in_space; try lia; mlia)];
    (destruct (decide (a = ptr)) as [->|Hne];
      [rewrite ?load32_store32_eq by (mach_unfold; lia)
      |rewrite load32_store32_ne by (unfold in_space, apart in *; try lia; mlia)]);
    repeat match goal with
    | |- context [?x <=? ?y] => destruct (Z.leb_spec x y)
    | |- context [?x <? ?y] => destruct (Z.ltb_spec x y)
    end; simpl; try done; exfalso; mlia.
Qed.

Lemma store32_store32 m a x y : store32 (store32 m a x) a y = store32 m a y.
Proof.
  apply map_eq. intros b. unfold store32, store8. rewrite !lookup_insert. by repeat case_decide.
Qed.

(** The loop writes no byte outside its range. *)
Lemma zero_words_lookup_ne n ptr m x :
  in_space ptr (4 * Z.of_nat n) -> ~ (ptr <= x < ptr + 4 * Z.of_nat n) ->
  zero_words n ptr m !! x = m !! x.
Proof.
  revert ptr m. induction n as [|n IH]; intros ptr m [H1 H2] Hx; cbn [zero_words]; [done|].
  destruct (decide (n = 0)%nat) as [->|Hn]; cbn [zero_words];
    [|rewrite u32_small by (mach_unfold; lia); rewrite IH by (unfold in_space; lia)];
    apply store32_lookup_ne; unfold in_space; lia.
Qed.

Lemma load32_empty a : load32 ∅ a = 0.
Proof. unfold load32, load8. by rewrite !lookup_empty. Qed.

(** * Byte strings in memory *)

Lemma lenZ_load_bytes m a n : 0 <= n -> lenZ (load_bytes m a n) = n.
Proof. intros Hn. unfold load_bytes, lenZ. rewrite length_fmap, length_seqZ. lia. Qed.

Lemma nthZ_load_bytes m a n i : 0 <= i < n -> nthZ (load_bytes m a n) i = Some (load8 m (a + i)).
Proof.
  intros Hi. unfold load_bytes, nthZ. destruct (Z.leb_spec 0 i); [|lia].
  rewrite list_lookup_fmap, lookup_seqZ_lt by lia. cbn [fmap option_fmap option_map]. do 3 f_equal. lia.
Qed.

(** Memory holds [l] at [a]. *)
Definition bytes_at (m : mem) (a : Z) (l : list Z) : Prop := load_bytes m a (lenZ l) = l.

Lemma bytes_at_load m a l i x : bytes_at m a l -> nthZ l i = Some x -> load8 m (a + i) = x.
Proof.
  intros Hb Hi. pose proof (nthZ_Some _ _ _ Hi) as Hr. unfold bytes_at in Hb.
  rewrite <- Hb, nthZ_load_bytes in Hi by lia. by injection Hi.
Qed.

Lemma bytes_at_intro m a l : (forall i x, nthZ l i = Some x -> load8 m (a + i) = x) -> bytes_at m a l.
Proof.
  intros Hl. unfold bytes_at. apply list_eq_nthZ. 
  - apply lenZ_load_bytes, lenZ_nonneg.
  - intros i Hi. rewrite lenZ_load_bytes in Hi by apply lenZ_nonneg. rewrite nthZ_load_bytes by done.
    destruct (nthZ_is_Some l i Hi) as (x & Hx). by rewrite Hx, (Hl i x).
Qed.

Lemma bytes_at_app m a l k : bytes_at m a (l ++ k) <-> bytes_at m a l /\ bytes_at m (a + lenZ l) k.
Proof.
  split.
  - intros Hb. split; apply bytes_at_intro; intros i x Hi; pose proof (nthZ_Some _ _ _ Hi).
    + apply (bytes_at_load _ _ _ i x Hb). by rewrite nthZ_app_l by lia.
    + replace (a + lenZ l + i) with (a + (lenZ l + i)) by lia. apply (bytes_at_load _ _ _ _ x Hb).
      rewrite nthZ_app_r by lia. by replace (lenZ l + i - lenZ l) with i by lia.
  - intros [Hl Hk]. apply bytes_at_intro. intros i x Hi. pose proof (nthZ_Some _ _ _ Hi) as Hr. rewrite lenZ_app in Hr.
    destruct (Z.lt_ge_cases i (lenZ l)) as [Hlt|Hge].
    + rewrite nthZ_app_l in Hi by lia. by apply (bytes_at_load _ _ _ _ _ Hl).
    + rewrite nthZ_app_r in Hi by lia. pose proof (bytes_at_load _ _ _ _ _ Hk Hi) as Hx.
      by replace (a + lenZ l + (i - lenZ l)) with (a + i) in Hx by lia.
Qed.

Lemma bytes_at_u32 m a l : bytes_at m (u32 a) l <-> bytes_at m a l.
Proof.
  unfold bytes_at. replace (load_bytes m (u32 a) (lenZ l)) with (load_bytes m a (lenZ l)); [done|].
  unfold load_bytes. apply list_fmap_ext. intros i x _. unfold load8. do 2 f_equal.
  unfold u32. rewrite Z.add_mod_idemp_l by lia. done.
Qed.

(** A part of a byte string. *)
Lemma bytes_at_sub m a l k n :
  bytes_at m a l -> 0 <= k -> 0 <= n -> k + n <= lenZ l -> load_bytes m (a + k) n = take (Z.to_nat n) (drop (Z.to_nat k) l).
Proof.
  intros Hb Hk Hn Hl. rewrite <- (take_drop (Z.to_nat k) l) in Hb. apply bytes_at_app in Hb as [_ Hb].
  assert (Hk' : lenZ (take (Z.to_nat k) l) = k) by (unfold lenZ in *; rewrite length_take; lia).
  rewrite Hk' in Hb. rewrite <- (take_drop (Z.to_nat n) (drop (Z.to_nat k) l)) in Hb.
  apply bytes_at_app in Hb as [Hb _]. etrans; [|exact Hb]. f_equal.
  unfold lenZ in *. rewrite length_take, length_drop. lia.
Qed.

Lemma load8_store_bytes_out m a l x :
  (forall i, 0 <= i < lenZ l -> u32 (a + i) <> u32 x) -> load8 (store_bytes m a l) x = load8 m x.
Proof.
  revert m a. induction l as [|y l IH]; intros m a Hx; [done|]. cbn [store_bytes].
  assert (Hl : lenZ (y :: l) = lenZ l + 1) by (unfold lenZ; cbn; lia). pose proof (lenZ_nonneg l).
  rewrite IH by (intros i Hi; replace (a + 1 + i) with (a + (i + 1)) by lia; apply Hx; lia).
  rewrite load8_store8. specialize (Hx 0 ltac:(lia)). rewrite Z.add_0_r in Hx. by apply Z.eqb_neq in Hx as ->.
Qed.

(** What was stored is loaded, byte by byte. *)
Lemma load_store_bytes m a l :
  in_space a (lenZ l) -> load_bytes (store_bytes m a l) a (lenZ l) = u8 <$> l.
Proof.
  revert m a. induction l as [|y l IH]; intros m a [Ha Hs]; [done|].
  assert (Hl : lenZ (y :: l) = lenZ l + 1) by (unfold lenZ; cbn; lia). pose proof (lenZ_nonneg l). rewrite Hl in *.
  unfold load_bytes. rewrite seqZ_cons by lia. cbn [fmap list_fmap]. f_equal.
  - cbn [store_bytes]. rewrite load8_store_bytes_out by (intros i Hi; rewrite !u32_small by (mach_unfold; lia); lia).
    by rewrite Z.add_0_r, load8_store8, Z.eqb_refl.
  - cbn [store_bytes]. rewrite <- (IH (store8 m a y) (a + 1)) by (split; lia). unfold load_bytes.
    replace (Z.pred (lenZ l + 1)) with (lenZ l) by lia. apply list_eq_nthZ; [by rewrite !lenZ_fmap_seqZ by lia|].
    rewrite lenZ_fmap_seqZ by lia. intros i Hi. rewrite !nthZ_fmap_seqZ by lia. do 2 f_equal. lia.
Qed.

Lemma load_bytes_take m a n k : 0 <= k <= n -> load_bytes m a k = take (Z.to_nat k) (load_bytes m a n).
Proof.
  intros Hk. apply list_eq_nthZ; [rewrite lenZ_take, lenZ_load_bytes by (rewrite ?lenZ_load_bytes; lia); done|].
  rewrite lenZ_load_bytes by lia. intros i Hi. rewrite nthZ_load_bytes by lia.
  unfold nthZ. destruct (Z.leb_spec 0 i); [|lia]. rewrite lookup_take_lt by lia.
  pose proof (nthZ_load_bytes m a n i ltac:(lia)) as Hn. unfold nthZ in Hn. destruct (Z.leb_spec 0 i); [|lia]. by rewrite Hn.
Qed.

Lemma load_bytes_u8 m a n : u8 <$> load_bytes m a n = load_bytes m a n.
Proof. unfold load_bytes. rewrite <- list_fmap_compose. apply list_fmap_ext. intros i x _. cbn. apply u8_small, load8_range. Qed.

Lemma load8_store_bytes_in m a l i x :
  in_space a (lenZ l) -> nthZ l i = Some x -> load8 (store_bytes m a l) (a + i) = u8 x.
Proof.
  intros Hs Hi. pose proof (nthZ_Some _ _ _ Hi). pose proof (load_store_bytes m a l Hs) as E.
  apply (f_equal (fun l => nthZ l i)) in E. rewrite nthZ_load_bytes in E by lia. rewrite nthZ_fmap, Hi in E. by injection E.
Qed.

Lemma store_bytes_lookup_ne m a l x :
  in_space a (lenZ l) -> ~ (a <= x < a + lenZ l) -> store_bytes m a l !! x = m !! x.
Proof.
  revert m a. induction l as [|y l IH]; intros m a [Ha Hs] Hx; [done|]. pose proof (lenZ_nonneg l). rewrite lenZ_cons in *.
  cbn [store_bytes]. rewrite IH by (unfold in_space; lia). unfold store8. rewrite u32_small by (mach_unfold; lia).
  apply lookup_insert_ne. lia.
Qed.
