(* ===== verification/Address.v ===== *)
(** Physical and virtual addresses, frames and frame ranges:
    [memory/address.rs], [memory/physical/frame.rs], [memory/physical/frame_range.rs].

    [PhysicalAddress], [VirtualAddress] and [Frame] are transparent newtypes of [usize] and
    are represented by the 32-bit value they wrap. *)

From S2P Require Import Prelude Memory.

(** * Virtual addresses *)

Module VirtualAddress.

Definition get_page_directory_index (addr : Z) : Z := addr >>u 22.
Definition get_page_table_index (addr : Z) : Z := (addr >>u 12) &u 0x3ff.
Definition offset (addr delta : Z) : Z := addr +u delta.

(** The two indices and the page offset determine a 32-bit address. *)
Lemma indices_decompose addr :
  is_u32 addr ->
  addr = get_page_directory_index addr * 0x400000 + get_page_table_index addr * 0x1000
         + addr mod 4096 /\
  0 <= get_page_directory_index addr < 1024 /\ 0 <= get_page_table_index addr < 1024.
Proof.
  unfold get_page_directory_index, get_page_table_index.
  rewrite !shr_div, land_3ff by lia. change (2 ^ 22) with 4194304. change (2 ^ 12) with 4096.
  mlia.
Qed.

End VirtualAddress.

(** * Frames *)

Module Frame.

Definition new (start : Z) : Z := start &u 0xfffff000.
Definition next_frame (f : Z) : Z := f +u 0x1000.
Definition get_address (f : Z) : Z := f.
Definition containing_address (addr : Z) : Z := new (addr &u 0xfffff000).

Definition zero_memory (f : Z) (m : mem) : mem := zero_words (Z.to_nat 1024) (get_address f) m.

Definition aligned (f : Z) : Prop := is_u32 f /\ f mod 4096 = 0.

Lemma new_aligned start : is_u32 start -> aligned (new start) /\ new start <= start < new start + 4096.
Proof. intros H. unfold aligned, new. rewrite land_page by done. mlia. Qed.

Lemma new_id f : aligned f -> new f = f.
Proof. intros [H1 H2]. unfold new. rewrite land_page by done. lia. Qed.

End Frame.

(** * Frame ranges *)

Record FrameRange : Type := mkFrameRange {
  fr_start : Z;   (* first byte in the frame range *)
  fr_length : Z   (* size of the range, in bytes *)
}.

#[global] Instance FrameRange_eq_dec : EqDecision FrameRange.
Proof. solve_decision. Defined.

Module FrameRange.

Definition new (start length : Z) : FrameRange := mkFrameRange start length.
Definition get_first_frame_index (r : FrameRange) : Z := fr_start r >>u 12.
Definition get_last_frame_index (r : FrameRange) : Z := (fr_start r +u fr_length r -u 1) >>u 12.
Definition get_starting_address (r : FrameRange) : Z := fr_start r.
Definition get_ending_address (r : FrameRange) : Z := fr_start r +u fr_length r -u 1.
Definition get_first_frame (r : FrameRange) : Z := Frame.new (fr_start r).
Definition contains_address (r : FrameRange) (addr : Z) : bool :=
  (fr_start r <=? addr) && (fr_start r +u fr_length r >? addr).
Definition size_in_frames (r : FrameRange) : Z := fr_length r >>u 12.
Definition size_in_bytes (r : FrameRange) : Z := fr_length r.
Definition zero_memory (r : FrameRange) (m : mem) : mem :=
  zero_words (Z.to_nat (size_in_bytes r >>u 2)) (fr_start r) m.
Definition eq (r o : FrameRange) : bool :=
  (get_starting_address r =? get_starting_address o) && (size_in_bytes r =? size_in_bytes o).

(** A range that does not wrap around the address space. *)
Definition wf (r : FrameRange) : Prop :=
  0 <= fr_start r /\ 0 < fr_length r /\ fr_start r + fr_length r < 4294967296.

Lemma index_bounds r : wf r ->
  get_first_frame_index r = fr_start r / 4096 /\
  get_last_frame_index r = (fr_start r + fr_length r - 1) / 4096 /\
  0 <= get_first_frame_index r <= get_last_frame_index r.
Proof.
  intros (H1 & H2 & H3). unfold get_first_frame_index, get_last_frame_index.
  rewrite !shr_div by lia. change (2 ^ 12) with 4096.
  rewrite !u32_small by (mach_unfold; try rewrite Z.mod_small; lia). mlia.
Qed.

(** An address is contained exactly when its frame index lies between the first and the
    last one, for page-aligned ranges. *)
Lemma contains_address_frames r addr :
  wf r -> fr_start r mod 4096 = 0 -> fr_length r mod 4096 = 0 -> 0 <= addr ->
  contains_address r addr = true <->
  get_first_frame_index r <= addr / 4096 <= get_last_frame_index r.
Proof.
  intros Hwf Hs Hl Ha. destruct (index_bounds r Hwf) as (-> & -> & _).
  destruct Hwf as (H1 & H2 & H3). unfold contains_address.
  rewrite u32_small by (mach_unfold; lia).
  rewrite andb_true_iff, Z.leb_le, Z.gtb_lt. mlia.
Qed.

(** Page-aligned ranges built from frame indices, as [find_free_range] does. *)
Lemma new_pages s n :
  0 <= s -> 0 < n -> s + n < 1048576 ->
  let r := new (s <<u 12) (n <<u 12) in
  wf r /\ get_first_frame_index r = s /\ get_last_frame_index r = s + n - 1 /\
  size_in_frames r = n.
Proof.
  intros Hs Hn Hb. simpl.
  assert (Hsh : forall k, Z.shiftl k 12 = k * 4096) by (intros; rewrite Z.shiftl_mul_pow2; lia).
  unfold new. rewrite !Hsh, !u32_small by (mach_unfold; lia).
  assert (Hwf : wf (mkFrameRange (s * 4096) (n * 4096))) by (unfold wf; simpl; lia).
  destruct (index_bounds _ Hwf) as (-> & -> & _). unfold size_in_frames. simpl.
  rewrite shr_div by lia. change (2 ^ 12) with 4096. split; [done|]. mlia.
Qed.

End FrameRange.
