(* ===== verification/FrameBitmap.v ===== *)
(** The physical frame allocator: [memory/physical/frame_bitmap.rs] and the BIOS memory map
    entries it is initialised from ([memory/physical/bios.rs]).

    The bitmap is the byte slice [map]; frame [i] is bit [i & 7] of byte [i >> 3], set when
    the frame is in use.  [occupied] reads that bit, and the theorems describe every
    operation by its effect on [occupied]. *)

From S2P Require Import Prelude Address.

(** * Data *)

Record MapEntry : Type := mkMapEntry {
  base : Z;
  me_length : Z;
  region_type : Z;
  acpi : Z
}.

Definition REGION_TYPE_FREE : Z := 1.

Inductive BitmapError : Type := NoAvailableSpace | OutOfBounds.

Record FrameBitmap : Type := mkFrameBitmap {
  frame_count : Z;
  location : Z;      (* address of the slice *)
  map : list Z       (* its bytes *)
}.

Definition set_map (bm : FrameBitmap) (m : list Z) : FrameBitmap :=
  mkFrameBitmap (frame_count bm) (location bm) m.

(** * Operations *)

(** [1 << (frame & 7)] as a [u8]. *)
Definition frame_mask (frame : Z) : Z := u8 (Z.shiftl 1 (frame &u 7)).

(** [memory a] is the byte at address [a] when the slice is created. *)
Definition at_location (memory : Z -> Z) (start frame_count : Z) : FrameBitmap :=
  let byte_size := frame_count >>u 3 in
  let byte_size := if negb ((frame_count &u 0x7) =? 0) then byte_size +u 1 else byte_size in
  mkFrameBitmap frame_count start (memory <$> seqZ start byte_size).

(** The slice is re-created over the high alias of the same bytes. *)
Definition move_to_highmem (bm : FrameBitmap) : FrameBitmap :=
  mkFrameBitmap (frame_count bm) (location bm |u 0xc0000000) (map bm).

Definition get_location (bm : FrameBitmap) : Z := location bm.

Fixpoint reset_loop (fuel : nat) (frame : Z) (bm : FrameBitmap) : comp FrameBitmap :=
  if frame <? frame_count bm then
    match fuel with
    | O => OutOfFuel
    | S fuel' =>
        m ← store (map bm) (frame >>u 3) 0xff;
        reset_loop fuel' (frame +u 8) (set_map bm m)
    end
  else Ret bm.
Definition reset (bm : FrameBitmap) : comp FrameBitmap :=
  reset_loop (S (length (map bm))) 0 bm.

Definition size_in_frames (bm : FrameBitmap) : Z :=
  let byte_size := frame_count bm >>u 3 in
  let frames := byte_size >>u 12 in
  if (byte_size &u 0xfff) =? 0 then frames else frames +u 1.

Definition contains_frame_index (bm : FrameBitmap) (index : Z) : bool :=
  index <? frame_count bm.
Definition contains_range (bm : FrameBitmap) (range : FrameRange) : bool :=
  contains_frame_index bm (FrameRange.get_last_frame_index range).

Fixpoint is_free_loop (m : list Z) (frames : list Z) : comp bool :=
  match frames with
  | [] => Ret true
  | frame :: rest =>
      bitmap_byte ← index m (frame >>u 3);
      if negb ((bitmap_byte &u frame_mask frame) =? 0) then Ret false
      else is_free_loop m rest
  end.
Definition is_range_free (bm : FrameBitmap) (range : FrameRange) : comp bool :=
  if negb (contains_range bm range) then Ret false
  else
    let first := FrameRange.get_first_frame_index range in
    let last := FrameRange.get_last_frame_index range in
    is_free_loop (map bm) (range_incl first last).

Fixpoint find_loop (fuel : nat) (bm : FrameBitmap) (wanted frame remaining search_start : Z)
  : comp (option FrameRange) :=
  if frame <? frame_count bm then
    match fuel with
    | O => OutOfFuel
    | S fuel' =>
        byte ← index (map bm) (frame >>u 3);
        if negb ((byte &u frame_mask frame) =? 0) then
          (* occupied, start the search over *)
          find_loop fuel' bm wanted (frame +u 1) wanted (frame +u 1)
        else
          let remaining := remaining -u 1 in
          if remaining =? 0 then
            let starting_address := search_start <<u 12 in
            let length := (frame +u 1 -u search_start) <<u 12 in
            Ret (Some (FrameRange.new starting_address length))
          else find_loop fuel' bm wanted (frame +u 1) remaining search_start
    end
  else Ret None.
Definition find_free_range (bm : FrameBitmap) (wanted : Z) : comp (option FrameRange) :=
  find_loop (Z.to_nat (frame_count bm)) bm wanted 0 wanted 0.

Definition allocate_range (bm : FrameBitmap) (range : FrameRange)
  : comp (FrameBitmap * result unit BitmapError) :=
  if negb (contains_range bm range) then Ret (bm, Err OutOfBounds)
  else
    let first := FrameRange.get_first_frame_index range in
    let last := FrameRange.get_last_frame_index range in
    m ← for_each (fun frame m =>
          b ← index m (frame >>u 3);
          store m (frame >>u 3) (b |u frame_mask frame)) (range_incl first last) (map bm);
    Ret (set_map bm m, Ok tt).

Definition allocate_frames (bm : FrameBitmap) (count : Z)
  : comp (FrameBitmap * result FrameRange BitmapError) :=
  found ← find_free_range bm count;
  match found with
  | None => Ret (bm, Err NoAvailableSpace)
  | Some range =>
      '(bm', r) ← allocate_range bm range;
      match r with
      | Ok _ => Ret (bm', Ok range)
      | Err e => Ret (bm', Err e)
      end
  end.

Definition free_range (bm : FrameBitmap) (range : FrameRange)
  : comp (FrameBitmap * result unit BitmapError) :=
  if negb (contains_range bm range) then Ret (bm, Err OutOfBounds)
  else
    let first := FrameRange.get_first_frame_index range in
    let last := FrameRange.get_last_frame_index range in
    m ← for_each (fun frame m =>
          b ← index m (frame >>u 3);
          store m (frame >>u 3) (b &u not8 (frame_mask frame))) (range_incl first last) (map bm);
    Ret (set_map bm m, Ok tt).

Fixpoint initialize_loop (entries : list MapEntry) (bm : FrameBitmap)
  : comp (FrameBitmap * result unit BitmapError) :=
  match entries with
  | [] => Ret (bm, Ok tt)
  | entry :: rest =>
      if region_type entry =? REGION_TYPE_FREE then
        let range := FrameRange.new (base entry &u 0xffffffff) (me_length entry &u 0xffffffff) in
        '(bm', r) ← free_range bm range;
        match r with
        | Err e => Ret (bm', Err e)
        | Ok _ => initialize_loop rest bm'
        end
      else initialize_loop rest bm
  end.
Definition initialize_from_memory_map (bm : FrameBitmap) (entries : list MapEntry)
  : comp (FrameBitmap * result unit BitmapError) :=
  bm' ← reset bm; initialize_loop entries bm'.

Definition get_frame_count (bm : FrameBitmap) : Z := frame_count bm.

(** The inner loop of [get_free_frame_count]: the mask is a [u8] shifted left until it
    becomes zero. *)
Fixpoint count_byte (fuel : nat) (map_value mask frame free : Z) : comp (Z * Z) :=
  if negb (mask =? 0) then
    match fuel with
    | O => OutOfFuel
    | S fuel' =>
        let free := if (map_value &u mask) =? 0 then free +u 1 else free in
        count_byte fuel' map_value (u8 (Z.shiftl mask 1)) (frame +u 1) free
    end
  else Ret (frame, free).
Fixpoint count_loop (fuel : nat) (bm : FrameBitmap) (frame free : Z) : comp Z :=
  if frame <? frame_count bm then
    match fuel with
    | O => OutOfFuel
    | S fuel' =>
        map_value ← index (map bm) (frame >>u 3);
        if negb (map_value =? 0xff) then
          '(frame, free) ← count_byte 8 map_value 1 frame free;
          count_loop fuel' bm frame free
        else count_loop fuel' bm (frame +u 1) free
    end
  else Ret free.
Definition get_free_frame_count (bm : FrameBitmap) : comp Z :=
  count_loop (Z.to_nat (frame_count bm)) bm 0 0.

(** * The abstract view *)

(** Frame [i] is marked as in use. *)
Definition occupied_in (m : list Z) (i : Z) : bool :=
  match nthZ m (i / 8) with Some b => Z.testbit b (i mod 8) | None => true end.
Definition occupied (bm : FrameBitmap) (i : Z) : bool := occupied_in (map bm) i.

Definition bytes_ok (m : list Z) : Prop := forall i b, nthZ m i = Some b -> is_u8 b.

(** The bitmap covers its frames, holds bytes, and describes at most 4 GiB. *)
Definition wf (bm : FrameBitmap) : Prop :=
  0 <= frame_count bm < 1048576 /\ lenZ (map bm) = (frame_count bm + 7) / 8 /\ bytes_ok (map bm).

(** The bits of the last byte past the last frame are marked as in use. *)
Definition padded (bm : FrameBitmap) : Prop :=
  forall i, frame_count bm <= i -> occupied bm i = true.

(** The number of free frames among the first [n]. *)
Fixpoint free_below (bm : FrameBitmap) (n : nat) : Z :=
  match n with
  | O => 0
  | S n' => free_below bm n' + (if occupied bm (Z.of_nat n') then 0 else 1)
  end.

(** A run of [n] free frames from [s]. *)
Definition free_run (bm : FrameBitmap) (s n : Z) : Prop :=
  0 <= s /\ s + n <= frame_count bm /\ forall i, s <= i < s + n -> occupied bm i = false.

(** * Bit-level lemmas *)

Lemma frame_mask_pow frame : frame_mask frame = 2 ^ (frame mod 8).
Proof.
  unfold frame_mask. rewrite land_7, Z.shiftl_1_l. apply u8_small. mach_unfold.
  assert (0 <= frame mod 8 < 8) by (apply Z.mod_pos_bound; lia).
  split; [lia|]. change 256 with (2 ^ 8). apply Z.pow_lt_mono_r; lia.
Qed.

Lemma byte_test b frame : negb ((b &u frame_mask frame) =? 0) = Z.testbit b (frame mod 8).
Proof.
  rewrite frame_mask_pow. rewrite <- (Z.shiftl_1_l (frame mod 8)).
  apply land_bit_nonzero. apply Z.mod_pos_bound. lia.
Qed.

Lemma byte_set_ok b frame : is_u8 b -> is_u8 (b |u frame_mask frame).
Proof.
  intros Hb. rewrite frame_mask_pow.
  assert (Hm : 0 <= frame mod 8 < 8) by (apply Z.mod_pos_bound; lia).
  assert (2 ^ (frame mod 8) < 2 ^ 8) by (apply Z.pow_lt_mono_r; lia).
  apply (lor_bound _ _ 8); mach_unfold; lia.
Qed.

Lemma byte_clear_ok b frame : is_u8 b -> is_u8 (b &u not8 (frame_mask frame)).
Proof.
  intros Hb. by apply (land_bound _ _ 8).
Qed.

Lemma byte_set_bit b frame k :
  0 <= k -> Z.testbit (b |u frame_mask frame) k = (frame mod 8 =? k) || Z.testbit b k.
Proof.
  intros Hk. rewrite frame_mask_pow, Z.lor_spec, Z.pow2_bits_eqb
    by (apply Z.mod_pos_bound; lia). by rewrite orb_comm.
Qed.

Lemma byte_clear_bit b frame k :
  is_u8 b -> 0 <= k ->
  Z.testbit (b &u not8 (frame_mask frame)) k = negb (frame mod 8 =? k) && Z.testbit b k.
Proof.
  intros Hb Hk. rewrite frame_mask_pow. unfold not8.
  assert (Hm : 0 <= frame mod 8 < 8) by (apply Z.mod_pos_bound; lia).
  change 255 with (Z.ones 8).
  rewrite Z.sub_nocarry_ldiff.
  - rewrite Z.land_spec, Z.ldiff_spec, Z.pow2_bits_eqb by lia.
    rewrite Z.testbit_ones_nonneg by lia.
    destruct (Z.ltb_spec k 8); cbn [andb];
      [destruct (Z.testbit b k), (frame mod 8 =? k); done|].
    rewrite (testbit_high b 8 k) by (mach_unfold; lia). by rewrite !andb_false_r.
  - apply Z.bits_inj'. intros i Hi.
    rewrite Z.ldiff_spec, Z.bits_0, Z.pow2_bits_eqb, Z.testbit_ones_nonneg by lia.
    destruct (Z.eqb_spec (frame mod 8) i), (Z.ltb_spec i 8); simpl; done || lia.
Qed.

(** Rewriting one byte changes one bit of [occupied_in]. *)
Lemma occupied_set_byte m frame b b' v j :
  0 <= frame -> 0 <= j -> nthZ m (frame / 8) = Some b ->
  (forall k, 0 <= k -> Z.testbit b' k = if frame mod 8 =? k then v else Z.testbit b k) ->
  occupied_in (setZ m (frame / 8) b') j = if frame =? j then v else occupied_in m j.
Proof.
  intros Hf Hj Hb Hb'. assert (Hr := nthZ_Some _ _ _ Hb).
  unfold occupied_in. rewrite nthZ_setZ.
  destruct (Z.eqb_spec (frame / 8) (j / 8)) as [E|E]; simpl.
  - rewrite (proj2 (Z.leb_le 0 (frame / 8))) by lia.
    rewrite (proj2 (Z.ltb_lt (frame / 8) (lenZ m))) by lia. simpl.
    rewrite Hb' by (apply Z.mod_pos_bound; lia). rewrite <- E, Hb.
    destruct (Z.eqb_spec (frame mod 8) (j mod 8)), (Z.eqb_spec frame j); try done; exfalso; mlia.
  - destruct (Z.eqb_spec frame j); [congruence|done].
Qed.

Lemma bytes_ok_setZ m i b : bytes_ok m -> is_u8 b -> bytes_ok (setZ m i b).
Proof.
  intros Hm Hb k x. rewrite nthZ_setZ. destruct (_ && _ && _); [by intros [= <-]|apply Hm].
Qed.

Lemma bytes_ok_check m : forallb (fun b => (0 <=? b) && (b <? 256)) m = true -> bytes_ok m.
Proof.
  intros Hf i b Hi. unfold nthZ in Hi. destruct (0 <=? i); [|done].
  apply list_elem_of_lookup_2, list_elem_of_In in Hi. rewrite forallb_forall in Hf.
  specialize (Hf b Hi). bool_to_prop. mach_unfold. lia.
Qed.

(** Both range updates: every frame of [first..=last] gets the value [v]. *)
Lemma update_range_spec (op : Z -> Z -> Z) (v : bool) m first last :
  (forall b frame, is_u8 b -> is_u8 (op b frame)) ->
  (forall b frame k, is_u8 b -> 0 <= k ->
     Z.testbit (op b frame) k = if frame mod 8 =? k then v else Z.testbit b k) ->
  0 <= first -> last < 8 * lenZ m -> bytes_ok m ->
  exists m', for_each (fun frame m => b ← index m (frame >>u 3); store m (frame >>u 3) (op b frame))
               (range_incl first last) m = Ret m' /\   lenZ m' = lenZ m /\ bytes_ok m' /\   (forall j, 0 <= j -> occupied_in m' j =
       if (first <=? j) && (j <=? last) then v else occupied_in m j).
Proof.
  intros Hop Hbit Hf Hl Hm.
  destruct (for_each_inv (fun dn m' => lenZ m' = lenZ m /\ bytes_ok m' /\     (forall j, 0 <= j -> occupied_in m' j = if decide (j ∈ dn) then v else occupied_in m j))
    (fun frame m => b ← index m (frame >>u 3); store m (frame >>u 3) (op b frame))
    (range_incl first last) m) as (m' & Hrun & Hlen & Hok & Hocc).
  - split; [done|]. split; [done|]. intros j _. by rewrite decide_False by set_solver.
  - intros dn a todo m1 Hsplit (H1 & H2 & H3).
    destruct (range_incl_split _ _ _ _ _ Hsplit) as (Ha & Hdn & _).
    destruct (nthZ_is_Some m1 (a / 8)) as [b Hb]; [mlia|].
    rewrite shr_div by lia. change (2 ^ 3) with 8.
    exists (setZ m1 (a / 8) (op b a)). unfold index. rewrite Hb. simpl.
    unfold store. rewrite (proj2 (Z.leb_le 0 (a / 8))) by mlia.
    rewrite (proj2 (Z.ltb_lt (a / 8) (lenZ m1))) by mlia. simpl. split; [done|].
    split; [by rewrite lenZ_setZ|]. split; [eauto using bytes_ok_setZ|].
    intros j Hj. rewrite (occupied_set_byte m1 a b _ v j) by (eauto || lia).
    rewrite H3 by done.
    destruct (Z.eqb_spec a j) as [->|]; [by rewrite decide_True by set_solver|].
    destruct (decide (j ∈ dn)); [by rewrite decide_True by set_solver|].
    by rewrite decide_False by set_solver.
  - exists m'. split; [done|]. split; [done|]. split; [done|]. intros j Hj. rewrite Hocc by done.
    destruct (decide (j ∈ range_incl first last)) as [E|E]; rewrite elem_of_range_incl in E;
    destruct (Z.leb_spec first j), (Z.leb_spec j last); simpl; done || lia.
Qed.

(** * Range updates *)

Lemma wf_set_map bm m : wf bm -> lenZ m = lenZ (map bm) -> bytes_ok m -> wf (set_map bm m).
Proof. intros (H1 & H2 & H3) Hl Hm. unfold wf, set_map. simpl. rewrite Hl. done. Qed.

Lemma contains_range_spec bm r :
  FrameRange.wf r ->
  contains_range bm r = (FrameRange.get_last_frame_index r <? frame_count bm).
Proof. done. Qed.

(** [allocate_range] refuses a range past the last frame and otherwise marks exactly the
    frames it overlaps. *)
Lemma allocate_range_spec bm r :
  wf bm -> FrameRange.wf r ->
  (FrameRange.get_last_frame_index r < frame_count bm /\
   exists bm', allocate_range bm r = Ret (bm', Ok tt) /\ wf bm' /\
     frame_count bm' = frame_count bm /\
     forall j, 0 <= j -> occupied bm' j =
       ((FrameRange.get_first_frame_index r <=? j) && (j <=? FrameRange.get_last_frame_index r))
       || occupied bm j) \/
  (frame_count bm <= FrameRange.get_last_frame_index r /\
   allocate_range bm r = Ret (bm, Err OutOfBounds)).
Proof.
  intros Hwf Hr. destruct (FrameRange.index_bounds r Hr) as (_ & _ & Hi).
  unfold allocate_range, contains_range, contains_frame_index.
  destruct (Z.ltb_spec (FrameRange.get_last_frame_index r) (frame_count bm)) as [Hlt|Hge];
    cbn [negb]; [left|by right].
  split; [done|]. destruct Hwf as (H1 & H2 & H3).
  destruct (update_range_spec (fun b frame => b |u frame_mask frame) true (map bm)
    (FrameRange.get_first_frame_index r) (FrameRange.get_last_frame_index r))
    as (m' & Hrun & Hlen & Hok & Hocc); [by intros; apply byte_set_ok| |mlia..|done|].
  - intros b frame k _ Hk. rewrite byte_set_bit by done. by destruct (frame mod 8 =? k).
  - rewrite Hrun. simpl. exists (set_map bm m'). split; [done|].
    split; [by apply wf_set_map|]. split; [done|]. intros j Hj.
    unfold occupied, set_map. simpl. rewrite Hocc by done. by case_match.
Qed.

(** [free_range] refuses a range past the last frame and otherwise clears exactly the frames
    it overlaps. *)
Lemma free_range_spec bm r :
  wf bm -> FrameRange.wf r ->
  (FrameRange.get_last_frame_index r < frame_count bm /\
   exists bm', free_range bm r = Ret (bm', Ok tt) /\ wf bm' /\
     frame_count bm' = frame_count bm /\
     forall j, 0 <= j -> occupied bm' j =
       negb ((FrameRange.get_first_frame_index r <=? j) && (j <=? FrameRange.get_last_frame_index r))
       && occupied bm j) \/
  (frame_count bm <= FrameRange.get_last_frame_index r /\
   free_range bm r = Ret (bm, Err OutOfBounds)).
Proof.
  intros Hwf Hr. destruct (FrameRange.index_bounds r Hr) as (_ & _ & Hi).
  unfold free_range, contains_range, contains_frame_index.
  destruct (Z.ltb_spec (FrameRange.get_last_frame_index r) (frame_count bm)) as [Hlt|Hge];
    cbn [negb]; [left|by right].
  split; [done|]. destruct Hwf as (H1 & H2 & H3).
  destruct (update_range_spec (fun b frame => b &u not8 (frame_mask frame)) false (map bm)
    (FrameRange.get_first_frame_index r) (FrameRange.get_last_frame_index r))
    as (m' & Hrun & Hlen & Hok & Hocc); [by intros; apply byte_clear_ok| |mlia..|done|].
  - intros b frame k Hb Hk. rewrite byte_clear_bit by done. by destruct (frame mod 8 =? k).
  - rewrite Hrun. simpl. exists (set_map bm m'). split; [done|].
    split; [by apply wf_set_map|]. split; [done|]. intros j Hj.
    unfold occupied, set_map. simpl. rewrite Hocc by done. by case_match.
Qed.

(** The bits determine the bytes. *)
Lemma map_ext m m' :
  lenZ m = lenZ m' -> bytes_ok m -> bytes_ok m' ->
  (forall j, 0 <= j -> occupied_in m j = occupied_in m' j) -> m = m'.
Proof.
  intros Hlen Hm Hm' Hocc. apply list_eq_nthZ; [done|]. intros i Hi.
  destruct (nthZ_is_Some m i Hi) as [b Hb].
  destruct (nthZ_is_Some m' i) as [b' Hb']; [lia|]. rewrite Hb, Hb'. f_equal.
  apply Z.bits_inj'. intros k Hk. destruct (Z.lt_ge_cases k 8).
  - specialize (Hocc (8 * i + k) ltac:(lia)). unfold occupied_in in Hocc.
    replace ((8 * i + k) / 8) with i in Hocc by mlia.
    replace ((8 * i + k) mod 8) with k in Hocc by mlia. by rewrite Hb, Hb' in Hocc.
  - pose proof (Hm i b Hb). pose proof (Hm' i b' Hb'). mach_unfold.
    by rewrite (testbit_high b 8), (testbit_high b' 8) by lia.
Qed.

(** * Reading a bit *)

Lemma index_frame bm frame :
  wf bm -> 0 <= frame < frame_count bm ->
  exists b, index (map bm) (frame >>u 3) = Ret b /\ is_u8 b /\
    nthZ (map bm) (frame / 8) = Some b /\
    negb ((b &u frame_mask frame) =? 0) = occupied bm frame.
Proof.
  intros (H1 & H2 & H3) Hf. rewrite shr_div by lia. change (2 ^ 3) with 8.
  destruct (nthZ_is_Some (map bm) (frame / 8)) as [b Hb]; [mlia|].
  exists b. unfold index. rewrite Hb. repeat split; try (by eapply H3).
  rewrite byte_test. unfold occupied, occupied_in. by rewrite Hb.
Qed.

(** [is_range_free] decides whether every frame of the range is free. *)
Lemma is_range_free_spec bm r :
  wf bm -> FrameRange.wf r ->
  exists b, is_range_free bm r = Ret b /\
    (b = true <-> FrameRange.get_last_frame_index r < frame_count bm /\
       forall j, FrameRange.get_first_frame_index r <= j <= FrameRange.get_last_frame_index r ->
         occupied bm j = false).
Proof.
  intros Hwf Hr. destruct (FrameRange.index_bounds r Hr) as (_ & _ & Hi).
  unfold is_range_free, contains_range, contains_frame_index.
  destruct (Z.ltb_spec (FrameRange.get_last_frame_index r) (frame_count bm)) as [Hlt|Hge]; cbn [negb].
  2: { exists false. split; [done|]. split; [done|]. lia. }
  enough (forall l, (forall j, j ∈ l -> 0 <= j < frame_count bm) ->
     exists b, is_free_loop (map bm) l = Ret b /\ (b = true <-> forall j, j ∈ l -> occupied bm j = false))
    as Hgen.
  { destruct (Hgen (range_incl (FrameRange.get_first_frame_index r) (FrameRange.get_last_frame_index r)))
      as (b & Hb & Hiff).
    - intros j Hj. apply elem_of_range_incl in Hj. lia.
    - exists b. split; [done|]. rewrite Hiff. split.
      + intros H. split; [done|]. intros j Hj. apply H. by apply elem_of_range_incl.
      + intros [_ H] j Hj. apply H. by apply elem_of_range_incl. }
  induction l as [|a l IH]; intros Hl; simpl.
  - exists true. split; [done|]. split; [|done]. intros _ j Hj. set_solver.
  - destruct (index_frame bm a Hwf) as (b & -> & _ & _ & Hocc); [apply Hl; set_solver|].
    simpl. rewrite Hocc. destruct (occupied bm a) eqn:Ha.
    + exists false. split; [done|]. split; [done|]. intros H. rewrite H in Ha; [done|set_solver].
    + destruct IH as (b' & -> & Hb'); [intros; apply Hl; set_solver|]. exists b'. split; [done|].
      rewrite Hb'. set_solver.
Qed.

(** * Searching *)

Lemma find_loop_spec bm wanted :
  wf bm -> 1 <= wanted < 4294967296 ->
  forall fuel frame remaining ss,
  0 <= ss <= frame -> frame <= frame_count bm ->
  remaining = wanted - (frame - ss) -> 1 <= remaining ->
  (forall i, ss <= i < frame -> occupied bm i = false) ->
  (forall s, 0 <= s < ss -> ~ free_run bm s wanted) ->
  (Z.to_nat (frame_count bm - frame) <= fuel)%nat ->
  (exists s, find_loop fuel bm wanted frame remaining ss =
       Ret (Some (FrameRange.new (s <<u 12) (wanted <<u 12))) /\
     free_run bm s wanted /\ forall s', 0 <= s' < s -> ~ free_run bm s' wanted) \/
  (find_loop fuel bm wanted frame remaining ss = Ret None /\ forall s, ~ free_run bm s wanted).
Proof.
  intros Hwf Hw. induction fuel as [|fuel IH];
    intros frame remaining ss Hss Hfr Hrem Hrem1 Hfree Hno Hfuel; simpl;
    destruct (Z.ltb_spec frame (frame_count bm)) as [Hlt|Hge].
  - lia.
  - right. split; [done|]. intros s (Hs0 & Hs1 & Hs2).
    destruct (Z.lt_ge_cases s ss); [by apply (Hno s ltac:(lia))|lia].
  - destruct (index_frame bm frame Hwf ltac:(lia)) as (b & -> & _ & _ & Hocc). simpl. rewrite Hocc.
    assert (frame_count bm < 1048576) by (destruct Hwf; lia).
    assert (Hn1 : frame +u 1 = frame + 1) by (apply u32_small; mach_unfold; lia).
    rewrite !Hn1. destruct (occupied bm frame) eqn:Ho.
    + apply IH; try lia. intros s Hs Hrun. destruct (Z.lt_ge_cases s ss); [by apply (Hno s ltac:(lia))|].
      destruct Hrun as (_ & _ & Hrun). rewrite (Hrun frame) in Ho; [done|lia].
    + assert (Hr1 : remaining -u 1 = remaining - 1) by (apply u32_small; mach_unfold; lia).
      rewrite !Hr1. destruct (Z.eqb_spec (remaining - 1) 0) as [Hz|Hz].
      * left. exists ss. split.
        { do 3 f_equal. rewrite (u32_small (frame + 1 - ss)) by (mach_unfold; lia). do 2 f_equal. lia. }
        split; [|done]. split; [lia|]. split; [lia|]. intros i Hi.
        destruct (Z.eq_dec i frame) as [->|]; [done|apply Hfree; lia].
      * apply IH; try lia; [|done]. intros i Hi.
        destruct (Z.eq_dec i frame) as [->|]; [done|apply Hfree; lia].
  - right. split; [done|]. intros s (Hs0 & Hs1 & Hs2).
    destruct (Z.lt_ge_cases s ss); [by apply (Hno s ltac:(lia))|lia].
Qed.

Lemma find_free_range_spec bm n :
  wf bm -> 1 <= n < 4294967296 ->
  (exists s, find_free_range bm n = Ret (Some (FrameRange.new (s <<u 12) (n <<u 12))) /\
     free_run bm s n /\ forall s', 0 <= s' < s -> ~ free_run bm s' n) \/
  (find_free_range bm n = Ret None /\ forall s, ~ free_run bm s n).
Proof.
  intros Hwf Hn. apply find_loop_spec; try lia; try done. destruct Hwf; lia.
Qed.

Lemma padded_occupied_eq bm bm' :
  frame_count bm' = frame_count bm ->
  (forall j, frame_count bm <= j -> occupied bm' j = occupied bm j) ->
  padded bm -> padded bm'.
Proof. intros Hc Ho Hp j Hj. rewrite Hc in Hj. rewrite Ho by done. by apply Hp. Qed.

(** * Allocation *)

(** What [allocate_frames] promises, shared by the theorems that use it. *)
Lemma allocate_frames_cases bm n :
  wf bm -> 1 <= n < 4294967296 ->
  (exists s bm',
     allocate_frames bm n = Ret (bm', Ok (FrameRange.new (s * 4096) (n * 4096))) /\
     free_run bm s n /\ (forall s', 0 <= s' < s -> ~ free_run bm s' n) /\
     wf bm' /\ frame_count bm' = frame_count bm /\
     forall j, 0 <= j -> occupied bm' j = ((s <=? j) && (j <? s + n)) || occupied bm j) \/
  (allocate_frames bm n = Ret (bm, Err NoAvailableSpace) /\ forall s, ~ free_run bm s n).
Proof.
  intros Hwf Hn. unfold allocate_frames.
  destruct (find_free_range_spec bm n Hwf Hn) as [(s & -> & Hrun & Hleast)|[-> Hnone]];
    [left|by right]. cbn [mbind comp_bind].
  pose proof Hrun as (Hs0 & Hs1 & Hs2). destruct (proj1 Hwf) as [Hc0 Hc1].
  destruct (FrameRange.new_pages s n ltac:(lia) ltac:(lia) ltac:(lia)) as (Hr & Hfst & Hlst & _).
  assert (Hsh : forall k, 0 <= k <= frame_count bm -> k <<u 12 = k * 4096).
  { intros k Hk. rewrite Z.shiftl_mul_pow2 by lia. apply u32_small. mach_unfold. lia. }
  destruct (allocate_range_spec bm _ Hwf Hr) as [(_ & bm' & -> & Hwf' & Hcnt & Hocc)|[Hge _]]; [|lia].
  exists s, bm'. cbn [mbind comp_bind]. rewrite !Hsh by lia. split; [done|].
  split; [done|]. split; [done|]. split; [done|]. split; [done|].
  intros j Hj. rewrite Hocc by done. rewrite Hfst, Hlst. f_equal. f_equal.
  destruct (Z.leb_spec j (s + n - 1)), (Z.ltb_spec j (s + n)); done || lia.
Qed.

(** C1: [allocate_frames] is a first-fit allocator.  For a positive count it either returns
    the lowest run of that many free frames inside the bitmap and marks exactly those frames
    as used, or it leaves the bitmap alone and reports [NoAvailableSpace], and then no such
    run exists.  It never panics and its search loop ends. *)
Theorem allocate_frames_first_fit bm n :
  wf bm -> 1 <= n < 4294967296 ->
  (exists s bm',
     allocate_frames bm n = Ret (bm', Ok (FrameRange.new (s * 4096) (n * 4096))) /\
     free_run bm s n /\ (forall s', 0 <= s' < s -> ~ free_run bm s' n) /\
     wf bm' /\ frame_count bm' = frame_count bm /\
     forall j, 0 <= j -> occupied bm' j = ((s <=? j) && (j <? s + n)) || occupied bm j) \/
  (allocate_frames bm n = Ret (bm, Err NoAvailableSpace) /\ forall s, ~ free_run bm s n).
Proof. apply allocate_frames_cases. Qed.

(** C30: Freeing what [allocate_frames] returned restores the bitmap byte for byte. *)
Theorem free_undoes_allocate bm n bm' r :
  wf bm -> 1 <= n < 4294967296 ->
  allocate_frames bm n = Ret (bm', Ok r) ->
  exists bm'', free_range bm' r = Ret (bm'', Ok tt) /\ map bm'' = map bm.
Proof.
  intros Hwf Hn Hal.
  destruct (allocate_frames_cases bm n Hwf Hn)
    as [(s & bm1 & Heq & (Hs0 & Hs1 & Hs2) & _ & Hwf' & Hcnt & Hocc)|[Heq _]];
    rewrite Heq in Hal; [|done]. injection Hal as <- <-.
  destruct (proj1 Hwf) as [Hc0 Hc1].
  destruct (FrameRange.new_pages s n ltac:(lia) ltac:(lia) ltac:(lia)) as (Hr & Hfst & Hlst & _).
  rewrite !Z.shiftl_mul_pow2, !u32_small in Hr, Hfst, Hlst by (mach_unfold; lia).
  change (2 ^ 12) with 4096 in *.
  destruct (free_range_spec bm1 _ Hwf' Hr) as [(_ & bm2 & -> & Hwf2 & Hcnt2 & Hocc2)|[Hge _]]; [|lia].
  exists bm2. split; [done|].
  apply map_ext; [|apply Hwf2|apply Hwf|].
  - destruct Hwf2 as (_ & -> & _), Hwf as (_ & -> & _). f_equal. f_equal.
    congruence.
  - intros j Hj. fold (occupied bm2 j) (occupied bm j). rewrite Hocc2, Hocc by done.
    rewrite Hfst, Hlst. destruct (Z.leb_spec s j), (Z.leb_spec j (s + n - 1)), (Z.ltb_spec j (s + n));
      cbn [andb orb negb]; try done; try lia. symmetry. apply Hs2. lia.
Qed.

(** * Initialisation *)

Lemma reset_loop_spec fuel frame bm :
  wf bm -> 0 <= frame -> frame mod 8 = 0 -> frame <= frame_count bm + 7 ->
  (forall j, 0 <= j < frame -> occupied bm j = true) ->
  (Z.to_nat (lenZ (map bm) - frame / 8) <= fuel)%nat ->
  exists bm', reset_loop fuel frame bm = Ret bm' /\ wf bm' /\
    frame_count bm' = frame_count bm /\ location bm' = location bm /\
    forall j, 0 <= j -> occupied bm' j = true.
Proof.
  revert frame bm. induction fuel as [|fuel IH]; intros frame bm Hwf H0 H8 Hle Hocc Hfuel;
    pose proof Hwf as (Hc & Hl & Hb); simpl;
    destruct (Z.ltb_spec frame (frame_count bm)) as [Hlt|Hge].
  - exfalso. mlia.
  - exists bm. split; [done|]. split; [done|]. split; [done|]. split; [done|]. intros j Hj.
    destruct (Z.lt_ge_cases j frame); [apply Hocc; lia|].
    unfold occupied, occupied_in. rewrite (proj2 (nthZ_None _ _)); [done|]. mlia.
  - rewrite shr_div by lia. change (2 ^ 3) with 8. unfold store.
    rewrite (proj2 (Z.leb_le 0 (frame / 8))) by mlia.
    rewrite (proj2 (Z.ltb_lt (frame / 8) (lenZ (map bm)))) by mlia. cbn [andb mbind comp_bind].
    rewrite (u32_small (frame + 8)) by (mach_unfold; lia).
    assert (Hwf' : wf (set_map bm (setZ (map bm) (frame / 8) 255))).
    { apply wf_set_map; [done|apply lenZ_setZ|]. apply bytes_ok_setZ; [done|]. mach_unfold; lia. }
    destruct (IH (frame + 8) (set_map bm (setZ (map bm) (frame / 8) 255)) Hwf')
      as (bm' & Hrun & Hrest); cbn [set_map frame_count map]; try (rewrite ?lenZ_setZ; mlia).
    + intros j Hj. unfold occupied, occupied_in, set_map. cbn [map]. rewrite nthZ_setZ.
      destruct (Z.eqb_spec (frame / 8) (j / 8)); cbn [andb].
      * rewrite (proj2 (Z.leb_le 0 (frame / 8))) by mlia.
        rewrite (proj2 (Z.ltb_lt (frame / 8) (lenZ (map bm)))) by mlia. cbn [andb].
        change 255 with (Z.ones 8). apply Z.ones_spec_low. mlia.
      * apply Hocc. mlia.
    + exists bm'. rewrite Hrun. split; [done|]. exact Hrest.
  - exists bm. split; [done|]. split; [done|]. split; [done|]. split; [done|]. intros j Hj.
    destruct (Z.lt_ge_cases j frame); [apply Hocc; lia|].
    unfold occupied, occupied_in. rewrite (proj2 (nthZ_None _ _)); [done|]. mlia.
Qed.

Lemma reset_spec bm :
  wf bm -> exists bm', reset bm = Ret bm' /\ wf bm' /\ frame_count bm' = frame_count bm /\
    location bm' = location bm /\ forall j, 0 <= j -> occupied bm' j = true.
Proof.
  intros Hwf. apply reset_loop_spec; try done; try (destruct Hwf; lia). unfold lenZ. mlia.
Qed.

(** The frame range an entry of the memory map describes to the allocator. *)
Definition entry_range (e : MapEntry) : FrameRange :=
  FrameRange.new (base e &u 0xffffffff) (me_length e &u 0xffffffff).

(** The bytes the memory map declares usable, and the frames with at least one such byte. *)
Definition usable_byte (mm : list MapEntry) (a : Z) : Prop :=
  Exists (fun e => region_type e = REGION_TYPE_FREE /\ base e <= a < base e + me_length e) mm.
Definition partly_usable (mm : list MapEntry) (j : Z) : Prop := exists a, a / 4096 = j /\ usable_byte mm a.

(** A usable entry lies in the frames of the bitmap. *)
Definition entry_ok (count : Z) (e : MapEntry) : Prop :=
  region_type e = REGION_TYPE_FREE -> 0 <= base e /\ 0 < me_length e /\ base e + me_length e <= 4096 * count.

Lemma entry_range_spec count e : entry_ok count e -> count < 1048576 -> region_type e = REGION_TYPE_FREE ->
  FrameRange.wf (entry_range e) /\ FrameRange.get_first_frame_index (entry_range e) = base e / 4096 /\
  FrameRange.get_last_frame_index (entry_range e) = (base e + me_length e - 1) / 4096 /\
  (base e + me_length e - 1) / 4096 < count.
Proof.
  intros He Hc Hf. destruct (He Hf) as (H1 & H2 & H3).
  assert (E : forall x, 0 <= x < 4294967296 -> Z.land x 0xffffffff = x).
  { intros x Hx. change 0xffffffff with (Z.ones 32). rewrite Z.land_ones by lia. apply Z.mod_small. lia. }
  assert (Hr : entry_range e = FrameRange.new (base e) (me_length e)) by (unfold entry_range; rewrite !E by lia; done).
  rewrite Hr. assert (Hwf : FrameRange.wf (FrameRange.new (base e) (me_length e))) by (split; [|split]; cbn; lia).
  destruct (FrameRange.index_bounds _ Hwf) as (-> & -> & _). cbn. split; [done|]. split; [done|]. split; [done|mlia].
Qed.

Lemma partly_usable_cons count e mm j : entry_ok count e -> region_type e = REGION_TYPE_FREE ->
  partly_usable (e :: mm) j <-> base e / 4096 <= j <= (base e + me_length e - 1) / 4096 \/ partly_usable mm j.
Proof.
  intros He Hf. destruct (He Hf) as (H1 & H2 & H3). unfold partly_usable, usable_byte. setoid_rewrite Exists_cons. split.
  - intros (a & Ha & [(_ & Hb)|Hb]); [left; mlia|right; by exists a].
  - intros [Hj|(a & Ha & Hb)]; [|exists a; by split; [|right]].
    exists (Z.max (base e) (4096 * j)). split; [mlia|]. left. split; [done|]. mlia.
Qed.

Lemma partly_usable_skip e mm j : region_type e <> REGION_TYPE_FREE -> partly_usable (e :: mm) j <-> partly_usable mm j.
Proof.
  intros Hf. unfold partly_usable, usable_byte. setoid_rewrite Exists_cons. split; intros (a & Ha & Hb); exists a; tauto.
Qed.

Lemma initialize_loop_spec entries bm :
  wf bm -> Forall (entry_ok (frame_count bm)) entries ->
  exists bm', initialize_loop entries bm = Ret (bm', Ok tt) /\ wf bm' /\
    frame_count bm' = frame_count bm /\
    forall j, 0 <= j -> occupied bm' j = false <-> occupied bm j = false \/ partly_usable entries j.
Proof.
  revert bm. induction entries as [|e rest IH]; intros bm Hwf Hok; pose proof (proj2 (proj1 Hwf)) as Hcnt; simpl.
  - exists bm. split; [done|]. split; [done|]. split; [done|]. intros j _.
    split; [tauto|]. intros [H1|(a & _ & H1)]; [done|inversion H1].
  - apply Forall_cons in Hok as [He Hrest].
    destruct (Z.eqb_spec (region_type e) REGION_TYPE_FREE) as [Hf|Hf].
    + destruct (entry_range_spec _ e He Hcnt Hf) as (Hr & Hfirst & Hlast' & Hlast). rewrite <- Hlast' in Hlast. fold (entry_range e).
      destruct (free_range_spec bm _ Hwf Hr) as [(_ & bm1 & -> & Hwf1 & Hc1 & Ho1)|[Hge _]]; [|lia].
      cbn [mbind comp_bind]. destruct (IH bm1 Hwf1) as (bm' & -> & Hwf' & Hc' & Ho'); [by rewrite Hc1|].
      exists bm'. split; [done|]. split; [done|]. split; [congruence|]. intros j Hj.
      rewrite Ho', Ho1, (partly_usable_cons (frame_count bm) e rest j He Hf), Hfirst, Hlast' by done.
      destruct (Z.leb_spec (base e / 4096) j), (Z.leb_spec j ((base e + me_length e - 1) / 4096)); cbn [andb negb];
        intuition (try done; try lia).
    + destruct (IH bm Hwf Hrest) as (bm' & -> & Hwf' & Hc' & Ho'). exists bm'.
      split; [done|]. split; [done|]. split; [done|]. intros j Hj. rewrite Ho' by done.
      by rewrite partly_usable_skip.
Qed.

(** After [initialize_from_memory_map] over a map whose usable entries fit the bitmap, a
    frame is free exactly when some usable entry overlaps it; every other frame, and the
    padding of the last byte, is marked as used. *)
Lemma initialize_marks_usable bm entries :
  wf bm -> Forall (entry_ok (frame_count bm)) entries ->
  exists bm', initialize_from_memory_map bm entries = Ret (bm', Ok tt) /\
    wf bm' /\ padded bm' /\ frame_count bm' = frame_count bm /\
    forall j, 0 <= j -> occupied bm' j = false <-> partly_usable entries j.
Proof.
  intros Hwf Hok. unfold initialize_from_memory_map.
  destruct (reset_spec bm Hwf) as (bm1 & -> & Hwf1 & Hc1 & _ & Ho1). cbn [mbind comp_bind].
  destruct (initialize_loop_spec entries bm1 Hwf1) as (bm2 & -> & Hwf2 & Hc2 & Ho2); [by rewrite Hc1|].
  assert (Hiff : forall j, 0 <= j -> occupied bm2 j = false <-> partly_usable entries j).
  { intros j Hj. rewrite Ho2, Ho1 by done. intuition done. }
  exists bm2. split; [done|]. split; [done|]. split; [|split; [congruence|done]].
  intros j Hj. destruct (occupied bm2 j) eqn:E; [done|].
  destruct (proj1 Hwf2) as [Hpos _].
  apply Hiff in E as (a & Ha & Hu); [|lia]. apply Exists_exists in Hu as (e & Hin & Hf & Hcov).
  rewrite Forall_forall in Hok. destruct (Hok e Hin Hf) as (_ & _ & Hlast). mlia.
Qed.

(** [size_in_frames] reserves enough frames for the table it describes exactly when the
    frame count does not exceed a multiple of 32768 by one to seven frames: the byte count is
    rounded down before the frame count is rounded up. *)
Lemma size_in_frames_covers_map bm :
  wf bm ->
  lenZ (map bm) <= 4096 * size_in_frames bm <-> ~ (0 < frame_count bm mod 32768 < 8).
Proof.
  intros (Hc & Hl & _). rewrite Hl. unfold size_in_frames.
  rewrite !shr_div, land_fff by lia. change (2 ^ 3) with 8. change (2 ^ 12) with 4096.
  destruct (Z.eqb_spec ((frame_count bm / 8) mod 4096) 0);
    [|rewrite u32_small by mlia]; mlia.
Qed.

(** * Counting *)

Lemma free_below_S bm n :
  0 <= n -> free_below bm (Z.to_nat (n + 1)) =
  free_below bm (Z.to_nat n) + (if occupied bm n then 0 else 1).
Proof. intros Hn. rewrite Z2Nat.inj_add, Nat.add_comm by lia. simpl. by rewrite Z2Nat.id by lia. Qed.

Lemma free_below_range bm n : 0 <= free_below bm n <= Z.of_nat n.
Proof. induction n; simpl; [lia|]. destruct (occupied bm (Z.of_nat n)); lia. Qed.

Lemma free_below_padded bm n :
  padded bm -> 0 <= frame_count bm <= n ->
  free_below bm (Z.to_nat n) = free_below bm (Z.to_nat (frame_count bm)).
Proof.
  intros Hp Hn. replace n with (frame_count bm + Z.of_nat (Z.to_nat (n - frame_count bm))) by lia.
  induction (Z.to_nat (n - frame_count bm)) as [|d IH]; [f_equal; f_equal; lia|].
  replace (frame_count bm + Z.of_nat (S d)) with (frame_count bm + Z.of_nat d + 1) by lia.
  rewrite free_below_S, Hp by lia. lia.
Qed.

(** The mask loop counts the clear bits of one byte. *)
Lemma count_byte_spec bm f0 b n :
  f0 mod 8 = 0 -> 0 <= f0 < 1048576 -> is_u8 b -> nthZ (map bm) (f0 / 8) = Some b -> (n <= 8)%nat ->
  count_byte n b (if (n =? 0)%nat then 0 else 2 ^ (8 - Z.of_nat n)) (f0 + (8 - Z.of_nat n))
    (free_below bm (Z.to_nat (f0 + (8 - Z.of_nat n)))) =
  Ret (f0 + 8, free_below bm (Z.to_nat (f0 + 8))).
Proof.
  intros Hf0 Hr Hb Hn. induction n as [|n IH]; intros Hn8.
  - cbn [count_byte Nat.eqb Z.eqb negb]. replace (8 - Z.of_nat 0) with 8 by lia. done.
  - set (k := 8 - Z.of_nat (S n)). assert (Hk : 0 <= k < 8) by lia.
    assert (Hp : 0 < 2 ^ k) by (apply Z.pow_pos_nonneg; lia).
    cbn [count_byte Nat.eqb]. destruct (Z.eqb_spec (2 ^ k) 0); [lia|]. cbn [negb].
    pose proof (free_below_range bm (Z.to_nat (f0 + k))).
    rewrite !u32_small by (mach_unfold; lia).
    assert (Hocc : occupied bm (f0 + k) = Z.testbit b k).
    { unfold occupied, occupied_in. replace ((f0 + k) / 8) with (f0 / 8) by mlia.
      replace ((f0 + k) mod 8) with k by mlia. by rewrite Hn. }
    assert (Hmask : u8 (Z.shiftl (2 ^ k) 1) = if (n =? 0)%nat then 0 else 2 ^ (8 - Z.of_nat n)).
    { rewrite Z.shiftl_mul_pow2 by lia. rewrite <- Z.pow_add_r by lia.
      destruct (Nat.eqb_spec n 0) as [->|]; [subst k; done|].
      replace (k + 1) with (8 - Z.of_nat n) by lia. apply u8_small. mach_unfold.
      split; [lia|]. change 256 with (2 ^ 8). apply Z.pow_lt_mono_r; lia. }
    rewrite Hmask. replace (f0 + k + 1) with (f0 + (8 - Z.of_nat n)) by lia.
    rewrite <- IH by lia. f_equal.
    replace (f0 + (8 - Z.of_nat n)) with (f0 + k + 1) by lia. rewrite free_below_S by lia.
    rewrite Hocc. rewrite <- (land_bit_nonzero b k), Z.shiftl_1_l by lia.
    destruct (Z.land b (2 ^ k) =? 0); cbn [negb]; lia.
Qed.

Lemma count_loop_spec bm :
  wf bm -> padded bm -> forall fuel frame,
  0 <= frame < 1048584 ->
  (frame mod 8 = 0 \/ nthZ (map bm) (frame / 8) = Some 255) ->
  (Z.to_nat (frame_count bm - frame) <= fuel)%nat ->
  count_loop fuel bm frame (free_below bm (Z.to_nat frame)) =
  Ret (free_below bm (Z.to_nat (Z.max frame (frame_count bm)))).
Proof.
  intros Hwf Hpad. assert (Hc := proj1 Hwf).
  induction fuel as [|fuel IH]; intros frame Hr Hal Hfuel; cbn [count_loop];
    destruct (Z.ltb_spec frame (frame_count bm)) as [Hlt|Hge]; try lia;
    try (by rewrite Z.max_l by lia).
  destruct (index_frame bm frame Hwf ltac:(lia)) as (b & -> & Hb8 & Hb & _). cbn [mbind comp_bind].
  destruct (Z.eqb_spec b 255) as [->|Hne]; cbn [negb].
  - assert (Hocc : occupied bm frame = true).
    { unfold occupied, occupied_in. rewrite Hb. change 255 with (Z.ones 8).
      apply Z.ones_spec_low. mlia. }
    rewrite u32_small by (mach_unfold; lia).
    assert (Heq : free_below bm (Z.to_nat frame) = free_below bm (Z.to_nat (frame + 1)))
      by (rewrite free_below_S, Hocc by lia; lia).
    rewrite Heq, IH; try lia.
    + by rewrite !Z.max_r by lia.
    + destruct (Z.eq_dec (frame / 8) ((frame + 1) / 8)) as [E|E]; [right; by rewrite <- E|left; mlia].
  - destruct Hal as [Hal|Hal]; [|congruence].
    pose proof (count_byte_spec bm frame b 8 Hal ltac:(lia) Hb8 Hb ltac:(lia)) as Hcb.
    cbn [Nat.eqb] in Hcb. change (8 - Z.of_nat 8) with 0 in Hcb. rewrite Z.add_0_r in Hcb.
    change (2 ^ 0) with 1 in Hcb. rewrite Hcb. cbn [mbind comp_bind].
    rewrite IH by (lia || (left; mlia)). f_equal.
    destruct (Z.le_gt_cases (frame + 8) (frame_count bm)); [by rewrite !Z.max_r by lia|].
    rewrite Z.max_l, Z.max_r by lia.
    apply free_below_padded; [done|lia].
Qed.

(** On a bitmap whose padding bits are set, [get_free_frame_count] terminates and returns
    the number of free frames, although its inner loop advances by whole bytes. *)
Theorem free_frame_count_exact bm :
  wf bm -> padded bm ->
  get_free_frame_count bm = Ret (free_below bm (Z.to_nat (frame_count bm))).
Proof.
  intros Hwf Hpad. unfold get_free_frame_count. change 0 with (free_below bm (Z.to_nat 0)) at 2.
  rewrite count_loop_spec; try done; try lia.
  - f_equal. rewrite Z.max_r by (destruct Hwf; lia). done.
  - by left.
Qed.

(** * Witnesses

    Ten frames; frames 0, 2 and the six bits of padding are marked. *)
Definition demo_bitmap : FrameBitmap := mkFrameBitmap 10 0x100000 [0x05; 0xfc].

Lemma demo_bitmap_wf : wf demo_bitmap.
Proof. split; [simpl; lia|]. split; [done|]. by apply bytes_ok_check. Qed.

Lemma demo_bitmap_padded : padded demo_bitmap.
Proof.
  intros i Hi. simpl in Hi. unfold occupied, occupied_in.
  destruct (decide (i < 16)) as [H|H].
  - assert (i = 10 \/ i = 11 \/ i = 12 \/ i = 13 \/ i = 14 \/ i = 15) as E by lia.
    by destruct E as [->|[->|[->|[->|[->| ->]]]]].
  - assert (nthZ (map demo_bitmap) (i / 8) = None) as ->; [|done].
    apply nthZ_None. change (lenZ (map demo_bitmap)) with 2. mlia.
Qed.

Lemma allocate_frames_first_fit_witness :
  (exists s bm',
     allocate_frames demo_bitmap 3 = Ret (bm', Ok (FrameRange.new (s * 4096) (3 * 4096))) /\
     free_run demo_bitmap s 3 /\ (forall s', 0 <= s' < s -> ~ free_run demo_bitmap s' 3) /\
     wf bm' /\ frame_count bm' = frame_count demo_bitmap /\
     forall j, 0 <= j -> occupied bm' j = ((s <=? j) && (j <? s + 3)) || occupied demo_bitmap j) \/
  (allocate_frames demo_bitmap 3 = Ret (demo_bitmap, Err NoAvailableSpace) /\
   forall s, ~ free_run demo_bitmap s 3).
Proof. apply (allocate_frames_first_fit demo_bitmap 3 demo_bitmap_wf). lia. Defined.

Lemma free_undoes_allocate_witness :
  exists bm'', free_range (set_map demo_bitmap [0x3d; 0xfc]) (FrameRange.new (3 * 4096) (3 * 4096))
    = Ret (bm'', Ok tt) /\ map bm'' = map demo_bitmap.
Proof.
  apply (free_undoes_allocate demo_bitmap 3 _ _ demo_bitmap_wf); [lia|by vm_compute].
Defined.

Lemma free_frame_count_exact_witness :
  get_free_frame_count demo_bitmap = Ret (free_below demo_bitmap (Z.to_nat 10)).
Proof. apply (free_frame_count_exact demo_bitmap demo_bitmap_wf demo_bitmap_padded). Defined.
