(* ===== verification/Physical.v ===== *)
(** Physical memory management: [memory/physical/frame_refcount.rs] and the global
    allocator and reference counts of [memory/physical/mod.rs].

    [PhysState] holds the two [static mut] globals.  A closure run under [with_allocator] or
    [with_refcount] is a state transformer of the part it locks. *)

From S2P Require Import Prelude Address FrameBitmap.

(** * Reference counts *)

Record FrameRefcount : Type := mkFrameRefcount { references : list Z }.

Module FrameRefcount.

Definition new (frame_count : Z) : FrameRefcount :=
  mkFrameRefcount (replicate (Z.to_nat frame_count) 0).

(** The count is a [u8]: the addition wraps. *)
Definition reference_frame_at_index (r : FrameRefcount) (i : Z) : comp (FrameRefcount * Z) :=
  c ← index (references r) i;
  let new_count := u8 (c + 1) in
  refs ← store (references r) i new_count;
  Ret (mkFrameRefcount refs, new_count).
Definition reference_frame_at_address (r : FrameRefcount) (addr : Z) :=
  reference_frame_at_index r (addr / 0x1000).
Definition reference_frame (r : FrameRefcount) (frame : Z) :=
  reference_frame_at_address r (Frame.get_address frame).

Definition release_frame_at_index (r : FrameRefcount) (i : Z) : comp (FrameRefcount * Z) :=
  current_count ← index (references r) i;
  if current_count =? 0 then Ret (r, 0)
  else
    let new_count := u8 (current_count - 1) in
    refs ← store (references r) i new_count;
    Ret (mkFrameRefcount refs, new_count).
Definition release_frame_at_address (r : FrameRefcount) (addr : Z) :=
  release_frame_at_index r (addr / 0x1000).
Definition release_frame (r : FrameRefcount) (frame : Z) :=
  release_frame_at_address r (Frame.get_address frame).

Definition current_count_at_index (r : FrameRefcount) (i : Z) : comp Z :=
  index (references r) i.
Definition current_count_at_address (r : FrameRefcount) (addr : Z) : comp Z :=
  current_count_at_index r (addr / 0x1000).

(** The number of references recorded for a frame. *)
Definition count (r : FrameRefcount) (i : Z) : Z := default 0 (nthZ (references r) i).

Definition wf (r : FrameRefcount) : Prop := bytes_ok (references r).

Lemma index_count r i : 0 <= i < lenZ (references r) -> index (references r) i = Ret (count r i).
Proof. intros Hi. destruct (nthZ_is_Some _ _ Hi) as [c Hn]. unfold index, count. by rewrite Hn. Qed.

Lemma count_range r i : wf r -> is_u8 (count r i).
Proof.
  intros Hwf. unfold count. destruct (nthZ (references r) i) eqn:E; simpl; [by eapply Hwf|mach_unfold; lia].
Qed.

(** Storing a count changes that of one frame. *)
Lemma count_set r i c j :
  0 <= i < lenZ (references r) ->
  count (mkFrameRefcount (setZ (references r) i c)) j = if i =? j then c else count r j.
Proof.
  intros Hi. unfold count. simpl. rewrite nthZ_setZ_in by done. by destruct (i =? j).
Qed.

Lemma reference_spec r i :
  wf r -> 0 <= i < lenZ (references r) ->
  exists r', reference_frame_at_index r i = Ret (r', u8 (count r i + 1)) /\ wf r' /\
    lenZ (references r') = lenZ (references r) /\
    forall j, count r' j = if i =? j then u8 (count r i + 1) else count r j.
Proof.
  intros Hwf Hi. unfold reference_frame_at_index. rewrite index_count by done.
  cbn [mbind comp_bind]. rewrite store_Ret by done. eexists. split; [done|].
  split; [by apply bytes_ok_setZ; [|auto with mach]|].
  split; [apply lenZ_setZ|]. intros j. by apply count_set.
Qed.

Lemma release_spec r i :
  wf r -> 0 <= i < lenZ (references r) ->
  exists r', release_frame_at_index r i = Ret (r', Z.max 0 (count r i - 1)) /\ wf r' /\
    lenZ (references r') = lenZ (references r) /\
    forall j, count r' j = if i =? j then Z.max 0 (count r i - 1) else count r j.
Proof.
  intros Hwf Hi. pose proof (count_range r i Hwf) as Hc.
  unfold release_frame_at_index. rewrite index_count by done. cbn [mbind comp_bind].
  destruct (Z.eqb_spec (count r i) 0) as [E|E].
  - exists r. rewrite E. split; [done|]. split; [done|]. split; [done|].
    intros j. destruct (Z.eqb_spec i j) as [<-|]; [by rewrite E|done].
  - rewrite u8_small, store_Ret by (done || mach_unfold; lia). cbn [mbind comp_bind].
    rewrite Z.max_r by (mach_unfold; lia). eexists. split; [done|].
    split; [by apply bytes_ok_setZ; [|mach_unfold; lia]|].
    split; [apply lenZ_setZ|]. intros j. by apply count_set.
Qed.

End FrameRefcount.

(** * The global allocator *)

Record PhysState : Type := mkPhysState {
  ALLOCATOR : option FrameBitmap;
  REF_COUNT : option FrameRefcount
}.

Definition with_allocator {T} (st : PhysState) (f : FrameBitmap -> comp (FrameBitmap * T))
  : comp (PhysState * T) :=
  match ALLOCATOR st with
  | Some m => '(m', t) ← f m; Ret (mkPhysState (Some m') (REF_COUNT st), t)
  | None => Panic
  end.
Definition with_refcount {T} (st : PhysState) (f : FrameRefcount -> comp (FrameRefcount * T))
  : comp (PhysState * T) :=
  match REF_COUNT st with
  | Some r => '(r', t) ← f r; Ret (mkPhysState (ALLOCATOR st) (Some r'), t)
  | None => Panic
  end.

Definition memory_limit (memory_map : list MapEntry) : Z :=
  foldl (fun limit entry =>
           let fin := u32 (u64 (base entry + me_length entry)) in
           if fin >? limit then fin else limit) 0 memory_map.

Definition init_allocator (memory : Z -> Z) (loc : Z) (memory_map : list MapEntry)
  : comp PhysState :=
  if negb ((loc &u 0xfff) =? 0) then Panic
  else
    let limit := memory_limit memory_map in
    let bitmap := at_location memory loc (limit >>u 12) in
    '(bitmap, r) ← initialize_from_memory_map bitmap memory_map;
    match r with
    | Err _ => Panic
    | Ok _ =>
        let own_range := FrameRange.new loc (size_in_frames bitmap *u 0x1000) in
        '(bitmap, r) ← allocate_range bitmap own_range;
        match r with
        | Err _ => Panic
        | Ok _ => Ret (mkPhysState (Some bitmap) None)
        end
    end.

Definition move_allocator_reference_to_highmem (st : PhysState) : comp (PhysState * unit) :=
  with_allocator st (fun m => Ret (move_to_highmem m, tt)).

(** The counts are a vector on the heap: [zeroed_vec] allocates it in the state [h] of the
    heap and fills it. *)
Definition init_refcount {H} (zeroed_vec : Z -> H -> comp H) (st : PhysState) (h : H) : comp (PhysState * H) :=
  '(st, frame_count) ← with_allocator st (fun m => Ret (m, get_frame_count m));
  h ← zeroed_vec frame_count h;
  Ret (mkPhysState (ALLOCATOR st) (Some (FrameRefcount.new frame_count)), h).

Definition allocate_frames (st : PhysState) (count : Z)
  : comp (PhysState * result FrameRange BitmapError) :=
  with_allocator st (fun m => FrameBitmap.allocate_frames m count).

Definition allocate_frame (st : PhysState) : comp (PhysState * result Z BitmapError) :=
  '(st, frame) ← allocate_frames st 1;
  match frame with
  | Ok f => Ret (st, Ok (FrameRange.get_first_frame f))
  | Err e => Ret (st, Err e)
  end.

Definition allocate_range (st : PhysState) (range : FrameRange) :=
  with_allocator st (fun m => FrameBitmap.allocate_range m range).
Definition free_range (st : PhysState) (range : FrameRange) :=
  with_allocator st (fun m => FrameBitmap.free_range m range).
Definition get_frame_count (st : PhysState) : comp (PhysState * Z) :=
  with_allocator st (fun m => Ret (m, FrameBitmap.get_frame_count m)).
Definition get_free_frame_count (st : PhysState) : comp (PhysState * Z) :=
  with_allocator st (fun m => n ← FrameBitmap.get_free_frame_count m; Ret (m, n)).

(** The closure locks [REF_COUNT] and calls [allocate_frame], which locks [ALLOCATOR]. *)
Definition get_frame_for_copy_on_write (st : PhysState) (prev : Z)
  : comp (PhysState * result Z BitmapError) :=
  match REF_COUNT st with
  | None => Panic
  | Some refcount =>
      current_count ← FrameRefcount.current_count_at_address refcount prev;
      if current_count >? 1 then
        '(st1, new_frame) ← allocate_frame st;
        match new_frame with
        | Ok f =>
            '(refcount, _) ← FrameRefcount.reference_frame refcount f;
            '(refcount, _) ← FrameRefcount.release_frame_at_address refcount prev;
            Ret (mkPhysState (ALLOCATOR st1) (Some refcount), Ok f)
        | Err e => Ret (st1, Err e)
        end
      else Ret (st, Ok (Frame.new prev))
  end.

Definition reference_frame_at_address (st : PhysState) (addr : Z) : comp (PhysState * Z) :=
  with_refcount st (fun r => FrameRefcount.reference_frame_at_address r addr).

(** * Copy on write *)

(** The two tables describe the same frames, and only frames in use are referenced. *)
Record phys_inv (st : PhysState) (bm : FrameBitmap) (r : FrameRefcount) : Prop := {
  inv_alloc : ALLOCATOR st = Some bm;
  inv_refs : REF_COUNT st = Some r;
  inv_bm : FrameBitmap.wf bm;
  inv_counts : FrameRefcount.wf r;
  inv_len : lenZ (references r) = frame_count bm;
  inv_free : forall j, 0 <= j -> occupied bm j = false -> FrameRefcount.count r j = 0
}.

Lemma frame_new_index s : 0 <= s < 1048576 -> Frame.new (s * 4096) = s * 4096.
Proof. intros Hs. apply Frame.new_id. unfold Frame.aligned. split; [mach_unfold; lia|mlia]. Qed.

(** [allocate_frame] takes the lowest free frame, or reports that there is none. *)
Lemma allocate_frame_cases st bm :
  ALLOCATOR st = Some bm -> FrameBitmap.wf bm ->
  (exists s bm', allocate_frame st = Ret (mkPhysState (Some bm') (REF_COUNT st), Ok (s * 4096)) /\
     0 <= s < frame_count bm /\ occupied bm s = false /\
     (forall j, 0 <= j < s -> occupied bm j = true) /\
     FrameBitmap.wf bm' /\ frame_count bm' = frame_count bm /\
     forall j, 0 <= j -> occupied bm' j = (s =? j) || occupied bm j) \/
  (allocate_frame st = Ret (st, Err NoAvailableSpace) /\
   forall j, 0 <= j < frame_count bm -> occupied bm j = true).
Proof.
  intros Ha Hwf. unfold allocate_frame, allocate_frames, with_allocator. rewrite Ha.
  destruct (allocate_frames_cases bm 1 Hwf ltac:(lia))
    as [(s & bm' & -> & (Hs0 & Hs1 & Hs2) & Hlow & Hwf' & Hcnt & Hocc)|[-> Hno]].
  - left. exists s, bm'. cbn [mbind comp_bind]. unfold FrameRange.get_first_frame. simpl fr_start.
    pose proof (proj1 Hwf). rewrite frame_new_index by lia.
    split; [done|]. split; [lia|]. split; [apply Hs2; lia|]. split.
    + intros j Hj. destruct (occupied bm j) eqn:E; [done|]. destruct (Hlow j Hj).
      split; [lia|]. split; [lia|]. intros i Hi. by replace i with j by lia.
    + split; [done|]. split; [done|]. intros j Hj. rewrite Hocc by done. f_equal.
      destruct (Z.leb_spec s j), (Z.ltb_spec j (s + 1)), (Z.eqb_spec s j); simpl; lia || done.
  - right. cbn [mbind comp_bind]. split; [by destruct st; simpl in *; subst|].
    intros j Hj. destruct (occupied bm j) eqn:E; [done|]. destruct (Hno j).
    split; [lia|]. split; [lia|]. intros i Hi. by replace i with j by lia.
Qed.

(** C5: Writing to a shared frame: with at most one reference the frame itself is returned
    and nothing changes; with more, the lowest free frame is allocated and given one
    reference, the old one loses one, no other count or frame changes, and the tables stay
    consistent; without a free frame the error leaves everything as it was. *)
Theorem copy_on_write_moves_one_reference st bm r prev :
  phys_inv st bm r -> 0 <= prev < 4096 * frame_count bm -> occupied bm (prev / 4096) = true ->
  let p := prev / 4096 in
  (FrameRefcount.count r p <= 1 /\
   get_frame_for_copy_on_write st prev = Ret (st, Ok (Frame.new prev))) \/
  (1 < FrameRefcount.count r p /\ exists s st' bm' r',
     get_frame_for_copy_on_write st prev = Ret (st', Ok (s * 4096)) /\
     phys_inv st' bm' r' /\ occupied bm s = false /\ s <> p /\
     (forall j, 0 <= j -> occupied bm' j = (s =? j) || occupied bm j) /\
     (forall j, FrameRefcount.count r' j =
        if s =? j then 1 else if p =? j then FrameRefcount.count r p - 1
        else FrameRefcount.count r j)) \/
  (1 < FrameRefcount.count r p /\
   get_frame_for_copy_on_write st prev = Ret (st, Err NoAvailableSpace) /\
   forall j, 0 <= j < frame_count bm -> occupied bm j = true).
Proof.
  intros [Ha Hr Hbm Hrc Hlen Hfree] Hp Hocc p. pose proof (proj1 Hbm) as Hfc.
  assert (Hpi : 0 <= p < lenZ (references r)) by (unfold p; mlia).
  unfold get_frame_for_copy_on_write, FrameRefcount.current_count_at_address,
    FrameRefcount.current_count_at_index. rewrite Hr.
  change (prev / 0x1000) with p. rewrite FrameRefcount.index_count by done. cbn [mbind comp_bind].
  destruct (Z.gtb_spec (FrameRefcount.count r p) 1) as [Hgt|Hle]; [|by left].
  right. destruct (allocate_frame_cases st bm Ha Hbm)
    as [(s & bm' & -> & Hs & Hsf & _ & Hwf' & Hcnt & Hocc')|[-> Hno]]; [left|by right].
  assert (Hsp : s <> p) by (intros ->; unfold p in *; congruence).
  split; [done|]. cbn [mbind comp_bind].
  unfold FrameRefcount.reference_frame, FrameRefcount.reference_frame_at_address,
    FrameRefcount.release_frame_at_address, Frame.get_address.
  replace (s * 4096 / 0x1000) with s by mlia. change (prev / 0x1000) with p.
  destruct (FrameRefcount.reference_spec r s Hrc ltac:(lia)) as (r1 & -> & Hw1 & Hl1 & Hc1).
  cbn [mbind comp_bind].
  destruct (FrameRefcount.release_spec r1 p Hw1 ltac:(lia)) as (r2 & -> & Hw2 & Hl2 & Hc2).
  cbn [mbind comp_bind]. exists s, (mkPhysState (Some bm') (Some r2)), bm', r2.
  assert (Hc : forall j, FrameRefcount.count r2 j =
    if s =? j then 1 else if p =? j then FrameRefcount.count r p - 1 else FrameRefcount.count r j).
  { intros j. rewrite Hc2, !Hc1, (Hfree s) by (done || lia). change (u8 (0 + 1)) with 1.
    destruct (Z.eqb_spec p j), (Z.eqb_spec s j), (Z.eqb_spec s p); subst; try done.
    by rewrite Z.max_r by lia. }
  split; [done|]. split; [|by split_and!].
  split; simpl; [done..|congruence|].
  intros j Hj. rewrite Hocc' by done. intros [Hne Hf]%orb_false_iff. rewrite Hc, Hne.
  destruct (Z.eqb_spec p j) as [<-|]; [unfold p in *; congruence|by apply Hfree].
Qed.

(** * Initialisation *)

Lemma lenZ_slice (memory : Z -> Z) start n : 0 <= n -> lenZ (memory <$> seqZ start n) = n.
Proof. intros Hn. unfold lenZ. rewrite length_fmap, length_seqZ. lia. Qed.

Lemma at_location_wf memory start count :
  (forall a, is_u8 (memory a)) -> 0 <= count < 1048576 ->
  FrameBitmap.wf (at_location memory start count).
Proof.
  intros Hm Hc. unfold at_location, FrameBitmap.wf. cbn -[Z.add]. split; [done|]. split.
  - rewrite land_7, shr_div by lia. change (2 ^ 3) with 8.
    destruct (Z.eqb_spec (count mod 8) 0); simpl; rewrite lenZ_slice; mlia.
  - intros i b Hi. unfold nthZ in Hi. destruct (0 <=? i); [|done].
    apply list_lookup_fmap_Some in Hi as (a & -> & _). apply Hm.
Qed.

Lemma memory_limit_range mm : is_u32 (memory_limit mm).
Proof.
  unfold memory_limit.
  enough (forall l x, is_u32 x -> is_u32 (foldl (fun limit entry =>
           let fin := u32 (u64 (base entry + me_length entry)) in
           if fin >? limit then fin else limit) x l)) as H by (apply H; mach_unfold; lia).
  induction l as [|e l IH]; intros x Hx; simpl; [done|]. apply IH.
  destruct (_ >? _); auto with mach.
Qed.

(** A range of whole frames that starts at a page boundary. *)
Lemma aligned_range loc n :
  0 <= loc -> loc mod 4096 = 0 -> 0 < n -> loc + n * 4096 < 4294967296 ->
  let r := FrameRange.new loc (n *u 0x1000) in
  FrameRange.wf r /\ FrameRange.get_first_frame_index r = loc / 4096 /\
  FrameRange.get_last_frame_index r = loc / 4096 + n - 1.
Proof.
  intros Hl Hm Hn Hb r.
  assert (Hr : r = mkFrameRange loc (n * 4096)) by (unfold r, FrameRange.new; f_equal; mlia).
  assert (Hwf : FrameRange.wf r) by (rewrite Hr; unfold FrameRange.wf; simpl; lia).
  destruct (FrameRange.index_bounds r Hwf) as (-> & -> & _). rewrite Hr in *. simpl.
  split; [done|]. mlia.
Qed.

Lemma size_in_frames_count bm bm' :
  frame_count bm' = frame_count bm -> size_in_frames bm' = size_in_frames bm.
Proof. unfold size_in_frames. by intros ->. Qed.

Lemma init_allocator_spec memory loc mm :
  (forall a, is_u8 (memory a)) -> 0 <= loc -> loc mod 4096 = 0 ->
  let count := memory_limit mm / 4096 in
  let n := size_in_frames (at_location memory loc count) in
  Forall (entry_ok count) mm -> 0 < n -> loc / 4096 + n <= count ->
  exists bm, init_allocator memory loc mm = Ret (mkPhysState (Some bm) None) /\
    FrameBitmap.wf bm /\ padded bm /\ frame_count bm = count /\
    (forall j, 0 <= j -> occupied bm j = false <->
       partly_usable mm j /\ ~ (loc / 4096 <= j < loc / 4096 + n)) /\
    (~ (0 < count mod 32768 < 8) ->
     forall a, loc <= a < loc + lenZ (map bm) -> occupied bm (a / 4096) = true).
Proof.
  intros Hm Hloc Hal count n Hok Hn Hfit. pose proof (memory_limit_range mm) as Hlim.
  assert (Hc : 0 <= count < 1048576) by (unfold count; mlia).
  pose proof (at_location_wf memory loc count Hm Hc) as Hwf0.
  unfold init_allocator. rewrite land_fff, Hal. cbn [negb Z.eqb].
  rewrite shr_div by lia. change (memory_limit mm / 2 ^ 12) with count. cbn zeta.
  destruct (initialize_marks_usable (at_location memory loc count) mm Hwf0 Hok)
    as (b1 & -> & Hwf1 & Hpad1 & Hcnt1 & Hocc1).
  cbn [mbind comp_bind]. rewrite (size_in_frames_count _ _ Hcnt1). fold n.
  change (frame_count (at_location memory loc count)) with count in Hcnt1.
  assert (loc + n * 4096 < 4294967296) as Hb by mlia.
  destruct (aligned_range loc n Hloc Hal Hn Hb) as (Hrw & Hf & Hl).
  destruct (allocate_range_spec b1 (FrameRange.new loc (n *u 0x1000)) Hwf1 Hrw)
    as [(Hlast & b2 & -> & Hwf2 & Hcnt2 & Hocc2)|[Hbad _]]; [|rewrite Hl, Hcnt1 in Hbad; lia].
  cbn [mbind comp_bind]. exists b2. rewrite Hf, Hl in Hocc2.
  assert (Hin : forall j, ((loc / 4096 <=? j) && (j <=? loc / 4096 + n - 1)) = true <->
                  loc / 4096 <= j < loc / 4096 + n)
    by (intros j; rewrite andb_true_iff, !Z.leb_le; lia).
  split; [done|]. split; [done|]. split; [|split; [congruence|split]].
  - apply (padded_occupied_eq b1); [done| |done]. intros j Hj. rewrite Hocc2 by lia.
    rewrite (Hpad1 j Hj). by rewrite orb_true_r.
  - intros j Hj. rewrite Hocc2, orb_false_iff, (Hocc1 j Hj) by done.
    rewrite <- not_true_iff_false, Hin. tauto.
  - intros Hnb a Ha. rewrite Hocc2 by mlia. rewrite (proj2 (Hin (a / 4096))); [done|].
    apply (size_in_frames_covers_map (at_location memory loc count) Hwf0) in Hnb.
    destruct Hwf2 as (_ & Hl2 & _), Hwf0 as (_ & Hl0 & _). fold n in Hnb. 
    change (frame_count (at_location memory loc count)) with count in Hl0.
    rewrite Hl2, Hcnt2, Hcnt1, <- Hl0 in Ha. clear - Ha Hnb Hal Hloc. mlia.
Qed.

(** C29: Over a memory map whose usable entries lie below 4 GiB in the frames of the bitmap,
    the allocator starts with exactly those frames free that hold at least one usable byte, as
    the map has it, and are not reserved for its own table.  So when the usable entries are
    whole pages every byte of a free frame is usable; otherwise a frame that is usable only in
    part is free as well.  Unless the frame count is 1 to 7 above a multiple of 32768, no byte
    of the table lies in a frame that can be handed out. *)
Theorem init_allocator_reserves_table memory loc mm :
  (forall a, is_u8 (memory a)) -> 0 <= loc -> loc mod 4096 = 0 ->
  let count := memory_limit mm / 4096 in
  let n := size_in_frames (at_location memory loc count) in
  Forall (entry_ok count) mm -> 0 < n -> loc / 4096 + n <= count ->
  exists bm, init_allocator memory loc mm = Ret (mkPhysState (Some bm) None) /\
    FrameBitmap.wf bm /\ padded bm /\ frame_count bm = count /\
    (forall j, 0 <= j -> occupied bm j = false <->
       (exists a, a / 4096 = j /\ usable_byte mm a) /\ ~ (loc / 4096 <= j < loc / 4096 + n)) /\
    (Forall (fun e => region_type e = REGION_TYPE_FREE -> base e mod 4096 = 0 /\ me_length e mod 4096 = 0) mm ->
     forall a, 0 <= a -> occupied bm (a / 4096) = false -> usable_byte mm a) /\
    (~ (0 < count mod 32768 < 8) ->
     forall a, loc <= a < loc + lenZ (map bm) -> occupied bm (a / 4096) = true).
Proof.
  intros Hm Hloc Hal count n Hok Hn Hfit.
  destruct (init_allocator_spec memory loc mm Hm Hloc Hal Hok Hn Hfit) as (bm & E & H1 & H2 & H3 & H4 & H5).
  exists bm. split; [exact E|]. split; [done|]. split; [done|]. split; [done|]. split; [exact H4|]. split; [|exact H5].
  intros Hpages a Ha Hfree. apply H4 in Hfree as [(b & Hb & Hu) _]; [|mlia].
  apply Exists_exists in Hu as (e & Hin & Hf & Hr). apply Exists_exists. exists e. split; [done|]. split; [done|].
  rewrite Forall_forall in Hpages. destruct (Hpages e Hin Hf). mlia.
Qed.

(** The reference counts start at zero for every frame. *)
Lemma init_refcount_inv {H} (zeroed_vec : Z -> H -> comp H) st bm h h' :
  ALLOCATOR st = Some bm -> FrameBitmap.wf bm -> zeroed_vec (frame_count bm) h = Ret h' ->
  exists st' r, init_refcount zeroed_vec st h = Ret (st', h') /\ phys_inv st' bm r.
Proof.
  intros Ha Hwf Hv. unfold init_refcount, with_allocator. rewrite Ha. cbn [mbind comp_bind].
  change (FrameBitmap.get_frame_count bm) with (frame_count bm). rewrite Hv. cbn [mbind comp_bind].
  eexists _, _. split; [done|]. pose proof (proj1 Hwf). unfold FrameBitmap.get_frame_count.
  assert (Hz : forall i x, nthZ (replicate (Z.to_nat (frame_count bm)) 0) i = Some x -> x = 0).
  { intros i x Hi. pose proof (nthZ_Some _ _ _ Hi). rewrite lenZ_replicate in *.
    rewrite nthZ_replicate in Hi by done. congruence. }
  split; simpl; [done..| |unfold FrameRefcount.new; simpl; rewrite lenZ_replicate; lia|].
  - intros i b Hi. apply Hz in Hi as ->. mach_unfold. lia.
  - intros j Hj _. unfold FrameRefcount.count. simpl. destruct (nthZ _ j) eqn:E; [|done].
    by apply Hz in E as ->.
Qed.

(** * Witnesses *)

Definition demo_refs : FrameRefcount := mkFrameRefcount [1; 0; 2; 0; 0; 0; 0; 0; 0; 0].
Definition demo_phys : PhysState := mkPhysState (Some demo_bitmap) (Some demo_refs).

Lemma demo_phys_inv : phys_inv demo_phys demo_bitmap demo_refs.
Proof.
  split; [done|done|apply demo_bitmap_wf|by apply bytes_ok_check|done|].
  intros j Hj. destruct (decide (j = 0)) as [->|]; [done|]. destruct (decide (j = 2)) as [->|]; [done|].
  intros _. unfold FrameRefcount.count. destruct (decide (j < 10)) as [Hlt|Hge].
  - assert (j = 1 \/ j = 3 \/ j = 4 \/ j = 5 \/ j = 6 \/ j = 7 \/ j = 8 \/ j = 9) as E by lia.
    by destruct E as [->|[->|[->|[->|[->|[->|[->| ->]]]]]]].
  - rewrite (proj2 (nthZ_None _ j)); [done|]. change (lenZ (references demo_refs)) with 10. lia.
Qed.

Lemma copy_on_write_moves_one_reference_witness :
  let p := 0x2004 / 4096 in
  (FrameRefcount.count demo_refs p <= 1 /\
   get_frame_for_copy_on_write demo_phys 0x2004 = Ret (demo_phys, Ok (Frame.new 0x2004))) \/
  (1 < FrameRefcount.count demo_refs p /\ exists s st' bm' r',
     get_frame_for_copy_on_write demo_phys 0x2004 = Ret (st', Ok (s * 4096)) /\
     phys_inv st' bm' r' /\ occupied demo_bitmap s = false /\ s <> p /\
     (forall j, 0 <= j -> occupied bm' j = (s =? j) || occupied demo_bitmap j) /\
     (forall j, FrameRefcount.count r' j =
        if s =? j then 1 else if p =? j then FrameRefcount.count demo_refs p - 1
        else FrameRefcount.count demo_refs j)) \/
  (1 < FrameRefcount.count demo_refs p /\
   get_frame_for_copy_on_write demo_phys 0x2004 = Ret (demo_phys, Err NoAvailableSpace) /\
   forall j, 0 <= j < frame_count demo_bitmap -> occupied demo_bitmap j = true).
Proof.
  apply (copy_on_write_moves_one_reference demo_phys demo_bitmap demo_refs 0x2004);
    [apply demo_phys_inv|simpl; lia|done].
Defined.

(** 640 KiB with a reserved hole, and the frames from 1 MiB on. *)
Definition demo_map : list MapEntry := [mkMapEntry 0 0xa0000 1 0; mkMapEntry 0xa0000 0x60000 2 0; mkMapEntry 0x100000 0x20000 1 0].

Lemma init_allocator_reserves_table_witness :
  exists bm, init_allocator (fun _ => 0) 0x1000 demo_map = Ret (mkPhysState (Some bm) None) /\
    FrameBitmap.wf bm /\ padded bm /\ frame_count bm = 288 /\
    (forall j, 0 <= j -> occupied bm j = false <->
       (exists a, a / 4096 = j /\ usable_byte demo_map a) /\ ~ (0x1000 / 4096 <= j < 0x1000 / 4096 + 1)) /\
    (Forall (fun e => region_type e = REGION_TYPE_FREE -> base e mod 4096 = 0 /\ me_length e mod 4096 = 0) demo_map ->
     forall a, 0 <= a -> occupied bm (a / 4096) = false -> usable_byte demo_map a) /\
    (~ (0 < 288 mod 32768 < 8) ->
     forall a, 0x1000 <= a < 0x1000 + lenZ (map bm) -> occupied bm (a / 4096) = true).
Proof.
  apply (init_allocator_reserves_table (fun _ => 0) 0x1000 demo_map);
    [by intros; mach_unfold; lia|lia|done| |done|by vm_compute].
  repeat constructor; cbn; try lia; done.
Defined.
