(* ===== verification/ListAllocator.v ===== *)
(** The kernel heap: [memory/heap/list_allocator.rs] and the global allocator of
    [memory/heap/mod.rs].

    Nodes live in the heap itself: the definitions read and write the words of a node in the
    byte memory, as the source does through raw pointers.  The abstract view is the list of
    free nodes (address and size) linked from [first_free] and the list of allocated nodes;
    the theorems give the new lists of every operation and the bytes it may write. *)

From S2P Require Import Prelude Memory.

(** * Nodes *)

Definition MAGIC : Z := 0xA110CA7E.
Definition HEADER_SIZE : Z := 8.

Module AllocNode.

Definition magic (m : mem) (n : Z) : Z := load32 m n.
Definition size (m : mem) (n : Z) : Z := load32 m (n + 4).
Definition next (m : mem) (n : Z) : Z := load32 m (n + 8).
Definition set_word_magic (m : mem) (n v : Z) : mem := store32 m n v.
Definition set_word_size (m : mem) (n v : Z) : mem := store32 m (n + 4) v.
Definition set_word_next (m : mem) (n v : Z) : mem := store32 m (n + 8) v.

Definition init (m : mem) (n sz : Z) : mem :=
  let m := set_word_magic m n MAGIC in
  let m := set_word_size m n (sz &u 0x7fffffff) in
  set_word_next m n 0.
Definition is_valid (m : mem) (n : Z) : bool := magic m n =? MAGIC.
Definition get_size (m : mem) (n : Z) : Z := size m n &u 0x7fffffff.
Definition is_free (m : mem) (n : Z) : bool := (size m n &u 0x80000000) =? 0.
Definition get_next (m : mem) (n : Z) : Z := next m n.
Definition mark_occupied (m : mem) (n : Z) : mem := set_word_size m n (size m n |u 0x80000000).
Definition mark_free (m : mem) (n : Z) : mem := set_word_size m n (size m n &u 0x7fffffff).
Definition set_next (m : mem) (n addr : Z) : mem := set_word_next m n addr.
Definition set_size (m : mem) (n sz : Z) : mem :=
  set_word_size m n ((size m n &u 0x80000000) |u (sz &u 0x7fffffff)).

End AllocNode.

Definition get_aligned_start (node alignment : Z) : Z :=
  let start := node +u 12 in
  let low_alignment_bits := alignment -u 1 in
  (start +u low_alignment_bits) &u not32 low_alignment_bits.

Definition mark_padded (m : mem) (node padding : Z) : comp mem :=
  if padding <? 4 then Panic
  else
    let start := node +u 8 in
    let padding_offset := start +u padding -u 4 in
    Ret (store32 m padding_offset padding).

Definition find_node_from_allocated_pointer (m : mem) (ptr : Z) : Z :=
  let padding_addr := ptr -u 4 in
  let padding := load32 m padding_addr in
  ptr -u padding -u 8.

(** * The allocator *)

Record ListAllocator : Type := mkListAllocator {
  start : Z;
  la_size : Z;
  first_free : Z
}.

Record Layout : Type := mkLayout { layout_size : Z; layout_align : Z }.

Definition set_first_free (al : ListAllocator) (a : Z) : ListAllocator :=
  mkListAllocator (start al) (la_size al) a.

Definition empty : ListAllocator := mkListAllocator 0 0 0.

Definition new (m : mem) (start_addr size : Z) : mem * ListAllocator :=
  (AllocNode.init m start_addr size, mkListAllocator start_addr size start_addr).

(** The address of the last free node; the null pointer when the list is empty. *)
Fixpoint last_free_loop (fuel : nat) (m : mem) (first iter_addr : Z) : comp Z :=
  if negb (iter_addr =? 0) then
    match fuel with
    | O => OutOfFuel
    | S fuel' =>
        let next := AllocNode.get_next m iter_addr in
        if next =? 0 then Ret iter_addr
        else last_free_loop fuel' m first (AllocNode.get_next m iter_addr)
    end
  else Ret first.
Definition get_last_free_node (fuel : nat) (m : mem) (al : ListAllocator) : comp Z :=
  last_free_loop fuel m (first_free al) (first_free al).

Fixpoint merge_loop (fuel : nat) (m : mem) (iter_addr : Z) : comp mem :=
  if negb (iter_addr =? 0) then
    match fuel with
    | O => OutOfFuel
    | S fuel' =>
        let next_byte := iter_addr +u AllocNode.get_size m iter_addr in
        let next_addr := AllocNode.get_next m iter_addr in
        if next_byte =? next_addr then
          let m := AllocNode.set_size m iter_addr
                     (AllocNode.get_size m iter_addr +u AllocNode.get_size m next_addr) in
          let m := AllocNode.set_next m iter_addr (AllocNode.get_next m next_addr) in
          merge_loop fuel' m iter_addr
        else merge_loop fuel' m next_addr
    end
  else Ret m.
Definition merge_free_areas (fuel : nat) (m : mem) (al : ListAllocator) : comp mem :=
  merge_loop fuel m (first_free al).

Definition expand_size (fuel : nat) (m : mem) (al : ListAllocator) (size : Z)
  : comp (mem * ListAllocator) :=
  if size <? la_size al then Panic
  else
    let new_free_space_addr := start al +u la_size al in
    let m := AllocNode.init m new_free_space_addr (size -u la_size al) in
    last ← get_last_free_node fuel m al;
    let m := AllocNode.set_next m last new_free_space_addr in
    let al := mkListAllocator (start al) size (first_free al) in
    m ← merge_free_areas fuel m al;
    Ret (m, al).

(** The body of the search loop once [current] is large enough. *)
Definition take_node (m : mem) (al : ListAllocator) (layout : Layout) (prev current : Z)
  : comp (mem * ListAllocator * Z) :=
  let next := AllocNode.next m current in
  let aligned_start := get_aligned_start current (layout_align layout) in
  let aligned_end := aligned_start +u layout_size layout in
  let remainder := current +u AllocNode.get_size m current -u aligned_end in
  let m := AllocNode.mark_occupied m current in
  let padding := aligned_start -u current -u 8 in
  m ← mark_padded m current padding;
  if remainder >? 16 then
    let trailing_start := (aligned_end +u 3) &u not32 3 in
    let new_size := current +u AllocNode.get_size m current -u trailing_start in
    let m := AllocNode.init m trailing_start new_size in
    let m := AllocNode.set_word_next m trailing_start next in
    let '(m, al) :=
      if negb (prev =? 0) then (AllocNode.set_word_next m prev trailing_start, al)
      else (m, set_first_free al trailing_start) in
    let m := AllocNode.set_size m current (trailing_start -u current) in
    Ret (m, al, aligned_start)
  else Ret (m, set_first_free al next, aligned_start).

Fixpoint alloc_loop (fuel : nat) (m : mem) (al : ListAllocator) (layout : Layout)
    (prev current : Z) : comp (mem * ListAllocator * Z) :=
  if negb (current =? 0) then
    match fuel with
    | O => OutOfFuel
    | S fuel' =>
        let next := AllocNode.next m current in
        let aligned_start := get_aligned_start current (layout_align layout) in
        let aligned_end := aligned_start +u layout_size layout in
        if current +u AllocNode.get_size m current >=? aligned_end then
          take_node m al layout prev current
        else alloc_loop fuel' m al layout current next
    end
  else Ret (m, al, 0).
Definition alloc (fuel : nat) (m : mem) (al : ListAllocator) (layout : Layout) :=
  alloc_loop fuel m al layout 0 (first_free al).

Fixpoint insert_loop (fuel : nat) (m : mem) (node_addr iter_addr : Z) : comp mem :=
  if negb (iter_addr =? 0) then
    match fuel with
    | O => OutOfFuel
    | S fuel' =>
        let next_addr := AllocNode.get_next m iter_addr in
        if (iter_addr <? node_addr) && ((node_addr <? next_addr) || (next_addr =? 0)) then
          let m := AllocNode.set_next m iter_addr node_addr in
          let m := AllocNode.set_next m node_addr next_addr in
          insert_loop fuel' m node_addr 0
        else insert_loop fuel' m node_addr next_addr
    end
  else Ret m.

(** Adding a node back into the free list. *)
Definition link_free (fuel : nat) (m : mem) (al : ListAllocator) (node : Z)
  : comp (mem * ListAllocator) :=
  if node <? first_free al then
    let m := AllocNode.set_next m node (first_free al) in
    Ret (m, set_first_free al node)
  else
    m ← insert_loop fuel m node (first_free al);
    Ret (m, al).

Definition dealloc (fuel : nat) (m : mem) (al : ListAllocator) (ptr : Z)
  : comp (mem * ListAllocator) :=
  if (ptr <? start al) || (ptr >? start al +u la_size al) then Panic
  else
    let node := find_node_from_allocated_pointer m ptr in
    if negb (AllocNode.is_valid m node) then Panic
    else if AllocNode.is_free m node then Panic
    else
      let m := AllocNode.mark_free m node in
      '(m, al) ← link_free fuel m al node;
      m ← merge_free_areas fuel m al;
      Ret (m, al).

(** * The global allocator

    [expand_kernel_heap] is the operation of [process/memory.rs]; [S] is the state it acts on. *)

Section Global.
Context {S : Type} (expand_kernel_heap : Z -> S -> comp (S * Z)).

Definition global_alloc (fuel : nat) (m : mem) (al : ListAllocator) (s : S) (layout : Layout)
  : comp (mem * ListAllocator * S * Z) :=
  '(m, al, ptr) ← alloc fuel m al layout;
  if ptr =? 0 then
    let space_needed := layout_size layout in
    '(s, new_size) ← expand_kernel_heap space_needed s;
    '(m, al) ← expand_size fuel m al new_size;
    '(m, al, ptr) ← alloc fuel m al layout;
    Ret (m, al, s, ptr)
  else Ret (m, al, s, ptr).

End Global.

Definition global_dealloc := dealloc.
Definition init_allocator (m : mem) (location size : Z) : mem * ListAllocator := new m location size.

(** * The abstract heap *)

(** [fits] and [align_up] are the arithmetic of the search, free of wrap-around. *)
Definition align_up (x align : Z) : Z := (x + align - 1) / align * align.
Definition fits (layout : Layout) (b : Z * Z) : bool :=
  align_up (b.1 + 12) (layout_align layout) + layout_size layout <=? b.1 + b.2.

(** Nodes in address order that do not overlap, from [lo] to [hi]. *)
Fixpoint ordered (lo : Z) (l : list (Z * Z)) (hi : Z) : Prop :=
  match l with
  | [] => lo <= hi
  | (a, s) :: l' => lo <= a /\ a mod 4 = 0 /\ s mod 4 = 0 /\ 12 <= s /\ ordered (a + s) l' hi
  end.

(** The nodes of [l] are linked in memory from [p] to [q]. *)
Fixpoint lseg (m : mem) (p : Z) (l : list (Z * Z)) (q : Z) : Prop :=
  match l with
  | [] => p = q
  | (a, s) :: l' =>
      p = a /\ load32 m a = MAGIC /\ load32 m (a + 4) = s /\ lseg m (load32 m (a + 8)) l' q
  end.

Fixpoint in_blocks (l : list (Z * Z)) (x : Z) : Prop :=
  match l with
  | [] => False
  | (a, s) :: l' => a <= x < a + s \/ in_blocks l' x
  end.

(** An allocated node: its address, its size and its padding. *)
Record used_block : Type := mkUsed { ub_addr : Z; ub_size : Z; ub_pad : Z }.
Definition data (u : used_block) : Z := ub_addr u + 8 + ub_pad u.
Definition in_used (u : used_block) (x : Z) : Prop := ub_addr u <= x < ub_addr u + ub_size u.
Definition used_ok (m : mem) (lo hi : Z) (u : used_block) : Prop :=
  lo <= ub_addr u /\ ub_addr u + ub_size u <= hi /\ ub_addr u mod 4 = 0 /\
  ub_size u mod 4 = 0 /\ 12 <= ub_size u /\ 4 <= ub_pad u /\ 8 + ub_pad u <= ub_size u /\
  load32 m (ub_addr u) = MAGIC /\ load32 m (ub_addr u + 4) = ub_size u + 2147483648 /\
  load32 m (data u - 4) = ub_pad u.

(** The heap lies in the address space and is smaller than 2 GiB, which leaves the top bit of
    a size free for the in-use mark. *)
Definition bounds (al : ListAllocator) : Prop :=
  0 < start al /\ 0 <= la_size al < 2147483648 /\ start al + la_size al < 4294967296.

Record heap_inv (m : mem) (al : ListAllocator) (fl : list (Z * Z)) (used : list used_block)
  : Prop := {
  hi_bounds : bounds al;
  hi_ordered : ordered (start al) fl (start al + la_size al);
  hi_linked : lseg m (first_free al) fl 0;
  hi_used : Forall (used_ok m (start al) (start al + la_size al)) used;
  hi_sep : Forall (fun u => forall x, in_used u x -> ~ in_blocks fl x) used;
  hi_apart : ForallOrdPairs (fun u v => forall x, in_used u x -> ~ in_used v x) used
}.

(** A valid [Layout] that does not wrap around the address space from this heap. *)
Definition layout_ok (al : ListAllocator) (layout : Layout) : Prop :=
  (exists k, 0 <= k <= 31 /\ layout_align layout = 2 ^ k) /\ 0 <= layout_size layout /\
  start al + la_size al + 12 + layout_align layout + layout_size layout < 4294967296.

(** * Word arithmetic *)

Lemma lor_top s : 0 <= s < 2147483648 -> Z.lor s 0x80000000 = s + 2147483648.
Proof.
  intros Hs. pose proof (Z.add_lor_land s 0x80000000) as H.
  assert (Z.land s 0x80000000 = 0) as E; [|lia].
  change 0x80000000 with (Z.shiftl 1 31). rewrite land_bit by lia.
  by rewrite (testbit_high s 31) by lia.
Qed.

Lemma land_top s : 0 <= s < 2147483648 -> Z.land s 0x80000000 = 0.
Proof.
  intros Hs. change 0x80000000 with (Z.shiftl 1 31). rewrite land_bit by lia.
  by rewrite (testbit_high s 31) by lia.
Qed.

Lemma land_top_used s :
  0 <= s < 2147483648 -> Z.land (s + 2147483648) 0x80000000 = 2147483648.
Proof.
  intros Hs. pose proof (land_bit (s + 2147483648) 31 ltac:(lia)) as H.
  change (Z.shiftl 1 31) with 0x80000000 in H. rewrite H, Z.testbit_eqb by lia.
  change (2 ^ 31) with 2147483648. by replace ((s + 2147483648) / 2147483648) with 1 by mlia.
Qed.

Lemma align_up_spec x k :
  0 <= k -> x <= align_up x (2 ^ k) < x + 2 ^ k /\ (align_up x (2 ^ k)) mod 2 ^ k = 0.
Proof.
  intros Hk. assert (0 < 2 ^ k) by (apply Z.pow_pos_nonneg; lia). unfold align_up.
  split; [|apply Z.mod_mul; lia]. pose proof (Z.div_mod (x + 2 ^ k - 1) (2 ^ k) ltac:(lia)).
  pose proof (Z.mod_pos_bound (x + 2 ^ k - 1) (2 ^ k) ltac:(lia)). lia.
Qed.

(** The bit trick of the source rounds up to a power of two. *)
Lemma round_up_bits x k :
  0 <= k <= 31 -> 0 <= x -> x + 2 ^ k - 1 < 4294967296 ->
  Z.land (x + 2 ^ k - 1) (not32 (2 ^ k - 1)) = align_up x (2 ^ k).
Proof.
  intros Hk Hx Hb. assert (0 < 2 ^ k) by (apply Z.pow_pos_nonneg; lia).
  assert (not32 (2 ^ k - 1) = Z.ones 32 - Z.ones k) as ->
    by (unfold not32; rewrite !Z.ones_equiv; change (2 ^ 32) with 4294967296; lia).
  rewrite land_high by (mach_unfold; lia). unfold align_up.
  pose proof (Z.div_mod (x + 2 ^ k - 1) (2 ^ k) ltac:(lia)). lia.
Qed.

Lemma get_aligned_start_spec node k :
  0 <= k <= 31 -> 0 <= node -> node + 12 + 2 ^ k < 4294967296 ->
  get_aligned_start node (2 ^ k) = align_up (node + 12) (2 ^ k).
Proof.
  intros Hk Hn Hb. assert (0 < 2 ^ k) by (apply Z.pow_pos_nonneg; lia).
  unfold get_aligned_start. rewrite !u32_small by (mach_unfold; try rewrite !Z.mod_small; lia).
  rewrite <- round_up_bits by lia. do 2 f_equal; lia.
Qed.

(** * Lists of nodes *)

Lemma ordered_weaken lo lo' l hi : lo' <= lo -> ordered lo l hi -> ordered lo' l hi.
Proof. destruct l as [|[a s] l]; simpl; [lia|]. intros ? (? & ?). split; [lia|done]. Qed.

Lemma ordered_le lo l hi : ordered lo l hi -> lo <= hi.
Proof.
  revert lo. induction l as [|[a s] l IH]; intros lo; simpl; [done|].
  intros (? & _ & _ & ? & H%IH). lia.
Qed.

Lemma ordered_app lo l k hi :
  ordered lo (l ++ k) hi <-> exists mid, ordered lo l mid /\ ordered mid k hi.
Proof.
  revert lo. induction l as [|[a s] l IH]; intros lo; simpl.
  - split; [intros H; exists lo; by split|]. intros (mid & H1 & H2). by eapply ordered_weaken.
  - rewrite IH. split; [intros (? & ? & ? & ? & mid & ? & ?)|intros (mid & (? & ? & ? & ? & ?) & ?)];
      eauto 10.
Qed.

Lemma ordered_in lo l hi x : ordered lo l hi -> in_blocks l x -> lo <= x < hi.
Proof.
  revert lo. induction l as [|[a s] l IH]; intros lo; simpl; [done|].
  intros (H1 & _ & _ & H2 & H3) [Hx|Hx].
  - apply ordered_le in H3. lia.
  - pose proof (IH _ H3 Hx). lia.
Qed.

Lemma in_blocks_app l k x : in_blocks (l ++ k) x <-> in_blocks l x \/ in_blocks k x.
Proof. induction l as [|[a s] l IH]; simpl; [tauto|]. rewrite IH. tauto. Qed.

Lemma lseg_cons m p a s l q :
  lseg m p ((a, s) :: l) q <->
  p = a /\ load32 m a = MAGIC /\ load32 m (a + 4) = s /\ lseg m (load32 m (a + 8)) l q.
Proof. done. Qed.

Lemma lseg_app m p l k q : lseg m p (l ++ k) q <-> exists r, lseg m p l r /\ lseg m r k q.
Proof.
  revert p. induction l as [|[a s] l IH]; intros p; simpl.
  - split; [intros H; exists p; by split|]. by intros (r & -> & ?).
  - rewrite IH. split; [intros (? & ? & ? & r & ? & ?)|intros (r & (? & ? & ? & ?) & ?)]; eauto 10.
Qed.

(** A list keeps its links when its bytes are kept. *)
Lemma lseg_frame m m' lo p l q hi :
  ordered lo l hi -> 0 <= lo -> hi <= 4294967296 ->
  (forall x, in_blocks l x -> m' !! x = m !! x) -> lseg m p l q -> lseg m' p l q.
Proof.
  revert lo p. induction l as [|[a s] l IH]; intros lo p; simpl; [done|].
  intros (H1 & H2 & H3 & H4 & H5) Hlo Hhi Hf (-> & Hm & Hs & Hl). pose proof (ordered_le _ _ _ H5).
  rewrite !(load32_ext m m') by (unfold in_space; (lia || (intros; apply Hf; lia))).
  split; [done|]. split; [done|]. split; [done|].
  eapply IH; [done|lia|lia| |done]. intros x Hx. apply Hf. by right.
Qed.

(** Redirecting the last node of a segment. *)
Lemma lseg_set_last m lo p l a s q q' hi :
  ordered lo (l ++ [(a, s)]) hi -> 0 <= lo -> hi <= 4294967296 -> is_u32 q' ->
  lseg m p (l ++ [(a, s)]) q -> lseg (store32 m (a + 8) q') p (l ++ [(a, s)]) q'.
Proof.
  intros Ho Hlo Hhi Hq Hl. apply ordered_app in Ho as (mid & Hol & Hoa).
  apply lseg_app in Hl as (r & Hl & Ha). simpl in Ha, Hoa. destruct Ha as (-> & Hm & Hs & _).
  destruct Hoa as (Hmid & _ & _ & H12 & Hend). pose proof (ordered_le _ _ _ Hol).
  apply lseg_app. exists a. split.
  - eapply (lseg_frame m); [done|done| | |done]; [lia|]. intros x Hx.
    apply store32_lookup_ne; [unfold in_space; lia|].
    pose proof (ordered_in _ _ _ _ Hol Hx). lia.
  - simpl. rewrite !load32_store32_ne by (unfold in_space, apart; lia).
    by rewrite load32_store32_eq.
Qed.

Lemma used_ok_frame m m' lo hi u :
  0 <= lo -> hi <= 4294967296 -> (forall x, in_used u x -> m' !! x = m !! x) ->
  used_ok m lo hi u -> used_ok m' lo hi u.
Proof.
  intros Hlo Hhi Hf (H1 & H2 & H3 & H4 & H5 & H6 & H7 & Hm & Hs & Hp). unfold used_ok, data, in_used in *.
  rewrite !(load32_ext m m') by (unfold in_space; (lia || (intros; apply Hf; lia))).
  by split_and!.
Qed.

(** * Allocation *)

Ltac node_unfold :=
  unfold AllocNode.init, AllocNode.set_next, AllocNode.set_size, AllocNode.mark_occupied,
    AllocNode.mark_free, AllocNode.get_next, AllocNode.get_size, AllocNode.is_valid,
    AllocNode.is_free, AllocNode.set_word_magic, AllocNode.set_word_size,
    AllocNode.set_word_next, AllocNode.magic, AllocNode.size, AllocNode.next in *.
Ltac space := unfold in_space, apart; lia.
(** Reads over writes, when the cells are the same or provably apart. *)
Ltac words :=
  repeat first
    [ rewrite load32_store32_eq by (unfold MAGIC; mach_unfold; lia)
    | rewrite load32_store32_ne by space ].
(** A byte outside the written cells. *)
Ltac untouched := repeat rewrite store32_lookup_ne by first [space | lia].

Lemma occupied_size s : 0 <= s < 2147483648 -> Z.land (s + 2147483648) 0x7fffffff = s.
Proof. intros. rewrite land_7fffffff. mlia. Qed.

Section Take.
Context (m : mem) (al : ListAllocator) (layout : Layout) (prev a s k : Z).
Context (Ha : 0 < a) (Ha4 : a mod 4 = 0) (Hs4 : s mod 4 = 0) (Hs : 12 <= s < 2147483648)
  (Hend : a + s < 4294967296) (Hk : 0 <= k <= 31) (Hal : layout_align layout = 2 ^ k)
  (Hsz : 0 <= layout_size layout) (Hspace : a + 12 + 2 ^ k < 4294967296)
  (Hprev : prev = 0 \/ 0 < prev /\ prev + 12 <= a)
  (Hmagic : load32 m a = MAGIC) (Hsize : load32 m (a + 4) = s).
Notation p := (align_up (a + 12) (2 ^ k)).
Notation e := (p + layout_size layout).
Notation next := (load32 m (a + 8)).
Context (Hfit : e <= a + s).

Lemma take_bounds : a + 12 <= p /\ p mod 2 ^ k = 0.
Proof. pose proof (align_up_spec (a + 12) k ltac:(lia)). lia. Qed.

(** The remainder becomes a free node. *)
Lemma take_node_split :
  a + s - e > 16 ->
  let t := align_up e 4 in
  e <= t /\ t mod 4 = 0 /\ t + 12 <= a + s /\
  exists m', take_node m al layout prev a =
      Ret (m', if prev =? 0 then set_first_free al t else al, p) /\
    load32 m' a = MAGIC /\ load32 m' (a + 4) = t - a + 2147483648 /\
    load32 m' (p - 4) = p - a - 8 /\
    load32 m' t = MAGIC /\ load32 m' (t + 4) = a + s - t /\ load32 m' (t + 8) = next /\
    (forall x, ~ (a <= x < a + s) ->
       m' !! x = (if prev =? 0 then m else store32 m (prev + 8) t) !! x).
Proof.
  intros Hrem t. destruct take_bounds as [Hp _]. pose proof (load32_range m (a + 8)) as Hn.
  pose proof (align_up_spec e 2 ltac:(lia)) as [Ht1 Ht2]. change (2 ^ 2) with 4 in *. fold t in Ht1, Ht2.
  split; [lia|]. split; [done|]. split; [lia|].
  unfold take_node, mark_padded. rewrite Hal, get_aligned_start_spec by lia. node_unfold.
  rewrite Hsize, lor_top by lia. rewrite (u32_small (a + Z.land s 0x7fffffff))
    by (rewrite land_7fffffff; mlia).
  assert (Z.land s 0x7fffffff = s) as -> by (rewrite land_7fffffff; mlia).
  rewrite (u32_small (p - a)), (u32_small (p - a - 8)), (u32_small e) by (mach_unfold; lia).
  rewrite (u32_small (a + s - e)) by (mach_unfold; lia).
  destruct (Z.ltb_spec (p - a - 8) 4); [lia|]. cbn [mbind comp_bind].
  destruct (Z.gtb_spec (a + s - e) 16); [|lia].
  rewrite (u32_small (a + 8)), (u32_small (a + 8 + _)), (u32_small (a + 8 + _ - 4)) by (mach_unfold; lia).
  replace (a + 8 + (p - a - 8) - 4) with (p - 4) by lia.
  rewrite (u32_small (e + 3)) by (mach_unfold; lia).
  change (not32 3) with (not32 (2 ^ 2 - 1)). replace (e + 3) with (e + 2 ^ 2 - 1) by lia.
  rewrite round_up_bits by (change (2 ^ 2) with 4; lia). change (2 ^ 2) with 4. fold t.
  words. rewrite occupied_size, (u32_small (a + s)), (u32_small (a + s - t)), (u32_small (t - a)) by (mach_unfold; lia).
  assert (forall z, 0 <= z < 2147483648 -> Z.land z 0x7fffffff = z) as Hz
    by (intros; rewrite land_7fffffff; mlia).
  rewrite !Hz by lia.
  assert (Hset : forall z, 0 <= z < 2147483648 ->
    Z.lor (Z.land (s + 2147483648) 0x80000000) z = z + 2147483648).
  { intros z Hr. rewrite land_top_used, Z.lor_comm by lia. by apply lor_top. }
  destruct Hprev as [->|Hpr]; [|destruct (Z.eqb_spec prev 0); [lia|]]; cbn [negb Z.eqb]; cbv iota;
    words; rewrite Hset by lia; (eexists; split; [reflexivity|]); words;
    (do 6 (split; [done|])); intros x Hx; untouched; [done|].
  apply store32_congr. by untouched.
Qed.

(** The whole node is used; the list continues after it. *)
Lemma take_node_whole :
  a + s - e <= 16 ->
  exists m', take_node m al layout prev a = Ret (m', set_first_free al next, p) /\
    load32 m' a = MAGIC /\ load32 m' (a + 4) = s + 2147483648 /\
    load32 m' (p - 4) = p - a - 8 /\
    (forall x, ~ (a <= x < a + s) -> m' !! x = m !! x).
Proof.
  intros Hrem. destruct take_bounds as [Hp _].
  unfold take_node, mark_padded. rewrite Hal, get_aligned_start_spec by lia. node_unfold.
  rewrite Hsize, lor_top by lia. rewrite (u32_small (a + Z.land s 0x7fffffff))
    by (rewrite land_7fffffff; mlia).
  assert (Z.land s 0x7fffffff = s) as -> by (rewrite land_7fffffff; mlia).
  rewrite (u32_small (p - a)), (u32_small (p - a - 8)), (u32_small e) by (mach_unfold; lia).
  rewrite (u32_small (a + s - e)) by (mach_unfold; lia).
  destruct (Z.ltb_spec (p - a - 8) 4); [lia|]. cbn [mbind comp_bind].
  destruct (Z.gtb_spec (a + s - e) 16); [lia|].
  rewrite (u32_small (a + 8)), (u32_small (a + 8 + _)), (u32_small (a + 8 + _ - 4)) by (mach_unfold; lia).
  replace (a + 8 + (p - a - 8) - 4) with (p - 4) by lia.
  eexists. split; [reflexivity|]. words. do 3 (split; [done|]). intros x Hx. by untouched.
Qed.

End Take.

(** The address of the last node, 0 for the empty list: the loop's [prev]. *)
Definition last_addr (l : list (Z * Z)) : Z := match last l with Some b => b.1 | None => 0 end.

Lemma node_in_heap al fl l1 a s l2 :
  bounds al -> ordered (start al) fl (start al + la_size al) -> fl = l1 ++ (a, s) :: l2 ->
  0 < a /\ a mod 4 = 0 /\ s mod 4 = 0 /\ 12 <= s < 2147483648 /\
  start al <= a /\ a + s <= start al + la_size al.
Proof.
  intros (Hb1 & Hb2 & Hb3) Ho ->. apply ordered_app in Ho as (mid & H1 & H2).
  pose proof (ordered_le _ _ _ H1). simpl in H2. destruct H2 as (? & ? & ? & ? & H2).
  pose proof (ordered_le _ _ _ H2). lia.
Qed.

(** The walk down the list stops at the first node that fits. *)
Lemma alloc_search fuel m al layout l1 l2 cur :
  bounds al -> ordered (start al) (l1 ++ l2) (start al + la_size al) -> layout_ok al layout ->
  lseg m cur l2 0 -> (length l2 <= fuel)%nat ->
  (Forall (fun b => fits layout b = false) l2 /\
   alloc_loop fuel m al layout (last_addr l1) cur = Ret (m, al, 0)) \/
  exists k1 a s k2, l2 = k1 ++ (a, s) :: k2 /\ Forall (fun b => fits layout b = false) k1 /\
    fits layout (a, s) = true /\
    alloc_loop fuel m al layout (last_addr l1) cur =
      take_node m al layout (last_addr (l1 ++ k1)) a.
Proof.
  intros Hb Ho Hlay. revert fuel l1 cur Ho.
  induction l2 as [|[a s] l2 IH]; intros fuel l1 cur Ho Hseg Hfuel.
  - simpl in Hseg. subst cur. left. split; [done|]. by destruct fuel.
  - simpl in Hseg. destruct Hseg as (-> & Hm & Hs & Hseg). destruct fuel as [|fuel]; [simpl in Hfuel; lia|].
    destruct (node_in_heap al _ l1 a s l2 Hb Ho eq_refl) as (Ha & _ & _ & Hs' & Hlo & Hhi).
    destruct Hlay as ((k & Hk & Hal) & Hsz & Hsp). destruct Hb as (Hb1 & Hb2 & Hb3).
    cbn [alloc_loop]. destruct (Z.eqb_spec a 0); [lia|]. cbn [negb]. cbv zeta.
    rewrite Hal in *. rewrite get_aligned_start_spec by lia.
    pose proof (align_up_spec (a + 12) k ltac:(lia)) as [Hup _].
    unfold AllocNode.get_size, AllocNode.size, AllocNode.next. rewrite Hs.
    assert (Z.land s 0x7fffffff = s) as -> by (rewrite land_7fffffff; mlia).
    rewrite !u32_small by (mach_unfold; lia). rewrite Z.geb_leb.
    destruct (align_up (a + 12) (2 ^ k) + layout_size layout <=? a + s) eqn:Hfit.
    + right. exists [], a, s, l2. rewrite app_nil_r. unfold fits. simpl. rewrite Hal. by split_and!.
    + destruct (IH fuel (l1 ++ [(a, s)]) (load32 m (a + 8))) as [[Hf Heq]|(k1 & a' & s' & k2 & -> & Hf & Hfit' & Heq)];
        [by rewrite <- app_assoc|done|simpl in Hfuel; lia| |].
      * left. split; [constructor; [unfold fits; simpl; by rewrite Hal|done]|].
        unfold last_addr in Heq at 1. rewrite last_snoc in Heq. done.
      * right. exists ((a, s) :: k1), a', s', k2. split; [done|].
        split; [constructor; [unfold fits; simpl; by rewrite Hal|done]|]. split; [done|].
        unfold last_addr in Heq at 1. rewrite last_snoc in Heq. simpl in Heq.
        by rewrite <- app_assoc in Heq.
Qed.

Lemma used_frame m m' al fl used :
  bounds al -> (forall x, ~ in_blocks fl x -> m' !! x = m !! x) ->
  Forall (used_ok m (start al) (start al + la_size al)) used ->
  Forall (fun u => forall x, in_used u x -> ~ in_blocks fl x) used ->
  Forall (used_ok m' (start al) (start al + la_size al)) used.
Proof.
  intros (Hb1 & Hb2 & Hb3) Hf Hu Hsep. rewrite Forall_forall in *. intros u Hin.
  apply (used_ok_frame m); [lia|lia| |by apply Hu]. intros x Hx. apply Hf. by eapply Hsep.
Qed.

(** A new heap is one free node. *)
Lemma heap_inv_new m a s :
  0 < a -> a mod 4 = 0 -> s mod 4 = 0 -> 12 <= s < 2147483648 -> a + s < 4294967296 ->
  heap_inv (new m a s).1 (new m a s).2 [(a, s)] [].
Proof.
  intros Ha Ha4 Hs4 Hs Hend. unfold new. cbn [fst snd]. split; cbn [start la_size first_free].
  - unfold bounds. cbn. lia.
  - cbn. split_and!; try done; lia.
  - node_unfold. rewrite land_7fffffff, Z.mod_small by lia. cbn [lseg]. words. by split_and!.
  - constructor.
  - constructor.
  - constructor.
Qed.

(** Writing to the bytes of an allocation keeps the invariant. *)
Lemma heap_inv_fill m m' al fl u used :
  heap_inv m al fl (u :: used) ->
  (forall x, ~ (data u <= x < ub_addr u + ub_size u) -> m' !! x = m !! x) -> heap_inv m' al fl (u :: used).
Proof.
  intros [Hb Ho Hl Hu Hsep Hap] Hf. pose proof Hb as (Hb1 & Hb2 & Hb3).
  inversion_clear Hu as [|? ? Hok Hu']. inversion_clear Hsep as [|? ? Hs1 Hs2]. inversion_clear Hap as [|? ? Ha1 Ha2].
  pose proof Hok as (U1 & U2 & U3 & U4 & U5 & U6 & U7 & Wm & Ws & Wp).
  assert (Hin : forall x, data u <= x < ub_addr u + ub_size u -> in_used u x) by (unfold in_used, data; lia).
  split; [done|done| | |by constructor|by constructor].
  - eapply (lseg_frame m); [exact Ho|lia|lia| |exact Hl]. intros x Hx. apply Hf. intros Hc. by apply (Hs1 x (Hin x Hc)).
  - constructor.
    + unfold used_ok, data in *. rewrite !(load32_ext m m') by (unfold in_space; (lia || (intros; apply Hf; lia))). by split_and!.
    + rewrite Forall_forall in *. intros v Hv. apply (used_ok_frame m); [lia|lia| |by apply Hu'].
      intros x Hx. apply Hf. intros Hc. by apply (Ha1 v Hv x (Hin x Hc)).
Qed.

(** Moving part of the free space to a new allocated node keeps the invariant. *)
Lemma heap_inv_take m m' al al' fl fl' used u :
  heap_inv m al fl used -> start al' = start al -> la_size al' = la_size al ->
  ordered (start al) fl' (start al + la_size al) -> lseg m' (first_free al') fl' 0 ->
  used_ok m' (start al) (start al + la_size al) u ->
  (forall x, ~ in_blocks fl x -> m' !! x = m !! x) ->
  (forall x, in_used u x -> in_blocks fl x /\ ~ in_blocks fl' x) ->
  (forall x, in_blocks fl' x -> in_blocks fl x) ->
  heap_inv m' al' fl' (u :: used).
Proof.
  intros [Hb Ho Hl Hu Hsep Hap] Es Ez Ho' Hl' Hu' Hf Hin Hsub.
  split; rewrite ?Es, ?Ez; [unfold bounds in *; by rewrite Es, Ez|done|done| | |].
  - constructor; [done|]. by eapply used_frame.
  - constructor; [intros x Hx; by apply Hin|].
    eapply Forall_impl; [exact Hsep|]. intros v Hv x Hx Hc. eapply Hv; eauto.
  - constructor; [|done]. eapply Forall_impl; [exact Hsep|].
    intros v Hv x Hx Hc. eapply Hv; [done|]. by apply Hin.
Qed.

Lemma ordered_weaken_r lo l hi hi' : hi <= hi' -> ordered lo l hi -> ordered lo l hi'.
Proof.
  intros Hle. revert lo. induction l as [|[b t] l IH]; intros lo; simpl; [lia|].
  intros (? & ? & ? & ? & ?). split_and!; eauto.
Qed.

Lemma ordered_mid lo l1 a s l2 hi :
  ordered lo (l1 ++ (a, s) :: l2) hi ->
  ordered lo l1 a /\ a mod 4 = 0 /\ s mod 4 = 0 /\ 12 <= s /\ ordered (a + s) l2 hi.
Proof.
  intros H. apply ordered_app in H as (mid & H1 & H2). simpl in H2.
  destruct H2 as (? & ? & ? & ? & ?). split; [|done]. by eapply ordered_weaken_r.
Qed.

Lemma ordered_replace lo l1 a s t r l2 hi :
  ordered lo (l1 ++ (a, s) :: l2) hi -> a <= t -> t mod 4 = 0 -> r mod 4 = 0 -> 12 <= r ->
  t + r <= a + s -> ordered lo (l1 ++ (t, r) :: l2) hi.
Proof.
  intros H Ht Ht4 Hr4 Hr Hle. destruct (ordered_mid _ _ _ _ _ _ H) as (H1 & _ & _ & _ & H2).
  apply ordered_app. exists a. split; [done|]. simpl. split_and!; try done.
  by eapply ordered_weaken.
Qed.

(** A byte of the middle node is in none of the others. *)
Lemma mid_disjoint lo l1 a s l2 hi x :
  ordered lo (l1 ++ (a, s) :: l2) hi -> a <= x < a + s -> ~ in_blocks l1 x /\ ~ in_blocks l2 x.
Proof.
  intros H Hx. destruct (ordered_mid _ _ _ _ _ _ H) as (H1 & _ & _ & _ & H2).
  split; intros Hc; [pose proof (ordered_in _ _ _ _ H1 Hc)|pose proof (ordered_in _ _ _ _ H2 Hc)]; lia.
Qed.

(** The links after a split: [l1] now continues at the remainder. *)
Lemma relink m m' lo p l1 a s t r l2 hi :
  ordered lo (l1 ++ (a, s) :: l2) hi -> 0 <= lo -> hi <= 4294967296 -> a <= t -> t + r <= a + s -> 12 <= r ->
  lseg m p (l1 ++ (a, s) :: l2) 0 ->
  load32 m' t = MAGIC -> load32 m' (t + 4) = r -> load32 m' (t + 8) = load32 m (a + 8) ->
  (forall x, ~ (a <= x < a + s) ->
     m' !! x = (if last_addr l1 =? 0 then m else store32 m (last_addr l1 + 8) t) !! x) ->
  0 < lo -> lseg m' (if last_addr l1 =? 0 then t else p) (l1 ++ (t, r) :: l2) 0.
Proof.
  intros Ho Hlo Hhi Ht Htr Hr Hl Hmt Hst Hnt Hf Hpos.
  destruct (ordered_mid _ _ _ _ _ _ Ho) as (Ho1 & _ & _ & H12 & Ho2).
  pose proof (ordered_le _ _ _ Ho1) as Hle1. pose proof (ordered_le _ _ _ Ho2) as Hle2.
  apply lseg_app in Hl as (q & Hl1 & Hl2). simpl in Hl2. destruct Hl2 as (-> & _ & _ & Hl2).
  assert (Hprev : last_addr l1 = 0 /\ l1 = [] \/
    exists k b z, l1 = k ++ [(b, z)] /\ last_addr l1 = b /\ lo <= b /\ b + z <= a /\ 12 <= z).
  { destruct l1 as [|[b z] k _] using rev_ind; [by left|]. right. exists k, b, z.
    unfold last_addr. rewrite last_snoc. simpl. apply ordered_app in Ho1 as (mid & Hk & Hb).
    simpl in Hb. pose proof (ordered_le _ _ _ Hk). split_and!; try done; lia. }
  apply lseg_app. exists t. split; [|simpl; split_and!; try done; rewrite Hnt;
    eapply (lseg_frame m); [exact Ho2|lia|done| |done]].
  - destruct Hprev as [[E ->]|(k & b & z & -> & E & Hb1 & Hb2 & Hz)]; rewrite E in *; [done|].
    destruct (Z.eqb_spec b 0); [lia|]. pose proof (lseg_set_last m lo p k b z a t a Ho1 Hlo ltac:(lia)
      ltac:(mach_unfold; lia) Hl1) as Hl1'.
    eapply (lseg_frame _ m'); [exact Ho1|done|lia| |exact Hl1'].
    intros x Hx. apply Hf. pose proof (ordered_in _ _ _ _ Ho1 Hx). lia.
  - intros x Hx. pose proof (ordered_in _ _ _ _ Ho2 Hx). rewrite Hf by lia.
    destruct Hprev as [[-> ->]|(k & b & z & -> & -> & Hb1 & Hb2 & Hz)]; [done|].
    destruct (Z.eqb_spec b 0); [lia|]. apply store32_lookup_ne; [space|lia].
Qed.

(** The node an allocation of [layout] at the free node [(a, s)] produces, and the nodes that
    are left of it. *)
Definition taken (layout : Layout) (a s : Z) : used_block * list (Z * Z) :=
  let p := align_up (a + 12) (layout_align layout) in
  let e := p + layout_size layout in
  if a + s - e >? 16
  then (mkUsed a (align_up e 4 - a) (p - a - 8), [(align_up e 4, a + s - align_up e 4)])
  else (mkUsed a s (p - a - 8), []).

(** The free list afterwards.  When the whole node is taken the list continues with its
    successor, and the nodes before it are no longer linked. *)
Definition free_after (layout : Layout) (l1 : list (Z * Z)) (a s : Z) (l2 : list (Z * Z)) :=
  match (taken layout a s).2 with
  | [] => l2
  | rest => l1 ++ rest ++ l2
  end.

Section AllocTake.
Context (m : mem) (al : ListAllocator) (used : list used_block) (layout : Layout)
  (l1 : list (Z * Z)) (a s : Z) (l2 : list (Z * Z)).
Notation fl := (l1 ++ (a, s) :: l2).
Context (Hinv : heap_inv m al fl used) (Hlay : layout_ok al layout)
  (Hfit : fits layout (a, s) = true).
Notation p := (align_up (a + 12) (layout_align layout)).
Notation e := (p + layout_size layout).
Notation t := (align_up e 4).
Notation u := ((taken layout a s).1).

(** What the result of taking [(a, s)] must satisfy. *)
Definition take_ok (m' : mem) (al' : ListAllocator) : Prop :=
  take_node m al layout (last_addr l1) a = Ret (m', al', data u) /\
  start al' = start al /\ la_size al' = la_size al /\
  heap_inv m' al' (free_after layout l1 a s l2) (u :: used) /\
  (forall x, ~ in_blocks fl x -> m' !! x = m !! x).

Lemma take_data : data u = p.
Proof. unfold taken. destruct (_ >? _); unfold data; simpl; lia. Qed.

(** The node [prev], when there is one, lies before the node taken. *)
Lemma take_prev :
  (last_addr l1 = 0 \/ 0 < last_addr l1 /\ last_addr l1 + 12 <= a) /\
  (last_addr l1 <> 0 -> forall x, last_addr l1 + 8 <= x < last_addr l1 + 12 -> in_blocks l1 x).
Proof.
  destruct Hinv as [(Hb1 & _) Ho _ _ _ _]. apply ordered_mid in Ho as (Ho1 & _).
  destruct l1 as [|[b z] k' _] using rev_ind; [split; [by left|done]|]. unfold last_addr.
  rewrite last_snoc. simpl. apply ordered_app in Ho1 as (mid & Hk' & Hbz).
  pose proof (ordered_le _ _ _ Hk'). simpl in Hbz. split; [right; lia|].
  intros _ x Hx. apply in_blocks_app. right. left. lia.
Qed.

Lemma take_facts : exists k, 0 <= k <= 31 /\ layout_align layout = 2 ^ k /\
  0 <= layout_size layout /\ a + 12 + 2 ^ k < 4294967296 /\ a + s < 4294967296 /\
  0 < start al /\ start al <= a /\ a + s <= start al + la_size al /\
  0 < a /\ a mod 4 = 0 /\ s mod 4 = 0 /\ 12 <= s < 2147483648 /\ a + 12 <= p /\ e <= a + s /\
  load32 m a = MAGIC /\ load32 m (a + 4) = s.
Proof.
  destruct Hinv as [Hb Ho Hl _ _ _], Hlay as ((k & Hk & Hal) & Hsz & Hsp).
  destruct (node_in_heap al _ l1 a s l2 Hb Ho eq_refl) as (Ha & Ha4 & Hs4 & Hs & Hlo & Hhi).
  apply lseg_app in Hl as (q & _ & _ & Hm & Hsw & _). destruct Hb as (Hb1 & Hb2 & Hb3).
  apply Z.leb_le in Hfit. simpl in Hfit. exists k. rewrite Hal in *.
  pose proof (align_up_spec (a + 12) k ltac:(lia)) as [Hup _]. split_and!; try done; lia.
Qed.

Lemma alloc_take_split : a + s - e > 16 -> exists m' al', take_ok m' al'.
Proof.
  intros Hgt. destruct take_prev as [Hprev Hpb].
  destruct take_facts as (k & Hk & Hal & Hsz & Hsp & Has & Hb1 & Hlo & Hhi & Ha & Ha4 & Hs4 & Hs & Hup & He & Hm & Hsw).
  pose proof Hinv as [Hb Ho Hl _ _ _]. pose proof Hb as (_ & Hb2 & Hb3).
  rewrite Hal in Hgt, Hup, He.
  destruct (take_node_split m al layout (last_addr l1) a s k)
    as (Het & Ht4 & Hta & m' & Heq & W1 & W2 & W3 & W4 & W5 & W6 & Hf); try assumption.
  unfold take_ok, free_after. rewrite take_data. unfold taken. rewrite <- Hal in *.
  destruct (Z.gtb_spec (a + s - e) 16); [|lia]. cbn [fst snd].
  exists m', (if last_addr l1 =? 0 then set_first_free al t else al).
  assert (Hout : forall x, ~ in_blocks fl x -> m' !! x = m !! x).
  { intros x Hx. rewrite in_blocks_app in Hx. simpl in Hx. rewrite Hf by tauto.
    destruct (Z.eqb_spec (last_addr l1) 0); [done|]. apply store32_lookup_ne; [space|].
    intros Hc. apply Hx. left. apply Hpb; [done|lia]. }
  split; [done|]. split; [by destruct (_ =? 0)|]. split; [by destruct (_ =? 0)|]. split; [|done].
  eapply (heap_inv_take m); [exact Hinv|by destruct (_ =? 0)|by destruct (_ =? 0)| | | |done| |].
  - eapply ordered_replace; [exact Ho|lia|done|mlia|lia|lia].
  - pose proof (relink m m' _ _ l1 a s t (a + s - t) l2 _ Ho ltac:(lia) ltac:(lia) ltac:(lia) ltac:(lia)
      ltac:(lia) Hl W4 W5 W6 Hf Hb1) as Hr. by destruct (last_addr l1 =? 0).
  - unfold used_ok, data. simpl. replace (a + 8 + (p - a - 8)) with p by lia.
    split_and!; try done; try lia; mlia.
  - unfold in_used. simpl. intros x Hx. destruct (mid_disjoint _ _ _ _ _ _ x Ho ltac:(lia)) as [N1 N2].
    rewrite !in_blocks_app. simpl. split; [right; left; lia|]. intros [?|[?|?]]; [done|lia|done].
  - intros x. rewrite !in_blocks_app. simpl. intros [?|[?|?]]; [tauto|right; left; lia|tauto].
Qed.

Lemma alloc_take_whole : a + s - e <= 16 -> exists m' al', take_ok m' al'.
Proof.
  intros Hle.
  destruct take_facts as (k & Hk & Hal & Hsz & Hsp & Has & Hb1 & Hlo & Hhi & Ha & Ha4 & Hs4 & Hs & Hup & He & Hm & Hsw).
  pose proof Hinv as [Hb Ho Hl _ _ _]. pose proof Hb as (_ & Hb2 & Hb3).
  pose proof (ordered_mid _ _ _ _ _ _ Ho) as (_ & _ & _ & _ & Ho2).
  apply lseg_app in Hl as (q & _ & _ & _ & _ & Hl2).
  rewrite Hal in Hle, Hup, He.
  destruct (take_node_whole m al layout (last_addr l1) a s k)
    as (m' & Heq & W1 & W2 & W3 & Hf); try assumption.
  unfold take_ok, free_after. rewrite take_data. unfold taken. rewrite <- Hal in *.
  destruct (Z.gtb_spec (a + s - e) 16); [lia|]. cbn [fst snd].
  exists m', (set_first_free al (load32 m (a + 8))).
  assert (Hout : forall x, ~ in_blocks fl x -> m' !! x = m !! x).
  { intros x Hx. rewrite in_blocks_app in Hx. simpl in Hx. apply Hf. tauto. }
  split; [done|]. split; [done|]. split; [done|]. split; [|done].
  eapply (heap_inv_take m); [exact Hinv|done|done| | | |done| |].
  - eapply ordered_weaken; [|exact Ho2]. lia.
  - eapply (lseg_frame m); [exact Ho2|lia|lia| |done]. intros x Hx.
    pose proof (ordered_in _ _ _ _ Ho2 Hx). apply Hf. lia.
  - unfold used_ok, data. simpl. replace (a + 8 + (p - a - 8)) with p by lia.
    split_and!; try done; lia.
  - unfold in_used. simpl. intros x Hx. destruct (mid_disjoint _ _ _ _ _ _ x Ho ltac:(lia)) as [N1 N2].
    rewrite in_blocks_app. simpl. split; [right; left; lia|done].
  - intros x. rewrite in_blocks_app. simpl. tauto.
Qed.

End AllocTake.

(** What [alloc] does: nothing fits, or the first node that fits is taken. *)
Lemma alloc_cases fuel m al fl used layout :
  heap_inv m al fl used -> layout_ok al layout -> (length fl <= fuel)%nat ->
  (Forall (fun b => fits layout b = false) fl /\ alloc fuel m al layout = Ret (m, al, 0)) \/
  exists l1 a s l2 m' al', fl = l1 ++ (a, s) :: l2 /\
    Forall (fun b => fits layout b = false) l1 /\ fits layout (a, s) = true /\
    alloc fuel m al layout = Ret (m', al', data (taken layout a s).1) /\
    start al' = start al /\ la_size al' = la_size al /\
    heap_inv m' al' (free_after layout l1 a s l2) ((taken layout a s).1 :: used) /\
    (forall x, ~ in_blocks fl x -> m' !! x = m !! x).
Proof.
  intros Hinv Hlay Hfuel. unfold alloc.
  destruct (alloc_search fuel m al layout [] fl (first_free al) (hi_bounds _ _ _ _ Hinv)
    (hi_ordered _ _ _ _ Hinv) Hlay (hi_linked _ _ _ _ Hinv) Hfuel)
    as [[Hf Heq]|(l1 & a & s & l2 & -> & Hf & Hfit & Heq)]; [left; done|right].
  change (last_addr []) with 0 in Heq. simpl in Heq. rewrite Heq.
  destruct (Z.le_gt_cases (a + s - (align_up (a + 12) (layout_align layout) + layout_size layout)) 16);
    [destruct (alloc_take_whole m al used layout l1 a s l2) as (m' & al' & Ht)
    |destruct (alloc_take_split m al used layout l1 a s l2) as (m' & al' & Ht)]; try done; try lia;
    destruct Ht as (E1 & E2 & E3 & E4 & E5);
    exists l1, a, s, l2, m', al'; by split_and!.
Qed.

(** * Merging *)

(** The node [(a, s)] followed by [l], with adjacent nodes merged. *)
Fixpoint coalesce (a s : Z) (l : list (Z * Z)) : list (Z * Z) :=
  match l with
  | [] => [(a, s)]
  | (b, t) :: l' => if a + s =? b then coalesce a (s + t) l' else (a, s) :: coalesce b t l'
  end.
Definition merged (l : list (Z * Z)) : list (Z * Z) :=
  match l with [] => [] | (a, s) :: l' => coalesce a s l' end.

Lemma coalesce_ordered lo a s l hi : ordered lo ((a, s) :: l) hi -> ordered lo (coalesce a s l) hi.
Proof.
  revert lo a s. induction l as [|[b t] l IH]; intros lo a s; simpl; [done|].
  intros (H1 & H2 & H3 & H4 & H5 & H6 & H7 & H8 & H9). destruct (Z.eqb_spec (a + s) b) as [<-|].
  - apply IH. simpl. split_and!; try done; try mlia. by replace (a + (s + t)) with (a + s + t) by lia.
  - simpl. split_and!; try done. apply IH. simpl. by split_and!.
Qed.

Lemma coalesce_blocks a s l x :
  0 <= s -> (forall b t, (b, t) ∈ l -> 0 <= t) ->
  in_blocks (coalesce a s l) x <-> in_blocks ((a, s) :: l) x.
Proof.
  revert a s. induction l as [|[b t] l IH]; intros a s Hs Hl; [done|].
  assert (0 <= t) by (apply (Hl b); left). assert (forall b t, (b, t) ∈ l -> 0 <= t) by (intros; eapply Hl; right; done).
  cbn [coalesce]. destruct (Z.eqb_spec (a + s) b) as [<-|].
  - rewrite IH by (done || lia). simpl. split; intros H1;
      [destruct H1 as [H1|H1]; [destruct (Z.lt_ge_cases x (a + s)); [left|right; left]; lia|tauto]|].
    destruct H1 as [H1|[H1|H1]]; [left; lia|left; lia|by right].
  - cbn [in_blocks]. rewrite IH by done. done.
Qed.

Lemma ordered_sizes lo l hi b t : ordered lo l hi -> (b, t) ∈ l -> 0 <= t.
Proof.
  revert lo. induction l as [|[a s] l IH]; intros lo Ho Hin; [inversion Hin|].
  simpl in Ho. apply elem_of_cons in Hin as [[= -> ->]|Hin]; [lia|]. eapply IH; [apply Ho|done].
Qed.

Lemma merged_blocks lo l hi x : ordered lo l hi -> in_blocks (merged l) x <-> in_blocks l x.
Proof.
  destruct l as [|[a s] l]; [done|]. intros Ho. apply coalesce_blocks.
  - eapply (ordered_sizes _ _ _ a); [done|left].
  - intros b t Hin. eapply ordered_sizes; [exact Ho|by right].
Qed.

Lemma merged_ordered lo l hi : ordered lo l hi -> ordered lo (merged l) hi.
Proof. destruct l as [|[a s] l]; [done|]. apply coalesce_ordered. Qed.

Lemma small_size s : 0 <= s < 2147483648 -> Z.land s 0x7fffffff = s.
Proof. intros. rewrite land_7fffffff. mlia. Qed.

(** One merge: the second node is absorbed by the first. *)
Lemma merge_two m lo a s t l hi :
  ordered lo ((a, s) :: (a + s, t) :: l) hi -> 0 < lo -> hi < 4294967296 -> hi - lo < 2147483648 ->
  lseg m a ((a, s) :: (a + s, t) :: l) 0 ->
  let m1 := AllocNode.set_size m a (AllocNode.get_size m a +u AllocNode.get_size m (a + s)) in
  let m2 := AllocNode.set_next m1 a (AllocNode.get_next m1 (a + s)) in
  ordered lo ((a, s + t) :: l) hi /\ lseg m2 a ((a, s + t) :: l) 0 /\
  (forall x, ~ (a <= x < a + s) -> m2 !! x = m !! x).
Proof.
  simpl ordered. simpl lseg. intros (H1 & H2 & H3 & H4 & H5 & H6 & H7 & H8 & H9) Hlo Hhi Hsz
    (_ & Hm & Hs & Hn & Hmb & Htb & Hl). pose proof (ordered_le _ _ _ H9).
  node_unfold. rewrite Hs, Htb, (small_size s), (small_size t), u32_small by (mach_unfold; lia).
  rewrite small_size, land_top, Z.lor_0_l by lia. cbv zeta. words.
  pose proof (load32_range m (a + s + 8)). words.
  split; [split_and!; try done; try mlia; by replace (a + (s + t)) with (a + s + t) by lia|].
  split; [|intros x Hx; by untouched]. split_and!; try done.
  eapply (lseg_frame m); [exact H9|lia|lia| |done].
  intros x Hx. pose proof (ordered_in _ _ _ _ H9 Hx). by untouched.
Qed.

Lemma merge_loop_spec m lo a s l hi fuel :
  ordered lo ((a, s) :: l) hi -> 0 < lo -> hi < 4294967296 -> hi - lo < 2147483648 ->
  lseg m a ((a, s) :: l) 0 -> (S (length l) <= fuel)%nat ->
  exists m', merge_loop fuel m a = Ret m' /\ lseg m' a (coalesce a s l) 0 /\
    (forall x, ~ in_blocks ((a, s) :: l) x -> m' !! x = m !! x).
Proof.
  revert m lo a s fuel. induction l as [|[b t] l IH]; intros m lo a s fuel Ho Hlo Hhi Hsz Hl Hfuel;
    (destruct fuel as [|fuel]; [simpl in Hfuel; lia|]);
    pose proof Ho as Ho'; pose proof Hl as Hl'; simpl in Ho', Hl'.
  - destruct Hl' as (_ & Hm & Hs & Hn). cbn [merge_loop]. destruct (Z.eqb_spec a 0); [lia|].
    cbn [negb]. node_unfold. rewrite Hs, Hn, small_size, u32_small by (mach_unfold; lia).
    destruct (Z.eqb_spec (a + s) 0); [lia|]. exists m. split; [by destruct fuel|]. by split.
  - destruct Ho' as (H1 & H2 & H3 & H4 & H5 & H6 & H7 & H8 & H9).
    destruct Hl' as (_ & Hm & Hs & Hn & Hmb & Htb & Hl'). pose proof (ordered_le _ _ _ H9).
    assert (Hgs : AllocNode.get_size m a = s) by (node_unfold; rewrite Hs, small_size; lia).
    cbn [merge_loop]. destruct (Z.eqb_spec a 0); [lia|]. cbn [negb].
    replace (a +u AllocNode.get_size m a =? AllocNode.get_next m a) with (a + s =? b)
      by (rewrite Hgs, u32_small by (mach_unfold; lia); unfold AllocNode.get_next, AllocNode.next; by rewrite Hn).
    replace (AllocNode.get_next m a) with b by done. cbn [coalesce].
    destruct (Z.eqb_spec (a + s) b) as [<-|Hb].
    + destruct (merge_two m lo a s t l hi Ho Hlo Hhi Hsz Hl) as (Ho2 & Hl2 & Hf2).
      cbv zeta in Hl2, Hf2 |- *.
      destruct (IH _ lo a (s + t) fuel Ho2 Hlo Hhi Hsz Hl2) as (m' & -> & Hlm & Hf); [simpl in Hfuel; lia|].
      exists m'. split; [done|]. split; [done|]. intros x Hx. simpl in Hx. rewrite Hf, Hf2; [done|tauto|].
      simpl. intros [Hc|Hc]; [|tauto]. apply Hx. destruct (Z.lt_ge_cases x (a + s)); [left|right; left]; lia.
    + destruct (IH m (a + s) b t fuel) as (m' & -> & Hlm & Hf); [simpl; by split_and!|lia|lia|lia|simpl; by split_and!|simpl in Hfuel; lia|].
      exists m'. split; [done|]. split; [|intros x Hx; simpl in Hx; apply Hf; simpl; tauto].
      assert (Hk : forall x, a <= x < a + s -> m' !! x = m !! x).
      { intros x Hx. apply Hf. simpl. intros [Hc|Hc]; [lia|].
        pose proof (ordered_in _ _ _ _ H9 Hc). lia. }
      simpl. rewrite !(load32_ext m m') by (unfold in_space; (lia || (intros; apply Hk; lia))).
      split_and!; try done. by rewrite Hn.
Qed.

Lemma merge_free_areas_spec fuel m al fl :
  bounds al -> ordered (start al) fl (start al + la_size al) -> lseg m (first_free al) fl 0 ->
  (length fl <= fuel)%nat ->
  exists m', merge_free_areas fuel m al = Ret m' /\ lseg m' (first_free al) (merged fl) 0 /\
    (forall x, ~ in_blocks fl x -> m' !! x = m !! x).
Proof.
  intros (Hb1 & Hb2 & Hb3) Ho Hl Hfuel. unfold merge_free_areas. destruct fl as [|[a s] fl].
  - simpl in Hl. rewrite Hl. exists m. split; [by destruct fuel|done].
  - pose proof Hl as Hl'. simpl in Hl'. destruct Hl' as (E & _). rewrite E in *.
    apply (merge_loop_spec m (start al) a s fl (start al + la_size al)); try done; lia.
Qed.

(** * Release *)

(** Insertion at the place the address order gives. *)
Fixpoint insert_node (a s : Z) (l : list (Z * Z)) : list (Z * Z) :=
  match l with
  | [] => [(a, s)]
  | (b, t) :: l' => if a <? b then (a, s) :: l else (b, t) :: insert_node a s l'
  end.

Lemma insert_node_blocks a s l x : in_blocks (insert_node a s l) x <-> a <= x < a + s \/ in_blocks l x.
Proof.
  induction l as [|[b t] l IH]; simpl; [tauto|]. destruct (a <? b); simpl; [tauto|]. rewrite IH. tauto.
Qed.

Lemma insert_node_ordered lo a s l hi :
  ordered lo l hi -> lo <= a -> a + s <= hi -> a mod 4 = 0 -> s mod 4 = 0 -> 12 <= s ->
  (forall x, a <= x < a + s -> ~ in_blocks l x) -> ordered lo (insert_node a s l) hi.
Proof.
  revert lo. induction l as [|[b t] l IH]; intros lo Ho Hlo Hhi Ha4 Hs4 Hs Hd; simpl.
  - by split_and!.
  - simpl in Ho. destruct Ho as (H1 & H2 & H3 & H4 & H5).
    destruct (Z.ltb_spec a b); simpl.
    + split_and!; try done. destruct (Z.le_gt_cases (a + s) b); [done|].
      destruct (Hd b ltac:(lia)). simpl. left. lia.
    + split_and!; try done. apply IH; try done.
      * destruct (Z.le_gt_cases (b + t) a); [done|]. destruct (Hd a ltac:(lia)). simpl. left. lia.
      * intros x Hx Hc. apply (Hd x Hx). by right.
Qed.

Lemma insert_loop_spec fuel m a s lo b t l hi :
  ordered lo ((b, t) :: l) hi -> 0 < lo -> hi < 4294967296 -> lseg m b ((b, t) :: l) 0 ->
  lo <= a -> a + s <= hi -> 12 <= s -> load32 m a = MAGIC -> load32 m (a + 4) = s -> b < a ->
  (forall x, a <= x < a + s -> ~ in_blocks ((b, t) :: l) x) -> (S (length l) <= fuel)%nat ->
  exists m', insert_loop fuel m a b = Ret m' /\ lseg m' b (insert_node a s ((b, t) :: l)) 0 /\
    (forall x, ~ (a <= x < a + s) -> ~ in_blocks ((b, t) :: l) x -> m' !! x = m !! x).
Proof.
  revert fuel m lo b t. induction l as [|[c r] l IH];
    intros fuel m lo b t Ho Hlo Hhi Hl Ha Hs H12 Wm Ws Hba Hd Hfuel;
    (destruct fuel as [|fuel]; [simpl in Hfuel; lia|]);
    pose proof Ho as Ho'; simpl in Ho'; pose proof Hl as (_ & Hm & Ht & Hn); simpl in Hn;
    assert (Hbt : b + t <= a)
      by (destruct (Z.le_gt_cases (b + t) a); [done|destruct (Hd a ltac:(lia)); simpl; left; lia]);
    cbn [insert_loop insert_node]; destruct (Z.eqb_spec b 0), (Z.ltb_spec a b); try lia;
    cbn [negb]; unfold AllocNode.get_next, AllocNode.set_next, AllocNode.set_word_next, AllocNode.next;
    destruct (Z.ltb_spec b a); try lia.
  - rewrite Hn, orb_true_r. cbn [andb].
    eexists. split; [by destruct fuel|]. split; [simpl; words; by split_and!|].
    intros x Hx1 Hx2. simpl in Hx2. untouched. done.
  - destruct Hn as (Hn & Hmc & Hrc & Hl'). rewrite Hn.
    destruct Ho' as (H1 & H2 & H3 & H4 & H5 & H6 & H7 & H8 & H9). pose proof (ordered_le _ _ _ H9).
    destruct (Z.eqb_spec c 0); [lia|]. rewrite orb_false_r. cbn [andb].
    destruct (Z.ltb_spec a c) as [Hac|Hac].
    + assert (Hsc : a + s <= c)
        by (destruct (Z.le_gt_cases (a + s) c); [done|destruct (Hd c ltac:(lia)); simpl; right; left; lia]).
      eexists. split; [by destruct fuel|]. split; [|intros x Hx1 Hx2; simpl in Hx2; by untouched].
      simpl. words. split_and!; try done. eapply (lseg_frame m); [exact H9|lia|lia| |done].
      intros x Hx. pose proof (ordered_in _ _ _ _ H9 Hx). by untouched.
    + assert (Hca : c <> a) by (intros ->; destruct (Hd a ltac:(lia)); simpl; right; left; lia).
      destruct (IH fuel m (b + t) c r) as (m' & -> & Hlm & Hf); try done; try lia;
        [intros x Hx Hc; apply (Hd x Hx); by right|simpl in Hfuel; lia|].
      exists m'. split; [done|]. split; [|intros x Hx1 Hx2; simpl in Hx2; apply Hf; simpl; tauto].
      assert (Hk : forall x, b <= x < b + t -> m' !! x = m !! x).
      { intros x Hx. apply Hf; [lia|]. simpl. intros [Hc|Hc]; [lia|].
        pose proof (ordered_in _ _ _ _ H9 Hc). lia. }
      cbn [insert_node] in Hlm. destruct (Z.ltb_spec a c); [lia|].
      apply lseg_cons. rewrite !(load32_ext m m') by (unfold in_space; (lia || (intros; apply Hk; lia))).
      split; [done|]. split; [done|]. split; [done|]. rewrite Hn. exact Hlm.
Qed.

Lemma FOP_middle {A} (R : A -> A -> Prop) l1 x l2 :
  ForallOrdPairs R (l1 ++ x :: l2) ->
  ForallOrdPairs R (l1 ++ l2) /\ Forall (fun y => R y x) l1 /\ Forall (R x) l2.
Proof.
  induction l1 as [|y l1 IH]; simpl; intros H; inversion_clear H; [done|].
  destruct (IH H1) as (H2 & H3 & H4). apply Forall_app in H0 as [H5 H6]. inversion_clear H6.
  split; [constructor; [by apply Forall_app|done]|]. split; [by constructor|done].
Qed.

(** The free list after the node [(a, s)] is released: an empty list stays empty. *)
Definition released (a s : Z) (fl : list (Z * Z)) : list (Z * Z) :=
  match fl with [] => [] | _ => merged (insert_node a s fl) end.

(** Linking a node that was just marked free. *)
Lemma relink_released fuel m al fl a s :
  bounds al -> ordered (start al) fl (start al + la_size al) -> lseg m (first_free al) fl 0 ->
  start al <= a -> a + s <= start al + la_size al -> 12 <= s -> a mod 4 = 0 -> s mod 4 = 0 ->
  load32 m a = MAGIC -> load32 m (a + 4) = s ->
  (forall x, a <= x < a + s -> ~ in_blocks fl x) -> (length fl + 1 <= fuel)%nat ->
  exists m' al',
    link_free fuel m al a = Ret (m', al') /\
    start al' = start al /\ la_size al' = la_size al /\
    lseg m' (first_free al') (match fl with [] => [] | _ => insert_node a s fl end) 0 /\
    (forall x, ~ (a <= x < a + s) -> ~ in_blocks fl x -> m' !! x = m !! x).
Proof.
  intros (Hb1 & Hb2 & Hb3) Ho Hl Ha Hs H12 Ha4 Hs4 Wm Ws Hd Hfuel. unfold link_free.
  destruct fl as [|[b t] fl].
  - simpl in Hl. rewrite Hl. destruct (Z.ltb_spec a 0); [lia|].
    exists m, al. split; [by destruct fuel|]. by split_and!.
  - pose proof Hl as [E _]. rewrite E in *. pose proof Ho as (Hlo & _ & _ & Ht & Hrest).
    pose proof (ordered_le _ _ _ Hrest). destruct (Z.ltb_spec a b) as [Hab|Hab].
    + assert (Hsb : a + s <= b)
        by (destruct (Z.le_gt_cases (a + s) b); [done|destruct (Hd b ltac:(lia)); simpl; left; lia]).
      unfold AllocNode.set_next, AllocNode.set_word_next.
      eexists _, _. split; [done|]. split; [done|]. split; [done|].
      split; [|intros x Hx1 Hx2; by untouched]. cbn [insert_node first_free set_first_free].
      destruct (Z.ltb_spec a b); [|lia]. apply lseg_cons. words. split; [done|]. split; [done|]. split; [done|].
      eapply (lseg_frame m); [exact Ho|lia|lia| |exact Hl].
      intros x Hx. assert (~ (a <= x < a + s)) by (intros Hc; by apply (Hd x Hc)). by untouched.
    + assert (Hne : b <> a) by (intros ->; destruct (Hd a ltac:(lia)); simpl; left; lia).
      destruct (insert_loop_spec fuel m a s (start al) b t fl (start al + la_size al))
        as (m' & -> & Hlm & Hf); try done; try lia; [simpl in Hfuel; lia|].
      exists m', al. rewrite E. split_and!; done.
Qed.

Lemma length_insert_node a s l : length (insert_node a s l) = S (length l).
Proof. induction l as [|[b t] l IH]; simpl; [done|]. destruct (a <? b); simpl; [done|by rewrite IH]. Qed.

(** The pointer leads back to the node, which is marked free, linked and merged. *)
Lemma dealloc_node fuel m al u :
  bounds al -> used_ok m (start al) (start al + la_size al) u ->
  dealloc fuel m al (data u) =
  ('(m1, al1) ← link_free fuel (store32 m (ub_addr u + 4) (ub_size u)) al (ub_addr u);
   m2 ← merge_free_areas fuel m1 al1; Ret (m2, al1)).
Proof.
  intros (Hb1 & Hb2 & Hb3) (U1 & U2 & U3 & U4 & U5 & U6 & U7 & Wm & Ws & Wp). destruct u as [a s pad].
  unfold data in *. cbn [ub_addr ub_size ub_pad] in *.
  unfold dealloc, find_node_from_allocated_pointer. rewrite (u32_small (start al + _)) by (mach_unfold; lia).
  destruct (Z.ltb_spec (a + 8 + pad) (start al)), (Z.gtb_spec (a + 8 + pad) (start al + la_size al)); try lia.
  cbn [orb]. rewrite (u32_small (a + 8 + pad - 4)), Wp, (u32_small (a + 8 + pad - pad)),
    (u32_small (a + 8 + pad - pad - 8)) by (mach_unfold; lia).
  replace (a + 8 + pad - pad - 8) with a by lia. node_unfold.
  by rewrite Wm, Ws, Z.eqb_refl, land_top_used, occupied_size by lia.
Qed.

(** What [dealloc] does with the pointer of an allocated node. *)
Lemma dealloc_cases fuel m al fl used1 u used2 :
  heap_inv m al fl (used1 ++ u :: used2) -> (length fl + 1 <= fuel)%nat ->
  exists m' al', dealloc fuel m al (data u) = Ret (m', al') /\
    start al' = start al /\ la_size al' = la_size al /\
    heap_inv m' al' (released (ub_addr u) (ub_size u) fl) (used1 ++ used2) /\
    (forall x, ~ in_blocks fl x -> ~ in_used u x -> m' !! x = m !! x).
Proof.
  intros [Hb Ho Hl Hu Hsep Hap] Hfuel. pose proof Hb as (Hb1 & Hb2 & Hb3).
  apply Forall_app in Hu as [Hu1 Hu2]. inversion_clear Hu2 as [|? ? Hok Hu3].
  apply Forall_app in Hsep as [Hs1 Hs2]. inversion_clear Hs2 as [|? ? Hsu Hs3].
  apply FOP_middle in Hap as (Hap & Hap1 & Hap2). rewrite dealloc_node by done.
  destruct Hok as (U1 & U2 & U3 & U4 & U5 & U6 & U7 & Wm & Ws & Wp). destruct u as [a s pad].
  unfold in_used in *. cbn [ub_addr ub_size ub_pad] in *.
  set (fl1 := match fl with [] => [] | _ => insert_node a s fl end).
  destruct (relink_released fuel (store32 m (a + 4) s) al fl a s)
    as (m1 & al1 & -> & E1 & E2 & Hl1 & Hf1); try done; try (words; done); try lia.
  { eapply (lseg_frame m); [exact Ho|lia|lia| |exact Hl]. intros x Hx.
    assert (~ (a <= x < a + s)) by (intros Hc; by apply (Hsu x Hc)). by untouched. }
  assert (Ho1 : ordered (start al) fl1 (start al + la_size al))
    by (unfold fl1; destruct fl; [done|by apply insert_node_ordered]).
  assert (Hb' : bounds al1) by (unfold bounds; by rewrite E1, E2).
  cbn [mbind comp_bind]. destruct (merge_free_areas_spec fuel m1 al1 fl1 Hb')
    as (m2 & -> & Hl2 & Hf2); [by rewrite E1, E2|done|
      unfold fl1; destruct fl; [simpl; lia|rewrite length_insert_node; simpl in *; lia]|].
  assert (Hrel : released a s fl = merged fl1) by (unfold fl1; by destruct fl).
  assert (Hin : forall x, in_blocks fl1 x -> a <= x < a + s \/ in_blocks fl x).
  { intros x. unfold fl1. destruct fl; [done|]. by rewrite insert_node_blocks. }
  assert (Hout : forall x, ~ in_blocks fl x -> ~ (a <= x < a + s) -> m2 !! x = m !! x).
  { intros x Hx1 Hx2. rewrite Hf2, Hf1 by (done || (intros Hc; apply Hin in Hc; tauto)). by untouched. }
  exists m2, al1. split; [done|]. split; [done|]. split; [done|]. split; [|done].
  assert (Hall : Forall (fun v => forall x, in_used v x -> ~ in_blocks fl x /\ ~ (a <= x < a + s)) (used1 ++ used2)).
  { rewrite Forall_app. rewrite !Forall_forall in *. unfold in_used in *. cbn [ub_addr ub_size] in *.
    split; intros v Hv x Hx; (split; [by eauto|]); intros Hc; [by eapply (Hap1 v)|by eapply (Hap2 v)]. }
  split; rewrite ?E1, ?E2, ?Hrel; [done|by apply merged_ordered|done| | |done].
  - rewrite Forall_forall in Hall |- *. intros v Hv. apply (used_ok_frame m); [lia|lia| |].
    + intros x Hx. by apply Hout; apply (Hall v Hv x Hx).
    + rewrite Forall_forall in Hu1, Hu3. apply elem_of_app in Hv as [Hv|Hv]; auto.
  - eapply Forall_impl; [exact Hall|]. intros v Hv x Hx Hc.
    rewrite (merged_blocks _ _ _ _ Ho1) in Hc. apply Hin in Hc. destruct (Hv x Hx). tauto.
Qed.

(** * The theorems *)

(** C10: [alloc] is first fit and safe.  Either no free node fits and nothing changes, or the
    first one that fits is taken: the pointer is aligned, its bytes lie in the taken node,
    which lies in the free node; the heap invariant holds with the new node allocated, so it
    overlaps no other; and only bytes of free nodes are written, so the contents of every
    allocation are kept. *)
Theorem alloc_first_fit fuel m al fl used layout :
  heap_inv m al fl used -> layout_ok al layout -> (length fl <= fuel)%nat ->
  (Forall (fun b => fits layout b = false) fl /\ alloc fuel m al layout = Ret (m, al, 0)) \/
  exists l1 a s l2 m' al' u, fl = l1 ++ (a, s) :: l2 /\
    Forall (fun b => fits layout b = false) l1 /\ fits layout (a, s) = true /\
    alloc fuel m al layout = Ret (m', al', data u) /\ data u mod layout_align layout = 0 /\
    ub_addr u = a /\ data u + layout_size layout <= a + ub_size u <= a + s /\
    heap_inv m' al' (free_after layout l1 a s l2) (u :: used) /\
    (forall x, ~ in_blocks fl x -> m' !! x = m !! x).
Proof.
  intros Hinv Hlay Hfuel. destruct (alloc_cases fuel m al fl used layout Hinv Hlay Hfuel)
    as [H|(l1 & a & s & l2 & m' & al' & -> & Hno & Hfit & Heq & _ & _ & Hinv' & Hf)]; [by left|right].
  exists l1, a, s, l2, m', al', (taken layout a s).1. do 4 (split; [done|]).
  destruct (take_facts m al used layout l1 a s l2 Hinv Hlay Hfit) as (k & Hk & Hal & Hsz & _ & _ & _ & _ & _ & _ & _ & _ & _ & Hp & He & _).
  rewrite take_data. destruct (align_up_spec (a + 12) k ltac:(lia)) as [_ Hmod].
  split; [by rewrite Hal|]. split; [by unfold taken; destruct (_ >? _)|]. split; [|done].
  unfold taken. destruct (Z.gtb_spec (a + s - (align_up (a + 12) (layout_align layout) + layout_size layout)) 16);
    simpl; [|lia].
  destruct (align_up_spec (align_up (a + 12) (layout_align layout) + layout_size layout) 2 ltac:(lia)) as [Hup _].
  change (2 ^ 2) with 4 in Hup. lia.
Qed.

(** C11: [dealloc] of a pointer that [alloc] returned frees exactly its node: every other
    allocation keeps its contents, and while some node is free the node joins the
    address-ordered free list, merged with its neighbours.  When no node is free the node is
    lost: the free list stays empty, and every later allocation finds nothing. *)
Theorem dealloc_returns_node fuel m al fl used1 u used2 :
  heap_inv m al fl (used1 ++ u :: used2) -> (length fl + 1 <= fuel)%nat ->
  exists m' al', dealloc fuel m al (data u) = Ret (m', al') /\
    match fl with
    | [] => heap_inv m' al' [] (used1 ++ used2) /\
        forall layout, layout_ok al layout -> alloc fuel m' al' layout = Ret (m', al', 0)
    | _ => heap_inv m' al' (merged (insert_node (ub_addr u) (ub_size u) fl)) (used1 ++ used2)
    end /\
    (forall x, ~ in_blocks fl x -> ~ in_used u x -> m' !! x = m !! x).
Proof.
  intros Hinv Hfuel. destruct (dealloc_cases fuel m al fl used1 u used2 Hinv Hfuel)
    as (m' & al' & H1 & E1 & E2 & H2 & H3). exists m', al'. split; [done|]. split; [|done].
  destruct fl as [|b fl]; [|done]. split; [done|]. intros layout Hlay.
  destruct (alloc_cases fuel m' al' [] (used1 ++ used2) layout H2) as [[_ H]|(l1 & a & s & l2 & _ & _ & Hf & _)];
    [unfold layout_ok; by rewrite E1, E2|simpl; lia|done|by destruct l1].
Qed.

(** Splitting a node does not change the merged list. *)
Lemma coalesce_split b t l1 a x y l2 :
  coalesce b t (l1 ++ (a, x) :: (a + x, y) :: l2) = coalesce b t (l1 ++ (a, x + y) :: l2).
Proof.
  revert b t. induction l1 as [|[c r] l1 IH]; intros b t; simpl.
  - destruct (Z.eqb_spec (b + t) a) as [<-|].
    + rewrite (proj2 (Z.eqb_eq (b + (t + x)) (b + t + x))) by lia. by rewrite Z.add_assoc.
    + by rewrite Z.eqb_refl.
  - by rewrite !IH.
Qed.

Lemma merged_split l1 a x y l2 :
  merged (l1 ++ (a, x) :: (a + x, y) :: l2) = merged (l1 ++ (a, x + y) :: l2).
Proof. destruct l1 as [|[b t] l1]; simpl; [by rewrite Z.eqb_refl|apply coalesce_split]. Qed.

Lemma insert_node_mid lo a s l1 t r l2 hi :
  ordered lo l1 a -> ordered a ((t, r) :: l2) hi -> a < t ->
  insert_node a s (l1 ++ (t, r) :: l2) = l1 ++ (a, s) :: (t, r) :: l2.
Proof.
  revert lo. induction l1 as [|[b z] l1 IH]; intros lo H1 H2 Hat; simpl.
  - destruct (Z.ltb_spec a t); [done|lia].
  - simpl in H1. destruct H1 as (_ & _ & _ & Hz & H1). pose proof (ordered_le _ _ _ H1).
    destruct (Z.ltb_spec a b); [lia|]. by rewrite (IH _ H1 H2 Hat).
Qed.

(** Linking the rest of a split node and the node itself restores the list. *)
Lemma released_split al m used l1 a s l2 x :
  heap_inv m al (l1 ++ (a, s) :: l2) used -> 12 <= x -> 12 <= s - x -> x mod 4 = 0 ->
  released a x (l1 ++ (a + x, s - x) :: l2) = merged (l1 ++ (a, s) :: l2).
Proof.
  intros Hinv Hx Hsx Hx4.
  destruct (ordered_mid _ _ _ _ _ _ (hi_ordered _ _ _ _ Hinv)) as (Ho1 & Ha4 & Hs4 & _ & Ho2).
  assert (released a x (l1 ++ (a + x, s - x) :: l2) = merged (insert_node a x (l1 ++ (a + x, s - x) :: l2))) as -> by by destruct l1.
  erewrite insert_node_mid; [|exact Ho1| |lia].
  - rewrite merged_split. by replace (x + (s - x)) with s by lia.
  - simpl. split_and!; [lia|mlia|mlia|lia|]. by replace (a + x + (s - x)) with (a + s) by lia.
Qed.

(** A node used whole is linked before its successors; without one it is not linked. *)
Lemma released_whole al m used l1 a s l2 :
  heap_inv m al (l1 ++ (a, s) :: l2) used ->
  released a s l2 = match l2 with [] => [] | _ => merged ((a, s) :: l2) end.
Proof.
  intros Hinv. destruct (ordered_mid _ _ _ _ _ _ (hi_ordered _ _ _ _ Hinv)) as (_ & _ & _ & Hs & Ho2).
  destruct l2 as [|[b t] l2]; [done|]. simpl in Ho2. unfold released. cbn [insert_node].
  destruct (Z.ltb_spec a b); [done|lia].
Qed.

(** C34: Freeing a pointer just allocated.  When the node it was taken from had more than 16
    bytes to spare, the free list is as before, with adjacent nodes merged.  When the node was
    used whole, it comes back with the free nodes after it, merged, while the nodes before it
    are lost, and the node itself is lost as well when no free node follows it.  The
    allocations are as before in each case. *)
Theorem dealloc_undoes_alloc fuel m al fl used layout m' al' ptr :
  heap_inv m al fl used -> layout_ok al layout -> (length fl + 1 <= fuel)%nat ->
  alloc fuel m al layout = Ret (m', al', ptr) -> ptr <> 0 ->
  exists l1 a s l2 m'' al'', fl = l1 ++ (a, s) :: l2 /\ a + 12 <= ptr /\ ptr + layout_size layout <= a + s /\
    dealloc fuel m' al' ptr = Ret (m'', al'') /\
    heap_inv m'' al''
      (if a + s - (ptr + layout_size layout) >? 16 then merged fl
       else match l2 with [] => [] | _ => merged ((a, s) :: l2) end) used.
Proof.
  intros Hinv Hlay Hfuel Halloc Hptr.
  destruct (alloc_cases fuel m al fl used layout Hinv Hlay ltac:(lia))
    as [[_ H]|(l1 & a & s & l2 & m1 & al1 & -> & Hno & Hfit & Heq & E1 & E2 & Hinv' & Hf)]; [congruence|].
  rewrite Heq in Halloc. injection Halloc as <- <- <-.
  destruct (take_facts m al used layout l1 a s l2 Hinv Hlay Hfit) as (k & Hk & Hal & Hsz & _ & _ & _ & Hlo & Hhi & Ha & Ha4 & Hs4 & Hs & Hp & He & _).
  destruct (dealloc_cases fuel m1 al1 _ [] _ used Hinv') as (m2 & al2 & Hd & _ & _ & Hinv2 & _).
  { unfold free_after. destruct (taken layout a s) as [u [|x l]] eqn:Et; revert Et; unfold taken; destruct (_ >? _); intros [=]; subst;
      simpl; rewrite ?length_app in *; simpl in *; lia. }
  exists l1, a, s, l2, m2, al2. split; [done|]. rewrite take_data in Hd |- *. split; [lia|]. split; [lia|]. split; [done|].
  unfold free_after, taken in Hinv2. cbn [app] in Hinv2.
  set (e := align_up (a + 12) (layout_align layout) + layout_size layout) in *.
  destruct (align_up_spec e 2 ltac:(lia)) as [Hup Hup4]. change (2 ^ 2) with 4 in *.
  destruct (Z.gtb_spec (a + s - e) 16); cbn [fst snd ub_addr ub_size app] in Hinv2.
  - replace (align_up e 4) with (a + (align_up e 4 - a)) in Hinv2 at 2 by lia.
    replace (a + s - align_up e 4) with (s - (align_up e 4 - a)) in Hinv2 by lia.
    by rewrite (released_split al m used) in Hinv2 by (done || lia || mlia).
  - by rewrite (released_whole al m used l1) in Hinv2.
Qed.

(** * Growing the heap *)

Lemma last_free_loop_spec fuel m first p l a s lo hi :
  ordered lo (l ++ [(a, s)]) hi -> 0 < lo -> lseg m p (l ++ [(a, s)]) 0 -> (length l < fuel)%nat ->
  last_free_loop fuel m first p = Ret a.
Proof.
  revert fuel p lo. induction l as [|[b t] l IH]; intros fuel p lo Ho Hlo Hl Hfuel;
    (destruct fuel as [|fuel]; [simpl in Hfuel; lia|]); simpl in Hl, Ho; cbn [last_free_loop];
    unfold AllocNode.get_next, AllocNode.next.
  - destruct Hl as (-> & _ & _ & Hn). destruct (Z.eqb_spec a 0); [lia|]. cbn [negb]. by rewrite Hn.
  - destruct Hl as (-> & _ & _ & Hl), Ho as (H1 & _ & _ & H2 & H3).
    destruct (Z.eqb_spec b 0); [lia|]. cbn [negb].
    assert (load32 m (b + 8) <> 0).
    { destruct l as [|[c r] l]; simpl in Hl, H3; destruct Hl as (-> & _); lia. }
    destruct (Z.eqb_spec (load32 m (b + 8)) 0); [done|].
    eapply IH; [exact H3|lia|done|simpl in Hfuel; lia].
Qed.

Lemma expand_size_spec fuel m al fl used new_size :
  heap_inv m al fl used -> fl <> [] -> (length fl + 1 <= fuel)%nat ->
  la_size al + 12 <= new_size < 2147483648 -> start al + new_size < 4294967296 ->
  start al mod 4 = 0 -> la_size al mod 4 = 0 -> new_size mod 4 = 0 ->
  exists m' al', expand_size fuel m al new_size = Ret (m', al') /\ start al' = start al /\
    la_size al' = new_size /\
    heap_inv m' al' (merged (fl ++ [(start al + la_size al, new_size - la_size al)])) used /\
    (forall u x, u ∈ used -> in_used u x -> m' !! x = m !! x).
Proof.
  intros [(Hb1 & Hb2 & Hb3) Ho Hl Hu Hsep Hap] Hne Hfuel Hn1 Hn2 Hm1 Hm2 Hm3.
  set (h := start al + la_size al) in *.
  assert (Happ : exists l a s, fl = l ++ [(a, s)])
    by (destruct fl as [|[a s] l _] using rev_ind; [done|by exists l, a, s]).
  destruct Happ as (l & a & s & ->). pose proof Ho as Ho'. apply ordered_app in Ho' as (mid & Hol & Hoa).
  pose proof (ordered_le _ _ _ Hol). simpl in Hoa. destruct Hoa as (G1 & G2 & G3 & G4 & G5).
  unfold expand_size, get_last_free_node. destruct (Z.ltb_spec new_size (la_size al)); [lia|].
  fold h. rewrite !u32_small by (unfold h; mach_unfold; lia). node_unfold.
  rewrite small_size by lia. set (n := new_size - la_size al) in *.
  set (m1 := store32 _ (h + 8) 0).
  assert (Hf1 : forall x, x < h -> m1 !! x = m !! x) by (intros x Hx; unfold m1; by untouched).
  assert (Hl1 : lseg m1 (first_free al) (l ++ [(a, s)]) 0).
  { eapply (lseg_frame m); [exact Ho|lia|lia| |done]. intros x Hx.
    apply Hf1. by apply (ordered_in _ _ _ _ Ho). }
  rewrite (last_free_loop_spec fuel m1 _ _ l a s _ _ Ho Hb1 Hl1) by (rewrite length_app in Hfuel; simpl in Hfuel; lia).
  cbn [mbind comp_bind]. set (m2 := store32 m1 (a + 8) h).
  pose proof (lseg_set_last m1 _ _ l a s 0 h _ Ho ltac:(lia) ltac:(lia) ltac:(mach_unfold; lia) Hl1) as Hl2.
  set (al' := mkListAllocator (start al) new_size (first_free al)).
  assert (Hb' : bounds al') by (unfold bounds; simpl; lia).
  assert (Ho2 : ordered (start al') ((l ++ [(a, s)]) ++ [(h, n)]) (start al' + la_size al')).
  { apply ordered_app. exists h. split; [exact Ho|]. unfold n, h. simpl. split_and!; try lia; mlia. }
  assert (Hl3 : lseg m2 (first_free al') ((l ++ [(a, s)]) ++ [(h, n)]) 0).
  { apply lseg_app. exists h. split; [exact Hl2|]. unfold m2, m1. simpl. words. by split_and!. }
  destruct (merge_free_areas_spec fuel m2 al' _ Hb' Ho2 Hl3) as (m3 & -> & Hl4 & Hf4);
    [rewrite !length_app in *; simpl in *; lia|].
  exists m3, al'. split; [done|]. split; [done|]. split; [done|].
  assert (Hout : forall x, x < h -> ~ in_blocks (l ++ [(a, s)]) x -> m3 !! x = m !! x).
  { intros x Hx1 Hx2. rewrite Hf4 by (rewrite in_blocks_app; simpl; intros [?|[?|?]]; [tauto|lia|done]).
    unfold m2. rewrite store32_lookup_ne; [by apply Hf1|space|].
    intros Hc. apply Hx2. apply in_blocks_app. right. left. lia. }
  assert (Hkeep : forall u x, u ∈ used -> in_used u x -> m3 !! x = m !! x).
  { intros u x Hin Hx. rewrite Forall_forall in Hu, Hsep. destruct (Hu u Hin) as (U1 & U2 & U3).
    apply Hout; [unfold in_used in *; lia|by apply (Hsep u)]. }
  split; [|done].
  split; [done|by apply merged_ordered|done| | |done]; rewrite Forall_forall in *; intros u Hin.
  - assert (Hok : used_ok m3 (start al) h u).
    { apply (used_ok_frame m); [lia|lia| |by apply Hu]. intros x Hx. by apply (Hkeep u). }
    destruct Hok as (V1 & V2 & V3). split; [done|]. split; [simpl; lia|done].
  - intros x Hx Hc. rewrite (merged_blocks _ _ _ _ Ho2), in_blocks_app in Hc. simpl in Hc.
    destruct (Hu u Hin) as (U1 & U2 & U3). unfold in_used in Hx.
    destruct Hc as [Hc|[Hc|Hc]]; [by apply (Hsep u Hin x)|lia|done].
Qed.

(** Growing a heap whose free list is not empty adds the new space to the list, merged
    with the last node when they touch, and keeps every allocation. *)
Theorem expand_size_adds_space fuel m al fl used new_size :
  heap_inv m al fl used -> fl <> [] -> (length fl + 1 <= fuel)%nat ->
  la_size al + 12 <= new_size < 2147483648 -> start al + new_size < 4294967296 ->
  start al mod 4 = 0 -> la_size al mod 4 = 0 -> new_size mod 4 = 0 ->
  exists m' al', expand_size fuel m al new_size = Ret (m', al') /\ la_size al' = new_size /\
    heap_inv m' al' (merged (fl ++ [(start al + la_size al, new_size - la_size al)])) used /\
    (forall u x, u ∈ used -> in_used u x -> m' !! x = m !! x).
Proof.
  intros H1 H2 H3 H4 H5 H6 H7 H8.
  destruct (expand_size_spec fuel m al fl used new_size H1 H2 H3 H4 H5 H6 H7 H8) as (m' & al' & ? & _ & ? & ?).
  by exists m', al'.
Qed.

(** Growing a heap whose free list is empty is lost: the link to the new space is
    written to address 8 and every later allocation still fails. *)
Theorem expand_size_empty_list fuel m al used new_size layout :
  heap_inv m al [] used -> la_size al + 12 <= new_size -> start al + new_size < 4294967296 ->
  0x1000 <= start al ->
  exists m' al', expand_size fuel m al new_size = Ret (m', al') /\
    load32 m' 8 = start al + la_size al /\ alloc fuel m' al' layout = Ret (m', al', 0).
Proof.
  intros [(Hb1 & Hb2 & Hb3) _ Hl _ _ _] Hn1 Hn2 Hs. simpl in Hl.
  unfold expand_size, get_last_free_node, merge_free_areas, alloc. rewrite Hl.
  destruct (Z.ltb_spec new_size (la_size al)); [lia|].
  assert (forall f m first, last_free_loop f m first 0 = Ret first) as -> by by destruct f.
  cbn [mbind comp_bind first_free].
  assert (forall f m, merge_loop f m 0 = Ret m) as -> by by destruct f. cbn [mbind comp_bind].
  eexists _, _. split; [reflexivity|]. split; [|simpl; by destruct fuel].
  node_unfold. simpl (0 + 8). rewrite load32_store32_eq by auto with mach. apply u32_small. mach_unfold. lia.
Qed.

(** * Witnesses

    A page-sized heap at 0x1000, before and after an allocation of 100 bytes. *)

Definition demo_heap : mem * ListAllocator := new ∅ 0x1000 0x1000.
Definition demo_layout : Layout := mkLayout 100 8.
Definition demo_used : used_block := mkUsed 0x1000 116 8.
Definition demo_heap2 : mem * ListAllocator :=
  match alloc 10 demo_heap.1 demo_heap.2 demo_layout with
  | Ret (m, al, _) => (m, al)
  | _ => demo_heap
  end.
Definition demo_heap3 : mem * ListAllocator :=
  match alloc 10 demo_heap.1 demo_heap.2 (mkLayout 4076 8) with
  | Ret (m, al, _) => (m, al)
  | _ => demo_heap
  end.

Lemma demo_heap_inv : heap_inv demo_heap.1 demo_heap.2 [(0x1000, 0x1000)] [].
Proof.
  split; [unfold bounds; simpl; lia|simpl; by split_and!| |by constructor..].
  vm_compute. by split_and!.
Qed.

Lemma demo_heap2_inv : heap_inv demo_heap2.1 demo_heap2.2 [(0x1074, 0xf8c)] [demo_used].
Proof.
  assert (E : demo_heap2.2 = mkListAllocator 0x1000 0x1000 0x1074) by by vm_compute.
  split; rewrite ?E; [unfold bounds; simpl; lia|simpl; by split_and!|vm_compute; by split_and!| | |].
  - constructor; [|done]. unfold used_ok. vm_compute. by split_and!.
  - constructor; [|done]. unfold in_used. simpl. intros x Hx [?|?]; [lia|done].
  - repeat constructor.
Qed.

Lemma demo_heap3_inv : heap_inv demo_heap3.1 demo_heap3.2 [] [mkUsed 0x1000 0x1000 8].
Proof.
  assert (E : demo_heap3.2 = mkListAllocator 0x1000 0x1000 0) by by vm_compute.
  split; rewrite ?E; [unfold bounds; simpl; lia|simpl; lia|done| | |].
  - constructor; [|done]. unfold used_ok. vm_compute. by split_and!.
  - constructor; [intros x _ Hc; exact Hc|done].
  - repeat constructor.
Qed.

Lemma demo_layout_ok : layout_ok demo_heap.2 demo_layout.
Proof. split; [by exists 3|]. simpl. lia. Qed.

Lemma alloc_first_fit_witness :
  (Forall (fun b => fits demo_layout b = false) [(0x1000, 0x1000)] /\
   alloc 10 demo_heap.1 demo_heap.2 demo_layout = Ret (demo_heap.1, demo_heap.2, 0)) \/
  exists l1 a s l2 m' al' u, [(0x1000, 0x1000)] = l1 ++ (a, s) :: l2 /\
    Forall (fun b => fits demo_layout b = false) l1 /\ fits demo_layout (a, s) = true /\
    alloc 10 demo_heap.1 demo_heap.2 demo_layout = Ret (m', al', data u) /\ data u mod 8 = 0 /\
    ub_addr u = a /\ data u + 100 <= a + ub_size u <= a + s /\
    heap_inv m' al' (free_after demo_layout l1 a s l2) [u] /\
    (forall x, ~ in_blocks [(0x1000, 0x1000)] x -> m' !! x = demo_heap.1 !! x).
Proof.
  apply (alloc_first_fit 10 demo_heap.1 demo_heap.2 [(0x1000, 0x1000)] [] demo_layout
    demo_heap_inv demo_layout_ok). simpl. lia.
Defined.

Lemma dealloc_returns_node_witness :
  exists m' al', dealloc 10 demo_heap2.1 demo_heap2.2 0x1010 = Ret (m', al') /\
    heap_inv m' al' [(0x1000, 0x1000)] [] /\
    (forall x, ~ in_blocks [(0x1074, 0xf8c)] x -> ~ in_used demo_used x ->
       m' !! x = demo_heap2.1 !! x).
Proof.
  apply (dealloc_returns_node 10 demo_heap2.1 demo_heap2.2 [(0x1074, 0xf8c)] [] demo_used []
    demo_heap2_inv). simpl. lia.
Defined.

Lemma dealloc_undoes_alloc_witness :
  exists l1 a s l2 m'' al'', [(0x1000, 0x1000)] = l1 ++ (a, s) :: l2 /\ a + 12 <= 0x1010 /\ 0x1010 + 100 <= a + s /\
    dealloc 10 demo_heap2.1 demo_heap2.2 0x1010 = Ret (m'', al'') /\
    heap_inv m'' al'' (if a + s - (0x1010 + 100) >? 16 then [(0x1000, 0x1000)]
      else match l2 with [] => [] | _ => merged ((a, s) :: l2) end) [].
Proof.
  apply (dealloc_undoes_alloc 10 demo_heap.1 demo_heap.2 [(0x1000, 0x1000)] [] demo_layout
    demo_heap2.1 demo_heap2.2 0x1010 demo_heap_inv);
    [apply demo_layout_ok|simpl; lia|by vm_compute|done].
Defined.

Lemma expand_size_adds_space_witness :
  exists m' al', expand_size 10 demo_heap2.1 demo_heap2.2 0x3000 = Ret (m', al') /\
    la_size al' = 0x3000 /\ heap_inv m' al' [(0x1074, 0x2f8c)] [demo_used] /\
    (forall u x, u ∈ [demo_used] -> in_used u x -> m' !! x = demo_heap2.1 !! x).
Proof.
  apply (expand_size_adds_space 10 demo_heap2.1 demo_heap2.2 [(0x1074, 0xf8c)] [demo_used] 0x3000
    demo_heap2_inv);
    (replace demo_heap2.2 with (mkListAllocator 0x1000 0x1000 0x1074) by by vm_compute); first [done | simpl; lia].
Defined.

Lemma expand_size_empty_list_witness :
  exists m' al', expand_size 10 demo_heap3.1 demo_heap3.2 0x3000 = Ret (m', al') /\
    load32 m' 8 = start demo_heap3.2 + la_size demo_heap3.2 /\
    alloc 10 m' al' demo_layout = Ret (m', al', 0).
Proof.
  apply (expand_size_empty_list 10 demo_heap3.1 demo_heap3.2 [mkUsed 0x1000 0x1000 8] 0x3000 demo_layout
    demo_heap3_inv);
    (replace demo_heap3.2 with (mkListAllocator 0x1000 0x1000 0) by by vm_compute); simpl; lia.
Defined.
