(* ===== verification/Region.v ===== *)
(** Virtual memory regions: [memory/virt/region.rs]. *)

From S2P Require Import Prelude Address.

Inductive ExpansionDirection : Type := Before | After | NoExpansion.
#[global] Instance ExpansionDirection_eq_dec : EqDecision ExpansionDirection.
Proof. solve_decision. Defined.

#[global] Instance FrameRange_eq_dec : EqDecision FrameRange.
Proof. solve_decision. Defined.

(** A [LocalHandle] is a 32-bit number. *)
Inductive MemoryRegionType : Type :=
| MemMapped (drive : Z) (handle : Z) (file_length : Z)
| Direct (range : FrameRange)
| Anonymous (direction : ExpansionDirection)
| DMA (range : FrameRange).
#[global] Instance MemoryRegionType_eq_dec : EqDecision MemoryRegionType.
Proof. solve_decision. Defined.

Inductive Permissions : Type := ReadOnly | ReadWrite | CopyOnWrite.
#[global] Instance Permissions_eq_dec : EqDecision Permissions.
Proof. solve_decision. Defined.

Record VirtualMemoryRegion : Type := mkRegion {
  start : Z;
  size : Z;
  backed_by : MemoryRegionType;
  permissions : Permissions
}.
#[global] Instance VirtualMemoryRegion_eq_dec : EqDecision VirtualMemoryRegion.
Proof. solve_decision. Defined.

Module VirtualMemoryRegion.

Definition new := mkRegion.
Definition empty : VirtualMemoryRegion := mkRegion 0 0 (Anonymous NoExpansion) ReadOnly.
Definition set_starting_address (r : VirtualMemoryRegion) (a : Z) : VirtualMemoryRegion :=
  mkRegion a (size r) (backed_by r) (permissions r).
Definition get_starting_address (r : VirtualMemoryRegion) : Z := start r.
Definition get_starting_address_as_usize (r : VirtualMemoryRegion) : Z := start r.
Definition get_size (r : VirtualMemoryRegion) : Z := size r.
Definition set_size (r : VirtualMemoryRegion) (s : Z) : VirtualMemoryRegion :=
  mkRegion (start r) s (backed_by r) (permissions r).
Definition contains_address (r : VirtualMemoryRegion) (addr : Z) : bool :=
  (addr >=? start r) && (addr <? start r +u size r).
Definition backing_type (r : VirtualMemoryRegion) : MemoryRegionType := backed_by r.
Definition get_permissions (r : VirtualMemoryRegion) : Permissions := permissions r.

(** The region and its new size. *)
Definition expand (r : VirtualMemoryRegion) (new_frame_count : Z) : VirtualMemoryRegion * Z :=
  let expansion_size := new_frame_count *u 0x1000 in
  let r' :=
    match backed_by r with
    | Anonymous After => set_size r (size r +u expansion_size)
    | Anonymous Before =>
        if start r >=? expansion_size
        then set_size (set_starting_address r (start r -u expansion_size)) (size r +u expansion_size)
        else r
    | _ => r
    end in
  (r', size r').

Definition copy_with_permissions (r : VirtualMemoryRegion) (p : Permissions) : VirtualMemoryRegion :=
  mkRegion (start r) (size r) (backed_by r) p.
Definition copy_for_new_process (r : VirtualMemoryRegion) : VirtualMemoryRegion :=
  copy_with_permissions r (permissions r).

Definition cmp (r o : VirtualMemoryRegion) : comparison :=
  (get_starting_address_as_usize r ?= get_starting_address_as_usize o).
Definition eq (r o : VirtualMemoryRegion) : bool :=
  get_starting_address_as_usize r =? get_starting_address_as_usize o.

(** The region does not wrap around the address space. *)
Definition wf (r : VirtualMemoryRegion) : Prop :=
  0 <= start r /\ 0 <= size r /\ start r + size r < 4294967296.

Lemma contains_address_spec r a :
  wf r -> contains_address r a = true <-> start r <= a < start r + size r.
Proof.
  intros (H1 & H2 & H3). unfold contains_address. rewrite u32_small by (mach_unfold; lia).
  rewrite andb_true_iff, Z.geb_leb, Z.leb_le, Z.ltb_lt. done.
Qed.

(** Expansion keeps every address and moves one end by whole pages, unless the region does
    not grow in that direction or would pass the bottom of the address space. *)
Lemma expand_spec r n :
  wf r -> 0 <= n -> size r + n * 4096 + start r < 4294967296 ->
  let '(r', sz) := expand r n in
  wf r' /\ sz = size r' /\ backed_by r' = backed_by r /\ permissions r' = permissions r /\
  (forall a, contains_address r a = true -> contains_address r' a = true) /\
  match backed_by r with
  | Anonymous After => start r' = start r /\ size r' = size r + n * 4096
  | Anonymous Before =>
      start r' + size r' = start r + size r /\
      size r' = if n * 4096 <=? start r then size r + n * 4096 else size r
  | _ => r' = r
  end.
Proof.
  intros Hwf Hn Hb. pose proof Hwf as (H1 & H2 & H3). unfold expand.
  rewrite (u32_small (n * 0x1000)) by (mach_unfold; lia).
  assert (Hgrow : forall r', wf r' -> start r' <= start r -> start r + size r <= start r' + size r' ->
    forall a, contains_address r a = true -> contains_address r' a = true).
  { intros r' Hwf' Hs He a. rewrite !contains_address_spec by done. lia. }
  destruct (backed_by r) as [? ? ?|?|[| |]|?] eqn:E; try (by rewrite ?E; split_and!).
  - rewrite Z.geb_leb. destruct (Z.leb_spec (n * 4096) (start r)); [|by rewrite ?E; split_and!].
    unfold set_size, set_starting_address. rewrite !u32_small by (mach_unfold; simpl; lia).
    assert (Hw : wf (mkRegion (start r - n * 4096) (size r + n * 4096) (backed_by r) (permissions r)))
      by (unfold wf; simpl; lia).
    simpl in *. rewrite E in *. split_and!; try done; try lia. apply Hgrow; simpl; done || lia.
  - unfold set_size. rewrite u32_small by (mach_unfold; lia).
    assert (Hw : wf (mkRegion (start r) (size r + n * 4096) (backed_by r) (permissions r)))
      by (unfold wf; simpl; lia).
    simpl in *. rewrite E in *. split_and!; try done; try lia. apply Hgrow; simpl; done || lia.
Qed.

End VirtualMemoryRegion.
