(* ===== verification/PageTable.v ===== *)
(** Paging: [memory/virt/page_entry.rs], [memory/virt/page_table.rs],
    [memory/virt/page_directory.rs] and [memory/virt/mod.rs].

    The state is the physical memory, the page directory register and the physical
    allocator.  Every access of the kernel to a table goes through the two-level walk of the
    processor ([walk]) from a virtual address, so the self-reference of the last directory
    entry and the temporary page are not assumed but computed.  Pages are 4 KiB (no size
    extension) and supervisor writes ignore the write flag (CR0.WP is clear). *)

From S2P Require Import Prelude Memory Address FrameBitmap Physical Region.

(** * Entries *)

Definition ENTRY_GLOBAL : Z := Z.shiftl 1 8.
Definition ENTRY_SIZE_EXTENDED : Z := Z.shiftl 1 7.
Definition ENTRY_DIRTY : Z := Z.shiftl 1 6.
Definition ENTRY_ACCESSED : Z := Z.shiftl 1 5.
Definition ENTRY_CACHE_DISABLED : Z := Z.shiftl 1 4.
Definition ENTRY_WRITE_THROUGH : Z := Z.shiftl 1 3.
Definition ENTRY_USER_ACCESS : Z := Z.shiftl 1 2.
Definition ENTRY_WRITE_ACCESS : Z := Z.shiftl 1 1.
Definition ENTRY_PRESENT : Z := 1.

Module PageTableEntry.

Definition new : Z := 0.
Definition zero (e : Z) : Z := 0.
Definition get_address (e : Z) : Z := e &u 0xfffff000.
Definition set_address (addr e : Z) : Z :=
  let addr_bits := addr &u 0xfffff000 in
  (e &u 0xfff) |u addr_bits.
Definition has_been_accessed (e : Z) : bool := (e &u ENTRY_ACCESSED) =? ENTRY_ACCESSED.
Definition set_user_access (e : Z) : Z := e |u ENTRY_USER_ACCESS.
Definition clear_user_access (e : Z) : Z := e &u not32 ENTRY_USER_ACCESS.
Definition is_user_access_granted (e : Z) : bool := (e &u ENTRY_USER_ACCESS) =? ENTRY_USER_ACCESS.
Definition set_write_access (e : Z) : Z := e |u ENTRY_WRITE_ACCESS.
Definition clear_write_access (e : Z) : Z := e &u not32 ENTRY_WRITE_ACCESS.
Definition is_write_access_granted (e : Z) : bool := (e &u ENTRY_WRITE_ACCESS) =? ENTRY_WRITE_ACCESS.
Definition set_present (e : Z) : Z := e |u ENTRY_PRESENT.
Definition clear_present (e : Z) : Z := e &u not32 ENTRY_PRESENT.
Definition is_present (e : Z) : bool := (e &u ENTRY_PRESENT) =? ENTRY_PRESENT.
Definition set_flags (flags e : Z) : Z := (e &u 0xffe0) |u (flags &u 0x1f).
Definition get_flags (e : Z) : Z := e &u 0x1f.

End PageTableEntry.

Definition USER_ACCESS : Z := 1.
Definition WRITE_ACCESS : Z := 2.

(** * The machine *)

(** [flushed] records the pages whose translation was invalidated, latest first. *)
Record VM : Type := mkVM {
  phys : mem;
  cr3 : Z;
  frames : PhysState;
  flushed : list Z
}.
Definition set_phys (v : VM) (m : mem) : VM := mkVM m (cr3 v) (frames v) (flushed v).
Definition set_frames (v : VM) (p : PhysState) : VM := mkVM (phys v) (cr3 v) p (flushed v).

(** The cells of the two-level walk and the entries found there. *)
Definition pde_addr (dir vaddr : Z) : Z := dir + 4 * VirtualAddress.get_page_directory_index vaddr.
Definition pde (m : mem) (dir vaddr : Z) : Z := load32 m (pde_addr dir vaddr).
Definition pte_addr (m : mem) (dir vaddr : Z) : Z :=
  PageTableEntry.get_address (pde m dir vaddr) + 4 * VirtualAddress.get_page_table_index vaddr.
Definition pte (m : mem) (dir vaddr : Z) : Z := load32 m (pte_addr m dir vaddr).

(** The physical address of a virtual one, [None] when a page fault is raised. *)
Definition walk (m : mem) (dir vaddr : Z) : option Z :=
  if PageTableEntry.is_present (pde m dir vaddr) then
    if PageTableEntry.is_present (pte m dir vaddr) then
      Some (PageTableEntry.get_address (pte m dir vaddr) + vaddr mod 4096)
    else None
  else None.

(** A fault on a page table is not recoverable. *)
Definition vload (v : VM) (vaddr : Z) : comp Z :=
  match walk (phys v) (cr3 v) vaddr with Some p => Ret (load32 (phys v) p) | None => Panic end.
Definition vstore (v : VM) (vaddr x : Z) : comp VM :=
  match walk (phys v) (cr3 v) vaddr with
  | Some p => Ret (set_phys v (store32 (phys v) p x))
  | None => Panic
  end.

Definition set_current_pagedir (v : VM) (addr : Z) : VM := mkVM (phys v) addr (frames v) (flushed v).
Definition get_current_pagedir (v : VM) : Z := cr3 v.
Definition invalidate_page (v : VM) (addr : Z) : VM :=
  mkVM (phys v) (cr3 v) (frames v) (addr :: flushed v).

Definition vm_allocate_frame (v : VM) : comp (VM * result Z BitmapError) :=
  '(p, r) ← allocate_frame (frames v); Ret (set_frames v p, r).
Definition vm_allocate_unwrap (v : VM) : comp (VM * Z) :=
  '(v, r) ← vm_allocate_frame v;
  match r with Ok f => Ret (v, f) | Err _ => Panic end.

(** * Tables *)

Definition TABLE_ENTRY_COUNT : Z := 1024.
Definition SELF_REFERENCE_INDEX : Z := 1023.
Definition TEMP_REFERENCE_INDEX : Z := 1022.

Module PageTable.

(** A table is named by the virtual address it is seen at. *)
Definition get (v : VM) (table i : Z) : comp Z := vload v (table +u 4 * (i &u 0x3ff)).
Definition modify (v : VM) (table i : Z) (f : Z -> Z) : comp VM :=
  e ← get v table i; vstore v (table +u 4 * (i &u 0x3ff)) (f e).
Definition zero (v : VM) (table : Z) : comp VM :=
  for_each (fun i v => modify v table i PageTableEntry.zero) (seqZ 0 1024) v.

End PageTable.

(** * Directories *)

Definition SELF_DIRECTORY : Z := 0xfffff000.
Definition SELF_TABLES : Z := 0xffc00000.
Definition get_temporary_page_address : Z := 0xffbff000.
Definition get_current_page_address : Z := 0xfffff000.

Definition map_frame_to_temporary_page (v : VM) (frame : Z) : comp VM :=
  let last_table := 0xffffe000 in
  v ← PageTable.modify v last_table 1023 (PageTableEntry.set_address (Frame.get_address frame));
  v ← PageTable.modify v last_table 1023 PageTableEntry.set_present;
  Ret (invalidate_page v get_temporary_page_address).

(** The entry for a page: address, present, and the permissions asked for. *)
Definition write_entry (v : VM) (table table_index paddr flags : Z) : comp VM :=
  v ← PageTable.modify v table table_index (PageTableEntry.set_address paddr);
  v ← PageTable.modify v table table_index PageTableEntry.set_present;
  v ← (if negb ((flags &u WRITE_ACCESS) =? 0)
       then PageTable.modify v table table_index PageTableEntry.set_write_access else Ret v);
  (if negb ((flags &u USER_ACCESS) =? 0)
   then PageTable.modify v table table_index PageTableEntry.set_user_access else Ret v).

(** A fresh table in the directory seen at [directory]. *)
Definition link_table (v : VM) (directory dir_index table_frame : Z) : comp VM :=
  v ← PageTable.modify v directory dir_index
        (PageTableEntry.set_address (Frame.get_address table_frame));
  v ← PageTable.modify v directory dir_index PageTableEntry.set_present;
  if dir_index <? 768 then
    v ← PageTable.modify v directory dir_index PageTableEntry.set_user_access;
    PageTable.modify v directory dir_index PageTableEntry.set_write_access
  else Ret v.

Module CurrentPageDirectory.

Definition unmap (v : VM) (vaddr : Z) : comp VM :=
  let dir_index := VirtualAddress.get_page_directory_index vaddr in
  let table_index := VirtualAddress.get_page_table_index vaddr in
  e ← PageTable.get v SELF_DIRECTORY dir_index;
  if negb (PageTableEntry.is_present e) then Ret v
  else
    let table := SELF_TABLES +u (0x1000 *u dir_index) in
    e ← PageTable.get v table table_index;
    if negb (PageTableEntry.is_present e) then Ret v
    else
      v ← PageTable.modify v table table_index PageTableEntry.clear_present;
      Ret (invalidate_page v vaddr).

Fixpoint unmap_region_loop (fuel : nat) (v : VM) (region : VirtualMemoryRegion) (page_start : Z)
  : comp VM :=
  if VirtualMemoryRegion.contains_address region page_start then
    match fuel with
    | O => OutOfFuel
    | S fuel' =>
        v ← unmap v page_start;
        unmap_region_loop fuel' v region (VirtualAddress.offset page_start 0x1000)
    end
  else Ret v.
Definition unmap_region (fuel : nat) (v : VM) (region : VirtualMemoryRegion) : comp VM :=
  unmap_region_loop fuel v region (VirtualMemoryRegion.get_starting_address_as_usize region).

Definition map (v : VM) (frame vaddr flags : Z) : comp VM :=
  let paddr := Frame.get_address frame in
  let dir_index := VirtualAddress.get_page_directory_index vaddr in
  let table_index := VirtualAddress.get_page_table_index vaddr in
  let table_address := SELF_TABLES +u (dir_index *u 0x1000) in
  entry ← PageTable.get v SELF_DIRECTORY dir_index;
  if negb (PageTableEntry.is_present entry) then
    '(v, table_frame) ← vm_allocate_unwrap v;
    v ← link_table v SELF_DIRECTORY dir_index table_frame;
    v ← PageTable.zero v table_address;
    write_entry v table_address table_index paddr flags
  else
    e ← PageTable.get v table_address table_index;
    let needs_invalidation := PageTableEntry.is_present e in
    v ← write_entry v table_address table_index paddr flags;
    Ret (if needs_invalidation then invalidate_page v vaddr else v).

End CurrentPageDirectory.

Module AlternatePageDirectory.

(** [directory_address] is the only field. *)
Definition map (v : VM) (directory_address frame vaddr flags : Z) : comp VM :=
  let pagedir_frame := Frame.new directory_address in
  v ← map_frame_to_temporary_page v pagedir_frame;
  let dir_index := VirtualAddress.get_page_directory_index vaddr in
  let table_index := VirtualAddress.get_page_table_index vaddr in
  let temp := get_temporary_page_address in
  e ← PageTable.get v temp dir_index;
  if negb (PageTableEntry.is_present e) then
    '(v, table_frame) ← vm_allocate_unwrap v;
    v ← link_table v temp dir_index table_frame;
    v ← map_frame_to_temporary_page v table_frame;
    v ← PageTable.zero v temp;
    write_entry v temp table_index (Frame.get_address frame) flags
  else
    e ← PageTable.get v temp dir_index;
    let addr := PageTableEntry.get_address e in
    v ← map_frame_to_temporary_page v (Frame.new addr);
    e ← PageTable.get v temp table_index;
    let needs_invalidation := PageTableEntry.is_present e in
    v ← write_entry v temp table_index (Frame.get_address frame) flags;
    Ret (if needs_invalidation then invalidate_page v vaddr else v).

(** The loop the three copies share: [body] gets the entry of a mapped page of the current
    directory. *)
Fixpoint region_loop (fuel : nat) (body : VM -> Z -> Z -> comp VM) (v : VM)
    (region : VirtualMemoryRegion) (page_start : Z) : comp VM :=
  if VirtualMemoryRegion.contains_address region page_start then
    match fuel with
    | O => OutOfFuel
    | S fuel' =>
        let directory_index := VirtualAddress.get_page_directory_index page_start in
        d ← PageTable.get v SELF_DIRECTORY directory_index;
        v ← (if PageTableEntry.is_present d then
               let table_index := VirtualAddress.get_page_table_index page_start in
               let table := SELF_TABLES +u (0x1000 *u directory_index) in
               e ← PageTable.get v table table_index;
               if PageTableEntry.is_present e then body v page_start e else Ret v
             else Ret v);
        region_loop fuel' body v region (VirtualAddress.offset page_start 0x1000)
    end
  else Ret v.
Definition over_region fuel body v region :=
  region_loop fuel body v region (VirtualMemoryRegion.get_starting_address_as_usize region).

Definition copy_mapping_directly (fuel : nat) (v : VM) (directory_address : Z)
    (region : VirtualMemoryRegion) : comp VM :=
  over_region fuel (fun v page_start e =>
    let frame_paddr := PageTableEntry.get_address e in
    let flags := if PageTableEntry.is_user_access_granted e then USER_ACCESS else 0 in
    let flags := if PageTableEntry.is_write_access_granted e then flags |u WRITE_ACCESS else flags in
    map v directory_address (Frame.new frame_paddr) page_start flags) v region.

(** The word-by-word copy from the page to the temporary page. *)
Definition copy_page (v : VM) (from to : Z) : comp VM :=
  for_each (fun i v => x ← vload v (from +u 4 * i); vstore v (to +u 4 * i) x) (seqZ 0 1024) v.

Definition copy_frames (fuel : nat) (v : VM) (directory_address : Z)
    (region : VirtualMemoryRegion) : comp VM :=
  over_region fuel (fun v page_start _ =>
    '(v, new_frame) ← vm_allocate_unwrap v;
    v ← map_frame_to_temporary_page v new_frame;
    v ← copy_page v page_start get_temporary_page_address;
    let flags := WRITE_ACCESS in
    let flags := if page_start <? 0xc0000000 then flags |u USER_ACCESS else flags in
    map v directory_address new_frame page_start flags) v region.

Definition map_with_copy_on_write (fuel : nat) (v : VM) (directory_address : Z)
    (region : VirtualMemoryRegion) : comp VM :=
  over_region fuel (fun v page_start e =>
    let frame_paddr := PageTableEntry.get_address e in
    '(p, _) ← reference_frame_at_address (frames v) frame_paddr;
    let v := set_frames v p in
    let flags := if PageTableEntry.is_user_access_granted e then USER_ACCESS else 0 in
    let table := SELF_TABLES +u (0x1000 *u VirtualAddress.get_page_directory_index page_start) in
    v ← PageTable.modify v table (VirtualAddress.get_page_table_index page_start)
          PageTableEntry.clear_write_access;
    map v directory_address (Frame.new frame_paddr) page_start flags) v region.

Definition map_region (fuel : nat) (v : VM) (directory_address : Z) (region : VirtualMemoryRegion)
  : comp VM :=
  match VirtualMemoryRegion.backing_type region with
  | Direct _ => Panic
  | DMA _ => Panic
  | MemMapped _ _ _ => Panic
  | Anonymous _ =>
      match VirtualMemoryRegion.get_permissions region with
      | ReadOnly => copy_mapping_directly fuel v directory_address region
      | ReadWrite => copy_frames fuel v directory_address region
      | CopyOnWrite => map_with_copy_on_write fuel v directory_address region
      end
  end.

End AlternatePageDirectory.

(** * Entries as an address and twelve flag bits *)

Lemma land_low_page x a : 0 <= x < 4096 -> a mod 4096 = 0 -> Z.land x a = 0.
Proof.
  intros Hx Ha. apply Z.bits_inj'. intros i Hi. rewrite Z.land_spec, Z.bits_0.
  destruct (Z.lt_ge_cases i 12).
  - assert (Z.testbit a i = false) as ->; [|by rewrite andb_false_r].
    rewrite <- (Z.mod_pow2_bits_low a 12) by lia. change (2 ^ 12) with 4096.
    by rewrite Ha, Z.bits_0.
  - by rewrite (testbit_high x 12) by lia.
Qed.

Lemma lor_page x a : 0 <= x < 4096 -> a mod 4096 = 0 -> Z.lor x a = a + x.
Proof.
  intros Hx Ha. pose proof (Z.add_lor_land x a). rewrite land_low_page in * by done. lia.
Qed.

Lemma lor_flags a f g :
  a mod 4096 = 0 -> 0 <= f < 4096 -> 0 <= g < 4096 -> Z.lor (a + f) g = a + Z.lor f g.
Proof.
  intros Ha Hf Hg. rewrite <- (lor_page f a), <- Z.lor_assoc, (Z.lor_comm a g), Z.lor_assoc by done.
  apply lor_page; [|done]. by apply (lor_bound f g 12).
Qed.

Lemma get_address_split a f :
  a mod 4096 = 0 -> 0 <= f < 4096 -> is_u32 (a + f) -> PageTableEntry.get_address (a + f) = a.
Proof. intros Ha Hf Hu. unfold PageTableEntry.get_address. rewrite land_page by done. mlia. Qed.

Lemma get_address_aligned e : is_u32 e -> Frame.aligned (PageTableEntry.get_address e).
Proof. intros He. unfold PageTableEntry.get_address, Frame.aligned. rewrite land_page by done. mlia. Qed.

Lemma set_address_split a e :
  Frame.aligned a -> PageTableEntry.set_address a e = a + e mod 4096.
Proof.
  intros [Ha1 Ha2]. unfold PageTableEntry.set_address. rewrite land_fff, land_page by done.
  rewrite lor_page by (mlia || lia). lia.
Qed.

Lemma is_present_split a f :
  a mod 4096 = 0 -> PageTableEntry.is_present (a + f) = Z.odd f.
Proof.
  intros Ha. unfold PageTableEntry.is_present, ENTRY_PRESENT.
  pose proof (Z.land_ones (a + f) 1 ltac:(lia)) as H. change (Z.ones 1) with 1 in H.
  change (2 ^ 1) with 2 in H. rewrite H, Zmod_odd.
  assert (Z.odd (a + f) = Z.odd f) as ->.
  { rewrite Z.odd_add. assert (Z.odd a = false) as ->; [|by destruct (Z.odd f)].
    rewrite <- Z.negb_even. apply negb_false_iff, Z.even_spec. exists (a / 2). mlia. }
  by destruct (Z.odd f).
Qed.

Lemma clear_present_absent e : PageTableEntry.is_present (PageTableEntry.clear_present e) = false.
Proof.
  unfold PageTableEntry.is_present, PageTableEntry.clear_present, ENTRY_PRESENT.
  assert (Z.land (Z.land e (not32 1)) 1 = 0) as ->; [|done].
  rewrite <- Z.land_assoc. by rewrite Z.land_0_r.
Qed.

Lemma clear_present_u32 e : is_u32 e -> is_u32 (PageTableEntry.clear_present e).
Proof. intros He. by apply (land_bound e _ 32). Qed.

(** The entry [write_entry] leaves. *)
Definition entry_value (old paddr flags : Z) : Z :=
  let e := PageTableEntry.set_present (PageTableEntry.set_address paddr old) in
  let e := if negb ((flags &u WRITE_ACCESS) =? 0) then PageTableEntry.set_write_access e else e in
  if negb ((flags &u USER_ACCESS) =? 0) then PageTableEntry.set_user_access e else e.

(** The directory entry [link_table] leaves. *)
Definition link_value (old frame dir_index : Z) : Z :=
  let e := PageTableEntry.set_present (PageTableEntry.set_address frame old) in
  if dir_index <? 768 then PageTableEntry.set_write_access (PageTableEntry.set_user_access e) else e.

(** Setting flags after the address: the address is kept and the entry is present. *)
Lemma entry_shape a old fs :
  Frame.aligned a -> is_u32 old -> 0 <= fs < 4096 -> Z.odd fs = true ->
  let e := Z.lor (PageTableEntry.set_address a old) fs in
  is_u32 e /\ PageTableEntry.get_address e = a /\ PageTableEntry.is_present e = true.
Proof.
  intros [Ha1 Ha2] Ho Hf Hodd. cbv zeta. rewrite set_address_split by done.
  assert (Hm : 0 <= old mod 4096 < 4096) by mlia. rewrite lor_flags by done.
  assert (Hl : 0 <= Z.lor (old mod 4096) fs < 4096) by (by apply (lor_bound _ _ 12)).
  assert (Hu : is_u32 (a + Z.lor (old mod 4096) fs)) by mlia.
  split; [done|]. split; [by apply get_address_split|]. rewrite is_present_split by done.
  by rewrite <- !Z.bit0_odd, Z.lor_spec, (Z.bit0_odd fs), Hodd, orb_true_r in *.
Qed.

Lemma entry_value_shape old a flags :
  Frame.aligned a -> is_u32 old ->
  is_u32 (entry_value old a flags) /\ PageTableEntry.get_address (entry_value old a flags) = a /\
  PageTableEntry.is_present (entry_value old a flags) = true.
Proof.
  intros Ha Ho. unfold entry_value, PageTableEntry.set_present, PageTableEntry.set_write_access,
    PageTableEntry.set_user_access.
  destruct (negb _), (negb _); rewrite <- ?Z.lor_assoc;
    (apply entry_shape; [done|done|by vm_compute|done]).
Qed.

Lemma link_value_shape old a d :
  Frame.aligned a -> is_u32 old ->
  is_u32 (link_value old a d) /\ PageTableEntry.get_address (link_value old a d) = a /\
  PageTableEntry.is_present (link_value old a d) = true.
Proof.
  intros Ha Ho. unfold link_value, PageTableEntry.set_present, PageTableEntry.set_write_access,
    PageTableEntry.set_user_access.
  destruct (d <? 768); rewrite <- ?Z.lor_assoc;
    (apply entry_shape; [done|done|by vm_compute|done]).
Qed.

(** * The walk *)

(** The last entry of the directory refers to the directory. *)
Definition self_mapped (m : mem) (dir : Z) : Prop :=
  Frame.aligned dir /\ PageTableEntry.is_present (load32 m (dir + 4092)) = true /\
  PageTableEntry.get_address (load32 m (dir + 4092)) = dir.

(** The directory entry [d] and the table it refers to. *)
Definition dir_entry (m : mem) (dir d : Z) : Z := load32 m (dir + 4 * d).
Definition table_of (m : mem) (dir d : Z) : Z := PageTableEntry.get_address (dir_entry m dir d).
Definition has_table (m : mem) (dir d : Z) : Prop :=
  PageTableEntry.is_present (dir_entry m dir d) = true.

Lemma table_aligned m dir d : Frame.aligned (table_of m dir d).
Proof. apply get_address_aligned, load32_range. Qed.

Lemma aligned_space f i : Frame.aligned f -> 0 <= i < 1024 -> in_space (f + 4 * i) 4.
Proof. intros [Hf1 Hf2] Hi. unfold in_space. mlia. Qed.

(** Cells of different frames, or different cells of one frame, do not overlap. *)
Lemma cells_apart f i g j :
  Frame.aligned f -> Frame.aligned g -> 0 <= i < 1024 -> 0 <= j < 1024 ->
  (f <> g \/ i <> j) -> apart (f + 4 * i) 4 (g + 4 * j) 4.
Proof. intros [Hf1 Hf2] [Hg1 Hg2] Hi Hj Hne. unfold apart. mlia. Qed.

Lemma indices d t o :
  0 <= d < 1024 -> 0 <= t < 1024 -> 0 <= o < 4096 ->
  let a := d * 0x400000 + t * 0x1000 + o in
  VirtualAddress.get_page_directory_index a = d /\ VirtualAddress.get_page_table_index a = t /\
  a mod 4096 = o.
Proof.
  intros Hd Ht Ho. cbv zeta. unfold VirtualAddress.get_page_directory_index, VirtualAddress.get_page_table_index.
  rewrite !shr_div, land_3ff by lia. change (2 ^ 22) with 4194304. change (2 ^ 12) with 4096. mlia.
Qed.

(** The directory is seen through its last entry, and so is every table. *)
Lemma walk_self_directory m dir d :
  self_mapped m dir -> 0 <= d < 1024 -> walk m dir (SELF_DIRECTORY + 4 * d) = Some (dir + 4 * d).
Proof.
  intros ((Ha1 & Ha2) & Hp & Hg) Hd.
  replace (SELF_DIRECTORY + 4 * d) with (1023 * 0x400000 + 1023 * 0x1000 + 4 * d)
    by (unfold SELF_DIRECTORY; lia).
  destruct (indices 1023 1023 (4 * d)) as (E1 & E2 & E3); try lia.
  unfold walk, pte, pte_addr, pde, pde_addr. rewrite E1, E2, E3.
  change (4 * 1023) with 4092. by rewrite Hp, Hg, Hp, Hg.
Qed.

Lemma walk_self_table m dir d t :
  self_mapped m dir -> 0 <= d < 1024 -> 0 <= t < 1024 -> has_table m dir d ->
  walk m dir (SELF_TABLES + 0x1000 * d + 4 * t) = Some (table_of m dir d + 4 * t).
Proof.
  intros ((Ha1 & Ha2) & Hp & Hg) Hd Ht He.
  replace (SELF_TABLES + 0x1000 * d + 4 * t) with (1023 * 0x400000 + d * 0x1000 + 4 * t)
    by (unfold SELF_TABLES; lia).
  destruct (indices 1023 d (4 * t)) as (E1 & E2 & E3); try lia.
  unfold walk, pte, pte_addr, pde, pde_addr. rewrite E1, E2, E3.
  change (4 * 1023) with 4092. rewrite Hp, Hg. unfold has_table, dir_entry in He. by rewrite He.
Qed.

(** What a walk reads: one directory cell and one table cell. *)
Lemma walk_ext m m' dir a :
  pde m' dir a = pde m dir a -> pte m' dir a = pte m dir a -> walk m' dir a = walk m dir a.
Proof. unfold walk. by intros -> ->. Qed.

Lemma self_mapped_ext m m' dir :
  load32 m' (dir + 4092) = load32 m (dir + 4092) -> self_mapped m dir -> self_mapped m' dir.
Proof. unfold self_mapped. by intros ->. Qed.

(** * Access to tables *)

(** [table] is a virtual address where the frame [f] is seen, and stays so while [f] is
    written. *)
Definition seen_at (v : VM) (table f : Z) : Prop :=
  Frame.aligned table /\ Frame.aligned f /\
  forall i, 0 <= i < 1024 -> walk (phys v) (cr3 v) (table + 4 * i) = Some (f + 4 * i).

Lemma index_mask i : 0 <= i < 1024 -> Z.land i 0x3ff = i.
Proof. intros. rewrite land_3ff. mlia. Qed.

Lemma get_seen v table f i :
  seen_at v table f -> 0 <= i < 1024 ->
  PageTable.get v table i = Ret (load32 (phys v) (f + 4 * i)).
Proof.
  intros ((Ht1 & Ht2) & Hf & Hw) Hi. unfold PageTable.get, vload. rewrite index_mask by done.
  rewrite u32_small by mlia. by rewrite Hw.
Qed.

Lemma modify_seen v table f i g :
  seen_at v table f -> 0 <= i < 1024 ->
  PageTable.modify v table i g =
  Ret (set_phys v (store32 (phys v) (f + 4 * i) (g (load32 (phys v) (f + 4 * i))))).
Proof.
  intros Hs Hi. unfold PageTable.modify. erewrite get_seen by done. cbn [mbind comp_bind].
  destruct Hs as ((Ht1 & Ht2) & Hf & Hw). unfold vstore. rewrite index_mask by done.
  rewrite u32_small by mlia. by rewrite Hw.
Qed.

(** Cells of [f] that are not read to reach [f] itself. *)
Definition stable (v : VM) (table f i : Z) : Prop :=
  seen_at v table f /\
  forall x, seen_at (set_phys v (store32 (phys v) (f + 4 * i) x)) table f.

Lemma modify_stable v table f i g x :
  stable v table f i -> 0 <= i < 1024 -> is_u32 x ->
  PageTable.modify (set_phys v (store32 (phys v) (f + 4 * i) x)) table i g =
  Ret (set_phys v (store32 (phys v) (f + 4 * i) (g x))).
Proof.
  intros [_ Hs] Hi Hx. rewrite (modify_seen _ table f i g (Hs x) Hi). cbn [phys set_phys].
  rewrite load32_store32_eq by done. unfold set_phys. simpl. by rewrite store32_store32.
Qed.

Lemma write_entry_spec v table f i paddr flags :
  stable v table f i -> 0 <= i < 1024 -> Frame.aligned paddr ->
  write_entry v table i paddr flags =
  Ret (set_phys v (store32 (phys v) (f + 4 * i)
         (entry_value (load32 (phys v) (f + 4 * i)) paddr flags))).
Proof.
  intros Hs Hi Hp. unfold write_entry, entry_value.
  rewrite (modify_seen v table f i) by (apply Hs || done). cbn [mbind comp_bind].
  set (old := load32 (phys v) (f + 4 * i)). assert (Ho : is_u32 old) by apply load32_range.
  assert (H0 : is_u32 (PageTableEntry.set_address paddr old))
    by (rewrite set_address_split by done; destruct Hp; mlia).
  assert (H1 : is_u32 (PageTableEntry.set_present (PageTableEntry.set_address paddr old)))
    by (apply lor_u32; [done|by vm_compute]).
  rewrite (modify_stable v) by done. cbn [mbind comp_bind].
  destruct (negb ((flags &u WRITE_ACCESS) =? 0)).
  - rewrite (modify_stable v) by done. cbn [mbind comp_bind].
    destruct (negb _); [|done]. rewrite (modify_stable v); [done..|].
    apply lor_u32; [done|by vm_compute].
  - cbn [mbind comp_bind]. destruct (negb _); [|done]. by rewrite (modify_stable v).
Qed.

Lemma link_table_spec v table f d frame :
  stable v table f d -> 0 <= d < 1024 -> Frame.aligned frame ->
  link_table v table d frame =
  Ret (set_phys v (store32 (phys v) (f + 4 * d) (link_value (load32 (phys v) (f + 4 * d)) frame d))).
Proof.
  intros Hs Hi Hp. unfold link_table, link_value, Frame.get_address.
  rewrite (modify_seen v table f d) by (apply Hs || done). cbn [mbind comp_bind].
  set (old := load32 (phys v) (f + 4 * d)). assert (Ho : is_u32 old) by apply load32_range.
  assert (H0 : is_u32 (PageTableEntry.set_address frame old))
    by (rewrite set_address_split by done; destruct Hp; mlia).
  assert (H1 : is_u32 (PageTableEntry.set_present (PageTableEntry.set_address frame old)))
    by (apply lor_u32; [done|by vm_compute]).
  rewrite (modify_stable v) by done. cbn [mbind comp_bind].
  destruct (d <? 768); [|done].
  rewrite (modify_stable v) by done. cbn [mbind comp_bind]. rewrite (modify_stable v); [done..|].
  apply lor_u32; [done|by vm_compute].
Qed.

(** [table] keeps showing [f] whatever is written to [f]. *)
Definition window (v : VM) (table f : Z) : Prop :=
  Frame.aligned table /\ Frame.aligned f /\
  forall m', (forall x, ~ (f <= x < f + 4096) -> m' !! x = phys v !! x) ->
    seen_at (set_phys v m') table f.

Lemma window_seen v table f : window v table f -> seen_at v table f.
Proof. intros (_ & _ & H). by destruct v; apply (H phys0). Qed.

Lemma store_in_frame f i m x y :
  Frame.aligned f -> 0 <= i < 1024 -> ~ (f <= y < f + 4096) -> store32 m (f + 4 * i) x !! y = m !! y.
Proof. intros Hf Hi Hy. apply store32_lookup_ne; [by apply aligned_space|lia]. Qed.

Lemma window_stable v table f i : window v table f -> 0 <= i < 1024 -> stable v table f i.
Proof.
  intros Hw Hi. split; [by apply window_seen|]. intros x. destruct Hw as (_ & Hf & Hw).
  apply Hw. intros y Hy. by apply store_in_frame.
Qed.

Lemma window_set v table f m' :
  window v table f -> (forall x, ~ (f <= x < f + 4096) -> m' !! x = phys v !! x) ->
  window (set_phys v m') table f.
Proof.
  intros (Ht & Hf & Hw) Hm. split; [done|]. split; [done|]. intros m2 Hm2. simpl in Hm2.
  apply (Hw m2). intros x Hx. by rewrite Hm2, Hm.
Qed.

Lemma zero_loop_spec v table f n i :
  window v table f -> 0 <= i -> i + Z.of_nat n <= 1024 ->
  for_each (fun i v => PageTable.modify v table i PageTableEntry.zero) (seqZ i (Z.of_nat n)) v =
  Ret (set_phys v (zero_words n (f + 4 * i) (phys v))).
Proof.
  revert v i. induction n as [|n IH]; intros v i Hw Hi Hn.
  - simpl. by destruct v.
  - pose proof Hw as (_ & [Hf1 Hf2] & _). rewrite seqZ_cons by lia. cbn [for_each].
    rewrite (modify_seen v table f) by (lia || by apply window_seen). cbn [mbind comp_bind].
    replace (Z.succ i) with (i + 1) by lia. replace (Z.pred (Z.of_nat (S n))) with (Z.of_nat n) by lia.
    rewrite IH; [|apply window_set; [done|intros; apply store_in_frame; done || lia]|lia|lia].
    unfold set_phys, PageTableEntry.zero. simpl. do 2 f_equal. destruct n as [|n]; [done|].
    rewrite u32_small by mlia. f_equal; lia.
Qed.

Lemma zero_spec v table f :
  window v table f ->
  PageTable.zero v table = Ret (set_phys v (zero_words (Z.to_nat 1024) f (phys v))).
Proof.
  intros Hw. pose proof (zero_loop_spec v table f (Z.to_nat 1024) 0 Hw ltac:(lia) ltac:(by vm_compute)) as H.
  by rewrite Z.mul_0_r, Z.add_0_r in H.
Qed.

(** The directory and its tables as the current directory shows them. *)
Lemma self_aligned d : 0 <= d < 1024 -> Frame.aligned (SELF_TABLES + 0x1000 * d).
Proof. intros Hd. unfold Frame.aligned, SELF_TABLES. mlia. Qed.

Lemma directory_stable v d :
  self_mapped (phys v) (cr3 v) -> 0 <= d < 1023 -> stable v SELF_DIRECTORY (cr3 v) d.
Proof.
  intros Hs Hd. pose proof Hs as (Ha & _). split; [|intros x];
    (split; [by vm_compute|split; [done|]]); intros i Hi; simpl; apply walk_self_directory; try done.
  eapply self_mapped_ext; [|done]. replace (cr3 v + 4092) with (cr3 v + 4 * 1023) by lia.
  apply load32_store32_ne; [by apply aligned_space; [|lia]..|].
  apply cells_apart; try done; lia.
Qed.

Lemma table_window v d :
  self_mapped (phys v) (cr3 v) -> 0 <= d < 1023 -> has_table (phys v) (cr3 v) d ->
  table_of (phys v) (cr3 v) d <> cr3 v ->
  window v (SELF_TABLES + 0x1000 * d) (table_of (phys v) (cr3 v) d).
Proof.
  intros Hs Hd Hh Hne. pose proof Hs as ([Ha1 Ha2] & _).
  pose proof (table_aligned (phys v) (cr3 v) d) as Ht. destruct Ht as [Ht1 Ht2].
  split; [apply self_aligned; lia|]. split; [done|]. intros m' Hm'.
  assert (Hcell : forall i, 0 <= i < 1024 -> load32 m' (cr3 v + 4 * i) = load32 (phys v) (cr3 v + 4 * i)).
  { intros i Hi. apply load32_ext; [by apply aligned_space|]. intros x Hx. apply Hm'. mlia. }
  assert (He : dir_entry m' (cr3 v) d = dir_entry (phys v) (cr3 v) d) by (apply Hcell; lia).
  assert (Hs' : self_mapped m' (cr3 v)).
  { eapply self_mapped_ext; [|exact Hs]. apply (Hcell 1023). lia. }
  split; [apply self_aligned; lia|]. split; [done|]. intros i Hi. simpl.
  rewrite walk_self_table; [unfold table_of; by rewrite He|done|lia|done|unfold has_table; by rewrite He].
Qed.

(** Clearing a frame clears its cells and no others. *)
Lemma zero_memory_cell f m h j :
  Frame.aligned f -> Frame.aligned h -> 0 <= j < 1024 ->
  load32 (Frame.zero_memory f m) (h + 4 * j) = if decide (h = f) then 0 else load32 m (h + 4 * j).
Proof.
  intros [Hf1 Hf2] Hh Hj. unfold Frame.zero_memory, Frame.get_address. rewrite zero_words_load;
    [|mlia|destruct Hh; mlia|by apply aligned_space|unfold in_space; change (4 * Z.of_nat (Z.to_nat 1024)) with 4096; mlia].
  change (4 * Z.of_nat (Z.to_nat 1024)) with 4096. destruct Hh as [Hh1 Hh2].
  case_decide as E; destruct (Z.leb_spec f (h + 4 * j)), (Z.ltb_spec (h + 4 * j) (f + 4096)); simpl;
    try reflexivity; exfalso; mlia.
Qed.

(** * Mapping in the current directory *)

(** The directory and its tables lie in frames in use, apart from each other. *)
Record vm_ok (v : VM) (bm : FrameBitmap) : Prop := {
  vo_alloc : ALLOCATOR (frames v) = Some bm;
  vo_bm : FrameBitmap.wf bm;
  vo_self : self_mapped (phys v) (cr3 v);
  vo_dir : occupied bm (cr3 v / 4096) = true;
  vo_tables : forall d, 0 <= d < 1023 -> has_table (phys v) (cr3 v) d ->
    table_of (phys v) (cr3 v) d <> cr3 v /\ occupied bm (table_of (phys v) (cr3 v) d / 4096) = true
}.

(** No other directory entry shares the table of [d]. *)
Definition private (v : VM) (d : Z) : Prop :=
  forall d', 0 <= d' < 1023 -> d' <> d -> has_table (phys v) (cr3 v) d' ->
    table_of (phys v) (cr3 v) d' <> table_of (phys v) (cr3 v) d.

Notation dir_index := VirtualAddress.get_page_directory_index.
Notation table_index := VirtualAddress.get_page_table_index.

Lemma walk_cells m m' dir w :
  dir_entry m' dir (dir_index w) = dir_entry m dir (dir_index w) ->
  (has_table m dir (dir_index w) ->
   load32 m' (table_of m dir (dir_index w) + 4 * table_index w) =
   load32 m (table_of m dir (dir_index w) + 4 * table_index w)) ->
  walk m' dir w = walk m dir w.
Proof.
  unfold walk, pte, pte_addr, table_of, has_table. change (pde m' dir w) with (dir_entry m' dir (dir_index w)).
  change (pde m dir w) with (dir_entry m dir (dir_index w)). intros -> H.
  destruct (PageTableEntry.is_present _); [|done]. by rewrite H.
Qed.

(** The translation that an entry gives. *)
Lemma walk_entry m dir w f e :
  has_table m dir (dir_index w) -> table_of m dir (dir_index w) = f ->
  load32 m (f + 4 * table_index w) = e -> PageTableEntry.is_present e = true ->
  walk m dir w = Some (PageTableEntry.get_address e + w mod 4096).
Proof.
  unfold walk, pte, pte_addr, table_of, has_table. change (pde m dir w) with (dir_entry m dir (dir_index w)).
  intros -> -> -> He. by rewrite He.
Qed.

Lemma index_range w : is_u32 w -> 0 <= dir_index w < 1024 /\ 0 <= table_index w < 1024.
Proof. intros Hw. by destruct (VirtualAddress.indices_decompose w Hw) as (_ & ? & ?). Qed.

Lemma same_page w w' :
  is_u32 w -> is_u32 w' -> dir_index w = dir_index w' -> table_index w = table_index w' ->
  w / 4096 = w' / 4096.
Proof.
  intros Hw Hw' E1 E2. destruct (VirtualAddress.indices_decompose w Hw) as (H1 & _).
  destruct (VirtualAddress.indices_decompose w' Hw') as (H2 & _). rewrite H1, H2, E1, E2. mlia.
Qed.

(** Writing one entry of a table changes the translation of one page. *)
Lemma walk_store_entry m dir d t e w :
  Frame.aligned dir -> is_u32 w -> 0 <= d < 1023 -> 0 <= t < 1024 ->
  table_of m dir d <> dir ->
  (dir_index w <> d -> has_table m dir (dir_index w) -> table_of m dir (dir_index w) <> table_of m dir d) ->
  ~ (dir_index w = d /\ table_index w = t) ->
  walk (store32 m (table_of m dir d + 4 * t) e) dir w = walk m dir w.
Proof.
  intros Hdir Hw Hd Ht Hne Hpriv Hpage. destruct (index_range w Hw) as [Hdw Htw].
  pose proof (table_aligned m dir d) as Hta. pose proof (table_aligned m dir (dir_index w)) as Htwa.
  apply walk_cells.
  - apply load32_store32_ne; [by apply aligned_space..|]. by apply cells_apart; [..|left].
  - intros Hh. apply load32_store32_ne; [by apply aligned_space..|]. apply cells_apart; try done.
    destruct (decide (dir_index w = d)) as [E|E].
    + right. intros E2. apply Hpage. by rewrite E2.
    + left. intros E2. by apply Hpriv.
Qed.

Lemma has_table_store m dir d t e d' :
  Frame.aligned dir -> 0 <= d < 1023 -> 0 <= t < 1024 -> 0 <= d' < 1024 -> table_of m dir d <> dir ->
  dir_entry (store32 m (table_of m dir d + 4 * t) e) dir d' = dir_entry m dir d'.
Proof.
  intros Hdir Hd Ht Hd' Hne. pose proof (table_aligned m dir d) as Hta.
  apply load32_store32_ne; [by apply aligned_space..|]. by apply cells_apart; [..|left].
Qed.

Lemma vm_ok_store_entry v v' bm d t e :
  vm_ok v bm -> 0 <= d < 1023 -> 0 <= t < 1024 -> has_table (phys v) (cr3 v) d ->
  phys v' = store32 (phys v) (table_of (phys v) (cr3 v) d + 4 * t) e -> cr3 v' = cr3 v ->
  frames v' = frames v -> vm_ok v' bm.
Proof.
  intros [Ha Hb Hs Hd1 Hts] Hd Ht Hh E1 E2 E3. pose proof Hs as (Hal & _).
  destruct (Hts d Hd Hh) as [Hne _].
  assert (Hde : forall d', 0 <= d' < 1024 -> dir_entry (phys v') (cr3 v') d' = dir_entry (phys v) (cr3 v) d').
  { intros d' Hd'. rewrite E1, E2. by apply has_table_store. }
  split; rewrite ?E3, ?E2; [done..| |done|].
  - rewrite <- E2. eapply (self_mapped_ext (phys v)); [rewrite E2|by rewrite E2].
    specialize (Hde 1023 ltac:(lia)). unfold dir_entry in Hde. by rewrite E2 in Hde.
  - intros d' Hd'. unfold has_table, table_of. rewrite <- E2, Hde by lia. rewrite E2. by apply Hts.
Qed.

#[local] Opaque zero_words load32 store32 PageTableEntry.is_present PageTableEntry.get_address.

Section MapCurrent.
Context (v : VM) (bm : FrameBitmap) (frame vaddr flags : Z).
Context (Hok : vm_ok v bm) (Hv : is_u32 vaddr) (Hf : Frame.aligned frame) (Hd : dir_index vaddr < 1023).
Notation d := (dir_index vaddr).
Notation t := (table_index vaddr).
Notation m := (phys v).
Notation dir := (cr3 v).
Notation entry f m := (entry_value (load32 m (f + 4 * t)) frame flags).

Lemma map_indices : 0 <= d < 1023 /\ 0 <= t < 1024.
Proof. destruct (index_range vaddr Hv). lia. Qed.

Lemma map_table_address : SELF_TABLES +u (d *u 0x1000) = SELF_TABLES + 0x1000 * d.
Proof. destruct map_indices. unfold SELF_TABLES. mlia. Qed.

Lemma map_reads_directory : PageTable.get v SELF_DIRECTORY d = Ret (dir_entry m dir d).
Proof.
  destruct map_indices. apply get_seen; [|lia]. apply (directory_stable v d (vo_self _ _ Hok)). lia.
Qed.

(** The page table exists: one entry is written. *)
Lemma map_existing :
  has_table m dir d ->
  let f := table_of m dir d in
  exists v', CurrentPageDirectory.map v frame vaddr flags = Ret v' /\ cr3 v' = dir /\
    frames v' = frames v /\ phys v' = store32 m (f + 4 * t) (entry f m) /\
    flushed v' = if PageTableEntry.is_present (load32 m (f + 4 * t)) then vaddr :: flushed v else flushed v.
Proof.
  intros Hh. cbv zeta. destruct map_indices as [Hdi Hti].
  destruct (vo_tables _ _ Hok d Hdi Hh) as [Hne _].
  pose proof (table_window v d (vo_self _ _ Hok) Hdi Hh Hne) as Hw.
  unfold CurrentPageDirectory.map. rewrite map_reads_directory, map_table_address. cbn [mbind comp_bind].
  unfold has_table in Hh. rewrite Hh. cbn [negb].
  rewrite (get_seen v _ (table_of m dir d)) by (done || by apply window_seen). cbn [mbind comp_bind].
  rewrite (write_entry_spec v _ (table_of m dir d)) by (done || by apply window_stable). cbn [mbind comp_bind].
  eexists. split; [done|]. by destruct (PageTableEntry.is_present (load32 m (table_of m dir d + 4 * t))).
Qed.

(** The memory after a table in the frame [f] is linked, cleared and given one entry. *)
Definition fresh_table (f : Z) : mem :=
  let m1 := store32 m (dir + 4 * d) (link_value (dir_entry m dir d) f d) in
  let m2 := zero_words (Z.to_nat 1024) f m1 in
  store32 m2 (f + 4 * t) (entry f m2).

Lemma map_fresh s bm' :
  ~ has_table m dir d ->
  allocate_frame (frames v) = Ret (mkPhysState (Some bm') (REF_COUNT (frames v)), Ok (s * 4096)) ->
  0 <= s < 1048576 -> s * 4096 <> dir ->
  CurrentPageDirectory.map v frame vaddr flags =
  Ret (mkVM (fresh_table (s * 4096)) dir (mkPhysState (Some bm') (REF_COUNT (frames v))) (flushed v)).
Proof.
  intros Hh Hal Hs Hne. destruct map_indices as [Hdi Hti]. pose proof (vo_self _ _ Hok) as Hself.
  pose proof Hself as (Hda & _).
  assert (Hfa : Frame.aligned (s * 4096)) by (split; mlia).
  unfold CurrentPageDirectory.map. rewrite map_reads_directory, map_table_address. cbn [mbind comp_bind].
  unfold has_table in Hh. destruct (PageTableEntry.is_present (dir_entry m dir d)); [done|]. cbn [negb].
  unfold vm_allocate_unwrap, vm_allocate_frame. rewrite Hal. cbn [mbind comp_bind].
  set (v1 := set_frames v _). assert (Hst : stable v1 SELF_DIRECTORY (cr3 v1) d) by (apply directory_stable; [done|lia]).
  rewrite (link_table_spec v1 SELF_DIRECTORY (cr3 v1)) by (done || lia). cbn [mbind comp_bind].
  change (phys v1) with m. change (cr3 v1) with dir. fold (dir_entry m dir d).
  set (m1 := store32 m (dir + 4 * d) _). set (v2 := set_phys v1 m1).
  destruct (link_value_shape (dir_entry m dir d) (s * 4096) d Hfa ltac:(apply load32_range)) as (L1 & L2 & L3).
  assert (Hde : dir_entry m1 dir d = link_value (dir_entry m dir d) (s * 4096) d)
    by (by apply load32_store32_eq).
  assert (Hself2 : self_mapped m1 dir).
  { eapply self_mapped_ext; [|exact Hself]. replace (dir + 4092) with (dir + 4 * 1023) by lia.
    apply load32_store32_ne; [by apply aligned_space; [|lia]..|]. apply cells_apart; try done; lia. }
  assert (Htab : table_of m1 dir d = s * 4096) by (unfold table_of; by rewrite Hde).
  assert (Hw : window v2 (SELF_TABLES + 0x1000 * d) (s * 4096)).
  { rewrite <- Htab. apply (table_window v2 d); [done|lia|unfold has_table; cbn [phys cr3 v2 v1 set_phys set_frames]; by rewrite Hde|].
    cbn [phys cr3 v2 v1 set_phys set_frames]. by rewrite Htab. }
  rewrite (zero_spec v2 _ (s * 4096)) by done. cbn [mbind comp_bind].
  rewrite (write_entry_spec _ _ (s * 4096)); [done| |done|done].
  apply window_stable; [|done]. apply window_set; [done|]. intros x Hx.
  apply zero_words_lookup_ne; [unfold in_space; destruct Hfa; change (4 * Z.of_nat (Z.to_nat 1024)) with 4096; mlia|done].
Qed.

(** Its cells, frame by frame. *)
Lemma fresh_cells f g i :
  Frame.aligned f -> f <> dir -> Frame.aligned g -> 0 <= i < 1024 ->
  load32 (fresh_table f) (g + 4 * i) =
  if decide (g = f) then (if decide (i = t) then entry_value 0 frame flags else 0)
  else if decide (g = dir /\ i = d) then link_value (dir_entry m dir d) f d
  else load32 m (g + 4 * i).
Proof.
  intros Hfa Hne Hg Hi. destruct map_indices as [Hdi Hti]. pose proof (vo_self _ _ Hok) as (Hda & _).
  assert (Hz : forall h j m0, Frame.aligned h -> 0 <= j < 1024 ->
    load32 (zero_words (Z.to_nat 1024) f m0) (h + 4 * j) = if decide (h = f) then 0 else load32 m0 (h + 4 * j))
    by (intros; by apply zero_memory_cell).
  unfold fresh_table. rewrite (Hz f t _ Hfa Hti). rewrite (decide_True (P := f = f)) by done.
  destruct (entry_value_shape 0 frame flags Hf ltac:(by vm_compute)) as (E1 & _).
  destruct (link_value_shape (dir_entry m dir d) f d Hfa ltac:(apply load32_range)) as (L1 & _).
  case_decide as Eg; [subst g; case_decide as Ei; [subst i; by apply load32_store32_eq|]|].
  - rewrite load32_store32_ne by (by apply aligned_space || apply cells_apart; try done; right; congruence).
    rewrite Hz by done. by rewrite decide_True.
  - rewrite load32_store32_ne by (by apply aligned_space || apply cells_apart; try done; left; congruence).
    rewrite Hz, decide_False by done. case_decide as Ed.
    + destruct Ed as [-> ->]. by apply load32_store32_eq.
    + apply load32_store32_ne; [apply aligned_space; done || lia..|].
      apply cells_apart; try done; [lia|]. destruct (decide (g = dir)); [right; intros <-; by apply Ed|left; congruence].
Qed.

#[local] Opaque fresh_table.

Lemma fresh_has_table f d' :
  Frame.aligned f -> f <> dir -> 0 <= d' < 1024 ->
  dir_entry (fresh_table f) dir d' =
  if decide (d' = d) then link_value (dir_entry m dir d) f d else dir_entry m dir d'.
Proof.
  intros Hfa Hne Hd'. unfold dir_entry at 1. pose proof (vo_self _ _ Hok) as (Hda & _).
  rewrite fresh_cells, decide_False by (done || congruence).
  destruct (decide (d' = d)); [by rewrite decide_True|by rewrite decide_False by tauto].
Qed.

(** The fresh table gives the page its frame and changes no other translation. *)
Lemma fresh_walk f :
  Frame.aligned f -> occupied bm (f / 4096) = false -> ~ has_table m dir d ->
  walk (fresh_table f) dir vaddr = Some (frame + vaddr mod 4096) /\
  forall w, is_u32 w -> dir_index w < 1023 -> w / 4096 <> vaddr / 4096 ->
    walk (fresh_table f) dir w = walk m dir w.
Proof.
  intros Hfa Hfree Hnot. destruct map_indices as [Hdi Hti]. pose proof (vo_self _ _ Hok) as (Hda & _).
  assert (Hne : f <> dir) by (intros ->; rewrite (vo_dir _ _ Hok) in Hfree; done).
  destruct (entry_value_shape 0 frame flags Hf ltac:(by vm_compute)) as (_ & E2 & E3).
  destruct (link_value_shape (dir_entry m dir d) f d Hfa ltac:(apply load32_range)) as (_ & L2 & L3).
  assert (Hded : dir_entry (fresh_table f) dir d = link_value (dir_entry m dir d) f d)
    by (rewrite fresh_has_table, decide_True by (done || lia); done).
  split.
  - rewrite (walk_entry _ _ _ f (entry_value 0 frame flags)); [by rewrite E2| | | |done].
    + unfold has_table. by rewrite Hded.
    + unfold table_of. by rewrite Hded.
    + rewrite fresh_cells by done. by rewrite !decide_True.
  - intros w Hw Hdw Hpage. destruct (index_range w Hw) as [Hdw' Htw].
    destruct (decide (dir_index w = d)) as [E|E].
    + assert (Ht : table_index w <> t) by (intros Ht; by apply Hpage, same_page).
      assert (walk m dir w = None) as ->.
      { unfold walk. change (pde m dir w) with (dir_entry m dir (dir_index w)). rewrite E.
        unfold has_table in Hnot. destruct (PageTableEntry.is_present _); [by destruct Hnot|reflexivity]. }
      unfold walk. destruct (PageTableEntry.is_present (pde _ _ w)); [|done].
      unfold pte, pte_addr, pde, pde_addr. rewrite E. fold (dir_entry (fresh_table f) dir d).
      rewrite Hded, L2, fresh_cells by done. by rewrite decide_True, decide_False.
    + assert (Hde : dir_entry (fresh_table f) dir (dir_index w) = dir_entry m dir (dir_index w))
        by (rewrite fresh_has_table, decide_False by done; done).
      apply walk_cells; [done|]. intros Hh.
      destruct (vo_tables _ _ Hok (dir_index w) ltac:(lia) Hh) as [Hn1 Hn2].
      rewrite fresh_cells; [|assumption|assumption|apply table_aligned|assumption].
      rewrite decide_False by (intros Ec; rewrite Ec in Hn2; congruence). by rewrite decide_False by (intros [Ec _]; congruence).
Qed.

Lemma fresh_vm_ok s bm' :
  0 <= s < 1048576 -> occupied bm s = false -> FrameBitmap.wf bm' ->
  (forall j, 0 <= j -> occupied bm' j = (s =? j) || occupied bm j) ->
  vm_ok (mkVM (fresh_table (s * 4096)) dir (mkPhysState (Some bm') (REF_COUNT (frames v))) (flushed v)) bm'.
Proof.
  intros Hs Hfree Hwf Hocc. destruct map_indices as [Hdi Hti].
  pose proof (vo_self _ _ Hok) as Hself. pose proof Hself as ([Hda1 Hda2] & _).
  assert (Hfa : Frame.aligned (s * 4096)) by (split; mlia).
  assert (E : s * 4096 / 4096 = s) by mlia.
  assert (Hne : s * 4096 <> dir).
  { intros Ec. pose proof (vo_dir _ _ Hok) as Hd'. rewrite <- Ec, E in Hd'. congruence. }
  destruct (link_value_shape (dir_entry m dir d) (s * 4096) d Hfa ltac:(apply load32_range)) as (_ & L2 & L3).
  split; simpl; [done|done| | |].
  - eapply (self_mapped_ext m); [|done]. replace (dir + 4092) with (dir + 4 * 1023) by lia.
    rewrite fresh_cells by (done || lia). by rewrite decide_False, decide_False by (lia || congruence).
  - rewrite Hocc by mlia. by rewrite (vo_dir _ _ Hok), orb_true_r.
  - intros d' Hd' Hh. unfold has_table, table_of in *. rewrite fresh_has_table in * by (assumption || lia).
    destruct (decide (d' = d)).
    + rewrite L2, E. split; [done|]. rewrite Hocc by lia. by rewrite Z.eqb_refl.
    + destruct (vo_tables _ _ Hok d' Hd' Hh) as [Hn1 Hn2]. split; [done|].
      destruct (table_aligned m dir d') as [Ht1 _]. rewrite Hocc by (unfold table_of in *; mlia).
      unfold table_of in Hn2. by rewrite Hn2, orb_true_r.
Qed.

End MapCurrent.

(** [v'] translates the page of [vaddr] to [frame] and every other page as [v] does. *)
Definition maps_page (v v' : VM) (frame vaddr : Z) : Prop :=
  cr3 v' = cr3 v /\ walk (phys v') (cr3 v') vaddr = Some (frame + vaddr mod 4096) /\
  forall w, is_u32 w -> dir_index w < 1023 -> w / 4096 <> vaddr / 4096 ->
    walk (phys v') (cr3 v') w = walk (phys v) (cr3 v) w.

(** The tables of [v'] are those of [v], or lie in frames that were free. *)
Definition tables_from (v v' : VM) (bm : FrameBitmap) : Prop :=
  forall d, 0 <= d < 1023 -> has_table (phys v') (cr3 v') d ->
    (has_table (phys v) (cr3 v) d /\ table_of (phys v') (cr3 v') d = table_of (phys v) (cr3 v) d) \/
    occupied bm (table_of (phys v') (cr3 v') d / 4096) = false.

Lemma map_current_spec v bm frame vaddr flags :
  vm_ok v bm -> is_u32 vaddr -> Frame.aligned frame -> dir_index vaddr < 1023 ->
  (has_table (phys v) (cr3 v) (dir_index vaddr) -> private v (dir_index vaddr)) ->
  (~ has_table (phys v) (cr3 v) (dir_index vaddr) /\
   (forall j, 0 <= j < frame_count bm -> occupied bm j = true) /\
   CurrentPageDirectory.map v frame vaddr flags = Panic) \/
  exists v' bm', CurrentPageDirectory.map v frame vaddr flags = Ret v' /\ vm_ok v' bm' /\
    (forall j, 0 <= j -> occupied bm j = true -> occupied bm' j = true) /\ maps_page v v' frame vaddr /\
    tables_from v v' bm.
Proof.
  intros Hok Hv Hf Hd Hpriv. destruct (map_indices vaddr Hv Hd) as [Hdi Hti].
  pose proof (vo_self _ _ Hok) as (Hda & _).
  destruct (PageTableEntry.is_present (dir_entry (phys v) (cr3 v) (dir_index vaddr))) eqn:Hp.
  - right. destruct (map_existing v bm frame vaddr flags Hok Hv Hf Hd Hp) as (v' & Heq & E1 & E2 & E3 & _).
    destruct (vo_tables _ _ Hok _ Hdi Hp) as [Hne _].
    destruct (entry_value_shape (load32 (phys v) (table_of (phys v) (cr3 v) (dir_index vaddr) + 4 * table_index vaddr))
      frame flags Hf ltac:(apply load32_range)) as (W1 & W2 & W3).
    exists v', bm. split; [done|]. split; [by eapply vm_ok_store_entry|]. split; [done|].
    assert (Hde : forall d', 0 <= d' < 1024 -> dir_entry (phys v') (cr3 v') d' = dir_entry (phys v) (cr3 v) d')
      by (intros d' Hd'; rewrite E1, E3; by apply has_table_store).
    split; [|intros d' Hd' Hh; left; unfold has_table, table_of in *; rewrite Hde in * by lia; done].
    split; [done|]. rewrite E1, E3. split.
    + clear Hde. assert (Hde : dir_entry (store32 (phys v) (table_of (phys v) (cr3 v) (dir_index vaddr) + 4 * table_index vaddr)
          (entry_value (load32 (phys v) (table_of (phys v) (cr3 v) (dir_index vaddr) + 4 * table_index vaddr)) frame flags))
          (cr3 v) (dir_index vaddr) = dir_entry (phys v) (cr3 v) (dir_index vaddr))
        by (apply has_table_store; done || lia).
      erewrite walk_entry; [by rewrite W2|unfold has_table; rewrite Hde; exact Hp|unfold table_of at 1; rewrite Hde; reflexivity|by apply load32_store32_eq|done].
    + intros w Hw Hdw Hpage. apply walk_store_entry; try done.
      * intros Hn Hh. apply (Hpriv Hp); [|done..]. destruct (index_range w Hw). lia.
      * intros [Ea Eb]. by apply Hpage, same_page.
  - assert (Hnot : ~ has_table (phys v) (cr3 v) (dir_index vaddr)) by (unfold has_table; by rewrite Hp).
    destruct (allocate_frame_cases (frames v) bm (vo_alloc _ _ Hok) (vo_bm _ _ Hok))
      as [(s & bm' & Hal & Hs & Hfree & _ & Hwf' & Hcnt & Hocc)|[Hal Hfull]]; [right|left].
    + pose proof (vo_bm _ _ Hok) as (Hc & _). assert (Hs' : 0 <= s < 1048576) by lia.
      assert (E : s * 4096 / 4096 = s) by mlia.
      assert (Hfa : Frame.aligned (s * 4096)) by (split; mlia).
      assert (Hne : s * 4096 <> cr3 v).
      { intros Ec. pose proof (vo_dir _ _ Hok) as Hd'. rewrite <- Ec, E in Hd'. congruence. }
      rewrite (map_fresh v bm frame vaddr flags Hok Hv Hf Hd s bm' Hnot Hal Hs' Hne).
      eexists _, bm'. split; [done|]. split; [by apply fresh_vm_ok with bm|].
      split; [intros j Hj Ho; rewrite Hocc by done; rewrite Ho; apply orb_true_r|].
      split; [split; [done|]; cbn [phys cr3]|].
      2: { intros d' Hd' Hh. unfold has_table, table_of in *. cbn [phys cr3] in *. rewrite (fresh_has_table v bm frame vaddr flags Hok Hv Hf Hd) in * by (assumption || lia).
        destruct (link_value_shape (dir_entry (phys v) (cr3 v) (dir_index vaddr)) (s * 4096) (dir_index vaddr) Hfa ltac:(apply load32_range)) as (_ & L2 & _).
        destruct (decide (d' = dir_index vaddr)); [right; by rewrite L2, E|by left]. }
      simpl. apply (fresh_walk v bm); try done. by rewrite E.
    + split; [done|]. split; [done|]. unfold CurrentPageDirectory.map.
      rewrite (map_reads_directory v bm vaddr Hok Hv Hd). cbn [mbind comp_bind]. rewrite Hp. cbn [negb].
      unfold vm_allocate_unwrap, vm_allocate_frame. by rewrite Hal.
Qed.

(** Memory changes only in the frames [fs]. *)
Definition only_frames (fs : list Z) (m m' : mem) : Prop := forall x, x / 4096 ∉ fs -> m' !! x = m !! x.

Lemma only_frames_trans fs m1 m2 m3 : only_frames fs m1 m2 -> only_frames fs m2 m3 -> only_frames fs m1 m3.
Proof. intros H1 H2 x Hx. by rewrite H2, H1. Qed.

Lemma only_frames_mono fs gs m m' : fs ⊆ gs -> only_frames fs m m' -> only_frames gs m m'.
Proof. intros Hs H x Hx. apply H. intros Hf. by apply Hx, Hs. Qed.

Lemma only_frames_store f i e m : Frame.aligned f -> 0 <= i < 1024 -> only_frames [f / 4096] m (store32 m (f + 4 * i) e).
Proof.
  intros Hf Hi x Hx. apply store32_lookup_ne; [by apply aligned_space|]. intros Hr. apply Hx. destruct Hf as [_ Hf].
  replace (x / 4096) with (f / 4096) by mlia. set_solver.
Qed.

Lemma only_frames_zero f m : Frame.aligned f -> only_frames [f / 4096] m (zero_words (Z.to_nat 1024) f m).
Proof.
  intros [Hf1 Hf2] x Hx. apply zero_words_lookup_ne; change (4 * Z.of_nat (Z.to_nat 1024)) with 4096.
  - unfold in_space. mlia.
  - intros Hr. apply Hx. replace (x / 4096) with (f / 4096) by mlia. set_solver.
Qed.

(** The frames [l], free in [bm], are in use in [bm']. *)
Definition takes (l : list Z) (bm bm' : FrameBitmap) : Prop :=
  frame_count bm' = frame_count bm /\ Forall (fun s => 0 <= s < frame_count bm /\ occupied bm s = false) l /\
  forall j, 0 <= j -> occupied bm' j = bool_decide (j ∈ l) || occupied bm j.

Lemma takes_one s bm bm' :
  0 <= s < frame_count bm -> occupied bm s = false -> frame_count bm' = frame_count bm ->
  (forall j, 0 <= j -> occupied bm' j = (s =? j) || occupied bm j) -> takes [s] bm bm'.
Proof.
  intros Hs Hf Hc Hocc. split; [done|]. split; [by constructor|]. intros j Hj. rewrite Hocc by done. f_equal.
  destruct (Z.eqb_spec s j) as [->|Hn]; symmetry; [apply bool_decide_eq_true|apply bool_decide_eq_false]; set_solver.
Qed.

Lemma takes_nil bm : takes [] bm bm.
Proof. split; [done|]. split; [done|]. intros j Hj. by rewrite bool_decide_eq_false_2 by set_solver. Qed.

Lemma takes_app l k bm bm1 bm2 : takes l bm bm1 -> takes k bm1 bm2 -> takes (l ++ k) bm bm2.
Proof.
  intros (C1 & F1 & O1) (C2 & F2 & O2). split; [congruence|]. split.
  - apply Forall_app. split; [done|]. eapply Forall_impl; [exact F2|]. intros s [Hs Ho]. rewrite C1 in Hs. split; [done|].
    rewrite O1 in Ho by lia. by apply orb_false_iff in Ho as [_ ?].
  - intros j Hj. rewrite O2, O1, orb_assoc by done. f_equal. apply eq_true_iff_eq. rewrite orb_true_iff, !bool_decide_eq_true, elem_of_app. tauto.
Qed.

(** At least [n] frames are free. *)
Definition free_frames (n : nat) (bm : FrameBitmap) : Prop :=
  exists l, NoDup l /\ (n <= length l)%nat /\ Forall (fun j => 0 <= j < frame_count bm /\ occupied bm j = false) l.

Lemma free_frames_one n bm : free_frames (S n) bm -> exists j, 0 <= j < frame_count bm /\ occupied bm j = false.
Proof. intros ([|j l] & _ & Hn & Hl); [cbn in Hn; lia|]. exists j. by apply Forall_cons in Hl as [? _]. Qed.

Lemma remove_length (xs l : list Z) : NoDup l -> (length l <= length xs + length (filter (.∉ xs) l))%nat.
Proof.
  intros Hnd. rewrite <- length_app. apply submseteq_length, NoDup_submseteq; [done|]. intros y Hy.
  apply elem_of_app. destruct (decide (y ∈ xs)); [by left|right]. by apply list_elem_of_filter.
Qed.

Lemma free_frames_takes n l bm bm' : free_frames n bm -> takes l bm bm' -> free_frames (n - length l) bm'.
Proof.
  intros (fs & Hnd & Hn & Hl) (Hc & _ & Hocc). exists (filter (.∉ l) fs). split; [by apply NoDup_filter|].
  split; [pose proof (remove_length l fs Hnd); lia|]. apply Forall_forall. intros j [Hj Hin]%list_elem_of_filter.
  rewrite Forall_forall in Hl. destruct (Hl j Hin) as [Hr Hf]. rewrite Hc. split; [done|]. rewrite Hocc, Hf by lia.
  by rewrite orb_false_r, bool_decide_eq_false_2.
Qed.

Lemma fst_of_two (a b : Z) : [a] ⊆ [a; b].
Proof. set_solver. Qed.
Lemma snd_of_two (a b : Z) : [b] ⊆ [a; b].
Proof. set_solver. Qed.

(** What mapping a page does besides its translation: the directory changes only in the
    entry of the page, memory only in the directory and the page's table, and a new table
    lies in the one frame that is taken for it. *)
Record map_effect (v v' : VM) (bm bm' : FrameBitmap) (vaddr : Z) : Prop := {
  me_frames : (has_table (phys v) (cr3 v) (dir_index vaddr) /\ bm' = bm) \/
    ~ has_table (phys v) (cr3 v) (dir_index vaddr) /\ exists s, takes [s] bm bm' /\ (forall j, 0 <= j < s -> occupied bm j = true) /\
      table_of (phys v') (cr3 v') (dir_index vaddr) = s * 4096;
  me_has : has_table (phys v') (cr3 v') (dir_index vaddr);
  me_dirs : forall d, 0 <= d < 1024 -> d <> dir_index vaddr \/ has_table (phys v) (cr3 v) (dir_index vaddr) ->
    dir_entry (phys v') (cr3 v') d = dir_entry (phys v) (cr3 v) d;
  me_only : only_frames [cr3 v / 4096; table_of (phys v') (cr3 v') (dir_index vaddr) / 4096] (phys v) (phys v')
}.

Lemma map_current_effect v bm frame vaddr flags v' bm' :
  vm_ok v bm -> is_u32 vaddr -> Frame.aligned frame -> dir_index vaddr < 1023 ->
  CurrentPageDirectory.map v frame vaddr flags = Ret v' -> ALLOCATOR (frames v') = Some bm' -> map_effect v v' bm bm' vaddr.
Proof.
  intros Hok Hv Hf Hd Hmap Hal'. destruct (map_indices vaddr Hv Hd) as [Hdi Hti]. pose proof (vo_self _ _ Hok) as (Hda & _).
  destruct (PageTableEntry.is_present (dir_entry (phys v) (cr3 v) (dir_index vaddr))) eqn:Hp.
  - destruct (map_existing v bm frame vaddr flags Hok Hv Hf Hd Hp) as (v1 & Heq & E1 & E2 & E3 & _).
    rewrite Heq in Hmap. injection Hmap as ->. rewrite E2, (vo_alloc _ _ Hok) in Hal'. injection Hal' as <-.
    destruct (vo_tables _ _ Hok _ Hdi Hp) as [Hne _].
    assert (Hde : forall d', 0 <= d' < 1024 -> dir_entry (phys v') (cr3 v') d' = dir_entry (phys v) (cr3 v) d')
      by (intros d' Hd'; rewrite E1, E3; by apply has_table_store).
    split; [by left|unfold has_table; by rewrite Hde by lia|intros; by apply Hde|].
    unfold table_of. rewrite Hde by lia. fold (table_of (phys v) (cr3 v) (dir_index vaddr)). rewrite E3.
    eapply only_frames_mono; [apply snd_of_two|apply only_frames_store; [apply table_aligned|done]].
  - assert (Hnot : ~ has_table (phys v) (cr3 v) (dir_index vaddr)) by (unfold has_table; by rewrite Hp).
    destruct (allocate_frame_cases (frames v) bm (vo_alloc _ _ Hok) (vo_bm _ _ Hok))
      as [(s & bm1 & Hal & Hs & Hfree & Hlow & Hwf' & Hcnt & Hocc)|[Hal Hfull]].
    2: { unfold CurrentPageDirectory.map in Hmap. rewrite (map_reads_directory v bm vaddr Hok Hv Hd) in Hmap.
         cbn [mbind comp_bind] in Hmap. rewrite Hp in Hmap. cbn [negb] in Hmap. unfold vm_allocate_unwrap, vm_allocate_frame in Hmap. by rewrite Hal in Hmap. }
    pose proof (vo_bm _ _ Hok) as (Hc & _). assert (E : s * 4096 / 4096 = s) by mlia. assert (Hfa : Frame.aligned (s * 4096)) by (split; mlia).
    assert (Hne : s * 4096 <> cr3 v) by (intros Ec; pose proof (vo_dir _ _ Hok) as Hd'; rewrite <- Ec, E in Hd'; congruence).
    rewrite (map_fresh v bm frame vaddr flags Hok Hv Hf Hd s bm1 Hnot Hal ltac:(lia) Hne) in Hmap. injection Hmap as <-.
    cbn in Hal'. injection Hal' as <-. pose proof (fresh_has_table v bm frame vaddr flags Hok Hv Hf Hd (s * 4096)) as Hfr.
    destruct (link_value_shape (dir_entry (phys v) (cr3 v) (dir_index vaddr)) (s * 4096) (dir_index vaddr) Hfa ltac:(apply load32_range)) as (_ & L2 & L3).
    assert (Ht : table_of (fresh_table v frame vaddr flags (s * 4096)) (cr3 v) (dir_index vaddr) = s * 4096)
      by (unfold table_of; by rewrite Hfr, decide_True by (done || lia)).
    split; cbn [phys cr3 frames].
    + right. split; [done|]. exists s. split; [by apply takes_one|]. by split.
    + unfold has_table. by rewrite Hfr, decide_True by (done || lia).
    + intros d' Hd' [Hn|Hn]; [|done]. by rewrite Hfr, decide_False by done.
    + rewrite Ht, E. unfold fresh_table. rewrite <- E at 1.
      eapply only_frames_trans; [|eapply only_frames_mono; [apply snd_of_two|by apply (only_frames_store (s * 4096))]].
      eapply only_frames_trans; [|eapply only_frames_mono; [apply snd_of_two|by apply (only_frames_zero (s * 4096))]].
      eapply only_frames_mono; [apply fst_of_two|apply only_frames_store; [done|lia]].
Qed.

(** C12: Mapping a page in the current directory, whether or not its page table exists yet:
    afterwards the processor translates the page to the frame, every other page translates
    as before, and the directory stays consistent with the allocator.  The one failure is
    that a table is needed and no frame is free. *)
Theorem map_current_translates v bm frame vaddr flags :
  vm_ok v bm -> is_u32 vaddr -> Frame.aligned frame -> dir_index vaddr < 1023 ->
  private v (dir_index vaddr) ->
  (~ has_table (phys v) (cr3 v) (dir_index vaddr) /\
   (forall j, 0 <= j < frame_count bm -> occupied bm j = true) /\
   CurrentPageDirectory.map v frame vaddr flags = Panic) \/
  exists v' bm', CurrentPageDirectory.map v frame vaddr flags = Ret v' /\ vm_ok v' bm' /\
    (forall j, 0 <= j -> occupied bm j = true -> occupied bm' j = true) /\ maps_page v v' frame vaddr.
Proof.
  intros Hok Hv Hf Hd Hpriv. destruct (map_current_spec v bm frame vaddr flags Hok Hv Hf Hd (fun _ => Hpriv))
    as [Hl|(v' & bm' & H1 & H2 & H3 & H4 & _)]; [by left|right]. by exists v', bm'.
Qed.

(** A larger set of frames in use keeps the invariant. *)
Lemma vm_ok_frames v bm st bm' :
  vm_ok v bm -> ALLOCATOR st = Some bm' -> FrameBitmap.wf bm' ->
  (forall j, 0 <= j -> occupied bm j = true -> occupied bm' j = true) -> vm_ok (set_frames v st) bm'.
Proof.
  intros [H1 H2 H3 H4 H5] Ha Hwf Hocc. pose proof H3 as ((Hr & _) & _). split; [done|done|done| |]; cbn [cr3 phys set_frames].
  - apply Hocc; [mlia|done].
  - intros d Hd Hh. destruct (H5 d Hd Hh) as [Hn Ho]. split; [done|]. apply Hocc; [|done].
    pose proof (table_aligned (phys v) (cr3 v) d) as (Ht & _). mlia.
Qed.

(** * Unmapping *)

Lemma walk_absent_entry m dir w f e :
  table_of m dir (dir_index w) = f -> load32 m (f + 4 * table_index w) = e ->
  PageTableEntry.is_present e = false -> walk m dir w = None.
Proof.
  unfold walk, pte, pte_addr, table_of. change (pde m dir w) with (dir_entry m dir (dir_index w)).
  intros -> -> ->. by destruct (PageTableEntry.is_present _).
Qed.

(** What [unmap] does; the directory itself is never changed. *)
Lemma unmap_spec v bm vaddr :
  vm_ok v bm -> is_u32 vaddr -> dir_index vaddr < 1023 -> private v (dir_index vaddr) ->
  exists v', CurrentPageDirectory.unmap v vaddr = Ret v' /\ vm_ok v' bm /\ cr3 v' = cr3 v /\
    (forall d, 0 <= d < 1024 -> dir_entry (phys v') (cr3 v') d = dir_entry (phys v) (cr3 v) d) /\
    walk (phys v') (cr3 v') vaddr = None /\
    (walk (phys v) (cr3 v) vaddr <> None -> flushed v' = vaddr :: flushed v) /\
    forall w, is_u32 w -> dir_index w < 1023 -> w / 4096 <> vaddr / 4096 ->
      walk (phys v') (cr3 v') w = walk (phys v) (cr3 v) w.
Proof.
  intros Hok Hv Hd Hpriv. destruct (map_indices vaddr Hv Hd) as [Hdi Hti].
  pose proof (vo_self _ _ Hok) as (Hda & _).
  unfold CurrentPageDirectory.unmap. rewrite (map_reads_directory v bm vaddr Hok Hv Hd). cbn [mbind comp_bind].
  rewrite Z.mul_comm, (map_table_address vaddr Hv Hd).
  destruct (PageTableEntry.is_present (dir_entry (phys v) (cr3 v) (dir_index vaddr))) eqn:Hp; cbn [negb].
  2: { assert (Hw : walk (phys v) (cr3 v) vaddr = None)
         by (unfold walk; change (pde (phys v) (cr3 v) vaddr) with (dir_entry (phys v) (cr3 v) (dir_index vaddr)); by rewrite Hp).
       exists v. by rewrite Hw. }
  destruct (vo_tables _ _ Hok _ Hdi Hp) as [Hne _].
  pose proof (table_window v _ (vo_self _ _ Hok) Hdi Hp Hne) as Hwin.
  rewrite (get_seen v _ _ _ (window_seen _ _ _ Hwin) Hti). cbn [mbind comp_bind].
  set (f := table_of (phys v) (cr3 v) (dir_index vaddr)) in *.
  destruct (PageTableEntry.is_present (load32 (phys v) (f + 4 * table_index vaddr))) eqn:He; cbn [negb].
  2: { assert (Hw : walk (phys v) (cr3 v) vaddr = None) by (by eapply walk_absent_entry).
       exists v. by rewrite Hw. }
  rewrite (modify_seen v _ _ _ _ (window_seen _ _ _ Hwin) Hti). cbn [mbind comp_bind].
  set (e := PageTableEntry.clear_present _).
  assert (Hde : dir_entry (store32 (phys v) (f + 4 * table_index vaddr) e) (cr3 v) (dir_index vaddr)
                = dir_entry (phys v) (cr3 v) (dir_index vaddr)) by (apply has_table_store; assumption || lia).
  eexists. split; [reflexivity|]. split; [by eapply vm_ok_store_entry|]. split; [reflexivity|].
  cbn [phys cr3 flushed invalidate_page set_phys].
  split; [intros d' Hd'; apply has_table_store; assumption || lia|]. split; [|split; [reflexivity|]].
  - apply (walk_absent_entry _ _ _ f e); [unfold table_of; rewrite Hde; reflexivity| |apply clear_present_absent].
    apply load32_store32_eq, clear_present_u32, load32_range.
  - intros w Hw Hdw Hpage. apply walk_store_entry; try assumption.
    + intros Hn Hh. apply Hpriv; [|assumption..]. destruct (index_range w Hw). lia.
    + intros [Ea Eb]. by apply Hpage, same_page.
Qed.

(** C35: Unmapping a page always succeeds and leaves it without a translation, invalidated if
    it had one; every other page translates as before. *)
Theorem unmap_current_removes v bm vaddr :
  vm_ok v bm -> is_u32 vaddr -> dir_index vaddr < 1023 -> private v (dir_index vaddr) ->
  exists v', CurrentPageDirectory.unmap v vaddr = Ret v' /\ vm_ok v' bm /\ cr3 v' = cr3 v /\
    walk (phys v') (cr3 v') vaddr = None /\
    (walk (phys v) (cr3 v) vaddr <> None -> flushed v' = vaddr :: flushed v) /\
    forall w, is_u32 w -> dir_index w < 1023 -> w / 4096 <> vaddr / 4096 ->
      walk (phys v') (cr3 v') w = walk (phys v) (cr3 v) w.
Proof.
  intros Hok Hv Hd Hpriv. destruct (unmap_spec v bm vaddr Hok Hv Hd Hpriv)
    as (v' & H1 & H2 & H3 & _ & H4 & H5 & H6). exists v'. by repeat (split; [assumption|]).
Qed.

(** * The initial directory

    Before paging is enabled tables are written at their physical addresses. *)

Definition phys_modify (m : mem) (table i : Z) (f : Z -> Z) : mem :=
  let a := table +u 4 * (i &u 0x3ff) in store32 m a (f (load32 m a)).

Definition allocate_unwrap (st : PhysState) : comp (PhysState * Z) :=
  '(st, r) ← allocate_frame st;
  match r with Ok f => Ret (st, f) | Err _ => Panic end.

Definition create_initial_pagedir (st : PhysState) (m : mem) : comp (PhysState * mem * Z) :=
  '(st, dir_frame) ← allocate_unwrap st;
  let m := Frame.zero_memory dir_frame m in
  let dir_address := Frame.get_address dir_frame in
  '(st, last_table_frame) ← allocate_unwrap st;
  let m := Frame.zero_memory last_table_frame m in
  let last_table_address := Frame.get_address last_table_frame in
  let m := phys_modify m dir_address 1022 (PageTableEntry.set_address last_table_address) in
  let m := phys_modify m dir_address 1022 PageTableEntry.set_present in
  let m := phys_modify m dir_address 1023 (PageTableEntry.set_address dir_address) in
  let m := phys_modify m dir_address 1023 PageTableEntry.set_present in
  Ret (st, m, dir_address).

Record KernelDataBounds : Type := mkBounds { ro_start : Z; rw_end : Z; stack_start : Z }.

(** The identity entries of the first four megabytes. *)
Definition identity_entry (table : Z) (m : mem) (i : Z) : mem :=
  let m := phys_modify m table i (PageTableEntry.set_address (0x1000 *u i)) in
  let m := phys_modify m table i PageTableEntry.set_present in
  phys_modify m table i PageTableEntry.set_user_access.

Definition map_kernel (st : PhysState) (m : mem) (dir : Z) (b : KernelDataBounds)
  : comp (PhysState * mem) :=
  let kernel_range := FrameRange.new (ro_start b) (rw_end b -u ro_start b -u 1) in
  '(st, r) ← Physical.allocate_range st kernel_range;
  match r with
  | Err _ => Panic
  | Ok _ =>
      '(st, table_zero_frame) ← allocate_unwrap st;
      let m := Frame.zero_memory table_zero_frame m in
      let table_zero := Frame.get_address table_zero_frame in
      let m := phys_modify m dir 0 (PageTableEntry.set_address table_zero) in
      let m := phys_modify m dir 0 PageTableEntry.set_present in
      let m := foldl (identity_entry table_zero) m (seqZ 0 1024) in
      let m := phys_modify m dir 0x300 (PageTableEntry.set_address table_zero) in
      let m := phys_modify m dir 0x300 PageTableEntry.set_present in
      let last_page := PageTableEntry.get_address (load32 m (dir +u 4 * 1022)) in
      let m := phys_modify m last_page 1022 (PageTableEntry.set_address (stack_start b)) in
      let m := phys_modify m last_page 1022 PageTableEntry.set_present in
      Ret (st, m)
  end.

Lemma phys_modify_cell m f i g h j :
  Frame.aligned f -> Frame.aligned h -> 0 <= i < 1024 -> 0 <= j < 1024 ->
  is_u32 (g (load32 m (f + 4 * i))) ->
  load32 (phys_modify m f i g) (h + 4 * j) =
  if decide (h = f /\ j = i) then g (load32 m (f + 4 * i)) else load32 m (h + 4 * j).
Proof.
  intros Hf Hh Hi Hj Hg. unfold phys_modify. rewrite index_mask by assumption.
  assert (u32 (f + 4 * i) = f + 4 * i) as -> by (destruct Hf; mlia).
  case_decide as E; [destruct E as [-> ->]; by apply load32_store32_eq|].
  apply load32_store32_ne; [by apply aligned_space..|]. apply cells_apart; try assumption.
  destruct (decide (h = f)) as [->|]; [right; intros ->; by apply E|left; congruence].
Qed.

(** Two updates of one cell, as the source writes them. *)
Lemma phys_entry_cell m f i a h j :
  Frame.aligned f -> Frame.aligned h -> 0 <= i < 1024 -> 0 <= j < 1024 -> Frame.aligned a ->
  let m' := phys_modify (phys_modify m f i (PageTableEntry.set_address a)) f i PageTableEntry.set_present in
  (load32 m' (f + 4 * i) = PageTableEntry.set_present (PageTableEntry.set_address a (load32 m (f + 4 * i)))) /\
  (~ (h = f /\ j = i) -> load32 m' (h + 4 * j) = load32 m (h + 4 * j)).
Proof.
  intros Hf Hh Hi Hj Ha. cbv zeta. assert (Hu : is_u32 (PageTableEntry.set_address a (load32 m (f + 4 * i)))).
  { rewrite set_address_split by assumption. destruct Ha. mlia. }
  assert (E : load32 (phys_modify m f i (PageTableEntry.set_address a)) (f + 4 * i) =
              PageTableEntry.set_address a (load32 m (f + 4 * i)))
    by (rewrite phys_modify_cell by assumption; by rewrite decide_True).
  assert (Hu2 : is_u32 (PageTableEntry.set_present (PageTableEntry.set_address a (load32 m (f + 4 * i)))))
    by (apply lor_u32; [assumption|by vm_compute]).
  split.
  - rewrite phys_modify_cell by (rewrite ?E; assumption). by rewrite decide_True, E.
  - intros Hn. rewrite !phys_modify_cell by (rewrite ?E; assumption). by rewrite !decide_False.
Qed.

(** What an entry written by [set_address] and [set_present] says. *)
Lemma present_entry_shape a old :
  Frame.aligned a -> is_u32 old ->
  PageTableEntry.get_address (PageTableEntry.set_present (PageTableEntry.set_address a old)) = a /\
  PageTableEntry.is_present (PageTableEntry.set_present (PageTableEntry.set_address a old)) = true.
Proof. intros Ha Ho. by destruct (entry_shape a old 1 Ha Ho ltac:(lia) eq_refl) as (_ & ? & ?). Qed.

Lemma identity_entry_cell table m i h j :
  Frame.aligned table -> Frame.aligned h -> 0 <= i < 1024 -> 0 <= j < 1024 ->
  (PageTableEntry.get_address (load32 (identity_entry table m i) (table + 4 * i)) = 4096 * i /\
   PageTableEntry.is_present (load32 (identity_entry table m i) (table + 4 * i)) = true) /\
  (~ (h = table /\ j = i) -> load32 (identity_entry table m i) (h + 4 * j) = load32 m (h + 4 * j)).
Proof.
  intros Ht Hh Hi Hj. unfold identity_entry. rewrite (u32_small (0x1000 * i)) by (mach_unfold; lia).
  assert (Ha : Frame.aligned (4096 * i)) by (split; mlia).
  set (m2 := phys_modify (phys_modify m _ _ _) _ _ _).
  destruct (phys_entry_cell m table i (4096 * i) h j Ht Hh Hi Hj Ha) as [E1 E2]. fold m2 in E1, E2.
  pose proof (load32_range m (table + 4 * i)) as Ho.
  assert (Hu : is_u32 (PageTableEntry.set_user_access (load32 m2 (table + 4 * i))))
    by (apply lor_u32; [apply load32_range|by vm_compute]).
  split; [|intros Hn; rewrite phys_modify_cell by assumption; by rewrite decide_False, E2].
  rewrite phys_modify_cell by assumption. rewrite decide_True by done. rewrite E1.
  unfold PageTableEntry.set_user_access, PageTableEntry.set_present. rewrite <- Z.lor_assoc.
  by destruct (entry_shape (4096 * i) (load32 m (table + 4 * i)) (Z.lor ENTRY_PRESENT ENTRY_USER_ACCESS) Ha Ho) as (_ & ? & ?).
Qed.

Lemma identity_loop_cell table m n :
  Frame.aligned table -> (n <= Z.to_nat 1024)%nat ->
  let m' := foldl (identity_entry table) m (seqZ 0 (Z.of_nat n)) in
  (forall i, 0 <= i < Z.of_nat n ->
     PageTableEntry.get_address (load32 m' (table + 4 * i)) = 4096 * i /\
     PageTableEntry.is_present (load32 m' (table + 4 * i)) = true) /\
  (forall h j, Frame.aligned h -> 0 <= j < 1024 -> h <> table -> load32 m' (h + 4 * j) = load32 m (h + 4 * j)).
Proof.
  intros Ht. induction n as [|n IH]; intros Hn; [split; [lia|done]|].
  destruct (IH ltac:(lia)) as [IH1 IH2]. cbv zeta in *.
  rewrite seqZ_S, foldl_app, Z.add_0_l. cbn [foldl].
  set (m1 := foldl _ _ _) in *. split.
  - intros i Hi. destruct (identity_entry_cell table m1 (Z.of_nat n) table i Ht Ht ltac:(lia) ltac:(lia)) as [H1 H2].
    destruct (decide (i = Z.of_nat n)) as [->|]; [assumption|]. rewrite H2 by tauto. apply IH1. lia.
  - intros h j Hh Hj Hne. destruct (identity_entry_cell table m1 (Z.of_nat n) h j Ht Hh ltac:(lia) Hj) as [_ H2].
    rewrite H2 by tauto. by apply IH2.
Qed.

(** A frame that is free can be allocated; the frame returned was free and is not any more. *)
Lemma allocate_unwrap_free st bm j :
  ALLOCATOR st = Some bm -> FrameBitmap.wf bm -> 0 <= j < frame_count bm -> occupied bm j = false ->
  exists s bm' st', allocate_unwrap st = Ret (st', s * 4096) /\ ALLOCATOR st' = Some bm' /\
    FrameBitmap.wf bm' /\ frame_count bm' = frame_count bm /\ Frame.aligned (s * 4096) /\
    s * 4096 / 4096 = s /\ 0 <= s < frame_count bm /\ occupied bm s = false /\
    (forall i, 0 <= i -> occupied bm' i = (s =? i) || occupied bm i) /\ forall i, 0 <= i < s -> occupied bm i = true.
Proof.
  intros Ha Hwf Hj Hfree. unfold allocate_unwrap. pose proof Hwf as (Hc & _).
  destruct (allocate_frame_cases st bm Ha Hwf)
    as [(s & bm' & -> & Hs & Hsf & Hlow & Hwf' & Hcnt & Hocc)|[_ Hfull]];
    [|rewrite Hfull in Hfree by assumption; done].
  cbn [mbind comp_bind]. exists s, bm', (mkPhysState (Some bm') (REF_COUNT st)).
  assert (Frame.aligned (s * 4096)) by (split; mlia). assert (s * 4096 / 4096 = s) by mlia.
  by repeat (split; [first [assumption|reflexivity]|]).
Qed.

(** The directory right after its creation: the last two entries are set, the others clear. *)
Definition initial_entries (m : mem) (dir last : Z) : Prop :=
  Frame.aligned dir /\ Frame.aligned last /\ dir <> last /\
  (PageTableEntry.get_address (dir_entry m dir 1023) = dir /\
   PageTableEntry.is_present (dir_entry m dir 1023) = true) /\
  (PageTableEntry.get_address (dir_entry m dir 1022) = last /\
   PageTableEntry.is_present (dir_entry m dir 1022) = true) /\
  (forall d, 0 <= d < 1022 -> dir_entry m dir d = 0).

Lemma initial_entries_written m dir last :
  Frame.aligned dir -> Frame.aligned last -> dir <> last ->
  let m := Frame.zero_memory last (Frame.zero_memory dir m) in
  let m := phys_modify (phys_modify m dir 1022 (PageTableEntry.set_address last)) dir 1022 PageTableEntry.set_present in
  initial_entries (phys_modify (phys_modify m dir 1023 (PageTableEntry.set_address dir)) dir 1023 PageTableEntry.set_present) dir last.
Proof.
  intros Hd Hl Hne. cbv zeta. set (m1 := Frame.zero_memory last _). set (m2 := phys_modify _ dir 1022 PageTableEntry.set_present).
  assert (Z1 : forall d, 0 <= d < 1024 -> load32 m1 (dir + 4 * d) = 0).
  { intros d Hdd. unfold m1. rewrite !zero_memory_cell by assumption. by rewrite decide_False, decide_True. }
  assert (P2 : forall d, 0 <= d < 1024 -> d <> 1022 -> load32 m2 (dir + 4 * d) = 0).
  { intros d Hdd Hn. destruct (phys_entry_cell m1 dir 1022 last dir d Hd Hd ltac:(lia) Hdd Hl) as [_ E].
    unfold m2. rewrite E by tauto. by apply Z1. }
  destruct (phys_entry_cell m1 dir 1022 last dir 0 Hd Hd ltac:(lia) ltac:(lia) Hl) as [E1022 _]. fold m2 in E1022.
  assert (P3 : forall d, 0 <= d < 1024 -> d <> 1023 ->
    dir_entry (phys_modify (phys_modify m2 dir 1023 (PageTableEntry.set_address dir)) dir 1023 PageTableEntry.set_present) dir d = load32 m2 (dir + 4 * d)).
  { intros d Hdd Hn. destruct (phys_entry_cell m2 dir 1023 dir dir d Hd Hd ltac:(lia) Hdd Hd) as [_ E].
    unfold dir_entry. rewrite E by tauto. reflexivity. }
  destruct (phys_entry_cell m2 dir 1023 dir dir 0 Hd Hd ltac:(lia) ltac:(lia) Hd) as [E1023 _].
  split; [assumption|]. split; [assumption|]. split; [assumption|]. split; [|split].
  - unfold dir_entry. rewrite E1023. apply present_entry_shape; [assumption|apply load32_range].
  - rewrite P3, E1022 by lia. apply present_entry_shape; [assumption|apply load32_range].
  - intros d Hdd. rewrite P3, P2 by lia. reflexivity.
Qed.

(** The final directory: low memory twice, the stack page, itself, nothing else. *)
Definition entry_is (m : mem) (table i e : Z) : Prop :=
  PageTableEntry.get_address (load32 m (table + 4 * i)) = e /\
  PageTableEntry.is_present (load32 m (table + 4 * i)) = true.
Definition kernel_entries (m : mem) (dir last tz stack : Z) : Prop :=
  (forall d, 0 <= d < 1022 -> d <> 0 -> d <> 0x300 -> dir_entry m dir d = 0) /\
  entry_is m dir 0 tz /\ entry_is m dir 0x300 tz /\ entry_is m dir 1022 last /\ entry_is m dir 1023 dir /\
  (forall i, 0 <= i < 1024 -> entry_is m tz i (4096 * i)) /\ entry_is m last 1022 stack.

Lemma kernel_directory_entry m dir last tz d :
  initial_entries m dir last -> Frame.aligned tz -> tz <> dir -> 0 <= d < 1024 -> d <> 0 -> d <> 0x300 ->
  let m1 := Frame.zero_memory tz m in
  let m2 := phys_modify (phys_modify m1 dir 0 (PageTableEntry.set_address tz)) dir 0 PageTableEntry.set_present in
  let m3 := foldl (identity_entry tz) m2 (seqZ 0 1024) in
  let m4 := phys_modify (phys_modify m3 dir 0x300 (PageTableEntry.set_address tz)) dir 0x300 PageTableEntry.set_present in
  load32 m4 (dir + 4 * d) = load32 m (dir + 4 * d).
Proof.
  intros (Hd & _) Ht Htd Hdd H0 H3. cbv zeta. set (m2 := phys_modify _ dir 0 PageTableEntry.set_present).
  destruct (identity_loop_cell tz m2 (Z.to_nat 1024) Ht ltac:(lia)) as [_ C3]. set (m3 := foldl _ m2 _) in *.
  destruct (phys_entry_cell m3 dir 0x300 tz dir d Hd Hd ltac:(lia) Hdd Ht) as [_ ->]; [|intros [_ ?]; lia].
  unfold m3. rewrite C3 by congruence.
  destruct (phys_entry_cell (Frame.zero_memory tz m) dir 0 tz dir d Hd Hd ltac:(lia) Hdd Ht) as [_ E]. unfold m2. rewrite E by (intros [_ ?]; lia).
  rewrite zero_memory_cell by assumption. by rewrite decide_False by congruence.
Qed.

Lemma kernel_entries_written m dir last tz stack :
  initial_entries m dir last -> Frame.aligned tz -> tz <> dir -> tz <> last -> Frame.aligned stack ->
  let m := Frame.zero_memory tz m in
  let m := phys_modify (phys_modify m dir 0 (PageTableEntry.set_address tz)) dir 0 PageTableEntry.set_present in
  let m := foldl (identity_entry tz) m (seqZ 0 1024) in
  let m := phys_modify (phys_modify m dir 0x300 (PageTableEntry.set_address tz)) dir 0x300 PageTableEntry.set_present in
  let last_page := PageTableEntry.get_address (load32 m (dir +u 4 * 1022)) in
  let m := phys_modify (phys_modify m last_page 1022 (PageTableEntry.set_address stack)) last_page 1022 PageTableEntry.set_present in
  kernel_entries m dir last tz stack.
Proof.
  intros Hini Ht Htd Htl Hst. pose proof (kernel_directory_entry m dir last tz) as D. destruct Hini as (Hd & Hl & Hne & E1 & E2 & E3). cbv zeta.
  specialize (fun d => D d (conj Hd (conj Hl (conj Hne (conj E1 (conj E2 E3))))) Ht Htd). cbv zeta in D.
  set (m1 := Frame.zero_memory tz m). set (m2 := phys_modify _ dir 0 PageTableEntry.set_present).
  set (m3 := foldl _ m2 _). set (m4 := phys_modify _ dir 0x300 PageTableEntry.set_present).
  assert (C1 : forall h j, Frame.aligned h -> h <> tz -> 0 <= j < 1024 -> load32 m1 (h + 4 * j) = load32 m (h + 4 * j)).
  { intros h j Hh Hht Hj. unfold m1. rewrite zero_memory_cell by assumption. by rewrite decide_False. }
  assert (C2 : forall h j, Frame.aligned h -> 0 <= j < 1024 -> ~ (h = dir /\ j = 0) -> load32 m2 (h + 4 * j) = load32 m1 (h + 4 * j)).
  { intros h j Hh Hj Hn. by destruct (phys_entry_cell m1 dir 0 tz h j Hd Hh ltac:(lia) Hj Ht) as [_ E]; apply E. }
  destruct (phys_entry_cell m1 dir 0 tz dir 0 Hd Hd ltac:(lia) ltac:(lia) Ht) as [C2' _]. fold m2 in C2'.
  destruct (identity_loop_cell tz m2 (Z.to_nat 1024) Ht ltac:(lia)) as [C3' C3]. fold m3 in C3', C3.
  assert (C4 : forall h j, Frame.aligned h -> 0 <= j < 1024 -> ~ (h = dir /\ j = 0x300) -> load32 m4 (h + 4 * j) = load32 m3 (h + 4 * j)).
  { intros h j Hh Hj Hn. by destruct (phys_entry_cell m3 dir 0x300 tz h j Hd Hh ltac:(lia) Hj Ht) as [_ E]; apply E. }
  destruct (phys_entry_cell m3 dir 0x300 tz dir 0 Hd Hd ltac:(lia) ltac:(lia) Ht) as [C4' _]. fold m4 in C4'.
  change (forall d, 0 <= d < 1024 -> d <> 0 -> d <> 0x300 -> load32 m4 (dir + 4 * d) = load32 m (dir + 4 * d)) in D.
  assert (u32 (dir + 4 * 1022) = dir + 4 * 1022) as -> by (destruct Hd; mlia).
  rewrite (D 1022) by lia. fold (dir_entry m dir 1022). rewrite (proj1 E2).
  set (m5 := phys_modify _ last 1022 PageTableEntry.set_present).
  assert (C5 : forall h j, Frame.aligned h -> 0 <= j < 1024 -> h <> last -> load32 m5 (h + 4 * j) = load32 m4 (h + 4 * j)).
  { intros h j Hh Hj Hn. destruct (phys_entry_cell m4 last 1022 stack h j Hl Hh ltac:(lia) Hj Hst) as [_ E]; apply E. tauto. }
  destruct (phys_entry_cell m4 last 1022 stack dir 0 Hl Hd ltac:(lia) ltac:(lia) Hst) as [C5' _]. fold m5 in C5'.
  unfold kernel_entries, entry_is. split; [|split; [|split; [|split; [|split; [|split]]]]].
  - intros d Hdd H0 H3. unfold dir_entry. rewrite C5, D by (assumption || lia). by apply E3.
  - rewrite C5, C4, C3, C2' by (assumption || lia). apply present_entry_shape; [assumption|apply load32_range].
  - rewrite C5, C4' by (assumption || lia). apply present_entry_shape; [assumption|apply load32_range].
  - rewrite C5, D by (assumption || lia). exact E2.
  - rewrite C5, D by (assumption || lia). exact E1.
  - intros i Hi. rewrite C5, C4 by first [assumption | intros [? _]; congruence]. by apply C3'.
  - rewrite C5'. apply present_entry_shape; [assumption|apply load32_range].
Qed.

(** The translations such a directory gives. *)
Lemma kernel_entries_walk m dir last tz stack :
  kernel_entries m dir last tz stack ->
  (forall a, 0 <= a < 0x400000 -> walk m dir a = Some a /\ walk m dir (0xc0000000 + a) = Some a) /\
  (forall o, 0 <= o < 4096 -> walk m dir (0xffbfe000 + o) = Some (stack + o)).
Proof.
  intros (_ & E0 & E3 & El & _ & Eid & Est).
  assert (Hw : forall d i o a tb e, 0 <= d < 1024 -> 0 <= i < 1024 -> 0 <= o < 4096 ->
    entry_is m dir d tb -> entry_is m tb i e ->
    a = d * 0x400000 + i * 0x1000 + o -> walk m dir a = Some (e + o)).
  { intros d i o a tb e Hd Hi Ho [P2 P1] [P4 P3] ->. destruct (indices d i o Hd Hi Ho) as (I1 & I2 & I3).
    unfold walk, pte, pte_addr, pde, pde_addr. by rewrite I1, I2, I3, P1, P2, P3, P4. }
  split.
  - intros a Hra. pose proof (Eid (a / 4096) ltac:(mlia)) as I1.
    assert (Hsum : Some a = Some (4096 * (a / 4096) + a mod 4096)) by (f_equal; mlia). rewrite Hsum.
    split; [apply (Hw 0 (a / 4096) (a mod 4096) a tz)|apply (Hw 0x300 (a / 4096) (a mod 4096) _ tz)];
      try assumption; mlia.
  - intros o Ho. apply (Hw 1022 1022 o _ last); try assumption; lia.
Qed.

Lemma kernel_entries_vm_ok m dir last tz stack st bm :
  kernel_entries m dir last tz stack -> ALLOCATOR st = Some bm -> FrameBitmap.wf bm ->
  Frame.aligned dir -> tz <> dir -> last <> dir -> occupied bm (dir / 4096) = true ->
  occupied bm (tz / 4096) = true -> occupied bm (last / 4096) = true ->
  vm_ok (mkVM m dir st []) bm.
Proof.
  intros (K0 & [E0 _] & [E3 _] & [El _] & [Es1 Es2] & _ & _) Ha Hwf Hd Ht Hl O1 O2 O3.
  split; cbn [frames phys cr3]; [assumption|assumption| |assumption|].
  - split; [assumption|]. replace (dir + 4092) with (dir + 4 * 1023) by lia. by split.
  - intros d Hdd Hh. unfold table_of, has_table in *.
    destruct (decide (d = 0)) as [->|]; [unfold dir_entry; by rewrite E0|].
    destruct (decide (d = 0x300)) as [->|]; [unfold dir_entry; by rewrite E3|].
    destruct (decide (d = 1022)) as [->|]; [unfold dir_entry; by rewrite El|].
    rewrite K0 in Hh by lia. vm_compute in Hh. congruence.
Qed.

(** The three frames [s], [l] and [t] taken while starting up, of a bitmap [bm] that becomes
    [bm']: the first two are the lowest free ones, the third the lowest one outside the range
    of the kernel. *)
Definition in_range (range : FrameRange) (j : Z) : bool :=
  (FrameRange.get_first_frame_index range <=? j) && (j <=? FrameRange.get_last_frame_index range).
Record boot_taken (bm bm' : FrameBitmap) (range : FrameRange) (s l t : Z) : Prop := {
  bt_wf : FrameBitmap.wf bm';
  bt_count : frame_count bm' = frame_count bm;
  bt_free : Forall (fun g => 0 <= g < frame_count bm /\ occupied bm g = false /\ Frame.aligned (g * 4096) /\ g * 4096 / 4096 = g) [s; l; t];
  bt_distinct : s <> l /\ t <> s /\ t <> l;
  bt_outside : in_range range t = false;
  bt_occupied : forall j, 0 <= j -> occupied bm' j = (t =? j) || in_range range j || (l =? j) || (s =? j) || occupied bm j;
  bt_first : forall j, 0 <= j < Z.max s l -> j <> s -> j <> l -> occupied bm j = true;
  bt_third : forall j, 0 <= j < t -> j <> s -> j <> l -> in_range range j = false -> occupied bm j = true
}.

Lemma boot_frames st bm range f1 f2 f3 :
  ALLOCATOR st = Some bm -> FrameBitmap.wf bm ->
  FrameRange.wf range -> FrameRange.get_last_frame_index range < frame_count bm ->
  Forall (fun f => 0 <= f < frame_count bm /\ occupied bm f = false /\
    ~ (FrameRange.get_first_frame_index range <= f <= FrameRange.get_last_frame_index range)) [f1; f2; f3] ->
  f1 <> f2 /\ f1 <> f3 /\ f2 <> f3 ->
  exists s l t st1 st2 st3 st4 bm4,
    allocate_unwrap st = Ret (st1, s * 4096) /\ allocate_unwrap st1 = Ret (st2, l * 4096) /\
    Physical.allocate_range st2 range = Ret (st3, Ok tt) /\ allocate_unwrap st3 = Ret (st4, t * 4096) /\
    ALLOCATOR st4 = Some bm4 /\ boot_taken bm bm4 range s l t.
Proof.
  intros Ha Hwf Hrw Hrl Hfree (N12 & N13 & N23).
  apply Forall_cons in Hfree as [(R1 & O1 & K1) Hfree]. apply Forall_cons in Hfree as [(R2 & O2 & K2) Hfree].
  apply Forall_cons in Hfree as [(R3 & O3 & K3) _].
  destruct (allocate_unwrap_free st bm f1 Ha Hwf R1 O1) as (s & bm1 & st1 & A1 & Ha1 & Hwf1 & Hc1 & Hfa1 & Q1 & Hs1 & Hf1 & Hocc1 & Low1).
  assert (Hg2 : exists g, 0 <= g < frame_count bm1 /\ occupied bm1 g = false).
  { rewrite Hc1. destruct (decide (s = f1)); [exists f2|exists f1]; (split; [assumption|]); rewrite Hocc1 by lia;
      apply orb_false_iff; (split; [apply Z.eqb_neq; congruence|assumption]). }
  destruct Hg2 as (g2 & G2 & GO2).
  destruct (allocate_unwrap_free st1 bm1 g2 Ha1 Hwf1 G2 GO2) as (l & bm2 & st2 & A2 & Ha2 & Hwf2 & Hc2 & Hfa2 & Q2 & Hs2 & Hf2 & Hocc2 & Low2).
  rewrite Hocc1 in Hf2 by lia. apply orb_false_iff in Hf2 as [Hsl%Z.eqb_neq Hf2].
  destruct (allocate_range_spec bm2 range Hwf2 Hrw) as [(_ & bm3 & Hr & Hwf3 & Hc3 & Hocc3)|[Hbad _]]; [|rewrite Hc2, Hc1 in Hbad; lia].
  assert (Hocc : forall i, 0 <= i -> occupied bm3 i = in_range range i || (l =? i) || (s =? i) || occupied bm i).
  { intros i Hi. rewrite Hocc3, Hocc2, Hocc1 by lia. unfold in_range. by rewrite !orb_assoc. }
  assert (Hout : forall i, 0 <= i -> ~ (FrameRange.get_first_frame_index range <= i <= FrameRange.get_last_frame_index range) ->
    occupied bm i = false -> i <> s -> i <> l -> occupied bm3 i = false).
  { intros i Hi Hn Hb E1 E2. rewrite Hocc by done. unfold in_range. rewrite Hb, (proj2 (Z.eqb_neq s i)), (proj2 (Z.eqb_neq l i)) by congruence.
    destruct (Z.leb_spec (FrameRange.get_first_frame_index range) i), (Z.leb_spec i (FrameRange.get_last_frame_index range)); simpl; try reflexivity; lia. }
  assert (Hg3 : exists g, 0 <= g < frame_count bm3 /\ occupied bm3 g = false).
  { rewrite Hc3, Hc2, Hc1. destruct (decide (f1 <> s /\ f1 <> l)); [exists f1|destruct (decide (f2 <> s /\ f2 <> l)); [exists f2|exists f3]];
      (split; [assumption|]); apply Hout; (assumption || lia). }
  destruct Hg3 as (g3 & G3 & GO3).
  destruct (allocate_unwrap_free (mkPhysState (Some bm3) (REF_COUNT st2)) bm3 g3 eq_refl Hwf3 G3 GO3)
    as (t & bm4 & st4 & A3 & Ha4 & Hwf4 & Hc4 & Hfa3 & Q3 & Hs3 & Hf3 & Hocc4 & Low3).
  rewrite Hocc in Hf3 by lia. apply orb_false_iff in Hf3 as [Hf3 Ft]. apply orb_false_iff in Hf3 as [Hf3 Hts%Z.eqb_neq].
  apply orb_false_iff in Hf3 as [Hto Htl%Z.eqb_neq].
  exists s, l, t, st1, st2, (mkPhysState (Some bm3) (REF_COUNT st2)), st4, bm4.
  split; [assumption|]. split; [assumption|].
  split; [unfold Physical.allocate_range, with_allocator; by rewrite Ha2, Hr|].
  split; [assumption|]. split; [assumption|]. rewrite Hc1 in Hs2. rewrite Hc3, Hc2, Hc1 in Hs3. split.
  - assumption.
  - congruence.
  - by repeat (constructor; [done|]).
  - split; [congruence|]. split; congruence.
  - assumption.
  - intros j Hj. rewrite Hocc4, Hocc by done. by rewrite !orb_assoc.
  - intros j Hj E1 E2. destruct (decide (j < s)); [apply Low1; lia|]. assert (Hl : occupied bm1 j = true) by (apply Low2; lia).
    rewrite Hocc1, (proj2 (Z.eqb_neq s j)) in Hl by (lia || congruence). done.
  - intros j Hj E1 E2 E3. pose proof (Low3 j Hj) as Hl. rewrite Hocc, E3, (proj2 (Z.eqb_neq s j)), (proj2 (Z.eqb_neq l j)) in Hl by (lia || congruence). done.
Qed.

Lemma only_frames_modify m f i g : Frame.aligned f -> 0 <= i < 1024 -> only_frames [f / 4096] m (phys_modify m f i g).
Proof.
  intros Hf Hi. unfold phys_modify. rewrite index_mask by done. rewrite u32_small by (destruct Hf; mlia). by apply only_frames_store.
Qed.

Lemma only_frames_identity m f l : Frame.aligned f -> Forall (fun i => 0 <= i < 1024) l ->
  only_frames [f / 4096] m (foldl (identity_entry f) m l).
Proof.
  intros Hf Hl. revert m. induction Hl as [|i l Hi _ IH]; intros m; [done|]. cbn [foldl].
  eapply only_frames_trans; [|apply IH]. unfold identity_entry. by repeat (eapply only_frames_trans; [|by apply only_frames_modify]).
Qed.

(** Building the first directory: its entries, the frames it takes and the memory it writes. *)
Lemma boot_directory_built st bm m b f1 f2 f3 :
  ALLOCATOR st = Some bm -> FrameBitmap.wf bm ->
  let range := FrameRange.new (ro_start b) (rw_end b -u ro_start b -u 1) in
  FrameRange.wf range -> FrameRange.get_last_frame_index range < frame_count bm ->
  Forall (fun f => 0 <= f < frame_count bm /\ occupied bm f = false /\
    ~ (FrameRange.get_first_frame_index range <= f <= FrameRange.get_last_frame_index range)) [f1; f2; f3] ->
  f1 <> f2 /\ f1 <> f3 /\ f2 <> f3 -> Frame.aligned (stack_start b) ->
  exists s l t st1 m1 st2 m2 bm2,
    create_initial_pagedir st m = Ret (st1, m1, s * 4096) /\ map_kernel st1 m1 (s * 4096) b = Ret (st2, m2) /\
    ALLOCATOR st2 = Some bm2 /\ boot_taken bm bm2 range s l t /\
    kernel_entries m2 (s * 4096) (l * 4096) (t * 4096) (stack_start b) /\ only_frames [s; l; t] m m2.
Proof.
  intros Ha Hwf range Hrw Hrl Hfree Hnd Hst.
  destruct (boot_frames st bm range f1 f2 f3 Ha Hwf Hrw Hrl Hfree Hnd)
    as (s & l & t & st1 & st2 & st3 & st4 & bm4 & A1 & A2 & A3 & A4 & Ha4 & Ht).
  pose proof (bt_free _ _ _ _ _ _ Ht) as Hall. destruct (bt_distinct _ _ _ _ _ _ Ht) as (Hsl & Hts & Htl).
  apply Forall_cons in Hall as [(_ & _ & F1 & Q1) Hall]. apply Forall_cons in Hall as [(_ & _ & F2 & Q2) Hall].
  apply Forall_cons in Hall as [(_ & _ & F3 & Q3) _].
  pose proof (initial_entries_written m (s * 4096) (l * 4096) F1 F2 ltac:(lia)) as Hinit.
  pose proof (kernel_entries_written _ _ _ (t * 4096) (stack_start b) Hinit F3 ltac:(lia) ltac:(lia) Hst) as Hk.
  unfold create_initial_pagedir, map_kernel, Frame.get_address. fold range.
  rewrite A1. cbn [mbind comp_bind]. rewrite A2. cbn [mbind comp_bind].
  eexists s, l, t, _, _, _, _, bm4. split; [reflexivity|].
  rewrite A3. cbn [mbind comp_bind]. rewrite A4. cbn [mbind comp_bind]. split; [reflexivity|].
  split; [assumption|]. split; [assumption|]. split; [exact Hk|].
  rewrite (u32_small (s * 4096 + 4 * 1022)) by (destruct F1; mlia).
  rewrite (kernel_directory_entry _ (s * 4096) (l * 4096) (t * 4096) 1022 Hinit F3) by lia.
  destruct Hinit as (_ & _ & _ & _ & [El _] & _). unfold dir_entry in El. rewrite El.
  assert (Hmod : forall g i h m0, Frame.aligned (g * 4096) -> g * 4096 / 4096 = g -> g ∈ [s; l; t] -> 0 <= i < 1024 ->
    only_frames [s; l; t] m0 (phys_modify m0 (g * 4096) i h)).
  { intros g i h m0 Hg Eg Hin Hi. eapply only_frames_mono; [|by apply only_frames_modify]. rewrite Eg. by intros x ->%list_elem_of_singleton. }
  assert (Hz : forall g m0, Frame.aligned (g * 4096) -> g * 4096 / 4096 = g -> g ∈ [s; l; t] ->
    only_frames [s; l; t] m0 (Frame.zero_memory (g * 4096) m0)).
  { intros g m0 Hg Eg Hin. eapply only_frames_mono; [|by apply only_frames_zero]. rewrite Eg. by intros x ->%list_elem_of_singleton. }
  assert (Hs : s ∈ [s; l; t] /\ l ∈ [s; l; t] /\ t ∈ [s; l; t]) by (split_and!; repeat first [by left|right]).
  destruct Hs as (Is & Il & It).
  do 4 (eapply only_frames_trans; [|apply Hmod; (assumption || lia)]).
  eapply only_frames_trans; [|eapply only_frames_mono; [|apply only_frames_identity; [exact F3|apply Forall_forall; intros i Hi%elem_of_seqZ; lia]]];
    [|rewrite Q3; by intros x ->%list_elem_of_singleton].
  do 2 (eapply only_frames_trans; [|apply Hmod; (assumption || lia)]). eapply only_frames_trans; [|by apply Hz].
  do 4 (eapply only_frames_trans; [|apply Hmod; (assumption || lia)]). eapply only_frames_trans; by apply Hz.
Qed.

Lemma boot_vm_ok st bm bm2 m range s l t stack :
  boot_taken bm bm2 range s l t -> ALLOCATOR st = Some bm2 ->
  kernel_entries m (s * 4096) (l * 4096) (t * 4096) stack -> vm_ok (mkVM m (s * 4096) st []) bm2.
Proof.
  intros Ht Ha Hk. pose proof (bt_free _ _ _ _ _ _ Ht) as Hall. destruct (bt_distinct _ _ _ _ _ _ Ht) as (Hsl & Hts & Htl).
  apply Forall_cons in Hall as [(R1 & _ & F1 & Q1) Hall]. apply Forall_cons in Hall as [(R2 & _ & F2 & Q2) Hall].
  apply Forall_cons in Hall as [(R3 & _ & F3 & Q3) _].
  eapply kernel_entries_vm_ok; [exact Hk|exact Ha|apply Ht|exact F1|lia|lia|..];
    rewrite ?Q1, ?Q2, ?Q3, (bt_occupied _ _ _ _ _ _ Ht), ?Z.eqb_refl, ?orb_true_r by lia; reflexivity.
Qed.

(** C14: Starting up: with three free frames outside the kernel image, the initial directory
    is built and, once active, maps every address of the first four megabytes to itself both
    at its own address and from 0xc0000000, maps the page below the temporary one to the boot
    stack, shows itself in its last slot, and satisfies the invariant of the paging code. *)
Theorem boot_directory_maps_kernel st bm m b f1 f2 f3 :
  ALLOCATOR st = Some bm -> FrameBitmap.wf bm ->
  let range := FrameRange.new (ro_start b) (rw_end b -u ro_start b -u 1) in
  FrameRange.wf range -> FrameRange.get_last_frame_index range < frame_count bm ->
  Forall (fun f => 0 <= f < frame_count bm /\ occupied bm f = false /\
    ~ (FrameRange.get_first_frame_index range <= f <= FrameRange.get_last_frame_index range)) [f1; f2; f3] ->
  f1 <> f2 /\ f1 <> f3 /\ f2 <> f3 -> Frame.aligned (stack_start b) ->
  exists st1 m1 dir st2 m2 bm2,
    create_initial_pagedir st m = Ret (st1, m1, dir) /\ map_kernel st1 m1 dir b = Ret (st2, m2) /\
    vm_ok (mkVM m2 dir st2 []) bm2 /\
    (forall a, 0 <= a < 0x400000 -> walk m2 dir a = Some a /\ walk m2 dir (0xc0000000 + a) = Some a) /\
    (forall o, 0 <= o < 4096 -> walk m2 dir (0xffbfe000 + o) = Some (stack_start b + o)).
Proof.
  intros Ha Hwf range Hrw Hrl Hfree Hnd Hst.
  destruct (boot_directory_built st bm m b f1 f2 f3 Ha Hwf Hrw Hrl Hfree Hnd Hst)
    as (s & l & t & st1 & m1 & st2 & m2 & bm2 & E1 & E2 & Ha2 & Ht & Hk & _).
  exists st1, m1, (s * 4096), st2, m2, bm2. split; [exact E1|]. split; [exact E2|].
  split; [by eapply boot_vm_ok|exact (kernel_entries_walk _ _ _ _ _ Hk)].
Qed.

(** * Witnesses

    A directory in frame 2 that refers to itself and has no tables. *)

Definition demo_vm : VM :=
  mkVM (store32 ∅ (0x2000 + 4092) 0x2001) 0x2000 (mkPhysState (Some demo_bitmap) None) [].

Lemma demo_vm_no_table d : 0 <= d < 1023 -> ~ has_table (phys demo_vm) (cr3 demo_vm) d.
Proof.
  intros Hd. unfold has_table, dir_entry. cbn [phys cr3 demo_vm].
  rewrite load32_store32_ne, load32_empty by (unfold in_space, apart; lia).
  vm_compute. congruence.
Qed.

Lemma demo_vm_ok : vm_ok demo_vm demo_bitmap.
Proof.
  split; [reflexivity|apply demo_bitmap_wf| |reflexivity|].
  - split; [by vm_compute|]. by vm_compute.
  - intros d Hd Hh. by destruct (demo_vm_no_table d Hd).
Qed.

Lemma demo_vm_private d : private demo_vm d.
Proof. intros d' Hd' _ Hh. by destruct (demo_vm_no_table d' Hd'). Qed.

Lemma map_current_translates_witness :
  (~ has_table (phys demo_vm) (cr3 demo_vm) (dir_index 0x400123) /\
   (forall j, 0 <= j < frame_count demo_bitmap -> occupied demo_bitmap j = true) /\
   CurrentPageDirectory.map demo_vm 0x5000 0x400123 2 = Panic) \/
  exists v' bm', CurrentPageDirectory.map demo_vm 0x5000 0x400123 2 = Ret v' /\ vm_ok v' bm' /\
    (forall j, 0 <= j -> occupied demo_bitmap j = true -> occupied bm' j = true) /\ maps_page demo_vm v' 0x5000 0x400123.
Proof.
  apply (map_current_translates demo_vm demo_bitmap 0x5000 0x400123 2 demo_vm_ok);
    [by vm_compute|by vm_compute|by vm_compute|apply demo_vm_private].
Defined.

(** The same with the page at 0x400000 mapped to frame 5 by a table in frame 4. *)
Definition demo_table_frames : FrameBitmap := mkFrameBitmap 10 0x100000 [0x35; 0xfc].
Definition demo_mapped : VM :=
  mkVM (store32 (store32 (phys demo_vm) (0x2000 + 4) 0x4001) 0x4000 0x5001) 0x2000
    (mkPhysState (Some demo_table_frames) None) [].

Lemma demo_mapped_table d : 0 <= d < 1023 -> has_table (phys demo_mapped) (cr3 demo_mapped) d -> d = 1.
Proof.
  intros Hd. destruct (Z.eq_dec d 1) as [|Hne]; [done|]. unfold has_table, dir_entry. cbn [phys cr3 demo_mapped demo_vm].
  rewrite !load32_store32_ne, load32_empty by (unfold in_space, apart; lia). by vm_compute.
Qed.

Lemma demo_mapped_ok : vm_ok demo_mapped demo_table_frames.
Proof.
  split; [reflexivity| | |reflexivity|].
  - split; [simpl; lia|]. split; [done|]. by apply bytes_ok_check.
  - split; [by vm_compute|]. by vm_compute.
  - intros d Hd Hh. rewrite (demo_mapped_table d Hd Hh). split; [by vm_compute|reflexivity].
Qed.

Lemma unmap_current_removes_witness :
  walk (phys demo_mapped) (cr3 demo_mapped) 0x400123 = Some 0x5123 /\
  exists v', CurrentPageDirectory.unmap demo_mapped 0x400123 = Ret v' /\ vm_ok v' demo_table_frames /\
    cr3 v' = cr3 demo_mapped /\ walk (phys v') (cr3 v') 0x400123 = None /\
    (walk (phys demo_mapped) (cr3 demo_mapped) 0x400123 <> None -> flushed v' = 0x400123 :: flushed demo_mapped) /\
    forall w, is_u32 w -> dir_index w < 1023 -> w / 4096 <> 0x400123 / 4096 ->
      walk (phys v') (cr3 v') w = walk (phys demo_mapped) (cr3 demo_mapped) w.
Proof.
  split; [by vm_compute|]. apply (unmap_current_removes demo_mapped demo_table_frames 0x400123 demo_mapped_ok);
    [by vm_compute|by vm_compute|]. intros d Hd Hne Hh. by apply demo_mapped_table in Hh.
Defined.

Definition demo_bounds : KernelDataBounds := mkBounds 0x5000 0x7001 0x5000.

Lemma boot_directory_maps_kernel_witness :
  exists st1 m1 dir st2 m2 bm2,
    create_initial_pagedir (mkPhysState (Some demo_bitmap) None) ∅ = Ret (st1, m1, dir) /\
    map_kernel st1 m1 dir demo_bounds = Ret (st2, m2) /\
    vm_ok (mkVM m2 dir st2 []) bm2 /\
    (forall a, 0 <= a < 0x400000 -> walk m2 dir a = Some a /\ walk m2 dir (0xc0000000 + a) = Some a) /\
    (forall o, 0 <= o < 4096 -> walk m2 dir (0xffbfe000 + o) = Some (stack_start demo_bounds + o)).
Proof.
  apply (boot_directory_maps_kernel _ demo_bitmap ∅ demo_bounds 1 3 4);
    [reflexivity|apply demo_bitmap_wf|by vm_compute|by vm_compute| |lia|by vm_compute].
  set (r := FrameRange.new _ _).
  assert (E1 : FrameRange.get_first_frame_index r = 5) by by vm_compute.
  assert (E2 : FrameRange.get_last_frame_index r = 6) by by vm_compute.
  rewrite E1, E2. change (frame_count demo_bitmap) with 10.
  repeat first [apply Forall_nil_2 | apply Forall_cons_2; [split; [lia|split; [reflexivity|lia]]|]].
Defined.
