(* ===== verification/ProcMemory.v ===== *)
(** The memory of processes: [process/memory.rs].

    [KernelMemory] holds the two global regions shared by all processes; [ProcMemory] is the
    part of a process that describes its address space.  Operations that edit page tables run
    on the machine of [PageTable]. *)

From S2P Require Import Prelude Memory Address FrameBitmap Physical ListAllocator Region PageTable.

Definition INITIAL_HEAP_SIZE : Z := 64.
Definition STACK_START : Z := 0xffbf0000.
Definition STACK_SIZE : Z := 0xffbff000 -u STACK_START.

Record KernelMemory : Type := mkKernelMemory {
  KERNEL_HEAP : VirtualMemoryRegion;
  KERNEL_MEMMAP : list VirtualMemoryRegion
}.
Definition initial_kernel_memory : KernelMemory :=
  mkKernelMemory
    (VirtualMemoryRegion.new 0 (INITIAL_HEAP_SIZE *u 0x1000) (Anonymous After) ReadOnly) [].

(** The kernel memory and the new size of the heap region. *)
Definition expand_kernel_heap (min_space_needed : Z) (k : KernelMemory) : KernelMemory * Z :=
  let frames_needed := min_space_needed / 0x1000 in
  let frames_needed := if frames_needed <? INITIAL_HEAP_SIZE then INITIAL_HEAP_SIZE else frames_needed in
  let '(heap, new_size) := VirtualMemoryRegion.expand (KERNEL_HEAP k) frames_needed in
  (mkKernelMemory heap (KERNEL_MEMMAP k), new_size).

Record MemoryRegions : Type := mkMemoryRegions {
  kernel_stack_region : VirtualMemoryRegion;
  kernel_exec_region : VirtualMemoryRegion;
  heap_region : VirtualMemoryRegion;
  stack_region : VirtualMemoryRegion;
  execution_regions : list VirtualMemoryRegion
}.

Module MemoryRegions.

Definition initial (k : KernelMemory) (heap_start : Z) : KernelMemory * MemoryRegions :=
  (mkKernelMemory (VirtualMemoryRegion.set_starting_address (KERNEL_HEAP k) heap_start) (KERNEL_MEMMAP k),
   mkMemoryRegions
     (VirtualMemoryRegion.new STACK_START STACK_SIZE (Anonymous NoExpansion) ReadWrite)
     (VirtualMemoryRegion.new 0xc0000000 0x400000 (Anonymous NoExpansion) CopyOnWrite)
     VirtualMemoryRegion.empty
     (VirtualMemoryRegion.new (0xc0000000 -u 0x2000) 0x2000 (Anonymous Before) ReadWrite)
     [VirtualMemoryRegion.new 0 0x400000 (Anonymous NoExpansion) CopyOnWrite]).

Definition fork (r : MemoryRegions) : MemoryRegions :=
  mkMemoryRegions
    (VirtualMemoryRegion.copy_with_permissions (kernel_stack_region r) ReadWrite)
    (VirtualMemoryRegion.copy_for_new_process (kernel_exec_region r))
    (VirtualMemoryRegion.copy_for_new_process (heap_region r))
    (VirtualMemoryRegion.copy_for_new_process (stack_region r))
    (VirtualMemoryRegion.copy_for_new_process <$> execution_regions r).

Fixpoint find_region (l : list VirtualMemoryRegion) (addr : Z) : option VirtualMemoryRegion :=
  match l with
  | [] => None
  | r :: l' => if VirtualMemoryRegion.contains_address r addr then Some r else find_region l' addr
  end.

Definition get_range_containing_address (k : KernelMemory) (r : MemoryRegions) (addr : Z)
  : option VirtualMemoryRegion :=
  if VirtualMemoryRegion.contains_address (KERNEL_HEAP k) addr then Some (KERNEL_HEAP k)
  else if VirtualMemoryRegion.contains_address (kernel_stack_region r) addr then Some (kernel_stack_region r)
  else if VirtualMemoryRegion.contains_address (kernel_exec_region r) addr then Some (kernel_exec_region r)
  else match find_region (KERNEL_MEMMAP k) addr with
  | Some region => Some region
  | None =>
      if VirtualMemoryRegion.contains_address (heap_region r) addr then Some (heap_region r)
      else if VirtualMemoryRegion.contains_address (stack_region r) addr then Some (stack_region r)
      else find_region (execution_regions r) addr
  end.

End MemoryRegions.

(** The fields of a process that this file changes. *)
Record ProcMemory : Type := mkProcMemory {
  memory_regions : MemoryRegions;
  heap_break : Z
}.
Definition set_regions (p : ProcMemory) (r : MemoryRegions) : ProcMemory := mkProcMemory r (heap_break p).
Definition set_heap_region (r : MemoryRegions) (h : VirtualMemoryRegion) : MemoryRegions :=
  mkMemoryRegions (kernel_stack_region r) (kernel_exec_region r) h (stack_region r) (execution_regions r).
Definition push_execution_region (p : ProcMemory) (region : VirtualMemoryRegion) : ProcMemory :=
  let r := memory_regions p in
  set_regions p (mkMemoryRegions (kernel_stack_region r) (kernel_exec_region r) (heap_region r)
                   (stack_region r) (execution_regions r ++ [region])).

(** * Page directories *)

Definition fork_page_directory (fuel : nat) (v : VM) (k : KernelMemory) (p : ProcMemory) : comp (VM * Z) :=
  let temp_page_address := get_temporary_page_address in
  '(v, top_page) ← vm_allocate_unwrap v;
  v ← map_frame_to_temporary_page v top_page;
  v ← PageTable.zero v temp_page_address;
  '(v, directory_frame) ← vm_allocate_unwrap v;
  v ← map_frame_to_temporary_page v directory_frame;
  v ← PageTable.zero v temp_page_address;
  v ← PageTable.modify v temp_page_address 1023
        (PageTableEntry.set_address (Frame.get_address directory_frame));
  v ← PageTable.modify v temp_page_address 1023 PageTableEntry.set_present;
  v ← PageTable.modify v temp_page_address 1022
        (PageTableEntry.set_address (Frame.get_address top_page));
  v ← PageTable.modify v temp_page_address 1022 PageTableEntry.set_present;
  let new_page_dir := Frame.get_address directory_frame in
  let regions := memory_regions p in
  v ← AlternatePageDirectory.map_region fuel v new_page_dir (KERNEL_HEAP k);
  v ← AlternatePageDirectory.map_region fuel v new_page_dir (kernel_stack_region regions);
  v ← AlternatePageDirectory.map_region fuel v new_page_dir (kernel_exec_region regions);
  v ← AlternatePageDirectory.map_region fuel v new_page_dir (stack_region regions);
  v ← AlternatePageDirectory.map_region fuel v new_page_dir (heap_region regions);
  v ← for_each (fun region v => AlternatePageDirectory.map_region fuel v new_page_dir region)
        (execution_regions regions) v;
  Ret (v, Frame.get_address directory_frame).

(** Regions are popped from the end. *)
Definition unmap_all (fuel : nat) (v : VM) (p : ProcMemory) : comp (VM * ProcMemory) :=
  let r := memory_regions p in
  v ← for_each (fun region v => CurrentPageDirectory.unmap_region fuel v region)
        (reverse (execution_regions r)) v;
  Ret (v, set_regions p (mkMemoryRegions (kernel_stack_region r) (kernel_exec_region r)
                           (heap_region r) (stack_region r) [])).

(** * The heap of a process *)

Definition start_heap (p : ProcMemory) (addr : Z) : ProcMemory :=
  let r := memory_regions p in
  set_regions p (set_heap_region r (VirtualMemoryRegion.set_starting_address (heap_region r) addr)).

Definition set_heap_break (p : ProcMemory) (addr : Z) : ProcMemory * result Z unit :=
  let heap_break := heap_break p in
  if addr =? heap_break then (p, Ok heap_break)
  else if negb ((heap_break &u 0xfffff000) =? (addr &u 0xfffff000)) || (heap_break =? 0) then
    let regions := memory_regions p in
    let start := VirtualMemoryRegion.get_starting_address (heap_region regions) in
    if addr <? start then (p, Err tt)
    else
      let new_size := addr -u start in
      let page_rounded_size := (new_size +u 0x1000) &u 0xfffff000 in
      let regions := set_heap_region regions
                       (VirtualMemoryRegion.set_size (heap_region regions) page_rounded_size) in
      (mkProcMemory regions addr, Ok heap_break)
  else (mkProcMemory (memory_regions p) addr, Ok heap_break).

(** [delta] is an [isize]: between -2^31 and 2^31 - 1. *)
Definition move_heap_break (p : ProcMemory) (delta : Z) : ProcMemory * result Z unit :=
  let sum := i32 (heap_break p) + delta in
  let new_break := i32 sum in
  let overflow := negb (sum =? new_break) in
  if overflow || (new_break <? 0) then (p, Err tt)
  else set_heap_break p (u32 new_break).

(** * Mappings *)

Definition round_region_length (length : Z) : Z :=
  if negb ((length &u 0xfff) =? 0) then (length +u 0x1000) &u 0xfffff000 else length.

Definition mmap (p : ProcMemory) (start length drive_number handle : Z) : ProcMemory :=
  push_execution_region p
    (VirtualMemoryRegion.new start (round_region_length length)
       (MemMapped drive_number handle length) ReadWrite).

Definition anonymous_map (p : ProcMemory) (start length : Z) : ProcMemory :=
  push_execution_region p
    (VirtualMemoryRegion.new start (round_region_length length) (Anonymous NoExpansion) ReadWrite).

Definition mmap_dma_region (st : PhysState) (virt length : Z)
  : comp (PhysState * (Z * VirtualMemoryRegion)) :=
  let frame_count := length >>u 12 in
  let frame_count := if (length &u 0xfff) >? 0 then frame_count +u 1 else frame_count in
  '(st, r) ← Physical.allocate_frames st frame_count;
  match r with
  | Err _ => Panic
  | Ok range =>
      let phys := FrameRange.get_starting_address range in
      let range := FrameRange.new phys length in
      Ret (st, (phys, VirtualMemoryRegion.new virt (round_region_length length) (DMA range) ReadWrite))
  end.

Definition mmap_dma (st : PhysState) (p : ProcMemory) (virt length : Z)
  : comp (PhysState * ProcMemory * Z) :=
  '(st, (phys, region)) ← mmap_dma_region st virt length;
  Ret (st, push_execution_region p region, phys).

(** The lowest address used below the stack. *)
Definition last_occupied (l : list VirtualMemoryRegion) : Z :=
  foldl (fun last_occupied region =>
           let region_start := VirtualMemoryRegion.get_starting_address_as_usize region in
           if region_start <? last_occupied then region_start else last_occupied) STACK_START l.

Definition kernel_mmap_dma (st : PhysState) (k : KernelMemory) (length : Z)
  : comp (PhysState * KernelMemory * (Z * Z)) :=
  let new_region_start := (last_occupied (KERNEL_MEMMAP k) -u length) &u 0xfffff000 in
  '(st, (phys, region)) ← mmap_dma_region st new_region_start length;
  Ret (st, mkKernelMemory (KERNEL_HEAP k) (KERNEL_MEMMAP k ++ [region]), (phys, new_region_start)).

(** * Program break *)

(** Once set, the break lies inside the heap region, whose ends are page boundaries. *)
Definition heap_ok (p : ProcMemory) : Prop :=
  let h := heap_region (memory_regions p) in
  0 <= start h /\ start h mod 4096 = 0 /\ 0 <= size h /\ size h mod 4096 = 0 /\
  start h + size h < 4294967296 /\ 0 <= heap_break p /\
  (heap_break p = 0 \/ start h <= heap_break p < start h + size h).

Lemma land_page_up n : 0 <= n -> n + 4096 < 4294967296 -> Z.land (u32 (n + 0x1000)) 0xfffff000 = n - n mod 4096 + 4096.
Proof. intros H1 H2. rewrite u32_small by (mach_unfold; lia). rewrite land_page by (mach_unfold; lia). mlia. Qed.

(** Below the last page of the address space. *)
Lemma brk_below p addr :
  heap_ok p -> 0 <= addr < 0xfffff000 ->
  let h := heap_region (memory_regions p) in
  let '(p', r) := set_heap_break p addr in
  heap_ok p' /\ start (heap_region (memory_regions p')) = start h /\
  match r with
  | Err _ => p' = p /\ addr < start h
  | Ok old =>
      old = heap_break p /\ heap_break p' = addr /\
      (addr <> 0 -> forall a, start h <= a <= addr ->
         VirtualMemoryRegion.contains_address (heap_region (memory_regions p')) a = true)
  end.
Proof.
  intros Hok Ha. destruct p as [[ks ke h st ex] b]. unfold heap_ok in Hok. cbn in Hok. cbn zeta.
  destruct Hok as (H1 & H2 & H3 & H4 & H5 & H6 & H7).
  assert (Hc : forall q, 0 <= start q -> 0 <= size q -> start q + size q < 4294967296 ->
    forall a, start q <= a < start q + size q -> VirtualMemoryRegion.contains_address q a = true)
    by (intros q Q1 Q2 Q3 a Qa; by apply VirtualMemoryRegion.contains_address_spec).
  unfold set_heap_break. cbn [heap_break memory_regions heap_region].
  destruct (Z.eqb_spec addr b) as [->|Hne].
  { split; [by unfold heap_ok|]. split; [done|]. split; [done|]. split; [done|].
    intros Hb a Hr. cbn in *. apply Hc; try assumption. lia. }
  rewrite !land_page by (mach_unfold; lia).
  destruct (negb _ || _) eqn:Hpage.
  - unfold VirtualMemoryRegion.get_starting_address. destruct (Z.ltb_spec addr (start h)).
    + split; [by unfold heap_ok|]. by split.
    + rewrite (u32_small (addr - start h)), land_page_up by (mach_unfold; lia).
      unfold heap_ok. cbn. split; [split_and!; try lia; mlia|]. split; [done|]. split; [done|]. split; [done|].
      intros _ a Hr. cbn in Hr. apply Hc; cbn; mlia.
  - apply orb_false_iff in Hpage as [Hsame Hb]. apply negb_false_iff, Z.eqb_eq in Hsame. apply Z.eqb_neq in Hb.
    assert (start h <= addr < start h + size h) by mlia.
    unfold heap_ok. cbn. split; [split_and!; lia|]. split; [done|]. split; [done|]. split; [done|].
    intros _ a Hr. cbn in Hr. apply Hc; lia.
Qed.

(** In the last page the end of the region wraps to 0. *)
Lemma brk_last_page p addr :
  heap_ok p -> 0xfffff000 <= addr < 4294967296 ->
  exists r, set_heap_break p addr = (mkProcMemory r addr, Ok (heap_break p)) /\
    start (heap_region r) = start (heap_region (memory_regions p)) /\
    forall a, VirtualMemoryRegion.contains_address (heap_region r) a = false.
Proof.
  intros Hok Ha. destruct p as [[ks ke h st ex] b]. unfold heap_ok in Hok. cbn in Hok.
  destruct Hok as (H1 & H2 & H3 & H4 & H5 & H6 & H7). unfold set_heap_break. cbn [heap_break memory_regions heap_region].
  assert (b < 0xfffff000) by mlia. destruct (Z.eqb_spec addr b); [lia|]. rewrite !land_page by (mach_unfold; lia).
  destruct (Z.eqb_spec (b - b mod 4096) (addr - addr mod 4096)); [mlia|]. cbn [negb orb].
  unfold VirtualMemoryRegion.get_starting_address. assert (start h <= 0xfffff000) by mlia. destruct (Z.ltb_spec addr (start h)); [lia|].
  eexists. split; [done|]. split; [done|]. intros a. cbn [heap_region set_heap_region].
  unfold VirtualMemoryRegion.contains_address, VirtualMemoryRegion.set_size. cbn [start size].
  match goal with |- context [start h +u ?x] => set (y := x) end.
  assert (Hy : start h +u y = 0).
  { unfold y. rewrite land_page by mlia. rewrite (u32_small (addr - start h)) by (mach_unfold; lia). mlia. }
  rewrite Hy. rewrite Z.geb_leb. destruct (Z.leb_spec (start h) a), (Z.ltb_spec a 0); try done. lia.
Qed.

(** C37: [brk] below the last page of the address space keeps the break inside the heap
    region: it fails, without a change, only for an address below the heap; otherwise it
    returns the old break, moves the break to the address, and the region covers every byte
    up to it.  An address in the last page is accepted as well, but the end of the region
    wraps to 0 and it covers no address at all. *)
Theorem brk_keeps_break_mapped p addr :
  heap_ok p -> is_u32 addr ->
  let h := heap_region (memory_regions p) in
  let '(p', r) := set_heap_break p addr in
  let h' := heap_region (memory_regions p') in
  start h' = start h /\
  if addr <? 0xfffff000 then
    heap_ok p' /\
    match r with
    | Err _ => p' = p /\ addr < start h
    | Ok old =>
        old = heap_break p /\ heap_break p' = addr /\
        (addr <> 0 -> forall a, start h <= a <= addr -> VirtualMemoryRegion.contains_address h' a = true)
    end
  else r = Ok (heap_break p) /\ heap_break p' = addr /\ forall a, VirtualMemoryRegion.contains_address h' a = false.
Proof.
  intros Hok Ha. cbv zeta. destruct (Z.ltb_spec addr 0xfffff000).
  - pose proof (brk_below p addr Hok ltac:(mach_unfold; lia)) as Hb. cbv zeta in Hb. destruct (set_heap_break p addr) as [p' r].
    destruct Hb as (? & ? & ?). by split_and!.
  - destruct (brk_last_page p addr Hok ltac:(mach_unfold; lia)) as (r & -> & Hs & Hn). by split_and!.
Qed.

(** [sbrk] is [brk] at the sum, and refuses a sum that is negative or does not fit in a
    signed word. *)
Lemma sbrk_is_brk p delta :
  0 <= heap_break p < 2147483648 -> -2147483648 <= delta < 2147483648 ->
  move_heap_break p delta =
  if (0 <=? heap_break p + delta) && (heap_break p + delta <? 2147483648)
  then set_heap_break p (heap_break p + delta) else (p, Err tt).
Proof.
  intros Hb Hd. unfold move_heap_break.
  assert (i32 (heap_break p) = heap_break p) as ->
    by (unfold i32; rewrite u32_small by (mach_unfold; lia); destruct (Z.ltb_spec (heap_break p) 2147483648); lia).
  set (s := heap_break p + delta).
  destruct (Z.leb_spec 0 s) as [Hs|Hs]; cbn [andb].
  - unfold i32. rewrite (u32_small s) by (unfold s; mach_unfold; lia).
    destruct (Z.ltb_spec s 2147483648).
    + rewrite Z.eqb_refl. destruct (Z.ltb_spec s 0); [lia|]. cbn [negb orb]. by rewrite u32_small by (mach_unfold; lia).
    + destruct (Z.eqb_spec s (s - 4294967296)); [lia|done].
  - unfold i32. assert (u32 s = s + 4294967296) as -> by (unfold s in *; mlia).
    destruct (Z.ltb_spec (s + 4294967296) 2147483648); [unfold s in *; lia|].
    destruct (Z.ltb_spec (s + 4294967296 - 4294967296) 0); [|lia]. by rewrite orb_true_r.
Qed.

(** * Device memory *)

(** The regions hang below [top], each ending where the one before begins. *)
Fixpoint stacked (top : Z) (l : list VirtualMemoryRegion) : Prop :=
  match l with
  | [] => True
  | r :: l' =>
      start r + size r = top /\ 0 < size r /\ 0 <= start r /\ start r mod 4096 = 0 /\ stacked (start r) l'
  end.

(** The lowest address of a stack of regions. *)
Fixpoint bottom (top : Z) (l : list VirtualMemoryRegion) : Z :=
  match l with [] => top | r :: l' => bottom (start r) l' end.

Lemma last_occupied_bottom top l :
  stacked top l ->
  foldl (fun last_occupied region =>
           let region_start := VirtualMemoryRegion.get_starting_address_as_usize region in
           if region_start <? last_occupied then region_start else last_occupied) top l = bottom top l.
Proof.
  revert top. induction l as [|r l IH]; intros top; simpl; [done|].
  intros (H1 & H2 & H3 & H4 & H5). unfold VirtualMemoryRegion.get_starting_address_as_usize.
  destruct (Z.ltb_spec (start r) top); [by apply IH|lia].
Qed.

Lemma stacked_snoc top l r :
  stacked top l -> start r + size r = bottom top l -> 0 < size r -> 0 <= start r -> start r mod 4096 = 0 ->
  stacked top (l ++ [r]).
Proof.
  revert top. induction l as [|q l IH]; intros top; simpl; [tauto|].
  intros (H1 & H2 & H3 & H4 & H5) ? ? ? ?. repeat (split; [done|]). by apply IH.
Qed.

Lemma bottom_aligned top l :
  top mod 4096 = 0 -> 0 <= top -> stacked top l -> bottom top l mod 4096 = 0 /\ 0 <= bottom top l <= top.
Proof.
  revert top. induction l as [|r l IH]; intros top Ht Hp; simpl; [lia|].
  intros (H1 & H2 & H3 & H4 & H5). destruct (IH (start r) H4 H3 H5). lia.
Qed.

(** Regions of a stack do not overlap. *)
Lemma stacked_disjoint top l1 r l2 q l3 a :
  stacked top (l1 ++ r :: l2 ++ q :: l3) ->
  start r <= a < start r + size r -> ~ (start q <= a < start q + size q).
Proof.
  revert top. induction l1 as [|x l1 IH]; intros top; simpl; [|intros (_ & _ & _ & _ & H); by eapply IH].
  intros (_ & _ & _ & _ & H) Ha. enough (start q + size q <= start r) by lia.
  clear - H. revert H. generalize (start r). induction l2 as [|x l2 IH]; intros t; simpl.
  - intros (H1 & _). lia.
  - intros (H1 & H2 & _ & _ & H3). apply IH in H3. lia.
Qed.

Lemma round_region_length_spec n :
  0 < n -> n + 4096 < 4294967296 ->
  n <= round_region_length n < n + 4096 /\ round_region_length n mod 4096 = 0.
Proof.
  intros Hn Hb. unfold round_region_length. rewrite land_fff.
  destruct (Z.eqb_spec (n mod 4096) 0); cbn [negb]; [lia|]. rewrite land_page_up by lia. mlia.
Qed.

Lemma dma_frames_spec n :
  0 < n -> n + 4096 < 4294967296 ->
  (if (Z.land n 0xfff) >? 0 then (n >>u 12) +u 1 else n >>u 12) * 4096 = round_region_length n.
Proof.
  intros Hn Hb. unfold round_region_length. rewrite land_fff, shr_div by lia. change (2 ^ 12) with 4096.
  destruct (Z.eqb_spec (n mod 4096) 0), (Z.gtb_spec (n mod 4096) 0); cbn [negb]; try mlia.
  rewrite land_page_up, u32_small by (mach_unfold; mlia). mlia.
Qed.

(** A kernel buffer for device transfers is given the pages directly below the buffers
    given out before, so no two overlap, and a run of free frames of the same length that
    becomes used; it fails only when no such run exists. *)
Theorem kernel_mmap_dma_stacks st bm k n :
  ALLOCATOR st = Some bm -> FrameBitmap.wf bm -> stacked STACK_START (KERNEL_MEMMAP k) ->
  0 < n -> n + 4096 < 4294967296 -> round_region_length n <= bottom STACK_START (KERNEL_MEMMAP k) ->
  let pages := round_region_length n / 4096 in
  (exists s st' bm' region,
     let virt := bottom STACK_START (KERNEL_MEMMAP k) - round_region_length n in
     kernel_mmap_dma st k n =
       Ret (st', mkKernelMemory (KERNEL_HEAP k) (KERNEL_MEMMAP k ++ [region]), (s * 4096, virt)) /\
     start region = virt /\ size region = round_region_length n /\
     backed_by region = DMA (FrameRange.new (s * 4096) n) /\
     stacked STACK_START (KERNEL_MEMMAP k ++ [region]) /\
     ALLOCATOR st' = Some bm' /\ free_run bm s pages /\
     forall j, 0 <= j -> occupied bm' j = ((s <=? j) && (j <? s + pages)) || occupied bm j) \/
  (kernel_mmap_dma st k n = Panic /\ forall s, ~ free_run bm s pages).
Proof.
  intros Ha Hwf Hst Hn Hnb Hfit pages.
  destruct (bottom_aligned STACK_START (KERNEL_MEMMAP k) eq_refl ltac:(unfold STACK_START; lia) Hst) as [Hb1 Hb2].
  assert (Hs4 : STACK_START = 4290707456) by reflexivity.
  destruct (round_region_length_spec n Hn Hnb) as [Hr1 Hr2].
  set (top := bottom STACK_START (KERNEL_MEMMAP k)) in *.
  assert (Hvirt : Z.land (u32 (top - n)) 0xfffff000 = top - round_region_length n).
  { rewrite u32_small by (mach_unfold; lia). rewrite land_page by (mach_unfold; lia). mlia. }
  unfold kernel_mmap_dma, mmap_dma_region. unfold last_occupied. rewrite last_occupied_bottom by done. fold top.
  rewrite Hvirt. pose proof (dma_frames_spec n Hn Hnb) as Hf.
  set (fc := if Z.land n 0xfff >? 0 then _ else _) in *.
  assert (Hfc : fc = pages) by (unfold pages; rewrite <- Hf; mlia). rewrite Hfc.
  assert (Hpg : 1 <= pages < 4294967296) by (unfold pages; mlia).
  unfold Physical.allocate_frames, with_allocator. rewrite Ha.
  destruct (allocate_frames_cases bm pages Hwf Hpg)
    as [(s & bm' & -> & Hrun & _ & Hwf' & Hcnt & Hocc)|[-> Hno]]; [left|right; by split].
  cbn [mbind comp_bind]. eexists s, _, bm', _. split; [reflexivity|].
  unfold VirtualMemoryRegion.new, FrameRange.new. cbn.
  split; [done|]. split; [done|]. split; [done|]. split; [|by split_and!].
  apply stacked_snoc; cbn; try done; try lia. mlia.
Qed.

(** * Removing mappings *)

Lemma private_ext v v' d :
  cr3 v' = cr3 v -> (forall d, 0 <= d < 1024 -> dir_entry (phys v') (cr3 v') d = dir_entry (phys v) (cr3 v) d) ->
  0 <= d < 1023 -> private v d -> private v' d.
Proof.
  intros E He Hd Hp d' Hd' Hne Hh. unfold has_table, table_of in *. rewrite !He in * by lia. by apply Hp.
Qed.

(** The pages of [w] that start between [p] and [e]. *)
Definition page_in (p e w : Z) : Prop := p <= w / 4096 * 4096 < e.

Lemma dir_index_mono a b : is_u32 a -> is_u32 b -> a <= b -> dir_index a <= dir_index b.
Proof.
  intros Ha Hb Hab. unfold VirtualAddress.get_page_directory_index. rewrite !shr_div by lia.
  apply Z.div_le_mono; [by vm_compute|done].
Qed.

Lemma dir_index_below a : 0 <= a < 0xffc00000 -> 0 <= dir_index a < 1023.
Proof. intros Ha. unfold VirtualAddress.get_page_directory_index. rewrite shr_div by lia. change (2 ^ 22) with 4194304. mlia. Qed.

Lemma page_indices a b : b / 4096 = a / 4096 -> dir_index b = dir_index a /\ table_index b = table_index a.
Proof.
  intros E. unfold VirtualAddress.get_page_directory_index, VirtualAddress.get_page_table_index.
  rewrite !shr_div, !land_3ff by lia. change (2 ^ 22) with 4194304. change (2 ^ 12) with 4096.
  rewrite E. split; [mlia|done].
Qed.

(** All addresses of a page have a translation into the same frame, or none. *)
Lemma walk_same_page m dir a b :
  b / 4096 = a / 4096 -> walk m dir b = (fun x => x - a mod 4096 + b mod 4096) <$> walk m dir a.
Proof.
  intros E. unfold walk, pte, pte_addr, pde, pde_addr. destruct (page_indices a b E) as [-> ->].
  repeat case_match; try done. cbn. f_equal. lia.
Qed.

Lemma walk_page_None m dir a b :
  b / 4096 = a / 4096 -> walk m dir a = None -> walk m dir b = None.
Proof. intros E Ha. by rewrite (walk_same_page m dir a b E), Ha. Qed.

(** Memory after unmapping the pages of [p .. e): nothing else is changed. *)
Definition unmapped (v v' : VM) (bm : FrameBitmap) (p e : Z) : Prop :=
  vm_ok v' bm /\ cr3 v' = cr3 v /\
  (forall d, 0 <= d < 1024 -> dir_entry (phys v') (cr3 v') d = dir_entry (phys v) (cr3 v) d) /\
  forall w, is_u32 w -> dir_index w < 1023 ->
    (page_in p e w -> walk (phys v') (cr3 v') w = None) /\
    (~ page_in p e w -> walk (phys v') (cr3 v') w = walk (phys v) (cr3 v) w).

Lemma unmap_region_loop_spec fuel v bm r p :
  vm_ok v bm -> VirtualMemoryRegion.wf r -> start r + size r <= 0xffc00000 -> start r <= p -> p mod 4096 = 0 ->
  (forall a, start r <= a < start r + size r -> private v (dir_index a)) ->
  p < start r + size r + 4096 -> (Z.to_nat ((start r + size r - p + 4095) / 4096) <= fuel)%nat ->
  exists v', CurrentPageDirectory.unmap_region_loop fuel v r p = Ret v' /\
    unmapped v v' bm p (start r + size r).
Proof.
  revert v p. induction fuel as [|fuel IH]; intros v p Hok Hwf He Hp Hm Hpriv Hpe Hfuel;
    cbn [CurrentPageDirectory.unmap_region_loop];
    destruct (VirtualMemoryRegion.contains_address r p) eqn:Hc.
  1: { apply VirtualMemoryRegion.contains_address_spec in Hc; [|done]. exfalso. mlia. }
  2: { apply VirtualMemoryRegion.contains_address_spec in Hc as Hc'; [|done].
    destruct Hwf as (W1 & W2 & W3). assert (Hu : is_u32 p) by (mach_unfold; lia).
    pose proof (dir_index_below p ltac:(lia)) as Hd.
    destruct (unmap_spec v bm p Hok Hu ltac:(lia) (Hpriv p Hc')) as (v1 & -> & Hok1 & E1 & Hde & Hw1 & _ & Hw2).
    cbn [mbind comp_bind]. unfold VirtualAddress.offset. rewrite u32_small by (mach_unfold; lia).
    destruct (IH v1 (p + 4096)) as (v2 & -> & Hok2 & E2 & Hde2 & Hw); try done; try lia.
    + mlia.
    + intros a Ha. apply (private_ext v); [done|done|apply dir_index_below; lia|by apply Hpriv].
    + mlia.
    + exists v2. split; [done|]. split; [done|]. split; [congruence|].
      split; [intros d Hdd; by rewrite Hde2, Hde|]. intros w Hwu Hwd. destruct (Hw w Hwu Hwd) as [G1 G2].
      unfold page_in in *. destruct (decide (w / 4096 = p / 4096)) as [Eq|Eq].
      * split; [|intros Hn; exfalso; apply Hn; rewrite Eq; mlia].
        intros _. rewrite G2 by (rewrite Eq; mlia). by eapply walk_page_None.
      * rewrite <- (Hw2 w Hwu Hwd Eq). split; intros Hpi; [apply G1|apply G2]; mlia. }
  all: exists v; split; [done|]; split; [done|]; split; [done|]; split; [done|]; intros w Hwu Hwd;
    split; [|done]; intros Hpi; exfalso;
    assert (Hno : ~ (start r <= p < start r + size r))
      by (rewrite <- VirtualMemoryRegion.contains_address_spec by done; congruence);
    unfold page_in in Hpi; lia.
Qed.

(** A region that the loop can unmap within [fuel] pages. *)
Definition unmappable (fuel : nat) (v : VM) (r : VirtualMemoryRegion) : Prop :=
  VirtualMemoryRegion.wf r /\ start r mod 4096 = 0 /\ start r + size r <= 0xffc00000 /\
  size r <= 4096 * Z.of_nat fuel /\ forall a, start r <= a < start r + size r -> private v (dir_index a).
Definition page_in_regions (l : list VirtualMemoryRegion) (w : Z) : Prop :=
  Exists (fun r => page_in (start r) (start r + size r) w) l.

Lemma unmap_list_spec fuel v bm l :
  vm_ok v bm -> Forall (unmappable fuel v) l ->
  exists v', for_each (fun region v => CurrentPageDirectory.unmap_region fuel v region) l v = Ret v' /\
    vm_ok v' bm /\ cr3 v' = cr3 v /\
    forall w, is_u32 w -> dir_index w < 1023 ->
      (page_in_regions l w -> walk (phys v') (cr3 v') w = None) /\
      (~ page_in_regions l w -> walk (phys v') (cr3 v') w = walk (phys v) (cr3 v) w).
Proof.
  revert v. induction l as [|r l IH]; intros v Hok Hl; cbn [for_each].
  - exists v. repeat (split; [done|]). intros w _ _. split; [|done]. intros H. inversion H.
  - apply Forall_cons in Hl as [(Hwf & Hal & He & Hsz & Hp) Hl].
    destruct (unmap_region_loop_spec fuel v bm r (start r)) as (v1 & Heq & Hok1 & E1 & Hde & Hw1); try done; try lia.
    { destruct Hwf as (_ & H2 & _). lia. } { mlia. }
    cbv beta. change (CurrentPageDirectory.unmap_region fuel v r)
      with (CurrentPageDirectory.unmap_region_loop fuel v r (start r)). rewrite Heq. cbn [mbind comp_bind]. destruct (IH v1 Hok1) as (v2 & -> & Hok2 & E2 & Hw2).
    { eapply Forall_impl; [exact Hl|]. intros q (Q1 & Q2 & Q3 & Q4 & Q5). repeat (split; [done|]).
      intros a Ha. apply (private_ext v); [done|done|apply dir_index_below; destruct Q1; lia|by apply Q5]. }
    exists v2. split; [done|]. split; [done|]. split; [congruence|]. intros w Hu Hd.
    destruct (Hw1 w Hu Hd) as [A1 A2], (Hw2 w Hu Hd) as [B1 B2]. unfold page_in_regions in *. rewrite Exists_cons.
    assert (Hdec : page_in_regions l w \/ ~ page_in_regions l w).
    { destruct (decide (Exists (fun r => page_in (start r) (start r + size r) w) l)); [by left|by right]. }
    split.
    + intros [H|H]; [|by apply B1]. destruct Hdec as [Hd'|Hd']; [by apply B1|]. rewrite B2 by done. by apply A1.
    + intros Hn. rewrite B2 by tauto. apply A2. tauto.
Qed.

(** Before a new program is loaded, [unmap_all] forgets every execution region and leaves
    none of their pages with a translation; pages of other regions translate as before. *)
Theorem unmap_all_clears_execution_regions fuel v bm p :
  vm_ok v bm -> Forall (unmappable fuel v) (execution_regions (memory_regions p)) ->
  exists v' p', unmap_all fuel v p = Ret (v', p') /\ vm_ok v' bm /\
    execution_regions (memory_regions p') = [] /\
    heap_region (memory_regions p') = heap_region (memory_regions p) /\
    stack_region (memory_regions p') = stack_region (memory_regions p) /\
    forall w, is_u32 w -> dir_index w < 1023 ->
      (page_in_regions (execution_regions (memory_regions p)) w -> walk (phys v') (cr3 v') w = None) /\
      (~ page_in_regions (execution_regions (memory_regions p)) w ->
       walk (phys v') (cr3 v') w = walk (phys v) (cr3 v) w).
Proof.
  intros Hok Hl. unfold unmap_all.
  destruct (unmap_list_spec fuel v bm (reverse (execution_regions (memory_regions p))) Hok) as (v' & -> & Hok' & _ & Hw).
  { by rewrite Forall_reverse. }
  cbn [mbind comp_bind]. eexists v', _. split; [done|]. split; [done|]. repeat (split; [done|]).
  intros w Hu Hd. specialize (Hw w Hu Hd). unfold page_in_regions in *.
  rewrite !Exists_exists in *. by setoid_rewrite elem_of_reverse in Hw.
Qed.

(** * Growing the kernel heap *)

Lemma coalesce_length b t l : (length (coalesce b t l) <= S (length l))%nat.
Proof.
  revert b t. induction l as [|[c r] l IH]; intros b t; simpl; [lia|].
  destruct (b + t =? c); simpl; [specialize (IH b (t + r))|specialize (IH c r)]; lia.
Qed.

Lemma coalesce_snoc b t l h n :
  coalesce b t l = (b, t) :: l -> (forall e, last ((b, t) :: l) = Some e -> e.1 + e.2 <> h) ->
  coalesce b t (l ++ [(h, n)]) = (b, t) :: l ++ [(h, n)].
Proof.
  revert b t. induction l as [|[c r] l IH]; intros b t; simpl.
  - intros _ Hl. destruct (Z.eqb_spec (b + t) h) as [E|]; [|done]. by destruct (Hl (b, t) eq_refl).
  - destruct (Z.eqb_spec (b + t) c) as [E|E].
    + intros Hc _. pose proof (coalesce_length b (t + r) l) as H. rewrite Hc in H. simpl in H. lia.
    + intros [= Hc] Hl. rewrite IH; [done|done|]. intros e He. apply Hl. by destruct l.
Qed.

Lemma merged_snoc l a s h n :
  merged (l ++ [(a, s)]) = l ++ [(a, s)] -> a + s <> h ->
  merged ((l ++ [(a, s)]) ++ [(h, n)]) = (l ++ [(a, s)]) ++ [(h, n)].
Proof.
  intros Hm Hne. destruct (l ++ [(a, s)]) as [|[b t] l'] eqn:E; [by destruct l|].
  simpl. apply coalesce_snoc; [done|]. rewrite <- E, last_snoc. by intros e [= <-].
Qed.

(** A request of 64 or more whole pages that no free node can hold, with the last free
    node not at the end of the heap, still fails after the heap was grown for it: the heap
    grows by the size of the request, which leaves no room for the header. *)
Theorem whole_page_request_fails fuel m al l a s used k layout n :
  heap_inv m al (l ++ [(a, s)]) used -> merged (l ++ [(a, s)]) = l ++ [(a, s)] ->
  a + s < ListAllocator.start al + la_size al -> Forall (fun b => fits layout b = false) (l ++ [(a, s)]) ->
  layout_size layout = 4096 * n -> 64 <= n -> backed_by (KERNEL_HEAP k) = Anonymous After ->
  size (KERNEL_HEAP k) = la_size al -> ListAllocator.start al mod 4 = 0 -> la_size al mod 4 = 0 ->
  la_size al + 4096 * n < 2147483648 ->
  layout_ok (mkListAllocator (ListAllocator.start al) (la_size al + 4096 * n) 0) layout ->
  (length l + 2 <= fuel)%nat ->
  exists m' al' k',
    global_alloc (fun n k => Ret (expand_kernel_heap n k)) fuel m al k layout = Ret (m', al', k', 0) /\
    la_size al' = la_size al + layout_size layout.
Proof.
  intros Hinv Hm Hend Hno Hsz Hn Hb Hks Hs4 Hl4 Hsum Hlay Hfuel.
  assert (Hlen : length (l ++ [(a, s)]) = S (length l)) by (rewrite length_app; simpl; lia).
  pose proof (hi_bounds _ _ _ _ Hinv) as (B1 & B2 & B3). destruct Hlay as (Hk & Hz & Hsp). cbn in Hsp.
  assert (0 < layout_align layout) by (destruct Hk as (kk & Hkk & ->); apply Z.pow_pos_nonneg; lia).
  unfold global_alloc. destruct (alloc_cases fuel m al _ used layout Hinv) as [[_ ->]|Hbad];
    [by split_and!; try lia|lia| |].
  2: { destruct Hbad as (l1 & a1 & s1 & l2 & _ & _ & E & _ & Hf & _).
       rewrite E in Hno. apply Forall_app in Hno as [_ Hno]. inversion_clear Hno. congruence. }
  cbn [mbind comp_bind]. unfold expand_kernel_heap, VirtualMemoryRegion.expand, VirtualMemoryRegion.set_size.
  rewrite Hsz, Hb, Hks. replace (4096 * n / 0x1000) with n by mlia.
  destruct (Z.ltb_spec n INITIAL_HEAP_SIZE) as [Hlt|_]; [unfold INITIAL_HEAP_SIZE in Hlt; lia|].
  rewrite (u32_small (n * 0x1000)), (u32_small (la_size al + _)) by (mach_unfold; lia).
  cbn [mbind comp_bind size Z.eqb].
  destruct (expand_size_spec fuel m al (l ++ [(a, s)]) used (la_size al + n * 4096) Hinv)
    as (m1 & al1 & -> & E1 & E2 & Hinv1 & _); [by destruct l|rewrite Hlen; lia|lia|lia|done|done|mlia|].
  cbn [mbind comp_bind]. rewrite merged_snoc in Hinv1 by (done || lia).
  destruct (alloc_cases fuel m1 al1 _ used layout Hinv1) as [[_ ->]|Hbad].
  - split; [done|]. rewrite E1, E2. lia.
  - rewrite length_app, Hlen. simpl. lia.
  - cbn [mbind comp_bind]. eexists _, _, _. split; [reflexivity|]. lia.
  - exfalso. destruct Hbad as (l1 & a1 & s1 & l2 & _ & _ & E & _ & Hf & _).
    assert (Hall : Forall (fun b => fits layout b = false)
      ((l ++ [(a, s)]) ++ [(ListAllocator.start al + la_size al, la_size al + n * 4096 - la_size al)])).
    { apply Forall_app. split; [done|]. constructor; [|done]. apply Z.leb_gt. cbn. destruct Hk as (kk & Hkk & ->).
      pose proof (align_up_spec (ListAllocator.start al + la_size al + 12) kk ltac:(lia)). lia. }
    rewrite E in Hall. apply Forall_app in Hall as [_ Hall]. inversion_clear Hall. congruence.
Qed.

(** * Finding the region of an address *)

Definition all_regions (k : KernelMemory) (r : MemoryRegions) : list VirtualMemoryRegion :=
  KERNEL_HEAP k :: kernel_stack_region r :: kernel_exec_region r :: KERNEL_MEMMAP k ++
  heap_region r :: stack_region r :: execution_regions r.

Lemma find_region_app l1 l2 addr :
  MemoryRegions.find_region (l1 ++ l2) addr =
  match MemoryRegions.find_region l1 addr with Some r => Some r | None => MemoryRegions.find_region l2 addr end.
Proof. induction l1 as [|r l IH]; simpl; [done|]. by destruct (VirtualMemoryRegion.contains_address r addr). Qed.

(** The lookup searches one list in order. *)
Lemma get_range_find k r addr :
  MemoryRegions.get_range_containing_address k r addr = MemoryRegions.find_region (all_regions k r) addr.
Proof.
  unfold MemoryRegions.get_range_containing_address, all_regions. simpl. rewrite find_region_app. simpl.
  by repeat case_match.
Qed.

Lemma find_region_spec l addr :
  match MemoryRegions.find_region l addr with
  | Some r => r ∈ l /\ VirtualMemoryRegion.contains_address r addr = true
  | None => Forall (fun r => VirtualMemoryRegion.contains_address r addr = false) l
  end.
Proof.
  induction l as [|r l IH]; simpl; [constructor|].
  destruct (VirtualMemoryRegion.contains_address r addr) eqn:E; [split; [left|done]|].
  destruct (MemoryRegions.find_region l addr); [destruct IH; split; [by right|done]|by constructor].
Qed.

(** * Witnesses *)

Definition demo_regions : MemoryRegions :=
  mkMemoryRegions VirtualMemoryRegion.empty VirtualMemoryRegion.empty
    (VirtualMemoryRegion.new 0x400000 0x2000 (Anonymous NoExpansion) ReadWrite)
    VirtualMemoryRegion.empty
    [VirtualMemoryRegion.new 0x1000 0x3000 (Anonymous NoExpansion) ReadWrite].
Definition demo_proc : ProcMemory := mkProcMemory demo_regions 0x401234.

Lemma brk_keeps_break_mapped_witness :
  let '(p', r) := set_heap_break demo_proc 0x405678 in
  heap_ok p' /\ match r with Err _ => False | Ok old => heap_break p' = 0x405678 /\
    VirtualMemoryRegion.contains_address (heap_region (memory_regions p')) 0x405678 = true end.
Proof.
  pose proof (brk_keeps_break_mapped demo_proc 0x405678) as Hb. cbv zeta in Hb.
  destruct (set_heap_break demo_proc 0x405678) as [p' r]. destruct Hb as (Hs & Hok & Hr); [unfold heap_ok; cbn; split_and!; first [reflexivity | lia]|mach_unfold; lia|].
  split; [done|]. destruct r as [old|e]; [|destruct Hr as [_ Hr]; cbn in Hr; lia]. destruct Hr as (_ & Hb & Hc). split; [done|].
  apply Hc; [done|]. cbn. lia.
Defined.

Lemma kernel_mmap_dma_stacks_witness :
  (exists s st' bm' region,
     kernel_mmap_dma (mkPhysState (Some demo_bitmap) None) initial_kernel_memory 0x2800 =
       Ret (st', mkKernelMemory (KERNEL_HEAP initial_kernel_memory) [region], (s * 4096, 0xffbed000)) /\
     start region = 0xffbed000 /\ size region = 0x3000 /\
     backed_by region = DMA (FrameRange.new (s * 4096) 0x2800) /\
     stacked STACK_START [region] /\
     ALLOCATOR st' = Some bm' /\ free_run demo_bitmap s 3 /\
     forall j, 0 <= j -> occupied bm' j = ((s <=? j) && (j <? s + 3)) || occupied demo_bitmap j) \/
  (kernel_mmap_dma (mkPhysState (Some demo_bitmap) None) initial_kernel_memory 0x2800 = Panic /\
   forall s, ~ free_run demo_bitmap s 3).
Proof.
  apply (kernel_mmap_dma_stacks (mkPhysState (Some demo_bitmap) None) demo_bitmap initial_kernel_memory 0x2800);
    [reflexivity|apply demo_bitmap_wf|exact I|lia|lia|by vm_compute].
Defined.

Lemma unmap_all_clears_execution_regions_witness :
  exists v' p', unmap_all 3 demo_vm demo_proc = Ret (v', p') /\ vm_ok v' demo_bitmap /\
    execution_regions (memory_regions p') = [] /\
    heap_region (memory_regions p') = heap_region demo_regions /\
    stack_region (memory_regions p') = stack_region demo_regions /\
    forall w, is_u32 w -> dir_index w < 1023 ->
      (page_in_regions (execution_regions demo_regions) w -> walk (phys v') (cr3 v') w = None) /\
      (~ page_in_regions (execution_regions demo_regions) w ->
       walk (phys v') (cr3 v') w = walk (phys demo_vm) (cr3 demo_vm) w).
Proof.
  apply (unmap_all_clears_execution_regions 3 demo_vm demo_bitmap demo_proc demo_vm_ok).
  constructor; [|constructor]. unfold unmappable, VirtualMemoryRegion.wf. cbn.
  split; [lia|]. split; [reflexivity|]. split; [lia|]. split; [lia|]. intros a _. apply demo_vm_private.
Defined.

(** A heap whose second half is in use. *)
Definition demo_full_heap : mem :=
  let m := AllocNode.init ∅ 0x1000 0x800 in
  store32 (store32 (store32 m 0x1800 MAGIC) 0x1804 0x80000800) 0x1808 4.
Definition demo_full_alloc : ListAllocator := mkListAllocator 0x1000 0x1000 0x1000.
Definition demo_kernel : KernelMemory :=
  mkKernelMemory (VirtualMemoryRegion.new 0x1000 0x1000 (Anonymous After) ReadOnly) [].

Lemma demo_full_heap_inv : heap_inv demo_full_heap demo_full_alloc [(0x1000, 0x800)] [mkUsed 0x1800 0x800 4].
Proof.
  split; [unfold bounds; cbn; lia|cbn; split_and!; first [reflexivity | lia]|vm_compute; by split_and!| | |].
  - constructor; [|constructor]. vm_compute. by split_and!.
  - constructor; [|constructor]. unfold in_used. cbn. intros x Hx [?|?]; [lia|done].
  - repeat constructor.
Qed.

Lemma whole_page_request_fails_witness :
  exists m' al' k',
    global_alloc (fun n k => Ret (expand_kernel_heap n k)) 10 demo_full_heap demo_full_alloc demo_kernel
      (mkLayout 0x40000 4) = Ret (m', al', k', 0) /\
    la_size al' = la_size demo_full_alloc + layout_size (mkLayout 0x40000 4).
Proof.
  apply (whole_page_request_fails 10 demo_full_heap demo_full_alloc [] 0x1000 0x800 [mkUsed 0x1800 0x800 4]
    demo_kernel (mkLayout 0x40000 4) 64 demo_full_heap_inv); try reflexivity; try (cbn; lia).
  - repeat constructor.
  - split; [by exists 2|]. cbn. lia.
Defined.
