(* ===== verification/Alternate.v ===== *)
(** Writing another directory: what the temporary page and [AlternatePageDirectory] of
    [memory/virt/page_directory.rs] do to the two address spaces.

    A child directory is written through the temporary page of its parent.  [fork_ok] keeps the
    tables of both apart, [entry] reads an address space page by page, and [page_copied] says
    what the bodies of the three copying loops do to one page.  The definitions are the terms
    the lemmas are stated in; the code is in [PageTable]. *)

From S2P Require Import Prelude Memory Address FrameBitmap Physical Region PageTable.

Lemma clear_write_shape e :
  PageTableEntry.is_present (PageTableEntry.clear_write_access e) = PageTableEntry.is_present e /\
  PageTableEntry.get_address (PageTableEntry.clear_write_access e) = PageTableEntry.get_address e /\
  PageTableEntry.is_user_access_granted (PageTableEntry.clear_write_access e) = PageTableEntry.is_user_access_granted e /\
  PageTableEntry.is_write_access_granted (PageTableEntry.clear_write_access e) = false /\
  PageTableEntry.clear_write_access (PageTableEntry.clear_write_access e) = PageTableEntry.clear_write_access e.
Proof.
  unfold PageTableEntry.is_present, PageTableEntry.get_address, PageTableEntry.is_user_access_granted,
    PageTableEntry.is_write_access_granted, PageTableEntry.clear_write_access.
  by rewrite <- !Z.land_assoc, Z.land_0_r, Z.land_diag.
Qed.

#[local] Opaque zero_words load32 store32 PageTableEntry.is_present PageTableEntry.get_address entry_value link_value.

(** * Cells of tables *)

Notation cell m f i := (load32 m (f + 4 * i)).

Lemma cell_store m f i e g j :
  Frame.aligned f -> Frame.aligned g -> 0 <= i < 1024 -> 0 <= j < 1024 -> is_u32 e ->
  cell (store32 m (f + 4 * i) e) g j = if decide (g = f /\ j = i) then e else cell m g j.
Proof.
  intros Hf Hg Hi Hj He. case_decide as E; [destruct E as [-> ->]; by apply load32_store32_eq|].
  apply load32_store32_ne; [by apply aligned_space..|]. apply cells_apart; try done.
  destruct (decide (g = f)) as [->|]; [right; intros ->; by apply E|left; congruence].
Qed.

Lemma cell_zero m f g j : Frame.aligned f -> Frame.aligned g -> 0 <= j < 1024 ->
  cell (zero_words (Z.to_nat 1024) f m) g j = if decide (g = f) then 0 else cell m g j.
Proof. intros Hf Hg Hj. apply (zero_memory_cell f m g j Hf Hg Hj). Qed.

(** A walk by its two cells. *)
Lemma walk_by_cells m m' dir dir' w :
  is_u32 w -> cell m' dir' (dir_index w) = cell m dir (dir_index w) ->
  (has_table m dir (dir_index w) -> cell m' (table_of m dir (dir_index w)) (table_index w) = cell m (table_of m dir (dir_index w)) (table_index w)) ->
  walk m' dir' w = walk m dir w.
Proof.
  intros Hw E1 E2. unfold walk, pte, pte_addr, pde, pde_addr, table_of, has_table, dir_entry in *. rewrite E1.
  destruct (PageTableEntry.is_present (cell m dir (dir_index w))); [|done]. by rewrite E2.
Qed.

(** * The temporary page *)

Definition TEMP : Z := 0xffbff000.

(** The last table but one is there and belongs to no other entry. *)
Definition top_ok (v : VM) : Prop := has_table (phys v) (cr3 v) 1022 /\ private v 1022.
Definition top (v : VM) : Z := table_of (phys v) (cr3 v) 1022.

(** The memory once the temporary page shows [f]. *)
Definition temp_entry (m : mem) (t f : Z) : Z :=
  PageTableEntry.set_present (PageTableEntry.set_address f (cell m t 1023)).
Definition with_temp (v : VM) (f : Z) : VM :=
  mkVM (store32 (phys v) (top v + 4 * 1023) (temp_entry (phys v) (top v) f)) (cr3 v) (frames v) (TEMP :: flushed v).

Lemma temp_entry_shape m t f : Frame.aligned f ->
  is_u32 (temp_entry m t f) /\ PageTableEntry.get_address (temp_entry m t f) = f /\ PageTableEntry.is_present (temp_entry m t f) = true.
Proof.
  intros Hf. unfold temp_entry. split; [|apply present_entry_shape; [done|apply load32_range]].
  apply lor_u32; [|by vm_compute]. rewrite set_address_split by (done || apply load32_range). destruct Hf. mlia.
Qed.

Lemma map_temporary_spec v bm f : vm_ok v bm -> top_ok v -> Frame.aligned f ->
  map_frame_to_temporary_page v f = Ret (with_temp v f).
Proof.
  intros Hok [Ht Hp] Hf. destruct (vo_tables _ _ Hok 1022 ltac:(lia) Ht) as [Hne _].
  pose proof (table_window v 1022 (vo_self _ _ Hok) ltac:(lia) Ht Hne) as Hw. unfold map_frame_to_temporary_page, Frame.get_address.
  change 0xffffe000 with (SELF_TABLES + 0x1000 * 1022).
  rewrite (modify_seen v _ (top v) 1023) by (lia || by apply window_seen). cbn [mbind comp_bind].
  assert (Hs : stable v (SELF_TABLES + 0x1000 * 1022) (top v) 1023) by (apply window_stable; [done|lia]).
  rewrite (modify_stable v _ (top v) 1023) by (done || lia || rewrite set_address_split by (done || apply load32_range); destruct Hf; pose proof (load32_range (phys v) (top v + 4 * 1023)); mlia).
  cbn [mbind comp_bind]. reflexivity.
Qed.

#[local] Opaque temp_entry.

Lemma with_temp_cell v f g j : Frame.aligned f -> Frame.aligned g -> 0 <= j < 1024 ->
  cell (phys (with_temp v f)) g j = if decide (g = top v /\ j = 1023) then temp_entry (phys v) (top v) f else cell (phys v) g j.
Proof.
  intros Hf Hg Hj. cbn [phys with_temp]. apply cell_store; [apply table_aligned|done|lia|done|]. by apply temp_entry_shape.
Qed.

Lemma temp_indices i : 0 <= i < 1024 ->
  dir_index (TEMP + 4 * i) = 1022 /\ table_index (TEMP + 4 * i) = 1023 /\ (TEMP + 4 * i) mod 4096 = 4 * i.
Proof.
  intros Hi. replace (TEMP + 4 * i) with (1022 * 0x400000 + 1023 * 0x1000 + 4 * i) by (unfold TEMP; lia). apply indices; lia.
Qed.

(** Pages below it have other entries. *)
Lemma below_temp w : is_u32 w -> w < TEMP -> 0 <= dir_index w < 1023 /\ 0 <= table_index w < 1024 /\ ~ (dir_index w = 1022 /\ table_index w = 1023).
Proof.
  intros Hw Hb. destruct (VirtualAddress.indices_decompose w Hw) as (Hdec & Hd & Ht). pose proof (Z.mod_pos_bound w 4096 ltac:(lia)). unfold TEMP in Hb. lia.
Qed.

Lemma below_temp_cell v w : top_ok v -> is_u32 w -> w < TEMP -> has_table (phys v) (cr3 v) (dir_index w) ->
  ~ (table_of (phys v) (cr3 v) (dir_index w) = top v /\ table_index w = 1023).
Proof.
  intros [Htop Hpriv] Hw Hb Hh [E1 E2]. destruct (below_temp w Hw Hb) as (Hd & _ & Hn). destruct (decide (dir_index w = 1022)) as [E|E]; [by apply Hn|].
  by apply (Hpriv (dir_index w)); [lia|..].
Qed.

Lemma temp_window v bm f : vm_ok v bm -> top_ok v -> Frame.aligned f -> f <> cr3 v -> f <> top v -> window (with_temp v f) TEMP f.
Proof.
  intros Hok [Ht _] Hf Hc Htop. destruct (vo_tables _ _ Hok 1022 ltac:(lia) Ht) as [Hne _]. pose proof (vo_self _ _ Hok) as (Hda & _).
  destruct (temp_entry_shape (phys v) (top v) f Hf) as (_ & E2 & E3).
  split; [by vm_compute|]. split; [done|]. intros m' Hm'. split; [by vm_compute|]. split; [done|]. intros i Hi. cbn [phys cr3 set_phys with_temp].
  assert (Hcell : forall g j, Frame.aligned g -> g <> f -> 0 <= j < 1024 -> cell m' g j = cell (phys (with_temp v f)) g j).
  { intros g j Hg Hgf Hj. apply load32_ext; [by apply aligned_space|]. intros x Hx. apply Hm'. destruct Hf, Hg. mlia. }
  destruct (temp_indices i Hi) as (I1 & I2 & I3). unfold walk, pte, pte_addr, pde, pde_addr. rewrite I1, I2, I3.
  assert (E1 : cell m' (cr3 v) 1022 = cell (phys v) (cr3 v) 1022).
  { rewrite Hcell, with_temp_cell, decide_False by (done || lia || (intros [? _]; by apply Hne)). done. }
  rewrite E1. change (PageTableEntry.get_address (cell (phys v) (cr3 v) 1022)) with (top v). unfold has_table, dir_entry in Ht. rewrite Ht.
  rewrite Hcell, with_temp_cell, decide_True by (done || lia || apply table_aligned || congruence). by rewrite E2, E3.
Qed.

(** * Two directories *)

(** The child directory [D] beside the current one: both see themselves, and no table of one
    is a table or the directory of the other. *)
Record fork_ok (v : VM) (bm : FrameBitmap) (D : Z) : Prop := {
  fo_vm : vm_ok v bm;
  fo_top : top_ok v;
  fo_self : self_mapped (phys v) D;
  fo_apart : D <> cr3 v /\ occupied bm (D / 4096) = true;
  fo_parent : forall d, 0 <= d < 1023 -> has_table (phys v) (cr3 v) d -> table_of (phys v) (cr3 v) d <> D;
  fo_child : forall d, 0 <= d < 1023 -> has_table (phys v) D d ->
    table_of (phys v) D d <> D /\ table_of (phys v) D d <> cr3 v /\ occupied bm (table_of (phys v) D d / 4096) = true /\
    forall d', 0 <= d' < 1023 -> has_table (phys v) (cr3 v) d' -> table_of (phys v) (cr3 v) d' <> table_of (phys v) D d;
  fo_private : forall d d', 0 <= d < 1023 -> 0 <= d' < 1023 -> d <> d' -> has_table (phys v) D d -> has_table (phys v) D d' ->
    table_of (phys v) D d <> table_of (phys v) D d'
}.

(** It depends only on the entries of the directories and on the frames in use. *)
Lemma vm_ok_same v v' bm bm' :
  vm_ok v bm -> cr3 v' = cr3 v -> (forall d, 0 <= d < 1024 -> cell (phys v') (cr3 v) d = cell (phys v) (cr3 v) d) ->
  ALLOCATOR (frames v') = Some bm' -> FrameBitmap.wf bm' -> (forall j, 0 <= j -> occupied bm j = true -> occupied bm' j = true) -> vm_ok v' bm'.
Proof.
  intros [Ha Hb Hs Hd Ht] Hc Hcell Ha' Hb' Hocc. pose proof Hs as ((Hr & _) & _).
  assert (He : forall d, 0 <= d < 1024 -> dir_entry (phys v') (cr3 v') d = dir_entry (phys v) (cr3 v) d) by (intros; rewrite Hc; by apply Hcell).
  split; rewrite ?Hc; [done|done| |apply Hocc; [mlia|done]|].
  - eapply self_mapped_ext; [|exact Hs]. replace (cr3 v + 4092) with (cr3 v + 4 * 1023) by lia. apply Hcell. lia.
  - intros d Hdd. unfold has_table, table_of. rewrite <- Hc, He by lia. intros Hh. destruct (Ht d Hdd Hh) as [H1 H2]. rewrite Hc. split; [done|].
    apply Hocc; [|done]. pose proof (table_aligned (phys v) (cr3 v) d) as [? _]. unfold table_of in *. mlia.
Qed.

Lemma top_ok_same v v' :
  top_ok v -> cr3 v' = cr3 v -> (forall d, 0 <= d < 1024 -> cell (phys v') (cr3 v) d = cell (phys v) (cr3 v) d) -> top_ok v'.
Proof.
  intros [H1 H2] Hc Hcell.
  assert (EC : forall d, 0 <= d < 1024 -> dir_entry (phys v') (cr3 v') d = dir_entry (phys v) (cr3 v) d) by (intros; rewrite Hc; by apply Hcell).
  split; [unfold has_table; by rewrite EC by lia|].
  intros d Hd Hn. unfold has_table, table_of. rewrite !EC by lia. by apply H2.
Qed.

Lemma fork_ok_same v v' bm bm' D :
  fork_ok v bm D -> cr3 v' = cr3 v ->
  (forall d, 0 <= d < 1024 -> cell (phys v') (cr3 v) d = cell (phys v) (cr3 v) d) ->
  (forall d, 0 <= d < 1024 -> cell (phys v') D d = cell (phys v) D d) ->
  ALLOCATOR (frames v') = Some bm' -> FrameBitmap.wf bm' -> (forall j, 0 <= j -> occupied bm j = true -> occupied bm' j = true) -> fork_ok v' bm' D.
Proof.
  intros [Hvm Ht Hs [Ha1 Ha2] Hp Hch Hpr] Hc HC HD Ha Hb Hocc. pose proof Hs as ((Hr & _) & _).
  assert (EC : forall d, 0 <= d < 1024 -> dir_entry (phys v') (cr3 v') d = dir_entry (phys v) (cr3 v) d) by (intros; rewrite Hc; by apply HC).
  assert (ED : forall d, 0 <= d < 1024 -> dir_entry (phys v') D d = dir_entry (phys v) D d) by (intros; by apply HD).
  split.
  - by apply (vm_ok_same v v' bm bm').
  - by apply (top_ok_same v v').
  - eapply self_mapped_ext; [|exact Hs]. replace (D + 4092) with (D + 4 * 1023) by lia. apply HD. lia.
  - rewrite Hc. split; [done|]. apply Hocc; [mlia|done].
  - intros d Hd. unfold has_table, table_of. rewrite EC by lia. by apply Hp.
  - intros d Hd. unfold has_table, table_of. rewrite ED, Hc by lia. intros Hh. destruct (Hch d Hd Hh) as (C1 & C2 & C3 & C4).
    split; [done|]. split; [done|]. split; [apply Hocc; [|done]; pose proof (table_aligned (phys v) D d) as [? _]; unfold table_of in *; mlia|].
    intros d' Hd'. rewrite <- Hc, EC by lia. by apply C4.
  - intros d d' Hd Hd' Hn. unfold has_table, table_of. rewrite !ED by lia. by apply Hpr.
Qed.

(** A new table in a frame that was free. *)
Lemma fork_ok_link v v' bm bm' D d s :
  fork_ok v bm D -> 0 <= d < 1023 -> ~ has_table (phys v) D d -> cr3 v' = cr3 v ->
  (forall j, 0 <= j < 1024 -> cell (phys v') (cr3 v) j = cell (phys v) (cr3 v) j) ->
  (forall j, 0 <= j < 1024 -> j <> d -> cell (phys v') D j = cell (phys v) D j) ->
  PageTableEntry.get_address (cell (phys v') D d) = s * 4096 -> PageTableEntry.is_present (cell (phys v') D d) = true ->
  ALLOCATOR (frames v') = Some bm' -> FrameBitmap.wf bm' -> takes [s] bm bm' -> fork_ok v' bm' D.
Proof.
  intros [Hvm Ht Hs [Ha1 Ha2] Hp Hch Hpr] Hd Hn Hc HC HD E1 E2 Ha Hb (_ & Fs & Hocc). pose proof Hs as ((Hr & _) & _).
  apply Forall_cons in Fs as [[Rs Os] _]. assert (Eq : s * 4096 / 4096 = s) by (apply Z.div_mul; lia).
  assert (Hmono : forall j, 0 <= j -> occupied bm j = true -> occupied bm' j = true) by (intros j Hj Ho; rewrite Hocc, Ho by done; apply orb_true_r).
  assert (Hfree : forall g, occupied bm (g / 4096) = true -> g <> s * 4096) by (intros g Hg ->; rewrite Eq in Hg; congruence).
  assert (EC : forall j, 0 <= j < 1024 -> dir_entry (phys v') (cr3 v') j = dir_entry (phys v) (cr3 v) j) by (intros; rewrite Hc; by apply HC).
  assert (ED : forall j, 0 <= j < 1024 -> j <> d -> dir_entry (phys v') D j = dir_entry (phys v) D j) by (intros; by apply HD).
  assert (Hpar : forall j, 0 <= j < 1023 -> has_table (phys v') (cr3 v') j -> table_of (phys v') (cr3 v') j <> s * 4096).
  { intros j Hj. unfold has_table, table_of. rewrite EC by lia. intros Hh. apply Hfree. by apply (vo_tables _ _ Hvm). }
  assert (Htab : table_of (phys v') D d = s * 4096) by exact E1.
  split.
  - by apply (vm_ok_same v v' bm bm').
  - by apply (top_ok_same v v').
  - eapply self_mapped_ext; [|exact Hs]. replace (D + 4092) with (D + 4 * 1023) by lia. apply HD; lia.
  - rewrite Hc. split; [done|]. apply Hmono; [mlia|done].
  - intros j Hj. unfold has_table, table_of. rewrite EC by lia. by apply Hp.
  - intros j Hj Hh. destruct (decide (j = d)) as [->|Hjd].
    + rewrite Htab, Hc, Eq. split; [apply not_eq_sym, Hfree, Ha2|]. split; [apply not_eq_sym, Hfree, Hvm|].
      split; [rewrite Hocc by lia; by rewrite bool_decide_eq_true_2 by left|]. rewrite <- Hc. exact Hpar.
    + revert Hh. unfold has_table, table_of. rewrite ED, Hc by lia. intros Hh. destruct (Hch j Hj Hh) as (C1 & C2 & C3 & C4).
      split; [done|]. split; [done|]. split; [apply Hmono; [|done]; pose proof (table_aligned (phys v) D j) as [? _]; unfold table_of in *; mlia|].
      intros j' Hj'. rewrite <- Hc, EC by lia. by apply C4.
  - assert (Hold : forall j, 0 <= j < 1023 -> j <> d -> has_table (phys v') D j -> table_of (phys v') D j <> s * 4096).
    { intros j Hj Hjd. unfold has_table, table_of. rewrite ED by lia. intros Hh. apply Hfree. by apply (Hch j Hj). }
    intros j j' Hj Hj' Hne H1 H2. destruct (decide (j = d)) as [->|Hjd]; [rewrite Htab; by apply not_eq_sym, Hold|].
    destruct (decide (j' = d)) as [->|Hjd']; [rewrite Htab; by apply Hold|].
    revert H1 H2. unfold has_table, table_of. rewrite !ED by lia. by apply Hpr.
Qed.

(** The temporary page can show any frame but the current directory and its own table. *)
Lemma with_temp_ok v bm D f : fork_ok v bm D -> Frame.aligned f -> fork_ok (with_temp v f) bm D /\ top (with_temp v f) = top v.
Proof.
  intros Hok Hf. pose proof (fo_vm _ _ _ Hok) as Hvm. pose proof (vo_self _ _ Hvm) as (Hca & _). pose proof (fo_self _ _ _ Hok) as (HDa & _).
  destruct (fo_top _ _ _ Hok) as [Ht _]. destruct (vo_tables _ _ Hvm 1022 ltac:(lia) Ht) as [Hne _].
  assert (HC : forall d, 0 <= d < 1024 -> cell (phys (with_temp v f)) (cr3 v) d = cell (phys v) (cr3 v) d)
    by (intros d Hd; rewrite with_temp_cell, decide_False by (done || (intros [? _]; by apply Hne)); done).
  split; [|unfold top, table_of, dir_entry; cbn [cr3 with_temp] in *; by rewrite HC by lia].
  apply (fork_ok_same v _ bm bm); [done|done|done| |apply Hvm|apply Hvm|done].
  intros d Hd. rewrite with_temp_cell, decide_False; [done| |done..]. intros [E _]. by apply (fo_parent _ _ _ Hok 1022); [lia|done|].
Qed.

Lemma temp_shows v bm D f : fork_ok v bm D -> Frame.aligned f -> f <> cr3 v -> f <> top v ->
  map_frame_to_temporary_page v f = Ret (with_temp v f) /\ window (with_temp v f) TEMP f.
Proof.
  intros Hok Hf H1 H2. split; [eapply map_temporary_spec; [apply Hok|apply Hok|done]|].
  eapply temp_window; [apply Hok|apply Hok|done..].
Qed.

Lemma frame_new_aligned f : Frame.aligned f -> Frame.new f = f.
Proof. intros [H1 H2]. unfold Frame.new. rewrite land_page by done. lia. Qed.

Section alternate.
Context (v : VM) (bm : FrameBitmap) (D frame vaddr flags : Z).
Context (Hok : fork_ok v bm D) (Hv : is_u32 vaddr) (Hf : Frame.aligned frame) (Hd : dir_index vaddr < 1023).
Notation d := (dir_index vaddr).
Notation t := (table_index vaddr).
Notation m := (phys v).

Lemma alt_directory : Frame.aligned D /\ D <> cr3 v /\ D <> top v.
Proof.
  destruct (fo_self _ _ _ Hok) as (Ha & _). split; [done|]. split; [apply Hok|].
  intros E. apply (fo_parent _ _ _ Hok 1022); [lia|apply Hok|by symmetry].
Qed.

(** The page's table exists. *)
Lemma alt_existing : has_table m D d ->
  exists v' x, AlternatePageDirectory.map v D frame vaddr flags = Ret v' /\ cr3 v' = cr3 v /\ frames v' = frames v /\ is_u32 x /\
    let k := table_of m D d in
    phys v' = store32 (store32 (store32 m (top v + 4 * 1023) (temp_entry m (top v) D)) (top v + 4 * 1023) x) (k + 4 * t) (entry_value (cell m k t) frame flags).
Proof.
  intros Hh. destruct (map_indices vaddr Hv Hd) as [Hdi Hti]. destruct alt_directory as (HDa & HD1 & HD2).
  destruct (temp_shows v bm D D Hok HDa HD1 HD2) as [E1 W1]. destruct (with_temp_ok v bm D D Hok HDa) as [Hok1 Ht1].
  destruct (fo_child _ _ _ Hok d Hdi Hh) as (K1 & K2 & K3 & K4). set (k := table_of m D d) in *. pose proof (table_aligned m D d) as Hka. fold k in Hka.
  assert (K5 : k <> top v) by (intros E; apply (K4 1022); [lia|apply Hok|by symmetry]).
  unfold AlternatePageDirectory.map. rewrite (frame_new_aligned D HDa), E1. cbn [mbind comp_bind]. change get_temporary_page_address with TEMP.
  rewrite (get_seen _ TEMP D) by (lia || by apply window_seen). cbn [mbind comp_bind].
  assert (Ed : cell (phys (with_temp v D)) D d = dir_entry m D d) by (rewrite with_temp_cell, decide_False by (done || lia || (intros [? _]; by apply HD2)); done).
  unfold has_table in Hh. rewrite Ed, Hh. cbn [negb]. change (PageTableEntry.get_address (dir_entry m D d)) with k. rewrite (frame_new_aligned k Hka).
  destruct (temp_shows (with_temp v D) bm D k Hok1 Hka K2 ltac:(by rewrite Ht1)) as [E2 W2]. rewrite E2. cbn [mbind comp_bind].
  rewrite (get_seen _ TEMP k) by (lia || by apply window_seen). cbn [mbind comp_bind].
  rewrite (write_entry_spec _ TEMP k) by (done || by apply window_stable). cbn [mbind comp_bind].
  assert (Ek : cell (phys (with_temp (with_temp v D) k)) k t = cell m k t).
  { rewrite with_temp_cell, decide_False, with_temp_cell, decide_False by (done || rewrite ?Ht1; intros [? _]; by apply K5). done. }
  rewrite Ek. cbn [phys with_temp]. rewrite Ht1.
  eexists _, (temp_entry (phys (with_temp v D)) (top v) k). split; [reflexivity|].
  split; [by case_match|]. split; [by case_match|]. split; [by apply temp_entry_shape|]. by case_match.
Qed.

(** The page's table has to be made. *)
Lemma alt_fresh s bm' : ~ has_table m D d ->
  allocate_frame (frames v) = Ret (mkPhysState (Some bm') (REF_COUNT (frames v)), Ok (s * 4096)) -> takes [s] bm bm' -> FrameBitmap.wf bm' ->
  exists v' x, AlternatePageDirectory.map v D frame vaddr flags = Ret v' /\ cr3 v' = cr3 v /\
    frames v' = mkPhysState (Some bm') (REF_COUNT (frames v)) /\ is_u32 x /\ fork_ok v' bm' D /\
    phys v' = store32 (zero_words (Z.to_nat 1024) (s * 4096) (store32 (store32 (store32 m (top v + 4 * 1023) (temp_entry m (top v) D))
        (D + 4 * d) (link_value (dir_entry m D d) (s * 4096) d)) (top v + 4 * 1023) x)) (s * 4096 + 4 * t) (entry_value 0 frame flags).
Proof.
  intros Hh Hal Htk Hwf. destruct (map_indices vaddr Hv Hd) as [Hdi Hti]. destruct alt_directory as (HDa & HD1 & HD2). set (S := s * 4096).
  pose proof (fo_vm _ _ _ Hok) as Hvm. pose proof (vo_self _ _ Hvm) as (Hca & _). destruct (fo_top _ _ _ Hok) as [Htop _].
  pose proof Htk as (_ & Fs & _). apply Forall_cons in Fs as [[Rs Os] _]. pose proof (vo_bm _ _ Hvm) as (Hcb & _).
  assert (Eq : S / 4096 = s) by (unfold S; apply Z.div_mul; lia). assert (HSa : Frame.aligned S) by (unfold S; split; mlia).
  assert (Hfree : forall g, occupied bm (g / 4096) = true -> S <> g) by (intros g Hg <-; rewrite Eq in Hg; congruence).
  assert (S1 : S <> cr3 v) by apply Hfree, Hvm. assert (S2 : S <> D) by apply Hfree, Hok.
  assert (S3 : S <> top v) by (apply Hfree, (vo_tables _ _ Hvm 1022); [lia|done]).
  destruct (temp_shows v bm D D Hok HDa HD1 HD2) as [E1 W1]. destruct (with_temp_ok v bm D D Hok HDa) as [Hok1 Ht1].
  unfold AlternatePageDirectory.map. rewrite (frame_new_aligned D HDa), E1. cbn [mbind comp_bind]. change get_temporary_page_address with TEMP.
  rewrite (get_seen _ TEMP D) by (lia || by apply window_seen). cbn [mbind comp_bind].
  assert (Ed : cell (phys (with_temp v D)) D d = dir_entry m D d) by (rewrite with_temp_cell, decide_False by (done || lia || (intros [? _]; by apply HD2)); done).
  unfold has_table in Hh. rewrite Ed. destruct (PageTableEntry.is_present (dir_entry m D d)) eqn:Hpr; [done|]. cbn [negb].
  unfold vm_allocate_unwrap, vm_allocate_frame. change (frames (with_temp v D)) with (frames v). rewrite Hal. cbn [mbind comp_bind]. fold S.
  set (v1 := set_frames (with_temp v D) _). assert (W1' : window v1 TEMP D) by exact W1.
  rewrite (link_table_spec v1 TEMP D d S) by (done || lia || (apply window_stable; [done|lia])). cbn [mbind comp_bind].
  change (cell (phys v1) D d) with (cell (phys (with_temp v D)) D d). rewrite Ed. set (v2 := set_phys v1 _).
  destruct (link_value_shape (dir_entry m D d) S d HSa ltac:(apply load32_range)) as (L1 & L2 & L3).
  assert (C2 : forall g j, Frame.aligned g -> 0 <= j < 1024 -> cell (phys v2) g j =
    if decide (g = D /\ j = d) then link_value (dir_entry m D d) S d else cell (phys (with_temp v D)) g j)
    by (intros g j Hg Hj; unfold v2; cbn [phys set_phys]; by rewrite cell_store by (done || lia)).
  assert (Hok2 : fork_ok v2 bm' D).
  { apply (fork_ok_link (with_temp v D) v2 bm bm' D d s); try done.
    - change (phys (with_temp v D)) with (store32 m (top v + 4 * 1023) (temp_entry m (top v) D)). unfold has_table.
      change (dir_entry (store32 m (top v + 4 * 1023) (temp_entry m (top v) D)) D d) with (cell (phys (with_temp v D)) D d). by rewrite Ed, Hpr.
    - intros j Hj. rewrite C2, decide_False by (done || (intros [? _]; by apply HD1)). done.
    - intros j Hj Hne. rewrite C2, decide_False by (done || (intros [_ ?]; congruence)). done.
    - by rewrite C2, decide_True by (done || lia).
    - by rewrite C2, decide_True by (done || lia). }
  assert (Ht2 : top v2 = top v).
  { unfold top, table_of, dir_entry. change (cr3 v2) with (cr3 v). rewrite C2, decide_False by (done || lia || (intros [? _]; congruence)).
    change (PageTableEntry.get_address (cell (phys (with_temp v D)) (cr3 (with_temp v D)) 1022) = top v). exact Ht1. }
  destruct (temp_shows v2 bm' D S Hok2 HSa S1 ltac:(by rewrite Ht2)) as [E2 W2]. rewrite E2. cbn [mbind comp_bind].
  rewrite (zero_spec _ TEMP S W2). cbn [mbind comp_bind]. set (v3 := set_phys _ _).
  assert (W3 : window v3 TEMP S) by (apply window_set; [done|]; intros y Hy; apply zero_words_lookup_ne; [unfold in_space; destruct HSa; change (4 * Z.of_nat (Z.to_nat 1024)) with 4096; mlia|done]).
  rewrite (write_entry_spec v3 TEMP S) by (assumption || by apply window_stable).
  assert (E3 : cell (phys v3) S t = 0) by (unfold v3; cbn [phys set_phys]; rewrite cell_zero by done; by rewrite decide_True).
  rewrite E3. eexists _, (temp_entry (phys v2) (top v) S). split; [reflexivity|]. split; [done|]. split; [done|]. split; [by apply temp_entry_shape|].
  split; [|unfold v3, with_temp; cbn [phys set_phys]; rewrite Ht2; reflexivity].
  destruct (with_temp_ok v2 bm' D S Hok2 HSa) as [Hok3 _].
  assert (Hsame : forall g j, Frame.aligned g -> g <> S -> 0 <= j < 1024 -> cell (store32 (phys v3) (S + 4 * t) (entry_value 0 frame flags)) g j = cell (phys (with_temp v2 S)) g j).
  { intros g j Hg Hne Hj. rewrite cell_store, decide_False; [|intros [? _]; contradiction|assumption..|apply entry_value_shape; [assumption|mach_unfold; lia]].
    unfold v3. cbn [phys set_phys]. by rewrite cell_zero, decide_False by done. }
  apply (fork_ok_same (with_temp v2 S) _ bm' bm' D Hok3); [reflexivity| | |reflexivity|assumption|auto]; cbn [cr3 phys set_phys].
  - intros j Hj. apply Hsame; [done|by apply not_eq_sym|done].
  - intros j Hj. apply Hsame; [done|by apply not_eq_sym|done].
Qed.

(** Both cases in one, cell by cell: [k] is the table, [fresh] whether it is new. *)
Record alt_cells (v' : VM) (bm' : FrameBitmap) (l : list Z) (k : Z) (fresh : bool) : Prop := {
  ac_ok : fork_ok v' bm' D;
  ac_cr3 : cr3 v' = cr3 v;
  ac_refs : REF_COUNT (frames v') = REF_COUNT (frames v);
  ac_table : has_table (phys v') D d /\ table_of (phys v') D d = k;
  ac_takes : takes l bm bm';
  ac_case : if fresh then ~ has_table m D d /\ l = [k / 4096] else has_table m D d /\ l = [] /\ cell (phys v') D d = cell m D d;
  ac_cell : forall g j, Frame.aligned g -> 0 <= j < 1024 -> ~ (g = top v /\ j = 1023) -> ~ (g = D /\ j = d) ->
    cell (phys v') g j = if decide (g = k) then
      if decide (j = t) then entry_value (if fresh then 0 else cell m k t) frame flags else if fresh then 0 else cell m k j
    else cell m g j
}.

Lemma alt_existing_cells : has_table m D d ->
  exists v', AlternatePageDirectory.map v D frame vaddr flags = Ret v' /\ alt_cells v' bm [] (table_of m D d) false.
Proof.
  intros Hh. destruct (map_indices vaddr Hv Hd) as [Hdi Hti]. destruct alt_directory as (HDa & HD1 & HD2).
  destruct (alt_existing Hh) as (v' & x & Hmap & Ec & Ef & Hx & Ep). cbv zeta in Ep. set (k := table_of m D d) in *.
  destruct (fo_child _ _ _ Hok d Hdi Hh) as (K1 & K2 & K3 & K4). fold k in K1, K2, K3, K4. pose proof (table_aligned m D d) as Hka. fold k in Hka.
  pose proof (fo_vm _ _ _ Hok) as Hvm. pose proof (vo_self _ _ Hvm) as (Hca & _). destruct (fo_top _ _ _ Hok) as [Htop _].
  assert (K5 : k <> top v) by (intros E; apply (K4 1022); [lia|done|by symmetry]).
  assert (Hta : Frame.aligned (top v)) by apply table_aligned. destruct (vo_tables _ _ Hvm 1022 ltac:(lia) Htop) as [Htc _].
  destruct (entry_value_shape (cell m k t) frame flags Hf ltac:(apply load32_range)) as (W1 & _).
  destruct (temp_entry_shape m (top v) D HDa) as (T1 & _).
  assert (Hcell : forall g j, Frame.aligned g -> 0 <= j < 1024 -> cell (phys v') g j =
    if decide (g = k /\ j = t) then entry_value (cell m k t) frame flags else if decide (g = top v /\ j = 1023) then x else cell m g j).
  { intros g j Hg Hj. rewrite Ep, !cell_store by (done || lia). repeat case_decide; done. }
  assert (HC : forall j, 0 <= j < 1024 -> cell (phys v') (cr3 v) j = cell m (cr3 v) j).
  { intros j Hj. rewrite Hcell, !decide_False; [done|intros [E _]; by apply Htc|intros [E _]; by apply K2|done|done]. }
  assert (HD : forall j, 0 <= j < 1024 -> cell (phys v') D j = cell m D j).
  { intros j Hj. rewrite Hcell, !decide_False; [done|intros [E _]; by apply HD2|intros [E _]; by apply K1|done|done]. }
  exists v'. split; [done|]. split; try done.
  - apply (fork_ok_same v v' bm bm D); try done; [rewrite Ef; apply Hvm|apply Hvm].
  - by rewrite Ef.
  - unfold has_table, table_of, dir_entry. rewrite HD by lia. done.
  - split; [done|]. split; [done|]. apply HD. lia.
  - intros g j Hg Hj N1 N2. rewrite Hcell by done. rewrite (decide_False (P := g = top v /\ j = 1023)) by done.
    destruct (decide (g = k)) as [->|]; [|rewrite decide_False by (intros [? _]; done); done].
    destruct (decide (j = t)) as [->|]; [by rewrite decide_True|rewrite decide_False by (intros [_ ?]; done); done].
Qed.

Lemma alt_fresh_cells : ~ has_table m D d -> free_frames 1 bm ->
  exists v' bm' k, AlternatePageDirectory.map v D frame vaddr flags = Ret v' /\ alt_cells v' bm' [k / 4096] k true.
Proof.
  intros Hh Hfree. destruct (map_indices vaddr Hv Hd) as [Hdi Hti]. destruct alt_directory as (HDa & HD1 & HD2).
  pose proof (fo_vm _ _ _ Hok) as Hvm. pose proof (vo_bm _ _ Hvm) as Hwf. pose proof Hwf as (Hcb & _). destruct (free_frames_one _ _ Hfree) as (j0 & Hj0 & Hjf).
  destruct (allocate_frame_cases (frames v) bm (vo_alloc _ _ Hvm) Hwf)
    as [(s & bm' & Hal & Hs & Hsf & _ & Hwf' & Hcnt & Hocc)|[_ Hfull]]; [|by rewrite Hfull in Hjf].
  pose proof (takes_one s bm bm' Hs Hsf Hcnt Hocc) as Htk. destruct (alt_fresh s bm' Hh Hal Htk Hwf') as (v' & x & Hmap & Ec & Ef & Hx & Hok' & Ep).
  set (S := s * 4096) in *. assert (Eq : S / 4096 = s) by (unfold S; apply Z.div_mul; lia). assert (HSa : Frame.aligned S) by (unfold S; split; mlia).
  assert (Hne : forall g, occupied bm (g / 4096) = true -> g <> S) by (intros g Hg ->; rewrite Eq in Hg; congruence).
  rewrite <- Eq in Htk. clearbody S. pose proof (vo_self _ _ Hvm) as (Hca & _). destruct (fo_top _ _ _ Hok) as [Htop _].
  assert (S2 : D <> S) by apply Hne, Hok. assert (S3 : top v <> S) by (apply Hne, (vo_tables _ _ Hvm 1022); [lia|done]).
  assert (Hta : Frame.aligned (top v)) by apply table_aligned.
  destruct (entry_value_shape 0 frame flags Hf ltac:(mach_unfold; lia)) as (W1 & _). destruct (temp_entry_shape m (top v) D HDa) as (T1 & _).
  destruct (link_value_shape (dir_entry m D d) S d HSa ltac:(apply load32_range)) as (L1 & L2 & L3).
  assert (Hcell : forall g j, Frame.aligned g -> 0 <= j < 1024 -> cell (phys v') g j =
    if decide (g = S) then if decide (j = t) then entry_value 0 frame flags else 0
    else if decide (g = top v /\ j = 1023) then x else if decide (g = D /\ j = d) then link_value (dir_entry m D d) S d else cell m g j).
  { intros g j Hg Hj. rewrite Ep, cell_store, cell_zero, !cell_store by (assumption || lia).
    destruct (decide (g = S)) as [->|Hg']; [|rewrite decide_False by (intros [? _]; contradiction); destruct (decide (g = top v /\ j = 1023)), (decide (g = D /\ j = d)); reflexivity].
    destruct (decide (j = t)) as [->|]; [rewrite decide_True by (split; reflexivity); reflexivity|rewrite decide_False by (intros [_ ?]; contradiction); reflexivity]. }
  assert (HDd : cell (phys v') D d = link_value (dir_entry m D d) S d).
  { rewrite Hcell by (assumption || lia). rewrite decide_False, decide_False, decide_True; [reflexivity|split; reflexivity|intros [? _]; contradiction|assumption]. }
  exists v', bm', S. split; [assumption|]. split; try assumption.
  - rewrite Ef. reflexivity.
  - unfold has_table, table_of, dir_entry. rewrite HDd. split; assumption.
  - split; [assumption|reflexivity].
  - intros g j Hg Hj N1 N2. rewrite Hcell by assumption. destruct (decide (g = S)); [reflexivity|]. rewrite !decide_False by assumption. reflexivity.
Qed.

Lemma alt_map_cells : free_frames 1 bm ->
  exists v' bm' l k fresh, AlternatePageDirectory.map v D frame vaddr flags = Ret v' /\ (length l <= 1)%nat /\ alt_cells v' bm' l k fresh.
Proof.
  intros Hfree. destruct (PageTableEntry.is_present (dir_entry m D d)) eqn:E.
  - destruct (alt_existing_cells E) as (v' & Hm & Hc). by exists v', bm, [], (table_of m D d), false; split; [|split; [cbn; lia|]].
  - destruct alt_fresh_cells as (v' & bm' & k & Hm & Hc); [unfold has_table; congruence|done|]. by exists v', bm', [k / 4096], k, true.
Qed.
End alternate.

(** * Address spaces as entries *)

(** The entry of the page of [w] in the directory [D]; clear without a table. *)
Definition entry (m : mem) (D w : Z) : Z :=
  if PageTableEntry.is_present (dir_entry m D (dir_index w)) then cell m (table_of m D (dir_index w)) (table_index w) else 0.

Lemma absent_zero : PageTableEntry.is_present 0 = false.
Proof. by vm_compute. Qed.

Lemma entry_walk m D w :
  walk m D w = if PageTableEntry.is_present (entry m D w) then Some (PageTableEntry.get_address (entry m D w) + w mod 4096) else None.
Proof.
  unfold walk, pte, pte_addr, entry, table_of. change (pde m D w) with (dir_entry m D (dir_index w)).
  destruct (PageTableEntry.is_present (dir_entry m D (dir_index w))); [done|]. by rewrite absent_zero.
Qed.

Lemma entry_cells m m' D w :
  cell m' D (dir_index w) = cell m D (dir_index w) ->
  (has_table m D (dir_index w) -> cell m' (table_of m D (dir_index w)) (table_index w) = cell m (table_of m D (dir_index w)) (table_index w)) ->
  entry m' D w = entry m D w.
Proof.
  intros E1 E2. unfold entry, table_of, has_table, dir_entry in *. rewrite E1.
  destruct (PageTableEntry.is_present (cell m D (dir_index w))); [by rewrite E2|done].
Qed.

(** The same page by its indices. *)
Lemma page_number_indices w w' : is_u32 w -> is_u32 w' -> w / 4096 = w' / 4096 <-> dir_index w = dir_index w' /\ table_index w = table_index w'.
Proof.
  intros Hw Hw'. split; [|intros [? ?]; by apply same_page]. intros E.
  destruct (VirtualAddress.indices_decompose w Hw) as (H1 & ? & ?). destruct (VirtualAddress.indices_decompose w' Hw') as (H2 & ? & ?). mlia.
Qed.

(** Two pages with the same entry of the same table. *)
Definition alias (m : mem) (D w p : Z) : bool :=
  PageTableEntry.is_present (dir_entry m D (dir_index w)) && (table_of m D (dir_index w) =? table_of m D (dir_index p)) && (table_index w =? table_index p).

Lemma alias_spec m D w p : alias m D w p = true <->
  has_table m D (dir_index w) /\ table_of m D (dir_index w) = table_of m D (dir_index p) /\ table_index w = table_index p.
Proof. unfold alias. rewrite !andb_true_iff, !Z.eqb_eq. unfold has_table. tauto. Qed.

Lemma alias_cells m m' D w p :
  cell m' D (dir_index w) = cell m D (dir_index w) -> cell m' D (dir_index p) = cell m D (dir_index p) -> alias m' D w p = alias m D w p.
Proof. intros E1 E2. unfold alias, table_of, dir_entry. by rewrite E1, E2. Qed.

Lemma alias_page m D w p : is_u32 w -> is_u32 p -> w / 4096 = p / 4096 -> has_table m D (dir_index p) -> alias m D w p = true.
Proof. intros Hw Hp E Hh. apply page_number_indices in E as [E1 E2]; [|done..]. apply alias_spec. by rewrite E1. Qed.

(** A frame of data: in use, and not for a directory or table of the two. *)
Record kept (v : VM) (bm : FrameBitmap) (D f : Z) : Prop := {
  kp_used : Frame.aligned f /\ occupied bm (f / 4096) = true;
  kp_dirs : f <> cr3 v /\ f <> D;
  kp_parent : forall d, 0 <= d < 1023 -> has_table (phys v) (cr3 v) d -> table_of (phys v) (cr3 v) d <> f;
  kp_child : forall d, 0 <= d < 1023 -> has_table (phys v) D d -> table_of (phys v) D d <> f
}.

(** From [v] on, the frames [l] were taken, the directories gained at most tables of the child
    in frames that were free, and no data was overwritten. *)
Record steps (l : list Z) (v v' : VM) (bm bm' : FrameBitmap) (D : Z) : Prop := {
  st_ok : fork_ok v' bm' D;
  st_cr3 : cr3 v' = cr3 v;
  st_takes : takes l bm bm';
  st_parent : forall d, 0 <= d < 1024 -> cell (phys v') (cr3 v) d = cell (phys v) (cr3 v) d;
  st_child : forall d, 0 <= d < 1023 -> has_table (phys v) D d -> cell (phys v') D d = cell (phys v) D d;
  st_new : forall d, 0 <= d < 1023 -> ~ has_table (phys v) D d -> has_table (phys v') D d -> occupied bm (table_of (phys v') D d / 4096) = false;
  st_keeps : forall f i, kept v bm D f -> 0 <= i < 1024 -> cell (phys v') f i = cell (phys v) f i
}.

Lemma steps_kept l v v' bm bm' D f : steps l v v' bm bm' D -> kept v bm D f -> kept v' bm' D f.
Proof.
  intros [Hok Hc (_ & _ & Ho) Hp Hch Hn Hk] [[K1 K2] K3 K4 K5]. split.
  - split; [done|]. destruct K1. rewrite Ho, K2 by mlia. apply orb_true_r.
  - by rewrite Hc.
  - intros d Hd. unfold has_table, table_of, dir_entry. rewrite Hc, Hp by lia. by apply K4.
  - intros d Hd Hh. destruct (PageTableEntry.is_present (dir_entry (phys v) D d)) eqn:E.
    + unfold table_of, dir_entry. rewrite Hch by done. by apply K5.
    + intros <-. rewrite Hn in K2; [done|done|unfold has_table; by rewrite E|done].
Qed.

Lemma steps_trans l1 l2 v1 v2 v3 b1 b2 b3 D : steps l1 v1 v2 b1 b2 D -> steps l2 v2 v3 b2 b3 D -> steps (l1 ++ l2) v1 v3 b1 b3 D.
Proof.
  intros S1 S2. pose proof (fun f => steps_kept l1 v1 v2 b1 b2 D f S1) as HK. destruct S1 as [Hok1 Hc1 Ht1 Hp1 Hch1 Hn1 Hk1]. destruct S2 as [Hok2 Hc2 Ht2 Hp2 Hch2 Hn2 Hk2].
  assert (Hhas : forall d, 0 <= d < 1023 -> has_table (phys v1) D d -> has_table (phys v2) D d)
    by (intros d Hd Hh; unfold has_table, dir_entry in *; by rewrite Hch1).
  split.
  - done.
  - congruence.
  - by eapply takes_app.
  - intros d Hd. rewrite <- Hp1, <- Hc1 by done. by apply Hp2.
  - intros d Hd Hh. rewrite Hch2, Hch1 by auto. done.
  - intros d Hd Hh Hh3. destruct (PageTableEntry.is_present (dir_entry (phys v2) D d)) eqn:E.
    + unfold table_of, dir_entry. rewrite Hch2 by done. by apply Hn1.
    + pose proof (Hn2 d Hd ltac:(unfold has_table; by rewrite E) Hh3) as Hf. destruct Ht1 as (_ & _ & Ho).
      pose proof (table_aligned (phys v3) D d) as [? _]. rewrite Ho in Hf by mlia. by apply orb_false_iff in Hf as [_ ?].
  - intros f i Hf Hi. rewrite Hk2, Hk1 by (done || by apply HK). done.
Qed.

(** * One page of the child *)

(** The entries below the temporary page: [e] for the page of [p], and the others as they were. *)
Definition sets_entry (m m' : mem) (D p e : Z) : Prop :=
  forall w, is_u32 w -> w < TEMP -> entry m' D w = if decide (w / 4096 = p / 4096) then e else entry m D w.
Definition same_entries (m m' : mem) (D : Z) : Prop :=
  forall w, is_u32 w -> w < TEMP -> entry m' D w = entry m D w.

(** The entry of [p] loses write access. *)
Definition protects_entry (m m' : mem) (D p : Z) : Prop :=
  forall w, is_u32 w -> w < TEMP -> entry m' D w = if alias m D w p then PageTableEntry.clear_write_access (entry m D w) else entry m D w.

Section alternate_map.
Context (v : VM) (bm : FrameBitmap) (D frame vaddr flags : Z).
Context (Hok : fork_ok v bm D) (Hv : is_u32 vaddr) (Hd : vaddr < TEMP).
Context (v' : VM) (bm' : FrameBitmap) (l : list Z) (k : Z) (fresh : bool) (Hc : alt_cells v bm D frame vaddr flags v' bm' l k fresh).
Notation d := (dir_index vaddr).
Notation t := (table_index vaddr).
Notation m := (phys v).
Notation m' := (phys v').

(** Where the table lies. *)
Lemma alt_parent_cell j : 0 <= j < 1024 -> cell m' (cr3 v) j = cell m (cr3 v) j.
Proof.
  intros Hj. pose proof (fo_vm _ _ _ Hok) as Hvm. pose proof (vo_self _ _ Hvm) as (Hca & _). destruct (fo_top _ _ _ Hok) as [Htop _].
  destruct (vo_tables _ _ Hvm 1022 ltac:(lia) Htop) as [Htc _]. destruct Hc as [C1 C2 _ [C3 C4] _ _ C5].
  destruct (fo_child _ _ _ C1 d) as (_ & K2 & _); [destruct (below_temp vaddr Hv Hd); lia|done|]. rewrite C4, C2 in K2.
  rewrite C5, decide_False; [done|congruence|done|done|intros [E _]; by apply Htc|intros [E _]; by apply (fo_apart _ _ _ Hok)].
Qed.

Lemma alt_table_apart : k <> D /\ k <> top v /\ (forall d', 0 <= d' < 1023 -> has_table m (cr3 v) d' -> table_of m (cr3 v) d' <> k) /\
  (forall d', 0 <= d' < 1023 -> d' <> d -> has_table m' D d' -> table_of m' D d' <> k).
Proof.
  destruct Hc as [C1 C2 _ [C3 C4] _ _ _]. assert (Hdi : 0 <= d < 1023) by (destruct (below_temp vaddr Hv Hd); lia).
  destruct (fo_child _ _ _ C1 d Hdi C3) as (K1 & K2 & _ & K4). rewrite C4 in K1, K4.
  assert (Hp : forall d', 0 <= d' < 1023 -> has_table m (cr3 v) d' -> table_of m (cr3 v) d' <> k).
  { intros d' Hd' Hh. pose proof (K4 d' Hd') as K. unfold has_table, table_of, dir_entry in *. rewrite C2, alt_parent_cell in K by lia. by apply K. }
  split; [done|]. split; [|split; [done|]].
  - intros E. apply (Hp 1022); [lia|apply Hok|]. by symmetry.
  - intros d' Hd' Hn Hh. rewrite <- C4. by apply (fo_private _ _ _ C1).
Qed.

Lemma alt_child_cell j : 0 <= j < 1024 -> j <> d -> cell m' D j = cell m D j.
Proof.
  intros Hj Hn. destruct (alt_directory v bm D Hok) as (HDa & _ & HD2). destruct alt_table_apart as (K1 & _).
  rewrite (ac_cell _ _ _ _ _ _ _ _ _ _ _ Hc), decide_False; [done|congruence|done|done|intros [E _]; by apply HD2|intros [_ E]; by apply Hn].
Qed.

Lemma alt_entry_here w : is_u32 w -> dir_index w = d ->
  entry m' D w = if decide (table_index w = t) then entry_value (entry m D vaddr) frame flags else entry m D w.
Proof.
  intros Hw Ed. destruct (index_range w Hw) as [_ Htw]. destruct alt_table_apart as (K1 & K2 & _). destruct Hc as [C1 C2 _ [C3 C4] _ C6 C5].
  assert (Hka : Frame.aligned k) by (rewrite <- C4; apply table_aligned).
  unfold entry. rewrite Ed, C3, C4, C5 by (done || (intros [E _]; contradiction)). rewrite decide_True by done.
  destruct fresh; [destruct C6 as [C6 _]|destruct C6 as (C6 & _ & C7)]; unfold has_table in C6.
  - destruct (PageTableEntry.is_present (dir_entry m D d)); [done|]. done.
  - assert (E : table_of m D d = k) by (rewrite <- C4; unfold table_of, dir_entry; by rewrite C7). by rewrite C6, E.
Qed.

Lemma alt_sets_entry : sets_entry m m' D vaddr (entry_value (entry m D vaddr) frame flags).
Proof.
  intros w Hw Hdw. destruct (below_temp w Hw Hdw) as (Hdi & Hti & _). pose proof (page_number_indices w vaddr Hw Hv) as Hpg.
  destruct (decide (dir_index w = d)) as [E|E].
  - rewrite (alt_entry_here w Hw E). destruct (decide (table_index w = t)) as [E2|E2].
    + by rewrite decide_True by tauto.
    + by rewrite decide_False by tauto.
  - rewrite decide_False by tauto. destruct alt_table_apart as (_ & _ & _ & K). destruct (alt_directory v bm D Hok) as (HDa & _ & HD2).
    apply entry_cells; [apply alt_child_cell; [lia|done]|]. intros Hh. destruct (fo_child _ _ _ Hok (dir_index w) ltac:(lia) Hh) as (G1 & _ & _ & G4).
    assert (Et : table_of m' D (dir_index w) = table_of m D (dir_index w)) by (unfold table_of, dir_entry; by rewrite alt_child_cell by (done || lia)).
    assert (Hh' : has_table m' D (dir_index w)) by (unfold has_table, dir_entry; by rewrite alt_child_cell by (done || lia)).
    rewrite (ac_cell _ _ _ _ _ _ _ _ _ _ _ Hc), decide_False; [done|rewrite <- Et; apply K; [lia|done|done]|apply table_aligned|done| |intros [? _]; contradiction].
    intros [E2 _]. apply (G4 1022); [lia|apply Hok|by symmetry].
Qed.

Lemma alt_same_entries : same_entries m m' (cr3 v).
Proof.
  intros w Hw Hdw. destruct (below_temp w Hw Hdw) as (Hdi & Hti & _). destruct alt_table_apart as (_ & _ & K & _).
  apply entry_cells; [apply alt_parent_cell; lia|]. intros Hh.
  rewrite (ac_cell _ _ _ _ _ _ _ _ _ _ _ Hc), decide_False; [done|apply K; [lia|done]|apply table_aligned|done| |].
  - apply below_temp_cell; [apply Hok|done..].
  - intros [E _]. by apply (fo_parent _ _ _ Hok (dir_index w)); [lia| |].
Qed.

Lemma alt_steps : steps l v v' bm bm' D.
Proof.
  pose proof alt_table_apart as (K1 & K2 & K3 & K4). split.
  - apply Hc.
  - apply Hc.
  - apply Hc.
  - exact alt_parent_cell.
  - intros j Hj Hh. destruct (decide (j = d)) as [->|]; [|apply alt_child_cell; [lia|done]].
    pose proof (ac_case _ _ _ _ _ _ _ _ _ _ _ Hc) as C. destruct fresh; [by destruct C|apply C].
  - intros j Hj Hh Hh'. destruct (decide (j = d)) as [->|Hn].
    + destruct (ac_table _ _ _ _ _ _ _ _ _ _ _ Hc) as [_ ->]. pose proof (ac_case _ _ _ _ _ _ _ _ _ _ _ Hc) as C. destruct fresh; [|by destruct C].
      destruct C as [_ El]. pose proof (ac_takes _ _ _ _ _ _ _ _ _ _ _ Hc) as (_ & F & _). rewrite El in F. by apply Forall_cons in F as [[_ ?] _].
    + destruct Hh. unfold has_table, dir_entry in *. by rewrite alt_child_cell in Hh' by (done || lia).
  - intros f i [[F1 F2] [F3 F4] F5 F6] Hi. rewrite (ac_cell _ _ _ _ _ _ _ _ _ _ _ Hc); [|done|done|intros [E _]; apply (F5 1022); [lia|apply Hok|by symmetry]|intros [? _]; contradiction].
    rewrite decide_False; [done|]. intros ->. pose proof (ac_case _ _ _ _ _ _ _ _ _ _ _ Hc) as C. destruct (ac_table _ _ _ _ _ _ _ _ _ _ _ Hc) as [_ Ek]. destruct fresh.
    + destruct C as [_ El]. pose proof (ac_takes _ _ _ _ _ _ _ _ _ _ _ Hc) as (_ & F & _). rewrite El in F. apply Forall_cons in F as [[_ ?] _]. congruence.
    + destruct C as (Hh & _ & E). apply (F6 d); [destruct (below_temp vaddr Hv Hd); lia|done|]. rewrite <- Ek. unfold table_of, dir_entry. by rewrite E.
Qed.
End alternate_map.

Lemma alt_map_spec v bm D frame vaddr flags :
  fork_ok v bm D -> is_u32 vaddr -> Frame.aligned frame -> vaddr < TEMP -> free_frames 1 bm ->
  exists v' bm' l, AlternatePageDirectory.map v D frame vaddr flags = Ret v' /\ (length l <= 1)%nat /\ steps l v v' bm bm' D /\
    REF_COUNT (frames v') = REF_COUNT (frames v) /\
    sets_entry (phys v) (phys v') D vaddr (entry_value (entry (phys v) D vaddr) frame flags) /\ same_entries (phys v) (phys v') (cr3 v).
Proof.
  intros Hok Hv Hf Hd Hfree. destruct (alt_map_cells v bm D frame vaddr flags Hok Hv Hf ltac:(by apply below_temp) Hfree) as (v' & bm' & l & k & fresh & Hm & Hl & Hc).
  exists v', bm', l. split; [done|]. split; [done|]. split; [by eapply alt_steps|]. split; [apply Hc|].
  split; [by eapply alt_sets_entry|by eapply alt_same_entries].
Qed.

(** * The three ways to copy a page *)

(** Changes to tables of the parent and to frames that were free. *)
Lemma steps_cells l v v' bm bm' D :
  fork_ok v bm D -> cr3 v' = cr3 v -> ALLOCATOR (frames v') = Some bm' -> FrameBitmap.wf bm' -> takes l bm bm' ->
  (forall h j, Frame.aligned h -> 0 <= j < 1024 -> occupied bm (h / 4096) = true ->
    (forall d, 0 <= d < 1023 -> has_table (phys v) (cr3 v) d -> table_of (phys v) (cr3 v) d <> h) -> cell (phys v') h j = cell (phys v) h j) ->
  steps l v v' bm bm' D /\ same_entries (phys v) (phys v') D.
Proof.
  intros Hok Hc Ha Hb Ht Hcell. pose proof (fo_vm _ _ _ Hok) as Hvm. pose proof (vo_self _ _ Hvm) as (Hca & _). pose proof (fo_self _ _ _ Hok) as (HDa & _).
  assert (HC : forall j, 0 <= j < 1024 -> cell (phys v') (cr3 v) j = cell (phys v) (cr3 v) j).
  { intros j Hj. apply Hcell; [done|done|apply Hvm|]. intros d Hd Hh. by apply (vo_tables _ _ Hvm). }
  assert (HD : forall j, 0 <= j < 1024 -> cell (phys v') D j = cell (phys v) D j).
  { intros j Hj. apply Hcell; [done|done|apply Hok|]. apply Hok. }
  split; [split|].
  - apply (fork_ok_same v v' bm bm' D); try done. intros j Hj Ho. destruct Ht as (_ & _ & O). rewrite O, Ho by done. apply orb_true_r.
  - done.
  - done.
  - exact HC.
  - intros d Hd _. apply HD. lia.
  - intros d Hd Hn Hh. destruct Hn. unfold has_table, dir_entry in *. by rewrite HD in Hh by lia.
  - intros f i [[F1 F2] _ F3 _] Hi. by apply Hcell.
  - intros w Hw Hdw. destruct (below_temp w Hw Hdw) as (Hdi & Hti & _). apply entry_cells; [apply HD; lia|]. intros Hh.
    destruct (fo_child _ _ _ Hok (dir_index w) ltac:(lia) Hh) as (_ & _ & G3 & G4). apply Hcell; [apply table_aligned|done|done|done].
Qed.

(** A frame taken for something other than a table holds data. *)
Lemma taken_kept v v' bm bm' D g : fork_ok v bm D -> steps [g / 4096] v v' bm bm' D -> Frame.aligned g ->
  (forall d, 0 <= d < 1023 -> ~ has_table (phys v) D d -> ~ has_table (phys v') D d) -> kept v' bm' D g.
Proof.
  intros Hok Hst Hga Hnew. pose proof (fo_vm _ _ _ Hok) as Hvm. pose proof (st_takes _ _ _ _ _ _ Hst) as (_ & F & O). apply Forall_cons in F as [[Fr Ff] _].
  assert (Hne : forall h, occupied bm (h / 4096) = true -> h <> g) by (intros h Hh ->; congruence). split.
  - split; [assumption|]. rewrite O by lia. rewrite bool_decide_eq_true_2 by left. reflexivity.
  - rewrite (st_cr3 _ _ _ _ _ _ Hst). split; apply not_eq_sym, Hne; [apply Hvm|apply Hok].
  - intros d Hd. unfold has_table, table_of, dir_entry. rewrite (st_cr3 _ _ _ _ _ _ Hst), (st_parent _ _ _ _ _ _ Hst) by lia.
    intros Hh. apply Hne. apply (vo_tables _ _ Hvm d); assumption.
  - intros d Hd Hh. destruct (PageTableEntry.is_present (dir_entry (phys v) D d)) eqn:E.
    + unfold table_of, dir_entry. rewrite (st_child _ _ _ _ _ _ Hst) by assumption. apply Hne. apply (fo_child _ _ _ Hok d); assumption.
    + destruct (Hnew d Hd); [unfold has_table; congruence|assumption].
Qed.

(** The parent's entries when its tables change only in the entry of the temporary page. *)
Lemma parent_entries v v' bm D :
  fork_ok v bm D -> (forall j, 0 <= j < 1024 -> cell (phys v') (cr3 v) j = cell (phys v) (cr3 v) j) ->
  (forall h j, Frame.aligned h -> 0 <= j < 1024 -> occupied bm (h / 4096) = true -> ~ (h = top v /\ j = 1023) -> cell (phys v') h j = cell (phys v) h j) ->
  same_entries (phys v) (phys v') (cr3 v).
Proof.
  intros Hok HC Hcell w Hw Hdw. destruct (below_temp w Hw Hdw) as (Hdi & Hti & _). apply entry_cells; [apply HC; lia|]. intros Hh.
  apply Hcell; [apply table_aligned|done|apply (vo_tables _ _ (fo_vm _ _ _ Hok) (dir_index w)); [lia|done]|].
  apply below_temp_cell; [apply Hok|done..].
Qed.

(** The loop of [copy_frames]. *)
Lemma copy_page_spec v page f g :
  window v TEMP g -> is_u32 page -> page mod 4096 = 0 -> Frame.aligned f -> f <> g ->
  (forall m' i, (forall x, ~ (g <= x < g + 4096) -> m' !! x = phys v !! x) -> 0 <= i < 1024 -> walk m' (cr3 v) (page + 4 * i) = Some (f + 4 * i)) ->
  exists m', AlternatePageDirectory.copy_page v page TEMP = Ret (set_phys v m') /\
    (forall x, ~ (g <= x < g + 4096) -> m' !! x = phys v !! x) /\ forall i, 0 <= i < 1024 -> cell m' g i = cell (phys v) f i.
Proof.
  intros (_ & Hg & Hw) Hpu Hpa Hf Hne Hwalk. unfold AlternatePageDirectory.copy_page.
  assert (Hloop : forall n, (n <= 1024)%nat -> exists m',
    for_each (fun i v => x ← vload v (page +u 4 * i); vstore v (TEMP +u 4 * i) x) (seqZ 0 (Z.of_nat n)) v = Ret (set_phys v m') /\
    (forall x, ~ (g <= x < g + 4096) -> m' !! x = phys v !! x) /\ forall i, 0 <= i < Z.of_nat n -> cell m' g i = cell (phys v) f i).
  { induction n as [|n IH]; intros Hn; [exists (phys v); split; [by destruct v|]; split; [done|lia]|].
    destruct (IH ltac:(lia)) as (m' & E & Ho & Hi). rewrite Nat2Z.inj_succ, <- Z.add_1_r, seqZ_snoc, for_each_app, E by lia.
    cbn [mbind comp_bind for_each]. rewrite Z.add_0_l. set (i := Z.of_nat n) in *. assert (Hir : 0 <= i < 1024) by lia.
    rewrite (u32_small (page + 4 * i)), (u32_small (TEMP + 4 * i)) by (unfold TEMP; mlia). unfold vload. cbn [phys cr3 set_phys]. rewrite Hwalk by done. cbn [mbind comp_bind].
    unfold vstore. cbn [phys cr3 set_phys]. destruct (Hw m' Ho) as (_ & _ & Hs). cbn [phys cr3 set_phys] in Hs. rewrite Hs by done. cbn [mbind comp_bind].
    assert (Ef : cell m' f i = cell (phys v) f i) by (apply load32_ext; [by apply aligned_space|]; intros x Hx; apply Ho; destruct Hf, Hg; mlia).
    eexists. split; [reflexivity|]. split; [intros x Hx; rewrite store_in_frame by done; by apply Ho|].
    intros j Hj. rewrite cell_store by (done || lia || apply load32_range). case_decide as Ej; [destruct Ej as [_ ->]; done|]. apply Hi.
    destruct (decide (j = i)); [by destruct Ej|lia]. }
  exact (Hloop 1024%nat ltac:(lia)).
Qed.

Lemma entry_present m D w : PageTableEntry.is_present (entry m D w) = true ->
  has_table m D (dir_index w) /\ cell m (table_of m D (dir_index w)) (table_index w) = entry m D w.
Proof.
  unfold entry, has_table. destruct (PageTableEntry.is_present (dir_entry m D (dir_index w))) eqn:E.
  - intros _. split; reflexivity.
  - rewrite absent_zero. discriminate.
Qed.

Lemma entry_frame_aligned m D w : Frame.aligned (PageTableEntry.get_address (entry m D w)).
Proof. apply get_address_aligned. unfold entry. case_match; [apply load32_range|mach_unfold; lia]. Qed.

(** The bodies of the three loops. *)
Definition copy_body (perm : Permissions) (D : Z) (v : VM) (page_start e : Z) : comp VM :=
  match perm with
  | ReadOnly =>
      let flags := if PageTableEntry.is_user_access_granted e then USER_ACCESS else 0 in
      let flags := if PageTableEntry.is_write_access_granted e then flags |u WRITE_ACCESS else flags in
      AlternatePageDirectory.map v D (Frame.new (PageTableEntry.get_address e)) page_start flags
  | ReadWrite =>
      '(v, new_frame) ← vm_allocate_unwrap v;
      v ← map_frame_to_temporary_page v new_frame;
      v ← AlternatePageDirectory.copy_page v page_start get_temporary_page_address;
      let flags := WRITE_ACCESS in
      let flags := if page_start <? 0xc0000000 then flags |u USER_ACCESS else flags in
      AlternatePageDirectory.map v D new_frame page_start flags
  | CopyOnWrite =>
      '(p, _) ← reference_frame_at_address (frames v) (PageTableEntry.get_address e);
      let v := set_frames v p in
      let flags := if PageTableEntry.is_user_access_granted e then USER_ACCESS else 0 in
      let table := SELF_TABLES +u (0x1000 *u dir_index page_start) in
      v ← PageTable.modify v table (table_index page_start) PageTableEntry.clear_write_access;
      AlternatePageDirectory.map v D (Frame.new (PageTableEntry.get_address e)) page_start flags
  end.

Lemma map_region_body fuel v D region g : backed_by region = Anonymous g ->
  AlternatePageDirectory.map_region fuel v D region = AlternatePageDirectory.region_loop fuel (copy_body (permissions region) D) v region (start region).
Proof.
  intros Hb. unfold AlternatePageDirectory.map_region, VirtualMemoryRegion.backing_type, VirtualMemoryRegion.get_permissions. rewrite Hb.
  by destruct (permissions region).
Qed.

(** What the child may do with the page. *)
Definition child_flags (perm : Permissions) (page e : Z) : Z :=
  match perm with
  | ReadOnly =>
      let flags := if PageTableEntry.is_user_access_granted e then USER_ACCESS else 0 in
      if PageTableEntry.is_write_access_granted e then flags |u WRITE_ACCESS else flags
  | ReadWrite => if page <? 0xc0000000 then WRITE_ACCESS |u USER_ACCESS else WRITE_ACCESS
  | CopyOnWrite => if PageTableEntry.is_user_access_granted e then USER_ACCESS else 0
  end.

(** One more reference to the frame of a page that both share until one writes. *)
Definition references_after (perm : Permissions) (e : Z) (R R' : option FrameRefcount) : Prop :=
  match perm with
  | CopyOnWrite => exists r r', R = Some r /\ R' = Some r' /\ FrameRefcount.wf r' /\ lenZ (references r') = lenZ (references r) /\
      forall j, FrameRefcount.count r' j = if PageTableEntry.get_address e / 4096 =? j then u8 (FrameRefcount.count r j + 1) else FrameRefcount.count r j
  | _ => R' = R
  end.

(** The frame the child sees: the parent's, or a frame of its own with the same words. *)
Definition child_frame (perm : Permissions) (v v' : VM) (bm bm' : FrameBitmap) (D e g : Z) : Prop :=
  match perm with
  | ReadWrite => occupied bm (g / 4096) = false /\ kept v' bm' D g /\
      forall i, 0 <= i < 1024 -> cell (phys v') g i = cell (phys v) (PageTableEntry.get_address e) i
  | _ => g = PageTableEntry.get_address e
  end.

Record page_copied (perm : Permissions) (v v' : VM) (bm bm' : FrameBitmap) (D page e : Z) (l : list Z) : Prop := {
  pc_steps : steps l v v' bm bm' D /\ (length l <= 2)%nat;
  pc_child : exists g, child_frame perm v v' bm bm' D e g /\
    sets_entry (phys v) (phys v') D page (entry_value (entry (phys v) D page) g (child_flags perm page e));
  pc_parent : match perm with
              | CopyOnWrite => protects_entry (phys v) (phys v') (cr3 v) page
              | _ => same_entries (phys v) (phys v') (cr3 v)
              end;
  pc_refs : references_after perm e (REF_COUNT (frames v)) (REF_COUNT (frames v'))
}.

Section page.
Context (v : VM) (bm : FrameBitmap) (D page : Z).
Context (Hok : fork_ok v bm D) (Hp : is_u32 page) (Hd : page < TEMP).
Notation e := (entry (phys v) (cr3 v) page).
Notation f := (PageTableEntry.get_address e).
Context (He : PageTableEntry.is_present e = true).

Lemma copy_read_only : free_frames 1 bm ->
  exists v' bm' l, copy_body ReadOnly D v page e = Ret v' /\ page_copied ReadOnly v v' bm bm' D page e l.
Proof.
  intros Hfree. unfold copy_body. rewrite frame_new_aligned by apply entry_frame_aligned.
  destruct (alt_map_spec v bm D f page (child_flags ReadOnly page e) Hok Hp (entry_frame_aligned _ _ _) Hd Hfree)
    as (v' & bm' & l & Hm & Hl & Hs & Hr & Hc & Hpar). exists v', bm', l. split; [exact Hm|]. split; [|by exists f|done|done].
  split; [done|lia].
Qed.

(** The words of the page read through the parent's directory. *)
Lemma page_seen m' i : 0 <= i < 1024 -> page mod 4096 = 0 ->
  cell m' (cr3 v) (dir_index page) = cell (phys v) (cr3 v) (dir_index page) ->
  (has_table (phys v) (cr3 v) (dir_index page) -> cell m' (table_of (phys v) (cr3 v) (dir_index page)) (table_index page) =
    cell (phys v) (table_of (phys v) (cr3 v) (dir_index page)) (table_index page)) ->
  walk m' (cr3 v) (page + 4 * i) = Some (f + 4 * i).
Proof.
  intros Hi Ha E1 E2. assert (Hw : is_u32 (page + 4 * i)) by mlia.
  destruct (proj1 (page_number_indices (page + 4 * i) page Hw Hp)) as [I1 I2]; [mlia|].
  rewrite entry_walk. replace (entry m' (cr3 v) (page + 4 * i)) with e; [rewrite He; f_equal; mlia|].
  rewrite <- (entry_cells (phys v) m' (cr3 v) page E1 E2). unfold entry. by rewrite I1, I2.
Qed.

(** A frame with the words of the page, before the child sees it. *)
Lemma copy_to_fresh : page mod 4096 = 0 -> kept v bm D f -> free_frames 2 bm ->
  exists v' bm' g, ('(v, new_frame) ← vm_allocate_unwrap v; v ← map_frame_to_temporary_page v new_frame;
      v ← AlternatePageDirectory.copy_page v page get_temporary_page_address; Ret (v, new_frame)) = Ret (v', g) /\
    steps [g / 4096] v v' bm bm' D /\ same_entries (phys v) (phys v') D /\ same_entries (phys v) (phys v') (cr3 v) /\
    REF_COUNT (frames v') = REF_COUNT (frames v) /\ occupied bm (g / 4096) = false /\ kept v' bm' D g /\
    forall i, 0 <= i < 1024 -> cell (phys v') g i = cell (phys v) f i.
Proof.
  intros Ha Hk Hfree. pose proof (fo_vm _ _ _ Hok) as Hvm. pose proof (vo_bm _ _ Hvm) as Hwf. pose proof Hwf as (Hcb & _).
  destruct (free_frames_one _ _ Hfree) as (j0 & Hj0 & Hjf). unfold vm_allocate_unwrap, vm_allocate_frame.
  destruct (allocate_frame_cases (frames v) bm (vo_alloc _ _ Hvm) Hwf)
    as [(s & bm1 & -> & Hs & Hsf & _ & Hwf1 & Hcnt & Hocc)|[_ Hfull]]; [|by rewrite Hfull in Hjf]. cbn [mbind comp_bind].
  pose proof (takes_one s bm bm1 Hs Hsf Hcnt Hocc) as Htk.
  assert (Hga : Frame.aligned (s * 4096)) by (split; mlia). assert (Eq : s * 4096 / 4096 = s) by (apply Z.div_mul; lia).
  set (g := s * 4096) in *. rewrite <- Eq in Hsf, Htk, Hocc. clearbody g. set (v1 := set_frames v _).
  assert (Hne : forall h, occupied bm (h / 4096) = true -> h <> g) by (intros h Hh ->; congruence).
  assert (Hok1 : fork_ok v1 bm1 D).
  { apply (fork_ok_same v v1 bm bm1 D); try reflexivity; [assumption..|]. intros j Hj Ho. rewrite Hocc, Ho by assumption. apply orb_true_r. }
  destruct (fo_top _ _ _ Hok) as [Htop Hpriv]. pose proof (vo_self _ _ Hvm) as (Hca & _).
  assert (G1 : cr3 v <> g) by apply Hne, Hvm. assert (G2 : top v <> g) by (apply Hne, (vo_tables _ _ Hvm 1022); [lia|assumption]).
  assert (G3 : cr3 v <> top v) by (apply not_eq_sym, (vo_tables _ _ Hvm 1022); [lia|assumption]).
  destruct (temp_shows v1 bm1 D g Hok1 Hga (not_eq_sym G1) (not_eq_sym G2)) as [-> Hwin]. cbn [mbind comp_bind]. change get_temporary_page_address with TEMP.
  assert (Hout : forall m' h j, (forall x, ~ (g <= x < g + 4096) -> m' !! x = phys (with_temp v1 g) !! x) -> Frame.aligned h -> h <> g -> 0 <= j < 1024 ->
    ~ (h = top v /\ j = 1023) -> cell m' h j = cell (phys v) h j).
  { intros m' h j Hm' Hh Hhg Hj Hn. transitivity (cell (phys (with_temp v1 g)) h j).
    - apply load32_ext; [by apply aligned_space|]. intros x Hx. apply Hm'. destruct Hh, Hga. mlia.
    - rewrite with_temp_cell, decide_False by assumption. reflexivity. }
  destruct (below_temp page Hp Hd) as (Hdi & Hti & _).
  destruct (copy_page_spec (with_temp v1 g) page f g Hwin Hp Ha) as (m3 & -> & Hm3 & Hcopy).
  { apply Hk. }
  { apply Hne, Hk. }
  { intros m' i Hm' Hi. apply page_seen; [assumption..| |].
    - apply Hout; [assumption|assumption|assumption|lia|intros [E _]; contradiction].
    - intros Hh. apply Hout; [assumption|apply table_aligned|apply Hne, (vo_tables _ _ Hvm); [lia|assumption]|assumption|].
      apply below_temp_cell; [apply Hok|assumption..]. }
  cbn [mbind comp_bind]. set (v3 := set_phys _ m3). assert (Hcell : forall h j, Frame.aligned h -> 0 <= j < 1024 -> occupied bm (h / 4096) = true ->
    ~ (h = top v /\ j = 1023) -> cell (phys v3) h j = cell (phys v) h j) by (intros; apply Hout; auto).
  destruct (steps_cells [g / 4096] v v3 bm bm1 D Hok) as [Hst HsD]; try reflexivity; try assumption.
  { intros h j Hh Hj Ho Ht. apply Hcell; [assumption..|]. intros [E _]. apply (Ht 1022); [lia|assumption|]. symmetry. exact E. }
  exists v3, bm1, g. split; [reflexivity|]. split; [assumption|]. split; [assumption|].
  split; [eapply parent_entries; [exact Hok|apply Hst|exact Hcell]|]. split; [reflexivity|]. split; [assumption|]. split.
  - apply (taken_kept v v3 bm bm1 D g Hok Hst Hga). intros d Hdd Hn Hh. apply Hn. revert Hh. unfold has_table, dir_entry.
    rewrite Hcell; [trivial|apply Hok|lia|apply Hok|]. intros [E _]. apply (fo_parent _ _ _ Hok 1022); [lia|assumption|symmetry; exact E].
  - intros i Hi. transitivity (cell (phys (with_temp v1 g)) f i); [exact (Hcopy i Hi)|]. apply Hout; [reflexivity|apply Hk|apply Hne, Hk|assumption|].
    intros [E _]. apply (kp_parent _ _ _ _ Hk 1022); [lia|assumption|]. symmetry. exact E.
Qed.

Lemma copy_read_write : page mod 4096 = 0 -> kept v bm D f -> free_frames 2 bm ->
  exists v' bm' l, copy_body ReadWrite D v page e = Ret v' /\ page_copied ReadWrite v v' bm bm' D page e l.
Proof.
  intros Ha Hk Hfree. destruct (copy_to_fresh Ha Hk Hfree) as (v3 & bm3 & g & Hrun & Hst & HsD & HsC & Hr & Hg & Hkg & Hw).
  destruct (alt_map_spec v3 bm3 D g page (child_flags ReadWrite page e)) as (v' & bm' & l & Hm & Hl & Hs & Hr' & Hc & Hpar); [apply Hst|done|apply Hkg|done| |].
  { exact (free_frames_takes 2 _ _ _ Hfree (st_takes _ _ _ _ _ _ Hst)). }
  exists v', bm', (g / 4096 :: l). split; [|split].
  - unfold copy_body. destruct (vm_allocate_unwrap v) as [[v1 g1]| | |]; cbn [mbind comp_bind] in *; try discriminate.
    destruct (map_frame_to_temporary_page v1 g1) as [v2| | |]; cbn [mbind comp_bind] in *; try discriminate.
    destruct (AlternatePageDirectory.copy_page v2 page get_temporary_page_address) as [v4| | |]; cbn [mbind comp_bind] in *; try discriminate.
    injection Hrun as -> ->. exact Hm.
  - split; [exact (steps_trans [g / 4096] l v v3 v' bm bm3 bm' D Hst Hs)|cbn [length]; lia].
  - exists g. split; [|intros w Hww Hdw; rewrite Hc by done; case_decide; [by rewrite HsD|by apply HsD]].
    split; [done|]. split; [by eapply steps_kept|]. intros i Hi. rewrite (st_keeps _ _ _ _ _ _ Hs) by done. by apply Hw.
  - intros w Hww Hdw. rewrite (st_cr3 _ _ _ _ _ _ Hst) in Hpar. rewrite Hpar by done. by apply HsC.
  - cbn [references_after]. congruence.
Qed.

(** The parent's entry without write access. *)
Lemma parent_protected : 
  exists v', PageTable.modify v (SELF_TABLES +u (0x1000 *u dir_index page)) (table_index page) PageTableEntry.clear_write_access = Ret v' /\
    steps [] v v' bm bm D /\ frames v' = frames v /\ same_entries (phys v) (phys v') D /\
    protects_entry (phys v) (phys v') (cr3 v) page.
Proof.
  destruct (below_temp page Hp Hd) as (Hdi & Hti & _). destruct (entry_present _ _ _ He) as [Hh Ee]. pose proof (fo_vm _ _ _ Hok) as Hvm.
  destruct (vo_tables _ _ Hvm (dir_index page) ltac:(lia) Hh) as [Hne Hto].
  pose proof (table_window v (dir_index page) (vo_self _ _ Hvm) ltac:(lia) Hh Hne) as Hw. set (k := table_of (phys v) (cr3 v) (dir_index page)) in *.
  assert (Hka : Frame.aligned k) by apply table_aligned.
  replace (SELF_TABLES +u (0x1000 *u dir_index page)) with (SELF_TABLES + 0x1000 * dir_index page) by (unfold SELF_TABLES; mlia).
  rewrite (modify_seen v _ k (table_index page)) by (done || by apply window_seen). eexists. split; [reflexivity|]. rewrite Ee.
  assert (Hu : is_u32 (PageTableEntry.clear_write_access e)) by (rewrite <- Ee; apply (land_bound _ _ 32); [lia|apply load32_range]).
  set (v' := set_phys v _). assert (Hcell : forall h j, Frame.aligned h -> 0 <= j < 1024 ->
    cell (phys v') h j = if decide (h = k /\ j = table_index page) then PageTableEntry.clear_write_access e else cell (phys v) h j)
    by (intros h j Ha Hj; by apply cell_store).
  destruct (steps_cells [] v v' bm bm D Hok) as [Hst HsD]; try reflexivity; [apply Hvm|apply Hvm|apply takes_nil| |].
  { intros h j Ha Hj Ho Ht. rewrite Hcell, decide_False; [done| |done|done]. intros [E _]. apply (Ht (dir_index page)); [lia|done|by symmetry]. }
  split; [done|]. split; [done|]. split; [done|]. intros w Hww Hdw. destruct (below_temp w Hww Hdw) as (Hdi' & Hti' & _).
  assert (Hdir : cell (phys v') (cr3 v) (dir_index w) = cell (phys v) (cr3 v) (dir_index w)) by (apply (st_parent _ _ _ _ _ _ Hst); lia).
  destruct (alias (phys v) (cr3 v) w page) eqn:Ew.
  - apply alias_spec in Ew as (A1 & A2 & A3). change (table_of (phys v) (cr3 v) (dir_index page)) with k in A2.
    assert (E1 : entry (phys v') (cr3 v) w = cell (phys v') k (table_index page)) by (unfold entry, table_of, dir_entry; rewrite Hdir; unfold has_table, dir_entry in A1; rewrite A1, A3; by rewrite <- A2).
    assert (E2 : entry (phys v) (cr3 v) w = cell (phys v) k (table_index page)) by (unfold entry; unfold has_table in A1; by rewrite A1, A2, A3).
    rewrite E1, E2, Ee, Hcell by done. by rewrite decide_True by (split; reflexivity).
  - apply entry_cells; [done|]. intros Hhw. rewrite Hcell, decide_False; [done| |apply table_aligned|done].
    intros [E1 E2]. apply not_true_iff_false in Ew. apply Ew, alias_spec. done.
Qed.
End page.

Lemma copy_on_write v bm D page r :
  let e := entry (phys v) (cr3 v) page in let f := PageTableEntry.get_address e in
  fork_ok v bm D -> is_u32 page -> page < TEMP -> PageTableEntry.is_present e = true ->
  REF_COUNT (frames v) = Some r -> FrameRefcount.wf r -> f / 4096 < lenZ (references r) -> free_frames 1 bm ->
  exists v' bm' l, copy_body CopyOnWrite D v page e = Ret v' /\ page_copied CopyOnWrite v v' bm bm' D page e l.
Proof.
  intros e f Hok Hp Hd He Hr Hwf Hlen Hfree. pose proof (entry_frame_aligned (phys v) (cr3 v) page : Frame.aligned f) as Hfa. pose proof (fo_vm _ _ _ Hok) as Hvm.
  destruct (FrameRefcount.reference_spec r (f / 4096) Hwf) as (r' & Href & Hwf' & Hlen' & Hcount); [split; [apply Z.div_pos; [apply Hfa|lia]|done]|].
  unfold copy_body, reference_frame_at_address, with_refcount, FrameRefcount.reference_frame_at_address.
  change (PageTableEntry.get_address e) with f. rewrite Hr, Href. cbn [mbind comp_bind].
  rewrite (frame_new_aligned f Hfa). set (v1 := set_frames v _).
  destruct (steps_cells [] v v1 bm bm D Hok) as [Hst1 _]; try done; [apply Hvm|apply Hvm|].
  pose proof (st_ok _ _ _ _ _ _ Hst1) as Hok1.
  destruct (parent_protected v1 bm D page Hok1 Hp Hd He) as (v2 & -> & Hst2 & Hfr & HsD & HsC). cbn [mbind comp_bind].
  destruct (alt_map_spec v2 bm D f page (child_flags CopyOnWrite page e) (st_ok _ _ _ _ _ _ Hst2) Hp Hfa Hd Hfree)
    as (v' & bm' & l & Hm & Hl & Hs & Hr' & Hc & Hpar).
  exists v', bm', l. split; [exact Hm|]. split.
  - split; [|lia]. exact (steps_trans [] l v v1 v' bm bm bm' D Hst1 (steps_trans [] l v1 v2 v' bm bm bm' D Hst2 Hs)).
  - exists f. split; [done|]. intros w Hww Hdw. rewrite Hc by done. case_decide; [by rewrite HsD|by apply HsD].
  - intros w Hww Hdw. rewrite (st_cr3 _ _ _ _ _ _ Hst2) in Hpar. rewrite Hpar by done. by apply HsC.
  - cbn [references_after]. exists r, r'. rewrite Hr', Hfr. split_and!; try done. intros j. rewrite Hcount. change (PageTableEntry.get_address e) with f. by destruct (Z.eqb_spec (f / 4096) j) as [<-|].
Qed.

Lemma copy_body_spec perm v bm D page r :
  let e := entry (phys v) (cr3 v) page in let f := PageTableEntry.get_address e in
  fork_ok v bm D -> is_u32 page -> page mod 4096 = 0 -> page < TEMP -> PageTableEntry.is_present e = true ->
  (perm = ReadWrite -> kept v bm D f) -> REF_COUNT (frames v) = Some r -> FrameRefcount.wf r ->
  (perm = CopyOnWrite -> f / 4096 < lenZ (references r)) -> free_frames 2 bm ->
  exists v' bm' l, copy_body perm D v page e = Ret v' /\ page_copied perm v v' bm bm' D page e l.
Proof.
  intros e f Hok Hp Ha Hd He Hk Hr Hwf Hlen Hfree. assert (Hfree1 : free_frames 1 bm) by (destruct Hfree as (fs & ? & ? & ?); exists fs; split_and!; [done|lia|done]).
  destruct perm; [by apply copy_read_only|by apply copy_read_write; auto|by apply copy_on_write with r; auto].
Qed.
