(* ===== verification/Fork.v ===== *)
(** Copying an address space: [fork_page_directory] of [process/memory.rs] with the loops of
    [map_region] in [memory/virt/page_directory.rs].

    The regions are a list of pages with permissions ([jobs]); [forked] is the invariant of the
    copying loop, and [fork_copies_address_space] states the child's address space page by page
    and that the parent keeps its own. *)

From S2P Require Import Prelude Memory Address FrameBitmap Physical Region PageTable ProcMemory Alternate.

#[local] Opaque zero_words load32 store32 PageTableEntry.is_present PageTableEntry.get_address entry_value link_value temp_entry.

(** * One page of the loops *)

Definition page_step (D : Z) (job : Z * Permissions) (v : VM) : comp VM :=
  let '(page_start, perm) := job in
  d ← PageTable.get v SELF_DIRECTORY (dir_index page_start);
  if PageTableEntry.is_present d then
    e ← PageTable.get v (SELF_TABLES +u (0x1000 *u dir_index page_start)) (table_index page_start);
    if PageTableEntry.is_present e then copy_body perm D v page_start e else Ret v
  else Ret v.

Lemma page_step_entry v bm D page perm : vm_ok v bm -> is_u32 page -> page < TEMP ->
  page_step D (page, perm) v =
  (if PageTableEntry.is_present (entry (phys v) (cr3 v) page) then copy_body perm D v page (entry (phys v) (cr3 v) page) else Ret v).
Proof.
  intros Hvm Hp Hd. destruct (below_temp page Hp Hd) as (Hdi & Hti & _). unfold page_step. rewrite (map_reads_directory v bm page Hvm Hp ltac:(by apply below_temp)). cbn [mbind comp_bind].
  unfold entry. destruct (PageTableEntry.is_present (dir_entry (phys v) (cr3 v) (dir_index page))) eqn:E; [|by rewrite absent_zero].
  destruct (vo_tables _ _ Hvm (dir_index page) ltac:(lia) E) as [Hne _].
  pose proof (table_window v (dir_index page) (vo_self _ _ Hvm) ltac:(lia) E Hne) as Hw.
  replace (SELF_TABLES +u (0x1000 *u dir_index page)) with (SELF_TABLES + 0x1000 * dir_index page) by (unfold SELF_TABLES; mlia).
  by rewrite (get_seen v _ _ (table_index page) (window_seen _ _ _ Hw) Hti).
Qed.

(** The pages of a region. *)
Definition pages (r : VirtualMemoryRegion) : list Z := (fun i => start r + 4096 * i) <$> seqZ 0 ((size r + 4095) / 4096).
Definition jobs (rs : list VirtualMemoryRegion) : list (Z * Permissions) := rs ≫= (fun r => (fun p => (p, permissions r)) <$> pages r).

(** A region of anonymous pages below the temporary page. *)
Record forkable (fuel : nat) (r : VirtualMemoryRegion) : Prop := {
  fb_anonymous : exists g, backed_by r = Anonymous g;
  fb_range : 0 <= start r /\ 0 <= size r /\ start r + size r <= TEMP;
  fb_aligned : start r mod 4096 = 0;
  fb_fuel : (Z.to_nat ((size r + 4095) / 4096) <= fuel)%nat
}.

Lemma region_loop_step fuel D perm r v p : VirtualMemoryRegion.contains_address r p = true ->
  AlternatePageDirectory.region_loop (S fuel) (copy_body perm D) v r p =
  (v ← page_step D (p, perm) v; AlternatePageDirectory.region_loop fuel (copy_body perm D) v r (VirtualAddress.offset p 0x1000)).
Proof.
  intros Hc. cbn [AlternatePageDirectory.region_loop]. rewrite Hc. unfold page_step.
  destruct (PageTable.get v SELF_DIRECTORY _) as [d| | |]; reflexivity.
Qed.

Lemma region_loop_pages fuel D r v : forkable fuel r ->
  AlternatePageDirectory.map_region fuel v D r = for_each (page_step D) ((fun p => (p, permissions r)) <$> pages r) v.
Proof.
  intros [[g Hb] Hr Ha Hf]. unfold TEMP in Hr. rewrite (map_region_body fuel v D r g Hb). unfold pages. rewrite <- list_fmap_compose.
  set (n := (size r + 4095) / 4096) in *. assert (Hn : 0 <= n) by (unfold n; mlia).
  assert (Hgo : forall k i v fuel', 0 <= i -> i + Z.of_nat k = n -> (k <= fuel')%nat ->
    AlternatePageDirectory.region_loop fuel' (copy_body (permissions r) D) v r (start r + 4096 * i) =
    for_each (page_step D) ((fun i => (start r + 4096 * i, permissions r)) <$> seqZ i (Z.of_nat k)) v).
  { clear v. induction k as [|k IH]; intros i v fuel' Hi Hik Hf'.
    - assert (Hc : VirtualMemoryRegion.contains_address r (start r + 4096 * i) = false).
      { apply not_true_iff_false. rewrite VirtualMemoryRegion.contains_address_spec by (unfold VirtualMemoryRegion.wf; lia). unfold n in Hik. mlia. }
      cbn. destruct fuel'; cbn [AlternatePageDirectory.region_loop]; by rewrite Hc.
    - assert (Hc : VirtualMemoryRegion.contains_address r (start r + 4096 * i) = true).
      { rewrite VirtualMemoryRegion.contains_address_spec by (unfold VirtualMemoryRegion.wf; lia). unfold n in Hik. mlia. }
      destruct fuel' as [|fuel']; [lia|]. rewrite region_loop_step, seqZ_cons by (done || lia). cbn [fmap list_fmap for_each].
      replace (Z.pred (Z.of_nat (S k))) with (Z.of_nat k) by lia.
      assert (Ho : VirtualAddress.offset (start r + 4096 * i) 0x1000 = start r + 4096 * Z.succ i) by (unfold VirtualAddress.offset, n in *; mlia).
      rewrite Ho. destruct (page_step D _ v) as [v1| | |]; cbn [mbind comp_bind]; try reflexivity. apply IH; lia. }
  pose proof (Hgo (Z.to_nat n) 0 v fuel ltac:(lia) ltac:(lia) Hf) as H. rewrite Z2Nat.id in H by lia.
  rewrite Z.mul_0_r, Z.add_0_r in H. exact H.
Qed.

Lemma regions_pages fuel D rs v : Forall (forkable fuel) rs ->
  for_each (fun region v => AlternatePageDirectory.map_region fuel v D region) rs v = for_each (page_step D) (jobs rs) v.
Proof.
  revert v. induction rs as [|r rs IH]; intros v Hf; [done|]. apply Forall_cons in Hf as [Hr Hf].
  change (jobs (r :: rs)) with (((fun p => (p, permissions r)) <$> pages r) ++ jobs rs). cbn [for_each]. rewrite for_each_app, (region_loop_pages fuel D r v Hr).
  destruct (for_each (page_step D) _ v) as [v1| | |]; cbn [mbind comp_bind]; [by apply IH|done..].
Qed.

(** * All pages *)

(** The permissions of the region a page is in. *)
Fixpoint permission_at (js : list (Z * Permissions)) (w : Z) : option Permissions :=
  match js with
  | [] => None
  | (p, perm) :: js => if decide (p / 4096 = w / 4096) then Some perm else permission_at js w
  end.

Lemma permission_at_snoc js p perm w :
  permission_at (js ++ [(p, perm)]) w =
  match permission_at js w with Some x => Some x | None => if decide (p / 4096 = w / 4096) then Some perm else None end.
Proof. induction js as [|[q x] js IH]; cbn [permission_at app]; [done|]. destruct (decide (q / 4096 = w / 4096)); [done|apply IH]. Qed.

Lemma permission_at_None js w : w / 4096 ∉ (fun j => j.1 / 4096) <$> js -> permission_at js w = None.
Proof.
  induction js as [|[q x] js IH]; cbn [permission_at]; [done|]. intros Hn. rewrite fmap_cons in Hn. cbn [fst] in Hn.
  apply not_elem_of_cons in Hn as [H1 H2]. rewrite decide_False by congruence. by apply IH.
Qed.

Lemma entry_page m D w p : is_u32 w -> is_u32 p -> w / 4096 = p / 4096 -> entry m D w = entry m D p.
Proof. intros Hw Hp E. apply page_number_indices in E as [E1 E2]; [|done..]. unfold entry. by rewrite E1, E2. Qed.

Lemma child_flags_page perm w p e : w / 4096 = p / 4096 -> child_flags perm w e = child_flags perm p e.
Proof. intros E. destruct perm; try done. cbn. replace (w <? 0xc0000000) with (p <? 0xc0000000); [done|]. destruct (Z.ltb_spec p 0xc0000000), (Z.ltb_spec w 0xc0000000); done || mlia. Qed.

(** A copy-on-write page takes write access from the pages with its entry. *)
Definition protects (m : mem) (C w : Z) (job : Z * Permissions) : bool :=
  match job.2 with
  | CopyOnWrite => PageTableEntry.is_present (entry m C job.1) && alias m C w job.1
  | _ => false
  end.

Lemma page_copied_same perm v v' bm bm' D page e e' l :
  PageTableEntry.get_address e' = PageTableEntry.get_address e -> child_flags perm page e' = child_flags perm page e ->
  page_copied perm v v' bm bm' D page e' l -> page_copied perm v v' bm bm' D page e l.
Proof.
  intros E1 E2 [H1 (g & H2 & H3) H4 H5]. split; [done| |done|].
  - exists g. rewrite <- E2. split; [|done]. destruct perm; cbn [child_frame] in *; by rewrite <- E1.
  - destruct perm; cbn [references_after] in *; by rewrite <- ?E1.
Qed.

(** The references that shared pages add to frame [j]. *)
Definition shares (m : mem) (C : Z) (job : Z * Permissions) (j : Z) : bool :=
  match job.2 with
  | CopyOnWrite => PageTableEntry.is_present (entry m C job.1) && (PageTableEntry.get_address (entry m C job.1) / 4096 =? j)
  | _ => false
  end.
Definition shared_references (m : mem) (C : Z) (js : list (Z * Permissions)) (j : Z) : Z :=
  Z.of_nat (length (filter (fun job => shares m C job j = true) js)).

Lemma shared_references_snoc m C js job j :
  shared_references m C (js ++ [job]) j = shared_references m C js j + (if shares m C job j then 1 else 0).
Proof.
  unfold shared_references. rewrite filter_app, length_app, Nat2Z.inj_add. f_equal. rewrite filter_cons.
  destruct (shares m C job j) eqn:E; [by rewrite decide_True|by rewrite decide_False by congruence].
Qed.

Lemma shared_references_ext m m' C C' js j : (forall job, job ∈ js -> shares m C job j = shares m' C' job j) ->
  shared_references m C js j = shared_references m' C' js j.
Proof.
  unfold shared_references. intros H. do 2 f_equal. induction js as [|job js IH]; [done|]. rewrite !filter_cons.
  assert (E : shares m C job j = shares m' C' job j) by (apply H; left). rewrite E, IH by (intros x Hx; apply H; by right). done.
Qed.

Section address_space.
Context (v0 : VM) (bm0 : FrameBitmap) (D : Z) (r0 : FrameRefcount).
Notation m0 := (phys v0).
Notation C := (cr3 v0).

(** The child's page: the parent's frame or a copy of its own. *)
Definition child_page (v : VM) (bm : FrameBitmap) (js : list (Z * Permissions)) (w : Z) : Prop :=
  let e := entry m0 C w in
  match permission_at js w with
  | Some perm =>
      if PageTableEntry.is_present e then
        exists g, child_frame perm v0 v bm0 bm D e g /\ entry (phys v) D w = entry_value 0 g (child_flags perm w e)
      else entry (phys v) D w = 0
  | None => entry (phys v) D w = 0
  end.

(** The parent's page: what becomes shared loses write access. *)
Definition parent_entry (js : list (Z * Permissions)) (w : Z) : Z :=
  let e := entry m0 C w in if existsb (protects m0 C w) js then PageTableEntry.clear_write_access e else e.

Lemma parent_entry_shape js w :
  PageTableEntry.is_present (parent_entry js w) = PageTableEntry.is_present (entry m0 C w) /\
  PageTableEntry.get_address (parent_entry js w) = PageTableEntry.get_address (entry m0 C w) /\
  PageTableEntry.is_user_access_granted (parent_entry js w) = PageTableEntry.is_user_access_granted (entry m0 C w).
Proof. unfold parent_entry. destruct (existsb _ _); [|done]. by destruct (clear_write_shape (entry m0 C w)) as (? & ? & ? & _). Qed.

Definition copies (js : list (Z * Permissions)) (w : Z) : Prop :=
  is_u32 w /\ w < TEMP /\ permission_at js w = Some ReadWrite /\ PageTableEntry.is_present (entry m0 C w) = true.

(** After the pages [js], with the frames [l] taken for them. *)
Record forked (v : VM) (bm : FrameBitmap) (js : list (Z * Permissions)) (l : list Z) : Prop := {
  fk_steps : steps l v0 v bm0 bm D;
  fk_taken : (length l <= 2 * length js)%nat;
  fk_child : forall w, is_u32 w -> w < TEMP -> child_page v bm js w;
  fk_parent : forall w, is_u32 w -> w < TEMP -> entry (phys v) C w = parent_entry js w;
  fk_own : forall w w', copies js w -> copies js w' -> w / 4096 <> w' / 4096 ->
    PageTableEntry.get_address (entry (phys v) D w) <> PageTableEntry.get_address (entry (phys v) D w');
  fk_refs : exists r, REF_COUNT (frames v) = Some r /\ FrameRefcount.wf r /\ lenZ (references r) = lenZ (references r0) /\
    forall j, FrameRefcount.count r j = u8 (FrameRefcount.count r0 j + shared_references m0 C js j)
}.

(** A page that can be copied. *)
Record copyable (job : Z * Permissions) : Prop := {
  cb_page : is_u32 job.1 /\ job.1 mod 4096 = 0 /\ job.1 < TEMP;
  cb_data : job.2 = ReadWrite -> PageTableEntry.is_present (entry m0 C job.1) = true -> kept v0 bm0 D (PageTableEntry.get_address (entry m0 C job.1));
  cb_counted : job.2 = CopyOnWrite -> PageTableEntry.is_present (entry m0 C job.1) = true ->
    PageTableEntry.get_address (entry m0 C job.1) / 4096 < lenZ (references r0)
}.

Lemma child_frame_steps perm v v' bm bm' l e g :
  child_frame perm v0 v bm0 bm D e g -> steps l v v' bm bm' D -> child_frame perm v0 v' bm0 bm' D e g.
Proof.
  intros Hg Hs. destruct perm; cbn [child_frame] in *; try done. destruct Hg as (H1 & H2 & H3). split; [done|]. split; [by eapply steps_kept|].
  intros i Hi. rewrite (st_keeps _ _ _ _ _ _ Hs) by done. by apply H3.
Qed.

(** A page that the parent has not mapped. *)
Lemma forked_absent v bm js l p perm :
  forked v bm js l -> copyable (p, perm) -> p / 4096 ∉ (fun j => j.1 / 4096) <$> js -> PageTableEntry.is_present (entry m0 C p) = false ->
  forked v bm (js ++ [(p, perm)]) l.
Proof.
  intros [F1 F2 F3 F4 F5 F6] [(Hp & Ha & Hd) _ _] Hn He. cbn [fst] in *.
  assert (Hsame : forall w, is_u32 w -> p / 4096 = w / 4096 -> PageTableEntry.is_present (entry m0 C w) = false)
    by (intros w Hw E; by rewrite (entry_page m0 C w p)).
  split.
  - done.
  - rewrite length_app. lia.
  - intros w Hw Hdw. pose proof (F3 w Hw Hdw) as Hc. unfold child_page in *. rewrite permission_at_snoc.
    destruct (permission_at js w); [done|]. case_decide as E; [|done]. by rewrite Hsame.
  - intros w Hw Hdw. rewrite F4 by done. unfold parent_entry. rewrite existsb_app. replace (existsb (protects m0 C w) [(p, perm)]) with false; [by rewrite orb_false_r|].
    unfold protects. cbn [existsb fst snd]. rewrite He. by destruct perm.
  - assert (Hold : forall w, copies (js ++ [(p, perm)]) w -> copies js w).
    { intros w (C1 & C2 & C3 & C4). split_and!; try done. rewrite permission_at_snoc in C3. destruct (permission_at js w); [done|].
      case_decide as E; [|done]. by rewrite Hsame in C4. }
    intros w w' H1 H2. by apply F5; apply Hold.
  - destruct F6 as (r & R1 & R2 & R3 & R4). exists r. split_and!; try done. intros j. rewrite R4, shared_references_snoc.
    replace (shares m0 C (p, perm) j) with false; [by rewrite Z.add_0_r|]. unfold shares. cbn [fst snd]. rewrite He. by destruct perm.
Qed.

(** A page that is copied. *)
Section forked_present.
Context (v v' : VM) (bm bm' : FrameBitmap) (js : list (Z * Permissions)) (l l' : list Z) (p : Z) (perm : Permissions).
Notation e := (entry m0 C p).
Context (F : forked v bm js l) (Hb : copyable (p, perm)) (Hn : p / 4096 ∉ (fun j => j.1 / 4096) <$> js) (He : PageTableEntry.is_present e = true).
Context (Hpc : page_copied perm v v' bm bm' D p e l').

Lemma forked_new_child w : is_u32 w -> w < TEMP -> w / 4096 = p / 4096 ->
  exists g, child_frame perm v0 v' bm0 bm' D e g /\ (perm = ReadWrite -> occupied bm (g / 4096) = false) /\ Frame.aligned g /\
    entry (phys v') D w = entry_value 0 g (child_flags perm w e).
Proof.
  intros Hw Hdw E. destruct Hb as [(Hp & Ha & Hd) Hk _]. cbn [fst snd] in *. destruct Hpc as [_ (g & Hg & Hs) _ _]. exists g.
  assert (H0 : entry (phys v) D p = 0).
  { pose proof (fk_child _ _ _ _ F p Hp Hd) as Hc. unfold child_page in Hc. by rewrite permission_at_None in Hc. }
  rewrite Hs, decide_True, H0, (child_flags_page perm w p) by done.
  split; [|split; [by intros ->; apply Hg|split; [|done]]].
  - destruct perm; cbn [child_frame] in *; [done| |done]. destruct Hg as (G1 & G2 & G3). pose proof (st_takes _ _ _ _ _ _ (fk_steps _ _ _ _ F)) as (_ & _ & O).
    destruct (kp_used _ _ _ _ G2) as [Hga _]. split.
    + rewrite O in G1 by (destruct Hga; mlia). by apply orb_false_iff in G1 as [_ ?].
    + split; [done|]. intros i Hi. rewrite G3 by done. apply (st_keeps _ _ _ _ _ _ (fk_steps _ _ _ _ F)); [by apply Hk|done].
  - destruct perm; cbn [child_frame] in Hg; [rewrite Hg; apply entry_frame_aligned|apply Hg|rewrite Hg; apply entry_frame_aligned].
Qed.

Lemma forked_old_child w : is_u32 w -> w < TEMP -> w / 4096 <> p / 4096 -> entry (phys v') D w = entry (phys v) D w.
Proof. intros Hw Hdw E. destruct Hpc as [_ (g & _ & Hs) _ _]. by rewrite Hs, decide_False. Qed.

Lemma forked_children w : is_u32 w -> w < TEMP -> child_page v' bm' (js ++ [(p, perm)]) w.
Proof.
  intros Hw Hdw. destruct Hb as [(Hp & _) _ _]. cbn [fst] in Hp. unfold child_page. rewrite permission_at_snoc. destruct (decide (p / 4096 = w / 4096)) as [E|E].
  - rewrite permission_at_None by (by rewrite <- E). rewrite (entry_page m0 C w p), He by done.
    destruct (forked_new_child w Hw Hdw) as (g & G1 & _ & _ & G2); [done|]. by exists g.
  - pose proof (fk_child _ _ _ _ F w Hw Hdw) as Hc. unfold child_page in Hc. rewrite forked_old_child by congruence.
    destruct (permission_at js w); [|done]. destruct (PageTableEntry.is_present (entry m0 C w)); [|done].
    destruct Hc as (g & G1 & G2). exists g. split; [|done]. eapply child_frame_steps; [done|apply Hpc].
Qed.

Lemma forked_parents w : is_u32 w -> w < TEMP -> entry (phys v') C w = parent_entry (js ++ [(p, perm)]) w.
Proof.
  intros Hw Hdw. destruct Hb as [(Hp & _ & Hd) _ _]. cbn [fst] in *. pose proof (fk_parent _ _ _ _ F w Hw Hdw) as Hold.
  pose proof (fk_steps _ _ _ _ F) as Hs. assert (Ec : cr3 v = C) by apply Hs. destruct Hpc as [_ _ Hpar _]. rewrite Ec in Hpar.
  unfold parent_entry. rewrite existsb_app. unfold protects at 2. cbn [existsb fst snd]. rewrite orb_false_r.
  destruct perm; [by rewrite Hpar, Hold, orb_false_r..|]. rewrite Hpar, Hold, He by done. cbn [andb].
  destruct (below_temp w Hw Hdw) as (Hdi & _). destruct (below_temp p Hp Hd) as (Hdp & _).
  rewrite (alias_cells m0) by (apply (st_parent _ _ _ _ _ _ Hs); lia). unfold parent_entry.
  destruct (existsb (protects m0 C w) js), (alias m0 C w p); cbn [orb]; [apply clear_write_shape|done..].
Qed.

(** The frame of a copy is in use. *)
Lemma copy_frame_used w : copies js w -> occupied bm (PageTableEntry.get_address (entry (phys v) D w) / 4096) = true.
Proof.
  intros (Hw & Hdw & Hperm & Hpres). pose proof (fk_child _ _ _ _ F w Hw Hdw) as Hc. unfold child_page in Hc. rewrite Hperm, Hpres in Hc.
  destruct Hc as (g & (_ & Hg & _) & ->). destruct (entry_value_shape 0 g (child_flags ReadWrite w (entry m0 C w))) as (_ & -> & _); [apply Hg|mach_unfold; lia|]. apply Hg.
Qed.

Lemma forked_owns w w' : copies (js ++ [(p, perm)]) w -> copies (js ++ [(p, perm)]) w' -> w / 4096 <> w' / 4096 ->
  PageTableEntry.get_address (entry (phys v') D w) <> PageTableEntry.get_address (entry (phys v') D w').
Proof.
  assert (Hold : forall w, copies (js ++ [(p, perm)]) w -> w / 4096 <> p / 4096 -> copies js w).
  { intros x (C1 & C2 & C3 & C4) E. split_and!; try done. rewrite permission_at_snoc in C3. destruct (permission_at js x); [done|]. by rewrite decide_False in C3 by congruence. }
  assert (Hnew : forall w, copies (js ++ [(p, perm)]) w -> w / 4096 = p / 4096 -> occupied bm (PageTableEntry.get_address (entry (phys v') D w) / 4096) = false).
  { intros x (C1 & C2 & C3 & C4) E. destruct (forked_new_child x C1 C2 E) as (g & _ & G1 & G2 & ->).
    destruct (entry_value_shape 0 g (child_flags perm x e)) as (_ & -> & _); [done|mach_unfold; lia|]. apply G1.
    rewrite permission_at_snoc, permission_at_None, decide_True in C3 by congruence. congruence. }
  intros Hw Hw' Hne. destruct (decide (w / 4096 = p / 4096)) as [E|E], (decide (w' / 4096 = p / 4096)) as [E'|E'].
  - congruence.
  - pose proof (Hnew w Hw E) as Hf. pose proof (copy_frame_used w' (Hold w' Hw' E')) as Hu. rewrite (forked_old_child w') by (done || apply Hw'). congruence.
  - pose proof (Hnew w' Hw' E') as Hf. pose proof (copy_frame_used w (Hold w Hw E)) as Hu. rewrite (forked_old_child w) by (done || apply Hw). congruence.
  - rewrite !forked_old_child by (done || apply Hw || apply Hw'). apply (fk_own _ _ _ _ F); auto.
Qed.

Lemma forked_present : forked v' bm' (js ++ [(p, perm)]) (l ++ l').
Proof.
  destruct (pc_steps _ _ _ _ _ _ _ _ _ Hpc) as [Hs Hl]. split.
  - eapply steps_trans; [apply F|exact Hs].
  - rewrite !length_app. pose proof (fk_taken _ _ _ _ F). cbn [length]. lia.
  - exact forked_children.
  - exact forked_parents.
  - exact forked_owns.
  - destruct (fk_refs _ _ _ _ F) as (r & R1 & R2 & R3 & R4). destruct Hpc as [_ _ _ Hr].
    destruct perm; cbn [references_after] in Hr.
    + exists r. rewrite Hr. split_and!; try done. intros j. by rewrite R4, shared_references_snoc, Z.add_0_r.
    + exists r. rewrite Hr. split_and!; try done. intros j. by rewrite R4, shared_references_snoc, Z.add_0_r.
    + destruct Hr as (r1 & r2 & E1 & E2 & W2 & L2 & Hc). assert (r1 = r) as -> by congruence. exists r2. split_and!; [done|done|congruence|].
      intros j. rewrite Hc, R4, shared_references_snoc. unfold shares. cbn [fst snd]. rewrite He. cbn [andb].
      destruct (PageTableEntry.get_address e / 4096 =? j); [mlia|by rewrite Z.add_0_r].
Qed.
End forked_present.

Lemma forked_step v bm js l p perm :
  forked v bm js l -> copyable (p, perm) -> p / 4096 ∉ (fun j => j.1 / 4096) <$> js -> (perm = ReadOnly -> existsb (protects m0 C p) js = false) ->
  free_frames (2 * length js + 2) bm0 ->
  exists v' bm' l', page_step D (p, perm) v = Ret v' /\ forked v' bm' (js ++ [(p, perm)]) l'.
Proof.
  intros F Hb Hn Hro Hfree. pose proof Hb as [(Hp & Ha & Hd) Hk Hcnt]. cbn [fst snd] in *. pose proof (fk_steps _ _ _ _ F) as Hs.
  assert (Ec : cr3 v = C) by apply Hs. assert (Ee : entry (phys v) (cr3 v) p = parent_entry js p) by (rewrite Ec; by apply (fk_parent _ _ _ _ F)).
  destruct (parent_entry_shape js p) as (P1 & P2 & P3).
  pose proof (st_ok _ _ _ _ _ _ Hs) as Hok. rewrite (page_step_entry v bm D p perm (fo_vm _ _ _ Hok) Hp Hd), Ee, P1.
  destruct (PageTableEntry.is_present (entry m0 C p)) eqn:He; [|exists v, bm, l; split; [done|by apply forked_absent]].
  destruct (fk_refs _ _ _ _ F) as (r & R1 & R2 & R3 & _).
  destruct (copy_body_spec perm v bm D p r Hok Hp Ha Hd) as (v' & bm' & l' & Hrun & Hpc); rewrite ?Ee, ?P1, ?P2; try done.
  - intros Hrw. apply (steps_kept _ _ _ _ _ _ _ Hs). by apply Hk.
  - intros Hcow. rewrite R3. by apply Hcnt.
  - destruct (free_frames_takes _ _ _ _ Hfree (st_takes _ _ _ _ _ _ Hs)) as (fs & ? & ? & ?). exists fs. pose proof (fk_taken _ _ _ _ F). split_and!; [done|lia|done].
  - rewrite Ee in Hrun, Hpc. exists v', bm', (l ++ l'). split; [done|]. eapply forked_present; [done..|]. eapply page_copied_same; [| |exact Hpc]; [done|].
    destruct perm; cbn [child_flags]; [|done|by rewrite P3]. unfold parent_entry. by rewrite Hro.
Qed.

Lemma steps_refl : fork_ok v0 bm0 D -> steps [] v0 v0 bm0 bm0 D.
Proof. intros Hok. by destruct (steps_cells [] v0 v0 bm0 bm0 D Hok) as [? _]; [|apply Hok|apply Hok|apply takes_nil|..]. Qed.

Lemma forked_start : fork_ok v0 bm0 D -> (forall w, is_u32 w -> w < TEMP -> entry m0 D w = 0) ->
  REF_COUNT (frames v0) = Some r0 -> FrameRefcount.wf r0 -> forked v0 bm0 [] [].
Proof.
  intros Hok Hempty Hr Hwf. split; [by apply steps_refl|done|done|done|by intros w w' (_ & _ & ? & _)|].
  exists r0. split_and!; try done. intros j. change (shared_references m0 C [] j) with 0. rewrite Z.add_0_r.
  pose proof (FrameRefcount.count_range r0 j Hwf). mlia.
Qed.

Lemma forked_all rest js v bm l :
  forked v bm js l -> Forall copyable rest -> NoDup ((fun j => j.1 / 4096) <$> js ++ rest) ->
  (forall p, (p, ReadOnly) ∈ js ++ rest -> existsb (protects m0 C p) (js ++ rest) = false) -> free_frames (2 * length (js ++ rest)) bm0 ->
  exists v' bm' l', for_each (page_step D) rest v = Ret v' /\ forked v' bm' (js ++ rest) l'.
Proof.
  revert js v bm l. induction rest as [|[p perm] rest IH]; intros js v bm l F Hb Hnd Hro Hfree.
  - exists v, bm, l. by rewrite app_nil_r.
  - apply Forall_cons in Hb as [Hp Hb]. rewrite fmap_app, fmap_cons in Hnd. cbn [fst] in Hnd.
    destruct (forked_step v bm js l p perm F Hp) as (v1 & bm1 & l1 & E1 & F1).
    + apply NoDup_app in Hnd as (_ & Hnd & _). intros Hin. by apply (Hnd _ Hin); left.
    + intros ->. assert (Hin : (p, ReadOnly) ∈ js ++ (p, ReadOnly) :: rest) by (apply elem_of_app; right; left).
      specialize (Hro p Hin). rewrite existsb_app in Hro. by apply orb_false_iff in Hro as [? _].
    + destruct Hfree as (fs & ? & Hl & ?). exists fs. rewrite length_app in Hl. cbn [length] in Hl. split_and!; [done|lia|done].
    + cbn [for_each]. rewrite E1. cbn [mbind comp_bind].
      replace (js ++ (p, perm) :: rest) with ((js ++ [(p, perm)]) ++ rest) in * by (rewrite <- (assoc_L (++)); done).
      apply (IH _ v1 bm1 l1); [done|done| |done|done]. by rewrite !fmap_app, <- (assoc_L (++)).
Qed.
End address_space.

(** * The child directory before its pages *)

(** A frame that is in use and not for the directory or a table. *)
Record data_frame (v : VM) (bm : FrameBitmap) (f : Z) : Prop := {
  df_used : Frame.aligned f /\ occupied bm (f / 4096) = true;
  df_dir : f <> cr3 v;
  df_tables : forall d, 0 <= d < 1023 -> has_table (phys v) (cr3 v) d -> table_of (phys v) (cr3 v) d <> f
}.

(** A cleared frame [g] under the temporary page. *)
Record cleared (v v' : VM) (bm bm' : FrameBitmap) (g : Z) : Prop := {
  cl_ok : vm_ok v' bm' /\ top_ok v';
  cl_cr3 : cr3 v' = cr3 v;
  cl_refs : REF_COUNT (frames v') = REF_COUNT (frames v);
  cl_takes : takes [g / 4096] bm bm';
  cl_frame : Frame.aligned g /\ g <> cr3 v /\ g <> top v;
  cl_window : window v' TEMP g;
  cl_top : top v' = top v;
  cl_cell : forall h j, Frame.aligned h -> 0 <= j < 1024 -> ~ (h = top v /\ j = 1023) -> cell (phys v') h j = if decide (h = g) then 0 else cell (phys v) h j
}.

Lemma clear_fresh v bm : vm_ok v bm -> top_ok v -> free_frames 1 bm ->
  exists v1 v2 v' bm' g, vm_allocate_unwrap v = Ret (v1, g) /\ map_frame_to_temporary_page v1 g = Ret v2 /\ PageTable.zero v2 TEMP = Ret v' /\ cleared v v' bm bm' g.
Proof.
  intros Hvm Htop Hfree. pose proof (vo_bm _ _ Hvm) as Hwf. pose proof Hwf as (Hcb & _). destruct (free_frames_one _ _ Hfree) as (j0 & Hj0 & Hjf).
  unfold vm_allocate_unwrap, vm_allocate_frame. destruct (allocate_frame_cases (frames v) bm (vo_alloc _ _ Hvm) Hwf)
    as [(s & bm1 & -> & Hs & Hsf & _ & Hwf1 & Hcnt & Hocc)|[_ Hfull]]; [|by rewrite Hfull in Hjf]. cbn [mbind comp_bind].
  pose proof (takes_one s bm bm1 Hs Hsf Hcnt Hocc) as Htk.
  assert (Hga : Frame.aligned (s * 4096)) by (split; mlia). assert (Eq : s * 4096 / 4096 = s) by (apply Z.div_mul; lia).
  set (g := s * 4096) in *. rewrite <- Eq in Hsf, Htk, Hocc. clearbody g. set (v1 := set_frames v _).
  assert (Hne : forall h, occupied bm (h / 4096) = true -> g <> h) by (intros h Hh <-; congruence).
  assert (Hmono : forall j, 0 <= j -> occupied bm j = true -> occupied bm1 j = true) by (intros j Hj Ho; rewrite Hocc, Ho by assumption; apply orb_true_r).
  assert (Hvm1 : vm_ok v1 bm1) by (apply (vm_ok_same v v1 bm bm1); [assumption|reflexivity|reflexivity|reflexivity|assumption|assumption]).
  assert (G1 : g <> cr3 v) by apply Hne, Hvm. pose proof Htop as [Ht _]. destruct (vo_tables _ _ Hvm 1022 ltac:(lia) Ht) as [Htc Hto].
  assert (G2 : g <> top v) by apply Hne, Hto. pose proof (vo_self _ _ Hvm) as (Hca & _).
  assert (Htop1 : top_ok v1) by exact Htop. pose proof (temp_window v1 bm1 g Hvm1 Htop1 Hga G1 G2) as Hw.
  exists v1, (with_temp v1 g), (set_phys (with_temp v1 g) (zero_words (Z.to_nat 1024) g (phys (with_temp v1 g)))), bm1, g.
  split; [reflexivity|]. split; [exact (map_temporary_spec v1 bm1 g Hvm1 Htop1 Hga)|]. split; [exact (zero_spec _ TEMP g Hw)|]. set (v' := set_phys _ _).
  assert (Hcell : forall h j, Frame.aligned h -> 0 <= j < 1024 -> ~ (h = top v /\ j = 1023) -> cell (phys v') h j = if decide (h = g) then 0 else cell (phys v) h j).
  { intros h j Hh Hj Hn. unfold v'. cbn [phys set_phys]. rewrite cell_zero by assumption. case_decide; [reflexivity|].
    rewrite with_temp_cell, decide_False by assumption. reflexivity. }
  assert (HC : forall j, 0 <= j < 1024 -> cell (phys v') (cr3 v) j = cell (phys v) (cr3 v) j).
  { intros j Hj. rewrite Hcell, decide_False; [reflexivity|congruence|assumption|assumption|intros [E _]; apply Htc; symmetry; exact E]. }
  split; [|reflexivity|reflexivity|assumption| | | |exact Hcell].
  - split; [apply (vm_ok_same v v' bm bm1); [assumption|reflexivity|exact HC|reflexivity|assumption|assumption]|].
    apply (top_ok_same v v'); [assumption|reflexivity|exact HC].
  - split; [assumption|]. split; assumption.
  - apply window_set; [assumption|]. intros x Hx. apply zero_words_lookup_ne; [unfold in_space; destruct Hga; change (4 * Z.of_nat (Z.to_nat 1024)) with 4096; mlia|exact Hx].
  - unfold top, table_of, dir_entry. change (cr3 v') with (cr3 v). rewrite HC by lia. reflexivity.
Qed.

(** The regions in the order they are copied. *)
Definition all_regions (k : KernelMemory) (p : ProcMemory) : list VirtualMemoryRegion :=
  let r := memory_regions p in
  [KERNEL_HEAP k; kernel_stack_region r; kernel_exec_region r; stack_region r; heap_region r] ++ execution_regions r.

(** The child directory shows itself and an empty last table but one. *)
Definition directory_words (v3 : VM) (D T : Z) : VM :=
  set_phys v3 (store32 (store32 (phys v3) (D + 4 * 1023) (PageTableEntry.set_present (PageTableEntry.set_address D (cell (phys v3) D 1023))))
    (D + 4 * 1022) (PageTableEntry.set_present (PageTableEntry.set_address T (cell (phys v3) D 1022)))).

Lemma set_address_u32 a e : Frame.aligned a -> is_u32 e -> is_u32 (PageTableEntry.set_address a e).
Proof. intros Ha He. rewrite set_address_split by done. destruct Ha. mlia. Qed.

Lemma directory_written v3 D T : window v3 TEMP D -> Frame.aligned D -> Frame.aligned T ->
  (v ← PageTable.modify v3 TEMP 1023 (PageTableEntry.set_address D); v ← PageTable.modify v TEMP 1023 PageTableEntry.set_present;
   v ← PageTable.modify v TEMP 1022 (PageTableEntry.set_address T); PageTable.modify v TEMP 1022 PageTableEntry.set_present) = Ret (directory_words v3 D T).
Proof.
  intros Hw HD HT. assert (Hs : forall w a i, window w TEMP D -> Frame.aligned a -> 0 <= i < 1024 ->
    PageTable.modify w TEMP i (PageTableEntry.set_address a) = Ret (set_phys w (store32 (phys w) (D + 4 * i) (PageTableEntry.set_address a (cell (phys w) D i)))) /\
    PageTable.modify (set_phys w (store32 (phys w) (D + 4 * i) (PageTableEntry.set_address a (cell (phys w) D i)))) TEMP i PageTableEntry.set_present =
    Ret (set_phys w (store32 (phys w) (D + 4 * i) (PageTableEntry.set_present (PageTableEntry.set_address a (cell (phys w) D i)))))).
  { intros w a i Hww Ha Hi. split; [by apply modify_seen; [apply window_seen|]|]. apply modify_stable; [by apply window_stable|done|].
    apply set_address_u32; [done|apply load32_range]. }
  destruct (Hs v3 D 1023 Hw HD ltac:(lia)) as [-> E1]. cbn [mbind comp_bind]. rewrite E1. cbn [mbind comp_bind]. set (v4 := set_phys v3 _).
  assert (Hw4 : window v4 TEMP D) by (apply window_set; [done|]; intros x Hx; apply store_in_frame; [done|lia|done]).
  destruct (Hs v4 T 1022 Hw4 HT ltac:(lia)) as [-> E2]. cbn [mbind comp_bind]. rewrite E2. unfold v4, directory_words. cbn [phys set_phys].
  rewrite load32_store32_ne; [reflexivity|by apply aligned_space..|]. apply cells_apart; try done; lia || (right; lia).
Qed.

Record child_made (v v' : VM) (bm bm' : FrameBitmap) (D : Z) (l : list Z) : Prop := {
  cm_ok : fork_ok v' bm' D;
  cm_cr3 : cr3 v' = cr3 v;
  cm_dirs : forall j, 0 <= j < 1024 -> cell (phys v') (cr3 v) j = cell (phys v) (cr3 v) j;
  cm_refs : REF_COUNT (frames v') = REF_COUNT (frames v);
  cm_takes : takes l bm bm' /\ length l = 2%nat /\ occupied bm (D / 4096) = false;
  cm_empty : forall w, is_u32 w -> w < TEMP -> entry (phys v') D w = 0;
  cm_parent : same_entries (phys v) (phys v') (cr3 v);
  cm_data : forall f, data_frame v bm f -> kept v' bm' D f /\ forall i, 0 <= i < 1024 -> cell (phys v') f i = cell (phys v) f i
}.

Section make_child.
Context (v v2 v3 : VM) (bm bm1 bm2 : FrameBitmap) (D T : Z).
Context (Hvm : vm_ok v bm) (Htop : top_ok v) (C1 : cleared v v2 bm bm1 T) (C2 : cleared v2 v3 bm1 bm2 D).
Notation v4 := (directory_words v3 D T).
Notation self_entry := (PageTableEntry.set_present (PageTableEntry.set_address D 0)).
Notation top_entry := (PageTableEntry.set_present (PageTableEntry.set_address T 0)).

Lemma made_apart : Frame.aligned D /\ Frame.aligned T /\ D <> T /\ D <> cr3 v /\ T <> cr3 v /\ D <> top v /\ T <> top v /\
  forall h, occupied bm (h / 4096) = true -> 0 <= h / 4096 -> h <> D /\ h <> T.
Proof.
  destruct (cl_frame _ _ _ _ _ C1) as (T1 & T2 & T3). destruct (cl_frame _ _ _ _ _ C2) as (D1 & D2 & D3).
  rewrite (cl_cr3 _ _ _ _ _ C1) in D2. rewrite (cl_top _ _ _ _ _ C1) in D3.
  pose proof (cl_takes _ _ _ _ _ C1) as (_ & F1 & O1). pose proof (cl_takes _ _ _ _ _ C2) as (_ & F2 & O2).
  apply Forall_cons in F1 as [[R1 F1] _]. apply Forall_cons in F2 as [[R2 F2] _].
  assert (Hdt : D <> T) by (intros ->; rewrite O1, bool_decide_eq_true_2 in F2 by (lia || left); done).
  split_and!; try done. intros h Hh Hr. split; intros ->; [rewrite O1 in F2 by done; rewrite Hh, orb_true_r in F2; done|congruence].
Qed.

Lemma made_cell h j : Frame.aligned h -> 0 <= j < 1024 -> ~ (h = top v /\ j = 1023) ->
  cell (phys v4) h j = if decide (h = D) then if decide (j = 1023) then self_entry else if decide (j = 1022) then top_entry else 0
    else if decide (h = T) then 0 else cell (phys v) h j.
Proof.
  intros Hh Hj Hn. destruct made_apart as (D1 & T1 & Hdt & D2 & T2 & D3 & T3 & _).
  assert (H3 : forall h j, Frame.aligned h -> 0 <= j < 1024 -> ~ (h = top v /\ j = 1023) ->
    cell (phys v3) h j = if decide (h = D) then 0 else if decide (h = T) then 0 else cell (phys v) h j).
  { intros h' j' Hh' Hj' Hn'. rewrite (cl_cell _ _ _ _ _ C2) by (done || by rewrite (cl_top _ _ _ _ _ C1)). case_decide; [done|]. by apply (cl_cell _ _ _ _ _ C1). }
  assert (E1 : cell (phys v3) D 1023 = 0) by (rewrite H3 by (done || lia || (intros [? _]; done)); by rewrite decide_True).
  assert (E2 : cell (phys v3) D 1022 = 0) by (rewrite H3 by (done || lia || (intros [? _]; done)); by rewrite decide_True).
  unfold directory_words. cbn [phys set_phys]. rewrite E1, E2.
  assert (Hu : forall a, Frame.aligned a -> is_u32 (PageTableEntry.set_present (PageTableEntry.set_address a 0)))
    by (intros a Ha; apply lor_u32; [apply set_address_u32; [done|mach_unfold; lia]|mach_unfold; unfold ENTRY_PRESENT; lia]).
  rewrite !cell_store by (assumption || lia || by apply Hu). rewrite H3 by assumption.
  destruct (decide (h = D)) as [->|Hne].
  - destruct (decide (j = 1023)) as [->|]; [rewrite decide_False by lia; by rewrite decide_True|].
    destruct (decide (j = 1022)) as [->|]; [by rewrite decide_True|]. by rewrite !decide_False by (intros [_ ?]; done).
  - by rewrite !decide_False by (intros [? _]; done).
Qed.

Lemma made_parent_cell j : 0 <= j < 1024 -> cell (phys v4) (cr3 v) j = cell (phys v) (cr3 v) j.
Proof.
  intros Hj. destruct made_apart as (D1 & T1 & Hdt & D2 & T2 & D3 & T3 & _). pose proof (vo_self _ _ Hvm) as (Hca & _). destruct Htop as [Ht _].
  destruct (vo_tables _ _ Hvm 1022 ltac:(lia) Ht) as [Htc _].
  rewrite made_cell; [|done|done|intros [E _]; by apply Htc]. by rewrite !decide_False by congruence.
Qed.

Lemma made_child_cell j : 0 <= j < 1024 ->
  cell (phys v4) D j = if decide (j = 1023) then self_entry else if decide (j = 1022) then top_entry else 0.
Proof.
  intros Hj. destruct made_apart as (D1 & T1 & Hdt & D2 & T2 & D3 & T3 & _).
  rewrite made_cell; [|done|done|intros [E _]; done]. by rewrite (decide_True (P := D = D)).
Qed.

Lemma made_takes : takes ([T / 4096] ++ [D / 4096]) bm bm2.
Proof. eapply takes_app; [apply C1|apply C2]. Qed.

(** The only table of the child. *)
Lemma made_child_table d : 0 <= d < 1023 -> has_table (phys v4) D d -> d = 1022 /\ table_of (phys v4) D d = T.
Proof.
  intros Hd. destruct made_apart as (D1 & T1 & _). unfold has_table, table_of, dir_entry. rewrite made_child_cell, decide_False by lia.
  case_decide; [|by rewrite absent_zero]. intros _. split; [done|]. by apply present_entry_shape; [|mach_unfold; lia].
Qed.

Lemma made_fork_ok : fork_ok v4 bm2 D.
Proof.
  destruct made_apart as (D1 & T1 & Hdt & D2 & T2 & D3 & T3 & Hne). pose proof made_takes as (_ & _ & Ho). pose proof (vo_self _ _ Hvm) as (Hca & _).
  assert (Hc : cr3 v4 = cr3 v) by (rewrite <- (cl_cr3 _ _ _ _ _ C1), <- (cl_cr3 _ _ _ _ _ C2); reflexivity).
  destruct (cl_ok _ _ _ _ _ C2) as [Hvm3 _]. assert (Hmono : forall j, 0 <= j -> occupied bm j = true -> occupied bm2 j = true) by (intros j Hj Hx; rewrite Ho, Hx by done; apply orb_true_r).
  assert (Hvm4 : vm_ok v4 bm2) by (apply (vm_ok_same v v4 bm bm2); [done|done|exact made_parent_cell|apply Hvm3|apply Hvm3|done]).
  assert (Hpar : forall d, 0 <= d < 1023 -> has_table (phys v4) (cr3 v4) d -> table_of (phys v4) (cr3 v4) d <> D /\ table_of (phys v4) (cr3 v4) d <> T).
  { intros d Hd. unfold has_table, table_of, dir_entry. rewrite Hc, made_parent_cell by lia. intros Hh.
    apply Hne; [by apply (vo_tables _ _ Hvm d)|apply Z.div_pos; [apply (table_aligned (phys v) (cr3 v) d)|lia]]. }
  destruct D1 as [Dr Da]. destruct T1 as [Tr Ta]. split.
  - done.
  - by apply (top_ok_same v v4); [|done|exact made_parent_cell].
  - split; [done|]. replace (D + 4092) with (D + 4 * 1023) by lia. rewrite made_child_cell, decide_True by lia.
    destruct (present_entry_shape D 0) as [? ?]; [done|mach_unfold; lia|done].
  - rewrite Hc. split; [done|]. rewrite Ho by mlia. by rewrite bool_decide_eq_true_2 by (right; left).
  - intros d Hd Hh. by apply (Hpar d Hd Hh).
  - intros d Hd Hh. destruct (made_child_table d Hd Hh) as [-> ->]. rewrite Hc. split; [congruence|]. split; [done|].
    split; [rewrite Ho by mlia; by rewrite bool_decide_eq_true_2 by left|]. rewrite <- Hc. intros d' Hd' Hh'. by apply (Hpar d' Hd' Hh').
  - intros d d' Hd Hd' Hn H1 H2. destruct (made_child_table d Hd H1) as [-> _]. by destruct (made_child_table d' Hd' H2) as [-> _].
Qed.

Lemma made_child : child_made v v4 bm bm2 D ([T / 4096] ++ [D / 4096]).
Proof.
  destruct made_apart as (D1 & T1 & Hdt & D2 & T2 & D3 & T3 & Hne). pose proof made_takes as Htk. pose proof Htk as (_ & F & Ho).
  assert (Hc : cr3 v4 = cr3 v) by (rewrite <- (cl_cr3 _ _ _ _ _ C1), <- (cl_cr3 _ _ _ _ _ C2); reflexivity).
  assert (Hcell : forall h j, Frame.aligned h -> 0 <= j < 1024 -> occupied bm (h / 4096) = true -> ~ (h = top v /\ j = 1023) -> cell (phys v4) h j = cell (phys v) h j).
  { intros h j Hh Hj Hx Hn. destruct (Hne h Hx) as [N1 N2]; [destruct Hh; mlia|]. rewrite made_cell by assumption. by rewrite !decide_False. }
  split.
  - exact made_fork_ok.
  - exact Hc.
  - exact made_parent_cell.
  - rewrite <- (cl_refs _ _ _ _ _ C1), <- (cl_refs _ _ _ _ _ C2). reflexivity.
  - split; [done|]. split; [done|]. apply Forall_app in F as [_ F]. by apply Forall_cons in F as [[_ ?] _].
  - intros w Hw Hb. destruct (below_temp w Hw Hb) as (Hd & Hti & Hn). unfold entry.
    destruct (PageTableEntry.is_present (dir_entry (phys v4) D (dir_index w))) eqn:E; [|done]. destruct (made_child_table _ Hd E) as [E1 ->].
    rewrite made_cell; [|done|done|intros [? _]; done]. rewrite decide_False by congruence. by rewrite decide_True.
  - intros w Hw Hb. destruct (below_temp w Hw Hb) as (Hd & Hti & _). apply entry_cells; [apply made_parent_cell; lia|]. intros Hh.
    apply Hcell; [apply table_aligned|done|by apply (vo_tables _ _ Hvm (dir_index w))|by apply below_temp_cell].
  - intros f [[F1 F2] F3 F4]. destruct (Hne f F2) as [N1 N2]; [destruct F1; mlia|]. split; [split|].
    + split; [done|]. destruct F1. rewrite Ho, F2 by mlia. apply orb_true_r.
    + by rewrite Hc.
    + intros d Hd. unfold has_table, table_of, dir_entry. rewrite Hc, made_parent_cell by lia. by apply F4.
    + intros d Hd Hh. destruct (made_child_table d Hd Hh) as [_ ->]. congruence.
    + intros i Hi. apply Hcell; [done..|]. intros [E _]. destruct Htop as [Ht _]. by apply (F4 1022); [lia| |].
Qed.
End make_child.

Lemma fork_makes_child v bm : vm_ok v bm -> top_ok v -> free_frames 2 bm ->
  exists v' bm' D l, child_made v v' bm bm' D l /\
    forall fuel k p, fork_page_directory fuel v k p =
      (v'' ← for_each (fun region v => AlternatePageDirectory.map_region fuel v D region) (all_regions k p) v'; Ret (v'', D)).
Proof.
  intros Hvm Htop Hfree. destruct (clear_fresh v bm Hvm Htop) as (w1 & w2 & v2 & bm1 & T & A1 & A2 & A3 & C1).
  { destruct Hfree as (fs & ? & ? & ?). exists fs. split_and!; [done|lia|done]. }
  destruct (cl_ok _ _ _ _ _ C1) as [Hvm2 Htop2].
  destruct (clear_fresh v2 bm1 Hvm2 Htop2) as (w3 & w4 & v3 & bm2 & D & B1 & B2 & B3 & C2); [exact (free_frames_takes 2 _ _ _ Hfree (cl_takes _ _ _ _ _ C1))|].
  exists (directory_words v3 D T), bm2, D, ([T / 4096] ++ [D / 4096]). split; [by eapply made_child|]. intros fuel k p.
  pose proof (directory_written v3 D T (cl_window _ _ _ _ _ C2) (proj1 (cl_frame _ _ _ _ _ C2)) (proj1 (cl_frame _ _ _ _ _ C1))) as Hw.
  unfold fork_page_directory, Frame.get_address. change get_temporary_page_address with TEMP. rewrite A1. cbn [mbind comp_bind]. rewrite A2. cbn [mbind comp_bind].
  rewrite A3. cbn [mbind comp_bind]. rewrite B1. cbn [mbind comp_bind]. rewrite B2. cbn [mbind comp_bind]. rewrite B3. cbn [mbind comp_bind].
  destruct (PageTable.modify v3 TEMP 1023 _) as [x1| | |]; cbn [mbind comp_bind] in *; try discriminate.
  destruct (PageTable.modify x1 TEMP 1023 _) as [x2| | |]; cbn [mbind comp_bind] in *; try discriminate.
  destruct (PageTable.modify x2 TEMP 1022 _) as [x3| | |]; cbn [mbind comp_bind] in *; try discriminate.
  rewrite Hw. cbn [mbind comp_bind]. unfold all_regions. rewrite for_each_app. cbn [for_each].
  do 5 (destruct (AlternatePageDirectory.map_region fuel _ D _) as [?| | |]; cbn [mbind comp_bind]; try reflexivity).
Qed.

(** * The address space of the child *)

Lemma permission_at_job js w perm : permission_at js w = Some perm -> exists p, (p, perm) ∈ js /\ p / 4096 = w / 4096.
Proof.
  induction js as [|[q x] js IH]; cbn [permission_at]; [done|]. case_decide as E.
  - intros [= ->]. exists q. split; [left|done].
  - intros H. destruct (IH H) as (p & Hp & E'). exists p. split; [by right|done].
Qed.

Lemma jobs_pages fuel rs p perm : Forall (forkable fuel) rs -> (p, perm) ∈ jobs rs -> is_u32 p /\ p mod 4096 = 0 /\ p < TEMP.
Proof.
  intros Hf Hin. unfold jobs in Hin. apply list_elem_of_bind in Hin as (r & Hin & Hr). apply list_elem_of_fmap in Hin as (q & [= <- _] & Hq).
  apply list_elem_of_fmap in Hq as (i & -> & Hi%elem_of_seqZ). rewrite Forall_forall in Hf. destruct (Hf r Hr) as [_ Hrange Ha _]. unfold TEMP in *. mlia.
Qed.

(** What the copy relies on: pages that get a copy lie in frames of data, and the frames that
    become shared are counted. *)
Definition copy_source (u : VM) (bm : FrameBitmap) (r0 : FrameRefcount) (job : Z * Permissions) : Prop :=
  let e := entry (phys u) (cr3 u) job.1 in
  PageTableEntry.is_present e = true ->
  match job.2 with
  | ReadOnly => True
  | ReadWrite => data_frame u bm (PageTableEntry.get_address e)
  | CopyOnWrite => PageTableEntry.get_address e / 4096 < lenZ (references r0)
  end.

(** The two address spaces after a fork, for the pages [js] of the regions. *)
Record address_space_copied (u v : VM) (bm bm' : FrameBitmap) (D : Z) (r0 : FrameRefcount) (js : list (Z * Permissions)) : Prop := {
  sc_parent_ok : vm_ok v bm' /\ cr3 v = cr3 u;
  sc_child_ok : vm_ok (set_current_pagedir v D) bm';
  sc_fresh : occupied bm (D / 4096) = false;
  sc_child : forall w, is_u32 w -> w < TEMP -> child_page u bm D v bm' js w;
  sc_own : forall w w', copies u js w -> copies u js w' -> w / 4096 <> w' / 4096 ->
    PageTableEntry.get_address (entry (phys v) D w) <> PageTableEntry.get_address (entry (phys v) D w');
  sc_parent : forall w, is_u32 w -> w < TEMP -> entry (phys v) (cr3 u) w = parent_entry u js w;
  sc_data : forall f i, data_frame u bm f -> 0 <= i < 1024 -> cell (phys v) f i = cell (phys u) f i;
  sc_refs : exists r, REF_COUNT (frames v) = Some r /\ FrameRefcount.wf r /\ lenZ (references r) = lenZ (references r0) /\
    forall j, FrameRefcount.count r j = u8 (FrameRefcount.count r0 j + shared_references (phys u) (cr3 u) js j);
  sc_taken : exists l, takes l bm bm' /\ (length l <= 2 + 2 * length js)%nat
}.

Section result.
Context (u v4 v : VM) (bm bm4 bm' : FrameBitmap) (D : Z) (r0 : FrameRefcount) (js : list (Z * Permissions)) (l4 l : list Z).
Context (Hm : child_made u v4 bm bm4 D l4) (Hf : forked v4 bm4 D r0 v bm' js l).
Context (Hjs : forall p perm, (p, perm) ∈ js -> is_u32 p /\ p mod 4096 = 0 /\ p < TEMP) (Hsrc : Forall (copy_source u bm r0) js).

Lemma made_entry w : is_u32 w -> w < TEMP -> entry (phys v4) (cr3 v4) w = entry (phys u) (cr3 u) w.
Proof. intros Hw Hb. rewrite (cm_cr3 _ _ _ _ _ _ Hm). by apply Hm. Qed.

Lemma copied_child w : is_u32 w -> w < TEMP -> child_page u bm D v bm' js w.
Proof.
  intros Hw Hb. pose proof (fk_child _ _ _ _ _ _ _ _ Hf w Hw Hb) as Hc. unfold child_page in *. rewrite made_entry in Hc by done.
  destruct (permission_at js w) as [perm|] eqn:Ep; [|done]. destruct (PageTableEntry.is_present (entry (phys u) (cr3 u) w)) eqn:He; [|done].
  destruct Hc as (g & Hg & Hent). exists g. split; [|done]. destruct perm; cbn [child_frame] in *; [done| |done].
  destruct Hg as (G1 & G2 & G3). destruct (kp_used _ _ _ _ G2) as [Hga _]. destruct (cm_takes _ _ _ _ _ _ Hm) as ((_ & _ & Ho) & _).
  split; [rewrite Ho in G1 by (destruct Hga; mlia); by apply orb_false_iff in G1 as [_ ?]|]. split; [done|]. intros i Hi. rewrite G3 by done.
  destruct (permission_at_job _ _ _ Ep) as (p & Hin & E). destruct (Hjs p _ Hin) as (Hp & _ & Hpb). rewrite Forall_forall in Hsrc. pose proof (Hsrc _ Hin) as Hs.
  unfold copy_source in Hs. cbn [fst snd] in Hs. rewrite (entry_page _ _ p w) in Hs by done. by apply Hm; [apply Hs|].
Qed.

Lemma shares_made job j : job ∈ js -> shares (phys v4) (cr3 v4) job j = shares (phys u) (cr3 u) job j.
Proof. destruct job as [p perm]. intros Hin. destruct (Hjs p perm Hin) as (Hp & _ & Hb). unfold shares. cbn [fst snd]. by rewrite made_entry. Qed.

Lemma protects_made w job : is_u32 w -> w < TEMP -> job ∈ js -> protects (phys v4) (cr3 v4) w job = protects (phys u) (cr3 u) w job.
Proof.
  destruct job as [p perm]. intros Hw Hwb Hin. destruct (Hjs p perm Hin) as (Hp & _ & Hb). unfold protects. cbn [fst snd]. rewrite made_entry by done.
  destruct (below_temp w Hw Hwb) as (Hdi & _). destruct (below_temp p Hp Hb) as (Hdp & _). rewrite (cm_cr3 _ _ _ _ _ _ Hm).
  by rewrite (alias_cells (phys u)) by (apply (cm_dirs _ _ _ _ _ _ Hm); lia).
Qed.

Lemma made_protects w : is_u32 w -> w < TEMP -> existsb (protects (phys v4) (cr3 v4) w) js = existsb (protects (phys u) (cr3 u) w) js.
Proof.
  intros Hw Hb. apply eq_true_iff_eq. rewrite !existsb_exists. split; intros (job & Hin & Hj); exists job; (split; [done|]);
    apply list_elem_of_In in Hin; [by rewrite <- protects_made|by rewrite protects_made].
Qed.

Lemma copied_result : address_space_copied u v bm bm' D r0 js.
Proof.
  pose proof (fk_steps _ _ _ _ _ _ _ _ Hf) as Hs. pose proof (st_ok _ _ _ _ _ _ Hs) as Hok. destruct (cm_takes _ _ _ _ _ _ Hm) as (Htk & Hlen & Hfree).
  assert (Hc : cr3 v4 = cr3 u) by apply Hm. split.
  - split; [apply Hok|]. rewrite <- Hc. apply Hs.
  - destruct (fo_vm _ _ _ Hok) as [Ha Hb _ _ _]. split; cbn [phys cr3 frames set_current_pagedir]; [done|done|apply Hok|apply Hok|].
    intros d Hd Hh. destruct (fo_child _ _ _ Hok d Hd Hh) as (H1 & _ & H2 & _). by split.
  - done.
  - exact copied_child.
  - assert (Hcp : forall w, copies u js w -> copies v4 js w) by (intros w (W1 & W2 & W3 & W4); unfold copies; by rewrite made_entry).
    intros w w' H1 H2. apply (fk_own _ _ _ _ _ _ _ _ Hf); by apply Hcp.
  - intros w Hw Hb. rewrite <- Hc, (fk_parent _ _ _ _ _ _ _ _ Hf w Hw Hb). unfold parent_entry. by rewrite made_entry, made_protects.
  - intros f i Hd Hi. destruct (cm_data _ _ _ _ _ _ Hm f Hd) as [Hk Hi']. rewrite (st_keeps _ _ _ _ _ _ Hs) by done. by apply Hi'.
  - destruct (fk_refs _ _ _ _ _ _ _ _ Hf) as (r & R1 & R2 & R3 & R4). exists r. split_and!; try done. intros j. rewrite R4. do 2 f_equal.
    apply shared_references_ext. intros job Hin. by apply shares_made.
  - exists (l4 ++ l). split; [eapply takes_app; [done|apply Hs]|]. rewrite length_app, Hlen. pose proof (fk_taken _ _ _ _ _ _ _ _ Hf). lia.
Qed.
End result.

(** C4: A fork gives the child an address space of its own: every page of the heap of the
    kernel, of the stacks and of the program's regions that the parent has mapped is there,
    and no other page below the temporary page.  Pages of read-only regions and of
    copy-on-write regions show the parent's frame, the latter without write access on either
    side and with one more reference counted; a page of a writable region gets a frame of its
    own that was free, holds the same 1024 words and belongs to no other page.  The parent keeps
    its translations and its data, and both directories are fit to run. *)
Theorem fork_copies_address_space fuel u bm k p r0 :
  let js := jobs (all_regions k p) in
  vm_ok u bm -> top_ok u -> REF_COUNT (frames u) = Some r0 -> FrameRefcount.wf r0 ->
  Forall (forkable fuel) (all_regions k p) -> NoDup ((fun j => j.1 / 4096) <$> js) -> Forall (copy_source u bm r0) js ->
  (forall q, (q, ReadOnly) ∈ js -> existsb (protects (phys u) (cr3 u) q) js = false) -> free_frames (2 + 2 * length js) bm ->
  exists v bm' D, fork_page_directory fuel u k p = Ret (v, D) /\ address_space_copied u v bm bm' D r0 js.
Proof.
  intros js Hvm Htop Hr0 Hwf0 Hrs Hnd Hsrc Hro Hfree.
  destruct (fork_makes_child u bm Hvm Htop) as (v4 & bm4 & D & l4 & Hm & Heq).
  { destruct Hfree as (fs & ? & ? & ?). exists fs. split_and!; [done|lia|done]. }
  assert (Hjs : forall p perm, (p, perm) ∈ js -> is_u32 p /\ p mod 4096 = 0 /\ p < TEMP) by (intros q perm; by apply (jobs_pages fuel)).
  destruct (cm_takes _ _ _ _ _ _ Hm) as (Htk & Hlen & _).
  destruct (forked_all v4 bm4 D r0 js [] v4 bm4 []) as (v & bm' & l & Hrun & Hf).
  - apply forked_start; [apply Hm|apply Hm|by rewrite (cm_refs _ _ _ _ _ _ Hm)|done].
  - apply Forall_forall. intros [q perm] Hin. destruct (Hjs q perm Hin) as (Hq & Ha & Hb). rewrite Forall_forall in Hsrc. pose proof (Hsrc _ Hin) as Hs.
    unfold copy_source in Hs. cbn [fst snd] in Hs. rewrite <- (made_entry u v4 bm bm4 D l4 Hm) in Hs by done.
    split; cbn [fst snd]; [done|intros -> He; by apply (cm_data _ _ _ _ _ _ Hm), Hs|intros -> He; by apply Hs].
  - done.
  - intros q Hin. destruct (Hjs q ReadOnly Hin) as (Hq & _ & Hb). rewrite (made_protects u v4 bm bm4 D js l4 Hm Hjs) by done. by apply Hro.
  - pose proof (free_frames_takes _ _ _ _ Hfree Htk) as H. rewrite Hlen in H. by replace (2 + 2 * length js - 2)%nat with (2 * length js)%nat in H by lia.
  - exists v, bm', D. split; [|by eapply copied_result]. rewrite Heq, regions_pages by done. fold js. by rewrite Hrun.
Qed.

(** * Witness

    A directory in frame 1 with the last table but one in frame 2 and, for the first entry and
    for the kernel's, one table in frame 3.  The program and the kernel share frame 4, the
    kernel stack is in frame 5 and the heap of the kernel in frame 6. *)

Definition demo_fork_memory : mem :=
  store32 (store32 (store32 (store32 (store32 (store32 (store32 ∅ (0x1000 + 4 * 0) 0x3001) (0x1000 + 4 * 0x300) 0x3001) (0x1000 + 4 * 1022) 0x2001)
    (0x1000 + 4 * 1023) 0x1001) (0x3000 + 4 * 0) 0x4003) (0x3000 + 4 * 1) 0x6003) (0x2000 + 4 * 1022) 0x5003.
Definition demo_fork_bitmap : FrameBitmap := mkFrameBitmap 24 0x100000 [0x7f; 0; 0].
Definition demo_fork_refs : FrameRefcount := mkFrameRefcount (replicate 24 0).
Definition demo_fork_vm : VM := mkVM demo_fork_memory 0x1000 (mkPhysState (Some demo_fork_bitmap) (Some demo_fork_refs)) [].
Definition demo_fork_kernel : KernelMemory := mkKernelMemory (VirtualMemoryRegion.new 0xc0001000 0x1000 (Anonymous After) ReadOnly) [].
Definition demo_fork_process : ProcMemory := mkProcMemory (mkMemoryRegions
  (VirtualMemoryRegion.new 0xffbfd000 0x2000 (Anonymous NoExpansion) ReadWrite)
  (VirtualMemoryRegion.new 0xc0000000 0x1000 (Anonymous NoExpansion) CopyOnWrite) VirtualMemoryRegion.empty VirtualMemoryRegion.empty
  [VirtualMemoryRegion.new 0 0x1000 (Anonymous NoExpansion) CopyOnWrite]) 0.

Lemma demo_fork_dir d : 0 <= d < 1023 -> has_table demo_fork_memory 0x1000 d ->
  (d = 0 \/ d = 0x300 \/ d = 1022) /\ table_of demo_fork_memory 0x1000 d = (if d =? 1022 then 0x2000 else 0x3000).
Proof.
  intros Hd. assert (E : cell demo_fork_memory 0x1000 d = if decide (d = 0x300 \/ d = 0) then 0x3001 else if decide (d = 1022) then 0x2001 else 0).
  { unfold demo_fork_memory. rewrite !cell_store by (lia || by vm_compute). rewrite load32_empty. repeat case_decide; lia || done. }
  unfold has_table, table_of, dir_entry. rewrite E. case_decide as E1; [intros _; destruct E1 as [-> | ->]; split; by vm_compute || auto|].
  case_decide as E2; [subst; split; by vm_compute || auto|]. by rewrite absent_zero.
Qed.

Lemma demo_fork_ok : vm_ok demo_fork_vm demo_fork_bitmap /\ top_ok demo_fork_vm.
Proof.
  split; [split; [reflexivity| | |by vm_compute|]|split; [by vm_compute|]].
  - split; [cbn; lia|]. split; [by vm_compute|by apply bytes_ok_check].
  - split; [by vm_compute|by vm_compute].
  - intros d Hd Hh. destruct (demo_fork_dir d Hd Hh) as [[-> |[-> | ->]] _]; by vm_compute.
  - intros d Hd Hn Hh. destruct (demo_fork_dir d Hd Hh) as [[-> |[-> | ->]] _]; by vm_compute.
Qed.

Lemma demo_fork_jobs : jobs (all_regions demo_fork_kernel demo_fork_process) =
  [(0xc0001000, ReadOnly); (0xffbfd000, ReadWrite); (0xffbfe000, ReadWrite); (0xc0000000, CopyOnWrite); (0, CopyOnWrite)].
Proof. by vm_compute. Qed.

Lemma demo_fork_source : Forall (copy_source demo_fork_vm demo_fork_bitmap demo_fork_refs) (jobs (all_regions demo_fork_kernel demo_fork_process)).
Proof.
  rewrite demo_fork_jobs. repeat apply Forall_cons_2; [intros _; exact I| | | | |apply Forall_nil_2].
  - intros He. vm_compute in He. discriminate.
  - intros _. cbn [fst snd]. replace (PageTableEntry.get_address _) with 0x5000 by (by vm_compute). split; [by vm_compute|by vm_compute|].
    intros d Hd Hh. destruct (demo_fork_dir d Hd Hh) as [[-> |[-> | ->]] _]; by vm_compute.
  - intros _. by vm_compute.
  - intros _. by vm_compute.
Qed.

Lemma fork_copies_address_space_witness :
  exists v bm' D, fork_page_directory 2 demo_fork_vm demo_fork_kernel demo_fork_process = Ret (v, D) /\
    address_space_copied demo_fork_vm v demo_fork_bitmap bm' D demo_fork_refs (jobs (all_regions demo_fork_kernel demo_fork_process)).
Proof.
  apply (fork_copies_address_space 2 demo_fork_vm demo_fork_bitmap demo_fork_kernel demo_fork_process demo_fork_refs).
  - apply demo_fork_ok.
  - apply demo_fork_ok.
  - reflexivity.
  - by apply bytes_ok_check.
  - repeat constructor; try (by eexists); vm_compute; lia || done.
  - by apply (bool_decide_unpack _); vm_compute.
  - apply demo_fork_source.
  - rewrite demo_fork_jobs. intros q Hq. assert (q = 0xc0001000) as -> by set_solver. by vm_compute.
  - exists (seqZ 7 17). split; [apply NoDup_seqZ|]. split; [by vm_compute; lia|]. by apply (bool_decide_unpack _); vm_compute.
Defined.
