(* ===== verification/RingBuffer.v ===== *)
(** The single-producer, single-consumer ring buffer: [buffers.rs].

    [head] and [tail] are free-running 32-bit counters.  The sequential operations refine a
    bounded queue of bytes; the step relation of the last part interleaves one reader and one
    writer at every atomic access. *)

From S2P Require Import Prelude.

Record RingBuffer : Type := mkRingBuffer {
  head : Z;
  tail : Z;
  rb_data : list Z
}.

Definition new (data : list Z) : RingBuffer := mkRingBuffer 0 0 data.

(** The cell of a counter value: [counter % len]. *)
Definition cell (b : RingBuffer) (counter : Z) : comp Z :=
  if lenZ (rb_data b) =? 0 then Panic else Ret (counter mod lenZ (rb_data b)).

(** The buffer, the slice after the copy and the number of bytes copied. *)
Definition read (b : RingBuffer) (dest : list Z) : comp (RingBuffer * list Z * Z) :=
  let to_read := lenZ dest in
  let available_len := tail b -u head b in
  let to_read := if available_len <? to_read then available_len else to_read in
  dest ← for_each (fun i dest =>
            c ← cell b (head b +u i);
            x ← index (rb_data b) c;
            store dest i x) (seqZ 0 to_read) dest;
  Ret (mkRingBuffer (head b +u to_read) (tail b) (rb_data b), dest, to_read).

Definition write (b : RingBuffer) (src : list Z) : comp (RingBuffer * Z) :=
  let to_write := lenZ src in
  let len := lenZ (rb_data b) in
  let available_room := head b +u len -u tail b in
  let to_write := if available_room <? to_write then available_room else to_write in
  data ← for_each (fun i data =>
            c ← cell b (tail b +u i);
            x ← index src i;
            store data c x) (seqZ 0 to_write) (rb_data b);
  Ret (mkRingBuffer (head b) (tail b +u to_write) data, to_write).

Definition available_bytes (b : RingBuffer) : Z := tail b -u head b.
Definition drain (b : RingBuffer) : RingBuffer := mkRingBuffer (tail b) (tail b) (rb_data b).

(** * The queue a buffer holds *)

(** A length that divides 2^32, so that the cells do not jump when a counter wraps. *)
Definition good_length (len : Z) : Prop := 0 < len < 4294967296 /\ (len | 4294967296).

Definition holds (data : list Z) (h : Z) (q : list Z) : Prop :=
  forall i x, nthZ q i = Some x -> nthZ data (u32 (h + i) mod lenZ data) = Some x.

Record rep (b : RingBuffer) (q : list Z) : Prop := {
  rep_len : good_length (lenZ (rb_data b));
  rep_head : is_u32 (head b);
  rep_tail : tail b = u32 (head b + lenZ q);
  rep_fits : lenZ q <= lenZ (rb_data b);
  rep_holds : holds (rb_data b) (head b) q
}.

Lemma cell_mod len x : good_length len -> u32 x mod len = x mod len.
Proof.
  intros [H1 [k Hk]]. assert (x = u32 x + (x / 4294967296 * k) * len) as E
    by (unfold u32; rewrite <- Z.mul_assoc, <- Hk; pose proof (Z.div_mod x 4294967296 ltac:(lia)); lia).
  rewrite E at 2. by rewrite Z_mod_plus_full.
Qed.

(** Counters less than [len] apart use different cells. *)
Lemma cell_inj len h i j :
  good_length len -> 0 <= i < len -> 0 <= j < len ->
  u32 (h + i) mod len = u32 (h + j) mod len -> i = j.
Proof.
  intros Hl Hi Hj. rewrite !cell_mod by done. intros E.
  assert (((h + i) - (h + j)) mod len = 0) as H0.
  { rewrite Zminus_mod, E, Z.sub_diag. apply Z.mod_0_l. lia. }
  apply Z.mod_divide in H0 as [k Hk]; [|lia]. assert (k = 0) by nia. lia.
Qed.

Lemma nthZ_take {A} n (l : list A) i : nthZ (take n l) i = if i <? Z.of_nat n then nthZ l i else None.
Proof.
  unfold nthZ. destruct (Z.leb_spec 0 i), (Z.ltb_spec i (Z.of_nat n)); try done.
  - apply lookup_take_lt. lia.
  - apply lookup_take_ge. lia.
Qed.

(** * Reading *)

Lemma read_loop_spec b q dest n :
  rep b q -> (Z.of_nat n <= lenZ q) -> Z.of_nat n <= lenZ dest ->
  for_each (fun i dest => c ← cell b (head b +u i); x ← index (rb_data b) c; store dest i x)
    (seqZ 0 (Z.of_nat n)) dest = Ret (take n q ++ drop n dest).
Proof.
  intros [[Hl Hdiv] Hh Ht Hf Hr]. induction n as [|n IH]; intros Hq Hd; [done|].
  replace (Z.of_nat (S n)) with (Z.of_nat n + 1) by lia.
  rewrite seqZ_snoc, for_each_app, IH by lia. cbn [for_each mbind comp_bind].
  unfold cell. destruct (Z.eqb_spec (lenZ (rb_data b)) 0); [lia|]. cbn [mbind comp_bind]. rewrite Z.add_0_l.
  destruct (nthZ_is_Some q (Z.of_nat n)) as [x Hx]; [lia|].
  rewrite (index_Ret _ _ x) by (by apply Hr). cbn [mbind comp_bind].
  unfold lenZ in *. rewrite store_Ret by (unfold lenZ; rewrite length_app, length_take, length_drop; lia).
  do 2 f_equal. unfold nthZ, setZ in *. destruct (Z.leb_spec 0 (Z.of_nat n)); [|lia]. rewrite Nat2Z.id in *.
  rewrite (take_S_r _ _ x) by done. rewrite <- app_assoc.
  rewrite insert_app_r_alt by (rewrite length_take; lia). f_equal.
  rewrite length_take_le by lia. rewrite Nat.sub_diag.
  destruct (drop n dest) as [|y l] eqn:E.
  - apply (f_equal length) in E. rewrite length_drop in E. simpl in E. lia.
  - replace (S n) with (n + 1)%nat by lia. by rewrite <- drop_drop, E.
Qed.

Lemma available_spec b q : rep b q -> available_bytes b = lenZ q.
Proof.
  intros [[Hl _] Hh Ht Hf _]. pose proof (lenZ_nonneg q). unfold available_bytes. rewrite Ht. mlia.
Qed.

Lemma read_spec b q dest :
  rep b q ->
  let n := Z.min (lenZ dest) (lenZ q) in
  exists b', read b dest = Ret (b', take (Z.to_nat n) q ++ drop (Z.to_nat n) dest, n) /\
    rep b' (drop (Z.to_nat n) q) /\ rb_data b' = rb_data b.
Proof.
  intros Hrep n. pose proof Hrep as [Hl Hh Ht Hf Hr]. pose proof Hl as [Hl1 _].
  pose proof (lenZ_nonneg q). pose proof (lenZ_nonneg dest). unfold read.
  assert (u32 (tail b - head b) = lenZ q) as -> by (rewrite Ht; mlia).
  assert ((if lenZ q <? lenZ dest then lenZ q else lenZ dest) = n) as -> by (unfold n; destruct (Z.ltb_spec (lenZ q) (lenZ dest)); lia).
  replace (seqZ 0 n) with (seqZ 0 (Z.of_nat (Z.to_nat n))) by (f_equal; lia).
  rewrite (read_loop_spec b q dest (Z.to_nat n) Hrep) by lia. cbn [mbind comp_bind].
  eexists. split; [reflexivity|]. split; [|done].
  assert (Hld : lenZ (drop (Z.to_nat n) q) = lenZ q - n) by (unfold lenZ in *; rewrite length_drop; lia).
  split; cbn [head tail rb_data]; [done|auto with mach|rewrite Hld, Ht; mlia|lia|].
  intros i x Hi. pose proof (nthZ_Some _ _ _ Hi). rewrite nthZ_drop in Hi by lia.
  rewrite Z2Nat.id in Hi by lia. apply Hr in Hi. rewrite cell_mod in Hi |- * by done.
  assert ((u32 (head b + n) + i) mod lenZ (rb_data b) = (head b + (n + i)) mod lenZ (rb_data b)) as ->; [|done].
  rewrite <- (cell_mod _ (u32 (head b + n) + i)), <- (cell_mod _ (head b + (n + i))) by done. f_equal. mlia.
Qed.

(** * Writing *)

Lemma write_loop_spec b q src n :
  rep b q -> Z.of_nat n <= lenZ src -> lenZ q + Z.of_nat n <= lenZ (rb_data b) ->
  exists data, for_each (fun i data => c ← cell b (tail b +u i); x ← index src i; store data c x)
      (seqZ 0 (Z.of_nat n)) (rb_data b) = Ret data /\
    lenZ data = lenZ (rb_data b) /\ holds data (head b) (q ++ take n src).
Proof.
  intros [Hg Hh Ht Hf Hr]. pose proof Hg as [Hl _]. induction n as [|n IH]; intros Hs Hq.
  - exists (rb_data b). rewrite take_0, app_nil_r. done.
  - destruct IH as (data & IH1 & IH2 & IH3); [lia..|].
    replace (Z.of_nat (S n)) with (Z.of_nat n + 1) by lia.
    rewrite seqZ_snoc, for_each_app, IH1 by lia. cbn [for_each mbind comp_bind].
    unfold cell. destruct (Z.eqb_spec (lenZ (rb_data b)) 0); [lia|]. cbn [mbind comp_bind]. rewrite Z.add_0_l.
    destruct (nthZ_is_Some src (Z.of_nat n)) as [x Hx]; [lia|]. rewrite (index_Ret _ _ x) by done.
    cbn [mbind comp_bind]. set (c := u32 (tail b + Z.of_nat n) mod lenZ (rb_data b)).
    assert (Hc : 0 <= c < lenZ data) by (rewrite IH2; apply Z.mod_pos_bound; lia).
    assert (Ec : c = u32 (head b + (lenZ q + Z.of_nat n)) mod lenZ (rb_data b))
      by (unfold c; rewrite Ht; f_equal; mlia).
    rewrite store_Ret by done. cbn [mbind comp_bind]. eexists. split; [done|].
    split; [by rewrite lenZ_setZ|]. intros i y Hi. rewrite lenZ_setZ, IH2.
    assert (Htk : take (S n) src = take n src ++ [x]).
    { unfold nthZ in Hx. destruct (0 <=? Z.of_nat n); [|done]. rewrite Nat2Z.id in Hx. by apply take_S_r. }
    rewrite Htk, app_assoc in Hi. pose proof (nthZ_Some _ _ _ Hi) as Hrange.
    assert (Hlen : lenZ (q ++ take n src) = lenZ q + Z.of_nat n) by (unfold lenZ in *; rewrite length_app, length_take; lia).
    rewrite lenZ_app, Hlen in Hrange. change (lenZ [x]) with 1 in Hrange.
    rewrite nthZ_setZ_in by done. destruct (Z.eqb_spec c (u32 (head b + i) mod lenZ (rb_data b))) as [E|E].
    + rewrite Ec in E. apply cell_inj in E; [|done|lia|lia]. subst i.
      rewrite nthZ_app_r, Hlen, Z.sub_diag in Hi by lia. done.
    + assert (i <> lenZ q + Z.of_nat n) by (intros ->; congruence).
      rewrite nthZ_app_l in Hi by lia. apply IH3 in Hi. by rewrite IH2 in Hi.
Qed.

Lemma write_spec b q src :
  rep b q ->
  let n := Z.min (lenZ src) (lenZ (rb_data b) - lenZ q) in
  exists b', write b src = Ret (b', n) /\ rep b' (q ++ take (Z.to_nat n) src) /\
    lenZ (rb_data b') = lenZ (rb_data b).
Proof.
  intros Hrep n. pose proof Hrep as [Hg Hh Ht Hf Hr]. pose proof Hg as [Hl _].
  pose proof (lenZ_nonneg q). pose proof (lenZ_nonneg src). unfold write.
  assert (u32 (u32 (head b + lenZ (rb_data b)) - tail b) = lenZ (rb_data b) - lenZ q) as -> by (rewrite Ht; mlia).
  assert ((if lenZ (rb_data b) - lenZ q <? lenZ src then lenZ (rb_data b) - lenZ q else lenZ src) = n) as ->
    by (unfold n; destruct (Z.ltb_spec (lenZ (rb_data b) - lenZ q) (lenZ src)); lia).
  replace (seqZ 0 n) with (seqZ 0 (Z.of_nat (Z.to_nat n))) by (f_equal; lia).
  destruct (write_loop_spec b q src (Z.to_nat n) Hrep ltac:(lia) ltac:(lia)) as (data & -> & Hld & Hho).
  cbn [mbind comp_bind]. eexists. split; [reflexivity|]. split; [|done].
  assert (Hlq : lenZ (q ++ take (Z.to_nat n) src) = lenZ q + n)
    by (unfold lenZ in *; rewrite length_app, length_take; lia).
  split; cbn [head tail rb_data]; [by rewrite Hld|done|rewrite Hlq, Ht; mlia|lia|done].
Qed.

(** C21: The buffer is a bounded byte queue.  A write appends as many bytes as there is room
    for and reports how many; a read removes the oldest bytes, as many as there are or as the
    slice holds, in order, into the front of the slice, and reports how many.  The counters
    may wrap around. *)
Theorem ring_buffer_is_fifo b q :
  rep b q ->
  (forall src, let n := Z.min (lenZ src) (lenZ (rb_data b) - lenZ q) in
     exists b', write b src = Ret (b', n) /\ rep b' (q ++ take (Z.to_nat n) src)) /\
  (forall dest, let n := Z.min (lenZ dest) (lenZ q) in
     exists b', read b dest = Ret (b', take (Z.to_nat n) q ++ drop (Z.to_nat n) dest, n) /\
       rep b' (drop (Z.to_nat n) q)) /\
  available_bytes b = lenZ q /\ rep (drain b) [].
Proof.
  intros Hrep. split; [|split; [|split]].
  - intros src. destruct (write_spec b q src Hrep) as (b' & H1 & H2 & _). by exists b'.
  - intros dest. destruct (read_spec b q dest Hrep) as (b' & H1 & H2 & _). by exists b'.
  - by apply available_spec.
  - destruct Hrep as [Hg Hh Ht Hf _]. split; cbn; [done|rewrite Ht; auto with mach|rewrite Ht; change (lenZ (@nil Z)) with 0; mlia| |].
    + change (lenZ []) with 0. destruct Hg. lia.
    + intros i x Hi. apply nthZ_Some in Hi. change (lenZ []) with 0 in Hi. lia.
Qed.

(** * One reader and one writer

    Between two atomic accesses of one side the other may take any number of steps.
    [published] and [delivered] are the bytes of the completed writes and reads. *)

Inductive reader_state : Type :=
| RIdle
| RTail (want t : Z)                           (* the tail is loaded *)
| RCopy (n h i : Z) (out : list Z).            (* the head is loaded, [i] bytes are copied *)

Inductive writer_state : Type :=
| WIdle
| WTail (src : list Z) (t : Z)
| WCopy (src : list Z) (n t i : Z).

Record config : Type := mkConfig {
  buf : RingBuffer;
  reader : reader_state;
  writer : writer_state;
  published : list Z;
  delivered : list Z
}.

Inductive step : config -> config -> Prop :=
| read_tail b w p d want :
    0 <= want ->
    step (mkConfig b RIdle w p d) (mkConfig b (RTail want (tail b)) w p d)
| read_head b w p d want t :
    let n := if t -u head b <? want then t -u head b else want in
    step (mkConfig b (RTail want t) w p d) (mkConfig b (RCopy n (head b) 0 []) w p d)
| read_byte b w p d n h i out c x :
    i < n -> cell b (h +u i) = Ret c -> nthZ (rb_data b) c = Some x ->
    step (mkConfig b (RCopy n h i out) w p d) (mkConfig b (RCopy n h (i + 1) (out ++ [x])) w p d)
| read_done b w p d n h i out :
    n <= i ->
    step (mkConfig b (RCopy n h i out) w p d)
         (mkConfig (mkRingBuffer (head b +u n) (tail b) (rb_data b)) RIdle w p (d ++ out))
| write_tail b r p d src :
    step (mkConfig b r WIdle p d) (mkConfig b r (WTail src (tail b)) p d)
| write_head b r p d src t :
    let room := head b +u lenZ (rb_data b) -u t in
    let n := if room <? lenZ src then room else lenZ src in
    step (mkConfig b r (WTail src t) p d) (mkConfig b r (WCopy src n t 0) p d)
| write_byte b r p d src n t i c x :
    i < n -> cell b (t +u i) = Ret c -> nthZ src i = Some x ->
    step (mkConfig b r (WCopy src n t i) p d)
         (mkConfig (mkRingBuffer (head b) (tail b) (setZ (rb_data b) c x)) r (WCopy src n t (i + 1)) p d)
| write_done b r p d src n t i :
    n <= i ->
    step (mkConfig b r (WCopy src n t i) p d)
         (mkConfig (mkRingBuffer (head b) (tail b +u n) (rb_data b)) r WIdle (p ++ take (Z.to_nat n) src) d).

Definition reader_ok (b : RingBuffer) (q p d : list Z) (r : reader_state) : Prop :=
  match r with
  | RIdle => True
  | RTail want t => 0 <= want /\ exists T, t = u32 T /\ lenZ d <= T <= lenZ p
  | RCopy n h i out => h = head b /\ 0 <= i <= n /\ n <= lenZ q /\ out = take (Z.to_nat i) q
  end.

(** The bytes a writer has copied but not yet published. *)
Definition pending (w : writer_state) : list Z :=
  match w with WCopy src _ _ i => take (Z.to_nat i) src | _ => [] end.

Definition writer_ok (b : RingBuffer) (q : list Z) (w : writer_state) : Prop :=
  match w with
  | WIdle => True
  | WTail src t => t = tail b
  | WCopy src n t i =>
      t = tail b /\ 0 <= i <= n /\ n <= lenZ src /\ lenZ q + n <= lenZ (rb_data b)
  end.

Record config_ok (c : config) (q : list Z) : Prop := {
  co_len : good_length (lenZ (rb_data (buf c)));
  co_queue : published c = delivered c ++ q;
  co_head : head (buf c) = u32 (lenZ (delivered c));
  co_tail : tail (buf c) = u32 (lenZ (published c));
  co_fits : lenZ q <= lenZ (rb_data (buf c));
  co_holds : holds (rb_data (buf c)) (head (buf c)) (q ++ pending (writer c));
  co_reader : reader_ok (buf c) q (published c) (delivered c) (reader c);
  co_writer : writer_ok (buf c) q (writer c)
}.

Lemma holds_drop data h q p n :
  good_length (lenZ data) -> 0 <= n <= lenZ q ->
  holds data h (q ++ p) -> holds data (u32 (h + n)) (drop (Z.to_nat n) q ++ p).
Proof.
  intros Hg Hn Hh i x Hi. pose proof (nthZ_Some _ _ _ Hi) as Hr.
  assert (E : drop (Z.to_nat n) q ++ p = drop (Z.to_nat n) (q ++ p))
    by (rewrite drop_app_le by (unfold lenZ in *; lia); done).
  rewrite E in Hi. rewrite nthZ_drop, Z2Nat.id in Hi by lia. apply Hh in Hi.
  rewrite cell_mod in Hi |- * by done.
  assert ((u32 (h + n) + i) mod lenZ data = (h + (n + i)) mod lenZ data) as ->; [|done].
  rewrite <- (cell_mod _ (u32 (h + n) + i)), <- (cell_mod _ (h + (n + i))) by done. f_equal. mlia.
Qed.

Lemma take_snoc (l : list Z) i x :
  0 <= i -> nthZ l i = Some x -> take (Z.to_nat (i + 1)) l = take (Z.to_nat i) l ++ [x].
Proof.
  intros Hi Hx. unfold nthZ in Hx. destruct (0 <=? i); [|done].
  rewrite Z2Nat.inj_add, Nat.add_1_r by lia. by apply take_S_r.
Qed.

(** The writer's next byte goes to a cell nobody reads. *)
Lemma holds_write data h l c x :
  good_length (lenZ data) -> lenZ l < lenZ data -> c = u32 (h + lenZ l) mod lenZ data ->
  holds data h l -> holds (setZ data c x) h (l ++ [x]).
Proof.
  intros Hg Hl -> Hh i y Hi. rewrite lenZ_setZ. pose proof (nthZ_Some _ _ _ Hi) as Hr.
  rewrite lenZ_app in Hr. change (lenZ [x]) with 1 in Hr. pose proof Hg as [Hg1 _].
  rewrite nthZ_setZ_in by (apply Z.mod_pos_bound; lia).
  destruct (Z.eqb_spec (u32 (h + lenZ l) mod lenZ data) (u32 (h + i) mod lenZ data)) as [E|E].
  - pose proof (lenZ_nonneg l). apply cell_inj in E; [|done|lia|lia]. subst i.
    rewrite nthZ_app_r, Z.sub_diag in Hi by lia. done.
  - assert (i <> lenZ l) by (intros ->; congruence). rewrite nthZ_app_l in Hi by lia. by apply Hh.
Qed.

Lemma cell_Ret b k c : cell b k = Ret c -> c = k mod lenZ (rb_data b).
Proof. unfold cell. destruct (_ =? 0); [done|]. by intros [= <-]. Qed.

Lemma step_reader_ok c c' q :
  step c c' -> writer c' = writer c -> published c' = published c -> config_ok c q ->
  exists q', config_ok c' q'.
Proof.
  intros Hstep Hw Hp [Hg Hq Hh Ht Hf Hho Hr Hwo]. pose proof Hg as [Hg1 _].
  destruct Hstep; cbn in *; try congruence.
  - exists q. split; cbn; try done. split; [done|]. exists (lenZ p). split; [done|].
    rewrite Hq, lenZ_app. pose proof (lenZ_nonneg q). lia.
  - destruct Hr as (Hwant & T & -> & HT). exists q. split; cbn; try done.
    rewrite Hq, lenZ_app in HT. assert (u32 (u32 T - head b) = T - lenZ d) as E by (rewrite Hh; mlia).
    unfold n. rewrite E. split; [done|]. destruct (Z.ltb_spec (T - lenZ d) want); split_and!; try done; lia.
  - destruct Hr as (-> & Hi & Hn & ->). exists q. split; cbn; try done.
    split; [done|]. split; [lia|]. split; [done|].
    destruct (nthZ_is_Some q i) as [y Hy]; [lia|].
    assert (Hc : nthZ (rb_data b) (u32 (head b + i) mod lenZ (rb_data b)) = Some y)
      by (apply Hho; rewrite nthZ_app_l by lia; done).
    match goal with H : cell _ _ = Ret _ |- _ => apply cell_Ret in H; subst c end.
    assert (x = y) as -> by congruence. symmetry. apply take_snoc; [lia|done].
  - destruct Hr as (-> & Hi & Hn & ->). assert (i = n) as -> by lia. exists (drop (Z.to_nat n) q).
    assert (Hld : lenZ (d ++ take (Z.to_nat n) q) = lenZ d + n) by (rewrite lenZ_app, lenZ_take; lia).
    split; cbn; try done.
    + by rewrite <- app_assoc, take_drop.
    + rewrite Hld, Hh. mlia.
    + rewrite lenZ_drop; lia.
    + apply holds_drop; [done|lia|done].
    + destruct w; cbn in *; try done. rewrite lenZ_drop by lia. split_and!; try tauto; lia.
  - injection Hw; intros; lia.
Qed.

Lemma step_writer_ok c c' q :
  step c c' -> reader c' = reader c -> delivered c' = delivered c -> config_ok c q ->
  exists q', config_ok c' q'.
Proof.
  intros Hstep Hw Hp [Hg Hq Hh Ht Hf Hho Hr Hwo]. pose proof Hg as [Hg1 _].
  destruct Hstep; cbn in *; try congruence.
  - injection Hw; intros; lia.
  - exists q. by split.
  - exists q. split; cbn; try done. subst t. rewrite Hq, lenZ_app in Ht. pose proof (lenZ_nonneg q).
    assert (room = lenZ (rb_data b) - lenZ q) as E by (unfold room; rewrite Ht, Hh; mlia).
    split; [done|]. unfold n. rewrite E. pose proof (lenZ_nonneg src).
    destruct (Z.ltb_spec (lenZ (rb_data b) - lenZ q) (lenZ src)); lia.
  - destruct Hwo as (-> & Hi & Hn & Hroom). exists q.
    match goal with H : cell _ _ = Ret _ |- _ => apply cell_Ret in H; subst c end.
    assert (Hld : lenZ (q ++ take (Z.to_nat i) src) = lenZ q + i) by (rewrite lenZ_app, lenZ_take; lia).
    split; cbn; rewrite ?lenZ_setZ; try done.
    + rewrite (take_snoc src i x) by (done || lia). rewrite app_assoc. apply holds_write; try done; [lia|].
      rewrite Hld, Ht, Hq, Hh, lenZ_app. f_equal. mlia.
    + split_and!; try done; lia.
  - destruct Hwo as (-> & Hi & Hn & Hroom). assert (i = n) as -> by lia.
    exists (q ++ take (Z.to_nat n) src).
    assert (Hld : lenZ (q ++ take (Z.to_nat n) src) = lenZ q + n) by (rewrite lenZ_app, lenZ_take; lia).
    split; cbn; try done.
    + by rewrite Hq, app_assoc.
    + rewrite lenZ_app, lenZ_take by lia. rewrite Ht. mlia.
    + lia.
    + by rewrite app_nil_r.
    + destruct r; cbn in *; try done.
      * destruct Hr as (H1 & T & -> & HT). split; [done|]. exists T. split; [done|].
        rewrite lenZ_app. pose proof (lenZ_nonneg (take (Z.to_nat n) src)). lia.
      * destruct Hr as (-> & H1 & H2 & ->). split; [done|]. split; [done|]. split; [lia|].
        rewrite take_app_le; [done|]. unfold lenZ in *. lia.
Qed.

Lemma step_ok c c' q : step c c' -> config_ok c q -> exists q', config_ok c' q'.
Proof.
  intros Hstep Hok. destruct Hstep;
    first [ eapply step_reader_ok; [econstructor; eassumption|reflexivity|reflexivity|exact Hok]
          | eapply step_writer_ok; [econstructor; eassumption|reflexivity|reflexivity|exact Hok] ].
Qed.

(** C18: With one reader and one writer interleaved at every access to the counters and to
    the data, the bytes delivered are always a prefix of the bytes published, in order and
    without loss or duplication, and the rest fits in the buffer. *)
Theorem concurrent_bytes_in_order data c :
  good_length (lenZ data) ->
  rtc step (mkConfig (new data) RIdle WIdle [] []) c ->
  exists q, published c = delivered c ++ q /\ lenZ q <= lenZ data.
Proof.
  intros Hg Hsteps.
  assert (Hinv : exists q, config_ok c q /\ lenZ (rb_data (buf c)) = lenZ data).
  { remember (mkConfig (new data) RIdle WIdle [] []) as c0 eqn:E0.
    assert (H0 : exists q, config_ok c0 q /\ lenZ (rb_data (buf c0)) = lenZ data).
    { subst c0. exists []. split; [|done]. split; cbn; try done; [apply lenZ_nonneg|].
      intros i x Hi. apply nthZ_Some in Hi. change (lenZ []) with 0 in Hi. lia. }
    clear E0. induction Hsteps as [|c1 c2 c3 H12 _ IH]; [done|]. apply IH.
    destruct H0 as (q & Hok & Hl). destruct (step_ok c1 c2 q H12 Hok) as [q' Hok']. exists q'. split; [done|].
    rewrite <- Hl. destruct H12; cbn; rewrite ?lenZ_setZ; done. }
  destruct Hinv as (q & [_ Hq _ _ Hf _ _ _] & Hl). exists q. split; [done|]. by rewrite <- Hl.
Qed.

(** * Witnesses *)

Definition demo_ring : RingBuffer := mkRingBuffer 4294967295 1 [20; 0; 0; 10].

Lemma demo_ring_rep : rep demo_ring [10; 20].
Proof.
  split; [|by vm_compute|by vm_compute|by vm_compute|].
  - split; [by vm_compute|]. exists 1073741824. by vm_compute.
  - intros i x Hi. pose proof (nthZ_Some _ _ _ Hi) as Hr. change (lenZ [10; 20]) with 2 in Hr.
    assert (i = 0 \/ i = 1) as [-> | ->] by lia; by vm_compute in Hi |- *.
Qed.

Lemma ring_buffer_is_fifo_witness :
  (forall src, let n := Z.min (lenZ src) (lenZ (rb_data demo_ring) - lenZ [10; 20]) in
     exists b', write demo_ring src = Ret (b', n) /\ rep b' ([10; 20] ++ take (Z.to_nat n) src)) /\
  (forall dest, let n := Z.min (lenZ dest) (lenZ [10; 20]) in
     exists b', read demo_ring dest = Ret (b', take (Z.to_nat n) [10; 20] ++ drop (Z.to_nat n) dest, n) /\
       rep b' (drop (Z.to_nat n) [10; 20])) /\
  available_bytes demo_ring = lenZ [10; 20] /\ rep (drain demo_ring) [].
Proof. apply (ring_buffer_is_fifo demo_ring [10; 20] demo_ring_rep). Defined.

(** The reader copies the first byte while the writer, which has published it, writes and
    publishes a second one. *)
Definition demo_config : config := mkConfig (mkRingBuffer 1 2 [5; 7]) RIdle WIdle [5; 7] [5].

Lemma concurrent_bytes_in_order_witness :
  rtc step (mkConfig (new [0; 0]) RIdle WIdle [] []) demo_config /\
  exists q, published demo_config = delivered demo_config ++ q /\ lenZ q <= lenZ [0; 0].
Proof.
  assert (Hrun : rtc step (mkConfig (new [0; 0]) RIdle WIdle [] []) demo_config).
  { eapply rtc_l; [apply write_tail with (src := [5])|]. eapply rtc_l; [apply write_head|].
    eapply rtc_l; [by eapply write_byte with (c := 0) (x := 5)|]. eapply rtc_l; [by apply write_done|].
    eapply rtc_l; [apply read_tail with (want := 4); lia|]. eapply rtc_l; [apply write_tail with (src := [7])|].
    eapply rtc_l; [apply read_head|]. eapply rtc_l; [apply write_head|].
    eapply rtc_l; [by eapply read_byte with (c := 0) (x := 5)|].
    eapply rtc_l; [by eapply write_byte with (c := 1) (x := 7)|].
    eapply rtc_l; [by apply write_done|]. eapply rtc_l; [by apply read_done|]. apply rtc_refl. }
  split; [exact Hrun|]. apply (concurrent_bytes_in_order [0; 0] demo_config); [|exact Hrun].
  split; [by vm_compute|]. exists 2147483648. by vm_compute.
Defined.
