(* ===== verification/Ports.v ===== *)
(** Port input and output: [x86/io.rs], and the chips that are only programmed through
    ports: [hardware/pic.rs] and [hardware/pit.rs].

    The machine behind the ports is a type with the two byte accesses of [Ports]; code that
    uses ports passes its state on.  [Trace] is the machine that records every access and
    answers reads from a list, with which the sequence of accesses of a routine is stated. *)

From S2P Require Import Prelude.

Class Ports (H : Type) := {
  inb : H -> Z -> H * Z;
  outb : H -> Z -> Z -> H
}.

Module Port.
Definition write_u8 {H} `{Ports H} (hw : H) (number value : Z) : H := outb hw number value.
Definition read_u8 {H} `{Ports H} (hw : H) (number : Z) : H * Z := inb hw number.
End Port.

(** A sequence of writes. *)
Definition write_all {H} `{Ports H} (hw : H) (l : list (Z * Z)) : H :=
  foldl (fun hw '(p, x) => Port.write_u8 hw p x) hw l.

(** * Traces *)

Inductive access : Type := Out (port value : Z) | In (port value : Z).

(** The accesses so far, the latest first, and the answers still to come; when they are used
    up reads give 0xff, as from a port without a device. *)
Record Trace : Type := mkTrace { accesses : list access; answers : list Z }.

#[global] Instance trace_ports : Ports Trace := {
  inb t port :=
    match answers t with
    | [] => (mkTrace (In port 0xff :: accesses t) [], 0xff)
    | x :: rest => (mkTrace (In port x :: accesses t) rest, x)
    end;
  outb t port value := mkTrace (Out port value :: accesses t) (answers t)
}.

(** * The interrupt controllers *)

Module PIC.
Section pic.
Context {H : Type} `{Ports H}.
Definition primary_command : Z := 0x20.
Definition primary_data : Z := 0x21.
Definition secondary_command : Z := 0xa0.
Definition secondary_data : Z := 0xa1.

Definition init (hw : H) : H :=
  write_all hw
    [(primary_command, 0x10 |u 0x01); (secondary_command, 0x10 |u 0x01);
     (primary_data, 0x30); (secondary_data, 0x38);
     (primary_data, 0x04); (secondary_data, 0x02);
     (primary_data, 0x01); (secondary_data, 0x01)].

Definition acknowledge_interrupt (hw : H) (irq : Z) : H :=
  let hw := if irq >=? 8 then Port.write_u8 hw secondary_command 0x20 else hw in
  Port.write_u8 hw primary_command 0x20.
End pic.
End PIC.

(** * The timer *)

Module PIT.
Section pit.
Context {H : Type} `{Ports H}.
Definition channel_0_data : Z := 0x40.
Definition command : Z := 0x43.
Definition set_divider (hw : H) (div : Z) : H :=
  write_all hw [(command, 0x36); (channel_0_data, div &u 0xff); (channel_0_data, div >>u 8)].
End pit.
End PIT.
