(* ===== verification/Time.v ===== *)
(** Time: [time/timestamp.rs], [time/date.rs], [time/system.rs] and the clock chip
    [hardware/rtc.rs].

    Timestamps count seconds from 1 January 1980; the conversion to dates is compared with a
    calendar that adds up the lengths of years and months. *)

From S2P Require Import Prelude Ports.

(** * Timestamps *)

Module TimestampHires.
Definition set (t value : Z) : Z := value.
Definition increment (t value : Z) : Z := u64 (t + value).
Definition in_ms (t : Z) : Z := t / 10000.
Definition in_seconds (t : Z) : Z := t / 10000000.
Definition to_timestamp (t : Z) : Z := u32 (in_seconds t).
Definition from_timestamp (ts : Z) : Z := u64 (ts * 10000000).
Definition add (t other : Z) : Z := u64 (t + other).
End TimestampHires.

(** * Dates *)

Record Date : Type := mkDate { day : Z; month : Z; year : Z }.
Record Time : Type := mkTime { hours : Z; minutes : Z; seconds : Z }.
Record DateTime : Type := mkDateTime { date : Date; time : Time }.

Definition SECONDS_IN_DAY : Z := 60 * 60 * 24.
Definition MONTH_START_OFFSET : list Z := [0; 31; 59; 90; 120; 151; 181; 212; 243; 273; 304; 334].

Definition year_offset_from_days (days : Z) : Z :=
  let hundredths := days *u 100 in
  hundredths / 36525.

(** The loop that finds the month, with its variables. *)
Fixpoint month_loop (fuel : nat) (year_offset year_days month leap : Z) : comp (Z * Z) :=
  match fuel with
  | O => OutOfFuel
  | S fuel' =>
      if month <? 12 then
        start ← index MONTH_START_OFFSET month;
        if start +u leap <=? year_days then
          let month := month + 1 in
          let leap := if (month =? 2) && (year_offset mod 4 =? 0) then 1 else leap in
          month_loop fuel' year_offset year_days month leap
        else Ret (month, leap)
      else Ret (month, leap)
  end.

Module Timestamp.

Definition to_days_with_remainder (t : Z) : Z * Z := (t / SECONDS_IN_DAY, t mod SECONDS_IN_DAY).

Definition to_date (days : Z) : comp Date :=
  let year_offset := year_offset_from_days days in
  let quadrennial_days := days mod (365 + 365 + 365 + 366) in
  let year_days := if quadrennial_days >? 365 then (quadrennial_days -u 366) mod 365 else quadrennial_days in
  '(month, leap) ← month_loop 13 year_offset year_days 0 0;
  start ← index MONTH_START_OFFSET (month -u 1);
  let day := (year_days +u 1) -u start in
  let day := if month >? 2 then day -u leap else day in
  Ret (mkDate (u8 day) (u8 month) (u8 year_offset)).

Definition to_datetime (t : Z) : comp DateTime :=
  let '(days, raw_time) := to_days_with_remainder t in
  d ← to_date days;
  let total_minutes := raw_time / 60 in
  let seconds := raw_time mod 60 in
  let hours := total_minutes / 60 in
  let minutes := total_minutes mod 60 in
  Ret (mkDateTime d (mkTime (u8 hours) (u8 minutes) (u8 seconds))).

Definition from_datetime (dt : DateTime) : comp Z :=
  let quadrennials := year (date dt) / 4 in
  let year_remainder := year (date dt) mod 4 in
  let days := (quadrennials *u (366 + 365 + 365 + 365)) +u (year_remainder *u 365) in
  let days := if year_remainder >? 0 then days +u 1 else days in
  start ← index MONTH_START_OFFSET (month (date dt) -u 1);
  let days := days +u start in
  let days := days +u day (date dt) in
  Ret (((days *u SECONDS_IN_DAY) +u (hours (time dt) *u 60 *u 60)) +u (minutes (time dt) *u 60) +u seconds (time dt)).

End Timestamp.

(** * The calendar *)

(** Every fourth year from 1980 has 366 days. *)
Definition is_leap (y : Z) : bool := y mod 4 =? 0.
Definition year_length (y : Z) : Z := if is_leap y then 366 else 365.
Definition month_length (y m : Z) : Z :=
  if m =? 2 then (if is_leap y then 29 else 28)
  else if (m =? 4) || (m =? 6) || (m =? 9) || (m =? 11) then 30 else 31.

Definition sum_below (f : Z -> Z) (lo n : Z) : Z := foldl (fun acc i => acc + f i) 0 (seqZ lo n).
Definition day_number (d : Date) : Z :=
  sum_below year_length 0 (year d) + sum_below (month_length (year d)) 1 (month d - 1) + (day d - 1).
Definition valid_date (d : Date) : Prop :=
  0 <= year d /\ 1 <= month d <= 12 /\ 1 <= day d <= month_length (year d) (month d).
Definition valid_time (t : Time) : Prop :=
  0 <= hours t < 24 /\ 0 <= minutes t < 60 /\ 0 <= seconds t < 60.
Definition second_number (dt : DateTime) : Z :=
  86400 * day_number (date dt) + 3600 * hours (time dt) + 60 * minutes (time dt) + seconds (time dt).

Lemma month_loop_mod fuel y y' yd m leap :
  y mod 4 = y' mod 4 -> month_loop fuel y yd m leap = month_loop fuel y' yd m leap.
Proof.
  intros Hy. revert m leap. induction fuel as [|fuel IH]; intros m leap; [done|]. cbn [month_loop].
  destruct (m <? 12); [|done]. destruct (index MONTH_START_OFFSET m); cbn [mbind comp_bind]; try done.
  destruct (_ <=? yd); [|done]. rewrite Hy. apply IH.
Qed.

(** Four years later the date is the same. *)
Lemma to_date_shift q r :
  0 <= q < 63 -> 0 <= r < 1461 ->
  Timestamp.to_date (1461 * q + r) =
  (d ← Timestamp.to_date r; Ret (mkDate (day d) (month d) (year d + 4 * q))).
Proof.
  intros Hq Hr. unfold Timestamp.to_date.
  assert (Hy : year_offset_from_days (1461 * q + r) = year_offset_from_days r + 4 * q)
    by (unfold year_offset_from_days; mlia).
  assert (Hy0 : 0 <= year_offset_from_days r < 4) by (unfold year_offset_from_days; mlia).
  assert (Hm : (1461 * q + r) mod (365 + 365 + 365 + 366) = r mod (365 + 365 + 365 + 366)) by mlia.
  rewrite Hm, Hy. set (yd := if _ >? 365 then _ else _).
  rewrite (month_loop_mod _ (year_offset_from_days r + 4 * q) (year_offset_from_days r)) by mlia.
  destruct (month_loop _ _ _ _ _) as [[m leap]| | |]; cbn [mbind comp_bind]; try done.
  destruct (index MONTH_START_OFFSET _); cbn [mbind comp_bind]; try done.
  cbn [day month year]. do 2 f_equal. mlia.
Qed.

Definition valid_dateb (d : Date) : bool :=
  (0 <=? year d) && (1 <=? month d) && (month d <=? 12) && (1 <=? day d) && (day d <=? month_length (year d) (month d)).

(** All days of the first four years. *)
Lemma first_quadrennial :
  forallb (fun r => match Timestamp.to_date r with
                    | Ret d => valid_dateb d && (day_number d =? r) && (year d <? 4)
                    | _ => false end) (seqZ 0 1461) = true.
Proof. vm_compute. reflexivity. Qed.

Lemma sum_below_S f lo n : 0 <= n -> sum_below f lo (n + 1) = sum_below f lo n + f (lo + n).
Proof.
  intros Hn. unfold sum_below. rewrite seqZ_app by lia. rewrite foldl_app.
  replace (seqZ (lo + n) 1) with [lo + n] by (by rewrite seqZ_cons by lia). done.
Qed.

Lemma sum_years y q : 0 <= y -> 0 <= q -> sum_below year_length 0 (y + 4 * q) = sum_below year_length 0 y + 1461 * q.
Proof.
  intros Hy Hq. pattern q. apply natlike_ind; [by rewrite Z.mul_0_r, !Z.add_0_r| |done].
  intros x Hx IH. replace (y + 4 * Z.succ x) with (y + 4 * x + 1 + 1 + 1 + 1) by lia.
  rewrite !sum_below_S by lia. rewrite IH.
  assert (Hyl : forall a, year_length a + year_length (a + 1) + year_length (a + 1 + 1) + year_length (a + 1 + 1 + 1) = 1461).
  { intros a. unfold year_length, is_leap. assert (a mod 4 = 0 \/ a mod 4 = 1 \/ a mod 4 = 2 \/ a mod 4 = 3) by mlia.
    repeat match goal with |- context [?u =? 0] => destruct (Z.eqb_spec u 0) end; mlia. }
  specialize (Hyl (0 + (y + 4 * x))). rewrite !Z.add_0_l in *. lia.
Qed.

Lemma day_number_shift d q :
  0 <= year d -> 0 <= q -> day_number (mkDate (day d) (month d) (year d + 4 * q)) = day_number d + 1461 * q.
Proof.
  intros Hy Hq. unfold day_number. cbn [day month year]. rewrite sum_years by done.
  assert (Hm : forall m, month_length (year d + 4 * q) m = month_length (year d) m).
  { intros m. unfold month_length, is_leap. by replace ((year d + 4 * q) mod 4) with (year d mod 4) by mlia. }
  assert (Hs : sum_below (month_length (year d + 4 * q)) 1 (month d - 1) = sum_below (month_length (year d)) 1 (month d - 1)).
  { unfold sum_below. generalize (seqZ 1 (month d - 1)) as l. generalize 0 as acc.
    intros acc l. revert acc. induction l as [|x l IH]; intros acc; [done|]. cbn. by rewrite Hm, IH. }
  lia.
Qed.

(** The date of every day a timestamp can reach. *)
Lemma to_date_spec days :
  0 <= days < 92043 ->
  exists d, Timestamp.to_date days = Ret d /\ valid_date d /\ day_number d = days /\ year d < 256.
Proof.
  intros Hd. set (q := days / 1461). set (r := days mod 1461).
  assert (Heq : days = 1461 * q + r) by (unfold q, r; mlia). assert (Hq : 0 <= q < 63) by (unfold q; mlia).
  assert (Hr : 0 <= r < 1461) by (unfold r; mlia). clearbody q r. subst days. rewrite to_date_shift by done.
  pose proof first_quadrennial as Hall. rewrite forallb_forall in Hall. specialize (Hall r).
  rewrite <- list_elem_of_In, elem_of_seqZ in Hall. specialize (Hall ltac:(lia)). cbv beta in Hall.
  destruct (Timestamp.to_date r) as [d| | |]; try done. cbn [mbind comp_bind]. eexists. split; [done|].
  apply andb_prop in Hall as [[Hv Hn]%andb_prop Hy]. apply Z.eqb_eq in Hn. apply Z.ltb_lt in Hy.
  unfold valid_dateb in Hv. bool_to_prop.
  assert (Hm : month_length (year d + 4 * q) (month d) = month_length (year d) (month d)).
  { unfold month_length, is_leap. by replace ((year d + 4 * q) mod 4) with (year d mod 4) by mlia. }
  split; [unfold valid_date; cbn [day month year]; rewrite Hm; lia|].
  split; [rewrite day_number_shift by lia; lia|cbn; lia].
Qed.

(** C19: Every 32-bit timestamp is converted to the one valid date and time of day that the
    calendar numbers with it; the calendar has a leap year every fourth year, which is the
    civil calendar until 28 February 2100. *)
Theorem to_datetime_is_calendar t :
  is_u32 t ->
  exists dt, Timestamp.to_datetime t = Ret dt /\ valid_date (date dt) /\ valid_time (time dt) /\ second_number dt = t.
Proof.
  intros Ht. unfold Timestamp.to_datetime, Timestamp.to_days_with_remainder, SECONDS_IN_DAY. change (60 * 60 * 24) with 86400.
  destruct (to_date_spec (t / 86400)) as (d & -> & Hv & Hn & _); [mlia|]. cbn [mbind comp_bind]. eexists. split; [done|].
  split; [done|]. unfold valid_time, second_number. cbn [date time hours minutes seconds]. rewrite Hn. mlia.
Qed.

Lemma to_datetime_is_calendar_witness :
  exists dt, Timestamp.to_datetime 1278713001 = Ret dt /\ valid_date (date dt) /\ valid_time (time dt) /\ second_number dt = 1278713001.
Proof. apply (to_datetime_is_calendar 1278713001). by vm_compute. Defined.

(** The number of days [from_datetime] computes. *)
Lemma sum_months d : valid_date d ->
  exists start, nthZ MONTH_START_OFFSET (month d -u 1) = Some start /\ 0 <= start < 335 /\
    sum_below (month_length (year d)) 1 (month d - 1) = start + (if (month d >? 2) && is_leap (year d) then 1 else 0).
Proof.
  intros (_ & Hm & _). assert (Hl : forall l, l = is_leap (year d) -> month_length (year d) =
    fun m => if m =? 2 then (if l then 29 else 28) else if (m =? 4) || (m =? 6) || (m =? 9) || (m =? 11) then 30 else 31).
  { intros l ->. reflexivity. }
  rewrite (Hl _ eq_refl). generalize (is_leap (year d)) as b. intros b.
  assert (Hc : exists k, month d = Z.of_nat k + 1 /\ (k < 12)%nat) by (exists (Z.to_nat (month d - 1)); lia).
  destruct Hc as (k & -> & Hk).
  do 12 (destruct k as [|k]; [eexists; split; [reflexivity|]; split; [lia|]; by destruct b|]). lia.
Qed.

(** Converting a timestamp to a date and back is not the identity: the day of the month
    is added without subtracting one, which gives a timestamp one day late, except from March
    of a leap year on, where the missing leap day makes up for it. *)
Theorem from_datetime_one_day_late t dt :
  0 <= t < 4294967296 - 86400 -> Timestamp.to_datetime t = Ret dt ->
  Timestamp.from_datetime dt =
  Ret (if (month (date dt) >? 2) && is_leap (year (date dt)) then t else t + 86400).
Proof.
  intros Ht Hdt. unfold Timestamp.to_datetime, Timestamp.to_days_with_remainder, SECONDS_IN_DAY in Hdt.
  change (60 * 60 * 24) with 86400 in Hdt.
  destruct (to_date_spec (t / 86400)) as (d & Ed & Hv & Hn & Hy); [mlia|]. rewrite Ed in Hdt. cbn [mbind comp_bind] in Hdt.
  injection Hdt as <-. cbn [date time]. unfold Timestamp.from_datetime. cbn [date time hours minutes seconds].
  destruct (sum_months d Hv) as (start & Hs & Hs0 & Hsum). rewrite (index_Ret _ _ start) by done. cbn [mbind comp_bind].
  destruct Hv as (Hy0 & Hm & Hd).
  assert (Hyears : sum_below year_length 0 (year d) = 1461 * (year d / 4) + 365 * (year d mod 4) + (if year d mod 4 >? 0 then 1 else 0)).
  { replace (year d) with (year d mod 4 + 4 * (year d / 4)) at 1 by mlia. rewrite sum_years by mlia.
    assert (Hc : year d mod 4 = 0 \/ year d mod 4 = 1 \/ year d mod 4 = 2 \/ year d mod 4 = 3) by mlia.
    generalize (year d / 4). intros q.
    destruct Hc as [-> | [-> | [-> | ->]]]; [change (sum_below _ 0 0) with 0|change (sum_below _ 0 1) with 366
      |change (sum_below _ 0 2) with 731|change (sum_below _ 0 3) with 1096]; cbn -[Z.mul Z.add]; lia. }
  assert (Hd31 : day d <= 31) by (unfold month_length in Hd; repeat case_match; lia).
  unfold day_number in Hn. rewrite Hyears, Hsum in Hn. unfold SECONDS_IN_DAY. f_equal.
  set (A := if _ && _ then 1 else 0) in Hn. assert (HA : (if (month d >? 2) && is_leap (year d) then t else t + 86400) = t + 86400 * (1 - A)).
  { unfold A. destruct (_ && _); lia. }
  rewrite HA. assert (0 <= A <= 1) by (unfold A; destruct (_ && _); lia). clearbody A. clear HA Ed Hsum Hyears.
  destruct (year d mod 4 >? 0); mlia.
Qed.

Lemma from_datetime_one_day_late_witness :
  Timestamp.from_datetime (mkDateTime (mkDate 1 1 0) (mkTime 0 0 10)) = Ret 86410.
Proof. exact (from_datetime_one_day_late 10 (mkDateTime (mkDate 1 1 0) (mkTime 0 0 10)) ltac:(lia) ltac:(by vm_compute)). Defined.

(** * The system clock

    The clock is updated by the timer interrupt, which can arrive between any two steps of
    the code it interrupts.  Each function is a program of atomic steps on the statics and
    the processor's interrupt flag, and runs against a list that says how many interrupts are
    pending before each step. *)

Definition HUNDRED_NS_PER_TICK : Z := 100002.
Definition MS_PER_TICK : Z := HUNDRED_NS_PER_TICK / 10000.

(** [KNOWN_TIME] and [TIME_OFFSET] with the state of their locks, and the interrupt flag. *)
Record Clock : Type := mkClock {
  KNOWN_TIME : Z; known_locked : bool;
  TIME_OFFSET : Z; offset_locked : bool;
  interrupt_flag : bool
}.

Inductive prog (A : Type) : Type :=
| Done (a : A)
| Do {X : Type} (f : Clock -> comp (Clock * X)) (k : X -> prog A).
Arguments Done {A}.
Arguments Do {A X}.

Definition is_interrupt_enabled (c : Clock) : comp (Clock * bool) := Ret (c, interrupt_flag c).
Definition set_flag (b : bool) (c : Clock) : Clock :=
  mkClock (KNOWN_TIME c) (known_locked c) (TIME_OFFSET c) (offset_locked c) b.
Definition cli (c : Clock) : comp (Clock * unit) := Ret (set_flag false c, tt).
Definition sti (c : Clock) : comp (Clock * unit) := Ret (set_flag true c, tt).

(** Taking a lock that is taken spins forever: the holder is the code that was interrupted. *)
Definition lock_known (c : Clock) : comp (Clock * unit) :=
  if known_locked c then Deadlock
  else Ret (mkClock (KNOWN_TIME c) true (TIME_OFFSET c) (offset_locked c) (interrupt_flag c), tt).
Definition unlock_known (c : Clock) : comp (Clock * unit) :=
  Ret (mkClock (KNOWN_TIME c) false (TIME_OFFSET c) (offset_locked c) (interrupt_flag c), tt).
Definition lock_offset (c : Clock) : comp (Clock * unit) :=
  if offset_locked c then Deadlock
  else Ret (mkClock (KNOWN_TIME c) (known_locked c) (TIME_OFFSET c) true (interrupt_flag c), tt).
Definition unlock_offset (c : Clock) : comp (Clock * unit) :=
  Ret (mkClock (KNOWN_TIME c) (known_locked c) (TIME_OFFSET c) false (interrupt_flag c), tt).
Definition with_known (f : Z -> Z) (c : Clock) : comp (Clock * Z) :=
  Ret (mkClock (f (KNOWN_TIME c)) (known_locked c) (TIME_OFFSET c) (offset_locked c) (interrupt_flag c), f (KNOWN_TIME c)).
Definition with_offset (f : Z -> Z) (c : Clock) : comp (Clock * Z) :=
  Ret (mkClock (KNOWN_TIME c) (known_locked c) (f (TIME_OFFSET c)) (offset_locked c) (interrupt_flag c), f (TIME_OFFSET c)).

Definition reset_known_time (time : Z) : prog unit :=
  Do is_interrupt_enabled (fun int_reenable =>
  Do cli (fun _ =>
  Do lock_known (fun _ => Do (with_known (fun t => TimestampHires.set t time)) (fun _ => Do unlock_known (fun _ =>
  Do lock_offset (fun _ => Do (with_offset (fun t => TimestampHires.set t 0)) (fun _ => Do unlock_offset (fun _ =>
  if int_reenable : bool then Do sti (fun _ => Done tt) else Done tt)))))))).

Definition get_system_time : prog Z :=
  Do is_interrupt_enabled (fun int_reenable =>
  Do cli (fun _ =>
  Do lock_known (fun _ => Do (with_known id) (fun known => Do unlock_known (fun _ =>
  Do lock_offset (fun _ => Do (with_offset id) (fun offset => Do unlock_offset (fun _ =>
  if int_reenable : bool then Do sti (fun _ => Done (TimestampHires.add known offset))
  else Done (TimestampHires.add known offset))))))))).

Definition get_offset_seconds : prog Z :=
  Do is_interrupt_enabled (fun int_reenable =>
  Do cli (fun _ =>
  Do lock_offset (fun _ => Do (with_offset id) (fun offset => Do unlock_offset (fun _ =>
  if int_reenable : bool then Do sti (fun _ => Done (TimestampHires.in_seconds offset))
  else Done (TimestampHires.in_seconds offset)))))).

Definition increment_offset (delta : Z) : prog unit :=
  Do is_interrupt_enabled (fun int_reenable =>
  Do cli (fun _ =>
  Do lock_offset (fun _ => Do (with_offset (fun t => TimestampHires.increment t delta)) (fun _ => Do unlock_offset (fun _ =>
  if int_reenable : bool then Do sti (fun _ => Done tt) else Done tt))))).

(** A program without interrupts. *)
Fixpoint run_alone {A} (p : prog A) (c : Clock) : comp (Clock * A) :=
  match p with
  | Done a => Ret (c, a)
  | Do f k => '(c, x) ← f c; run_alone (k x) c
  end.

(** The timer interrupt: the processor clears the flag on entry and restores it on return. *)
Definition pit_tick (c : Clock) : comp Clock :=
  '(c', _) ← run_alone (increment_offset HUNDRED_NS_PER_TICK) (set_flag false c);
  Ret (set_flag (interrupt_flag c) c').

Fixpoint pit_ticks (n : nat) (c : Clock) : comp Clock :=
  match n with
  | O => Ret c
  | S n' => c ← pit_tick c; pit_ticks n' c
  end.

(** A program with [n] interrupts delivered before a step, when they are enabled. *)
Fixpoint run {A} (p : prog A) (sched : list nat) (c : Clock) : comp (Clock * A) :=
  match p with
  | Done a => Ret (c, a)
  | Do f k =>
      c ← (if interrupt_flag c then pit_ticks (hd 0%nat sched) c else Ret c);
      '(c, x) ← f c;
      run (k x) (tl sched) c
  end.

Definition unlocked (c : Clock) : Prop := known_locked c = false /\ offset_locked c = false.

(** The clock after [k] ticks. *)
Definition ticked (c : Clock) (k : nat) : Clock :=
  mkClock (KNOWN_TIME c) (known_locked c) (u64 (TIME_OFFSET c + Z.of_nat k * HUNDRED_NS_PER_TICK)) (offset_locked c) (interrupt_flag c).

Lemma pit_tick_spec c : unlocked c -> pit_tick c = Ret (ticked c 1).
Proof. destruct c as [kt kl ot ol fl]. intros [Hk Ho]. cbn in *. by subst. Qed.

Lemma ticked_ticked c j k : ticked (ticked c j) k = ticked c (j + k).
Proof.
  unfold ticked. cbn [KNOWN_TIME known_locked TIME_OFFSET offset_locked interrupt_flag]. f_equal.
  unfold u64. rewrite Z.add_mod_idemp_l by lia. f_equal. lia.
Qed.

Lemma ticked_0 c : is_u64 (TIME_OFFSET c) -> ticked c 0 = c.
Proof.
  intros H64. unfold ticked. destruct c; cbn in *. f_equal. rewrite Z.add_0_r. unfold u64, is_u64 in *.
  by rewrite Z.mod_small by lia.
Qed.

Lemma ticked_u64 c k : is_u64 (TIME_OFFSET (ticked c k)).
Proof. cbn. mlia. Qed.

Lemma pit_ticks_spec n c : unlocked c -> is_u64 (TIME_OFFSET c) -> pit_ticks n c = Ret (ticked c n).
Proof.
  revert c. induction n as [|n IH]; intros c Hu H64; cbn [pit_ticks]; [by rewrite ticked_0|].
  rewrite pit_tick_spec by done. cbn [mbind comp_bind]. rewrite IH by (try done; apply ticked_u64). by rewrite ticked_ticked.
Qed.

(** Steps with the flag clear run without interruption. *)
Lemma run_masked {A X} (f : Clock -> comp (Clock * X)) (k : X -> prog A) sched c :
  interrupt_flag c = false -> run (Do f k) sched c = ('(c', x) ← f c; run (k x) (tl sched) c').
Proof. intros Hf. cbn [run]. by rewrite Hf. Qed.

(** The interrupts delivered while the entry of a function saves and clears the flag. *)
Definition delivered (sched : list nat) (c : Clock) : nat :=
  if interrupt_flag c then (hd 0 sched + hd 0 (tl sched))%nat else 0%nat.

Lemma run_entry {A} (k : bool -> prog A) sched c :
  unlocked c -> is_u64 (TIME_OFFSET c) ->
  run (Do is_interrupt_enabled (fun b => Do cli (fun _ => k b))) sched c =
  run (k (interrupt_flag c)) (tl (tl sched)) (set_flag false (ticked c (delivered sched c))).
Proof.
  intros Hu H64. cbn [run]. unfold delivered. destruct (interrupt_flag c) eqn:Hf.
  - rewrite pit_ticks_spec by done. cbn [is_interrupt_enabled mbind comp_bind]. change (interrupt_flag (ticked c _)) with (interrupt_flag c).
    rewrite Hf, pit_ticks_spec by (try done; apply ticked_u64). cbn [cli mbind comp_bind]. by rewrite ticked_ticked.
  - cbn [is_interrupt_enabled mbind comp_bind]. rewrite Hf. cbn [cli mbind comp_bind]. by rewrite ticked_0.
Qed.

(** A function body of straight-line steps with the flag clear. *)
Ltac run_body :=
  repeat (rewrite run_masked by reflexivity; cbn [lock_known unlock_known lock_offset unlock_offset with_known with_offset
    set_flag ticked KNOWN_TIME known_locked TIME_OFFSET offset_locked interrupt_flag mbind comp_bind]).

Ltac run_clock Hk Ho c :=
  rewrite run_entry by done; let fl := fresh in
  destruct c as [? ? ? ? fl]; cbn in Hk, Ho; subst; run_body; destruct fl; [run_body|]; reflexivity.

(** C25: The clock and the timer interrupt: wherever ticks arrive while the clock is read or
    set, no lock is ever waited for, the interrupt flag is put back, no tick delivered is
    lost, and the time read is the known time plus the ticks counted when the flag was cleared. *)
Theorem clock_interrupt_safe sched c time delta :
  known_locked c = false -> offset_locked c = false -> is_u64 (TIME_OFFSET c) ->
  let c' := ticked c (delivered sched c) in
  run get_system_time sched c = Ret (c', u64 (KNOWN_TIME c + TIME_OFFSET c')) /\
  run get_offset_seconds sched c = Ret (c', TIME_OFFSET c' / 10000000) /\
  run (increment_offset delta) sched c =
    Ret (mkClock (KNOWN_TIME c) false (u64 (TIME_OFFSET c' + delta)) false (interrupt_flag c), tt) /\
  run (reset_known_time time) sched c = Ret (mkClock time false 0 false (interrupt_flag c), tt).
Proof.
  intros Hk Ho H64. assert (Hu : unlocked c) by done. split_and!;
    [unfold get_system_time|unfold get_offset_seconds|unfold increment_offset|unfold reset_known_time]; run_clock Hk Ho c.
Qed.

Lemma clock_interrupt_safe_witness :
  run get_system_time [2%nat; 1%nat; 5%nat] (mkClock 7 false 0 false true) = Ret (mkClock 7 false 300006 false true, 300013).
Proof. exact (proj1 (clock_interrupt_safe [2%nat; 1%nat; 5%nat] (mkClock 7 false 0 false true) 0 0 eq_refl eq_refl ltac:(by vm_compute))). Defined.

(** * The clock chip *)

Record RTCTime : Type := mkRTCTime {
  rtc_seconds : Z; rtc_minutes : Z; rtc_hours : Z; rtc_day : Z; rtc_month : Z; rtc_year : Z
}.

Module RTC.
Section rtc.
Context {H : Type} `{Ports H}.

Definition command : Z := 0x70.
Definition data : Z := 0x71.

Definition to_datetime (t : RTCTime) : DateTime :=
  mkDateTime (mkDate (rtc_day t) (rtc_month t) (u8 (rtc_year t + 20)))
             (mkTime (rtc_hours t) (rtc_minutes t) (rtc_seconds t)).

Definition convert_bcd (bcd : Z) : Z :=
  let tens := Z.shiftr bcd 4 in
  let ones := Z.land bcd 0xf in
  u8 (u8 (tens * 10) + ones).

Definition read_register (hw : H) (index : Z) : H * Z :=
  let hw := Port.write_u8 hw command index in
  Port.read_u8 hw data.

(** The hour of a twelve-hour clock, once its digits are binary. *)
Definition afternoon (hours : Z) (pm : bool) : Z :=
  let hours := hours mod 12 in
  if pm then u8 (hours + 12) else hours.

Definition read_time (hw : H) : H * RTCTime :=
  let '(hw, c) := Port.read_u8 hw command in
  let nmi := Z.land c 0x80 in
  let '(hw, reg_b) := read_register hw (Z.lor nmi 0x0b) in
  let use_24_hour := Z.land reg_b 2 =? 2 in
  let use_bcd := Z.land reg_b 4 =? 0 in
  let '(hw, seconds) := read_register hw (Z.lor nmi 0) in
  let '(hw, minutes) := read_register hw (Z.lor nmi 0x02) in
  let '(hw, hours) := read_register hw (Z.lor nmi 0x04) in
  let '(hw, day) := read_register hw (Z.lor nmi 0x07) in
  let '(hw, month) := read_register hw (Z.lor nmi 0x08) in
  let '(hw, year) := read_register hw (Z.lor nmi 0x09) in
  let pm := negb (Z.land hours 0x80 =? 0) in
  (hw,
   if use_bcd then
     mkRTCTime (convert_bcd seconds) (convert_bcd minutes)
       (if use_24_hour then hours else afternoon (convert_bcd (Z.land hours 0x7f)) pm)
       (convert_bcd day) (convert_bcd month) (convert_bcd year)
   else
     mkRTCTime seconds minutes
       (if use_24_hour then hours else afternoon (Z.land hours 0x7f) pm)
       day month year).

End rtc.
End RTC.

(** [initialize_from_rtc]. *)
Definition initialize_from_rtc {H} `{Ports H} (hw : H) : comp (H * prog unit) :=
  let '(hw, cmos_time) := RTC.read_time hw in
  timestamp ← Timestamp.from_datetime (RTC.to_datetime cmos_time);
  let system_time := TimestampHires.from_timestamp timestamp in
  Ret (hw, reset_known_time system_time).

(** What the code relies on of the chip: the seven low bits written to the index port select
    the register that the data port reads, and reading changes no register. *)
Class Cmos (H : Type) `{Ports H} := {
  cmos_register : H -> Z -> Z;
  cmos_byte : forall hw i, is_u8 (cmos_register hw i);
  cmos_index : forall hw i, cmos_register (fst (inb hw 0x70)) i = cmos_register hw i;
  cmos_index_byte : forall hw, is_u8 (snd (inb hw 0x70));
  cmos_data : forall hw i, snd (inb (outb hw 0x70 i) 0x71) = cmos_register hw (i mod 0x80);
  cmos_kept : forall hw i j, cmos_register (fst (inb (outb hw 0x70 i) 0x71)) j = cmos_register hw j
}.

(** The formats of the chip's registers. *)
Definition to_bcd (n : Z) : Z := n / 10 * 16 + n mod 10.
Definition rtc_encode (bcd : bool) (n : Z) : Z := if bcd then to_bcd n else n.
Definition rtc_encode_hour (bcd h24 : bool) (h : Z) : Z :=
  if h24 then rtc_encode bcd h
  else rtc_encode bcd (if h mod 12 =? 0 then 12 else h mod 12) + (if 12 <=? h then 0x80 else 0).

Definition rtc_shows {H} `{Cmos H} (hw : H) (bcd h24 : bool) (dt : DateTime) : Prop :=
  Z.land (cmos_register hw 0x0b) 2 = (if h24 then 2 else 0) /\
  Z.land (cmos_register hw 0x0b) 4 = (if bcd then 0 else 4) /\
  cmos_register hw 0 = rtc_encode bcd (seconds (time dt)) /\
  cmos_register hw 2 = rtc_encode bcd (minutes (time dt)) /\
  cmos_register hw 4 = rtc_encode_hour bcd h24 (hours (time dt)) /\
  cmos_register hw 7 = rtc_encode bcd (day (date dt)) /\
  cmos_register hw 8 = rtc_encode bcd (month (date dt)) /\
  cmos_register hw 9 = rtc_encode bcd (year (date dt) - 20).

Lemma below_check (P : Z -> bool) n : 0 <= n < 256 -> forallb P (seqZ 0 256) = true -> P n = true.
Proof. intros Hn Hall. rewrite forallb_forall in Hall. apply Hall. rewrite <- list_elem_of_In, elem_of_seqZ. lia. Qed.

Lemma bcd_round_trip n : 0 <= n < 100 -> RTC.convert_bcd (to_bcd n) = n.
Proof.
  intros Hn. pose proof (below_check (fun n => implb (n <? 100) (RTC.convert_bcd (to_bcd n) =? n)) n ltac:(lia) eq_refl) as H.
  cbv beta in H. destruct (Z.ltb_spec n 100); [|lia]. by apply Z.eqb_eq.
Qed.

Lemma twelve_hour_round_trip bcd h : 0 <= h < 24 ->
  RTC.afternoon ((if bcd : bool then RTC.convert_bcd else id) (Z.land (rtc_encode_hour bcd false h) 0x7f))
    (negb (Z.land (rtc_encode_hour bcd false h) 0x80 =? 0)) = h.
Proof.
  intros Hh. destruct bcd;
    [pose proof (below_check (fun h => implb (h <? 24) (RTC.afternoon (RTC.convert_bcd (Z.land (rtc_encode_hour true false h) 0x7f))
       (negb (Z.land (rtc_encode_hour true false h) 0x80 =? 0)) =? h)) h ltac:(lia) eq_refl) as H
    |pose proof (below_check (fun h => implb (h <? 24) (RTC.afternoon (Z.land (rtc_encode_hour false false h) 0x7f)
       (negb (Z.land (rtc_encode_hour false false h) 0x80 =? 0)) =? h)) h ltac:(lia) eq_refl) as H];
  cbv beta in H; (destruct (Z.ltb_spec h 24); [|lia]); by apply Z.eqb_eq.
Qed.

(** A register read through the index port with the non-maskable-interrupt bit kept. *)
Lemma read_register_spec {H} `{Cmos H} (hw : H) c i :
  is_u8 c -> 0 <= i < 0x80 ->
  exists hw', RTC.read_register hw (Z.lor (Z.land c 0x80) i) = (hw', cmos_register hw i) /\
              forall j, cmos_register hw' j = cmos_register hw j.
Proof.
  intros Hc Hi. unfold RTC.read_register, Port.read_u8, Port.write_u8, RTC.command, RTC.data.
  destruct (inb _ 0x71) as [hw' x] eqn:E. exists hw'.
  pose proof (cmos_data hw (Z.lor (Z.land c 0x80) i)) as Hd. rewrite E in Hd. cbn in Hd.
  assert (Hm : Z.lor (Z.land c 0x80) i mod 0x80 = i).
  { change 0x80 with (2 ^ 7) at 2. rewrite <- Z.land_ones by lia. rewrite Z.land_lor_distr_l.
    rewrite <- Z.land_assoc. change (Z.land 128 (Z.ones 7)) with 0. rewrite Z.land_0_r, Z.lor_0_l.
    rewrite Z.land_ones by lia. apply Z.mod_small. lia. }
  rewrite Hm in Hd. subst x. split; [done|]. intros j.
  pose proof (cmos_kept hw (Z.lor (Z.land c 0x80) i) j) as Hk. by rewrite E in Hk.
Qed.

(** The time the chip shows is read in every register format but one: when the chip counts
    24 hours in decimal digits the hour is taken as it is, so 10 o'clock is read as 16. *)
Theorem rtc_time_decoded {H} `{Cmos H} (hw : H) (bcd h24 : bool) (dt : DateTime) :
  rtc_shows hw bcd h24 dt -> valid_date (date dt) -> 20 <= year (date dt) < 120 -> valid_time (time dt) ->
  RTC.to_datetime (snd (RTC.read_time hw)) =
  mkDateTime (date dt)
    (mkTime (if bcd && h24 then to_bcd (hours (time dt)) else hours (time dt)) (minutes (time dt)) (seconds (time dt))).
Proof.
  intros (Hb2 & Hb4 & Hs & Hmi & Hh & Hda & Hmo & Hye) Hvd Hy Hvt. unfold RTC.read_time, Port.read_u8, RTC.command.
  pose proof (cmos_index hw) as Hi. pose proof (cmos_index_byte hw) as Hib. destruct (inb hw 0x70) as [hw0 c]. cbn [fst snd] in Hi, Hib.
  destruct (read_register_spec hw0 c 0xb Hib ltac:(lia)) as (hw1 & -> & Hk1).
  destruct (read_register_spec hw1 c 0 Hib ltac:(lia)) as (hw2 & -> & Hk2).
  destruct (read_register_spec hw2 c 2 Hib ltac:(lia)) as (hw3 & -> & Hk3).
  destruct (read_register_spec hw3 c 4 Hib ltac:(lia)) as (hw4 & -> & Hk4).
  destruct (read_register_spec hw4 c 7 Hib ltac:(lia)) as (hw5 & -> & Hk5).
  destruct (read_register_spec hw5 c 8 Hib ltac:(lia)) as (hw6 & -> & Hk6).
  destruct (read_register_spec hw6 c 9 Hib ltac:(lia)) as (hw7 & -> & _).
  rewrite Hk6, Hk5, Hk4, Hk3, Hk2, Hk1, Hi. cbn [snd]. rewrite !Hk5, !Hk4, !Hk3, !Hk2, !Hk1, !Hi.
  rewrite Hb2, Hb4, Hs, Hmi, Hh, Hda, Hmo, Hye. destruct dt as [[d m y] [h mi s]]. cbn [date time day month year hours minutes seconds] in *.
  assert (Hd31 : d <= 31) by (destruct Hvd as (_ & _ & Hd); cbn in Hd; unfold month_length in Hd; repeat case_match; lia).
  destruct Hvd as (_ & Hm & Hd). destruct Hvt as (Hvh & Hvm & Hvs). cbn [date time day month year hours minutes seconds] in *.
  pose proof (twelve_hour_round_trip bcd h Hvh) as H12.
  destruct bcd, h24; cbn [rtc_encode rtc_encode_hour andb id] in *; unfold RTC.to_datetime;
    cbn [Z.eqb Pos.eqb rtc_seconds rtc_minutes rtc_hours rtc_day rtc_month rtc_year rtc_encode rtc_encode_hour];
    rewrite ?bcd_round_trip by lia; rewrite ?H12; (replace (u8 (y - 20 + 20)) with y by mlia); done.
Qed.

(** A chip with its registers in a list and the selected index. *)
Record demo_cmos : Type := mkDemoCmos { demo_index : Z; demo_registers : list Z }.
#[global] Instance demo_cmos_ports : Ports demo_cmos := {
  inb c port := (c, if port =? 0x70 then u8 (demo_index c)
                    else if port =? 0x71 then u8 (default 0 (nthZ (demo_registers c) (demo_index c mod 0x80))) else 0xff);
  outb c port x := if port =? 0x70 then mkDemoCmos x (demo_registers c) else c
}.
#[global] Program Instance demo_cmos_chip : Cmos demo_cmos := {
  cmos_register c i := u8 (default 0 (nthZ (demo_registers c) i))
}.
Next Obligation. intros. mlia. Qed.
Next Obligation. done. Qed.
Next Obligation. intros. cbn. mlia. Qed.
Next Obligation. done. Qed.
Next Obligation. done. Qed.

Lemma rtc_time_decoded_witness :
  RTC.to_datetime (snd (RTC.read_time (mkDemoCmos 0 [0x59; 0; 0x30; 0; 0x82; 0; 0; 0x31; 0x12; 0x21; 0; 0]))) =
  mkDateTime (mkDate 31 12 41) (mkTime 14 30 59).
Proof.
  apply (rtc_time_decoded (mkDemoCmos 0 [0x59; 0; 0x30; 0; 0x82; 0; 0; 0x31; 0x12; 0x21; 0; 0]) true false
    (mkDateTime (mkDate 31 12 41) (mkTime 14 30 59))); [repeat split; by vm_compute|unfold valid_date; cbn; lia|cbn; lia|unfold valid_time; cbn; lia].
Defined.
