(* ===== verification/Blocking.v ===== *)
(** How drivers wait: [drivers/blocking.rs] and the trait of [drivers/queue.rs].

    A driver blocks by stopping its process and yielding; other processes and interrupt
    handlers run until it is scheduled again and may change the state [C] the driver shares
    with them.  The class [System] is what a driver sees of the rest of the kernel, [E] being
    the machine outside the driver. *)

From S2P Require Import Prelude Ports.

(** The signals of [syscall/src/signals.rs]. *)
Definition SIG_INT : Z := 2.
Definition SIG_KILL : Z := 9.
Definition SIG_TERM : Z := 15.
Definition SIG_CHILD : Z := 17.
Definition SIG_CONTINUE : Z := 18.
Definition SIG_STOP : Z := 19.
Definition SIG_TSTOP : Z := 20.

(** [sys_yield] returns when the calling process is scheduled again. *)
Class System (E C : Type) := {
  sys_ports :: Ports E;
  sys_current_pid : E -> comp Z;
  sys_send_signal : E -> Z -> Z -> comp E;
  sys_yield : E -> C -> comp (E * C);
  sys_sleep : E -> C -> Z -> comp (E * C)
}.

(** * [WakeReference] *)

Record WakeReference : Type := mkWake { wake_pid : option Z }.

Module WakeReference.
Definition new : WakeReference := mkWake None.
Definition maybe_set_process (r : WakeReference) (pid : Z) : WakeReference :=
  match wake_pid r with None => mkWake (Some pid) | Some _ => r end.
Definition set_process (r : WakeReference) (pid : Z) : WakeReference := mkWake (Some pid).
Definition clear_process (r : WakeReference) : WakeReference := mkWake None.
(** [send] is [process::send_signal]. *)
Definition wake {E} (send : E -> Z -> Z -> comp E) (e : E) (r : WakeReference) : comp E :=
  match wake_pid r with Some pid => send e pid SIG_CONTINUE | None => Ret e end.
End WakeReference.

(** * The trait [ReadQueue] *)

(** The required methods; those that look at the hardware return its state. *)
Class ReadQueue (E Q : Type) := {
  add_process_to_queue : E -> Q -> Z -> E * Q * Z;
  remove_first_in_queue : E -> Q -> E * Q * option Z;
  get_queue_length : Q -> Z;
  get_first_process_in_queue : Q -> option Z;
  is_data_available : E -> Q -> E * bool;
  read_available_data : E -> Q -> list Z -> comp (E * list Z * Z)
}.

Section read_queue.
Context {E Q : Type} `{System E Q} `{ReadQueue E Q}.

Definition process_wait (e : E) (q : Q) (pid : Z) : comp (E * Q) :=
  e ← sys_send_signal e pid SIG_STOP;
  sys_yield e q.
Definition process_wake (e : E) (pid : Z) : comp E := sys_send_signal e pid SIG_CONTINUE.

(** [while first != Some(current_pid)] *)
Fixpoint wait_for_turn (fuel : nat) (e : E) (q : Q) (pid : Z) : comp (E * Q) :=
  if bool_decide (get_first_process_in_queue q = Some pid) then Ret (e, q)
  else
    match fuel with
    | O => OutOfFuel
    | S fuel => '(e, q) ← process_wait e q pid; wait_for_turn fuel e q pid
    end.

(** [while left_to_read > 0]; [partial] is what is left of the buffer, the bytes already
    read come first in the result. *)
Fixpoint read_loop (fuel : nat) (e : E) (q : Q) (pid : Z) (partial : list Z) (bytes_read : Z)
  : comp (E * Q * list Z * Z) :=
  if lenZ partial =? 0 then Ret (e, q, [], bytes_read)
  else
    match fuel with
    | O => OutOfFuel
    | S fuel =>
        '(e, partial, read_chunk) ← read_available_data e q partial;
        let bytes_read := bytes_read +u read_chunk in
        let rest := drop (Z.to_nat read_chunk) partial in
        '(e, q) ← (if 0 <? lenZ rest then
                     let '(e, avail) := is_data_available e q in
                     if negb avail then process_wait e q pid else Ret (e, q)
                   else Ret (e, q));
        '(e, q, rest, bytes_read) ← read_loop fuel e q pid rest bytes_read;
        Ret (e, q, take (Z.to_nat read_chunk) partial ++ rest, bytes_read)
    end.

(** After the last byte: the next in the queue is woken if there is something for it. *)
Definition finish_read (e : E) (q : Q) : comp (E * Q) :=
  let '(e, q, _) := remove_first_in_queue e q in
  let '(e, avail) := is_data_available e q in
  e ← (if avail then
         match get_first_process_in_queue q with Some pid => process_wake e pid | None => Ret e end
       else Ret e);
  Ret (e, q).

Definition blocking_read (fuel : nat) (e : E) (q : Q) (buffer : list Z) : comp (E * Q * list Z * Z) :=
  current_pid ← sys_current_pid e;
  let '(e, q, len) := add_process_to_queue e q current_pid in
  '(e, q) ← (if 1 <? len then process_wait e q current_pid else Ret (e, q));
  '(e, q) ← wait_for_turn fuel e q current_pid;
  '(e, q, buffer, bytes_read) ← read_loop fuel e q current_pid buffer 0;
  '(e, q) ← finish_read e q;
  Ret (e, q, buffer, bytes_read).
End read_queue.
