(* ===== verification/TextMode.v ===== *)
(** VGA text mode: [hardware/vga/text_mode.rs].

    The screen is 25 rows of 80 cells, a character and a colour byte each, in a window of
    4000 bytes at the base pointer.  Pointers are virtual; [tr] is the translation of the
    address space the code runs in. *)

From S2P Require Import Prelude Memory.

Inductive Color : Type :=
| Black | Blue | Green | Cyan | Red | Magenta | Brown | LightGrey
| DarkGrey | LightBlue | LightGreen | LightCyan | LightRed | LightMagenta | LightBrown | White.

Definition color_byte (c : Color) : Z :=
  match c with
  | Black => 0 | Blue => 1 | Green => 2 | Cyan => 3 | Red => 4 | Magenta => 5 | Brown => 6 | LightGrey => 7
  | DarkGrey => 8 | LightBlue => 9 | LightGreen => 10 | LightCyan => 11 | LightRed => 12 | LightMagenta => 13
  | LightBrown => 14 | White => 15
  end.

Module ColorCode.
Definition new (fg bg : Color) : Z := u8 (color_byte bg <<u 4) |u color_byte fg.
End ColorCode.

Record TextMode : Type := mkTextMode {
  base_pointer : Z;
  cursor_col : Z;
  cursor_row : Z;
  current_color : Z
}.

Module TextMode.
Definition new (base : Z) : TextMode := mkTextMode base 0 24 (ColorCode.new LightGrey Black).

Definition move_cursor (t : TextMode) (col row : Z) : TextMode :=
  mkTextMode (base_pointer t) (if col >? 79 then 79 else col) (if row >? 24 then 24 else row) (current_color t).

(** Columns and rows far off the screen end at its border. *)
Definition move_cursor_relative (t : TextMode) (dcol drow : Z) : TextMode :=
  let new_col := i32 (cursor_col t + dcol) in
  let new_row := i32 (cursor_row t + drow) in
  mkTextMode (base_pointer t)
    (if new_col <? 0 then 0 else if new_col >? 79 then 79 else u8 new_col)
    (if new_row <? 0 then 0 else if new_row >? 24 then 24 else u8 new_row) (current_color t).

Definition set_buffer_pointer (t : TextMode) (ptr : Z) : TextMode * Z :=
  (mkTextMode ptr (cursor_col t) (cursor_row t) (current_color t), base_pointer t).

Section screen.
Variable tr : Z -> Z.

Definition read_volatile (m : mem) (p : Z) : Z := load8 m (tr (u32 p)).
Definition write_volatile (m : mem) (p v : Z) : mem := store8 m (tr (u32 p)) v.

(** [while offset < limit { write; offset += 2; }]: one write at each of the offsets. *)
Definition clear_cells (m : mem) (t : TextMode) (offset limit : Z) : mem :=
  foldl (fun m i => write_volatile m (base_pointer t + (offset + 2 * i)) 0x20) m (seqZ 0 ((limit - offset + 1) / 2)).

Definition clear_screen (m : mem) (t : TextMode) : mem := clear_cells m t 0 (2 * 80 * 25).
Definition clear_screen_to_beginning (m : mem) (t : TextMode) : mem :=
  let limit := cursor_col t + cursor_row t * 80 in
  clear_cells m t 0 (2 * limit + 1).
Definition clear_screen_to_end (m : mem) (t : TextMode) : mem :=
  clear_cells m t (cursor_col t + (cursor_row t * 80) * 2) (2 * 80 * 25).
Definition clear_row (m : mem) (t : TextMode) : mem :=
  let offset := cursor_row t * 80 * 2 in
  let limit := offset + 80 * 2 in
  clear_cells m t offset limit.
Definition clear_row_to_beginning (m : mem) (t : TextMode) : mem :=
  let offset := cursor_row t * 80 * 2 in
  let limit := offset + cursor_col t * 2 in
  clear_cells m t offset (limit + 1).
Definition clear_row_to_end (m : mem) (t : TextMode) : mem :=
  let offset := (cursor_row t * 80 * 2) + (cursor_col t * 2) in
  let limit := (cursor_row t + 1) * 80 * 2 in
  clear_cells m t offset limit.

(** One step of the inner loops of [scroll]: the cell at [dest] gets the cell [offset]
    further on, or a blank. *)
Definition copy_cell (offset : Z) (md : mem * Z) : mem * Z :=
  let '(m, dest) := md in
  let value := read_volatile m (dest + offset) in
  let color := read_volatile m (dest + (offset + 1)) in
  let m := write_volatile m dest value in
  let m := write_volatile m (dest + 1) color in
  (m, dest + 2).
Definition blank_cell (t : TextMode) (md : mem * Z) : mem * Z :=
  let '(m, dest) := md in
  let m := write_volatile m dest 0x20 in
  let m := write_volatile m (dest + 1) (current_color t) in
  (m, dest + 2).
Definition each_cell (rows : Z) (f : mem * Z -> mem * Z) (md : mem * Z) : mem * Z :=
  foldl (fun md _ => foldl (fun md _ => f md) md (seqZ 0 80)) md (seqZ 0 rows).

Definition scroll (m : mem) (t : TextMode) (rows : Z) : mem :=
  if rows =? 0 then m
  else if rows >? 24 then clear_screen m t
  else
    let dest := base_pointer t in
    let scroll_rows := 25 - rows in
    let offset := rows * 80 * 2 in
    let md := each_cell scroll_rows (copy_cell offset) (m, dest) in
    (each_cell rows (blank_cell t) md).1.

Definition newline (m : mem) (t : TextMode) : mem * TextMode :=
  let t := mkTextMode (base_pointer t) 0 (cursor_row t) (current_color t) in
  if cursor_row t <? 24
  then (m, mkTextMode (base_pointer t) (cursor_col t) (cursor_row t + 1) (current_color t))
  else (scroll m t 1, t).

Definition advance_cursor (m : mem) (t : TextMode) : mem * TextMode :=
  if cursor_col t <? 79
  then (m, mkTextMode (base_pointer t) (cursor_col t + 1) (cursor_row t) (current_color t))
  else newline m t.

Definition invert_cursor (m : mem) (t : TextMode) : mem :=
  let offset := cursor_row t * 160 + cursor_col t * 2 in
  let cursor_color_ptr := base_pointer t + (offset + 1) in
  let current_color := read_volatile m cursor_color_ptr in
  let inverted_color := u8 ((current_color &u 0xf) <<u 4) |u ((current_color &u 0xf0) >>u 4) in
  write_volatile m cursor_color_ptr inverted_color.

Definition disable_cursor (m : mem) (t : TextMode) : mem :=
  let offset := cursor_row t * 160 + cursor_col t * 2 in
  write_volatile m (base_pointer t + (offset + 1)) (current_color t).

Definition write_byte (m : mem) (t : TextMode) (byte : Z) : mem * TextMode :=
  if byte =? 10 then
    let m := disable_cursor m t in
    newline m t
  else if (0x20 <=? byte) && (byte <=? 0x7e) then
    let offset := cursor_row t * 160 + cursor_col t * 2 in
    let m := write_volatile m (base_pointer t + offset) byte in
    let m := write_volatile m (base_pointer t + (offset + 1)) (current_color t) in
    advance_cursor m t
  else (m, t).

Definition write_string (m : mem) (t : TextMode) (s : list Z) : mem * TextMode :=
  foldl (fun '(m, t) byte => write_byte m t byte) (m, t) s.
End screen.
End TextMode.

(** * A terminal

    The reference: 25 rows of 80 characters and a cursor. *)
Record Terminal : Type := mkTerminal { term_char : Z -> Z -> Z; term_col : Z; term_row : Z }.

(** The next row; at the bottom the rows move up. *)
Definition term_newline (T : Terminal) : Terminal :=
  if term_row T <? 24 then mkTerminal (term_char T) 0 (term_row T + 1)
  else mkTerminal (fun r c => if r <? 24 then term_char T (r + 1) c else 0x20) 0 (term_row T).
Definition term_write (T : Terminal) (b : Z) : Terminal :=
  if b =? 10 then term_newline T
  else if (0x20 <=? b) && (b <=? 0x7e) then
    let T := mkTerminal (fun r c => if (r =? term_row T) && (c =? term_col T) then b else term_char T r c) (term_col T) (term_row T) in
    if term_col T <? 79 then mkTerminal (term_char T) (term_col T + 1) (term_row T) else term_newline T
  else T.

(** * The window in memory *)

Lemma foldl_const {A B} (f : A -> A) (l : list B) (a : A) : foldl (fun a _ => f a) a l = Nat.iter (length l) f a.
Proof. revert a. induction l as [|x l IH]; intros a; [done|]. cbn [foldl]. rewrite IH. cbn [length]. by rewrite Nat.iter_succ_r. Qed.

(** The 4000 bytes at [base] are the physical bytes at [p]. *)
Record window (tr : Z -> Z) (base p : Z) : Prop := {
  window_base : in_space base 4000;
  window_phys : in_space p 4000;
  window_tr : forall o, 0 <= o < 4000 -> tr (base + o) = p + o
}.

(** Nothing but the window at [p] has changed. *)
Definition only_window (p : Z) (m m' : mem) : Prop := forall a, ~ (p <= a < p + 4000) -> m' !! a = m !! a.

Lemma only_window_refl p m : only_window p m m.
Proof. done. Qed.
Lemma only_window_trans p m1 m2 m3 : only_window p m1 m2 -> only_window p m2 m3 -> only_window p m1 m3.
Proof. intros H1 H2 a Ha. rewrite H2, H1; done. Qed.
Lemma only_window_store p m o v : in_space p 4000 -> 0 <= o < 4000 -> only_window p m (store8 m (p + o) v).
Proof. intros [] Ho a Ha. unfold store8. rewrite u32_small by (mach_unfold; lia). apply lookup_insert_ne. lia. Qed.

Section window.
Context {tr : Z -> Z} {base p : Z} (Hw : window tr base p).

Lemma write_at m o v : 0 <= o < 4000 -> TextMode.write_volatile tr m (base + o) v = store8 m (p + o) v.
Proof. intros Ho. destruct Hw as [[] [] Htr]. unfold TextMode.write_volatile. by rewrite u32_small, Htr by (mach_unfold; lia). Qed.
Lemma read_at m o : 0 <= o < 4000 -> TextMode.read_volatile tr m (base + o) = load8 m (p + o).
Proof. intros Ho. destruct Hw as [[] [] Htr]. unfold TextMode.read_volatile. by rewrite u32_small, Htr by (mach_unfold; lia). Qed.
Lemma load_at m o o' v : 0 <= o < 4000 -> 0 <= o' < 4000 ->
  load8 (store8 m (p + o) v) (p + o') = if o' =? o then u8 v else load8 m (p + o').
Proof.
  intros Ho Ho'. destruct Hw as [[] [] _]. rewrite load8_store8, !u32_small by (mach_unfold; lia).
  destruct (Z.eqb_spec o' o), (Z.eqb_spec (p + o) (p + o')); try done; lia.
Qed.

Lemma clear_cells_spec m t offset limit : base_pointer t = base -> 0 <= offset -> limit <= 4000 ->
  let m' := TextMode.clear_cells tr m t offset limit in
  only_window p m m' /\
  forall o, 0 <= o < 4000 -> load8 m' (p + o) =
    if (offset <=? o) && (o <? limit) && ((o - offset) mod 2 =? 0) then 0x20 else load8 m (p + o).
Proof.
  intros Hb Ho Hl. unfold TextMode.clear_cells. rewrite Hb.
  assert (Hk : forall k : nat, offset + 2 * Z.of_nat k <= limit + 1 ->
    let m' := foldl (fun m i => TextMode.write_volatile tr m (base + (offset + 2 * i)) 0x20) m (seqZ 0 (Z.of_nat k)) in
    only_window p m m' /\ forall o, 0 <= o < 4000 -> load8 m' (p + o) =
      if (offset <=? o) && (o <? offset + 2 * Z.of_nat k) && ((o - offset) mod 2 =? 0) then 0x20 else load8 m (p + o)).
  { induction k as [|k IH]; intros Hk.
    - split; [done|]. intros o Ho'. destruct (Z.leb_spec offset o), (Z.ltb_spec o (offset + 2 * Z.of_nat 0)); try done. lia.
    - replace (Z.of_nat (S k)) with (Z.of_nat k + 1) by lia. rewrite seqZ_snoc, foldl_app by lia. cbn [foldl].
      destruct IH as [F1 F2]; [lia|]. rewrite Z.add_0_l, write_at by lia. pose proof Hw as [_ Hp _]. split.
      + eapply only_window_trans; [exact F1|]. apply only_window_store; [done|lia].
      + intros o Ho'. rewrite load_at, F2 by lia. destruct (Z.eqb_spec o (offset + 2 * Z.of_nat k)) as [->|Hne].
        * rewrite (proj2 (Z.leb_le _ _)), (proj2 (Z.ltb_lt _ _)), (proj2 (Z.eqb_eq _ _)) by mlia. done.
        * destruct (Z.leb_spec offset o), (Z.ltb_spec o (offset + 2 * Z.of_nat k)), (Z.ltb_spec o (offset + 2 * (Z.of_nat k + 1))),
            (Z.eqb_spec ((o - offset) mod 2) 0); try done; exfalso; mlia. }
  destruct (Z.le_gt_cases (limit + 1) offset) as [Hle|Hgt].
  - assert (Hn : (limit - offset + 1) / 2 <= 0) by mlia. rewrite seqZ_nil by lia. split; [done|]. intros o Ho'. cbn.
    destruct (Z.leb_spec offset o), (Z.ltb_spec o limit); try done; lia.
  - destruct (Hk (Z.to_nat ((limit - offset + 1) / 2))) as [F1 F2]; [mlia|]. rewrite Z2Nat.id in F1, F2 by mlia.
    split; [done|]. intros o Ho'. rewrite F2 by done.
    destruct (Z.leb_spec offset o), (Z.ltb_spec o limit), (Z.ltb_spec o (offset + 2 * ((limit - offset + 1) / 2))),
      (Z.eqb_spec ((o - offset) mod 2) 0); try done; exfalso; mlia.
Qed.

Lemma each_cell_iter rows f md : TextMode.each_cell rows f md = Nat.iter (Z.to_nat rows * 80) f md.
Proof.
  unfold TextMode.each_cell. replace (Z.to_nat rows) with (length (seqZ 0 rows)) by (rewrite length_seqZ; lia).
  revert md. induction (seqZ 0 rows) as [|x l IH]; intros md; [done|]. cbn [foldl length Nat.mul].
  rewrite IH, foldl_const, Nat.add_comm, Nat.iter_add. done.
Qed.

(** [n] cells are moved up by [off] bytes. *)
Lemma copy_cells_spec m off n : 0 < off -> Z.of_nat n * 2 + off <= 4000 ->
  exists m', Nat.iter n (TextMode.copy_cell tr off) (m, base) = (m', base + 2 * Z.of_nat n) /\ only_window p m m' /\
    forall o, 0 <= o < 4000 -> load8 m' (p + o) = load8 m (p + (if o <? 2 * Z.of_nat n then o + off else o)).
Proof.
  intros Hoff. induction n as [|n IH]; intros Hn.
  - exists m. split; [cbn; f_equal; lia|]. split; [done|]. intros o Ho. by destruct (Z.ltb_spec o (2 * Z.of_nat 0)); [lia|].
  - destruct IH as (m' & E1 & F1 & F2); [lia|]. rewrite Nat.iter_succ, E1. unfold TextMode.copy_cell.
    rewrite <- !Z.add_assoc, !(read_at m'), !write_at by lia.
    eexists. split; [f_equal; lia|]. pose proof Hw as [_ Hp _]. split.
    + eapply only_window_trans; [exact F1|]. eapply only_window_trans; apply only_window_store; (done || lia).
    + intros o Ho. rewrite load_at, load_at by lia. rewrite !u8_small by apply load8_range.
      rewrite !F2 by lia. destruct (Z.eqb_spec o (2 * Z.of_nat n + 1)), (Z.eqb_spec o (2 * Z.of_nat n));
        repeat match goal with |- context [?a <? ?b] => destruct (Z.ltb_spec a b) end; try lia; do 2 f_equal; lia.
Qed.

(** [n] blank cells from offset [k] on. *)
Lemma blank_cells_spec m t k n : 0 <= k -> Z.of_nat n * 2 + k <= 4000 -> is_u8 (current_color t) -> k mod 2 = 0 ->
  exists m', Nat.iter n (TextMode.blank_cell tr t) (m, base + k) = (m', base + k + 2 * Z.of_nat n) /\ only_window p m m' /\
    forall o, 0 <= o < 4000 -> load8 m' (p + o) =
      if (k <=? o) && (o <? k + 2 * Z.of_nat n) then if o mod 2 =? 0 then 0x20 else current_color t else load8 m (p + o).
Proof.
  intros Hk. induction n as [|n IH]; intros Hn Hc Hk2.
  - exists m. split; [cbn; f_equal; lia|]. split; [done|]. intros o Ho. destruct (Z.leb_spec k o), (Z.ltb_spec o (k + 2 * Z.of_nat 0)); try done; lia.
  - destruct IH as (m' & E1 & F1 & F2); [lia|done|done|]. rewrite Nat.iter_succ, E1. unfold TextMode.blank_cell.
    rewrite <- !Z.add_assoc, !write_at by lia.
    eexists. split; [f_equal; lia|]. pose proof Hw as [_ Hp _]. split.
    + eapply only_window_trans; [exact F1|]. eapply only_window_trans; apply only_window_store; (done || lia).
    + intros o Ho. rewrite load_at, load_at by lia. rewrite (u8_small (current_color t)) by done. rewrite !F2 by lia.
      destruct (Z.eqb_spec o (k + (2 * Z.of_nat n + 1))), (Z.eqb_spec o (k + 2 * Z.of_nat n));
        repeat match goal with |- context [?a <? ?b] => destruct (Z.ltb_spec a b) | |- context [?a <=? ?b] => destruct (Z.leb_spec a b)
          | |- context [?a =? 0] => destruct (Z.eqb_spec a 0) end; try done; exfalso; mlia.
Qed.

(** Scrolling moves every row up by [rows] and blanks the rows at the bottom. *)
Lemma scroll_spec m t rows : base_pointer t = base -> 1 <= rows <= 24 -> is_u8 (current_color t) ->
  let m' := TextMode.scroll tr m t rows in
  only_window p m m' /\
  forall o, 0 <= o < 4000 -> load8 m' (p + o) =
    if o <? 4000 - 160 * rows then load8 m (p + (o + 160 * rows))
    else if o mod 2 =? 0 then 0x20 else current_color t.
Proof.
  intros Hb Hr Hc. unfold TextMode.scroll. destruct (Z.eqb_spec rows 0); [lia|]. destruct (Z.gtb_spec rows 24); [lia|].
  rewrite !each_cell_iter, Hb.
  destruct (copy_cells_spec m (rows * 80 * 2) (Z.to_nat (25 - rows) * 80)) as (m1 & -> & F1 & F2); [lia|lia|].
  destruct (blank_cells_spec m1 t (2 * Z.of_nat (Z.to_nat (25 - rows) * 80)) (Z.to_nat rows * 80)) as (m2 & -> & G1 & G2); [lia|lia|done|mlia|].
  cbn [fst]. split; [by eapply only_window_trans|]. intros o Ho. rewrite G2, F2 by lia.
  replace (2 * Z.of_nat (Z.to_nat (25 - rows) * 80)) with (4000 - 160 * rows) by lia.
  replace (2 * Z.of_nat (Z.to_nat rows * 80)) with (160 * rows) by lia.
  destruct (Z.leb_spec (4000 - 160 * rows) o), (Z.ltb_spec o (4000 - 160 * rows)), (Z.ltb_spec o (4000 - 160 * rows + 160 * rows)); cbn [andb]; try lia; try done.
  do 2 f_equal. lia.
Qed.

(** ** Text *)

Definition on_screen (t : TextMode) : Prop :=
  base_pointer t = base /\ 0 <= cursor_col t <= 79 /\ 0 <= cursor_row t <= 24 /\ is_u8 (current_color t).

(** The characters of the screen are those of the terminal [T]. *)
Definition shows (m : mem) (t : TextMode) (T : Terminal) : Prop :=
  on_screen t /\ cursor_col t = term_col T /\ cursor_row t = term_row T /\
  forall r c, 0 <= r < 25 -> 0 <= c < 80 -> load8 m (p + (160 * r + 2 * c)) = term_char T r c.

Lemma same_chars m m' t T : shows m t T ->
  (forall o, 0 <= o < 4000 -> o mod 2 = 0 -> load8 m' (p + o) = load8 m (p + o)) -> shows m' t T.
Proof. intros (Ht & Hc & Hr & Hs) Hm. split_and!; try done. intros r c Hr' Hc'. rewrite Hm by mlia. by apply Hs. Qed.

(** A write to a colour byte. *)
Lemma color_write_spec m o v : 0 <= o < 4000 -> o mod 2 = 1 ->
  let m' := TextMode.write_volatile tr m (base + o) v in
  only_window p m m' /\ forall o', 0 <= o' < 4000 -> o' mod 2 = 0 -> load8 m' (p + o') = load8 m (p + o').
Proof.
  intros Ho H1. cbv zeta. rewrite write_at by done. pose proof Hw as [_ Hp _]. split; [by apply only_window_store|].
  intros o' Ho' H0. rewrite load_at by done. by destruct (Z.eqb_spec o' o); [subst; lia|].
Qed.

Lemma invert_cursor_spec m t : on_screen t ->
  let m' := TextMode.invert_cursor tr m t in
  only_window p m m' /\ forall o, 0 <= o < 4000 -> o mod 2 = 0 -> load8 m' (p + o) = load8 m (p + o).
Proof. intros (Hb & Hc & Hr & _). unfold TextMode.invert_cursor. rewrite Hb. apply color_write_spec; mlia. Qed.
Lemma disable_cursor_spec m t : on_screen t ->
  let m' := TextMode.disable_cursor tr m t in
  only_window p m m' /\ forall o, 0 <= o < 4000 -> o mod 2 = 0 -> load8 m' (p + o) = load8 m (p + o).
Proof. intros (Hb & Hc & Hr & _). unfold TextMode.disable_cursor. rewrite Hb. apply color_write_spec; mlia. Qed.

Lemma newline_shows m t T : shows m t T ->
  let '(m', t') := TextMode.newline tr m t in only_window p m m' /\ shows m' t' (term_newline T).
Proof.
  intros (Ht & Hc & Hr & Hs). pose proof Ht as (Hb & Hc' & Hr' & Hcol). unfold TextMode.newline, term_newline. cbn [cursor_row cursor_col base_pointer current_color].
  rewrite <- Hr. destruct (Z.ltb_spec (cursor_row t) 24).
  - split; [done|]. split; [split_and!; try done; cbn; lia|]. split_and!; done.
  - destruct (scroll_spec m (mkTextMode (base_pointer t) 0 (cursor_row t) (current_color t)) 1 Hb ltac:(lia) Hcol) as [F1 F2].
    split; [done|]. split; [split_and!; try done; cbn; lia|]. split_and!; [done|cbn; lia|].
    intros r c Hr2 Hc2. rewrite F2 by lia. cbn [term_char]. destruct (Z.ltb_spec (160 * r + 2 * c) (4000 - 160 * 1)), (Z.ltb_spec r 24); try lia.
    + replace (160 * r + 2 * c + 160 * 1) with (160 * (r + 1) + 2 * c) by lia. apply Hs; lia.
    + by replace ((160 * r + 2 * c) mod 2 =? 0) with true by (symmetry; apply Z.eqb_eq; mlia).
Qed.

(** A byte is written as a terminal writes it. *)
Lemma write_byte_shows m t T b : shows m t T -> is_u8 b ->
  let '(m', t') := TextMode.write_byte tr m t b in only_window p m m' /\ shows m' t' (term_write T b).
Proof.
  intros Hs Hb8. unfold TextMode.write_byte, term_write. destruct (Z.eqb_spec b 10) as [->|Hb].
  { destruct (disable_cursor_spec m t (proj1 Hs)) as [F1 F2]. pose proof (newline_shows _ _ _ (same_chars _ _ _ _ Hs F2)) as Hn.
    destruct (TextMode.newline tr _ t) as [m' t']. destruct Hn as [G1 G2]. split; [by eapply only_window_trans|done]. }
  destruct ((0x20 <=? b) && (b <=? 0x7e)); [|done].
  destruct Hs as (Ht & Hc & Hr & Hch). pose proof Ht as (Hbase & Hc' & Hr' & Hcol). rewrite Hbase.
  set (o := cursor_row t * 160 + cursor_col t * 2). rewrite !write_at by lia.
  set (m1 := store8 (store8 _ _ _) _ _). pose proof Hw as [_ Hp _].
  assert (F1 : only_window p m m1) by (eapply only_window_trans; apply only_window_store; (done || lia)).
  set (T1 := mkTerminal (fun r c => if (r =? term_row T) && (c =? term_col T) then b else term_char T r c) (term_col T) (term_row T)).
  assert (Hs1 : shows m1 t T1).
  { split_and!; try done. intros r c Hr2 Hc2. unfold m1. rewrite !load_at by lia. cbn [term_char T1]. rewrite <- Hr, <- Hc.
    destruct (Z.eqb_spec (160 * r + 2 * c) (o + 1)); [lia|]. rewrite (u8_small b) by done.
    destruct (Z.eqb_spec (160 * r + 2 * c) o), (Z.eqb_spec r (cursor_row t)), (Z.eqb_spec c (cursor_col t)); cbn [andb]; try lia; try done; by apply Hch. }
  unfold TextMode.advance_cursor. change (term_col T1 <? 79) with (term_col T <? 79). rewrite Hc. destruct (Z.ltb_spec (term_col T) 79).
  - split; [done|]. destruct Hs1 as (_ & _ & _ & Hch1). split; [split_and!; try done; cbn; lia|]. split_and!; done.
  - pose proof (newline_shows _ _ _ Hs1) as Hn. destruct (TextMode.newline tr m1 t) as [m' t']. destruct Hn as [G1 G2].
    split; [by eapply only_window_trans|done].
Qed.
End window.
