(* ===== verification/Descriptors.v ===== *)
(** Descriptor tables: [gdt.rs], [idt.rs] and [x86/segments.rs].

    What the processor makes of a descriptor (base, limit, rings; gate target and rights) is
    defined beside the code that packs it, and the tables are stated in those terms.  The
    addresses of handlers and of the task state segment are given by the linker. *)

From S2P Require Import Prelude.

(** * Segment descriptors *)

Definition GDT_ACCESS_PRESENT : Z := Z.shiftl 1 7.
Definition GDT_ACCESS_RING_0 : Z := 0.
Definition GDT_ACCESS_RING_1 : Z := Z.shiftl 1 5.
Definition GDT_ACCESS_RING_2 : Z := Z.shiftl 2 5.
Definition GDT_ACCESS_RING_3 : Z := Z.shiftl 3 5.
Definition GDT_ACCESS_CODE_DATA_DESCRIPTOR : Z := Z.shiftl 1 4.
Definition GDT_ACCESS_SYSTEM_DESCRIPTOR : Z := 0.
Definition GDT_ACCESS_EXECUTABLE : Z := Z.shiftl 1 3.
Definition GDT_ACCESS_CONFORMING : Z := Z.shiftl 1 2.
Definition GDT_ACCESS_GROW_DOWN : Z := Z.shiftl 1 2.
Definition GDT_ACCESS_RW : Z := Z.shiftl 1 1.
Definition GDT_ACCESS_ACCESSED : Z := 1.
Definition GDT_FLAG_GRANULARITY_4KB : Z := Z.shiftl 1 7.
Definition GDT_FLAG_GRANULARITY_1B : Z := 0.
Definition GDT_FLAG_SIZE_32_BIT : Z := Z.shiftl 1 6.
Definition GDT_FLAG_SIZE_16_BIT : Z := 0.

Record GDTEntry : Type := mkGDTEntry {
  limit_low : Z; base_low : Z; base_middle : Z; access : Z; flags_and_limit_high : Z; base_high : Z
}.

Module GDTEntry.
Definition new (base limit access flags : Z) : GDTEntry :=
  mkGDTEntry (limit &u 0xffff) (base &u 0xffff) ((base >>u 16) &u 0xff) access
    ((flags &u 0xe0) |u ((limit >>u 16) &u 0xf)) ((base >>u 24) &u 0xff).
Definition set_base (e : GDTEntry) (base : Z) : GDTEntry :=
  mkGDTEntry (limit_low e) (base &u 0xffff) ((base >>u 16) &u 0xff) (access e)
    (flags_and_limit_high e) ((base >>u 24) &u 0xff).
Definition set_limit (e : GDTEntry) (limit : Z) : GDTEntry :=
  mkGDTEntry (limit &u 0xffff) (base_low e) (base_middle e) (access e)
    ((flags_and_limit_high e &u 0xf0) |u ((limit >>u 16) &u 0xf)) (base_high e).
End GDTEntry.

Definition GDT : list GDTEntry :=
  let code := GDT_ACCESS_CODE_DATA_DESCRIPTOR |u GDT_ACCESS_EXECUTABLE |u GDT_ACCESS_RW in
  let data := GDT_ACCESS_CODE_DATA_DESCRIPTOR |u GDT_ACCESS_RW in
  let flags := GDT_FLAG_GRANULARITY_4KB |u GDT_FLAG_SIZE_32_BIT in
  [GDTEntry.new 0 0 0 0;
   GDTEntry.new 0 0xffffffff (GDT_ACCESS_PRESENT |u GDT_ACCESS_RING_0 |u code) flags;
   GDTEntry.new 0 0xffffffff (GDT_ACCESS_PRESENT |u GDT_ACCESS_RING_0 |u data) flags;
   GDTEntry.new 0 0xffffffff (GDT_ACCESS_PRESENT |u GDT_ACCESS_RING_3 |u code) flags;
   GDTEntry.new 0 0xffffffff (GDT_ACCESS_PRESENT |u GDT_ACCESS_RING_3 |u data) flags;
   GDTEntry.new 0 0xffffffff
     (GDT_ACCESS_PRESENT |u GDT_ACCESS_RING_3 |u GDT_ACCESS_SYSTEM_DESCRIPTOR |u GDT_ACCESS_EXECUTABLE |u GDT_ACCESS_ACCESSED) 0].

(** [GDTDescriptor] and [IDTDescriptor]. *)
Record TableDescriptor : Type := mkTableDescriptor { td_size : Z; td_offset : Z }.

(** * The task state segment *)

Record TaskStateSegment : Type := mkTSS {
  prev_tss : Z; esp0 : Z; ss0 : Z; esp1 : Z; ss1 : Z; esp2 : Z; ss2 : Z; tss_cr3 : Z; tss_eip : Z;
  tss_eflags : Z; tss_eax : Z; tss_ecx : Z; tss_edx : Z; tss_ebx : Z; tss_esp : Z; tss_ebp : Z;
  tss_esi : Z; tss_edi : Z; tss_es : Z; tss_cs : Z; tss_ss : Z; tss_ds : Z; tss_fs : Z; tss_gs : Z;
  ldt : Z; trap : Z; iomap_base : Z
}.
(** 25 words and two half words. *)
Definition TSS_SIZE : Z := 25 * 4 + 2 * 2.

Module TaskStateSegment.
Definition zero (t : TaskStateSegment) : TaskStateSegment :=
  mkTSS 0 0 0 0 0 0 0 0 0 0 0 0 0 0 0 0 0 0 0 0 0 0 0 0 0 0 0.
Definition with_stack (t : TaskStateSegment) (esp ss : Z) : TaskStateSegment :=
  mkTSS (prev_tss t) esp ss (esp1 t) (ss1 t) (esp2 t) (ss2 t) (tss_cr3 t) (tss_eip t) (tss_eflags t) (tss_eax t)
    (tss_ecx t) (tss_edx t) (tss_ebx t) (tss_esp t) (tss_ebp t) (tss_esi t) (tss_edi t) (tss_es t) (tss_cs t)
    (tss_ss t) (tss_ds t) (tss_fs t) (tss_gs t) (ldt t) (trap t) (iomap_base t).
Definition set_stack_segment (t : TaskStateSegment) (segment : Z) : TaskStateSegment := with_stack t (esp0 t) segment.
Definition set_stack_pointer (t : TaskStateSegment) (pointer : Z) : TaskStateSegment := with_stack t pointer (ss0 t).
End TaskStateSegment.

(** The statics, and the table and task registers the two instructions load. *)
Record GdtState : Type := mkGdtState { gdt : list GDTEntry; tss : TaskStateSegment; gdtr : TableDescriptor; tr : Z }.

Definition lgdt (s : GdtState) (desc : TableDescriptor) : GdtState := mkGdtState (gdt s) (tss s) desc (tr s).
Definition ltr (s : GdtState) (index : Z) : GdtState := mkGdtState (gdt s) (tss s) (gdtr s) (index |u 3).

(** [gdt_addr] and [tss_addr] are the addresses of the statics. *)
Definition gdt_init (gdt_addr tss_addr : Z) (s : GdtState) : comp GdtState :=
  let desc := mkTableDescriptor (u16 (lenZ (gdt s) *u 8 -u 1)) gdt_addr in
  let t := TaskStateSegment.set_stack_segment (TaskStateSegment.zero (tss s)) 0x10 in
  e ← index (gdt s) 5;
  g ← store (gdt s) 5 (GDTEntry.set_limit e TSS_SIZE);
  e ← index g 5;
  g ← store g 5 (GDTEntry.set_base e tss_addr);
  Ret (ltr (lgdt (mkGdtState g t (gdtr s) (tr s)) desc) 0x28).

Definition set_tss_stack_pointer (s : GdtState) (sp : Z) : GdtState :=
  mkGdtState (gdt s) (TaskStateSegment.set_stack_pointer (tss s) sp) (gdtr s) (tr s).

(** * Interrupt gates *)

(** [SegmentSelector::new]. *)
Definition selector_new (index priv_level : Z) : Z := u16 (Z.shiftl index 3) |u (priv_level &u 3).

Definition IDT_PRESENT : Z := Z.shiftl 1 7.
Definition IDT_DESCRIPTOR_RING_0 : Z := 0.
Definition IDT_DESCRIPTOR_RING_1 : Z := Z.shiftl 1 5.
Definition IDT_DESCRIPTOR_RING_2 : Z := Z.shiftl 2 5.
Definition IDT_DESCRIPTOR_RING_3 : Z := Z.shiftl 3 5.
Definition IDT_GATE_TYPE_TASK_32 : Z := 0x5.
Definition IDT_GATE_TYPE_INT_16 : Z := 0x6.
Definition IDT_GATE_TYPE_TRAP_16 : Z := 0x7.
Definition IDT_GATE_TYPE_INT_32 : Z := 0xe.
Definition IDT_GATE_TYPE_TRAP_32 : Z := 0xf.

Record IDTEntry : Type := mkIDTEntry {
  offset_low : Z; selector : Z; idt_zero : Z; type_and_attributes : Z; offset_high : Z
}.

Module IDTEntry.
Definition new : IDTEntry := mkIDTEntry 0 (selector_new 1 0) 0 0 0.
Definition set_handler_at_offset (e : IDTEntry) (offset : Z) : IDTEntry :=
  mkIDTEntry (u16 offset) (selector e) (idt_zero e)
    (IDT_PRESENT |u IDT_DESCRIPTOR_RING_0 |u IDT_GATE_TYPE_INT_32) (u16 (offset >>u 16)).
Definition make_usermode_accessible (e : IDTEntry) : IDTEntry :=
  mkIDTEntry (offset_low e) (selector e) (idt_zero e) (type_and_attributes e |u IDT_DESCRIPTOR_RING_3) (offset_high e).
Definition set_handler (func : Z) (e : IDTEntry) : IDTEntry := set_handler_at_offset e func.
Definition set_handler_with_error (func : Z) (e : IDTEntry) : IDTEntry := set_handler_at_offset e func.
Definition set_usermode_handler (func : Z) (e : IDTEntry) : IDTEntry :=
  make_usermode_accessible (set_handler_at_offset e func).
End IDTEntry.

Inductive handler : Type :=
| DivideByZero | DoubleFault | Gpf | PageFaultHandler | SyscallHandler | PitHandler | KeyboardHandler | Com1Handler | FloppyHandler.

Definition IDT : list IDTEntry := replicate 256 IDTEntry.new.

Definition update_gate (i : Z) (f : IDTEntry -> IDTEntry) (l : list IDTEntry) : comp (list IDTEntry) :=
  e ← index l i; store l i (f e).

(** [addr] gives the address of each handler, [idt_addr] that of the table. *)
Definition idt_init (addr : handler -> Z) (idt_addr : Z) (idt : list IDTEntry) : comp (list IDTEntry * TableDescriptor) :=
  let desc := mkTableDescriptor (u16 (lenZ idt *u 8 -u 1)) idt_addr in
  idt ← update_gate 0 (IDTEntry.set_handler (addr DivideByZero)) idt;
  idt ← update_gate 8 (IDTEntry.set_handler (addr DoubleFault)) idt;
  idt ← update_gate 0xd (IDTEntry.set_handler_with_error (addr Gpf)) idt;
  idt ← update_gate 0xe (IDTEntry.set_handler_with_error (addr PageFaultHandler)) idt;
  idt ← update_gate 0x2b (IDTEntry.set_usermode_handler (addr SyscallHandler)) idt;
  idt ← update_gate 0x30 (IDTEntry.set_handler (addr PitHandler)) idt;
  idt ← update_gate 0x31 (IDTEntry.set_handler (addr KeyboardHandler)) idt;
  idt ← update_gate 0x34 (IDTEntry.set_handler (addr Com1Handler)) idt;
  idt ← update_gate 0x36 (IDTEntry.set_handler (addr FloppyHandler)) idt;
  Ret (idt, desc).

(** * What the processor sees *)

(** A segment: linear base, last offset, ring, and whether code can be executed in it. *)
Record segment : Type := mkSegment { seg_base : Z; seg_last : Z; seg_ring : Z; seg_code : bool; seg_system : bool }.

Definition decode (e : GDTEntry) : option segment :=
  let limit := limit_low e + 65536 * (flags_and_limit_high e mod 16) in
  if Z.testbit (access e) 7 then
    Some (mkSegment (base_low e + 65536 * base_middle e + 16777216 * base_high e)
            (if Z.testbit (flags_and_limit_high e) 7 then limit * 4096 + 4095 else limit)
            ((access e / 32) mod 4) (Z.testbit (access e) 3) (negb (Z.testbit (access e) 4)))
  else None.

(** A gate: the code it enters, the lowest-privileged ring that may call it by software, and
    whether interrupts are disabled on entry. *)
Record gate : Type := mkGate { gate_offset : Z; gate_selector : Z; gate_ring : Z; gate_disables : bool }.

Definition decode_gate (e : IDTEntry) : option gate :=
  if Z.testbit (type_and_attributes e) 7 then
    Some (mkGate (offset_low e + 65536 * offset_high e) (selector e) ((type_and_attributes e / 32) mod 4)
            (type_and_attributes e mod 16 =? 0xe))
  else None.

(** The table of the kernel, by vector. *)
Definition vectors (v : Z) : option (handler * Z) :=
  if 0x36 =? v then Some (FloppyHandler, 0) else if 0x34 =? v then Some (Com1Handler, 0)
  else if 0x31 =? v then Some (KeyboardHandler, 0) else if 0x30 =? v then Some (PitHandler, 0)
  else if 0x2b =? v then Some (SyscallHandler, 3)
  else if 0xe =? v then Some (PageFaultHandler, 0) else if 0xd =? v then Some (Gpf, 0)
  else if 8 =? v then Some (DoubleFault, 0) else if 0 =? v then Some (DivideByZero, 0)
  else None.

Lemma split_bytes base : is_u32 base ->
  base_low (GDTEntry.new base 0 0 0) + 65536 * base_middle (GDTEntry.new base 0 0 0) + 16777216 * base_high (GDTEntry.new base 0 0 0) = base.
Proof. intros Hb. cbn [base_low base_middle base_high GDTEntry.new]. rewrite !shr_div, !land_ff, land_ffff by lia.
  change (2 ^ 16) with 65536. change (2 ^ 24) with 16777216. mlia. Qed.

(** After initialisation the segment table has the null entry, flat 4 GiB code and data
    segments for ring 0 at 0x08 and 0x10 and for ring 3 at 0x18 and 0x20, and at 0x28 the
    task state segment, which the task register selects and whose ring 0 stack is in the
    kernel's data segment; the table register covers exactly the six entries. *)
Theorem gdt_init_segments gdt_addr tss_addr t0 d0 r0 :
  is_u32 tss_addr ->
  exists s, gdt_init gdt_addr tss_addr (mkGdtState GDT t0 d0 r0) = Ret s /\
    decode <$> gdt s =
      [None; Some (mkSegment 0 0xffffffff 0 true false); Some (mkSegment 0 0xffffffff 0 false false);
       Some (mkSegment 0 0xffffffff 3 true false); Some (mkSegment 0 0xffffffff 3 false false);
       Some (mkSegment tss_addr TSS_SIZE 3 true true)] /\
    gdtr s = mkTableDescriptor 47 gdt_addr /\ tr s / 8 = 5 /\ ss0 (tss s) = 0x10 /\
    forall sp, esp0 (tss (set_tss_stack_pointer s sp)) = sp /\ ss0 (tss (set_tss_stack_pointer s sp)) = 0x10.
Proof.
  intros Ht. pose proof (split_bytes tss_addr Ht) as Hb. cbn [base_low base_middle base_high GDTEntry.new] in Hb.
  unfold gdt_init. cbn [gdt tss]. 
  rewrite (index_Ret GDT 5 (GDTEntry.new 0 0xffffffff 0xe9 0)) by reflexivity. cbn [mbind comp_bind].
  rewrite store_Ret by (by vm_compute). cbn [mbind comp_bind].
  rewrite (index_Ret _ 5 (GDTEntry.set_limit (GDTEntry.new 0 0xffffffff 0xe9 0) TSS_SIZE)) by reflexivity. cbn [mbind comp_bind].
  rewrite store_Ret by (by vm_compute). cbn [mbind comp_bind]. eexists. split; [done|]. split; [|by split_and!].
  cbn [gdt ltr lgdt]. unfold GDTEntry.set_base.
  set (a := Z.land tss_addr 0xffff) in *. set (b := Z.land (Z.shiftr tss_addr 16) 0xff) in *. set (c := Z.land (Z.shiftr tss_addr 24) 0xff) in *.
  clearbody a b c.
  cbv -[Z.add Z.mul]. by rewrite Hb.
Qed.

(** C40: After initialisation the vectors of the processor's exceptions, of the system call and
    of the four device interrupts (0x30 plus the line number) enter their handlers in the
    kernel's code segment with interrupts disabled; only the system call can be called from
    user mode, and no other vector has a gate. *)
Theorem idt_init_vectors addr idt_addr :
  (forall h, is_u32 (addr h)) ->
  exists idt, idt_init addr idt_addr IDT = Ret (idt, mkTableDescriptor 2047 idt_addr) /\ lenZ idt = 256 /\
    forall v, 0 <= v < 256 ->
      decode_gate <$> nthZ idt v =
      Some ((fun '(h, ring) => mkGate (addr h) (selector_new 1 0) ring true) <$> vectors v).
Proof.
  intros Ha.
  assert (Hg : forall i f l e, nthZ l i = Some e -> update_gate i f l = Ret (setZ l i (f e))).
  { intros i f l e He. unfold update_gate. rewrite (index_Ret _ _ e) by done. cbn [mbind comp_bind].
    by rewrite store_Ret by (by eapply nthZ_Some). }
  unfold idt_init. do 9 (erewrite Hg by reflexivity; cbn [mbind comp_bind]).
  eexists. split; [reflexivity|]. split; [by vm_compute|].
  assert (Hs : forall h, u16 (addr h) + 65536 * u16 (Z.shiftr (addr h) 16) = addr h).
  { intros h. rewrite shr_div by lia. change (2 ^ 16) with 65536. specialize (Ha h). mlia. }
  assert (Hd : forall h e, decode_gate (IDTEntry.set_handler (addr h) e) = Some (mkGate (addr h) (selector e) 0 true) /\
    decode_gate (IDTEntry.set_handler_with_error (addr h) e) = Some (mkGate (addr h) (selector e) 0 true) /\
    decode_gate (IDTEntry.set_usermode_handler (addr h) e) = Some (mkGate (addr h) (selector e) 3 true)).
  { intros h e. unfold decode_gate. cbn [IDTEntry.set_handler IDTEntry.set_handler_with_error IDTEntry.set_usermode_handler
      IDTEntry.make_usermode_accessible IDTEntry.set_handler_at_offset offset_low offset_high selector type_and_attributes].
    rewrite Hs. done. }
  intros v Hv. rewrite !nthZ_setZ_in by (rewrite ?lenZ_setZ; by vm_compute).
  unfold vectors.
  repeat match goal with |- context [?k =? v] =>
    destruct (k =? v); [cbn [fmap option_fmap option_map]; f_equal; etrans; [apply Hd|reflexivity]|] end.
  unfold IDT. by rewrite nthZ_replicate by lia.
Qed.

(** The witnesses. *)
Lemma gdt_init_segments_witness :
  exists s, gdt_init 0x1000 0xc0123456 (mkGdtState GDT (TaskStateSegment.zero (mkTSS 0 0 0 0 0 0 0 0 0 0 0 0 0 0 0 0 0 0 0 0 0 0 0 0 0 0 0)) (mkTableDescriptor 0 0) 0) = Ret s /\
    decode <$> gdt s =
      [None; Some (mkSegment 0 0xffffffff 0 true false); Some (mkSegment 0 0xffffffff 0 false false);
       Some (mkSegment 0 0xffffffff 3 true false); Some (mkSegment 0 0xffffffff 3 false false);
       Some (mkSegment 0xc0123456 TSS_SIZE 3 true true)] /\
    gdtr s = mkTableDescriptor 47 0x1000 /\ tr s / 8 = 5 /\ ss0 (tss s) = 0x10 /\
    forall sp, esp0 (tss (set_tss_stack_pointer s sp)) = sp /\ ss0 (tss (set_tss_stack_pointer s sp)) = 0x10.
Proof. apply gdt_init_segments. by vm_compute. Defined.

Lemma idt_init_vectors_witness :
  exists idt, idt_init (fun _ => 0xc0101234) 0x2000 IDT = Ret (idt, mkTableDescriptor 2047 0x2000) /\ lenZ idt = 256 /\
    forall v, 0 <= v < 256 ->
      decode_gate <$> nthZ idt v = Some ((fun '(h, ring) => mkGate 0xc0101234 (selector_new 1 0) ring true) <$> vectors v).
Proof. apply (idt_init_vectors (fun _ => 0xc0101234) 0x2000). intros h. by vm_compute. Defined.
