(* ===== verification/Files.v ===== *)
(** Handles, cursors and names of files: [collections/slotlist.rs], [files/handle.rs],
    [files/cursor.rs], [files/filename.rs], [files/stat.rs], [files/ioctl.rs]. *)

From S2P Require Import Prelude.

(** * Slot lists *)

Module SlotList.
Section SlotList.
Context {T : Type}.

Definition SlotList : Type := list (option T).

Definition new : SlotList := [].
Definition with_capacity (capacity : Z) : SlotList := [].

(** The index of the first empty slot from [i] on. *)
Fixpoint find_none (slots : SlotList) (i : Z) : option Z :=
  match slots with
  | [] => None
  | None :: _ => Some i
  | Some _ :: slots' => find_none slots' (i + 1)
  end.

Definition find_empty_slot (slots : SlotList) : SlotList * Z :=
  match find_none slots 0 with
  | Some i => (slots, i)
  | None => (slots ++ [None], lenZ slots)
  end.

Definition insert (slots : SlotList) (item : T) : comp (SlotList * Z) :=
  let '(slots, i) := find_empty_slot slots in
  slots ← store slots i (Some item);
  Ret (slots, i).

Definition get (slots : SlotList) (i : Z) : option T :=
  match nthZ slots i with Some slot => slot | None => None end.

Definition remove (slots : SlotList) (i : Z) : SlotList * option T :=
  match nthZ slots i with
  | Some entry => (setZ slots i None, entry)
  | None => (slots, None)
  end.

Lemma find_none_spec slots k :
  match find_none slots k with
  | Some i => k <= i < k + lenZ slots /\ nthZ slots (i - k) = Some None /\
      forall j, 0 <= j < i - k -> exists x, nthZ slots j = Some (Some x)
  | None => forall j, 0 <= j < lenZ slots -> exists x, nthZ slots j = Some (Some x)
  end.
Proof.
  revert k. induction slots as [|[x|] slots IH]; intros k; simpl.
  - intros j Hj. change (lenZ (@nil (option T))) with 0 in Hj. lia.
  - assert (Hl : lenZ (Some x :: slots) = lenZ slots + 1) by (unfold lenZ; simpl; lia).
    assert (Hn : forall j, 0 < j -> nthZ (Some x :: slots) j = nthZ slots (j - 1)).
    { intros j Hj. unfold nthZ. destruct (Z.leb_spec 0 j), (Z.leb_spec 0 (j - 1)); try lia.
      replace (Z.to_nat j) with (S (Z.to_nat (j - 1))) by lia. done. }
    specialize (IH (k + 1)). rewrite Hl. destruct (find_none slots (k + 1)) as [i|].
    + destruct IH as (H1 & H2 & H3). split; [lia|]. split; [rewrite Hn by lia; rewrite <- H2; f_equal; lia|].
      intros j Hj. destruct (decide (j = 0)) as [->|]; [by exists x|]. rewrite Hn by lia. apply H3. lia.
    + intros j Hj. destruct (decide (j = 0)) as [->|]; [by exists x|]. rewrite Hn by lia. apply IH. lia.
  - assert (Hl : lenZ (@None T :: slots) = lenZ slots + 1) by (unfold lenZ; simpl; lia).
    pose proof (lenZ_nonneg slots). split; [lia|]. rewrite Z.sub_diag. split; [done|]. intros j Hj. lia.
Qed.

(** An item is stored in the lowest free slot and found there; no other index changes. *)
Lemma insert_spec slots x :
  exists slots' i, insert slots x = Ret (slots', i) /\ get slots i = None /\ 0 <= i <= lenZ slots /\
    (forall j, 0 <= j < i -> get slots j <> None) /\
    forall j, get slots' j = if j =? i then Some x else get slots j.
Proof.
  unfold insert, find_empty_slot. pose proof (find_none_spec slots 0) as H.
  destruct (find_none slots 0) as [i|].
  - destruct H as (H1 & H2 & H3). rewrite Z.sub_0_r in *. rewrite store_Ret by lia. cbn [mbind comp_bind].
    eexists _, i. split; [done|]. split; [unfold get; by rewrite H2|]. split; [lia|].
    split; [intros j Hj; destruct (H3 j Hj) as [y Hy]; unfold get; by rewrite Hy|].
    intros j. unfold get. rewrite nthZ_setZ_in by lia. rewrite Z.eqb_sym. by destruct (j =? i).
  - pose proof (lenZ_nonneg slots). assert (Hl : lenZ (slots ++ [None]) = lenZ slots + 1) by (rewrite lenZ_app; done).
    rewrite store_Ret by lia. cbn [mbind comp_bind]. eexists _, _. split; [done|].
    assert (Hg : forall j, get (slots ++ [None]) j = get slots j).
    { intros j. unfold get. destruct (Z.lt_ge_cases j (lenZ slots)); [by rewrite nthZ_app_l by lia|].
      rewrite nthZ_app_r by lia. rewrite (proj2 (nthZ_None slots j)) by lia.
      destruct (decide (j = lenZ slots)) as [->|]; [by rewrite Z.sub_diag|].
      by rewrite (proj2 (nthZ_None _ _)) by (change (lenZ [@None T]) with 1; lia). }
    split; [unfold get; by rewrite (proj2 (nthZ_None _ _)) by lia|]. split; [lia|].
    split; [intros j Hj; destruct (H j Hj) as [y Hy]; unfold get; by rewrite Hy|].
    intros j. unfold get at 1. rewrite nthZ_setZ_in by lia. rewrite Z.eqb_sym.
    destruct (Z.eqb_spec j (lenZ slots)); [done|]. apply Hg.
Qed.

Lemma remove_spec slots i :
  let '(slots', x) := remove slots i in
  x = get slots i /\ forall j, get slots' j = if j =? i then None else get slots j.
Proof.
  unfold remove. destruct (nthZ slots i) as [e|] eqn:E.
  - split; [unfold get; by rewrite E|]. intros j. unfold get. apply nthZ_Some in E as Hr.
    rewrite nthZ_setZ_in by done. rewrite Z.eqb_sym. by destruct (j =? i).
  - split; [unfold get; by rewrite E|]. intros j. unfold get. destruct (Z.eqb_spec j i) as [->|]; [by rewrite E|done].
Qed.

End SlotList.
Arguments SlotList : clear implicits.
End SlotList.

(** * File handles of a process *)

Record DriveHandlePair : Type := mkPair { drive : Z; local : Z }.
#[global] Instance DriveHandlePair_eq_dec : EqDecision DriveHandlePair.
Proof. solve_decision. Defined.

Definition pair_eqb (a b : DriveHandlePair) : bool := (drive a =? drive b) && (local a =? local b).

Definition MAX_OPEN_FILES : Z := 4096.

(** [next_id] of a [HandleAllocator]; the atomic addition wraps. *)
Module HandleAllocator.
Definition new : Z := 1.
Definition get_next (next_id : Z) : Z * Z := (next_id +u 1, next_id).
End HandleAllocator.

Module FileHandleMap.

Definition FileHandleMap : Type := list (option DriveHandlePair).

Definition new : FileHandleMap := [].

Definition get_next_available_handle (m : FileHandleMap) : FileHandleMap * option Z :=
  match SlotList.find_none m 0 with
  | Some i => (m, Some (u32 i))
  | None =>
      if lenZ m <? MAX_OPEN_FILES then (m ++ [None], Some (u32 (lenZ m))) else (m, None)
  end.

(** The padding loop pushes empty slots until the handle exists. *)
Definition set_handle_directly (m : FileHandleMap) (handle drv loc : Z)
  : comp (FileHandleMap * option DriveHandlePair) :=
  let m := m ++ replicate (Z.to_nat (handle + 1 - lenZ m)) None in
  prev ← index m handle;
  m ← store m handle (Some (mkPair drv loc));
  Ret (m, prev).

Definition open_handle (m : FileHandleMap) (drv loc : Z) : comp (FileHandleMap * option Z) :=
  let '(m, r) := get_next_available_handle m in
  match r with
  | None => Ret (m, None)
  | Some handle => '(m, _) ← set_handle_directly m handle drv loc; Ret (m, Some handle)
  end.

Definition close_handle (m : FileHandleMap) (handle : Z) : FileHandleMap * option DriveHandlePair :=
  match nthZ m handle with
  | Some e => (setZ m handle None, e)
  | None => (m, None)
  end.

Fixpoint references_drive_and_handle (m : FileHandleMap) (drv loc : Z) : bool :=
  match m with
  | [] => false
  | Some p :: m' => if pair_eqb p (mkPair drv loc) then true else references_drive_and_handle m' drv loc
  | None :: m' => references_drive_and_handle m' drv loc
  end.

Definition get_drive_and_handle (m : FileHandleMap) (handle : Z) : option DriveHandlePair :=
  match nthZ m handle with Some p => p | None => None end.

Definition map_size (m : FileHandleMap) : Z := lenZ m.

(** The pairs the iterator yields, in handle order. *)
Fixpoint iter_from (m : FileHandleMap) (cur : Z) : list (Z * DriveHandlePair) :=
  match m with
  | [] => []
  | Some p :: m' => (u32 cur, p) :: iter_from m' (cur + 1)
  | None :: m' => iter_from m' (cur + 1)
  end.
Definition iter (m : FileHandleMap) : list (Z * DriveHandlePair) := iter_from m 0.

Lemma set_handle_spec m handle drv loc :
  0 <= handle ->
  exists m' prev, set_handle_directly m handle drv loc = Ret (m', prev) /\
    prev = get_drive_and_handle m handle /\
    lenZ m' = Z.max (lenZ m) (handle + 1) /\
    forall h, get_drive_and_handle m' h = if h =? handle then Some (mkPair drv loc) else get_drive_and_handle m h.
Proof.
  intros Hh. unfold set_handle_directly. set (k := Z.to_nat (handle + 1 - lenZ m)).
  set (m1 := m ++ replicate k None). pose proof (lenZ_nonneg m).
  assert (Hl : lenZ m1 = Z.max (lenZ m) (handle + 1)).
  { unfold m1. rewrite lenZ_app, lenZ_replicate. unfold k. lia. }
  assert (Hg : forall h, get_drive_and_handle m1 h = get_drive_and_handle m h).
  { intros h. unfold get_drive_and_handle, m1. destruct (Z.lt_ge_cases h (lenZ m)); [by rewrite nthZ_app_l by lia|].
    rewrite nthZ_app_r by lia. rewrite (proj2 (nthZ_None m h)) by lia.
    destruct (Z.lt_ge_cases (h - lenZ m) (Z.of_nat k)); [by rewrite nthZ_replicate by lia|].
    by rewrite (proj2 (nthZ_None _ _)) by (rewrite lenZ_replicate; lia). }
  destruct (nthZ_is_Some m1 handle) as [p Hp]; [lia|]. rewrite (index_Ret _ _ p) by done.
  cbn [mbind comp_bind]. rewrite store_Ret by lia. cbn [mbind comp_bind].
  eexists _, p. split; [done|]. split; [rewrite <- Hg; unfold get_drive_and_handle; by rewrite Hp|].
  split; [by rewrite lenZ_setZ|]. intros h. unfold get_drive_and_handle at 1. rewrite nthZ_setZ_in by lia.
  rewrite Z.eqb_sym. destruct (h =? handle); [done|apply Hg].
Qed.

Lemma open_handle_cases m drv loc :
  lenZ m <= MAX_OPEN_FILES ->
  (exists m' h, open_handle m drv loc = Ret (m', Some h) /\ lenZ m' <= MAX_OPEN_FILES /\
     0 <= h < MAX_OPEN_FILES /\
     get_drive_and_handle m h = None /\ (forall j, 0 <= j < h -> get_drive_and_handle m j <> None) /\
     forall j, get_drive_and_handle m' j = if j =? h then Some (mkPair drv loc) else get_drive_and_handle m j) \/
  (open_handle m drv loc = Ret (m, None) /\ forall j, 0 <= j < MAX_OPEN_FILES -> get_drive_and_handle m j <> None).
Proof.
  intros Hm. unfold open_handle, get_next_available_handle, MAX_OPEN_FILES in *.
  pose proof (SlotList.find_none_spec m 0) as H. pose proof (lenZ_nonneg m).
  destruct (SlotList.find_none m 0) as [i|].
  - left. destruct H as (H1 & H2 & H3). rewrite Z.sub_0_r in *. rewrite u32_small by (mach_unfold; lia).
    destruct (set_handle_spec m i drv loc) as (m' & prev & -> & _ & Hl & Hg); [lia|]. cbn [mbind comp_bind].
    exists m', i. split; [done|]. split; [lia|]. split; [lia|].
    split; [unfold get_drive_and_handle; by rewrite H2|]. split; [|done].
    intros j Hj. destruct (H3 j Hj) as [y Hy]. unfold get_drive_and_handle. by rewrite Hy.
  - destruct (Z.ltb_spec (lenZ m) 4096) as [Hlt|Hge].
    + left. rewrite u32_small by (mach_unfold; lia).
      destruct (set_handle_spec (m ++ [None]) (lenZ m) drv loc) as (m' & prev & -> & _ & Hl & Hg); [lia|].
      cbn [mbind comp_bind]. exists m', (lenZ m). rewrite lenZ_app in Hl. change (lenZ [@None DriveHandlePair]) with 1 in Hl.
      split; [done|]. split; [lia|]. split; [lia|].
      split; [unfold get_drive_and_handle; by rewrite (proj2 (nthZ_None _ _)) by lia|].
      split; [intros j Hj; destruct (H j Hj) as [y Hy]; unfold get_drive_and_handle; by rewrite Hy|].
      intros j. rewrite Hg. destruct (Z.eqb_spec j (lenZ m)) as [|Hj]; [done|]. unfold get_drive_and_handle.
      destruct (Z.lt_ge_cases j (lenZ m)); [by rewrite nthZ_app_l by lia|].
      rewrite nthZ_app_r by lia. by rewrite !(proj2 (nthZ_None _ _)) by (try change (lenZ [@None DriveHandlePair]) with 1; lia).
    + right. split; [done|]. intros j Hj. destruct (H j ltac:(lia)) as [y Hy]. unfold get_drive_and_handle. by rewrite Hy.
Qed.

(** Opening a file gives it the lowest free handle, below 4096; the handle then leads to
    the file and all other handles are unchanged.  It is refused only when all 4096 handles
    are in use.  Closing a handle returns its file and frees that handle alone. *)
Theorem file_handles_lowest_free m drv loc :
  lenZ m <= MAX_OPEN_FILES ->
  ((exists m' h, open_handle m drv loc = Ret (m', Some h) /\ lenZ m' <= MAX_OPEN_FILES /\
      0 <= h < MAX_OPEN_FILES /\
      get_drive_and_handle m h = None /\ (forall j, 0 <= j < h -> get_drive_and_handle m j <> None) /\
      forall j, get_drive_and_handle m' j = if j =? h then Some (mkPair drv loc) else get_drive_and_handle m j) \/
   (open_handle m drv loc = Ret (m, None) /\ forall j, 0 <= j < MAX_OPEN_FILES -> get_drive_and_handle m j <> None)) /\
  forall h, let '(m', prev) := close_handle m h in
    prev = get_drive_and_handle m h /\ lenZ m' = lenZ m /\
    forall j, get_drive_and_handle m' j = if j =? h then None else get_drive_and_handle m j.
Proof.
  intros Hm. split; [by apply open_handle_cases|]. intros h.
  pose proof (SlotList.remove_spec m h) as H. unfold SlotList.remove in H. unfold close_handle.
  destruct (nthZ m h); destruct H as [H1 H2]; split_and!; try done. apply lenZ_setZ.
Qed.

Lemma references_spec m drv loc :
  references_drive_and_handle m drv loc = true <-> exists h, get_drive_and_handle m h = Some (mkPair drv loc).
Proof.
  assert (Hp : forall p, pair_eqb p (mkPair drv loc) = true <-> p = mkPair drv loc).
  { intros [d l]. unfold pair_eqb. simpl. rewrite andb_true_iff, !Z.eqb_eq.
    split; [intros [-> ->]; done|by intros [= -> ->]]. }
  assert (Hin : references_drive_and_handle m drv loc = true <-> Some (mkPair drv loc) ∈ m).
  { induction m as [|[p|] m IH]; simpl.
    - split; [done|intros H; inversion H].
    - destruct (pair_eqb p (mkPair drv loc)) eqn:E.
      + apply Hp in E as ->. split; [intros _; left|done].
      + rewrite IH, elem_of_cons. split; [tauto|]. intros [[= <-]|H]; [|done]. by rewrite (proj2 (Hp _) eq_refl) in E.
    - rewrite IH, elem_of_cons. split; [tauto|]. by intros [|]. }
  rewrite Hin, list_elem_of_lookup. unfold get_drive_and_handle, nthZ. split.
  - intros [i Hi]. exists (Z.of_nat i). destruct (Z.leb_spec 0 (Z.of_nat i)); [|lia]. by rewrite Nat2Z.id, Hi.
  - intros [h Hh]. exists (Z.to_nat h). destruct (0 <=? h); [|done]. case_match; congruence.
Qed.

End FileHandleMap.

(** * Cursors *)

Inductive SeekMethod : Type := Absolute (pos : Z) | Relative (off : Z).

(** [saturating_add] of two [isize] values. *)
Definition saturating_add (a b : Z) : Z := Z.max (-2147483648) (Z.min 2147483647 (a + b)).

Definition from_current_position (s : SeekMethod) (current : Z) : Z :=
  match s with
  | Absolute pos => pos
  | Relative off => u32 (saturating_add (i32 current) off)
  end.

(** A relative seek from a position below 2 GiB adds the offset and stops at 2^31 - 1; an
    offset that leads before the start of the file wraps to a position above 2 GiB. *)
Theorem relative_seek current off :
  0 <= current < 2147483648 -> -2147483648 <= off < 2147483648 ->
  from_current_position (Relative off) current =
  if current + off <? 0 then current + off + 4294967296 else Z.min (current + off) 2147483647.
Proof.
  intros Hc Ho. unfold from_current_position, saturating_add, i32.
  rewrite (u32_small current) by (mach_unfold; lia).
  destruct (Z.ltb_spec current 2147483648); [|lia]. destruct (Z.ltb_spec (current + off) 0); mlia.
Qed.

(** * File names *)

Definition COLON : Z := 58.

(** The bytes before the first separator and, when there is one, those after it. *)
Fixpoint split_first (sep : Z) (s : list Z) : list Z * option (list Z) :=
  match s with
  | [] => ([], None)
  | c :: s' =>
      if c =? sep then ([], Some s')
      else let '(a, b) := split_first sep s' in (c :: a, b)
  end.

Definition string_to_drive_and_path (raw : list Z) : list Z * list Z :=
  match split_first COLON raw with
  | (drv, None) => ([], drv)
  | (drv, Some p) => (drv, p)
  end.

Lemma split_first_absent sep s : sep ∉ s -> split_first sep s = (s, None).
Proof.
  induction s as [|c s IH]; simpl; [done|]. intros H. apply not_elem_of_cons in H as [H1 H2].
  destruct (Z.eqb_spec c sep); [congruence|]. by rewrite IH.
Qed.

Lemma split_first_present sep a b : sep ∉ a -> split_first sep (a ++ sep :: b) = (a, Some b).
Proof.
  induction a as [|c a IH]; simpl; [by rewrite Z.eqb_refl|]. intros H. apply not_elem_of_cons in H as [H1 H2].
  destruct (Z.eqb_spec c sep); [congruence|]. by rewrite IH.
Qed.

(** Printing and parsing paths: a path with a drive is split at the first colon, so that
    joining a drive without colon and any path and splitting again gives both back; a name
    without a colon is a path on no drive. *)
Lemma drive_and_path_round_trip drv path :
  COLON ∉ drv ->
  string_to_drive_and_path (drv ++ COLON :: path) = (drv, path) /\
  string_to_drive_and_path drv = ([], drv).
Proof.
  intros H. unfold string_to_drive_and_path. by rewrite split_first_present, split_first_absent.
Qed.

(** * File locations *)

Module FileLocation.

(** [delta] is an [i32]. *)
Definition offset (loc delta : Z) : Z :=
  let udelta := u32 delta in
  let sum := loc +u udelta in
  if negb ((Z.lxor loc udelta &u 0x80000000) =? 0) then
    if (Z.lxor sum udelta &u 0x80000000) =? 0 then
      if (sum &u 0x80000000) =? 0 then 0xffffffff else 0
    else sum
  else sum.

End FileLocation.

Lemma top_bit x : is_u32 x -> Z.testbit x 31 = (2147483648 <=? x).
Proof.
  intros Hx. rewrite Z.testbit_eqb by lia. change (2 ^ 31) with 2147483648.
  destruct (Z.leb_spec 2147483648 x).
  - assert (x / 2147483648 = 1) as -> by mlia. done.
  - assert (x / 2147483648 = 0) as -> by mlia. done.
Qed.

Lemma top_bit_zero x : ((x &u 0x80000000) =? 0) = negb (Z.testbit x 31).
Proof.
  pose proof (land_bit_nonzero x 31 ltac:(lia)) as H. change (Z.shiftl 1 31) with 0x80000000 in H.
  rewrite <- H. by rewrite negb_involutive.
Qed.

(** Moving a file location by a signed offset never wraps: the result is the exact sum,
    held between 0 and 2^32 - 1. *)
Lemma location_offset_clamps loc delta :
  is_u32 loc -> -2147483648 <= delta < 2147483648 ->
  FileLocation.offset loc delta = Z.max 0 (Z.min 4294967295 (loc + delta)).
Proof.
  intros Hl Hd. unfold FileLocation.offset. set (u := u32 delta). set (s := u32 (loc + u)).
  assert (Hu : is_u32 u) by apply u32_range. assert (Hs : is_u32 s) by apply u32_range.
  rewrite !top_bit_zero, !Z.lxor_spec, !top_bit, !negb_involutive by done.
  assert (Eu : u = if delta <? 0 then delta + 4294967296 else delta)
    by (unfold u; destruct (Z.ltb_spec delta 0); mlia).
  assert (Es : s = if loc + u <? 4294967296 then loc + u else loc + u - 4294967296)
    by (unfold s; destruct (Z.ltb_spec (loc + u) 4294967296); mlia).
  clearbody u s. mach_unfold.
  destruct (Z.leb_spec 2147483648 loc), (Z.leb_spec 2147483648 u), (Z.leb_spec 2147483648 s),
    (Z.ltb_spec delta 0), (Z.ltb_spec (loc + u) 4294967296); simpl; try lia.
Qed.

(** * Ioctl numbers *)

Definition IOC_OUT : Z := 0x40000000.
Definition IO_PARAM_MASK : Z := 0x1fff.
Definition FIONREAD : Z := IOC_OUT |u Z.shiftl 4 16 |u Z.shiftl 0x66 6 |u 0xff.

(** * System errors: [syscall/src/result.rs] *)

Inductive SystemError : Type :=
| Unknown | BadFileDescriptor | NoSuchDrive | NoSuchFileSystem | NoSuchEntity | NotDirectory
| NotEmpty | BrokenPipe | InvalidSeek | UnsupportedCommand | IOError | MaxFilesExceeded.

Module SystemError.

(** [*self as u32] *)
Definition discriminant (e : SystemError) : Z :=
  match e with
  | Unknown => 0 | BadFileDescriptor => 1 | NoSuchDrive => 2 | NoSuchFileSystem => 3
  | NoSuchEntity => 4 | NotDirectory => 5 | NotEmpty => 6 | BrokenPipe => 7 | InvalidSeek => 8
  | UnsupportedCommand => 9 | IOError => 10 | MaxFilesExceeded => 11
  end.
Definition from_code (code : Z) : SystemError :=
  match code &u 0xffff with
  | 1 => BadFileDescriptor | 2 => NoSuchDrive | 3 => NoSuchFileSystem | 4 => NoSuchEntity
  | 5 => NotDirectory | 6 => NotEmpty | 7 => BrokenPipe | 8 => InvalidSeek
  | 9 => UnsupportedCommand | 10 => IOError | 11 => MaxFilesExceeded
  | _ => Unknown
  end.
Definition to_code (e : SystemError) : Z := 0x80000000 |u discriminant e.

End SystemError.

Definition result_from_code (code : Z) : result Z SystemError :=
  if (code &u 0x80000000) =? 0 then Ok (code &u 0x7fffffff) else Err (SystemError.from_code code).

(** The register value a system call leaves for its result. *)
Definition code_of_result (r : result Z SystemError) : Z :=
  match r with Ok v => v | Err e => SystemError.to_code e end.

(** The result of a system call survives its passage through a register exactly when it is
    an error or a value below 2^31; every larger value is taken for an error. *)
Theorem result_codes_round_trip r :
  match r with Ok v => is_u32 v | Err _ => True end ->
  result_from_code (code_of_result r) = r <->
  match r with Ok v => v < 2147483648 | Err _ => True end.
Proof.
  intros Hr. unfold result_from_code. destruct r as [v|e]; cbn [code_of_result].
  - rewrite top_bit_zero, top_bit, land_7fffffff by done. destruct (Z.leb_spec 2147483648 v); cbn [negb].
    + split; [done|lia].
    + rewrite Z.mod_small by (mach_unfold; lia). done.
  - by destruct e.
Qed.

(** * Witnesses *)

Lemma relative_seek_witness :
  from_current_position (Relative (-4)) 3 =
  if 3 + -4 <? 0 then 3 + -4 + 4294967296 else Z.min (3 + -4) 2147483647.
Proof. apply (relative_seek 3 (-4)); lia. Defined.

Lemma file_handles_lowest_free_witness :
  let m := [Some (mkPair 0 3); None; Some (mkPair 1 4)] in
  ((exists m' h, FileHandleMap.open_handle m 2 9 = Ret (m', Some h) /\ lenZ m' <= MAX_OPEN_FILES /\
      0 <= h < MAX_OPEN_FILES /\
      FileHandleMap.get_drive_and_handle m h = None /\
      (forall j, 0 <= j < h -> FileHandleMap.get_drive_and_handle m j <> None) /\
      forall j, FileHandleMap.get_drive_and_handle m' j =
        if j =? h then Some (mkPair 2 9) else FileHandleMap.get_drive_and_handle m j) \/
   (FileHandleMap.open_handle m 2 9 = Ret (m, None) /\
    forall j, 0 <= j < MAX_OPEN_FILES -> FileHandleMap.get_drive_and_handle m j <> None)) /\
  forall h, let '(m', prev) := FileHandleMap.close_handle m h in
    prev = FileHandleMap.get_drive_and_handle m h /\ lenZ m' = lenZ m /\
    forall j, FileHandleMap.get_drive_and_handle m' j =
      if j =? h then None else FileHandleMap.get_drive_and_handle m j.
Proof.
  apply (FileHandleMap.file_handles_lowest_free [Some (mkPair 0 3); None; Some (mkPair 1 4)] 2 9). by vm_compute.
Defined.

Lemma result_codes_round_trip_witness :
  result_from_code (code_of_result (Ok 0xbffffffc)) = Ok 0xbffffffc <-> 0xbffffffc < 2147483648.
Proof. apply (result_codes_round_trip (Ok 0xbffffffc)). cbn. mach_unfold. lia. Defined.
