(* ===== verification/Pipes.v ===== *)
(** Pipes: [pipes/pipe.rs], [pipes/handle.rs], [pipes/errors.rs], [pipes/collection.rs],
    [pipes/fs.rs] and [pipes/mod.rs].

    A collection is a slot list of ring buffers and a slot list of handles that name a buffer
    and a direction.  The theorems are about whole transfers through the two handles. *)

From S2P Require Import Prelude Memory RingBuffer Files.

Definition BUFFER_SIZE : Z := 256.

(** The heap pointer of a pipe only serves to free its buffer. *)
Definition Pipe : Type := RingBuffer.

Module Pipe.
Definition new : Pipe := RingBuffer.new (replicate (Z.to_nat BUFFER_SIZE) 0).
Definition available_bytes (p : Pipe) : Z := RingBuffer.available_bytes p.
Definition can_read (p : Pipe) : bool := available_bytes p >? 0.
End Pipe.

Inductive PipeHandle : Type := ReadHandle (i : Z) | WriteHandle (i : Z).

Module PipeHandle.
Definition can_read (h : PipeHandle) : bool := match h with ReadHandle _ => true | WriteHandle _ => false end.
Definition can_write (h : PipeHandle) : bool := match h with WriteHandle _ => true | ReadHandle _ => false end.
Definition to_index (h : PipeHandle) : Z := match h with ReadHandle i => i | WriteHandle i => i end.
End PipeHandle.

Inductive PipeError : Type := InvalidHandle | UnknownPipe | WrongHandleType | WriteToClosedPipe.

Record PipeCollection : Type := mkPipeCollection {
  pipes : SlotList.SlotList Pipe;
  handles : SlotList.SlotList PipeHandle
}.

Module PipeCollection.

Definition new : PipeCollection := mkPipeCollection SlotList.new SlotList.new.

Definition create (c : PipeCollection) : comp (PipeCollection * result (Z * Z) PipeError) :=
  '(ps, pipe_index) ← SlotList.insert (pipes c) Pipe.new;
  '(hs, read_index) ← SlotList.insert (handles c) (ReadHandle pipe_index);
  '(hs, write_index) ← SlotList.insert hs (WriteHandle pipe_index);
  Ret (mkPipeCollection ps hs, Ok (u32 read_index, u32 write_index)).

(** The buffer behind [pipes.get(index)] is changed in place. *)
Definition update_pipe (c : PipeCollection) (i : Z) (p : Pipe) : PipeCollection :=
  mkPipeCollection (setZ (pipes c) i (Some p)) (handles c).

Definition read (c : PipeCollection) (handle : Z) (buffer : list Z)
  : comp (PipeCollection * list Z * result Z PipeError) :=
  match SlotList.get (handles c) handle with
  | None => Ret (c, buffer, Err InvalidHandle)
  | Some (ReadHandle i) =>
      match SlotList.get (pipes c) i with
      | None => Ret (c, buffer, Err UnknownPipe)
      | Some p =>
          '(p, buffer, n) ← RingBuffer.read p buffer;
          Ret (update_pipe c i p, buffer, Ok n)
      end
  | Some (WriteHandle _) => Ret (c, buffer, Err WrongHandleType)
  end.

Definition write (c : PipeCollection) (handle : Z) (buffer : list Z)
  : comp (PipeCollection * result Z PipeError) :=
  match SlotList.get (handles c) handle with
  | None => Ret (c, Err InvalidHandle)
  | Some (WriteHandle i) =>
      match SlotList.get (pipes c) i with
      | None => Ret (c, Err UnknownPipe)
      | Some p =>
          '(p, n) ← RingBuffer.write p buffer;
          Ret (update_pipe c i p, Ok n)
      end
  | Some (ReadHandle _) => Ret (c, Err WrongHandleType)
  end.

Definition get_available_bytes (c : PipeCollection) (handle : Z) : result Z PipeError :=
  match SlotList.get (handles c) handle with
  | None => Err InvalidHandle
  | Some (ReadHandle i) =>
      match SlotList.get (pipes c) i with
      | None => Err UnknownPipe
      | Some p => Ok (Pipe.available_bytes p)
      end
  | Some (WriteHandle _) => Err WrongHandleType
  end.

End PipeCollection.

(** The operations as a file system, whose errors carry no information. *)
Module PipeFileSystem.

Definition open (c : PipeCollection) (path : list Z) : result Z unit := Err tt.
Definition read (c : PipeCollection) (handle : Z) (buffer : list Z)
  : comp (PipeCollection * list Z * result Z unit) :=
  '(c, buffer, r) ← PipeCollection.read c handle buffer;
  Ret (c, buffer, map_err (fun _ => tt) r).
Definition write (c : PipeCollection) (handle : Z) (buffer : list Z)
  : comp (PipeCollection * result Z unit) :=
  '(c, r) ← PipeCollection.write c handle buffer;
  Ret (c, map_err (fun _ => tt) r).
Definition close (c : PipeCollection) (handle : Z) : result unit unit := Err tt.
Definition dup (c : PipeCollection) (handle : Z) : result Z unit := Err tt.
(** The count is stored at the address the caller gave. *)
Definition ioctl (c : PipeCollection) (m : mem) (handle command arg : Z) : mem * result Z unit :=
  if command =? FIONREAD then
    match PipeCollection.get_available_bytes c handle with
    | Err _ => (m, Err tt)
    | Ok bytes => (store32 m arg bytes, Ok 0)
    end
  else (m, Err tt).
Definition seek (c : PipeCollection) (handle : Z) (offset : SeekMethod) : result Z unit := Err tt.
Definition open_dir (c : PipeCollection) (path : list Z) : result Z unit := Err tt.
Definition read_dir (c : PipeCollection) (handle index : Z) : result unit unit := Err tt.

End PipeFileSystem.

(** [static mut PIPES]. *)
Definition create_fs : option PipeCollection := Some PipeCollection.new.
Definition create_pipe (PIPES : option PipeCollection)
  : comp (option PipeCollection * result (Z * Z) PipeError) :=
  match PIPES with
  | Some c => '(c, r) ← PipeCollection.create c; Ret (Some c, r)
  | None => Panic
  end.

(** * Pipes as queues *)

(** The read and the write handle of the pipe [i], which holds the bytes [q]. *)
Record pipe_at (c : PipeCollection) (r w i : Z) (q : list Z) : Prop := {
  pa_read : SlotList.get (handles c) r = Some (ReadHandle i);
  pa_write : SlotList.get (handles c) w = Some (WriteHandle i);
  pa_pipe : exists p, SlotList.get (pipes c) i = Some p /\ rep p q /\ lenZ (rb_data p) = BUFFER_SIZE
}.

Lemma new_pipe_rep : rep Pipe.new [] /\ lenZ (rb_data Pipe.new) = BUFFER_SIZE.
Proof.
  assert (Hl : lenZ (rb_data Pipe.new) = BUFFER_SIZE) by (unfold Pipe.new; cbn [rb_data RingBuffer.new]; by rewrite lenZ_replicate).
  split; [|done]. split; [rewrite Hl|by vm_compute|done|rewrite Hl; by vm_compute|].
  - split; [by vm_compute|]. exists 16777216. done.
  - intros i x Hi. apply nthZ_Some in Hi. change (lenZ []) with 0 in Hi. lia.
Qed.

Lemma update_pipe_get c i p p' j :
  SlotList.get (pipes c) i = Some p ->
  SlotList.get (pipes (PipeCollection.update_pipe c i p')) j =
  if j =? i then Some p' else SlotList.get (pipes c) j.
Proof.
  intros Hp. unfold SlotList.get in *. cbn. destruct (nthZ (pipes c) i) eqn:E; [|done].
  rewrite nthZ_setZ_in by (by eapply nthZ_Some). rewrite Z.eqb_sym. by destruct (j =? i).
Qed.

Lemma pipe_at_update c r w i p q p' q' :
  pipe_at c r w i q -> SlotList.get (pipes c) i = Some p -> rep p' q' -> lenZ (rb_data p') = BUFFER_SIZE ->
  pipe_at (PipeCollection.update_pipe c i p') r w i q'.
Proof.
  intros [Hr Hw _] Hp Hrep Hl. split; [done|done|]. exists p'.
  by rewrite (update_pipe_get c i p), Z.eqb_refl.
Qed.

(** Through the right handle, a write appends and a read removes bytes of that pipe only. *)
Lemma pipe_write_spec c r w i q bytes :
  pipe_at c r w i q ->
  let n := Z.min (lenZ bytes) (BUFFER_SIZE - lenZ q) in
  exists c', PipeCollection.write c w bytes = Ret (c', Ok n) /\
    pipe_at c' r w i (q ++ take (Z.to_nat n) bytes) /\
    handles c' = handles c /\ forall j, j <> i -> SlotList.get (pipes c') j = SlotList.get (pipes c) j.
Proof.
  intros Hp. pose proof Hp as [Hr Hw (p & Hg & Hrep & Hl)]. cbv zeta.
  unfold PipeCollection.write. rewrite Hw, Hg. destruct (write_spec p q bytes Hrep) as (p' & Heq & Hrep' & Hl').
  rewrite Hl in *. rewrite Heq. cbn [mbind comp_bind]. eexists. split; [done|].
  split; [eapply pipe_at_update; done|]. split; [done|]. intros j Hj. rewrite (update_pipe_get c i p) by done.
  by destruct (Z.eqb_spec j i).
Qed.

Lemma pipe_read_spec c r w i q buffer :
  pipe_at c r w i q ->
  let n := Z.min (lenZ buffer) (lenZ q) in
  exists c', PipeCollection.read c r buffer =
      Ret (c', take (Z.to_nat n) q ++ drop (Z.to_nat n) buffer, Ok n) /\
    pipe_at c' r w i (drop (Z.to_nat n) q) /\
    handles c' = handles c /\ forall j, j <> i -> SlotList.get (pipes c') j = SlotList.get (pipes c) j.
Proof.
  intros Hp. pose proof Hp as [Hr Hw (p & Hg & Hrep & Hl)]. cbv zeta.
  unfold PipeCollection.read. rewrite Hr, Hg. destruct (read_spec p q buffer Hrep) as (p' & -> & Hrep' & Hd).
  cbn [mbind comp_bind]. eexists. split; [done|].
  split; [eapply pipe_at_update; try done; by rewrite Hd|]. split; [done|]. intros j Hj. rewrite (update_pipe_get c i p) by done.
  by destruct (Z.eqb_spec j i).
Qed.

(** Creation gives two new handles of a new, empty pipe. *)
Lemma create_spec c :
  lenZ (handles c) < 4294967294 ->
  exists c' r w i, PipeCollection.create c = Ret (c', Ok (r, w)) /\ r <> w /\ pipe_at c' r w i [] /\
    SlotList.get (handles c) r = None /\ SlotList.get (handles c) w = None /\ SlotList.get (pipes c) i = None /\
    (forall h, h <> r -> h <> w -> SlotList.get (handles c') h = SlotList.get (handles c) h) /\
    (forall j, j <> i -> SlotList.get (pipes c') j = SlotList.get (pipes c) j).
Proof.
  intros Hl. unfold PipeCollection.create.
  destruct (SlotList.insert_spec (pipes c) Pipe.new) as (ps & i & -> & P1 & P2 & _ & P3). cbn [mbind comp_bind].
  destruct (SlotList.insert_spec (handles c) (ReadHandle i)) as (hs & r & E1 & R1 & R2 & _ & R3). rewrite E1. cbn [mbind comp_bind].
  destruct (SlotList.insert_spec hs (WriteHandle i)) as (hs2 & w & -> & W1 & W2 & _ & W3). cbn [mbind comp_bind].
  assert (Hhs : lenZ hs <= lenZ (handles c) + 1).
  { unfold SlotList.insert, SlotList.find_empty_slot in E1.
    destruct (SlotList.find_none (handles c) 0); unfold store in E1; case_match; try done; cbn in E1;
      injection E1 as <- <-; rewrite lenZ_setZ; [lia|]. rewrite lenZ_app. change (lenZ [@None PipeHandle]) with 1. lia. }
  rewrite !u32_small by (mach_unfold; lia).
  assert (Hrw : r <> w) by (intros ->; by rewrite R3, Z.eqb_refl in W1).
  rewrite R3 in W1. destruct (Z.eqb_spec w r); [congruence|].
  exists (mkPipeCollection ps hs2), r, w, i. split; [done|]. split; [done|]. split; [|split_and!; try done].
  - split; cbn.
    + rewrite W3, R3, Z.eqb_refl. by destruct (Z.eqb_spec r w).
    + by rewrite W3, Z.eqb_refl.
    + exists Pipe.new. rewrite P3, Z.eqb_refl. split; [done|apply new_pipe_rep].
  - cbn. intros h H1 H2. rewrite W3, R3. by destruct (Z.eqb_spec h w), (Z.eqb_spec h r).
  - cbn. intros j Hj. rewrite P3. by destruct (Z.eqb_spec j i).
Qed.

(** A new pipe carries bytes from its write handle to its read handle: up to 256 bytes
    written are all accepted, reported as available, and read back unchanged and in order;
    the handles and pipes that existed before are untouched, and using a handle in the wrong
    direction fails without an effect. *)
Theorem pipe_carries_bytes c bytes buffer :
  lenZ (handles c) < 4294967294 -> lenZ bytes <= BUFFER_SIZE -> lenZ bytes <= lenZ buffer ->
  exists c1 c2 c3 r w,
    PipeCollection.create c = Ret (c1, Ok (r, w)) /\
    PipeCollection.write c1 w bytes = Ret (c2, Ok (lenZ bytes)) /\
    PipeCollection.get_available_bytes c2 r = Ok (lenZ bytes) /\
    PipeCollection.read c2 r buffer = Ret (c3, bytes ++ drop (length bytes) buffer, Ok (lenZ bytes)) /\
    PipeCollection.get_available_bytes c3 r = Ok 0 /\
    PipeCollection.read c2 w buffer = Ret (c2, buffer, Err WrongHandleType) /\
    PipeCollection.write c2 r bytes = Ret (c2, Err WrongHandleType) /\
    (forall h, SlotList.get (handles c) h <> None -> SlotList.get (handles c3) h = SlotList.get (handles c) h) /\
    (forall j, SlotList.get (pipes c) j <> None -> SlotList.get (pipes c3) j = SlotList.get (pipes c) j).
Proof.
  intros Hl Hb Hbuf. pose proof (lenZ_nonneg bytes).
  destruct (create_spec c Hl) as (c1 & r & w & i & E1 & Hrw & Hp1 & F1 & F2 & F3 & Hh1 & Hj1).
  destruct (pipe_write_spec c1 r w i [] bytes Hp1) as (c2 & E2 & Hp2 & Hh2 & Hj2).
  change (lenZ []) with 0 in E2, Hp2. rewrite Z.sub_0_r, Z.min_l in E2, Hp2 by lia.
  assert (Htake : take (Z.to_nat (lenZ bytes)) bytes = bytes) by (unfold lenZ; rewrite Nat2Z.id; apply firstn_all).
  rewrite Htake in Hp2. cbn [app] in Hp2.
  destruct (pipe_read_spec c2 r w i bytes buffer Hp2) as (c3 & E3 & Hp3 & Hh3 & Hj3).
  rewrite Z.min_r in E3, Hp3 by lia. rewrite Htake in E3.
  assert (Hlen : Z.to_nat (lenZ bytes) = length bytes) by (unfold lenZ; lia). rewrite Hlen in E3, Hp3.
  rewrite drop_all in Hp3.
  assert (Hav : forall cc q, pipe_at cc r w i q -> PipeCollection.get_available_bytes cc r = Ok (lenZ q)).
  { intros cc q [G1 G2 (p & G3 & [[Gl _] Gh Gt Gf _] & G5)]. pose proof (lenZ_nonneg q).
    unfold PipeCollection.get_available_bytes, Pipe.available_bytes, available_bytes. rewrite G1, G3. f_equal. rewrite Gt. mlia. }
  exists c1, c2, c3, r, w. split; [done|]. split; [done|]. split; [by apply Hav|]. split; [done|].
  split; [by rewrite (Hav c3 []) by done|]. pose proof Hp2 as [G1 G2 _].
  split; [unfold PipeCollection.read; by rewrite G2|]. split; [unfold PipeCollection.write; by rewrite G1|].
  split.
  - intros h Hh. rewrite Hh3, Hh2. apply Hh1; intros ->; congruence.
  - intros j Hj. assert (j <> i) by (intros ->; congruence). rewrite Hj3, Hj2 by done. by apply Hj1.
Qed.

Lemma pipe_carries_bytes_witness :
  exists c1 c2 c3 r w,
    PipeCollection.create PipeCollection.new = Ret (c1, Ok (r, w)) /\
    PipeCollection.write c1 w [72; 105] = Ret (c2, Ok (lenZ [72; 105])) /\
    PipeCollection.get_available_bytes c2 r = Ok (lenZ [72; 105]) /\
    PipeCollection.read c2 r [0; 0; 9] = Ret (c3, [72; 105] ++ drop (length [72; 105]) [0; 0; 9], Ok (lenZ [72; 105])) /\
    PipeCollection.get_available_bytes c3 r = Ok 0 /\
    PipeCollection.read c2 w [0; 0; 9] = Ret (c2, [0; 0; 9], Err WrongHandleType) /\
    PipeCollection.write c2 r [72; 105] = Ret (c2, Err WrongHandleType) /\
    (forall h, SlotList.get (handles PipeCollection.new) h <> None ->
       SlotList.get (handles c3) h = SlotList.get (handles PipeCollection.new) h) /\
    (forall j, SlotList.get (pipes PipeCollection.new) j <> None ->
       SlotList.get (pipes c3) j = SlotList.get (pipes PipeCollection.new) j).
Proof. apply (pipe_carries_bytes PipeCollection.new [72; 105] [0; 0; 9]); by vm_compute. Defined.
