(* ===== verification/Drivers.v ===== *)
(** Device drivers: [drivers/driver.rs], [drivers/mod.rs], [drivers/null/mod.rs] and
    [drivers/zero/mod.rs].

    The trait of drivers is the class [DeviceDriver]; the registry and the file system are
    written against it. *)

From S2P Require Import Prelude Files.

(** * The trait *)

Class DeviceDriver (D : Type) := {
  drv_open : D -> Z -> comp (D * result unit unit);
  drv_close : D -> Z -> comp (D * result unit unit);
  drv_read : D -> Z -> list Z -> comp (D * list Z * result Z unit);
  drv_write : D -> Z -> list Z -> comp (D * result Z unit);
  drv_seek : D -> Z -> SeekMethod -> comp (D * result Z unit)
}.

(** The methods a driver gets when it does not define them. *)
Definition default_open {D} (d : D) (handle : Z) : comp (D * result unit unit) := Ret (d, Err tt).
Definition default_close {D} (d : D) (handle : Z) : comp (D * result unit unit) := Ret (d, Err tt).
Definition default_read {D} (d : D) (handle : Z) (buffer : list Z) : comp (D * list Z * result Z unit) :=
  Ret (d, buffer, Err tt).
Definition default_write {D} (d : D) (handle : Z) (buffer : list Z) : comp (D * result Z unit) := Ret (d, Err tt).
Definition default_seek {D} (d : D) (handle : Z) (offset : SeekMethod) : comp (D * result Z unit) := Ret (d, Err tt).

(** * NULL and ZERO *)

Inductive NullDevice : Type := mkNullDevice.
Module NullDevice.
Definition open (d : NullDevice) (handle : Z) : comp (NullDevice * result unit unit) := Ret (d, Ok tt).
Definition close (d : NullDevice) (handle : Z) : comp (NullDevice * result unit unit) := Ret (d, Ok tt).
Definition read (d : NullDevice) (handle : Z) (buffer : list Z) : comp (NullDevice * list Z * result Z unit) :=
  Ret (d, buffer, Ok 0).
Definition write (d : NullDevice) (handle : Z) (buffer : list Z) : comp (NullDevice * result Z unit) :=
  Ret (d, Ok (lenZ buffer)).
End NullDevice.
#[global] Instance null_driver : DeviceDriver NullDevice := {
  drv_open := NullDevice.open; drv_close := NullDevice.close; drv_read := NullDevice.read;
  drv_write := NullDevice.write; drv_seek := default_seek }.

Inductive ZeroDevice : Type := mkZeroDevice.
Module ZeroDevice.
Definition open (d : ZeroDevice) (handle : Z) : comp (ZeroDevice * result unit unit) := Ret (d, Ok tt).
Definition close (d : ZeroDevice) (handle : Z) : comp (ZeroDevice * result unit unit) := Ret (d, Ok tt).
Definition read (d : ZeroDevice) (handle : Z) (buffer : list Z) : comp (ZeroDevice * list Z * result Z unit) :=
  buffer ← for_each (fun index buffer => store buffer index 0) (seqZ 0 (lenZ buffer)) buffer;
  Ret (d, buffer, Ok (lenZ buffer)).
Definition write (d : ZeroDevice) (handle : Z) (buffer : list Z) : comp (ZeroDevice * result Z unit) :=
  Ret (d, Ok (lenZ buffer)).
End ZeroDevice.
#[global] Instance zero_driver : DeviceDriver ZeroDevice := {
  drv_open := ZeroDevice.open; drv_close := ZeroDevice.close; drv_read := ZeroDevice.read;
  drv_write := ZeroDevice.write; drv_seek := default_seek }.

(** * The registry *)

(** [D] is the type of boxed drivers. *)
Record DeviceDrivers (D : Type) : Type := mkDrivers {
  drivers : list D;
  device_names : list (list Z * Z)
}.
Arguments mkDrivers {D}.
Arguments drivers {D}.
Arguments device_names {D}.

(** The first eight bytes of a name, padded with blanks. *)
Definition name_array (bytes : list Z) : list Z :=
  take 8 bytes ++ replicate (8 - length (take 8 bytes))%nat 0x20.

Module DeviceDrivers.

Section registry.
Context {D : Type}.

Definition new : DeviceDrivers D := mkDrivers [] [].
Definition get_device (r : DeviceDrivers D) (driver_number : Z) : option D :=
  if driver_number >? 0 then nthZ (drivers r) (driver_number - 1) else None.
Fixpoint number_by_name_loop (l : list (list Z * Z)) (seek : list Z) : option Z :=
  match l with
  | [] => None
  | (name, number) :: l' => if bool_decide (name = seek) then Some number else number_by_name_loop l' seek
  end.
Definition get_device_number_by_name (r : DeviceDrivers D) (seek : list Z) : option Z :=
  number_by_name_loop (device_names r) seek.
Definition get_device_by_name (r : DeviceDrivers D) (name : list Z) : option D :=
  number ← get_device_number_by_name r name; get_device r number.
Definition register_driver (r : DeviceDrivers D) (name : list Z) (driver : D) : DeviceDrivers D * Z :=
  if lenZ name >? 8 then (r, 0)
  else
    let ds := drivers r ++ [driver] in
    let index := lenZ ds in
    (mkDrivers ds (device_names r ++ [(name_array name, index)]), index).

(** A driver is changed in place. *)
Definition put (r : DeviceDrivers D) (driver_number : Z) (d : D) : DeviceDrivers D :=
  mkDrivers (setZ (drivers r) (driver_number - 1) d) (device_names r).

(** Names lead to the driver they were registered with. *)
Record wf (r : DeviceDrivers D) : Prop := {
  wf_numbers : (device_names r).*2 = seqZ 1 (lenZ (drivers r))
}.

Lemma number_by_name_app l k seek :
  number_by_name_loop (l ++ k) seek =
  match number_by_name_loop l seek with Some n => Some n | None => number_by_name_loop k seek end.
Proof. induction l as [|[n i] l IH]; simpl; [done|]. by destruct (bool_decide (n = seek)). Qed.

Lemma number_by_name_bounds l seek n : number_by_name_loop l seek = Some n -> n ∈ l.*2.
Proof.
  induction l as [|[m i] l IH]; simpl; [done|]. case_bool_decide.
  - intros [= ->]. left.
  - intros H'. right. by apply IH.
Qed.

(** After a driver is registered under a name of at most eight bytes that is new, the name
    leads to it, all other names lead where they led before, and driver numbers stay valid;
    a longer name is refused and nothing changes. *)
Theorem register_then_find r name driver :
  wf r ->
  let '(r', number) := register_driver r name driver in
  if lenZ name >? 8 then r' = r /\ number = 0
  else wf r' /\ number = lenZ (drivers r) + 1 /\ get_device r' number = Some driver /\
    (forall n, n <> number -> get_device r' n = get_device r n) /\
    (get_device_number_by_name r (name_array name) = None ->
     get_device_by_name r' (name_array name) = Some driver) /\
    (forall other, other <> name_array name -> get_device_by_name r' other = get_device_by_name r other).
Proof.
  intros [Hwf]. unfold register_driver. destruct (lenZ name >? 8); [done|].
  assert (Hlen : lenZ (drivers r ++ [driver]) = lenZ (drivers r) + 1) by (rewrite lenZ_app; done).
  pose proof (lenZ_nonneg (drivers r)). rewrite Hlen.
  set (r' := mkDrivers _ _).
  assert (Hnew : get_device r' (lenZ (drivers r) + 1) = Some driver).
  { unfold get_device. destruct (Z.gtb_spec (lenZ (drivers r) + 1) 0); [|lia]. cbn.
    replace (lenZ (drivers r) + 1 - 1) with (lenZ (drivers r)) by lia. apply nthZ_snoc. }
  assert (Hold : forall n, n <> lenZ (drivers r) + 1 -> get_device r' n = get_device r n).
  { intros n Hn. unfold get_device. destruct (Z.gtb_spec n 0); [|done]. cbn.
    destruct (Z.lt_ge_cases (n - 1) (lenZ (drivers r))); [by apply nthZ_app_l|].
    by rewrite !(proj2 (nthZ_None _ _)) by lia. }
  split; [|split; [done|]; split; [done|]; split; [done|]; split].
  - split. cbn [device_names drivers r']. rewrite fmap_app, Hwf, Hlen, seqZ_app by lia.
    f_equal. cbn. replace (lenZ (drivers r) + 1) with (1 + lenZ (drivers r)) by lia. done.
  - intros Hn. unfold get_device_by_name, get_device_number_by_name in *. cbn [device_names r'].
    rewrite number_by_name_app, Hn. cbn. by rewrite bool_decide_eq_true_2.
  - intros other Hne. unfold get_device_by_name, get_device_number_by_name. cbn [device_names r'].
    rewrite number_by_name_app. destruct (number_by_name_loop (device_names r) other) as [n|] eqn:E.
    + cbn. apply Hold. apply number_by_name_bounds in E. rewrite Hwf, elem_of_seqZ in E. lia.
    + cbn. by rewrite bool_decide_eq_false_2 by done.
Qed.

End registry.

End DeviceDrivers.

(** * Witnesses *)

Definition demo_registry : DeviceDrivers ZeroDevice :=
  mkDrivers [mkZeroDevice] [(name_array [90; 69; 82; 79], 1)].

Lemma register_then_find_witness :
  let '(r', number) := DeviceDrivers.register_driver demo_registry [70; 68; 48] mkZeroDevice in
  if lenZ [70; 68; 48] >? 8 then r' = demo_registry /\ number = 0
  else DeviceDrivers.wf r' /\ number = lenZ (drivers demo_registry) + 1 /\
    DeviceDrivers.get_device r' number = Some mkZeroDevice /\
    (forall n, n <> number -> DeviceDrivers.get_device r' n = DeviceDrivers.get_device demo_registry n) /\
    (DeviceDrivers.get_device_number_by_name demo_registry (name_array [70; 68; 48]) = None ->
     DeviceDrivers.get_device_by_name r' (name_array [70; 68; 48]) = Some mkZeroDevice) /\
    (forall other, other <> name_array [70; 68; 48] ->
     DeviceDrivers.get_device_by_name r' other = DeviceDrivers.get_device_by_name demo_registry other).
Proof. apply (DeviceDrivers.register_then_find demo_registry [70; 68; 48] mkZeroDevice). by split. Defined.
