(* ===== verification/Serial.v ===== *)
(** The serial port and its device: [drivers/com/serial.rs] and [drivers/com/mod.rs].

    The port is programmed through seven registers; a reader queues up and sleeps until the
    data-ready interrupt wakes it ([Blocking.blocking_read]).  What its readers get is the
    subject of [ComReaders]. *)

From S2P Require Import Prelude Ports Files Drivers Blocking.

(** * [SerialPort] *)

Definition STATUS_ERROR_IMPENDING : Z := 1 <<u 7.
Definition STATUS_TRANSMIT_IDLE : Z := 1 <<u 6.
Definition STATUS_TRANSMIT_BUFFER_EMPTY : Z := 1 <<u 5.
Definition STATUS_BREAK : Z := 1 <<u 4.
Definition STATUS_FRAME_ERROR : Z := 1 <<u 3.
Definition STATUS_PARITY_ERROR : Z := 1 <<u 2.
Definition STATUS_OVERRUN_ERROR : Z := 1 <<u 1.
Definition STATUS_DATA_READY : Z := 1.

Record SerialPort : Type := mkSerialPort {
  data : Z;
  interrupt_enable : Z;
  fifo_control : Z;
  line_control : Z;
  modem_control : Z;
  line_status : Z;
  modem_status : Z;
  wake_on_data_ready : option Z
}.

Module SerialPort.
Definition new (initial_port : Z) : SerialPort :=
  mkSerialPort initial_port (u16 (initial_port + 1)) (u16 (initial_port + 2)) (u16 (initial_port + 3))
    (u16 (initial_port + 4)) (u16 (initial_port + 5)) (u16 (initial_port + 6)) None.

Definition with_wake (s : SerialPort) (w : option Z) : SerialPort :=
  mkSerialPort (data s) (interrupt_enable s) (fifo_control s) (line_control s) (modem_control s)
    (line_status s) (modem_status s) w.
Definition maybe_set_wake_on_data_ready (s : SerialPort) (pid : Z) : SerialPort :=
  match wake_on_data_ready s with None => with_wake s (Some pid) | Some _ => s end.
Definition force_wake_on_data_ready (s : SerialPort) (pid : Z) : SerialPort := with_wake s (Some pid).
Definition clear_wake_on_data_ready (s : SerialPort) : SerialPort := with_wake s None.

Section registers.
Context {E : Type} `{Ports E}.

Definition init (e : E) (s : SerialPort) : E :=
  write_all e
    [(interrupt_enable s, 0x01); (line_control s, 0x80); (data s, 0x03); (interrupt_enable s, 0x00);
     (line_control s, 0x03); (fifo_control s, 0xc7); (modem_control s, 0x0b)].

Definition is_transmitting (e : E) (s : SerialPort) : E * bool :=
  let '(e, status) := Port.read_u8 e (line_status s) in
  (e, (status &u STATUS_TRANSMIT_BUFFER_EMPTY) =? 0).

(** [while self.is_transmitting() {}], then the write. *)
Fixpoint send_byte (fuel : nat) (e : E) (s : SerialPort) (byte : Z) : comp E :=
  let '(e, busy) := is_transmitting e s in
  if busy then match fuel with O => OutOfFuel | S fuel => send_byte fuel e s byte end
  else Ret (Port.write_u8 e (data s) byte).

Definition has_data (e : E) (s : SerialPort) : E * bool :=
  let '(e, status) := Port.read_u8 e (line_status s) in
  (e, negb ((status &u STATUS_DATA_READY) =? 0)).

Definition receive_byte (e : E) (s : SerialPort) : E * option Z :=
  let '(e, ready) := has_data e s in
  if ready then let '(e, x) := Port.read_u8 e (data s) in (e, Some x) else (e, None).

(** [send] is [process::send_signal]. *)
Definition handle_interrupt (send : E -> Z -> Z -> comp E) (e : E) (s : SerialPort) : comp E :=
  let '(e, interrupt_info) := Port.read_u8 e (fifo_control s) in
  if negb ((interrupt_info &u 4) =? 0) then
    match wake_on_data_ready s with Some pid => send e pid SIG_CONTINUE | None => Ret e end
  else Ret e.

(** [fmt::Write] *)
Definition write_str (fuel : nat) (e : E) (s : SerialPort) (bytes : list Z) : comp E :=
  for_each (fun byte e => send_byte fuel e s byte) bytes e.
End registers.
End SerialPort.

(** * [ComDevice] *)

Record ComDevice : Type := mkComDevice { serial : SerialPort; queue : list Z }.

Module ComDevice.
Definition new (s : SerialPort) : ComDevice := mkComDevice s [].

Section device.
Context {E : Type} `{System E ComDevice} (fuel : nat).

Definition add_process_to_queue (e : E) (d : ComDevice) (pid : Z) : E * ComDevice * Z :=
  let q := queue d ++ [pid] in
  let len := lenZ q in
  let s := if len =? 1 then SerialPort.maybe_set_wake_on_data_ready (serial d) pid else serial d in
  (e, mkComDevice s q, len).

Definition remove_first_in_queue (e : E) (d : ComDevice) : E * ComDevice * option Z :=
  let s := SerialPort.clear_wake_on_data_ready (serial d) in
  let '(first, q) := match queue d with [] => (None, []) | p :: q => (Some p, q) end in
  let s := match q with [] => s | next :: _ => SerialPort.force_wake_on_data_ready s next end in
  (e, mkComDevice s q, first).

Definition get_queue_length (d : ComDevice) : Z := lenZ (queue d).
Definition get_first_process_in_queue (d : ComDevice) : option Z := nthZ (queue d) 0.
Definition is_data_available (e : E) (d : ComDevice) : E * bool := SerialPort.has_data e (serial d).

(** [while read < buffer.len() && self.serial.has_data()] *)
Fixpoint read_available_loop (fuel : nat) (e : E) (d : ComDevice) (buffer : list Z) (read : Z) : comp (E * list Z * Z) :=
  if read <? lenZ buffer then
    let '(e, ready) := SerialPort.has_data e (serial d) in
    if ready then
      match fuel with
      | O => OutOfFuel
      | S fuel =>
          let '(e, r) := SerialPort.receive_byte e (serial d) in
          match r with
          | Some x => buffer ← store buffer read x; read_available_loop fuel e d buffer (read +u 1)
          | None => read_available_loop fuel e d buffer read
          end
      end
    else Ret (e, buffer, read)
  else Ret (e, buffer, read).
Definition read_available_data (e : E) (d : ComDevice) (buffer : list Z) : comp (E * list Z * Z) :=
  read_available_loop fuel e d buffer 0.
End device.
End ComDevice.

#[global] Instance com_read_queue {E} `{System E ComDevice} (fuel : nat) : ReadQueue E ComDevice := {
  add_process_to_queue := ComDevice.add_process_to_queue;
  remove_first_in_queue := ComDevice.remove_first_in_queue;
  get_queue_length := ComDevice.get_queue_length;
  get_first_process_in_queue := ComDevice.get_first_process_in_queue;
  is_data_available := ComDevice.is_data_available;
  read_available_data := ComDevice.read_available_data fuel
}.

(** The device on its machine, as a driver. *)
Record ComDriver (E : Type) : Type := mkComDriver { com_machine : E; com_device : ComDevice }.
Arguments mkComDriver {E}. Arguments com_machine {E}. Arguments com_device {E}.

Section driver.
Context {E : Type} `{System E ComDevice} (fuel : nat).

Definition com_open (d : ComDriver E) (handle : Z) : comp (ComDriver E * result unit unit) := Ret (d, Ok tt).
Definition com_close (d : ComDriver E) (handle : Z) : comp (ComDriver E * result unit unit) := Ret (d, Ok tt).
Definition com_read (d : ComDriver E) (handle : Z) (buffer : list Z) : comp (ComDriver E * list Z * result Z unit) :=
  '(e, q, buffer, bytes_read) ← @blocking_read _ _ _ (com_read_queue fuel) fuel (com_machine d) (com_device d) buffer;
  Ret (mkComDriver e q, buffer, Ok bytes_read).
Definition com_write (d : ComDriver E) (handle : Z) (buffer : list Z) : comp (ComDriver E * result Z unit) :=
  e ← for_each (fun index e => byte ← Prelude.index buffer index; SerialPort.send_byte fuel e (serial (com_device d)) byte)
        (seqZ 0 (lenZ buffer)) (com_machine d);
  Ret (mkComDriver e (com_device d), Ok (lenZ buffer)).

#[export] Instance com_driver : DeviceDriver (ComDriver E) := {
  drv_open := com_open; drv_close := com_close; drv_read := com_read; drv_write := com_write;
  drv_seek := default_seek }.
End driver.
