(* ===== verification/Keyboard.v ===== *)
(** The keyboard: [drivers/keyboard/codes.rs], [drivers/keyboard/readers.rs],
    [drivers/keyboard/mod.rs] and the key state of [tty/keyboard.rs].

    Scan codes become key actions; the key state turns actions into the bytes a terminal
    reads, and every open reader of the device gets the raw actions. *)

From S2P Require Import Prelude Files Drivers.

(** * Key codes *)

(** The constructors of the enumeration, with the prefix [Key]. *)
Inductive KeyCode : Type :=
| KeyNone | KeyDelete | KeyBackspace | KeyTab | KeyEnter | KeyCaps | KeyShift | KeyControl | KeyMenu | KeyAlt
| KeyEscape | KeySpace | KeyArrowLeft | KeyArrowUp | KeyArrowRight | KeyArrowDown | KeyComma | KeyMinus | KeyPeriod | KeySlash
| KeyNum0 | KeyNum1 | KeyNum2 | KeyNum3 | KeyNum4 | KeyNum5 | KeyNum6 | KeyNum7 | KeyNum8 | KeyNum9
| KeySemicolon | KeyQuote | KeyLessThan | KeyEquals | KeyGreaterThan | KeyA | KeyB | KeyC | KeyD | KeyE
| KeyF | KeyG | KeyH | KeyI | KeyJ | KeyK | KeyL | KeyM | KeyN | KeyO
| KeyP | KeyQ | KeyR | KeyS | KeyT | KeyU | KeyV | KeyW | KeyX | KeyY
| KeyZ | KeyBracketLeft | KeyBackslash | KeyBracketRight | KeyBacktick.

#[export] Instance KeyCode_eq_dec : EqDecision KeyCode.
Proof. solve_decision. Defined.

(** [code as u8] *)
Definition key_byte (code : KeyCode) : Z :=
  match code with
  | KeyNone => 0x00 | KeyDelete => 0x07 | KeyBackspace => 0x08 | KeyTab => 0x09 | KeyEnter => 0x0d | KeyCaps => 0x10
  | KeyShift => 0x11 | KeyControl => 0x12 | KeyMenu => 0x13 | KeyAlt => 0x14 | KeyEscape => 0x1b | KeySpace => 0x20
  | KeyArrowLeft => 0x21 | KeyArrowUp => 0x22 | KeyArrowRight => 0x23 | KeyArrowDown => 0x24 | KeyComma => 0x2c | KeyMinus => 0x2d
  | KeyPeriod => 0x2e | KeySlash => 0x2f | KeyNum0 => 0x30 | KeyNum1 => 0x31 | KeyNum2 => 0x32 | KeyNum3 => 0x33
  | KeyNum4 => 0x34 | KeyNum5 => 0x35 | KeyNum6 => 0x36 | KeyNum7 => 0x37 | KeyNum8 => 0x38 | KeyNum9 => 0x39
  | KeySemicolon => 0x3a | KeyQuote => 0x3b | KeyLessThan => 0x3c | KeyEquals => 0x3d | KeyGreaterThan => 0x3e | KeyA => 0x41
  | KeyB => 0x42 | KeyC => 0x43 | KeyD => 0x44 | KeyE => 0x45 | KeyF => 0x46 | KeyG => 0x47
  | KeyH => 0x48 | KeyI => 0x49 | KeyJ => 0x4a | KeyK => 0x4b | KeyL => 0x4c | KeyM => 0x4d
  | KeyN => 0x4e | KeyO => 0x4f | KeyP => 0x50 | KeyQ => 0x51 | KeyR => 0x52 | KeyS => 0x53
  | KeyT => 0x54 | KeyU => 0x55 | KeyV => 0x56 | KeyW => 0x57 | KeyX => 0x58 | KeyY => 0x59
  | KeyZ => 0x5a | KeyBracketLeft => 0x5b | KeyBackslash => 0x5c | KeyBracketRight => 0x5d | KeyBacktick => 0x5f
  end.

Definition US_LAYOUT : list (Z * Z) :=
  [(0, 0); (0, 0); (0, 0); (0, 0); (0, 0); (0, 0); (0, 0); (0x7f, 0x7f);
   (0x08, 0x08); (0x09, 0x09); (0, 0); (0, 0); (0, 0); (0x0a, 0x0a); (0, 0); (0, 0);
   (0, 0); (0, 0); (0, 0); (0, 0); (0, 0); (0, 0); (0, 0); (0, 0);
   (0, 0); (0, 0); (0, 0); (0x1b, 0x1b); (0, 0); (0, 0); (0, 0); (0, 0);
   (0x20, 0x20); (0, 0); (0, 0); (0, 0); (0, 0); (0, 0); (0, 0); (0, 0);
   (0, 0); (0, 0); (0, 0); (0, 0); (0x2c, 0x3c); (0x2d, 0x5f); (0x2e, 0x3e); (0x2f, 0x3f);
   (0x30, 0x29); (0x31, 0x21); (0x32, 0x40); (0x33, 0x23); (0x34, 0x24); (0x35, 0x25); (0x36, 0x5e); (0x37, 0x26);
   (0x38, 0x2a); (0x39, 0x28); (0x3b, 0x3a); (0x27, 0x22); (0, 0); (0x3d, 0x2b); (0, 0); (0, 0);
   (0, 0); (0x61, 0x41); (0x62, 0x42); (0x63, 0x43); (0x64, 0x44); (0x65, 0x45); (0x66, 0x46); (0x67, 0x47);
   (0x68, 0x48); (0x69, 0x49); (0x6a, 0x4a); (0x6b, 0x4b); (0x6c, 0x4c); (0x6d, 0x4d); (0x6e, 0x4e); (0x6f, 0x4f);
   (0x70, 0x50); (0x71, 0x51); (0x72, 0x52); (0x73, 0x53); (0x74, 0x54); (0x75, 0x55); (0x76, 0x56); (0x77, 0x57);
   (0x78, 0x58); (0x79, 0x59); (0x7a, 0x5a); (0x5b, 0x7b); (0x5c, 0x7c); (0x5d, 0x7d); (0, 0); (0x60, 0x7e)].

Definition SCANCODES_TO_KEYCODES : list KeyCode :=
  [KeyNone; KeyEscape; KeyNum1; KeyNum2; KeyNum3; KeyNum4; KeyNum5; KeyNum6;
   KeyNum7; KeyNum8; KeyNum9; KeyNum0; KeyMinus; KeyEquals; KeyBackspace; KeyTab;
   KeyQ; KeyW; KeyE; KeyR; KeyT; KeyY; KeyU; KeyI;
   KeyO; KeyP; KeyBracketLeft; KeyBracketRight; KeyEnter; KeyControl; KeyA; KeyS;
   KeyD; KeyF; KeyG; KeyH; KeyJ; KeyK; KeyL; KeySemicolon;
   KeyQuote; KeyBacktick; KeyShift; KeyBackslash; KeyZ; KeyX; KeyC; KeyV;
   KeyB; KeyN; KeyM; KeyComma; KeyPeriod; KeySlash; KeyShift; KeyNone;
   KeyAlt; KeySpace; KeyCaps; KeyNone].

Definition get_keycode (scan_code : Z) : comp KeyCode :=
  if scan_code <? 60 then index SCANCODES_TO_KEYCODES scan_code else Ret KeyNone.

Definition get_extended_keycode (scan_code : Z) : KeyCode :=
  if scan_code =? 0x1c then KeyEnter
  else if scan_code =? 0x48 then KeyArrowUp
  else if scan_code =? 0x4b then KeyArrowLeft
  else if scan_code =? 0x4d then KeyArrowRight
  else if scan_code =? 0x50 then KeyArrowDown
  else KeyNone.

Inductive KeyAction : Type := Press (code : KeyCode) | Release (code : KeyCode).

(** * The state of the modifier keys *)

Record KeyState : Type := mkKeyState { alt : bool; ctrl : bool; shift : bool }.

Module KeyState.
Definition new : KeyState := mkKeyState false false false.

(** The slice after the bytes of the key are written, and their number. *)
Definition key_code_to_ascii (k : KeyState) (input : KeyCode) (buffer : list Z) : comp (list Z * Z) :=
  match input with
  | KeyArrowLeft =>
      buffer ← store buffer 0 0x1b;
      buffer ← store buffer 1 0x5b;
      buffer ← store buffer 2 0x44;
      Ret (buffer, 3)
  | _ =>
      let i := key_byte input in
      '(normal, shifted) ← (if i <? 0x60 then index US_LAYOUT i else Ret (0, 0));
      buffer ← store buffer 0 (if shift k then shifted else normal);
      Ret (buffer, 1)
  end.

Definition process_key_action (k : KeyState) (action : KeyAction) (buffer : list Z) : comp (KeyState * list Z * option Z) :=
  match action with
  | Press KeyAlt => Ret (mkKeyState true (ctrl k) (shift k), buffer, None)
  | Press KeyControl => Ret (mkKeyState (alt k) true (shift k), buffer, None)
  | Press KeyShift => Ret (mkKeyState (alt k) (ctrl k) true, buffer, None)
  | Press code => '(buffer, len) ← key_code_to_ascii k code buffer; Ret (k, buffer, Some len)
  | Release KeyAlt => Ret (mkKeyState false (ctrl k) (shift k), buffer, None)
  | Release KeyControl => Ret (mkKeyState (alt k) false (shift k), buffer, None)
  | Release KeyShift => Ret (mkKeyState (alt k) (ctrl k) false, buffer, None)
  | Release _ => Ret (k, buffer, None)
  end.
End KeyState.

(** * Open readers *)

(** The bytes each open handle has not read yet. *)
Record OpenReaders : Type := mkOpenReaders { reader_map : gmap Z (list Z) }.

Module OpenReaders.
Definition new : OpenReaders := mkOpenReaders ∅.
Definition open (r : OpenReaders) (handle : Z) : OpenReaders := mkOpenReaders (<[handle := []]> (reader_map r)).
Definition close (r : OpenReaders) (handle : Z) : OpenReaders := mkOpenReaders (delete handle (reader_map r)).

(** [entry.pop()]: the last element. *)
Definition pop (entry : list Z) : list Z * option Z :=
  match last entry with Some x => (removelast entry, Some x) | None => (entry, None) end.
Definition read (r : OpenReaders) (handle : Z) (buffer : list Z) : comp (OpenReaders * list Z * Z) :=
  match reader_map r !! handle with
  | Some entry =>
      let read_len := lenZ entry in
      let read_len := if lenZ buffer <? read_len then lenZ buffer else read_len in
      '(entry, buffer) ← for_each (fun i '(entry, buffer) =>
          let '(entry, x) := pop entry in
          buffer ← store buffer i (match x with Some code => code | None => 0 end);
          Ret (entry, buffer)) (seqZ 0 read_len) (entry, buffer);
      Ret (mkOpenReaders (<[handle := entry]> (reader_map r)), buffer, read_len)
  | None => Ret (r, buffer, 0)
  end.
End OpenReaders.

(** * The keyboard *)

Record Keyboard : Type := mkKeyboard { receiving_extended_code : bool; open_readers : OpenReaders }.

Module Keyboard.
Definition new : Keyboard := mkKeyboard false OpenReaders.new.
Definition data_port : Z := 0x60.

Definition generate_action_from_scan_code (k : Keyboard) (scan_code : Z) : comp (Keyboard * option KeyAction) :=
  if scan_code =? 0xe0 then Ret (mkKeyboard true (open_readers k), None)
  else
    let scan_code_key := scan_code &u 0x7f in
    let pressed := (scan_code &u 0x80) =? 0 in
    key_code ← (if receiving_extended_code k then Ret (get_extended_keycode scan_code_key) else get_keycode scan_code_key);
    let k := mkKeyboard false (open_readers k) in
    match key_code with
    | KeyNone => Ret (k, None)
    | _ => Ret (k, Some (if pressed then Press key_code else Release key_code))
    end.

Definition process_action (k : Keyboard) (action : KeyAction) : Keyboard :=
  mkKeyboard (receiving_extended_code k) (mkOpenReaders
    ((fun codes =>
        match action with
        | Press code => codes ++ [1] ++ [key_byte code]
        | Release code => codes ++ [2] ++ [key_byte code]
        end) <$> reader_map (open_readers k))).

(** The methods of [KeyboardDevice], which shares the keyboard with the input thread. *)
Definition with_readers (k : Keyboard) (r : OpenReaders) : Keyboard := mkKeyboard (receiving_extended_code k) r.
Definition kbd_open (k : Keyboard) (handle : Z) : comp (Keyboard * result unit unit) :=
  Ret (with_readers k (OpenReaders.open (open_readers k) handle), Ok tt).
Definition kbd_close (k : Keyboard) (handle : Z) : comp (Keyboard * result unit unit) :=
  Ret (with_readers k (OpenReaders.close (open_readers k) handle), Ok tt).
Definition kbd_read (k : Keyboard) (handle : Z) (buffer : list Z) : comp (Keyboard * list Z * result Z unit) :=
  '(r, buffer, read_len) ← OpenReaders.read (open_readers k) handle buffer;
  Ret (with_readers k r, buffer, Ok read_len).
Definition kbd_write (k : Keyboard) (handle : Z) (buffer : list Z) : comp (Keyboard * result Z unit) := Ret (k, Ok 0).
End Keyboard.

#[global] Instance keyboard_driver : DeviceDriver Keyboard := {
  drv_open := Keyboard.kbd_open; drv_close := Keyboard.kbd_close; drv_read := Keyboard.kbd_read;
  drv_write := Keyboard.kbd_write; drv_seek := default_seek }.

(** * Reading *)

Lemma pop_snoc l x : OpenReaders.pop (l ++ [x]) = (l, Some x).
Proof. unfold OpenReaders.pop. by rewrite last_snoc, removelast_last. Qed.

(** The loop takes bytes off the end of the entry. *)
Lemma read_loop_newest_first (read taken : list Z) buffer :
  lenZ taken <= lenZ buffer ->
  for_each (fun i '(entry, buffer) =>
      let '(entry, x) := OpenReaders.pop entry in
      buffer ← store buffer i (match x with Some code => code | None => 0 end);
      Ret (entry, buffer)) (seqZ 0 (lenZ taken)) (read ++ reverse taken, buffer) =
  Ret (read, taken ++ drop (length taken) buffer).
Proof.
  revert read. induction taken as [|x taken IH] using rev_ind; intros read Hb; [cbn; by rewrite app_nil_r, drop_0|].
  rewrite lenZ_app in *. change (lenZ [x]) with 1 in *. pose proof (lenZ_nonneg taken).
  rewrite seqZ_snoc, for_each_app, reverse_snoc by lia.
  replace (read ++ x :: reverse taken) with ((read ++ [x]) ++ reverse taken) by (by rewrite <- app_assoc).
  rewrite IH by lia. cbn [for_each mbind comp_bind]. rewrite pop_snoc. rewrite Z.add_0_l.
  unfold lenZ in *. rewrite store_Ret by (unfold lenZ; rewrite length_app, length_drop; lia). cbn [mbind comp_bind]. do 2 f_equal.
  unfold setZ. destruct (Z.leb_spec 0 (Z.of_nat (length taken))); [|lia]. rewrite Nat2Z.id, insert_app_r_alt, Nat.sub_diag by done.
  rewrite <- app_assoc, length_app. f_equal. destruct (drop (length taken) buffer) as [|y l] eqn:E.
  - apply (f_equal length) in E. rewrite length_drop in E. cbn in E. lia.
  - cbn. rewrite <- drop_drop, E. done.
Qed.

(** A reader of the keyboard device gets the latest bytes first: a read returns the end of
    what the handle has not read, backwards, so that of two keys the later comes first and
    each key code precedes the byte that says whether it was pressed. *)
Theorem keyboard_reads_newest_first (k : Keyboard) (handle : Z) (read taken buffer : list Z) :
  reader_map (open_readers k) !! handle = Some (read ++ reverse taken) ->
  lenZ taken = Z.min (lenZ buffer) (lenZ (read ++ reverse taken)) ->
  exists k', Keyboard.kbd_read k handle buffer = Ret (k', taken ++ drop (length taken) buffer, Ok (lenZ taken)) /\
    reader_map (open_readers k') = <[handle := read]> (reader_map (open_readers k)).
Proof.
  intros Hh Hl. unfold Keyboard.kbd_read, OpenReaders.read. rewrite Hh.
  assert (E : (if lenZ buffer <? lenZ (read ++ reverse taken) then lenZ buffer else lenZ (read ++ reverse taken)) = lenZ taken)
    by (destruct (Z.ltb_spec (lenZ buffer) (lenZ (read ++ reverse taken))); lia).
  rewrite E, read_loop_newest_first by lia. cbn [mbind comp_bind]. by eexists.
Qed.

Definition demo_keyboard : Keyboard :=
  Keyboard.process_action (Keyboard.process_action
    (mkKeyboard false (mkOpenReaders {[ 5 := [] ]})) (Press KeyA)) (Press KeyB).

(** Keys A and B were pressed. *)
Lemma keyboard_reads_newest_first_witness :
  exists k', Keyboard.kbd_read demo_keyboard 5 [0; 0; 0; 0; 9] = Ret (k', [0x42; 1; 0x41; 1] ++ drop 4 [0; 0; 0; 0; 9], Ok (lenZ [0x42; 1; 0x41; 1])) /\
    reader_map (open_readers k') = <[5 := []]> (reader_map (open_readers demo_keyboard)).
Proof. apply (keyboard_reads_newest_first demo_keyboard 5 [] [0x42; 1; 0x41; 1] [0; 0; 0; 0; 9]); by vm_compute. Defined.
