(* ===== verification/Tty.v ===== *)
(** Terminals: [tty/tty.rs], [tty/buffers.rs], [tty/router.rs], [tty/device.rs] and
    [tty/mod.rs].

    A TTY parses the bytes sent to it and draws them through its [TextMode], on the screen
    when it is active and otherwise in its back buffer.  Ring buffers connect it with the
    device file; the router knows the active TTY and sends it the keys.  All operations work
    on physical memory through the translation [tr]. *)

From S2P Require Import Prelude Memory RingBuffer Files Drivers TextMode Keyboard.

(** * [TTY] *)

Definition BACK_BUFFER_SIZE : Z := 80 * 25 * 2.

Inductive ParseState : Type := Ready | EscapeStart | CSI.
Inductive LineDiscipline : Type := Raw | Canonical.

(** [back_buffer] is the address of the vector's elements. *)
Record TTY : Type := mkTTY {
  is_active : bool;
  line_discipline : LineDiscipline;
  echo : bool;
  show_cursor : bool;
  parse_state : ParseState;
  arg_digits_written : Z;
  csi_args : list (option Z);
  text_buffer : TextMode;
  back_buffer : Z
}.

Module TTY.
Definition set_active (y : TTY) (active : bool) : TTY :=
  mkTTY active (line_discipline y) (echo y) (show_cursor y) (parse_state y) (arg_digits_written y) (csi_args y)
    (text_buffer y) (back_buffer y).
Definition with_text (y : TTY) (t : TextMode) : TTY :=
  mkTTY (is_active y) (line_discipline y) (echo y) (show_cursor y) (parse_state y) (arg_digits_written y) (csi_args y) t
    (back_buffer y).
Definition with_parse (y : TTY) (p : ParseState) (digits : Z) (args : list (option Z)) : TTY :=
  mkTTY (is_active y) (line_discipline y) (echo y) (show_cursor y) p digits args (text_buffer y) (back_buffer y).

Definition get_csi_arg (y : TTY) (i default : Z) : Z :=
  match nthZ (csi_args y) i with
  | Some (Some val) => val
  | Some None => default
  | None => default
  end.

Section tty.
Variable tr : Z -> Z.

(** [back] is the address the allocator gives the back buffer. *)
Definition new (m : mem) (back : Z) : mem * TTY :=
  (foldl (fun m i => TextMode.write_volatile tr m (back + i) 0) m (seqZ 0 BACK_BUFFER_SIZE),
   mkTTY false Raw true true Ready 0 [] (TextMode.new 0xc00b8000) back).

(** A byte of a control sequence: the screen after it, and whether the sequence is done. *)
Definition csi_byte (m : mem) (y : TTY) (byte : Z) : mem * TTY * bool :=
  let t := text_buffer y in
  let delta := get_csi_arg y 0 1 in
  if byte =? 0x3b then (m, with_parse y (parse_state y) 0 (csi_args y ++ [None]), false)
  else if byte =? 0x41 then (m, with_text y (TextMode.move_cursor_relative t 0 (i32 (i32 delta * -1))), true)
  else if byte =? 0x42 then (m, with_text y (TextMode.move_cursor_relative t 0 (i32 delta)), true)
  else if byte =? 0x43 then (m, with_text y (TextMode.move_cursor_relative t (i32 delta) 0), true)
  else if byte =? 0x44 then (m, with_text y (TextMode.move_cursor_relative t (i32 (i32 delta * -1)) 0), true)
  else if (byte =? 0x45) || (byte =? 0x46) || (byte =? 0x47) || (byte =? 0x48) then (m, y, true)
  else if byte =? 0x4a then
    let direction := get_csi_arg y 0 0 in
    (if direction =? 0 then TextMode.clear_screen_to_end tr m t
     else if direction =? 1 then TextMode.clear_screen_to_beginning tr m t
     else if (direction =? 2) || (direction =? 3) then TextMode.clear_screen tr m t
     else m, y, true)
  else if byte =? 0x4b then
    let direction := get_csi_arg y 0 0 in
    (if direction =? 0 then TextMode.clear_row_to_end tr m t
     else if direction =? 1 then TextMode.clear_row_to_beginning tr m t
     else if (direction =? 2) || (direction =? 3) then TextMode.clear_row tr m t
     else m, y, true)
  else (m, y, true).

Definition process_character (m : mem) (y : TTY) (byte : Z) : mem * TTY * option Z :=
  match parse_state y with
  | Ready =>
      if byte =? 0x1b then (m, with_parse y EscapeStart (arg_digits_written y) (csi_args y), None)
      else (m, y, Some byte)
  | EscapeStart =>
      if byte =? 0x5b then (m, with_parse y CSI 0 [None], None)
      else (m, with_parse y Ready (arg_digits_written y) (csi_args y), None)
  | CSI =>
      let m := TextMode.disable_cursor tr m (text_buffer y) in
      let '(m, y, done) := csi_byte m y byte in
      let y := if done then with_parse y Ready (arg_digits_written y) (csi_args y) else y in
      let m := if show_cursor y then TextMode.invert_cursor tr m (text_buffer y) else m in
      (m, y, None)
  end.

Definition send_data (m : mem) (y : TTY) (byte : Z) : mem * TTY :=
  let '(m, y, output) := process_character m y byte in
  match output with
  | Some ch =>
      let '(m, t) := TextMode.write_byte tr m (text_buffer y) ch in
      let y := with_text y t in
      (if show_cursor y then TextMode.invert_cursor tr m (text_buffer y) else m, y)
  | None => (m, y)
  end.

Definition handle_input (m : mem) (y : TTY) (byte : Z) : mem * TTY := if echo y then send_data m y byte else (m, y).

(** The loops that copy the screen word by word. *)
Definition copy_words (m : mem) (dest src : Z) : mem :=
  foldl (fun m off => store32 m (tr (u32 (dest + 4 * off))) (load32 m (tr (u32 (src + 4 * off))))) m
    (seqZ 0 (BACK_BUFFER_SIZE / 4)).

Definition swap_out (m : mem) (y : TTY) : mem * TTY :=
  let dest_ptr := back_buffer y in
  let '(t, src) := TextMode.set_buffer_pointer (text_buffer y) dest_ptr in
  (copy_words m dest_ptr src, with_text y t).

Definition force_background (y : TTY) : TTY :=
  with_text y (TextMode.set_buffer_pointer (text_buffer y) (back_buffer y)).1.

Definition swap_in (m : mem) (y : TTY) : mem * TTY :=
  let dest := 0xb8000 in
  let t := (TextMode.set_buffer_pointer (text_buffer y) dest).1 in
  (copy_words m dest (back_buffer y), with_text y t).
End tty.
End TTY.

(** * The buffers of the device file *)

Definition BUFFER_SIZE : Z := 256.

Record TTYReadWriteBuffers : Type := mkTTYBuffers { output_buffer : RingBuffer; input_buffer : RingBuffer }.

Module TTYReadWriteBuffers.
Definition new : TTYReadWriteBuffers :=
  mkTTYBuffers (RingBuffer.new (replicate (Z.to_nat BUFFER_SIZE) 0)) (RingBuffer.new (replicate (Z.to_nat BUFFER_SIZE) 0)).
Definition read (b : TTYReadWriteBuffers) (buffer : list Z) : comp (TTYReadWriteBuffers * list Z * Z) :=
  '(o, buffer, n) ← RingBuffer.read (output_buffer b) buffer;
  Ret (mkTTYBuffers o (input_buffer b), buffer, n).
Definition write (b : TTYReadWriteBuffers) (buffer : list Z) : comp (TTYReadWriteBuffers * Z) :=
  '(i, n) ← RingBuffer.write (input_buffer b) buffer;
  Ret (mkTTYBuffers (output_buffer b) i, n).
End TTYReadWriteBuffers.

(** * The router *)

Record TTYData : Type := mkTTYData { data_tty : TTY; data_buffers : TTYReadWriteBuffers }.

Record TTYRouter : Type := mkRouter { tty_set : list TTYData; active_tty : Z; key_state : KeyState }.

Module TTYRouter.
Definition with_set (r : TTYRouter) (l : list TTYData) : TTYRouter := mkRouter l (active_tty r) (key_state r).
Definition get_tty_buffers (r : TTYRouter) (i : Z) : option TTYReadWriteBuffers := data_buffers <$> nthZ (tty_set r) i.
Definition get_active_tty (r : TTYRouter) : option TTY := data_tty <$> nthZ (tty_set r) (active_tty r).

(** An entry is changed in place. *)
Definition put_tty (r : TTYRouter) (i : Z) (y : TTY) : TTYRouter :=
  match nthZ (tty_set r) i with
  | Some d => with_set r (setZ (tty_set r) i (mkTTYData y (data_buffers d)))
  | None => r
  end.
Definition put_buffers (r : TTYRouter) (i : Z) (b : TTYReadWriteBuffers) : TTYRouter :=
  match nthZ (tty_set r) i with
  | Some d => with_set r (setZ (tty_set r) i (mkTTYData (data_tty d) b))
  | None => r
  end.

Section router.
Variable tr : Z -> Z.

(** [back0] and [back1] are the addresses of the back buffers. *)
Definition new (m : mem) (back0 back1 : Z) : mem * TTYRouter :=
  let '(m, tty0) := TTY.new tr m back0 in
  let tty0 := TTY.set_active tty0 true in
  let '(m, tty1) := TTY.new tr m back1 in
  let tty1 := TTY.force_background tty1 in
  (m, mkRouter [mkTTYData tty0 TTYReadWriteBuffers.new; mkTTYData tty1 TTYReadWriteBuffers.new] 0 KeyState.new).

Definition create_tty (m : mem) (r : TTYRouter) (back : Z) : mem * TTYRouter * Z :=
  let '(m, tty) := TTY.new tr m back in
  let i := lenZ (tty_set r) in
  (m, with_set r (tty_set r ++ [mkTTYData tty TTYReadWriteBuffers.new]), i).

Definition set_active_tty (m : mem) (r : TTYRouter) (i : Z) : mem * TTYRouter :=
  if lenZ (tty_set r) <=? i then (m, r)
  else
    let '(m, r) :=
      match get_active_tty r with
      | Some prev =>
          let prev := TTY.set_active prev false in
          let '(m, prev) := TTY.swap_out tr m prev in
          (m, put_tty r (active_tty r) prev)
      | None => (m, r)
      end in
    let r := mkRouter (tty_set r) i (key_state r) in
    match get_active_tty r with
    | Some next =>
        let next := TTY.set_active next true in
        let '(m, next) := TTY.swap_in tr m next in
        (m, put_tty r (active_tty r) next)
    | None => (m, r)
    end.

(** The part of [send_key_action] that hands the bytes to the active TTY. *)
Definition send_bytes (m : mem) (r : TTYRouter) (data : list Z) : comp (mem * TTYRouter) :=
  match nthZ (tty_set r) (active_tty r) with
  | Some active =>
      let '(m, tty) := foldl (fun '(m, tty) x => TTY.handle_input tr m tty x) (m, data_tty active) data in
      '(o, _) ← RingBuffer.write (output_buffer (data_buffers active)) data;
      Ret (m, with_set r (setZ (tty_set r) (active_tty r)
                (mkTTYData tty (mkTTYBuffers o (input_buffer (data_buffers active))))))
  | None => Ret (m, r)
  end.

Definition send_key_action (m : mem) (r : TTYRouter) (action : KeyAction) : comp (mem * TTYRouter) :=
  let buffer := [0; 0; 0; 0] in
  '(k, buffer, output) ← KeyState.process_key_action (key_state r) action buffer;
  let r := mkRouter (tty_set r) (active_tty r) k in
  match output with
  | Some len =>
      match action, alt k with
      | Press KeyNum0, true => Ret (set_active_tty m r 0)
      | Press KeyNum1, true => Ret (set_active_tty m r 1)
      | _, _ => send_bytes m r (take (Z.to_nat len) buffer)
      end
  | None => Ret (m, r)
  end.

(** [while to_read > 0] *)
Fixpoint drain_loop (fuel : nat) (m : mem) (tty : TTY) (b : RingBuffer) (data : list Z) (to_read : Z)
  : comp (mem * TTY * RingBuffer) :=
  if to_read >? 0 then
    match fuel with
    | O => OutOfFuel
    | S fuel =>
        '(b, data, bytes_read) ← RingBuffer.read b data;
        let to_read := if bytes_read =? lenZ data then to_read -u bytes_read else 0 in
        '(m, tty) ← for_each (fun i '(m, tty) => x ← index data i; Ret (TTY.send_data tr m tty x))
                      (seqZ 0 bytes_read) (m, tty);
        drain_loop fuel m tty b data to_read
    end
  else Ret (m, tty, b).

Definition process_entry (fuel : nat) (m : mem) (d : TTYData) : comp (mem * TTYData) :=
  let b := input_buffer (data_buffers d) in
  '(m, tty, b) ← drain_loop fuel m (data_tty d) b [0; 0; 0; 0] (RingBuffer.available_bytes b);
  Ret (m, mkTTYData tty (mkTTYBuffers (output_buffer (data_buffers d)) b)).

Fixpoint process_loop (fuel : nat) (m : mem) (l : list TTYData) : comp (mem * list TTYData) :=
  match l with
  | [] => Ret (m, [])
  | d :: l =>
      '(m, d) ← process_entry fuel m d;
      '(m, l) ← process_loop fuel m l;
      Ret (m, d :: l)
  end.
Definition process_buffers (fuel : nat) (m : mem) (r : TTYRouter) : comp (mem * TTYRouter) :=
  '(m, l) ← process_loop fuel m (tty_set r); Ret (m, with_set r l).
End router.
End TTYRouter.

(** * The device *)

(** A driver of the router, which it shares with the input and TTY threads. *)
Record TTYDevice : Type := mkTTYDevice { tty_id : Z; device_router : TTYRouter }.

Module TTYDevice.
Definition open (d : TTYDevice) (handle : Z) : comp (TTYDevice * result unit unit) := Ret (d, Ok tt).
Definition close (d : TTYDevice) (handle : Z) : comp (TTYDevice * result unit unit) := Ret (d, Ok tt).
Definition read (d : TTYDevice) (handle : Z) (buffer : list Z) : comp (TTYDevice * list Z * result Z unit) :=
  match TTYRouter.get_tty_buffers (device_router d) (tty_id d) with
  | Some b =>
      '(b, buffer, bytes_read) ← TTYReadWriteBuffers.read b buffer;
      Ret (mkTTYDevice (tty_id d) (TTYRouter.put_buffers (device_router d) (tty_id d) b), buffer, Ok bytes_read)
  | None => Ret (d, buffer, Err tt)
  end.
Definition write (d : TTYDevice) (handle : Z) (buffer : list Z) : comp (TTYDevice * result Z unit) :=
  match TTYRouter.get_tty_buffers (device_router d) (tty_id d) with
  | Some b =>
      '(b, bytes_written) ← TTYReadWriteBuffers.write b buffer;
      Ret (mkTTYDevice (tty_id d) (TTYRouter.put_buffers (device_router d) (tty_id d) b), Ok bytes_written)
  | None => Ret (d, Err tt)
  end.
End TTYDevice.

#[global] Instance tty_driver : DeviceDriver TTYDevice := {
  drv_open := TTYDevice.open; drv_close := TTYDevice.close; drv_read := TTYDevice.read;
  drv_write := TTYDevice.write; drv_seek := default_seek }.

(** * The console *)

Definition init_ttys (tr : Z -> Z) (m : mem) (back0 back1 : Z) : mem * option TTYRouter :=
  let '(m, r) := TTYRouter.new tr m back0 back1 in (m, Some r).
Definition get_router (router : option TTYRouter) : comp TTYRouter := unwrap router.

Module Console.
Definition write_str (r : TTYRouter) (s : list Z) : comp (TTYRouter * result unit unit) :=
  match TTYRouter.get_tty_buffers r 0 with
  | Some b =>
      '(i, _) ← RingBuffer.write (input_buffer b) s;
      Ret (TTYRouter.put_buffers r 0 (mkTTYBuffers (output_buffer b) i), Ok tt)
  | None => Ret (r, Err tt)
  end.
End Console.

(** [write_fmt] writes the pieces of the formatted text one after the other. *)
Fixpoint write_pieces (r : TTYRouter) (pieces : list (list Z)) : comp (TTYRouter * result unit unit) :=
  match pieces with
  | [] => Ret (r, Ok tt)
  | s :: pieces =>
      '(r, x) ← Console.write_str r s;
      match x with Ok _ => write_pieces r pieces | Err e => Ret (r, Err e) end
  end.
Definition console_write (router : option TTYRouter) (pieces : list (list Z)) : comp (option TTYRouter) :=
  r ← get_router router;
  '(r, x) ← write_pieces r pieces;
  match x with Ok _ => Ret (Some r) | Err _ => Panic end.

(** * What is drawn *)

Section drawn.
Context {tr : Z -> Z} {base p : Z} (Hw : window tr base p).

(** The cursor is on the screen and no argument of a control sequence has been given. *)
Definition tty_ok (y : TTY) : Prop :=
  on_screen (base := base) (text_buffer y) /\ Forall (fun a => a = None) (csi_args y).

Lemma csi_arg_default y i d : tty_ok y -> TTY.get_csi_arg y i d = d.
Proof.
  intros [_ Ha]. unfold TTY.get_csi_arg. destruct (nthZ (csi_args y) i) as [a|] eqn:E; [|done].
  by rewrite (nthZ_Forall _ _ i a Ha E).
Qed.

Lemma move_cursor_on_screen t dcol drow : on_screen (base := base) t -> on_screen (base := base) (TextMode.move_cursor_relative t dcol drow).
Proof.
  intros (Hb & Hc & Hr & Hcol). unfold on_screen, TextMode.move_cursor_relative. cbn. split; [done|].
  repeat match goal with |- context [if ?a <? ?b then _ else _] => destruct (Z.ltb_spec a b) | |- context [if ?a >? ?b then _ else _] => destruct (Z.gtb_spec a b) end;
    rewrite ?u8_small by (mach_unfold; lia); split_and!; (done || lia).
Qed.

Lemma csi_byte_safe m y b : tty_ok y ->
  let '(m', y', _) := TTY.csi_byte tr m y b in only_window p m m' /\ tty_ok y'.
Proof.
  intros Hy. pose proof Hy as [Ht Ha]. pose proof Ht as (Hb & Hc & Hr & Hcol). unfold TTY.csi_byte.
  rewrite !csi_arg_default by done. change (0 =? 0) with true. cbv iota.
  assert (Hend : only_window p m (TextMode.clear_screen_to_end tr m (text_buffer y))).
  { unfold TextMode.clear_screen_to_end. apply (clear_cells_spec Hw); [done|lia|lia]. }
  assert (Hrow : only_window p m (TextMode.clear_row_to_end tr m (text_buffer y))).
  { unfold TextMode.clear_row_to_end. apply (clear_cells_spec Hw); [done|lia|lia]. }
  destruct (b =? 0x3b); [split; [done|]; split; [done|]; apply Forall_app_2; [done|by repeat constructor]|].
  do 4 (match goal with |- context [if b =? ?x then _ else _] => destruct (b =? x) end;
    [split; [done|]; split; [by apply move_cursor_on_screen|done]|]).
  destruct (_ || _); [done|]. destruct (b =? 0x4a); [done|]. by destruct (b =? 0x4b).
Qed.

Lemma send_data_safe m y b : tty_ok y -> is_u8 b ->
  let '(m', y') := TTY.send_data tr m y b in only_window p m m' /\ tty_ok y'.
Proof.
  intros Hy Hb. pose proof Hy as [Ht Ha]. unfold TTY.send_data, TTY.process_character. destruct (parse_state y).
  - destruct (b =? 0x1b); [done|].
    set (T := mkTerminal (fun r c => load8 m (p + (160 * r + 2 * c))) (cursor_col (text_buffer y)) (cursor_row (text_buffer y))).
    pose proof (write_byte_shows Hw m (text_buffer y) T b (conj Ht (conj eq_refl (conj eq_refl (fun _ _ _ _ => eq_refl)))) Hb) as Hs.
    destruct (TextMode.write_byte tr m (text_buffer y) b) as [m' t']. destruct Hs as [F1 (Ht' & _)].
    assert (Hy' : tty_ok (TTY.with_text y t')) by done. cbn [show_cursor TTY.with_text text_buffer]. destruct (show_cursor y); [|done].
    split; [|done]. eapply only_window_trans; [exact F1|]. by apply (invert_cursor_spec Hw).
  - destruct (b =? 0x5b); [|done]. split; [done|]. split; [done|]. by repeat constructor.
  - pose proof (csi_byte_safe (TextMode.disable_cursor tr m (text_buffer y)) y b Hy) as Hc.
    destruct (TTY.csi_byte tr _ y b) as [[m1 y1] done]. destruct Hc as [F1 Hy1].
    pose proof (proj1 (disable_cursor_spec Hw m (text_buffer y) Ht)) as F0.
    set (y2 := if done then _ else y1). assert (Hy2 : tty_ok y2) by (unfold y2; by destruct done).
    split; [|done]. eapply only_window_trans; [exact F0|]. eapply only_window_trans; [exact F1|].
    destruct (show_cursor y2); [|done]. apply (invert_cursor_spec Hw), Hy2.
Qed.

(** C32: Whatever bytes are sent to a TTY, escape and control sequences included, the cursor
    stays on the screen and nothing but the 4000 bytes of its window changes; no argument of
    a control sequence is ever recorded, so each takes its default. *)
Theorem tty_stays_in_window (m : mem) (y : TTY) (bytes : list Z) :
  tty_ok y -> Forall is_u8 bytes ->
  let '(m', y') := foldl (fun '(m, y) b => TTY.send_data tr m y b) (m, y) bytes in only_window p m m' /\ tty_ok y'.
Proof.
  intros Hy Hb. revert m y Hy. induction Hb as [|b bytes Hb8 Hb IH]; intros m y Hy; [done|]. cbn [foldl].
  pose proof (send_data_safe m y b Hy Hb8) as Hs. destruct (TTY.send_data tr m y b) as [m1 y1]. destruct Hs as [F1 Hy1].
  specialize (IH m1 y1 Hy1). destruct (foldl _ (m1, y1) bytes) as [m2 y2]. destruct IH as [F2 Hy2].
  split; [by eapply only_window_trans|done].
Qed.

(** ** The reference

    A terminal with the control sequences the code knows: ESC [ and a letter, with any number
    of semicolons between, moves the cursor by one or clears a part of the screen.  No digit
    is part of a sequence; a digit ends it. *)
Definition term_up (T : Terminal) : Terminal := mkTerminal (term_char T) (term_col T) (Z.max 0 (term_row T - 1)).
Definition term_down (T : Terminal) : Terminal := mkTerminal (term_char T) (term_col T) (Z.min 24 (term_row T + 1)).
Definition term_right (T : Terminal) : Terminal := mkTerminal (term_char T) (Z.min 79 (term_col T + 1)) (term_row T).
Definition term_left (T : Terminal) : Terminal := mkTerminal (term_char T) (Z.max 0 (term_col T - 1)) (term_row T).
Definition term_clear_row (T : Terminal) : Terminal :=
  mkTerminal (fun r c => if (r =? term_row T) && (term_col T <=? c) then 0x20 else term_char T r c) (term_col T) (term_row T).

(** To the end of the screen, but not from the cursor on: the code counts the column in
    bytes, so that it starts at half the column, and in odd columns clears no character. *)
Definition term_clear_screen (T : Terminal) : Terminal :=
  mkTerminal (fun r c =>
      if (term_col T mod 2 =? 0) && ((term_row T <? r) || (r =? term_row T) && (term_col T / 2 <=? c)) then 0x20 else term_char T r c)
    (term_col T) (term_row T).

Definition term_control (T : Terminal) (b : Z) : Terminal :=
  if b =? 0x41 then term_up T else if b =? 0x42 then term_down T
  else if b =? 0x43 then term_right T else if b =? 0x44 then term_left T
  else if b =? 0x4a then term_clear_screen T else if b =? 0x4b then term_clear_row T else T.

Definition term_send (D : ParseState * Terminal) (b : Z) : ParseState * Terminal :=
  let '(s, T) := D in
  match s with
  | Ready => if b =? 0x1b then (EscapeStart, T) else (Ready, term_write T b)
  | EscapeStart => (if b =? 0x5b then CSI else Ready, T)
  | CSI => if b =? 0x3b then (CSI, T) else (Ready, term_control T b)
  end.

(** The TTY shows the terminal and is at the same place of a control sequence. *)
Definition displays (m : mem) (y : TTY) (D : ParseState * Terminal) : Prop :=
  shows (base := base) (p := p) m (text_buffer y) D.2 /\ parse_state y = D.1 /\ Forall (fun a => a = None) (csi_args y).

Lemma clear_row_shows m t T : shows (base := base) (p := p) m t T ->
  let m' := TextMode.clear_row_to_end tr m t in only_window p m m' /\ shows (base := base) (p := p) m' t (term_clear_row T).
Proof.
  intros (Ht & Hc & Hr & Hs). pose proof Ht as (Hb & Hc' & Hr' & _). unfold TextMode.clear_row_to_end. cbv zeta.
  destruct (clear_cells_spec Hw m t (cursor_row t * 80 * 2 + cursor_col t * 2) ((cursor_row t + 1) * 80 * 2) Hb) as [F1 F2]; [lia|lia|].
  split; [done|]. split_and!; try done. intros r c Hr2 Hc2. rewrite F2 by lia. cbn [term_clear_row term_char]. rewrite <- (Hs r c), <- Hc, <- Hr by lia.
  match goal with |- (if ?x then _ else _) = (if ?y then _ else _) => replace x with y; [done|] end.
  apply eq_true_iff_eq. rewrite !andb_true_iff, Z.leb_le, Z.leb_le, Z.ltb_lt, !Z.eqb_eq. mlia.
Qed.

Lemma clear_screen_shows m t T : shows (base := base) (p := p) m t T ->
  let m' := TextMode.clear_screen_to_end tr m t in only_window p m m' /\ shows (base := base) (p := p) m' t (term_clear_screen T).
Proof.
  intros (Ht & Hc & Hr & Hs). pose proof Ht as (Hb & Hc' & Hr' & _). unfold TextMode.clear_screen_to_end. cbv zeta.
  destruct (clear_cells_spec Hw m t (cursor_col t + cursor_row t * 80 * 2) (2 * 80 * 25) Hb) as [F1 F2]; [lia|lia|].
  split; [done|]. split_and!; try done. intros r c Hr2 Hc2. rewrite F2 by lia. cbn [term_clear_screen term_char]. rewrite <- (Hs r c), <- Hc, <- Hr by lia.
  match goal with |- (if ?x then _ else _) = (if ?y then _ else _) => replace x with y; [done|] end.
  apply eq_true_iff_eq. rewrite !andb_true_iff, orb_true_iff, andb_true_iff, !Z.leb_le, !Z.ltb_lt, !Z.eqb_eq. mlia.
Qed.

Lemma i32_small x : -0x80000000 <= x < 0x80000000 -> i32 x = x.
Proof. intros Hx. unfold i32. match goal with |- context [?a <? ?b] => destruct (Z.ltb_spec a b) end; mlia. Qed.

Lemma move_cursor_shows m t T dc dr : shows (base := base) (p := p) m t T -> -1 <= dc <= 1 -> -1 <= dr <= 1 ->
  shows (base := base) (p := p) m (TextMode.move_cursor_relative t dc dr)
    (mkTerminal (term_char T) (Z.max 0 (Z.min 79 (term_col T + dc))) (Z.max 0 (Z.min 24 (term_row T + dr)))).
Proof.
  intros (Ht & Hc & Hr & Hs) Hdc Hdr. split; [by apply move_cursor_on_screen|]. destruct Ht as (Hb & Hc' & Hr' & _).
  unfold TextMode.move_cursor_relative. cbn [cursor_col cursor_row term_col term_row term_char]. rewrite <- Hc, <- Hr.
  rewrite !i32_small by (mach_unfold; lia).
  repeat match goal with |- context [if ?a <? ?b then _ else _] => destruct (Z.ltb_spec a b) | |- context [if ?a >? ?b then _ else _] => destruct (Z.gtb_spec a b) end;
    rewrite ?u8_small by (mach_unfold; lia); split_and!; (done || lia).
Qed.

(** A byte of a control sequence. *)
Lemma csi_byte_shows m y T b : displays m y (CSI, T) ->
  let '(m', y', done) := TTY.csi_byte tr m y b in
  only_window p m m' /\ done = negb (b =? 0x3b) /\
  displays m' y' (CSI, if b =? 0x3b then T else term_control T b).
Proof.
  intros (Hs & Hp & Ha). cbn [fst snd] in *. unfold TTY.csi_byte, term_control.
  rewrite !csi_arg_default by (split; [apply Hs|done]). change (0 =? 0) with true. cbv iota. cbn [TTY.with_parse].
  change (i32 1) with 1. change (i32 (1 * -1)) with (-1).
  pose proof Hs as ((_ & Hc & Hr & _) & Ec & Er & _). rewrite Ec, Er in *.
  assert (Hmove : forall dc dr T', -1 <= dc <= 1 -> -1 <= dr <= 1 ->
    T' = mkTerminal (term_char T) (Z.max 0 (Z.min 79 (term_col T + dc))) (Z.max 0 (Z.min 24 (term_row T + dr))) ->
    displays m (TTY.with_text y (TextMode.move_cursor_relative (text_buffer y) dc dr)) (CSI, T')).
  { intros dc dr T' H1 H2 ->. split; [by apply move_cursor_shows|]. done. }
  destruct (Z.eqb_spec b 0x3b) as [->|_].
  { split; [done|]. split; [done|]. split; [done|]. split; [done|]. apply Forall_app_2; [done|by repeat constructor]. }
  do 4 (match goal with |- context [if b =? ?x then _ else _] => destruct (b =? x) end;
    [split; [done|]; split; [done|]; apply Hmove; [lia|lia|unfold term_up, term_down, term_left, term_right; f_equal; lia]|]).
  destruct (Z.eqb_spec b 0x4a) as [->|_]; [pose proof (clear_screen_shows m _ T Hs) as [F1 F2]; by split_and!|].
  destruct (Z.eqb_spec b 0x4b) as [->|_]; [pose proof (clear_row_shows m _ T Hs) as [F1 F2]; by split_and!|].
  by destruct (_ || _).
Qed.

Lemma invert_cursor_displays m y D : displays m y D ->
  let m' := if show_cursor y then TextMode.invert_cursor tr m (text_buffer y) else m in only_window p m m' /\ displays m' y D.
Proof.
  intros (Hs & Hp & Ha). destruct (show_cursor y); [|done]. destruct (invert_cursor_spec Hw m _ (proj1 Hs)) as [F1 F2].
  split; [done|]. split; [by eapply same_chars|done].
Qed.

(** A byte is taken as the reference takes it. *)
Lemma send_data_displays m y D b : displays m y D -> is_u8 b ->
  let '(m', y') := TTY.send_data tr m y b in only_window p m m' /\ displays m' y' (term_send D b).
Proof.
  intros (Hs & Hp & Ha) Hb. destruct D as [s T]. cbn [fst snd] in *. subst s. unfold TTY.send_data, TTY.process_character, term_send.
  destruct (parse_state y) eqn:Ep.
  - destruct (b =? 0x1b); [done|].
    pose proof (write_byte_shows Hw m _ _ b Hs Hb) as Hw1. destruct (TextMode.write_byte tr m (text_buffer y) b) as [m1 t1].
    destruct Hw1 as [F1 Hs1]. destruct (invert_cursor_displays m1 (TTY.with_text y t1) (Ready, term_write T b)) as [F2 F3]; [done|].
    split; [by eapply only_window_trans|done].
  - destruct (b =? 0x5b); [|done]. split; [done|]. split_and!; try done. by repeat constructor.
  - destruct (disable_cursor_spec Hw m _ (proj1 Hs)) as [F0 G0].
    pose proof (csi_byte_shows (TextMode.disable_cursor tr m (text_buffer y)) y T b) as Hc.
    destruct (TTY.csi_byte tr _ y b) as [[m1 y1] done]. destruct Hc as (F1 & -> & Hd1).
    { split; [by eapply same_chars|done]. }
    set (y2 := if negb _ then _ else y1).
    assert (Hd2 : displays m1 y2 (if b =? 0x3b then (CSI, T) else (Ready, term_control T b))).
    { unfold y2. destruct (b =? 0x3b); [done|]. destruct Hd1 as (? & ? & ?). by split_and!. }
    destruct (invert_cursor_displays m1 y2 _ Hd2) as [F2 F3].
    split; [|done]. eapply only_window_trans; [exact F0|]. by eapply only_window_trans.
Qed.

Lemma send_all_displays l : forall m y D, displays m y D -> Forall is_u8 l ->
  let '(m', y') := foldl (fun '(m, y) b => TTY.send_data tr m y b) (m, y) l in
  only_window p m m' /\ displays m' y' (foldl term_send D l).
Proof.
  induction l as [|b l IH]; intros m y D Hs Hl; [done|]. apply Forall_cons in Hl as [Hb Hl]. cbn [foldl].
  pose proof (send_data_displays m y D b Hs Hb) as H1. destruct (TTY.send_data tr m y b) as [m1 y1]. destruct H1 as (F1 & Hs1).
  specialize (IH m1 y1 _ Hs1 Hl). destruct (foldl _ (m1, y1) l) as [m2 y2]. destruct IH as (F2 & ?).
  split; [by eapply only_window_trans|done].
Qed.

(** The loop over the bytes just read. *)
Lemma for_each_sent l rest s :
  for_each (fun i '(m, y) => x ← index (l ++ rest) i; Ret (TTY.send_data tr m y x)) (seqZ 0 (lenZ l)) s =
  Ret (foldl (fun '(m, y) b => TTY.send_data tr m y b) s l).
Proof.
  revert rest. induction l as [|x l IH] using rev_ind; intros rest; [done|].
  rewrite lenZ_app. change (lenZ [x]) with 1. pose proof (lenZ_nonneg l).
  rewrite seqZ_snoc, for_each_app by lia. rewrite <- app_assoc, IH. cbn [for_each mbind comp_bind].
  rewrite foldl_app. cbn [foldl]. destruct (foldl _ s l) as [m y].
  rewrite (index_Ret _ _ x); [done|]. rewrite Z.add_0_l. unfold nthZ, lenZ. destruct (Z.leb_spec 0 (Z.of_nat (length l))); [|lia].
  rewrite Nat2Z.id. by apply list_lookup_middle.
Qed.

(** The queue is emptied onto the screen. *)
Lemma drain_loop_shows fuel : forall m y D b q data,
  rep b q -> lenZ data = 4 -> lenZ q <= Z.of_nat fuel -> displays m y D -> Forall is_u8 q ->
  exists m' y' b', TTYRouter.drain_loop tr fuel m y b data (lenZ q) = Ret (m', y', b') /\ rep b' [] /\ only_window p m m' /\
    displays m' y' (foldl term_send D q).
Proof.
  induction fuel as [|fuel IH]; intros m y D b q data Hr Hd Hf Hs Hq; pose proof (lenZ_nonneg q);
    (destruct q as [|x q]; [exists m, y, b; cbn; done|]); rewrite lenZ_cons in *; pose proof (lenZ_nonneg q); [lia|].
  cbn [TTYRouter.drain_loop]. destruct (Z.gtb_spec (lenZ q + 1) 0); [|lia].
  destruct (read_spec b (x :: q) data Hr) as (b1 & -> & Hr1 & _). cbn [mbind comp_bind]. rewrite Hd, lenZ_cons in *.
  set (n := Z.min 4 (lenZ q + 1)) in *. set (l := take (Z.to_nat n) (x :: q)). set (q1 := drop (Z.to_nat n) (x :: q)) in *.
  assert (Hsplit : x :: q = l ++ q1) by (symmetry; apply take_drop).
  assert (Hln : lenZ l = n) by (unfold l; rewrite lenZ_take; [lia|rewrite lenZ_cons; lia]).
  assert (Hlq : lenZ q1 = lenZ q + 1 - n) by (unfold q1; rewrite lenZ_drop, lenZ_cons; [lia|rewrite ?lenZ_cons; lia]).
  assert (Hd1 : lenZ (l ++ drop (Z.to_nat n) data) = 4) by (rewrite lenZ_app, lenZ_drop by lia; lia).
  replace (seqZ 0 n) with (seqZ 0 (lenZ l)) by (by rewrite Hln). rewrite for_each_sent. cbn [mbind comp_bind]. rewrite Hsplit in Hq. apply Forall_app in Hq as [Hq0 Hq1].
  pose proof (send_all_displays l m y D Hs Hq0) as Hall. destruct (foldl _ (m, y) l) as [m1 y1]. destruct Hall as (F1 & Hs1).
  assert (Hto : (if n =? lenZ (l ++ drop (Z.to_nat n) data) then lenZ q + 1 -u n else 0) = lenZ q1).
  { rewrite Hd1, Hlq. pose proof Hr as [[Hl _] _ _ Hfit _]. rewrite lenZ_cons in Hfit.
    destruct (Z.eqb_spec n 4); [rewrite u32_small by (mach_unfold; lia); lia|lia]. }
  rewrite Hto. destruct (IH m1 y1 _ b1 q1 (l ++ drop (Z.to_nat n) data) Hr1 Hd1 ltac:(lia) Hs1 Hq1)
    as (m2 & y2 & b2 & -> & Hr2 & F2 & Hs2).
  exists m2, y2, b2. split; [done|]. split; [done|]. split; [by eapply only_window_trans|]. by rewrite Hsplit, foldl_app.
Qed.
End drawn.

(** * All terminals *)

(** A TTY as its users see it: where it draws, what it shows and how far it is in a control
    sequence, and what was written to it and is not shown yet. *)
Record view : Type := mkView { v_base : Z; v_phys : Z; v_display : ParseState * Terminal; v_queue : list Z }.

Definition shown (v : view) : view := mkView (v_base v) (v_phys v) (foldl term_send (v_display v) (v_queue v)) [].

Record entry_shows (tr : Z -> Z) (m : mem) (d : TTYData) (v : view) : Prop := {
  es_window : window tr (v_base v) (v_phys v);
  es_shows : displays (base := v_base v) (p := v_phys v) m (data_tty d) (v_display v);
  es_queue : rep (input_buffer (data_buffers d)) (v_queue v);
  es_bytes : Forall is_u8 (v_queue v)
}.

(** Different TTYs draw in different places. *)
Definition separate (l : list view) : Prop := ForallOrdPairs (fun v w => apart (v_phys v) 4000 (v_phys w) 4000) l.

Lemma shows_elsewhere base p p' m m' t T : in_space p 4000 ->
  shows (base := base) (p := p) m t T -> only_window p' m m' -> apart p 4000 p' 4000 -> shows (base := base) (p := p) m' t T.
Proof.
  intros [] (Ht & Hc & Hr & Hs) Ho Ha. split_and!; try done. intros r c Hr' Hc'. rewrite <- (Hs r c) by done.
  apply load8_ext. rewrite u32_small by (mach_unfold; lia). apply Ho. unfold apart in Ha. lia.
Qed.

Lemma entry_elsewhere tr p' m m' d v : entry_shows tr m d v -> only_window p' m m' -> apart (v_phys v) 4000 p' 4000 -> entry_shows tr m' d v.
Proof.
  intros [? (Hs & Hp & Hn) ? ?] Ho Ha. split; try done. split; [|done]. eapply shows_elsewhere; [apply es_window0|done..].
Qed.

Lemma process_loop_shows tr fuel l vs : forall m, Forall2 (entry_shows tr m) l vs -> separate vs ->
  Forall (fun v => lenZ (v_queue v) <= Z.of_nat fuel) vs ->
  exists m' l', TTYRouter.process_loop tr fuel m l = Ret (m', l') /\ Forall2 (entry_shows tr m') l' (shown <$> vs) /\
    (forall d v, entry_shows tr m d v -> Forall (fun w => apart (v_phys v) 4000 (v_phys w) 4000) vs -> entry_shows tr m' d v).
Proof.
  revert vs. induction l as [|d l IH]; intros vs m Hl Hsep Hf; inversion Hl as [|? v ? vs' Hd Hl']; subst.
  { exists m, []. by split_and!. }
  inversion Hsep as [|? ? Hv Hsep']; subst. apply Forall_cons in Hf as [Hf1 Hf2].
  pose proof Hd as [Hw Hs Hq Hp]. cbn [TTYRouter.process_loop]. unfold TTYRouter.process_entry.
  pose proof (RingBuffer.available_spec _ _ Hq) as Hav.
  rewrite Hav. destruct (drain_loop_shows Hw fuel m (data_tty d) (v_display v) _ (v_queue v) [0; 0; 0; 0] Hq eq_refl Hf1 Hs Hp)
    as (m1 & y1 & b1 & -> & Hr1 & Ho & Hs1). cbn [mbind comp_bind].
  set (d1 := mkTTYData _ _).
  assert (Hd1 : entry_shows tr m1 d1 (shown v)) by (by split).
  destruct (IH vs' m1) as (m2 & l2 & -> & Hl2 & Hframe); [|done|done|].
  { clear -Hl' Hv Ho. induction Hl' as [|d2 v2 l2 vs2 H2 Hl2 IH2]; [done|]. apply Forall_cons in Hv as [Hv1 Hv2]. constructor; [|by apply IH2].
    eapply entry_elsewhere; [done|done|]. unfold apart in *. lia. }
  cbn [mbind comp_bind]. exists m2, (d1 :: l2). split; [done|]. split.
  - cbn. constructor; [|done]. apply Hframe; done.
  - intros d' v' Hd' Hv'. apply Forall_cons in Hv' as [Hv1 Hv2]. apply Hframe; [|done]. by eapply entry_elsewhere.
Qed.


(** * Switching *)

Lemma store32_load32 m m' a s : store32 m a (load32 m' s) =
  store8 (store8 (store8 (store8 m a (load8 m' s)) (a + 1) (load8 m' (s + 1))) (a + 2) (load8 m' (s + 2))) (a + 3) (load8 m' (s + 3)).
Proof.
  pose proof (load8_range m' s). pose proof (load8_range m' (s + 1)). pose proof (load8_range m' (s + 2)). pose proof (load8_range m' (s + 3)).
  assert (E0 : u8 (load32 m' s) = u8 (load8 m' s)) by (unfold load32; mlia).
  assert (E1 : u8 (load32 m' s / 256) = u8 (load8 m' (s + 1))) by (unfold load32; mlia).
  assert (E2 : u8 (load32 m' s / 65536) = u8 (load8 m' (s + 2))) by (unfold load32; mlia).
  assert (E3 : u8 (load32 m' s / 16777216) = u8 (load8 m' (s + 3))) by (unfold load32; mlia).
  unfold store32, store8. by rewrite E0, E1, E2, E3.
Qed.

(** The picture of one window is copied to another. *)
Lemma copy_words_spec tr m dest pd src ps :
  window tr dest pd -> window tr src ps -> apart pd 4000 ps 4000 ->
  let m' := TTY.copy_words tr m dest src in
  only_window pd m m' /\ forall o, 0 <= o < 4000 -> load8 m' (pd + o) = load8 m (ps + o).
Proof.
  intros Hd Hs Ha. unfold TTY.copy_words. pose proof Hd as [[] Hpd Hdt]. pose proof Hs as [[] Hps Hst]. unfold apart in Ha.
  assert (Hk : forall k : nat, Z.of_nat k <= 1000 ->
    let m' := foldl (fun m off => store32 m (tr (u32 (dest + 4 * off))) (load32 m (tr (u32 (src + 4 * off))))) m (seqZ 0 (Z.of_nat k)) in
    only_window pd m m' /\ forall o, 0 <= o < 4000 -> load8 m' (pd + o) = load8 m (if o <? 4 * Z.of_nat k then ps + o else pd + o)).
  { induction k as [|k IH]; intros Hk.
    - split; [done|]. intros o Ho. by destruct (Z.ltb_spec o (4 * Z.of_nat 0)); [lia|].
    - replace (Z.of_nat (S k)) with (Z.of_nat k + 1) by lia. rewrite seqZ_snoc, foldl_app by lia. cbn [foldl].
      destruct IH as [F1 F2]; [lia|]. set (m1 := foldl _ m _) in *.
      rewrite Z.add_0_l, !u32_small, Hdt, Hst by (mach_unfold; lia). rewrite store32_load32, <- !Z.add_assoc. split.
      + do 4 (eapply only_window_trans; [|apply only_window_store; [done|lia]]). exact F1.
      + intros o Ho. rewrite !(load_at Hd) by lia. rewrite !u8_small by apply load8_range.
        assert (Hsrc : forall j, 0 <= j < 4000 -> load8 m1 (ps + j) = load8 m (ps + j)).
        { intros j Hj. destruct Hps. apply load8_ext. rewrite u32_small by (mach_unfold; lia). apply F1. lia. }
        rewrite F2, !Hsrc by lia.
        repeat match goal with |- context [o =? ?x] => destruct (Z.eqb_spec o x); [subst o|] end;
          repeat match goal with |- context [?a <? ?b] => destruct (Z.ltb_spec a b) end; try lia; done. }
  destruct (Hk 1000%nat ltac:(lia)) as [F1 F2]. split; [exact F1|]. intros o Ho. etrans; [by apply F2|].
  by destruct (Z.ltb_spec o (4 * Z.of_nat 1000)); [|lia].
Qed.

(** Where the picture of a TTY is kept while it is in the background, and that the screen can
    be written through both of its addresses. *)
Record two_ttys (tr : Z -> Z) (r : TTYRouter) (y0 y1 : TTY) (q0 q1 : Z) : Prop := {
  tt_set : data_tty <$> tty_set r = [y0; y1];
  tt_low : window tr 0xb8000 0xb8000;
  tt_back0 : window tr (back_buffer y0) q0;
  tt_back1 : window tr (back_buffer y1) q1;
  tt_apart0 : apart q0 4000 0xb8000 4000;
  tt_apart1 : apart q1 4000 0xb8000 4000;
  tt_apart : apart q0 4000 q1 4000
}.

(** The screen window shows the same bytes as another one. *)
Definition same_picture (m m' : mem) (p p' : Z) : Prop := forall o, 0 <= o < 4000 -> load8 m (p + o) = load8 m' (p' + o).

Lemma kept_picture p p' m m' : in_space p 4000 -> only_window p' m m' -> apart p 4000 p' 4000 -> same_picture m' m p p.
Proof. intros [] Ho Ha o Ho'. apply load8_ext. rewrite u32_small by (mach_unfold; lia). apply Ho. unfold apart in Ha. lia. Qed.

(** From the TTY in slot [i] to the one in slot [j]. *)
Lemma switch_spec tr m r i j di dj qi qj :
  active_tty r = i -> nthZ (tty_set r) i = Some di -> nthZ (tty_set r) j = Some dj -> i <> j ->
  window tr (base_pointer (text_buffer (data_tty di))) 0xb8000 -> window tr 0xb8000 0xb8000 ->
  window tr (back_buffer (data_tty di)) qi -> window tr (back_buffer (data_tty dj)) qj ->
  apart qi 4000 0xb8000 4000 -> apart qj 4000 0xb8000 4000 -> apart qi 4000 qj 4000 ->
  let yi' := TTY.force_background (TTY.set_active (data_tty di) false) in
  let yj' := TTY.with_text (TTY.set_active (data_tty dj) true) (TextMode.set_buffer_pointer (text_buffer (data_tty dj)) 0xb8000).1 in
  exists m', TTYRouter.set_active_tty tr m r j =
      (m', mkRouter (setZ (setZ (tty_set r) i (mkTTYData yi' (data_buffers di))) j (mkTTYData yj' (data_buffers dj))) j (key_state r)) /\
    same_picture m' m qi 0xb8000 /\ same_picture m' m 0xb8000 qj /\ same_picture m' m qj qj.
Proof.
  intros Ha Hi Hj Hij Hb Hlow Hwi Hwj A1 A2 A3. cbv zeta. pose proof (nthZ_Some _ _ _ Hi) as Hi'. pose proof (nthZ_Some _ _ _ Hj) as Hj'.
  unfold TTYRouter.set_active_tty. destruct (Z.leb_spec (lenZ (tty_set r)) j); [lia|].
  unfold TTYRouter.get_active_tty. rewrite Ha, Hi. cbn [fmap option_fmap option_map].
  unfold TTY.swap_out. cbn [back_buffer TTY.set_active text_buffer TextMode.set_buffer_pointer].
  unfold TTYRouter.put_tty. rewrite Hi. cbn [TTYRouter.with_set tty_set active_tty key_state].
  rewrite nthZ_setZ_ne by done. rewrite Hj. cbn [fmap option_fmap option_map].
  unfold TTY.swap_in. cbn [back_buffer TTY.set_active text_buffer TextMode.set_buffer_pointer fst].
  set (m1 := TTY.copy_words tr m _ _). set (m2 := TTY.copy_words tr m1 _ _).
  exists m2. split; [done|].
  destruct (copy_words_spec tr m (back_buffer (data_tty di)) qi _ 0xb8000 Hwi Hb A1) as [F1 G1]. fold m1 in F1, G1.
  destruct (copy_words_spec tr m1 0xb8000 0xb8000 (back_buffer (data_tty dj)) qj Hlow Hwj ltac:(unfold apart in *; lia)) as [F2 G2]. fold m2 in F2, G2.
  pose proof Hwi as [_ Si _]. pose proof Hwj as [_ Sj _].
  pose proof (kept_picture _ _ _ _ Si F2 A1) as K1. pose proof (kept_picture qj qi m m1 Sj F1 ltac:(unfold apart in *; lia)) as K2.
  pose proof (kept_picture _ _ _ _ Sj F2 A2) as K3.
  split; [intros o Ho; rewrite (K1 o Ho); by apply G1|]. split; intros o Ho; [rewrite (G2 o Ho)|rewrite (K3 o Ho)]; by apply K2.
Qed.

(** C31: Switching terminals loses nothing.  When the second TTY is made active, its picture
    is on the screen and the first one's is kept in its back buffer, where it goes on to draw;
    when the first is made active again the screen is as it was, and so are both cursors. *)
Theorem tty_switch_round_trip (tr : Z -> Z) (m : mem) (r : TTYRouter) (y0 y1 : TTY) (q0 q1 : Z) :
  two_ttys tr r y0 y1 q0 q1 -> active_tty r = 0 -> window tr (base_pointer (text_buffer y0)) 0xb8000 ->
  let '(m1, r1) := TTYRouter.set_active_tty tr m r 1 in
  let '(m2, r2) := TTYRouter.set_active_tty tr m1 r1 0 in
  same_picture m1 m 0xb8000 q1 /\ same_picture m1 m q0 0xb8000 /\
  (exists y, data_tty <$> nthZ (tty_set r1) 0 = Some y /\ base_pointer (text_buffer y) = back_buffer y0) /\
  same_picture m2 m 0xb8000 0xb8000 /\ same_picture m2 m q1 q1 /\ active_tty r2 = 0 /\
  (fun d => (cursor_col (text_buffer (data_tty d)), cursor_row (text_buffer (data_tty d)), is_active (data_tty d))) <$> tty_set r2 =
    [(cursor_col (text_buffer y0), cursor_row (text_buffer y0), true); (cursor_col (text_buffer y1), cursor_row (text_buffer y1), false)].
Proof.
  intros [Hset Hlow Hb0 Hb1 A0 A1 A01] Ha Hbase. destruct (tty_set r) as [|d0 [|d1 [|]]] eqn:E; try done. cbn in Hset. injection Hset as <- <-.
  destruct (switch_spec tr m r 0 1 d0 d1 q0 q1 Ha) as (m1 & -> & P1 & P2 & P3); rewrite ?E; try done.
  set (r1 := mkRouter _ _ _).
  destruct (switch_spec tr m1 r1 1 0
    (mkTTYData (TTY.with_text (TTY.set_active (data_tty d1) true) (TextMode.set_buffer_pointer (text_buffer (data_tty d1)) 0xb8000).1) (data_buffers d1))
    (mkTTYData (TTY.force_background (TTY.set_active (data_tty d0) false)) (data_buffers d0)) q1 q0 eq_refl) as (m2 & -> & Q1 & Q2 & Q3);
    try (unfold r1; rewrite ?E; done); [unfold apart in *; lia|].
  split; [done|]. split; [done|]. split; [by eexists|]. split; [intros o Ho; rewrite (Q2 o Ho); by apply P1|].
  split; [intros o Ho; rewrite (Q1 o Ho); by apply P2|]. done.
Qed.

(** Clearing from the cursor to the end of the screen counts the column in bytes: with the
    cursor in an odd column it overwrites the colours from there on, and not one character. *)
Theorem clear_to_end_hits_colours (tr : Z -> Z) (base p : Z) (m : mem) (t : TextMode) :
  window tr base p -> on_screen (base := base) t -> cursor_col t mod 2 = 1 ->
  let m' := TextMode.clear_screen_to_end tr m t in
  forall o, 0 <= o < 4000 -> load8 m' (p + o) =
    if (160 * cursor_row t + cursor_col t <=? o) && (o mod 2 =? 1) then 0x20 else load8 m (p + o).
Proof.
  intros Hw (Hb & Hc & Hr & _) Hodd. unfold TextMode.clear_screen_to_end.
  destruct (clear_cells_spec Hw m t (cursor_col t + cursor_row t * 80 * 2) (2 * 80 * 25) Hb) as [_ Hm]; [lia|lia|].
  intros o Ho. etrans; [by apply Hm|]. replace (cursor_col t + cursor_row t * 80 * 2) with (160 * cursor_row t + cursor_col t) by lia.
  destruct (Z.leb_spec (160 * cursor_row t + cursor_col t) o), (Z.ltb_spec o (2 * 80 * 25)); cbn [andb]; try done; try lia.
  replace ((o - (160 * cursor_row t + cursor_col t)) mod 2 =? 0) with (o mod 2 =? 1); [done|]. apply eq_true_iff_eq. rewrite !Z.eqb_eq. mlia.
Qed.

(** * Witnesses *)

(** The first gigabyte is mapped from 0xc0000000 on and at its own addresses. *)
Definition demo_tr (a : Z) : Z := if a <? 0xc0000000 then a else a - 0xc0000000.

Definition demo_tty (base back : Z) (active : bool) : TTY :=
  mkTTY active Raw true true Ready 0 [] (mkTextMode base 0 24 7) back.
Definition demo_ring (text : list Z) : RingBuffer :=
  mkRingBuffer 0 (lenZ text) (text ++ replicate (256 - length text) 0).
Definition demo_data (base back : Z) (active : bool) (text : list Z) : TTYData :=
  mkTTYData (demo_tty base back active) (mkTTYBuffers (demo_ring []) (demo_ring text)).
Definition demo_router : TTYRouter :=
  mkRouter [demo_data 0xc00b8000 0xc0400000 true [72; 105; 27; 91; 68; 10]; demo_data 0xc0401000 0xc0401000 false [33]] 0 KeyState.new.
Definition demo_blank : Terminal := mkTerminal (fun _ _ => 0) 0 24.

Lemma demo_window base p : (base = p + 0xc0000000 /\ 0 <= p < 0x3ffff000) \/ (base = p /\ 0 <= p < 0xbffff000) -> window demo_tr base p.
Proof.
  intros Hb. split; [unfold in_space; lia|unfold in_space; lia|]. intros o Ho. unfold demo_tr.
  destruct (Z.ltb_spec (base + o) 0xc0000000); lia.
Qed.

Lemma demo_on_screen base back active : on_screen (base := base) (text_buffer (demo_tty base back active)).
Proof. split_and!; cbn; mach_unfold; (done || lia). Qed.

Lemma demo_text_rep text : lenZ text <= 256 -> rep (demo_ring text) text.
Proof.
  intros Hl. pose proof (lenZ_nonneg text).
  assert (E : lenZ (rb_data (demo_ring text)) = 256) by (cbn; unfold lenZ in *; rewrite length_app, length_replicate; lia).
  split; rewrite ?E; cbn [demo_ring head tail].
  - split; [lia|]. exists 16777216. lia.
  - mach_unfold. lia.
  - by rewrite u32_small by (mach_unfold; lia).
  - lia.
  - intros i x Hi. pose proof (nthZ_Some _ _ _ Hi). rewrite E, u32_small, Z.mod_small by (mach_unfold; lia). cbn [demo_ring rb_data].
    rewrite Z.add_0_l, nthZ_app_l by lia. done.
Qed.

Lemma demo_entry base p back active text :
  window demo_tr base p -> 0 <= p < 0xfff00000 -> Forall is_u8 text -> lenZ text <= 256 ->
  entry_shows demo_tr ∅ (demo_data base back active text) (mkView base p (Ready, demo_blank) text).
Proof.
  intros Hw Hp Ht Hl. split; [done| |by apply demo_text_rep|done].
  split; [|split; [done|constructor]]. split; [apply demo_on_screen|]. by split_and!.
Qed.

Lemma tty_stays_in_window_witness :
  let '(m', y') := foldl (fun '(m, y) b => TTY.send_data demo_tr m y b) (∅, demo_tty 0xc00b8000 0xc0400000 true) [0x1b; 0x5b; 0x32; 0x4a] in
  only_window 0xb8000 ∅ m' /\ tty_ok (base := 0xc00b8000) y'.
Proof.
  refine (tty_stays_in_window (demo_window 0xc00b8000 0xb8000 ltac:(lia)) ∅ (demo_tty 0xc00b8000 0xc0400000 true) [0x1b; 0x5b; 0x32; 0x4a] _ _).
  - split; [apply demo_on_screen|constructor].
  - repeat constructor; mach_unfold; lia.
Defined.


Lemma tty_switch_round_trip_witness :
  let '(m1, r1) := TTYRouter.set_active_tty demo_tr ∅ demo_router 1 in
  let '(m2, r2) := TTYRouter.set_active_tty demo_tr m1 r1 0 in
  let y0 := demo_tty 0xc00b8000 0xc0400000 true in
  let y1 := demo_tty 0xc0401000 0xc0401000 false in
  same_picture m1 ∅ 0xb8000 0x401000 /\ same_picture m1 ∅ 0x400000 0xb8000 /\
  (exists y, data_tty <$> nthZ (tty_set r1) 0 = Some y /\ base_pointer (text_buffer y) = back_buffer y0) /\
  same_picture m2 ∅ 0xb8000 0xb8000 /\ same_picture m2 ∅ 0x401000 0x401000 /\ active_tty r2 = 0 /\
  (fun d => (cursor_col (text_buffer (data_tty d)), cursor_row (text_buffer (data_tty d)), is_active (data_tty d))) <$> tty_set r2 =
    [(cursor_col (text_buffer y0), cursor_row (text_buffer y0), true); (cursor_col (text_buffer y1), cursor_row (text_buffer y1), false)].
Proof.
  refine (tty_switch_round_trip demo_tr ∅ demo_router (demo_tty 0xc00b8000 0xc0400000 true) (demo_tty 0xc0401000 0xc0401000 false) 0x400000 0x401000 _ _ _).
  - split; try (apply demo_window; cbn; lia); try (unfold apart; lia); reflexivity.
  - reflexivity.
  - apply demo_window. cbn. lia.
Defined.

Lemma clear_to_end_hits_colours_witness :
  let t := mkTextMode 0xc00b8000 3 10 7 in
  let m' := TextMode.clear_screen_to_end demo_tr ∅ t in
  forall o, 0 <= o < 4000 -> load8 m' (0xb8000 + o) = if (160 * 10 + 3 <=? o) && (o mod 2 =? 1) then 0x20 else load8 ∅ (0xb8000 + o).
Proof.
  apply (clear_to_end_hits_colours demo_tr 0xc00b8000 0xb8000 ∅ (mkTextMode 0xc00b8000 3 10 7)).
  - apply demo_window. lia.
  - split_and!; cbn; mach_unfold; (done || lia).
  - reflexivity.
Defined.
