(* ===== verification/DevFs.v ===== *)
(** The device file system: [filesystems/dev/mod.rs], over the registry of [Drivers].

    A handle of the file system is an index of [handle_to_device]; handles are numbered by an
    allocator that runs ahead of the vector when opening a device fails. *)

From S2P Require Import Prelude Files Drivers.

Record DevFileSystem : Type := mkDevFs {
  handle_allocator : Z;
  handle_to_device : list (option Z)
}.

Definition BACKSLASH : Z := 92.
Definition local_path (path : list Z) : list Z :=
  match path with c :: rest => if c =? BACKSLASH then rest else path | [] => path end.

Module DevFileSystem.

Section dev.
Context {D : Type} `{DeviceDriver D}.
Implicit Type reg : DeviceDrivers D.

Definition new : DevFileSystem := mkDevFs HandleAllocator.new [].

Definition get_device_for_handle (f : DevFileSystem) (handle : Z) : option Z :=
  match nthZ (handle_to_device f) handle with Some o => o | None => None end.

Definition open (f : DevFileSystem) reg (path : list Z)
  : comp (DevFileSystem * DeviceDrivers D * result Z unit) :=
  let name := name_array (local_path path) in
  match DeviceDrivers.get_device_number_by_name reg name with
  | None => Ret (f, reg, Err tt)
  | Some number =>
      let '(next, handle) := HandleAllocator.get_next (handle_allocator f) in
      let f := mkDevFs next (handle_to_device f) in
      match DeviceDrivers.get_device reg number with
      | None => Ret (f, reg, Err tt)
      | Some driver =>
          '(driver, r) ← drv_open driver handle;
          let reg := DeviceDrivers.put reg number driver in
          match r with
          | Err _ => Ret (f, reg, Err tt)
          | Ok _ =>
              let v := handle_to_device f in
              let v := v ++ replicate (Z.to_nat (handle - lenZ v)) None in
              Ret (mkDevFs next (v ++ [Some number]), reg, Ok handle)
          end
      end
  end.

Definition read (f : DevFileSystem) reg (handle : Z) (buffer : list Z)
  : comp (DeviceDrivers D * list Z * result Z unit) :=
  match get_device_for_handle f handle with
  | None => Ret (reg, buffer, Err tt)
  | Some number =>
      match DeviceDrivers.get_device reg number with
      | None => Ret (reg, buffer, Err tt)
      | Some driver =>
          '(driver, buffer, r) ← drv_read driver handle buffer;
          Ret (DeviceDrivers.put reg number driver, buffer, r)
      end
  end.

Definition write (f : DevFileSystem) reg (handle : Z) (buffer : list Z)
  : comp (DeviceDrivers D * result Z unit) :=
  match get_device_for_handle f handle with
  | None => Ret (reg, Err tt)
  | Some number =>
      match DeviceDrivers.get_device reg number with
      | None => Ret (reg, Err tt)
      | Some driver =>
          '(driver, r) ← drv_write driver handle buffer;
          Ret (DeviceDrivers.put reg number driver, r)
      end
  end.

Definition close (f : DevFileSystem) (handle : Z) : result unit unit := Err tt.

Definition dup (f : DevFileSystem) (handle : Z) : DevFileSystem * result Z unit :=
  match get_device_for_handle f handle with
  | Some number =>
      let '(next, new_handle) := HandleAllocator.get_next (handle_allocator f) in
      (mkDevFs next (handle_to_device f ++ [Some number]), Ok new_handle)
  | None => (f, Err tt)
  end.

Definition ioctl (f : DevFileSystem) (handle command arg : Z) : result Z unit :=
  if command =? 0 then
    match get_device_for_handle f handle with Some d => Ok (u32 d) | None => Err tt end
  else Err tt.

Definition seek (f : DevFileSystem) reg (handle : Z) (offset : SeekMethod)
  : comp (DeviceDrivers D * result Z unit) :=
  match get_device_for_handle f handle with
  | None => Ret (reg, Err tt)
  | Some number =>
      match DeviceDrivers.get_device reg number with
      | None => Ret (reg, Err tt)
      | Some driver =>
          '(driver, r) ← drv_seek driver handle offset;
          Ret (DeviceDrivers.put reg number driver, r)
      end
  end.

Definition open_dir (f : DevFileSystem) (path : list Z) : result Z unit := Err tt.
Definition read_dir (f : DevFileSystem) (handle index : Z) : result unit unit := Err tt.

(** The vector never gets ahead of the allocator. *)
Definition handles_ok (f : DevFileSystem) : Prop :=
  lenZ (handle_to_device f) <= handle_allocator f < 4294967295.

Lemma get_padded next next' v handle number j :
  lenZ v <= handle ->
  get_device_for_handle (mkDevFs next (v ++ replicate (Z.to_nat (handle - lenZ v)) None ++ [Some number])) j =
  if j =? handle then Some number else get_device_for_handle (mkDevFs next' v) j.
Proof.
  intros Hv. unfold get_device_for_handle. cbn [handle_to_device]. pose proof (lenZ_nonneg v). destruct (Z.lt_ge_cases j (lenZ v)) as [Hj|Hj].
  { rewrite nthZ_app_l by done. by destruct (Z.eqb_spec j handle); [lia|]. }
  rewrite nthZ_app_r by done. rewrite (proj2 (nthZ_None v j)) by lia.
  destruct (Z.lt_ge_cases (j - lenZ v) (handle - lenZ v)).
  { rewrite nthZ_app_l, nthZ_replicate by (rewrite ?lenZ_replicate; lia). by destruct (Z.eqb_spec j handle); [lia|]. }
  rewrite nthZ_app_r by (rewrite lenZ_replicate; lia). rewrite lenZ_replicate.
  destruct (Z.eqb_spec j handle) as [->|].
  - by replace (handle - lenZ v - Z.of_nat (Z.to_nat (handle - lenZ v))) with 0 by lia.
  - by rewrite (proj2 (nthZ_None _ _)) by (change (lenZ [Some number]) with 1; lia).
Qed.

Lemma get_device_put reg number d n :
  DeviceDrivers.get_device reg number <> None ->
  DeviceDrivers.get_device (DeviceDrivers.put reg number d) n =
  if n =? number then Some d else DeviceDrivers.get_device reg n.
Proof.
  unfold DeviceDrivers.get_device, DeviceDrivers.put. cbn. intros Hn.
  destruct (Z.gtb_spec number 0); [|done]. destruct (nthZ (drivers reg) (number - 1)) eqn:E; [|done].
  apply nthZ_Some in E. destruct (Z.gtb_spec n 0); [|by destruct (Z.eqb_spec n number); [lia|]].
  rewrite nthZ_setZ_in by done. destruct (Z.eqb_spec (number - 1) (n - 1)), (Z.eqb_spec n number); try done; lia.
Qed.

(** Opening a registered device whose driver accepts gives a handle never used before; the
    handle leads to that driver, through which reads then go, and every other handle leads
    where it led before. *)
Theorem open_reaches_driver f reg path number driver driver' buffer :
  handles_ok f ->
  DeviceDrivers.get_device_number_by_name reg (name_array (local_path path)) = Some number ->
  DeviceDrivers.get_device reg number = Some driver ->
  drv_open driver (handle_allocator f) = Ret (driver', Ok tt) ->
  exists f' reg', open f reg path = Ret (f', reg', Ok (handle_allocator f)) /\
    lenZ (handle_to_device f') <= handle_allocator f' /\
    get_device_for_handle f (handle_allocator f) = None /\
    (forall h, get_device_for_handle f' h =
       if h =? handle_allocator f then Some number else get_device_for_handle f h) /\
    (forall n, DeviceDrivers.get_device reg' n =
       if n =? number then Some driver' else DeviceDrivers.get_device reg n) /\
    read f' reg' (handle_allocator f) buffer =
      ('(d, b, r) ← drv_read driver' (handle_allocator f) buffer;
       Ret (DeviceDrivers.put reg' number d, b, r)).
Proof.
  intros [Hf1 Hf2] Hn Hd Ho. unfold open. rewrite Hn. unfold HandleAllocator.get_next. rewrite Hd, Ho.
  cbn [mbind comp_bind handle_to_device]. pose proof (lenZ_nonneg (handle_to_device f)).
  eexists _, _. split; [done|]. rewrite <- app_assoc.
  assert (Hg : forall h, get_device_for_handle (mkDevFs (handle_allocator f +u 1)
      (handle_to_device f ++ replicate (Z.to_nat (handle_allocator f - lenZ (handle_to_device f))) None ++ [Some number])) h =
    if h =? handle_allocator f then Some number else get_device_for_handle f h)
    by (intros h; by apply (get_padded _ (handle_allocator f))).
  assert (Hp : forall n, DeviceDrivers.get_device (DeviceDrivers.put reg number driver') n =
    if n =? number then Some driver' else DeviceDrivers.get_device reg n)
    by (intros n; apply get_device_put; by rewrite Hd).
  split; [|split; [|split; [done|split; [done|]]]].
  - cbn. rewrite !lenZ_app, lenZ_replicate, u32_small by (mach_unfold; lia). change (lenZ [Some number]) with 1. lia.
  - unfold get_device_for_handle. by rewrite (proj2 (nthZ_None _ _)) by lia.
  - unfold read. by rewrite Hg, Z.eqb_refl, Hp, Z.eqb_refl.
Qed.

(** Duplicating an open handle stores the device at the end of the vector but returns the
    next number of the allocator; the new handle leads to the device exactly when the
    vector has kept up with the allocator, which a failed open prevents; otherwise it leads
    nowhere. *)
Theorem dup_handle_agreement f handle number :
  handles_ok f -> get_device_for_handle f handle = Some number ->
  exists f', dup f handle = (f', Ok (handle_allocator f)) /\
    get_device_for_handle f' (lenZ (handle_to_device f)) = Some number /\
    get_device_for_handle f' (handle_allocator f) =
      if lenZ (handle_to_device f) =? handle_allocator f then Some number else None.
Proof.
  intros [Hf1 Hf2] Hg. unfold dup. rewrite Hg. eexists. split; [done|].
  unfold get_device_for_handle. cbn [handle_to_device handle_allocator].
  rewrite nthZ_snoc. split; [done|].
  destruct (Z.eqb_spec (lenZ (handle_to_device f)) (handle_allocator f)) as [<-|]; [by rewrite nthZ_snoc|].
  rewrite (proj2 (nthZ_None _ _)); [done|]. rewrite lenZ_app. change (lenZ [Some number]) with 1. lia.
Qed.

End dev.

End DevFileSystem.

(** * Witnesses *)

Definition demo_dev_fs : DevFileSystem := mkDevFs 3 [None; Some 1].

Lemma open_reaches_driver_witness :
  exists f' reg', DevFileSystem.open demo_dev_fs demo_registry [92; 90; 69; 82; 79] = Ret (f', reg', Ok 3) /\
    lenZ (handle_to_device f') <= handle_allocator f' /\
    DevFileSystem.get_device_for_handle demo_dev_fs 3 = None /\
    (forall h, DevFileSystem.get_device_for_handle f' h =
       if h =? 3 then Some 1 else DevFileSystem.get_device_for_handle demo_dev_fs h) /\
    (forall n, DeviceDrivers.get_device reg' n =
       if n =? 1 then Some mkZeroDevice else DeviceDrivers.get_device demo_registry n) /\
    DevFileSystem.read f' reg' 3 [5; 6] =
      ('(d, b, r) ← drv_read mkZeroDevice 3 [5; 6]; Ret (DeviceDrivers.put reg' 1 d, b, r)).
Proof.
  apply (DevFileSystem.open_reaches_driver demo_dev_fs demo_registry [92; 90; 69; 82; 79] 1 mkZeroDevice mkZeroDevice [5; 6]).
  - unfold DevFileSystem.handles_ok. split; by vm_compute.
  - by vm_compute.
  - by vm_compute.
  - by vm_compute.
Defined.

Lemma dup_handle_agreement_witness :
  exists f', DevFileSystem.dup demo_dev_fs 1 = (f', Ok 3) /\
    DevFileSystem.get_device_for_handle f' (lenZ (handle_to_device demo_dev_fs)) = Some 1 /\
    DevFileSystem.get_device_for_handle f' 3 =
      if lenZ (handle_to_device demo_dev_fs) =? 3 then Some 1 else None.
Proof.
  apply (DevFileSystem.dup_handle_agreement demo_dev_fs 1 1).
  - unfold DevFileSystem.handles_ok. split; by vm_compute.
  - by vm_compute.
Defined.
