(* ===== verification/Devices.v ===== *)
(** The devices of the kernel: [devices.rs].

    [init] programs the chips and fills the registry that the device file system looks names up
    in; the drivers behind the names are those of [Drivers], [Serial], [Keyboard], [Tty] and
    [Floppy]. *)

From Stdlib Require Import String Ascii.
From S2P Require Import Prelude Files Ports Drivers Serial Keyboard DevFs.

(** The boxed drivers: the keyboard is the one shared with the input thread. *)
Inductive BoxedDriver : Type :=
  | BoxZero (d : ZeroDevice)
  | BoxNull (d : NullDevice)
  | BoxCom (d : ComDevice)
  | BoxKeyboard
  | BoxTTY (id : Z)
  | BoxFloppy (drive_number : Z).

Definition COM1 : SerialPort := SerialPort.new 0x3f8.

Section devices.
Context {H : Type} `{Ports H}.

Record Devices : Type := mkDevices { chips : H; DEV : DeviceDrivers BoxedDriver; KEYBOARD : option Keyboard }.

Definition register (name : string) (d : BoxedDriver) (r : DeviceDrivers BoxedDriver) : DeviceDrivers BoxedDriver :=
  (DeviceDrivers.register_driver r (ascii_bytes name) d).1.

Definition init (s : Devices) : Devices :=
  let hw := PIC.init (chips s) in
  let hw := PIT.set_divider hw 11932 in
  let drivers := DEV s in
  let drivers := register "ZERO" (BoxZero mkZeroDevice) drivers in
  let drivers := register "NULL" (BoxNull mkNullDevice) drivers in
  let drivers := register "COM1" (BoxCom (ComDevice.new COM1)) drivers in
  let kbd := Keyboard.new in
  let drivers := register "KBD" BoxKeyboard drivers in
  let drivers := register "TTY0" (BoxTTY 0) drivers in
  let drivers := register "TTY1" (BoxTTY 1) drivers in
  let drivers := register "FD0" (BoxFloppy 0) drivers in
  let hw := SerialPort.init hw COM1 in
  mkDevices hw drivers (Some kbd).

Definition get_device_number_by_name (s : Devices) (filename : list Z) : option Z :=
  DeviceDrivers.get_device_number_by_name (DEV s) filename.
Definition get_driver_for_device (s : Devices) (number : Z) : option BoxedDriver :=
  match DeviceDrivers.get_device (DEV s) number with Some driver => Some driver | None => None end.

(** The devices by their names, in the order of their numbers. *)
Definition device_table : list (string * BoxedDriver) :=
  [("ZERO"%string, BoxZero mkZeroDevice); ("NULL"%string, BoxNull mkNullDevice); ("COM1"%string, BoxCom (ComDevice.new COM1));
   ("KBD"%string, BoxKeyboard); ("TTY0"%string, BoxTTY 0); ("TTY1"%string, BoxTTY 1); ("FD0"%string, BoxFloppy 0)].

(** The file system finds every device of the table by its path, under its number, and no
    others. *)
Theorem devices_found hw kbd :
  let s := init (mkDevices hw DeviceDrivers.new kbd) in
  DeviceDrivers.wf (DEV s) /\
  (forall i name driver, nthZ device_table i = Some (name, driver) ->
     get_device_number_by_name s (name_array (local_path (BACKSLASH :: ascii_bytes name))) = Some (i + 1) /\
     get_driver_for_device s (i + 1) = Some driver) /\
  (forall seek, (forall name driver, (name, driver) ∈ device_table -> seek <> name_array (ascii_bytes name)) -> get_device_number_by_name s seek = None) /\
  (forall n, ~ (1 <= n <= 7) -> get_driver_for_device s n = None).
Proof.
  intros s. split; [split; reflexivity|]. split; [|split].
  - intros i name driver Hi. pose proof (nthZ_Some _ _ _ Hi) as Hr. change (lenZ device_table) with 7 in Hr.
    assert (i = 0 \/ i = 1 \/ i = 2 \/ i = 3 \/ i = 4 \/ i = 5 \/ i = 6) as Hc by lia. repeat destruct Hc as [Hc|Hc]; subst i; injection Hi as <- <-; split; reflexivity.
  - intros seek Hs. unfold get_device_number_by_name, DeviceDrivers.get_device_number_by_name.
    assert (Hn : forall l, (forall name number, (name, number) ∈ l -> seek <> name) -> DeviceDrivers.number_by_name_loop l seek = None).
    { induction l as [|[name number] l IH]; intros Hl; [done|]. cbn. case_bool_decide as Hd; [destruct (Hl name number); [left|done]|]. apply IH. intros a b Hab. apply (Hl a b). by right. }
    apply Hn. intros name number Hin. apply list_elem_of_In in Hin. cbn in Hin.
    repeat destruct Hin as [Hin|Hin]; try contradiction; injection Hin as <- <-.
    + eapply (Hs "ZERO"%string). apply list_elem_of_In. cbn. auto.
    + eapply (Hs "NULL"%string). apply list_elem_of_In. cbn. auto.
    + eapply (Hs "COM1"%string). apply list_elem_of_In. cbn. auto.
    + eapply (Hs "KBD"%string). apply list_elem_of_In. cbn. auto.
    + eapply (Hs "TTY0"%string). apply list_elem_of_In. cbn. auto 10.
    + eapply (Hs "TTY1"%string). apply list_elem_of_In. cbn. auto 10.
    + eapply (Hs "FD0"%string). apply list_elem_of_In. cbn. auto 10.
  - intros n Hn. unfold get_driver_for_device, DeviceDrivers.get_device. destruct (Z.gtb_spec n 0); [|done].
    rewrite (proj2 (nthZ_None _ _)); [done|]. change (lenZ (drivers (DEV s))) with 7. lia.
Qed.
End devices.
Arguments Devices H : clear implicits.

(** The timer's divider is written low byte first, after the interrupt controllers and before the
    serial port are programmed. *)
Theorem timer_programmed (kbd : option Keyboard) :
  let s := init (mkDevices (mkTrace [] []) DeviceDrivers.new kbd) in
  exists later earlier, accesses (chips s) = later ++ [Out 0x40 (11932 / 256); Out 0x40 (11932 mod 256); Out 0x43 0x36] ++ earlier /\
    Forall (fun a => exists x, a = Out 0x3f8 x \/ a = Out 0x3f9 x \/ a = Out 0x3fa x \/ a = Out 0x3fb x \/ a = Out 0x3fc x) later /\
    Forall (fun a => exists x, a = Out 0x20 x \/ a = Out 0x21 x \/ a = Out 0xa0 x \/ a = Out 0xa1 x) earlier.
Proof.
  eexists [_; _; _; _; _; _; _], [_; _; _; _; _; _; _; _]. split; [vm_compute; reflexivity|]. split.
  all: repeat (apply Forall_cons; split; [eexists; eauto 10|]); apply Forall_nil_2.
Qed.
