(* ===== verification/InitFs.v ===== *)
(** The initial file system: [filesystems/init/mod.rs], files of a cpio archive in memory.

    The archive is bytes of the kernel's memory, read through raw pointers.  The encoder of
    archives at the end is what the reader is compared with. *)

From S2P Require Import Prelude Memory Files DevFs.

(** * UTF-8, as [core::str::from_utf8] accepts it *)

Definition between (lo hi x : Z) : bool := (lo <=? x) && (x <=? hi).

Fixpoint utf8_valid (l : list Z) : bool :=
  match l with
  | [] => true
  | a :: l1 =>
      if between 0 0x7f a then utf8_valid l1 else
      match l1 with
      | [] => false
      | b :: l2 =>
          if between 0xc2 0xdf a && between 0x80 0xbf b then utf8_valid l2 else
          match l2 with
          | [] => false
          | c :: l3 =>
              if ((a =? 0xe0) && between 0xa0 0xbf b
                  || (between 0xe1 0xec a || between 0xee 0xef a) && between 0x80 0xbf b
                  || (a =? 0xed) && between 0x80 0x9f b) && between 0x80 0xbf c then utf8_valid l3 else
              match l3 with
              | [] => false
              | d :: l4 =>
                  ((a =? 0xf0) && between 0x90 0xbf b
                   || between 0xf1 0xf3 a && between 0x80 0xbf b
                   || (a =? 0xf4) && between 0x80 0x8f b) && between 0x80 0xbf c && between 0x80 0xbf d && utf8_valid l4
              end
          end
      end
  end.

Definition from_utf8 (l : list Z) : result (list Z) unit := if utf8_valid l then Ok l else Err tt.

(** * Headers of the archive *)

Definition TRAILER : list Z := [84; 82; 65; 73; 76; 69; 82; 33; 33; 33].

(** A [&'static CpioHeader] is its address. *)
Module CpioHeader.
Section header.
Context (m : mem).

Definition magic (h : Z) : Z := load16 m h.
Definition name_size (h : Z) : Z := load16 m (h +u 20).
Definition file_size_high (h : Z) : Z := load16 m (h +u 22).
Definition file_size_low (h : Z) : Z := load16 m (h +u 24).

Definition at_offset (addr : Z) : Z := addr.
Definition is_valid (h : Z) : bool := magic h =? 0x71c7.
Definition get_header_ptr (h : Z) : Z := h.
Definition get_filename_ptr (h : Z) : Z := get_header_ptr h +u 26.
Definition get_file_size (h : Z) : Z := (file_size_high h <<u 16) |u file_size_low h.

Definition get_content_ptr (h : Z) : Z :=
  let header_ptr := get_header_ptr h in
  let filename_ptr := get_filename_ptr h in
  let file_start := filename_ptr +u name_size h in
  if negb ((file_start -u header_ptr) &u 1 =? 0) then file_start +u 1 else file_start.

Definition get_filename (h : Z) : list Z := load_bytes m (get_filename_ptr h) (name_size h -u 1).

Definition get_filename_str (h : Z) : comp (list Z) :=
  match from_utf8 (get_filename h) with Ok s => Ret s | Err _ => Panic end.

Definition is_trailer (h : Z) : bool :=
  let filename := load_bytes m (get_filename_ptr h) (lenZ TRAILER) in
  bool_decide (filename = TRAILER).

Definition length (h : Z) : Z :=
  let filename_length := name_size h in
  let filename_length := if negb (filename_length &u 1 =? 0) then filename_length +u 1 else filename_length in
  let file_length := get_file_size h in
  let file_length := if negb (file_length &u 1 =? 0) then file_length +u 1 else file_length in
  (26 +u filename_length) +u file_length.
End header.
End CpioHeader.

(** [Iterator::next]: the iterator is the address of the next header. *)
Module CpioIterator.
Definition new (address : Z) : Z := address.
Definition next (m : mem) (address : Z) : Z * option Z :=
  let entry := CpioHeader.at_offset address in
  if CpioHeader.is_trailer m entry then (address, None)
  else (address +u CpioHeader.length m entry, Some entry).
End CpioIterator.

(** * The file system *)

Record OpenFile : Type := mkOpenFile { of_cursor : Z; of_length : Z; of_start : Z }.

Record InitFileSystem : Type := mkInitFs {
  init_allocator : Z;
  cpio_archive_address : Z;
  init_open_files : gmap Z OpenFile
}.

Module InitFileSystem.
Section init.
Context (m : mem).

Definition new (addr : Z) : InitFileSystem := mkInitFs HandleAllocator.new addr ∅.

(** The [for] loop over the entries, which goes on until the trailer. *)
Fixpoint open_loop (fuel : nat) (f : InitFileSystem) (local_path : list Z) (iter : Z)
  : comp (InitFileSystem * result Z unit) :=
  match fuel with
  | O => OutOfFuel
  | S fuel' =>
      match CpioIterator.next m iter with
      | (_, None) => Ret (f, Err tt)
      | (iter, Some entry) =>
          name ← CpioHeader.get_filename_str m entry;
          if bool_decide (name = local_path) then
            let '(next, handle) := HandleAllocator.get_next (init_allocator f) in
            let open_file := mkOpenFile 0 (CpioHeader.get_file_size m entry) (CpioHeader.get_content_ptr m entry) in
            Ret (mkInitFs next (cpio_archive_address f) (<[handle := open_file]> (init_open_files f)), Ok handle)
          else open_loop fuel' f local_path iter
      end
  end.

Definition open (fuel : nat) (f : InitFileSystem) (path : list Z) : comp (InitFileSystem * result Z unit) :=
  open_loop fuel f (local_path path) (CpioIterator.new (cpio_archive_address f)).

Definition with_open_files (f : InitFileSystem) (o : gmap Z OpenFile) : InitFileSystem :=
  mkInitFs (init_allocator f) (cpio_archive_address f) o.

(** The bytes are copied one by one into the buffer, which checks its bounds. *)
Definition read (f : InitFileSystem) (handle : Z) (buffer : list Z)
  : comp (InitFileSystem * list Z * result Z unit) :=
  match init_open_files f !! handle with
  | Some open_file =>
      let to_read := lenZ buffer in
      let bytes_left_in_file := of_length open_file -u of_cursor open_file in
      let to_read := if bytes_left_in_file <? to_read then bytes_left_in_file else to_read in
      let prev_cursor := of_cursor open_file in
      let open_file' := mkOpenFile (of_cursor open_file +u to_read) (of_length open_file) (of_start open_file) in
      let address := of_start open_file +u prev_cursor in
      buffer ← for_each (fun offset b => store b offset (load8 m (address +u offset))) (seqZ 0 to_read) buffer;
      Ret (with_open_files f (<[handle := open_file']> (init_open_files f)), buffer, Ok to_read)
  | None => Ret (f, buffer, Err tt)
  end.

Definition write (f : InitFileSystem) (handle : Z) (buffer : list Z) : result Z unit := Ok 0.
Definition close (f : InitFileSystem) (handle : Z) : result unit unit := Err tt.
Definition dup (f : InitFileSystem) (handle : Z) : result Z unit := Err tt.
Definition ioctl (f : InitFileSystem) (handle command arg : Z) : result Z unit := Err tt.

Definition seek (f : InitFileSystem) (handle : Z) (offset : SeekMethod) : InitFileSystem * result Z unit :=
  match init_open_files f !! handle with
  | Some open_file =>
      let new_cursor := from_current_position offset (of_cursor open_file) in
      (with_open_files f (<[handle := mkOpenFile new_cursor (of_length open_file) (of_start open_file)]> (init_open_files f)),
       Ok new_cursor)
  | None => (f, Err tt)
  end.

Definition open_dir (f : InitFileSystem) (path : list Z) : result Z unit := Err tt.
Definition read_dir (f : InitFileSystem) (handle index : Z) : result unit unit := Err tt.
End init.
End InitFileSystem.

(** * Archives *)

Record entry : Type := mkEntry { en_meta : list Z; en_name : list Z; en_content : list Z }.

Definition le16 (x : Z) : list Z := [x mod 256; x / 256].
(** Names and contents are padded to an even length. *)
Definition pad (n : Z) : list Z := if n mod 2 =? 0 then [] else [0].

(** A binary cpio entry: magic number, nine fields the reader ignores, the lengths, the name
    with its final zero, the content. *)
Definition cpio_entry (e : entry) : list Z :=
  le16 0x71c7 ++ en_meta e ++ le16 (lenZ (en_name e) + 1) ++
  le16 (lenZ (en_content e) / 65536) ++ le16 (lenZ (en_content e) mod 65536) ++
  (en_name e ++ [0] ++ pad (lenZ (en_name e) + 1)) ++
  en_content e ++ pad (lenZ (en_content e)).

Definition cpio_end : entry := mkEntry (replicate 18 0) TRAILER [].
Fixpoint cpio_archive (es : list entry) : list Z :=
  match es with
  | [] => cpio_entry cpio_end
  | e :: es => cpio_entry e ++ cpio_archive es
  end.

(** Entries an archive can hold: the lengths fit their fields, the name is text without a
    zero byte and does not begin like the trailer. *)
Record entry_ok (e : entry) : Prop := {
  ok_meta : lenZ (en_meta e) = 18;
  ok_name : lenZ (en_name e) + 1 < 65536;
  ok_content : lenZ (en_content e) < 4294967295;
  ok_utf8 : utf8_valid (en_name e) = true;
  ok_zero : ~ 0 ∈ en_name e;
  ok_trailer : take 10 (en_name e) <> TRAILER
}.

(** The first entry with a name, and its place in the archive. *)
Fixpoint find_entry (a : Z) (es : list entry) (name : list Z) : option (Z * entry) :=
  match es with
  | [] => None
  | e :: es => if bool_decide (en_name e = name) then Some (a, e)
               else find_entry (a + lenZ (cpio_entry e)) es name
  end.

(** Where an entry's content lies. *)
Definition content_offset (e : entry) : Z := 26 + lenZ (en_name e ++ [0] ++ pad (lenZ (en_name e) + 1)).

Lemma lenZ_le16 x : lenZ (le16 x) = 2.
Proof. done. Qed.

Lemma lenZ_pad n : lenZ (pad n) = n mod 2.
Proof. unfold pad. destruct (Z.eqb_spec (n mod 2) 0) as [->|]; [done|]. change (lenZ [0]) with 1. mlia. Qed.

Lemma load16_bytes m a x : bytes_at m a (le16 x) -> 0 <= x < 65536 -> load16 m a = x.
Proof.
  intros Hb Hx. unfold load16.
  pose proof (bytes_at_load m a (le16 x) 0 _ Hb eq_refl) as H0. rewrite Z.add_0_r in H0.
  rewrite H0, (bytes_at_load m a (le16 x) 1 _ Hb eq_refl). mlia.
Qed.

Lemma lenZ_cpio_entry e :
  lenZ (en_meta e) = 18 -> lenZ (cpio_entry e) = content_offset e + lenZ (en_content e) + lenZ (en_content e) mod 2.
Proof. intros Hme. unfold cpio_entry, content_offset. rewrite !lenZ_app, !lenZ_le16, !lenZ_pad. lia. Qed.

Lemma content_offset_spec e : content_offset e = 27 + lenZ (en_name e) + (lenZ (en_name e) + 1) mod 2.
Proof. unfold content_offset. rewrite !lenZ_app, lenZ_pad. change (lenZ [0]) with 1. lia. Qed.

(** What the header functions see of an entry in memory. *)
Section entry_in_memory.
Context (m : mem) (a : Z) (e : entry).
Hypothesis Ha : 0 <= a.
Hypothesis Hsp : a + lenZ (cpio_entry e) < 4294967296.
Hypothesis Hm : bytes_at m a (cpio_entry e).
Hypothesis Hok : lenZ (en_meta e) = 18 /\ lenZ (en_name e) + 1 < 65536.

Lemma entry_room :
  0 <= lenZ (en_name e) /\ 0 <= lenZ (en_content e) /\
  a + (27 + lenZ (en_name e) + (lenZ (en_name e) + 1) mod 2) + lenZ (en_content e) + lenZ (en_content e) mod 2 < 4294967296.
Proof.
  pose proof (lenZ_nonneg (en_name e)). pose proof (lenZ_nonneg (en_content e)).
  pose proof Hsp as Hs. destruct Hok as [Hme _]. rewrite lenZ_cpio_entry, content_offset_spec in Hs by done. lia.
Qed.

Lemma entry_parts :
  bytes_at m (a + 20) (le16 (lenZ (en_name e) + 1)) /\
  bytes_at m (a + 22) (le16 (lenZ (en_content e) / 65536)) /\
  bytes_at m (a + 24) (le16 (lenZ (en_content e) mod 65536)) /\
  bytes_at m (a + 26) (en_name e ++ [0]) /\
  bytes_at m (a + content_offset e) (en_content e).
Proof.
  pose proof Hm as Hb. unfold cpio_entry in Hb. rewrite !bytes_at_app in Hb. destruct Hb as (_ & _ & H1 & H2 & H3 & (H4 & H5 & _) & H6 & _).
  repeat match goal with H : context [lenZ (le16 ?x)] |- _ => change (lenZ (le16 x)) with 2 in H end. destruct Hok as [Hme _]. rewrite Hme in H1, H2, H3, H4, H5, H6.
  replace (a + 2 + 18) with (a + 20) in * by lia. replace (a + 20 + 2) with (a + 22) in * by lia.
  replace (a + 22 + 2) with (a + 24) in * by lia. replace (a + 24 + 2) with (a + 26) in * by lia.
  split_and!; try done; [by rewrite bytes_at_app|]. unfold content_offset. by rewrite Z.add_assoc.
Qed.

Lemma name_size_spec : CpioHeader.name_size m a = lenZ (en_name e) + 1.
Proof.
  destruct entry_parts as (H1 & _). pose proof entry_room. unfold CpioHeader.name_size.
 
  rewrite u32_small by (mach_unfold; mlia). apply load16_bytes; [done|]. lia.
Qed.

Lemma get_file_size_spec : lenZ (en_content e) < 4294967296 -> CpioHeader.get_file_size m a = lenZ (en_content e).
Proof.
  intros Hc. destruct entry_parts as (_ & H1 & H2 & _). pose proof entry_room.
  unfold CpioHeader.get_file_size, CpioHeader.file_size_high, CpioHeader.file_size_low.
  set (n := lenZ (en_content e)) in *.
  rewrite (u32_small (a + 22)), (u32_small (a + 24)), (load16_bytes _ _ _ H1), (load16_bytes _ _ _ H2) by (mach_unfold; mlia).
  rewrite Z.shiftl_mul_pow2 by lia. rewrite u32_small by (change (2 ^ 16) with 65536; mlia).
  rewrite Z.lor_comm, lor_low by (change (2 ^ 16) with 65536; mlia). change (2 ^ 16) with 65536. mlia.
Qed.

Lemma get_content_ptr_spec : CpioHeader.get_content_ptr m a = a + content_offset e.
Proof.
  pose proof entry_room.
  unfold CpioHeader.get_content_ptr, CpioHeader.get_filename_ptr, CpioHeader.get_header_ptr. rewrite name_size_spec, land_1, content_offset_spec.
  rewrite (u32_small (a + 26)) by (mach_unfold; mlia). rewrite (u32_small (a + 26 + (lenZ (en_name e) + 1))) by (mach_unfold; mlia).
  replace (a + 26 + (lenZ (en_name e) + 1) - a) with (lenZ (en_name e) + 1 + 26) by lia. rewrite (u32_small (_ + 26)) by (mach_unfold; mlia).
  destruct (Z.eqb_spec ((lenZ (en_name e) + 1 + 26) mod 2) 0); cbn [negb]; [mlia|]. rewrite u32_small by (mach_unfold; mlia). mlia.
Qed.

Lemma get_filename_spec : CpioHeader.get_filename m a = en_name e.
Proof.
  destruct entry_parts as (_ & _ & _ & H1 & _). pose proof entry_room.
  unfold CpioHeader.get_filename, CpioHeader.get_filename_ptr, CpioHeader.get_header_ptr. rewrite name_size_spec.
  rewrite (u32_small (a + 26)), (u32_small (_ - 1)) by (mach_unfold; mlia). apply bytes_at_app in H1 as [H1 _].
  replace (lenZ (en_name e) + 1 - 1) with (lenZ (en_name e)) by lia. exact H1.
Qed.

Lemma length_spec : lenZ (en_content e) < 4294967295 -> CpioHeader.length m a = lenZ (cpio_entry e).
Proof.
  intros Hc. pose proof entry_room.
  rewrite lenZ_cpio_entry, content_offset_spec by (by destruct Hok). unfold CpioHeader.length. rewrite name_size_spec, get_file_size_spec, !land_1 by lia.
  set (n := lenZ (en_name e)) in *. set (k := lenZ (en_content e)) in *.
  destruct (Z.eqb_spec ((n + 1) mod 2) 0), (Z.eqb_spec (k mod 2) 0); cbn [negb]; mlia.
Qed.

Lemma is_trailer_spec : take 10 (en_name e) <> TRAILER -> ~ 0 ∈ en_name e -> CpioHeader.is_trailer m a = false.
Proof.
  intros Ht Hz. destruct entry_parts as (_ & _ & _ & H1 & _). pose proof entry_room.
  unfold CpioHeader.is_trailer, CpioHeader.get_filename_ptr, CpioHeader.get_header_ptr.
  rewrite (u32_small (a + 26)) by (mach_unfold; mlia). change (lenZ TRAILER) with 10. apply bool_decide_eq_false. intros Heq.
  destruct (Z.lt_ge_cases (lenZ (en_name e)) 10) as [Hlt|Hge].
  - pose proof (bytes_at_load _ _ _ (lenZ (en_name e)) 0 H1 (nthZ_snoc _ _)) as H0.
    pose proof (nthZ_load_bytes m (a + 26) 10 (lenZ (en_name e)) ltac:(lia)) as Hn. rewrite Heq, H0 in Hn.
    assert (Hall : Forall (fun x => x <> 0) TRAILER) by (repeat constructor; lia).
    exact (nthZ_Forall _ _ _ _ Hall Hn eq_refl).
  - apply Ht. rewrite <- Heq. apply bytes_at_app in H1 as [H1 _].
    pose proof (bytes_at_sub m (a + 26) (en_name e) 0 10 H1 ltac:(lia) ltac:(lia) ltac:(lia)) as Hs. by rewrite Z.add_0_r in Hs.
Qed.
End entry_in_memory.

Lemma archive_end m a : bytes_at m a (cpio_entry cpio_end) -> 0 <= a -> a + 26 < 4294967296 -> CpioHeader.is_trailer m a = true.
Proof.
  intros Hb Ha Hs. unfold CpioHeader.is_trailer, CpioHeader.get_filename_ptr, CpioHeader.get_header_ptr.
  rewrite (u32_small (a + 26)) by (mach_unfold; lia). apply bool_decide_eq_true.
  exact (bytes_at_sub m a (cpio_entry cpio_end) 26 10 Hb ltac:(lia) ltac:(lia) ltac:(by vm_compute)).
Qed.

(** The file a successful [open] makes. *)
Definition opened (f : InitFileSystem) (b : Z) (e : entry) : InitFileSystem :=
  mkInitFs (init_allocator f +u 1) (cpio_archive_address f)
    (<[init_allocator f := mkOpenFile 0 (lenZ (en_content e)) (b + content_offset e)]> (init_open_files f)).

Lemma open_loop_spec m fuel f path es a :
  0 <= a -> a + lenZ (cpio_archive es) < 4294967296 -> bytes_at m a (cpio_archive es) ->
  Forall entry_ok es -> (length es < fuel)%nat ->
  InitFileSystem.open_loop m fuel f path a =
  Ret (match find_entry a es path with Some (b, e) => (opened f b e, Ok (init_allocator f)) | None => (f, Err tt) end).
Proof.
  revert fuel a. induction es as [|e es IH]; intros fuel a Ha Hs Hb Hok Hf; (destruct fuel as [|fuel]; [cbn in Hf; lia|]);
    cbn [InitFileSystem.open_loop]; unfold CpioIterator.next, CpioHeader.at_offset.
  - change (lenZ (cpio_archive [])) with 38 in Hs. by rewrite archive_end by (try done; lia).
  - apply Forall_cons in Hok as [[Hme Hn Hc Hu Hz Ht] Hok]. cbn [cpio_archive] in Hs, Hb. rewrite lenZ_app in Hs. apply bytes_at_app in Hb as [Hb Hb'].
    pose proof (lenZ_nonneg (cpio_archive es)). pose proof (lenZ_nonneg (cpio_entry e)).
    rewrite (is_trailer_spec m a e) by (done || lia). unfold CpioHeader.get_filename_str, from_utf8.
    rewrite (get_filename_spec m a e), Hu by (done || lia). cbn [mbind comp_bind find_entry]. case_bool_decide.
    + unfold opened. by rewrite (get_file_size_spec m a e), (get_content_ptr_spec m a e) by (done || lia).
    + rewrite (length_spec m a e) by (done || lia). rewrite u32_small by (mach_unfold; lia). apply IH; [lia|lia|done|done|cbn in Hf; lia].
Qed.

(** Opening a file of the initial file system finds the first entry of the archive with
    that name (a leading backslash apart) and its length, and gives a new handle; a name that
    is not in the archive is an error. The walk ends at the trailer. *)
Theorem init_open_finds_entry m f path es :
  0 <= cpio_archive_address f -> cpio_archive_address f + lenZ (cpio_archive es) < 4294967296 ->
  bytes_at m (cpio_archive_address f) (cpio_archive es) -> Forall entry_ok es ->
  InitFileSystem.open m (S (length es)) f path =
  Ret (match find_entry (cpio_archive_address f) es (local_path path) with
       | Some (b, e) => (opened f b e, Ok (init_allocator f))
       | None => (f, Err tt)
       end).
Proof. intros. apply open_loop_spec; try done. lia. Qed.

(** * Reading *)

(** Handle [h] is open on [content] at [cursor]. *)
Record open_at (m : mem) (f : InitFileSystem) (h cursor : Z) (content : list Z) : Prop := {
  oa_file : exists start, init_open_files f !! h = Some (mkOpenFile cursor (lenZ content) start) /\
              0 <= start /\ start + lenZ content < 4294967296 /\ bytes_at m start content;
  oa_cursor : 0 <= cursor <= lenZ content
}.

Lemma init_read_spec m f h cursor content buffer :
  open_at m f h cursor content ->
  let n := Z.min (lenZ buffer) (lenZ content - cursor) in
  exists f', InitFileSystem.read m f h buffer =
    Ret (f', take (Z.to_nat n) (drop (Z.to_nat cursor) content) ++ drop (Z.to_nat n) buffer, Ok n) /\
    open_at m f' h (cursor + n) content.
Proof.
  intros [(start & Hf & Hs0 & Hs & Hb) Hc] n. pose proof (lenZ_nonneg buffer). pose proof (lenZ_nonneg content).
  unfold InitFileSystem.read. rewrite Hf. cbn [of_length of_cursor of_start].
  rewrite (u32_small (lenZ content - cursor)) by (mach_unfold; lia).
  assert ((if lenZ content - cursor <? lenZ buffer then lenZ content - cursor else lenZ buffer) = n) as ->
    by (unfold n; destruct (Z.ltb_spec (lenZ content - cursor) (lenZ buffer)); lia).
  assert (0 <= n <= lenZ content - cursor) by (unfold n; lia).
  rewrite (u32_small (start + cursor)), (u32_small (cursor + n)) by (mach_unfold; lia).
  rewrite (for_each_copy _ (fun i => load8 m (start + cursor + i))) by
    (try (unfold n; lia); intros i b Hi _; rewrite u32_small by (mach_unfold; lia); done).
  cbn [mbind comp_bind]. eexists. split.
  - do 4 f_equal. exact (bytes_at_sub m start content cursor n Hb ltac:(lia) ltac:(lia) ltac:(lia)).
  - split; [|lia]. exists start. cbn. by rewrite lookup_insert_eq.
Qed.

(** Reads one after the other, with the bytes each one delivers. *)
Fixpoint read_each (m : mem) (f : InitFileSystem) (h : Z) (buffers : list (list Z)) : comp (list (list Z)) :=
  match buffers with
  | [] => Ret []
  | b :: rest =>
      '(f, out, r) ← InitFileSystem.read m f h b;
      match r with
      | Ok n => outs ← read_each m f h rest; Ret (take (Z.to_nat n) out :: outs)
      | Err _ => Ret []
      end
  end.

Lemma read_each_spec m f h cursor content buffers :
  open_at m f h cursor content ->
  exists outs, read_each m f h buffers = Ret outs /\ length outs = length buffers /\
    concat outs = take (length (concat buffers)) (drop (Z.to_nat cursor) content).
Proof.
  revert f cursor. induction buffers as [|b rest IH]; intros f cursor Hoa; [by exists []|].
  destruct (init_read_spec m f h cursor content b Hoa) as (f' & Hr & Hoa'). cbn [read_each]. rewrite Hr. cbn [mbind comp_bind].
  destruct (IH _ _ Hoa') as (outs & -> & Hl & Hcat). cbn [mbind comp_bind]. eexists. split; [done|]. split; [cbn; lia|].
  destruct Hoa as [_ Hc]. set (n := Z.min (lenZ b) (lenZ content - cursor)) in *. set (d := drop (Z.to_nat cursor) content) in *.
  assert (Hn : (Z.to_nat n <= length d)%nat) by (unfold n, d, lenZ in *; rewrite length_drop; lia).
  cbn [concat]. rewrite take_app_length' by (rewrite length_take; lia). rewrite Hcat, length_app, Z2Nat.inj_add by (unfold n, lenZ in *; lia).
  rewrite <- drop_drop. fold d. destruct (Z.le_gt_cases (lenZ b) (lenZ content - cursor)) as [Hle|Hgt].
  - replace (length b) with (Z.to_nat n) by (unfold n, lenZ in *; lia). by rewrite take_take_drop.
  - assert (length d <= Z.to_nat n)%nat by (unfold n, d, lenZ in *; rewrite length_drop; lia).
    rewrite (drop_ge d), take_nil, app_nil_r, !take_ge by (unfold n, d, lenZ in *; rewrite ?length_drop; lia). done.
Qed.

(** What [find_entry] finds is in memory. *)
Lemma find_entry_content m es a path b e :
  0 <= a -> a + lenZ (cpio_archive es) < 4294967296 -> bytes_at m a (cpio_archive es) -> Forall entry_ok es ->
  find_entry a es path = Some (b, e) ->
  0 <= b + content_offset e /\ b + content_offset e + lenZ (en_content e) < 4294967296 /\
  bytes_at m (b + content_offset e) (en_content e).
Proof.
  revert a. induction es as [|x es IH]; intros a Ha Hs Hb Hok; [done|]. cbn [find_entry].
  apply Forall_cons in Hok as [[Hme Hn Hc Hu Hz Ht] Hok]. cbn [cpio_archive] in Hs, Hb. rewrite lenZ_app in Hs.
  apply bytes_at_app in Hb as [Hb Hb']. pose proof (lenZ_nonneg (cpio_archive es)). pose proof (lenZ_nonneg (cpio_entry x)).
  case_bool_decide; [|apply IH; try done; lia]. intros [= <- <-].
  destruct (entry_parts m a x Hb (conj Hme Hn)) as (_ & _ & _ & _ & Hcon).
  pose proof (lenZ_cpio_entry x Hme) as Hl. pose proof (content_offset_spec x). pose proof (lenZ_nonneg (en_name x)).
  split_and!; [mlia|mlia|done].
Qed.

(** C20: A file of the archive is opened and read with buffers of any sizes: the bytes the
    reads deliver, one after the other, are the file's content, as far as the buffers reach. *)
Theorem init_fs_serves_archive m f path es b e buffers :
  0 <= cpio_archive_address f -> cpio_archive_address f + lenZ (cpio_archive es) < 4294967296 ->
  bytes_at m (cpio_archive_address f) (cpio_archive es) -> Forall entry_ok es ->
  find_entry (cpio_archive_address f) es (local_path path) = Some (b, e) ->
  exists f' h outs,
    InitFileSystem.open m (S (length es)) f path = Ret (f', Ok h) /\
    read_each m f' h buffers = Ret outs /\
    length outs = length buffers /\
    concat outs = take (length (concat buffers)) (en_content e).
Proof.
  intros Ha Hs Hb Hok Hfind. destruct (find_entry_content m es _ _ b e Ha Hs Hb Hok Hfind) as (Hc1 & Hc2 & Hc3).
  exists (opened f b e), (init_allocator f).
  destruct (read_each_spec m (opened f b e) (init_allocator f) 0 (en_content e) buffers) as (outs & Hr & Hl & Hcat).
  { split; [|pose proof (lenZ_nonneg (en_content e)); lia]. exists (b + content_offset e). cbn. by rewrite lookup_insert_eq. }
  exists outs. unfold InitFileSystem.open. erewrite open_loop_spec by (done || lia). unfold CpioIterator.new. rewrite Hfind. done.
Qed.

(** Nothing stops a seek past the end of a file: the next read computes the bytes left
    modulo 2^32, fills the whole buffer and delivers the memory that follows the file. *)
Theorem init_read_past_end m f h pos file buffer :
  init_open_files f !! h = Some file -> is_u32 (of_length file) -> of_length file < pos < 2147483648 ->
  lenZ buffer <= 2147483648 ->
  let f' := fst (InitFileSystem.seek f h (Absolute pos)) in
  exists f'', InitFileSystem.read m f' h buffer =
    Ret (f'', load_bytes m (of_start file + pos) (lenZ buffer), Ok (lenZ buffer)).
Proof.
  intros Hf Hl Hp Hb f'. pose proof (lenZ_nonneg buffer). unfold f', InitFileSystem.seek, InitFileSystem.read. rewrite Hf.
  cbn [fst from_current_position InitFileSystem.with_open_files init_open_files]. rewrite lookup_insert_eq.
  cbn [of_length of_cursor of_start].
  assert (u32 (of_length file - pos) <? lenZ buffer = false) as -> by (apply Z.ltb_ge; mlia).
  rewrite (for_each_copy _ (fun i => load8 m (of_start file + pos + i))).
  - cbn [mbind comp_bind]. eexists. repeat f_equal. unfold lenZ at 2. by rewrite Nat2Z.id, drop_all, app_nil_r.
  - lia.
  - intros i bf Hi _. f_equal. unfold load8.
    replace (u32 (u32 (u32 (of_start file + pos) + i))) with (u32 (of_start file + pos + i)) by mlia. done.
Qed.

(** * Examples *)

Definition demo_archive : list entry :=
  [mkEntry (replicate 18 0) [97] [1; 2; 3]; mkEntry (replicate 18 7) [98; 46; 99] [10; 20; 30; 40; 50]].
Definition demo_cpio_memory : mem :=
  list_to_map (imap (fun i x => (0x1000 + Z.of_nat i, x)) (cpio_archive demo_archive)).
Definition demo_init_fs : InitFileSystem := InitFileSystem.new 0x1000.

Lemma demo_archive_ok : Forall entry_ok demo_archive.
Proof. repeat constructor; try (by vm_compute); cbn; set_solver. Qed.

Lemma init_open_finds_entry_witness :
  InitFileSystem.open demo_cpio_memory 3 demo_init_fs [92; 98; 46; 99] =
  Ret (mkInitFs 2 0x1000 {[1 := mkOpenFile 0 5 (0x1000 + 32 + 30)]}, Ok 1).
Proof.
  etrans; [apply (init_open_finds_entry demo_cpio_memory demo_init_fs [92; 98; 46; 99] demo_archive);
    [cbn; lia|by vm_compute|by vm_compute|exact demo_archive_ok]|by vm_compute].
Defined.

Lemma init_fs_serves_archive_witness :
  exists f' h outs, InitFileSystem.open demo_cpio_memory 3 demo_init_fs [98; 46; 99] = Ret (f', Ok h) /\
    read_each demo_cpio_memory f' h [[0; 0]; [0; 0]; [0; 0]] = Ret outs /\ length outs = 3%nat /\ concat outs = [10; 20; 30; 40; 50].
Proof.
  apply (init_fs_serves_archive demo_cpio_memory demo_init_fs [98; 46; 99] demo_archive (0x1000 + 32)
    (mkEntry (replicate 18 7) [98; 46; 99] [10; 20; 30; 40; 50]) [[0; 0]; [0; 0]; [0; 0]]);
    [cbn; lia|by vm_compute|by vm_compute|exact demo_archive_ok|by vm_compute].
Defined.

Lemma init_read_past_end_witness :
  exists f'', InitFileSystem.read demo_cpio_memory (fst (InitFileSystem.seek (mkInitFs 2 0x1000 {[1 := mkOpenFile 0 3 0x101c]}) 1 (Absolute 4))) 1 [0; 0]
    = Ret (f'', load_bytes demo_cpio_memory (0x101c + 4) 2, Ok 2).
Proof.
  exact (init_read_past_end demo_cpio_memory (mkInitFs 2 0x1000 {[1 := mkOpenFile 0 3 0x101c]}) 1 4 (mkOpenFile 0 3 0x101c) [0; 0]
    eq_refl ltac:(by vm_compute) ltac:(cbn; lia) ltac:(by vm_compute)).
Defined.
