(* ===== verification/Floppy.v ===== *)
(** The floppy driver: [drivers/floppy/sector.rs] and [drivers/floppy/mod.rs].

    Byte ranges are covered by sectors, sectors are addressed by cylinder, head and sector
    number.  The transfer of sectors into the DMA buffer ([FloppyController.v]) and the memory
    the buffer is read from are arguments of the driver; the class [DiskDriver] states what a
    file system needs of a driver, and the floppy driver implements it for every transfer
    that can load single sectors. *)

From S2P Require Import Prelude Memory Files Drivers.

(** * Sectors *)

Definition SECTORS_PER_TRACK : Z := 18.
Definition SECTOR_SIZE : Z := 512.

Module Sector.
Definition to_chs (lba : Z) : Z * Z * Z :=
  let c := lba / (2 * SECTORS_PER_TRACK) in
  let h := (lba mod (2 * SECTORS_PER_TRACK)) / SECTORS_PER_TRACK in
  let s := (lba mod (2 * SECTORS_PER_TRACK)) mod SECTORS_PER_TRACK + 1 in
  (c, h, s).
End Sector.

Record SectorRange : Type := mkSectorRange { first : Z; count : Z }.

Module SectorRange.
Definition for_byte_range (start length : Z) : SectorRange :=
  let sector_start := start &u not32 (SECTOR_SIZE - 1) in
  let range_end := start +u length in
  let sector_count := (range_end -u sector_start) / SECTOR_SIZE in
  let sector_count := if negb ((range_end &u (SECTOR_SIZE - 1)) =? 0) then sector_count +u 1 else sector_count in
  mkSectorRange (sector_start / SECTOR_SIZE) sector_count.
Definition byte_length (r : SectorRange) : Z := count r *u SECTOR_SIZE.
Definition get_first_sector (r : SectorRange) : Z := first r.
Definition get_local_offset (r : SectorRange) (absolute : Z) : Z :=
  let start := first r *u SECTOR_SIZE in
  if absolute <? start then 0 else absolute -u start.
End SectorRange.

(** The sector number as the controller sees it gives the block back. *)
Definition of_chs (chs : Z * Z * Z) : Z :=
  let '(c, h, s) := chs in (c * 2 + h) * 18 + (s - 1).

(** Block numbers and cylinder, head and sector numbers correspond one to one, the head is
    0 or 1 and the sector between 1 and 18, and the blocks of a 1.44 MB disk have cylinders
    below 80. *)
Lemma chs_round_trip lba :
  0 <= lba ->
  let '(c, h, s) := Sector.to_chs lba in
  of_chs (Sector.to_chs lba) = lba /\ 0 <= c /\ 0 <= h <= 1 /\ 1 <= s <= 18 /\ (lba < 2880 -> c < 80).
Proof.
  intros Hl. unfold Sector.to_chs, of_chs, SECTORS_PER_TRACK. change (2 * 18) with 36.
  Z.to_euclidean_division_equations. lia.
Qed.

Lemma sector_start start : is_u32 start -> start &u not32 (SECTOR_SIZE - 1) = start - start mod 512.
Proof. intros Hs. exact (land_high start 9 Hs ltac:(lia)). Qed.
Lemma land_1ff x : Z.land x (SECTOR_SIZE - 1) = x mod 512.
Proof. exact (Z.land_ones x 9 ltac:(lia)). Qed.

Lemma for_byte_range_spec start length :
  0 <= start -> 0 <= length -> start + length < 4294967296 ->
  let r := SectorRange.for_byte_range start length in
  first r = start / 512 /\ count r = (start mod 512 + length + 511) / 512 /\
  SectorRange.get_local_offset r start = start mod 512.
Proof.
  intros H1 H2 H3. unfold SectorRange.for_byte_range. cbv zeta. cbn [first count].
  assert (Hs : is_u32 start) by (mach_unfold; lia). rewrite sector_start, land_1ff by done.
  assert (Hf : (start - start mod 512) / SECTOR_SIZE = start / 512) by (unfold SECTOR_SIZE; mlia).
  split; [done|]. split.
  - rewrite (u32_small (start + length)) by (mach_unfold; lia). unfold SECTOR_SIZE.
    destruct (Z.eqb_spec ((start + length) mod 512) 0); cbn [negb]; mlia.
  - unfold SectorRange.get_local_offset. cbn [first]. rewrite Hf. unfold SECTOR_SIZE. rewrite u32_small by mlia.
    destruct (Z.ltb_spec start (start / 512 * 512)); mlia.
Qed.

(** The sectors loaded for a byte range are exactly those the range touches: the range
    starts in the first one at the local offset, ends inside the last one, and no sector is
    loaded in vain. *)
Theorem sectors_cover_range start length :
  0 <= start -> 0 < length -> start + length < 4294967296 - 512 ->
  let r := SectorRange.for_byte_range start length in
  512 * first r + SectorRange.get_local_offset r start = start /\
  0 <= SectorRange.get_local_offset r start < 512 /\
  SectorRange.get_local_offset r start + length <= SectorRange.byte_length r /\
  512 * (first r + count r - 1) < start + length.
Proof.
  intros H1 H2 H3. destruct (for_byte_range_spec start length) as (E1 & E2 & E3); [lia..|]. cbv zeta.
  rewrite E3, E1. unfold SectorRange.byte_length, SECTOR_SIZE. rewrite E2, u32_small; mlia.
Qed.

(** * The device *)

(** What a file system relies on: seeking and reading a range inside one 512-byte sector
    gives the bytes of the disk. *)
Definition in_sector (pos len : Z) : Prop := 0 <= pos /\ 0 < len /\ pos mod 512 + len <= 512 /\ pos + len <= 1474560.

Class DiskDriver (D : Type) `{DeviceDriver D} := {
  on_disk : D -> Z -> (Z -> Z) -> Prop;
  disk_read : forall d h f pos buffer,
    on_disk d h f -> in_sector pos (lenZ buffer) ->
    exists d1 d2, drv_seek d h (Absolute pos) = Ret (d1, Ok pos) /\
      drv_read d1 h buffer = Ret (d2, f <$> seqZ pos (lenZ buffer), Ok (lenZ buffer)) /\ on_disk d2 h f
}.

Record FloppyDevice (H : Type) : Type := mkFloppy {
  drive_number : Z;
  open_files : gmap Z Z;
  hardware : H
}.
Arguments mkFloppy {H}.
Arguments drive_number {H}.
Arguments open_files {H}.
Arguments hardware {H}.

Section floppy.
Context {H : Type}.

(** [load_sectors_to_cache], which programs the DMA channel and the controller and returns the
    virtual address of the buffer, and the memory pointers are read through. *)
Variable load_sectors_to_cache : H -> SectorRange -> comp (H * result Z unit).
Variable memory : H -> mem.

Definition floppy_open (d : FloppyDevice H) (handle : Z) : comp (FloppyDevice H * result unit unit) :=
  Ret (mkFloppy (drive_number d) (<[handle := 0]> (open_files d)) (hardware d), Ok tt).
Definition floppy_close (d : FloppyDevice H) (handle : Z) : comp (FloppyDevice H * result unit unit) :=
  Ret (mkFloppy (drive_number d) (delete handle (open_files d)) (hardware d), Ok tt).

(** The loop that copies [length] bytes from the DMA buffer. *)
Definition copy_from_dma (m : mem) (dma_src_ptr : Z) (buffer : list Z) : comp (list Z) :=
  for_each (fun i buffer => store buffer i (load8 m (dma_src_ptr +u i))) (seqZ 0 (lenZ buffer)) buffer.

Definition floppy_read (d : FloppyDevice H) (handle : Z) (buffer : list Z)
  : comp (FloppyDevice H * list Z * result Z unit) :=
  match open_files d !! handle with
  | None => Ret (d, buffer, Err tt)
  | Some cursor =>
      let length := lenZ buffer in
      let sectors := SectorRange.for_byte_range cursor length in
      '(hw, r) ← load_sectors_to_cache (hardware d) sectors;
      let d := mkFloppy (drive_number d) (open_files d) hw in
      match r with
      | Err _ => Ret (d, buffer, Err tt)
      | Ok dma_src =>
          let local_offset := SectorRange.get_local_offset sectors cursor in
          buffer ← copy_from_dma (memory hw) (dma_src +u local_offset) buffer;
          match open_files d !! handle with
          | Some cursor =>
              Ret (mkFloppy (drive_number d) (<[handle := cursor +u length]> (open_files d)) hw, buffer, Ok length)
          | None => Ret (d, buffer, Err tt)
          end
      end
  end.

Definition floppy_write (d : FloppyDevice H) (handle : Z) (buffer : list Z) : comp (FloppyDevice H * result Z unit) :=
  Ret (d, Ok 0).

Definition floppy_seek (d : FloppyDevice H) (handle : Z) (offset : SeekMethod) : comp (FloppyDevice H * result Z unit) :=
  match open_files d !! handle with
  | Some cursor =>
      let new_cursor := from_current_position offset cursor in
      Ret (mkFloppy (drive_number d) (<[handle := new_cursor]> (open_files d)) (hardware d), Ok new_cursor)
  | None => Ret (d, Err tt)
  end.

#[export] Instance floppy_driver : DeviceDriver (FloppyDevice H) := {
  drv_open := floppy_open; drv_close := floppy_close; drv_read := floppy_read;
  drv_write := floppy_write; drv_seek := floppy_seek }.

End floppy.

Lemma copy_from_dma_spec m src buffer (g : Z -> Z) :
  (forall i, 0 <= i < lenZ buffer -> load8 m (src +u i) = g i) ->
  copy_from_dma m src buffer = Ret (g <$> seqZ 0 (lenZ buffer)).
Proof.
  intros Hg. unfold copy_from_dma. pose proof (lenZ_nonneg buffer).
  rewrite (for_each_copy _ g) by (try lia; intros i b Hi _; by rewrite Hg).
  unfold lenZ at 2. by rewrite Nat2Z.id, drop_all, app_nil_r.
Qed.

(** * The driver as a disk *)

Section floppy_disk.
Context {H : Type} (load : H -> SectorRange -> comp (H * result Z unit)) (memory : H -> mem).

(** The hardware is ready and the disk in the drive holds the bytes [f]. *)
Variable ready : H -> (Z -> Z) -> Prop.

(** A transfer of one sector of a 1.44 MB disk succeeds and puts its 512 bytes at the start
    of the buffer. *)
Hypothesis load_sector : forall hw f s,
  ready hw f -> 0 <= s < 2880 ->
  exists hw' dma, load hw (mkSectorRange s 1) = Ret (hw', Ok dma) /\ ready hw' f /\
    forall i, 0 <= i < 512 -> load8 (memory hw') (dma + i) = f (512 * s + i).

Definition floppy_on_disk (d : FloppyDevice H) (h : Z) (f : Z -> Z) : Prop :=
  is_Some (open_files d !! h) /\ ready (hardware d) f.

(** Seeking to a position inside a sector and reading gives the bytes of the disk. *)
Lemma floppy_reads d h f pos buffer :
  floppy_on_disk d h f -> in_sector pos (lenZ buffer) ->
  exists d1 d2, floppy_seek d h (Absolute pos) = Ret (d1, Ok pos) /\
    floppy_read load memory d1 h buffer = Ret (d2, f <$> seqZ pos (lenZ buffer), Ok (lenZ buffer)) /\
    floppy_on_disk d2 h f /\ open_files d2 !! h = Some (pos + lenZ buffer).
Proof.
  intros [[c Hc] Hr] (Hp1 & Hp2 & Hp3 & Hp4). unfold floppy_seek. rewrite Hc. eexists.
  enough (Hg : exists d2, floppy_read load memory (mkFloppy (drive_number d) (<[h:=pos]> (open_files d)) (hardware d)) h buffer =
      Ret (d2, f <$> seqZ pos (lenZ buffer), Ok (lenZ buffer)) /\ floppy_on_disk d2 h f /\ open_files d2 !! h = Some (pos + lenZ buffer))
    by (destruct Hg as [d2 Hg]; by exists d2).
  unfold floppy_read. cbn [open_files from_current_position]. rewrite lookup_insert_eq. cbn [hardware drive_number].
  destruct (for_byte_range_spec pos (lenZ buffer)) as (E1 & E2 & E3); [lia..|].
  set (r := SectorRange.for_byte_range pos (lenZ buffer)) in *.
  assert (Hr1 : r = mkSectorRange (pos / 512) 1) by (destruct r as [a b]; cbn in *; subst; f_equal; mlia).
  rewrite Hr1 in *. destruct (load_sector (hardware d) f (pos / 512) Hr ltac:(mlia)) as (hw' & dma & -> & Hr' & Hd).
  cbn [mbind comp_bind]. rewrite E3.
  rewrite (copy_from_dma_spec (memory hw') _ buffer (fun i => f (pos + i))).
  - assert (Heq : (fun i => f (pos + i)) <$> seqZ 0 (lenZ buffer) = f <$> seqZ pos (lenZ buffer)).
    { apply list_eq_nthZ; [by rewrite !lenZ_fmap_seqZ by lia|].
      intros i. rewrite lenZ_fmap_seqZ by lia. intros Hi. by rewrite !nthZ_fmap_seqZ by lia. }
    rewrite Heq. cbn [mbind comp_bind open_files]. eexists. split; [done|].
    rewrite u32_small by (mach_unfold; lia). split; [split; [|done]|]; cbn [open_files]; by rewrite lookup_insert_eq.
  - intros i Hi. rewrite (load8_u32 _ _ (dma + (pos mod 512 + i))) by mlia. rewrite Hd by mlia. f_equal. mlia.
Qed.

#[export] Instance floppy_disk_driver : @DiskDriver (FloppyDevice H) (floppy_driver load memory).
Proof.
  refine {| on_disk := floppy_on_disk |}. intros d h f pos buffer Hd Hs.
  destruct (floppy_reads d h f pos buffer Hd Hs) as (d1 & d2 & H1 & H2 & H3 & _). by exists d1, d2.
Defined.

End floppy_disk.

(** * Witnesses *)

Lemma sectors_cover_range_witness :
  let r := SectorRange.for_byte_range 1000 600 in
  512 * first r + SectorRange.get_local_offset r 1000 = 1000 /\
  0 <= SectorRange.get_local_offset r 1000 < 512 /\
  SectorRange.get_local_offset r 1000 + 600 <= SectorRange.byte_length r /\
  512 * (first r + count r - 1) < 1000 + 600.
Proof. apply (sectors_cover_range 1000 600); lia. Defined.

(** A controller whose only state is memory, over a disk whose bytes are [f]. *)
Definition demo_bytes (pos : Z) : Z := (7 * pos) mod 256.
Definition demo_load (f : Z -> Z) (m : mem) (r : SectorRange) : comp (mem * result Z unit) :=
  Ret (store_bytes m 0x1000 (f <$> seqZ (512 * first r) (512 * count r)), Ok 0x1000).
Definition demo_ready (f : Z -> Z) (m : mem) (g : Z -> Z) : Prop := g = f /\ forall i, is_u8 (f i).

Lemma demo_load_sector f0 (m : mem) f s :
  demo_ready f0 m f -> 0 <= s < 2880 ->
  exists m' dma, demo_load f0 m (mkSectorRange s 1) = Ret (m', Ok dma) /\ demo_ready f0 m' f /\
    forall i, 0 <= i < 512 -> load8 m' (dma + i) = f (512 * s + i).
Proof.
  intros [-> Hf] Hs. eexists _, _. split; [done|]. split; [done|]. intros i Hi. cbn [first count].
  rewrite (load8_store_bytes_in _ _ _ i (f0 (512 * s + i))); [apply u8_small, Hf| |by rewrite nthZ_fmap_seqZ by lia].
  rewrite lenZ_fmap_seqZ by lia. split; lia.
Qed.
