(* ===== verification/FloppyController.v ===== *)
(** The floppy controller and the DMA channel it uses: [hardware/floppy.rs],
    [hardware/dma.rs], and the transfer functions of [drivers/floppy/mod.rs].

    The routines of the controller are written in a monad that passes on the machine and the
    state shared with the interrupt handler and returns the controller's errors.  The last
    part states what the chips do as a machine of its own, and shows that on every system
    with such chips the driver of [Floppy.v] reads the bytes of the disk. *)

From S2P Require Import Prelude Memory Ports Blocking Files Drivers Floppy.

(** * The DMA controller *)

Record ChannelRegisters : Type := mkChannelRegisters {
  start_address : Z; count_register : Z; page : Z;
  mode : Z; flip_flop_reset : Z; multi_channel_mask : Z
}.

Record DMARegisters : Type := mkDMARegisters {
  start_address_1 : Z; count_register_1 : Z; page_1 : Z;
  start_address_2 : Z; count_register_2 : Z; page_2 : Z;
  start_address_3 : Z; count_register_3 : Z; page_3 : Z;
  dma_mode_port : Z; dma_flip_flop_reset : Z; dma_multi_channel_mask : Z
}.

Module DMARegisters.
Definition low_channels : DMARegisters :=
  mkDMARegisters 0x02 0x03 0x83 0x04 0x05 0x81 0x06 0x07 0x82 0x0b 0x0c 0x0f.
Definition get_channel_registers (r : DMARegisters) (channel : Z) : comp ChannelRegisters :=
  '(start_address, count_register, page) ←
    (if channel =? 1 then Ret (start_address_1 r, count_register_1 r, page_1 r)
     else if channel =? 2 then Ret (start_address_2 r, count_register_2 r, page_2 r)
     else if channel =? 3 then Ret (start_address_3 r, count_register_3 r, page_3 r)
     else Panic);
  Ret (mkChannelRegisters start_address count_register page
         (dma_mode_port r) (dma_flip_flop_reset r) (dma_multi_channel_mask r)).
End DMARegisters.

Record DMAController : Type := mkDMAController { registers : DMARegisters; mask_base : Z }.
Record DMAChannel : Type := mkDMAChannel { channel_mask_base : Z; channel_registers : ChannelRegisters }.

Module ChannelRegisters.
Definition set_address {E} `{Ports E} (e : E) (r : ChannelRegisters) (addr : Z) : E :=
  let addr_low := addr &u 0xff in
  let addr_mid := (addr >>u 8) &u 0xff in
  let addr_high := (addr >>u 16) &u 0xff in
  write_all e [(flip_flop_reset r, 0xff); (start_address r, addr_low); (start_address r, addr_mid); (page r, addr_high)].
Definition set_count {E} `{Ports E} (e : E) (r : ChannelRegisters) (count : Z) : E :=
  let count_low := count &u 0xff in
  let count_high := (count >>u 8) &u 0xff in
  write_all e [(flip_flop_reset r, 0xff); (count_register r, count_low); (count_register r, count_high)].
End ChannelRegisters.

Module DMAChannel.
Definition set_address {E} `{Ports E} (e : E) (c : DMAChannel) (addr : Z) : E :=
  ChannelRegisters.set_address e (channel_registers c) addr.
Definition set_count {E} `{Ports E} (e : E) (c : DMAChannel) (count : Z) : E :=
  ChannelRegisters.set_count e (channel_registers c) count.
Definition set_mode {E} `{Ports E} (e : E) (c : DMAChannel) (m : Z) : E :=
  Port.write_u8 e (mode (channel_registers c)) m.
(** [Drop], at the end of the scope of the channel. *)
Definition drop {E} `{Ports E} (e : E) (c : DMAChannel) : E :=
  Port.write_u8 e (multi_channel_mask (channel_registers c)) (channel_mask_base c).
End DMAChannel.

Module DMAController.
Definition low_channels : DMAController := mkDMAController DMARegisters.low_channels 1.
Definition get_channel {E} `{Ports E} (e : E) (c : DMAController) (channel : Z) : comp (E * DMAChannel) :=
  let e := Port.write_u8 e (dma_flip_flop_reset (registers c)) 0xff in
  r ← DMARegisters.get_channel_registers (registers c) channel;
  Ret (e, mkDMAChannel (mask_base c) r).
End DMAController.

(** [DMA] has the controller of the low channels only. *)
Module DMA.
Definition low : DMAController := DMAController.low_channels.
Definition get_channel {E} `{Ports E} (e : E) (channel : Z) : comp (E * DMAChannel) :=
  DMAController.get_channel e low (channel mod 4).
End DMA.

(** * The floppy controller *)

Inductive ControllerError : Type := InvalidResponse | NotReadyForParam | ReadyTimeout | UnsupportedController.

Inductive Command : Type :=
| ReadTrack | Specify | SenseDriveStatus | WriteData | ReadData | Recalibrate | SenseInterrupt
| WriteDeletedData | ReadID | Seek | Version | Configure | Unlock | Lock.

(** [command as u8] *)
Definition command_byte (c : Command) : Z :=
  match c with
  | ReadTrack => 0x02 | Specify => 0x03 | SenseDriveStatus => 0x04 | WriteData => 0x05 |u 0x40
  | ReadData => 0x06 |u 0x40 | Recalibrate => 0x07 | SenseInterrupt => 0x08 | WriteDeletedData => 0x09
  | ReadID => 0x0a | Seek => 0x0f | Version => 0x10 | Configure => 0x13 | Unlock => 0x14 | Lock => 0x94
  end.

Record FloppyController : Type := mkFloppyController {
  initialized : bool;
  interrupt_received : bool;
  wake_on_int : WakeReference;
  motor_on : bool
}.
Definition dor_port : Z := 0x3f2.
Definition msr_port : Z := 0x3f4.
Definition fifo_port : Z := 0x3f5.
Definition ccr_dir_port : Z := 0x3f7.

Module FloppyController.
Definition new : FloppyController := mkFloppyController false false WakeReference.new false.
Definition is_ready (c : FloppyController) : bool := initialized c.
Definition set_interrupt_received (c : FloppyController) (b : bool) : FloppyController :=
  mkFloppyController (initialized c) b (wake_on_int c) (motor_on c).
Definition set_wake_on_int (c : FloppyController) (w : WakeReference) : FloppyController :=
  mkFloppyController (initialized c) (interrupt_received c) w (motor_on c).
Definition set_motor_on (c : FloppyController) (b : bool) : FloppyController :=
  mkFloppyController (initialized c) (interrupt_received c) (wake_on_int c) b.
Definition set_initialized (c : FloppyController) (b : bool) : FloppyController :=
  mkFloppyController b (interrupt_received c) (wake_on_int c) (motor_on c).

(** The interrupt handler's part; [send] is [process::send_signal]. *)
Definition handle_int6 {E} (send : E -> Z -> Z -> comp E) (e : E) (c : FloppyController) : comp (E * FloppyController) :=
  let c := set_interrupt_received c true in
  e ← WakeReference.wake send e (wake_on_int c);
  Ret (e, c).
End FloppyController.

(** What the driver shares with interrupt handlers and other processes: the controller and
    the addresses of the DMA buffer. *)
Record FloppyShared : Type := mkShared { FLOPPY : FloppyController; DMA_ADDR : option (Z * Z) }.
Definition with_floppy (s : FloppyShared) (f : FloppyController -> FloppyController) : FloppyShared :=
  mkShared (f (FLOPPY s)) (DMA_ADDR s).

(** A routine of the controller: it may change the machine and the shared state, and fail. *)
Definition routine (E A : Type) : Type := E -> FloppyShared -> comp (E * FloppyShared * result A ControllerError).

Section control.
Context {E : Type}.
Definition done {A} (a : A) : routine E A := fun e s => Ret (e, s, Ok a).
Definition fail {A} (err : ControllerError) : routine E A := fun e s => Ret (e, s, Err err).
(** The [?] operator. *)
Definition try {A B} (m : routine E A) (k : A -> routine E B) : routine E B := fun e s =>
  '(e, s, r) ← m e s;
  match r with Ok a => k a e s | Err err => Ret (e, s, Err err) end.
End control.

Declare Scope fdc_scope.
Delimit Scope fdc_scope with fdc.
Notation "x <~ m ; k" := (try m (fun x => k)) (at level 20, m at level 100, k at level 200, right associativity) : fdc_scope.
Notation "m ;; k" := (try m (fun _ => k)) (at level 100, k at level 200, right associativity) : fdc_scope.

Section routines.
Context {E : Type} `{System E FloppyShared}.
Local Open Scope fdc_scope.

Definition write_port (port value : Z) : routine E unit := fun e s => Ret (Port.write_u8 e port value, s, Ok tt).
Definition read_port (port : Z) : routine E Z := fun e s => let '(e, x) := Port.read_u8 e port in Ret (e, s, Ok x).
Definition yield : routine E unit := fun e s => '(e, s) ← sys_yield e s; Ret (e, s, Ok tt).
Definition update (f : FloppyController -> FloppyController) : routine E unit := fun e s => Ret (e, with_floppy s f, Ok tt).
Definition get {A} (f : FloppyController -> A) : routine E A := fun e s => Ret (e, s, Ok (f (FLOPPY s))).

Definition get_status : routine E Z := read_port msr_port.

Definition wait_for_interrupt : routine E unit :=
  received <~ get interrupt_received;
  if received then done tt
  else fun e s =>
    pid ← sys_current_pid e;
    let s := with_floppy s (fun c => FloppyController.set_wake_on_int c (WakeReference.set_process (wake_on_int c) pid)) in
    e ← sys_send_signal e pid SIG_STOP;
    '(e, s) ← sys_yield e s;
    let s := with_floppy s (fun c => FloppyController.set_wake_on_int c (WakeReference.clear_process (wake_on_int c))) in
    Ret (e, s, Ok tt).

(** [while !ready && retry_count > 0] *)
Fixpoint rqm_loop (retry_count : nat) : routine E bool :=
  match retry_count with
  | O => done false
  | S retry_count =>
      status <~ get_status;
      if (status &u 0x80) =? 0x80 then done true
      else yield ;; rqm_loop retry_count
  end.
Definition wait_for_rqm : routine E unit :=
  ready <~ rqm_loop 10;
  if ready : bool then done tt else fail ReadyTimeout.

Fixpoint param_loop (params : list Z) : routine E unit :=
  match params with
  | [] => done tt
  | param :: params =>
      wait_for_rqm ;;
      status <~ get_status;
      if negb ((status &u 0x40) =? 0) then fail NotReadyForParam
      else write_port fifo_port param ;; param_loop params
  end.

(** [while has_response]: the response slice and the number of bytes in it. *)
Fixpoint response_loop (fuel : nat) (has_response : bool) (response : list Z) (response_index : Z) : routine E (list Z * Z) :=
  if negb has_response then done (response, response_index)
  else
    match fuel with
    | O => fun _ _ => OutOfFuel
    | S fuel =>
        r <~ (if response_index <? lenZ response then
                x <~ read_port fifo_port;
                done (setZ response response_index x, response_index +u 1)
              else done (response, response_index));
        wait_for_rqm ;;
        status <~ get_status;
        response_loop fuel ((status &u 0x50) =? 0x50) r.1 r.2
    end.
Definition get_response (fuel : nat) (response : list Z) : routine E (list Z * Z) :=
  wait_for_rqm ;;
  status <~ get_status;
  r <~ response_loop fuel ((status &u 0x50) =? 0x50) response 0;
  status <~ get_status;
  if (status &u 0xd0) =? 0x80 then done r else fail InvalidResponse.

(** [reset], given [send_command]. *)
Definition reset_with (send_command : Command -> list Z -> routine E unit) (fuel : nat) : routine E unit :=
  write_port dor_port 0 ;;
  write_port dor_port 0x0c ;;
  wait_for_interrupt ;;
  send_command SenseInterrupt [] ;;
  sense <~ get_response fuel [0; 0];
  send_command SenseInterrupt [] ;;
  sense <~ get_response fuel sense.1;
  send_command SenseInterrupt [] ;;
  sense <~ get_response fuel sense.1;
  send_command SenseInterrupt [] ;;
  sense <~ get_response fuel sense.1;
  write_port ccr_dir_port 0 ;;
  send_command Specify [8 <<u 4; 5 <<u 1] ;;
  done tt.

(** [send_command] and [reset] call each other: [depth] bounds the nesting. *)
Fixpoint send_command (depth fuel : nat) (command : Command) (params : list Z) : routine E unit :=
  status <~ get_status;
  (if negb ((status &u 0xc0) =? 0x80) then
     match depth with
     | O => fun _ _ => OutOfFuel
     | S depth => reset_with (send_command depth fuel) fuel
     end
   else done tt) ;;
  update (fun c => FloppyController.set_interrupt_received c false) ;;
  write_port fifo_port (command_byte command) ;;
  param_loop params ;;
  wait_for_rqm ;;
  done tt.
Definition reset (depth fuel : nat) : routine E unit := reset_with (send_command depth fuel) fuel.

Definition ensure_motor_on : routine E unit :=
  on <~ get motor_on;
  if on : bool then done tt
  else
    dor <~ read_port dor_port;
    write_port dor_port (0x10 |u dor) ;;
    update (fun c => FloppyController.set_motor_on c true) ;;
    (fun e s => '(e, s) ← sys_sleep e s 300; Ret (e, s, Ok tt)).

(** One attempt to recalibrate the drive, and what the interrupt was about. *)
Definition recalibrate (depth fuel : nat) (st0 : list Z) : routine E (list Z) :=
  send_command depth fuel Recalibrate [0] ;;
  wait_for_interrupt ;;
  send_command depth fuel SenseInterrupt [] ;;
  r <~ get_response fuel st0;
  done r.1.

Definition init (depth fuel : nat) : routine E unit :=
  send_command depth fuel Version [] ;;
  version <~ get_response fuel [0];
  if negb (bool_decide (nthZ version.1 0 = Some 0x90)) then fail UnsupportedController
  else
    send_command depth fuel Configure [0; 0x78; 0] ;;
    send_command depth fuel Lock [] ;;
    lock <~ get_response fuel [0];
    reset depth fuel ;;
    ensure_motor_on ;;
    st0 <~ recalibrate depth fuel [0; 0];
    (if negb ((default 0 (nthZ st0 0) &u 0x20) =? 0x20) then recalibrate depth fuel st0 ;; done tt else done tt) ;;
    update (fun c => FloppyController.set_initialized c true) ;;
    done tt.

Definition dma (depth fuel : nat) (command : Command) (cylinder head sector : Z) : routine E unit :=
  send_command depth fuel command
    [u8 (head <<u 2); u8 cylinder; u8 head; u8 sector; 2; 18; 0x1b; 0xff] ;;
  wait_for_interrupt ;;
  response <~ get_response fuel [0; 0; 0; 0; 0; 0; 0];
  done tt.
Definition read (depth fuel : nat) (cylinder head sector : Z) : routine E unit := dma depth fuel ReadData cylinder head sector.
Definition write (depth fuel : nat) (cylinder head sector : Z) : routine E unit := dma depth fuel WriteData cylinder head sector.

(** * Transfers *)

Definition DMA_SIZE : Z := 4096.

(** [kernel_mmap_dma] of the current process is the argument [mmap]. *)
Definition init_dma (mmap : E -> Z -> comp (E * (Z * Z))) (e : E) (s : FloppyShared) : comp (E * FloppyShared) :=
  '(e, address_pair) ← mmap e DMA_SIZE;
  Ret (e, mkShared (FLOPPY s) (Some address_pair)).

Fixpoint get_dma_addresses (fuel : nat) (e : E) (s : FloppyShared) : comp (E * FloppyShared * (Z * Z)) :=
  match DMA_ADDR s with
  | Some addresses => Ret (e, s, addresses)
  | None => match fuel with
            | O => OutOfFuel
            | S fuel => '(e, s) ← sys_yield e s; get_dma_addresses fuel e s
            end
  end.

Definition load_sectors_to_cache (depth fuel : nat) (e : E) (s : FloppyShared) (sectors : SectorRange) (dma_mode : Z)
  : comp (E * FloppyShared * result Z unit) :=
  '(e, s, (dma_phys, dma_virt)) ← get_dma_addresses fuel e s;
  '(e, channel) ← DMA.get_channel e 2;
  let e := DMAChannel.set_address e channel dma_phys in
  let e := DMAChannel.set_count e channel (SectorRange.byte_length sectors -u 1) in
  let e := DMAChannel.set_mode e channel dma_mode in
  let e := DMAChannel.drop e channel in
  let '(c, h, sector) := Sector.to_chs (SectorRange.get_first_sector sectors) in
  '(e, s, r) ← read depth fuel c h sector e s;
  match r with
  | Ok _ => Ret (e, s, Ok dma_virt)
  | Err _ => Ret (e, s, Err tt)
  end.
End routines.

(** * The chips *)

(** What the data sheets say of the controller and of channel 2 of the DMA controller, as far
    as a read uses them.  The controller takes a command byte and its parameters, transfers
    the data, raises its interrupt and reports with seven bytes.  After each byte it is not
    ready for a number of polls, which [delays] lists. *)
Inductive Phase : Type := CommandPhase | ParameterPhase (command : Z) (got : list Z) | ResultPhase (rest : list Z).

Record DmaState : Type := mkDmaState { flip_flop : bool; address : Z; byte_count : Z; dma_page : Z; transfer_mode : Z }.

Record Chip : Type := mkChip {
  phase : Phase;
  polls : nat;
  delays : list nat;
  irq : bool;
  channel2 : DmaState;
  report : list Z;
  disk : Z -> Z;
  ram : Z -> Z
}.

Definition busy (c : Chip) (ph : Phase) (i : bool) (r : Z -> Z) : Chip :=
  mkChip ph (default O (head (delays c))) (tail (delays c)) i (channel2 c) (report c) (disk c) r.
Definition with_dma (c : Chip) (d : DmaState) : Chip :=
  mkChip (phase c) (polls c) (delays c) (irq c) d (report c) (disk c) (ram c).

(** The main status register of a chip that is ready. *)
Definition status (ph : Phase) : Z :=
  match ph with CommandPhase => 0x80 | ParameterPhase _ _ => 0x90 | ResultPhase _ => 0xd0 end.

(** Reading data: one sector after the other up to the last one of the track, as many bytes
    as the DMA channel counts, to the address in its registers. *)
Definition transfer (d : DmaState) (disk ram : Z -> Z) (cylinder head sector last : Z) : Z -> Z :=
  let start := dma_page d * 65536 + address d in
  let n := Z.min (byte_count d + 1) (512 * (last - sector + 1)) in
  let from := 512 * ((cylinder * 2 + head) * 18 + (sector - 1)) in
  fun a => if (start <=? a) && (a <? start + n) then disk (from + (a - start)) else ram a.

Definition chip_in (c : Chip) (port : Z) : option (Chip * Z) :=
  if port =? msr_port then
    match polls c with
    | O => Some (c, status (phase c))
    | S n => Some (mkChip (phase c) n (delays c) (irq c) (channel2 c) (report c) (disk c) (ram c), 0x10)
    end
  else if port =? fifo_port then
    match polls c, phase c with
    | O, ResultPhase [x] => Some (busy c CommandPhase false (ram c), x)
    | O, ResultPhase (x :: rest) => Some (busy c (ResultPhase rest) false (ram c), x)
    | _, _ => None
    end
  else None.

(** A byte register pair of the channel, written low byte first. *)
Definition write_pair (ff : bool) (old value : Z) : Z :=
  if ff then old mod 256 + 256 * value else 256 * (old / 256) + value.

(** A write to the registers of channel 2, [None] for other ports. *)
Definition dma_out (d : DmaState) (port value : Z) : option DmaState :=
  let 'mkDmaState ff a n pg m := d in
  if port =? 0x0c then Some (mkDmaState false a n pg m)
  else if port =? 0x04 then Some (mkDmaState (negb ff) (write_pair ff a value) n pg m)
  else if port =? 0x05 then Some (mkDmaState (negb ff) a (write_pair ff n value) pg m)
  else if port =? 0x81 then Some (mkDmaState ff a n value m)
  else if port =? 0x0b then if value mod 4 =? 2 then Some (mkDmaState ff a n pg value) else None
  else if port =? 0x0f then if Z.testbit value 2 then None else Some d
  else None.

Definition chip_out (c : Chip) (port value : Z) : option Chip :=
  let d := channel2 c in
  match dma_out d port value with
  | Some d => Some (with_dma c d)
  | None =>
  if port =? fifo_port then
    match polls c, phase c with
    | O, CommandPhase => if value =? 0x46 then Some (busy c (ParameterPhase value []) (irq c) (ram c)) else None
    | O, ParameterPhase cmd [drive; cyl; head; sector; size; last; gap] =>
        if (drive =? 4 * head) && (size =? 2) && (transfer_mode d mod 16 =? 6) && (address d + byte_count d <? 65536) then
          Some (busy c (ResultPhase (report c)) true (transfer d (disk c) (ram c) cyl head sector last))
        else None
    | O, ParameterPhase cmd got => if lenZ got <? 7 then Some (busy c (ParameterPhase cmd (got ++ [value])) (irq c) (ram c)) else None
    | _, _ => None
    end
  else None
  end.

(** The interrupt is raised and the chip has settled. *)
Definition interrupting (c : Chip) : bool := irq c && Nat.eqb (polls c) 0.

(** A system with these chips and a process that uses them.  While the process yields the
    interrupt, if raised, is handled; a process that stopped itself needs it to be scheduled
    again.  The DMA buffer at [phys] is mapped at [virt]. *)
Class FdcSystem (E : Type) `{System E FloppyShared} (memory : E -> mem) (phys virt : Z) := {
  chip : E -> Chip;
  self : E -> Z;
  stopped : E -> bool;
  fdc_read : forall e p c x, chip_in (chip e) p = Some (c, x) ->
    exists e', inb e p = (e', x) /\ chip e' = c /\ stopped e' = stopped e /\ self e' = self e;
  fdc_write : forall e p v c, chip_out (chip e) p v = Some c ->
    chip (outb e p v) = c /\ stopped (outb e p v) = stopped e /\ self (outb e p v) = self e;
  fdc_pid : forall e, sys_current_pid e = Ret (self e);
  fdc_stop : forall e, exists e', sys_send_signal e (self e) SIG_STOP = Ret e' /\
    chip e' = chip e /\ stopped e' = true /\ self e' = self e;
  fdc_yield : forall e s,
    (stopped e = true -> interrupting (chip e) = true /\ wake_pid (wake_on_int (FLOPPY s)) = Some (self e)) ->
    exists e', sys_yield e s = Ret (e', if interrupting (chip e)
                                        then with_floppy s (fun c => FloppyController.set_interrupt_received c true) else s) /\
      chip e' = (if interrupting (chip e)
                 then mkChip (phase (chip e)) (polls (chip e)) (delays (chip e)) false (channel2 (chip e)) (report (chip e)) (disk (chip e)) (ram (chip e))
                 else chip e) /\
      stopped e' = false /\ self e' = self e;
  fdc_window : forall e i, 0 <= i < DMA_SIZE -> load8 (memory e) (virt + i) = u8 (ram (chip e) (phys + i));
  fdc_buffer : 0 <= phys /\ phys + DMA_SIZE <= 16777216 /\ phys mod 4096 = 0
}.

Lemma dma_out_fifo d v : dma_out d fifo_port v = None.
Proof. by destruct d. Qed.

Section transfers.
Context {E : Type} `{System E FloppyShared} {memory : E -> mem} {phys virt : Z} `{!FdcSystem E memory phys virt}.
Local Open Scope fdc_scope.

(** Total correctness of a routine: it returns, without an error. *)
Definition triple {A} (P : Chip -> FloppyShared -> Prop) (m : routine E A) (Q : A -> Chip -> FloppyShared -> Prop) : Prop :=
  forall e s, stopped e = false -> P (chip e) s ->
  exists e' s' a, m e s = Ret (e', s', Ok a) /\ stopped e' = false /\ Q a (chip e') s'.

Lemma triple_done {A} (a : A) (Q : Chip -> FloppyShared -> Prop) : triple Q (done a) (fun _ => Q).
Proof. intros e s Hs HP. by exists e, s, a. Qed.
Lemma triple_try {A B} P (m : routine E A) Q (k : A -> routine E B) R :
  triple P m Q -> (forall a, triple (Q a) (k a) R) -> triple P (try m k) R.
Proof.
  intros Hm Hk e s Hs HP. destruct (Hm e s Hs HP) as (e1 & s1 & a & E1 & Hs1 & HQ).
  destruct (Hk a e1 s1 Hs1 HQ) as (e2 & s2 & b & E2 & Hs2 & HR). exists e2, s2, b. unfold try. rewrite E1. cbn [mbind comp_bind]. done.
Qed.
Lemma triple_pre {A} (P P' : Chip -> FloppyShared -> Prop) (m : routine E A) Q :
  (forall c s, P c s -> P' c s) -> triple P' m Q -> triple P m Q.
Proof. intros HP Hm e s Hs H'. apply Hm; auto. Qed.
Lemma triple_pure {A} (F : Prop) P (m : routine E A) Q : (F -> triple P m Q) -> triple (fun c s => F /\ P c s) m Q.
Proof. intros Hm e s Hs [HF HP]. by apply Hm. Qed.
Lemma triple_read port (P : Chip -> FloppyShared -> Prop) (Q : Z -> Chip -> FloppyShared -> Prop) :
  (forall c s, P c s -> exists c' x, chip_in c port = Some (c', x) /\ Q x c' s) -> triple P (read_port port) Q.
Proof.
  intros HP e s Hs H'. destruct (HP _ _ H') as (c' & x & E1 & HQ). destruct (fdc_read e port c' x E1) as (e' & E2 & <- & Hs' & _).
  exists e', s, x. unfold read_port, Port.read_u8. rewrite E2, Hs'. done.
Qed.
Lemma triple_write port v (P : Chip -> FloppyShared -> Prop) (Q : Chip -> FloppyShared -> Prop) :
  (forall c s, P c s -> exists c', chip_out c port v = Some c' /\ Q c' s) -> triple P (write_port port v) (fun _ => Q).
Proof.
  intros HP e s Hs H'. destruct (HP _ _ H') as (c' & E1 & HQ). destruct (fdc_write e port v c' E1) as (<- & Hs' & _).
  exists (outb e port v), s, tt. unfold write_port, Port.write_u8. rewrite Hs'. done.
Qed.

(** The controller is in a phase, with the channel programmed as [d] and memory [r]; if it
    was [told] that the transfer is over, the interrupt is raised or was received. *)
Record at_phase (f : Z -> Z) (ph : Phase) (d : DmaState) (r : Z -> Z) (told : bool) (c : Chip) (s : FloppyShared) : Prop := {
  at_ph : phase c = ph;
  at_dma : channel2 c = d;
  at_ram : ram c = r;
  at_disk : disk c = f;
  at_report : lenZ (report c) = 7;
  at_delays : Forall (fun n => (n <= 9)%nat) (delays c);
  at_polls : (polls c <= 9)%nat;
  at_addr : DMA_ADDR s = Some (phys, virt);
  at_told : told = true -> irq c = true \/ interrupt_received (FLOPPY s) = true
}.
Definition at_ready f ph d r told (c : Chip) (s : FloppyShared) : Prop := at_phase f ph d r told c s /\ polls c = O.

Lemma yield_spec f ph d r told (n : nat) :
  triple (fun c s => at_phase f ph d r told c s /\ polls c = n) yield (fun _ c s => at_phase f ph d r told c s /\ polls c = n).
Proof.
  intros e s Hs [[] Hn]. unfold yield. destruct (fdc_yield e s) as (e' & -> & E2 & E3 & _); [by rewrite Hs|].
  cbn [mbind comp_bind]. eexists e', _, tt. split; [done|]. split; [done|]. rewrite E2.
  destruct (interrupting (chip e)); [|done]. split; [|done]. split; cbn; try done. by right.
Qed.

Lemma status_spec f ph d r told :
  triple (at_ready f ph d r told) get_status (fun x c s => x = status ph /\ at_ready f ph d r told c s).
Proof. apply triple_read. intros c s [[] Hn]. unfold chip_in. cbn. rewrite Hn. eexists _, _. split; [done|]. subst. done. Qed.

Lemma status_rqm ph : (status ph &u 0x80) =? 0x80 = true.
Proof. by destruct ph. Qed.

(** The controller becomes ready within the ten polls. *)
Lemma wait_for_rqm_spec f ph d r told :
  triple (at_phase f ph d r told) wait_for_rqm (fun _ => at_ready f ph d r told).
Proof.
  unfold wait_for_rqm.
  assert (Hl : forall k n, (n < k)%nat -> triple (fun c s => at_phase f ph d r told c s /\ polls c = n) (rqm_loop k)
    (fun ready c s => ready = true /\ at_ready f ph d r told c s)).
  { induction k as [|k IH]; intros n Hn; [lia|]. cbn [rqm_loop].
    apply (triple_try _ _ (fun x c s => at_phase f ph d r told c s /\
      ((n = O /\ x = status ph /\ polls c = O) \/ (x = 0x10 /\ S (polls c) = n)))).
    - apply triple_read. intros c s [[] Hp]. unfold chip_in. cbn. rewrite Hp. destruct n as [|n]; eexists _, _; (split; [done|]).
      + split; [done|]. left. subst. done.
      + split; [|by right]. split; cbn; try done. lia.
    - intros x. apply (triple_pre _ (fun c s => (x = status ph /\ at_ready f ph d r told c s) \/
        (x = 0x10 /\ at_phase f ph d r told c s /\ S (polls c) = n))); [unfold at_ready; naive_solver|].
      destruct (decide (x = 0x10)) as [->|Hx].
      + replace ((0x10 &u 0x80) =? 0x80) with false by done.
        destruct n as [|n]; [intros e s Hs [[Hx _]|(_ & _ & ?)]; [by destruct ph|lia]|].
        apply (triple_try _ _ (fun _ c s => at_phase f ph d r told c s /\ polls c = n)); [|intros _; apply IH; lia].
        eapply triple_pre; [|apply (yield_spec f ph d r told n)]. intros c s [[Hx _]|(_ & ? & ?)]; [by destruct ph|]. split; [done|lia].
      + intros e s Hs [[-> Ha]|[-> _]]; [|done]. rewrite status_rqm. exists e, s, true. done. }
  apply (triple_try _ _ (fun ready c s => ready = true /\ at_ready f ph d r told c s)).
  - intros e s Hs Ha. pose proof Ha as []. destruct (Hl 10%nat (polls (chip e)) ltac:(lia) e s Hs) as (e' & s' & a & ?); [done|]. by exists e', s', a.
  - intros ready e s Hs [-> Ha]. by exists e, s, tt.
Qed.

Lemma at_busy f ph ph' d r r' told told' i c s :
  at_ready f ph d r told c s -> (told' = true -> i = true \/ interrupt_received (FLOPPY s) = true) ->
  at_phase f ph' d r' told' (busy c ph' i r') s.
Proof.
  intros [[] Hp] Ht. split; cbn; try done.
  - destruct (delays c) as [|n l]; [constructor|]. by apply Forall_cons in at_delays0 as [_ ?].
  - destruct (delays c) as [|n l]; [cbn; lia|]. by apply Forall_cons in at_delays0 as [? _].
Qed.

Lemma untold f ph d r told c s : at_phase f ph d r told c s -> at_phase f ph d r false c s.
Proof. intros []. by split. Qed.

(** One parameter goes out. *)
Lemma param_step f ph d r told v ps Q :
  status ph = 0x90 -> triple (at_ready f ph d r told) (write_port fifo_port v) (fun _ => Q) ->
  forall R, triple Q (param_loop ps) R -> triple (at_phase f ph d r told) (param_loop (v :: ps)) R.
Proof.
  intros Hst Hw R Hps. cbn [param_loop].
  apply (triple_try _ _ (fun _ => at_ready f ph d r told)); [apply wait_for_rqm_spec|]. intros _.
  eapply triple_try; [apply status_spec|]. intros x. apply triple_pure. intros ->.
  rewrite Hst. replace (negb ((0x90 &u 0x40) =? 0)) with false by done.
  eapply triple_try; [exact Hw|]. intros ?. exact Hps.
Qed.

Lemma write_param f d r told got v : lenZ got < 7 ->
  triple (at_ready f (ParameterPhase 0x46 got) d r told) (write_port fifo_port v)
    (fun _ => at_phase f (ParameterPhase 0x46 (got ++ [v])) d r told).
Proof.
  intros Hg. apply triple_write. intros c s Ha. pose proof Ha as [[] Hp].
  exists (busy c (ParameterPhase 0x46 (got ++ [v])) (irq c) (ram c)). split; [|rewrite at_ram0; by eapply at_busy].
  unfold chip_out. rewrite dma_out_fifo. cbn. rewrite Hp, at_ph0.
  assert (E1 : lenZ got <? 7 = true) by (by apply Z.ltb_lt). rewrite E1.
  do 7 (destruct got as [|? got]; [done|]). unfold lenZ in Hg. cbn in Hg. lia.
Qed.

Lemma params_spec f d r told rest R ps : forall got,
  lenZ got + lenZ ps <= 7 ->
  triple (at_phase f (ParameterPhase 0x46 (got ++ ps)) d r told) (param_loop rest) R ->
  triple (at_phase f (ParameterPhase 0x46 got) d r told) (param_loop (ps ++ rest)) R.
Proof.
  induction ps as [|v ps IH]; intros got Hl Hr; [by rewrite app_nil_r in Hr|]. cbn [app].
  rewrite lenZ_cons in Hl. pose proof (lenZ_nonneg ps).
  eapply param_step; [done|apply write_param; lia|]. apply IH; [rewrite lenZ_app; change (lenZ [v]) with 1; lia|].
  by rewrite <- app_assoc.
Qed.

Lemma last_param f d r told cyl h sector lst gap v :
  transfer_mode d mod 16 = 6 -> address d + byte_count d < 65536 ->
  triple (at_phase f (ParameterPhase 0x46 [4 * h; cyl; h; sector; 2; lst; gap]) d r told) (param_loop [v])
    (fun _ c s => exists l, lenZ l = 7 /\ at_phase f (ResultPhase l) d (transfer d f r cyl h sector lst) true c s).
Proof.
  intros Hm Hc. eapply param_step; [done| |apply triple_done].
  apply triple_write. intros c s Ha. pose proof Ha as [[] Hp]. eexists. split.
  - unfold chip_out. rewrite dma_out_fifo. cbn. rewrite Hp, at_ph0, at_dma0. rewrite Z.eqb_refl, Hm, Z.eqb_refl, (proj2 (Z.ltb_lt _ _)) by done. cbn. reflexivity.
  - exists (report c). split; [done|]. rewrite at_disk0, at_ram0. eapply at_busy; [done|]. by left.
Qed.

Lemma wait_for_interrupt_spec f ph d r :
  triple (at_ready f ph d r true) wait_for_interrupt (fun _ => at_ready f ph d r false).
Proof.
  intros e s Hs [Ha Hp]. unfold wait_for_interrupt, try, get. cbn [mbind comp_bind].
  destruct (interrupt_received (FLOPPY s)) eqn:Hi.
  { exists e, s, tt. split; [done|]. split; [done|]. split; [by eapply untold|done]. }
  rewrite fdc_pid. cbn [mbind comp_bind]. destruct (fdc_stop e) as (e1 & -> & Hc1 & Hs1 & Hm1). cbn [mbind comp_bind].
  destruct Ha. assert (Hirq : interrupting (chip e1) = true).
  { unfold interrupting. rewrite Hc1, Hp. destruct (at_told0 eq_refl) as [->|?]; [done|congruence]. }
  set (s1 := with_floppy s _). destruct (fdc_yield e1 s1) as (e2 & -> & Hc2 & Hs2 & _); [intros _; split; [done|by rewrite Hm1]|].
  rewrite Hirq in Hc2 |- *. cbn [mbind comp_bind]. eexists e2, _, tt. split; [done|]. split; [done|].
  rewrite Hc2, Hc1. split; [|done]. by split.
Qed.

(** The bytes of the report are read, and the controller is ready for a command again. *)
Lemma response_loop_spec f d r l : forall told fuel resp idx,
  l <> [] -> (length l <= fuel)%nat -> 0 <= idx -> idx + lenZ l = lenZ resp -> lenZ resp < 4294967296 ->
  triple (at_ready f (ResultPhase l) d r told) (response_loop fuel true resp idx) (fun _ => at_ready f CommandPhase d r false).
Proof.
  induction l as [|x l IH]; intros told fuel resp idx Hne Hf Hi Hl Hb; [done|]. rewrite lenZ_cons in Hl. pose proof (lenZ_nonneg l).
  destruct fuel as [|fuel]; [cbn in Hf; lia|]. cbn [response_loop negb].
  destruct (Z.ltb_spec idx (lenZ resp)); [|lia].
  set (ph := match l with [] => CommandPhase | _ => ResultPhase l end).
  eapply (triple_try _ _ (fun a c s => a = (setZ resp idx x, idx + 1) /\ at_phase f ph d r false c s)).
  { eapply (triple_try _ _ (fun y c s => y = x /\ at_phase f ph d r false c s)).
    - apply triple_read. intros c s Ha. pose proof Ha as [[] Hp]. unfold chip_in. cbn. rewrite Hp, at_ph0.
      destruct l as [|y l]; eexists _, _; (split; [reflexivity|]); (split; [done|]); rewrite at_ram0; by eapply at_busy.
    - intros y e s Hs [-> Ha]. eexists e, s, _. split; [unfold done; by rewrite u32_small by (mach_unfold; lia)|]. done. }
  intros a. apply triple_pure. intros ->. cbn [fst snd].
  eapply triple_try; [apply wait_for_rqm_spec|]. intros ?. eapply triple_try; [apply status_spec|]. intros y. apply triple_pure. intros ->.
  destruct l as [|y l]; subst ph; cbn [status].
  - intros e s Hs Ha. destruct fuel; by eexists e, s, _.
  - replace ((0xd0 &u 0x50) =? 0x50) with true by done.
    cbn in Hf. by apply (IH false fuel (setZ resp idx x) (idx + 1)); rewrite ?lenZ_setZ; try done; cbn; try lia.
Qed.

Lemma get_response_spec f d r told l fuel resp :
  lenZ l = lenZ resp -> l <> [] -> (length l <= fuel)%nat -> lenZ resp < 4294967296 ->
  triple (at_ready f (ResultPhase l) d r told) (get_response fuel resp) (fun _ => at_ready f CommandPhase d r false).
Proof.
  intros Hl Hne Hf Hb. unfold get_response.
  eapply triple_try; [eapply triple_pre; [|apply (wait_for_rqm_spec f (ResultPhase l) d r told)]; by intros c s []|]. intros ?.
  eapply triple_try; [apply status_spec|]. intros x. apply triple_pure. intros ->.
  replace ((status (ResultPhase l) &u 0x50) =? 0x50) with true by done.
  eapply triple_try; [apply response_loop_spec; try done; lia|]. intros resp'.
  eapply triple_try; [apply status_spec|]. intros x. apply triple_pure. intros ->.
  intros e s Hs Ha. by exists e, s, resp'.
Qed.

(** The controller has the command and shows the result of the transfer. *)
Definition transferred f d r' told (c : Chip) (s : FloppyShared) : Prop :=
  exists l, lenZ l = 7 /\ at_ready f (ResultPhase l) d r' told c s.

Lemma send_read_spec f d r told depth fuel cyl h sector :
  transfer_mode d mod 16 = 6 -> address d + byte_count d < 65536 ->
  triple (at_ready f CommandPhase d r told) (send_command depth fuel ReadData [4 * h; cyl; h; sector; 2; 18; 0x1b; 0xff])
    (fun _ => transferred f d (transfer d f r cyl h sector 18) true).
Proof.
  intros Hm Hn.
  assert (Hx : triple (at_ready f CommandPhase d r told)
    (update (fun c => FloppyController.set_interrupt_received c false) ;; write_port fifo_port 0x46 ;;
     param_loop [4 * h; cyl; h; sector; 2; 18; 0x1b; 0xff] ;; wait_for_rqm ;; done tt)
    (fun _ => transferred f d (transfer d f r cyl h sector 18) true)).
  { eapply (triple_try _ _ (fun _ => at_ready f CommandPhase d r false)).
    { intros e s Hs [[] Hp]. eexists e, _, tt. split; [reflexivity|]. done. }
    intros _. eapply (triple_try _ _ (fun _ => at_phase f (ParameterPhase 0x46 []) d r false)).
    { apply triple_write. intros c s Ha. pose proof Ha as [[] Hp]. unfold chip_out. rewrite dma_out_fifo. cbn. rewrite Hp, at_ph0.
      eexists. split; [reflexivity|]. rewrite at_ram0. by eapply at_busy. }
    intros _. eapply triple_try; [apply (params_spec f d r false [0xff] _ [4 * h; cyl; h; sector; 2; 18; 0x1b] []); [done|by apply last_param]|].
    intros ?. eapply (triple_try _ _ (fun _ => transferred f d (transfer d f r cyl h sector 18) true)); [|intros ?; apply triple_done].
    intros e s Hs (l & Hl & Ha). destruct (wait_for_rqm_spec _ _ _ _ _ e s Hs Ha) as (e' & s' & u & ? & ? & ?).
    exists e', s', u. split_and!; try done. by exists l. }
  destruct depth; cbn [send_command]; (eapply triple_try; [apply status_spec|]); intros x; apply triple_pure; intros ->;
    replace (negb ((status CommandPhase &u 0xc0) =? 0x80)) with false by done;
    (eapply (triple_try _ _ (fun _ => at_ready f CommandPhase d r told)); [apply triple_done|]); intros _; exact Hx.
Qed.

(** Reading sectors: the whole exchange with the controller. *)
Lemma read_exchange_spec f d r told depth fuel cyl h sector :
  0 <= cyl < 256 -> 0 <= h <= 1 -> 0 <= sector < 256 -> (7 <= fuel)%nat ->
  transfer_mode d mod 16 = 6 -> address d + byte_count d < 65536 ->
  triple (at_ready f CommandPhase d r told) (read depth fuel cyl h sector)
    (fun _ => at_ready f CommandPhase d (transfer d f r cyl h sector 18) false).
Proof.
  intros Hc Hh Hsec Hf Hm Hn. unfold read, dma.
  assert (Hu : u8 (h <<u 2) = 4 * h) by (rewrite Z.shiftl_mul_pow2 by lia; mlia).
  rewrite Hu, !u8_small by (mach_unfold; lia).
  eapply triple_try; [by apply send_read_spec|]. intros ?.
  eapply (triple_try _ _ (fun _ => transferred f d (transfer d f r cyl h sector 18) false)).
  - intros e s Hs (l & Hl & Ha). destruct (wait_for_interrupt_spec _ _ _ _ e s Hs Ha) as (e' & s' & u & ? & ? & ?).
    exists e', s', u. split_and!; try done. by exists l.
  - intros _. eapply (triple_try _ _ (fun _ => at_ready f CommandPhase d _ false)); [|intros ?; apply triple_done].
    intros e s Hs (l & Hl & Ha).
    apply (get_response_spec f d _ false l fuel [0; 0; 0; 0; 0; 0; 0]); try done; [by intros ->|unfold lenZ in Hl; lia].
Qed.

(** ** Programming the channel *)

Fixpoint dma_outs (d : DmaState) (l : list (Z * Z)) : option DmaState :=
  match l with [] => Some d | (port, v) :: l => d ← dma_out d port v; dma_outs d l end.

Lemma write_all_spec l : forall e d, dma_outs (channel2 (chip e)) l = Some d ->
  chip (write_all e l) = with_dma (chip e) d /\ stopped (write_all e l) = stopped e.
Proof.
  induction l as [|[port v] l IH]; intros e d Hd; [injection Hd as <-; split; [|done]; cbn; by destruct (chip e)|]. cbn in Hd.
  destruct (dma_out (channel2 (chip e)) port v) as [d1|] eqn:E1; [|done]. cbn in Hd.
  destruct (fdc_write e port v (with_dma (chip e) d1)) as (E2 & E3 & _); [unfold chip_out; by rewrite E1|].
  change (write_all e ((port, v) :: l)) with (write_all (outb e port v) l).
  destruct (IH (outb e port v) d) as [-> Hs]; [by rewrite E2|]. rewrite Hs, E2. done.
Qed.

(** The channel as it is programmed for a transfer of [n + 1] bytes to [addr]. *)
Definition programmed (addr n m : Z) : DmaState := mkDmaState false (addr mod 65536) (n mod 65536) (addr / 65536 mod 256) m.

Lemma word_of_bytes q a : (256 * q + a mod 256) mod 256 + 256 * ((a / 256) mod 256) = a mod 65536.
Proof.
  rewrite (Z.add_comm (256 * q)), (Z.mul_comm 256 q), Z_mod_plus_full, Z.mod_mod by lia.
  by rewrite <- (Z.rem_mul_r a 256 256) by lia.
Qed.

Lemma program_channel d addr n : is_u32 addr -> is_u32 n ->
  dma_outs d
    [(0x0c, 0xff); (0x0c, 0xff); (0x04, addr &u 0xff); (0x04, (addr >>u 8) &u 0xff); (0x81, (addr >>u 16) &u 0xff);
     (0x0c, 0xff); (0x05, n &u 0xff); (0x05, (n >>u 8) &u 0xff); (0x0b, 0x56); (0x0f, 1)] =
  Some (programmed addr n 0x56).
Proof.
  intros Ha Hn. destruct d as [ff a c pg m]. rewrite !land_ff, !shr_div by lia. cbn. unfold write_pair, programmed.
  change (86 mod 4 =? 2) with true. cbn -[Z.mul Z.add Z.div Z.modulo Z.pow]. change (2 ^ 8) with 256. change (2 ^ 16) with 65536.
  by rewrite !word_of_bytes.
Qed.

(** What the driver needs: an idle controller, a disk that holds the bytes [f]. *)
Definition fdc_ready (hw : E * FloppyShared) (f : Z -> Z) : Prop :=
  stopped hw.1 = false /\ (forall i, is_u8 (f i)) /\ exists d r, at_ready f CommandPhase d r false (chip hw.1) hw.2.
Definition fdc_load (depth fuel : nat) (hw : E * FloppyShared) (sectors : SectorRange) : comp ((E * FloppyShared) * result Z unit) :=
  '(e, s, r) ← load_sectors_to_cache depth fuel hw.1 hw.2 sectors 0x56; Ret ((e, s), r).
Definition fdc_memory (hw : E * FloppyShared) : mem := memory hw.1.

(** A load transfers the sectors of the range up to the end of their track, to the address of
    the DMA buffer, and no others. *)
Lemma load_sectors_spec depth fuel hw f s n :
  fdc_ready hw f -> (7 <= fuel)%nat -> 0 <= s < 2880 -> 0 < n -> phys mod 65536 + 512 * n <= 65536 ->
  exists hw', fdc_load depth fuel hw (mkSectorRange s n) = Ret (hw', Ok virt) /\ fdc_ready hw' f /\
    forall a, ram (chip hw'.1) a =
      if (phys <=? a) && (a <? phys + 512 * Z.min n (18 - s mod 18)) then f (512 * s + (a - phys)) else ram (chip hw.1) a.
Proof.
  destruct hw as [e sh]. intros (Hs & Hf & d0 & r & Ha) Hfuel Hsec Hn Hpage. cbn [fst snd] in *.
  pose proof (fdc_buffer (memory := memory) (phys := phys)) as (Hp1 & Hp2 & Hp3). unfold DMA_SIZE in Hp2.
  pose proof (Z.mod_pos_bound phys 65536 ltac:(lia)) as Hmod.
  assert (Hlen : SectorRange.byte_length (mkSectorRange s n) -u 1 = 512 * n - 1)
    by (unfold SectorRange.byte_length, SECTOR_SIZE; cbn [count]; rewrite (u32_small (n * 512)), u32_small by (mach_unfold; lia); lia).
  unfold fdc_load, load_sectors_to_cache. cbn [fst snd].
  assert (Hg : get_dma_addresses fuel e sh = Ret (e, sh, (phys, virt))) by (pose proof Ha as [[] _]; destruct fuel; cbn; by rewrite at_addr0).
  rewrite Hg. cbn [mbind comp_bind]. change (DMA.get_channel e 2) with (Ret (outb e 0x0c 0xff, mkDMAChannel 1 (mkChannelRegisters 0x04 0x05 0x81 0x0b 0x0c 0x0f))).
  cbn [mbind comp_bind]. rewrite Hlen. set (e1 := DMAChannel.drop _ _).
  destruct (write_all_spec _ e _ (program_channel (channel2 (chip e)) phys (512 * n - 1) ltac:(mach_unfold; lia) ltac:(mach_unfold; lia))) as [Hc1 Hs1].
  change (write_all e _) with e1 in Hc1, Hs1. clearbody e1.
  pose proof (chs_round_trip s ltac:(lia)) as Hchs. unfold SectorRange.get_first_sector. cbn [first].
  assert (Hsec' : (Sector.to_chs s).2 = s mod 18 + 1) by (unfold Sector.to_chs, SECTORS_PER_TRACK; cbn [snd]; mlia).
  destruct (Sector.to_chs s) as [[cyl h] sector]. destruct Hchs as (E1 & H2 & H3 & H4 & H5). cbn [snd] in Hsec'. unfold of_chs in E1.
  pose proof (read_exchange_spec f (programmed phys (512 * n - 1) 0x56) r false depth fuel cyl h sector ltac:(lia) ltac:(lia) ltac:(lia) Hfuel eq_refl) as Hr.
  cbn [programmed address byte_count] in Hr. specialize (Hr ltac:(mlia)).
  destruct (Hr e1 sh) as (e2 & s2 & [] & -> & Hs2 & Ha2); [by rewrite Hs1| |].
  { pose proof Ha as [[] Hp]. rewrite Hc1. by split. }
  cbn [mbind comp_bind]. exists (e2, s2). split; [done|]. cbn [fst snd]. split; [split; [done|split; [done|by eexists _, _]]|].
  intros a. pose proof Ha2 as [[] _]. pose proof Ha as [[_ _ Hram _] _]. rewrite at_ram0, Hram.
  unfold transfer. cbn [programmed address byte_count dma_page].
  replace (phys / 65536 mod 256 * 65536 + phys mod 65536) with phys by mlia.
  replace (Z.min ((512 * n - 1) mod 65536 + 1) (512 * (18 - sector + 1))) with (512 * Z.min n (18 - s mod 18)) by mlia.
  replace (512 * ((cyl * 2 + h) * 18 + (sector - 1))) with (512 * s) by lia. done.
Qed.

Lemma fdc_load_sector depth fuel (Hfuel : (7 <= fuel)%nat) hw f s :
  fdc_ready hw f -> 0 <= s < 2880 ->
  exists hw' dma, fdc_load depth fuel hw (mkSectorRange s 1) = Ret (hw', Ok dma) /\ fdc_ready hw' f /\
    forall i, 0 <= i < 512 -> load8 (fdc_memory hw') (dma + i) = f (512 * s + i).
Proof.
  intros Hr Hs. pose proof (fdc_buffer (memory := memory) (phys := phys)) as (Hp1 & Hp2 & Hp3). unfold DMA_SIZE in Hp2.
  destruct (load_sectors_spec depth fuel hw f s 1 Hr Hfuel Hs) as (hw' & E1 & Hr' & Hram); [lia|mlia|].
  exists hw', virt. split; [done|]. split; [done|]. intros i Hi. unfold fdc_memory. pose proof Hr' as (_ & Hf & _).
  rewrite (fdc_window (phys := phys)) by (unfold DMA_SIZE; lia). rewrite Hram.
  pose proof (Z.mod_pos_bound s 18 ltac:(lia)). rewrite (proj2 (Z.leb_le _ _)), (proj2 (Z.ltb_lt _ _)) by lia. cbn [andb].
  rewrite u8_small by apply Hf. f_equal. lia.
Qed.

(** The driver on this controller is the disk the file system relies on. *)
Definition fdc_disk (depth fuel : nat) (Hfuel : (7 <= fuel)%nat) : @DiskDriver (FloppyDevice (E * FloppyShared)) (floppy_driver (fdc_load depth fuel) fdc_memory) :=
  floppy_disk_driver (fdc_load depth fuel) fdc_memory fdc_ready (fdc_load_sector depth fuel Hfuel).

(** The [i]th byte a read at [pos] returns: the disk's while the track lasts, then what the
    buffer held before. *)
Definition byte_read (hw : E * FloppyShared) (f : Z -> Z) (pos i : Z) : Z :=
  if (pos + i) / 9216 =? pos / 9216 then f (pos + i) else load8 (fdc_memory hw) (virt + (pos mod 512 + i)).

Lemma fdc_load_bytes depth fuel hw f pos len :
  (7 <= fuel)%nat -> fdc_ready hw f -> 0 <= pos -> 0 < len -> pos mod 512 + len <= DMA_SIZE -> pos + len <= 1474560 ->
  let r := SectorRange.for_byte_range pos len in
  SectorRange.get_local_offset r pos = pos mod 512 /\
  exists hw', fdc_load depth fuel hw r = Ret (hw', Ok virt) /\ fdc_ready hw' f /\
    forall i, 0 <= i < len -> load8 (fdc_memory hw') (virt + (pos mod 512 + i)) = byte_read hw f pos i.
Proof.
  intros Hfuel Hr Hp Hl Hb Hend r. pose proof (fdc_buffer (memory := memory) (phys := phys)) as (Hp1 & Hp2 & Hp3). unfold DMA_SIZE in *.
  destruct (for_byte_range_spec pos len) as (E1 & E2 & E3); [lia..|]. fold r in E1, E2, E3. split; [exact E3|].
  assert (Hn : 0 < count r <= 8 /\ pos mod 512 + len <= 512 * count r) by mlia. destruct r as [s n]. cbn [first count] in *. subst s.
  destruct (load_sectors_spec depth fuel hw f (pos / 512) n Hr Hfuel) as (hw' & -> & Hr' & Hram); [mlia|lia|mlia|].
  exists hw'. split; [done|]. split; [done|]. intros i Hi. unfold byte_read, fdc_memory. pose proof Hr' as (_ & Hf & _).
  rewrite !(fdc_window (phys := phys)) by (unfold DMA_SIZE; mlia). rewrite Hram.
  destruct (Z.leb_spec phys (phys + (pos mod 512 + i))); [|mlia]. cbn [andb].
  destruct (Z.ltb_spec (phys + (pos mod 512 + i)) (phys + 512 * Z.min n (18 - pos / 512 mod 18))), (Z.eqb_spec ((pos + i) / 9216) (pos / 9216)); [|mlia..|done].
  rewrite u8_small by apply Hf. f_equal. mlia.
Qed.

(** C16: The floppy driver is a byte stream along one track.  On a system whose floppy and DMA
    chips follow their data sheets and become ready within nine polls, after a seek to any
    position of a 1.44 MB disk a read whose sectors fit the 4096 bytes of the DMA buffer
    programs the DMA channel, gives the command, sleeps until the interrupt, collects the
    report, reports success for the whole length and advances the cursor by it, and the
    controller is ready for the next read.  The bytes are those of the disk while the track
    of the first one lasts, so all of them when the range lies in one track; behind the end of
    the track they are what the buffer held before the read. *)
Theorem floppy_is_byte_stream (depth fuel : nat) d h f pos buffer :
  (7 <= fuel)%nat -> floppy_on_disk fdc_ready d h f ->
  0 <= pos -> 0 < lenZ buffer -> pos mod 512 + lenZ buffer <= DMA_SIZE -> pos + lenZ buffer <= 1474560 ->
  exists d1 d2 bytes, floppy_seek d h (Absolute pos) = Ret (d1, Ok pos) /\
    floppy_read (fdc_load depth fuel) fdc_memory d1 h buffer = Ret (d2, bytes, Ok (lenZ buffer)) /\
    bytes = byte_read (hardware d) f pos <$> seqZ 0 (lenZ buffer) /\
    (pos / 9216 = (pos + lenZ buffer - 1) / 9216 -> bytes = f <$> seqZ pos (lenZ buffer)) /\
    floppy_on_disk fdc_ready d2 h f /\ open_files d2 !! h = Some (pos + lenZ buffer).
Proof.
  intros Hfuel [[c Hc] Hr] Hp Hl Hb Hend. unfold floppy_seek. rewrite Hc. eexists.
  destruct (fdc_load_bytes depth fuel (hardware d) f pos (lenZ buffer) Hfuel Hr Hp Hl Hb Hend) as (Eo & hw' & El & Hr' & Hbytes).
  assert (Hread : exists d2, floppy_read (fdc_load depth fuel) fdc_memory (mkFloppy (drive_number d) (<[h:=pos]> (open_files d)) (hardware d)) h buffer =
      Ret (d2, byte_read (hardware d) f pos <$> seqZ 0 (lenZ buffer), Ok (lenZ buffer)) /\ floppy_on_disk fdc_ready d2 h f /\
      open_files d2 !! h = Some (pos + lenZ buffer)).
  { unfold floppy_read. cbn [open_files from_current_position]. rewrite lookup_insert_eq. cbn [hardware drive_number]. rewrite El. cbn [mbind comp_bind].
    rewrite Eo, (copy_from_dma_spec (fdc_memory hw') _ buffer (byte_read (hardware d) f pos)).
    - cbn [mbind comp_bind open_files]. eexists. split; [reflexivity|]. rewrite u32_small by (mach_unfold; lia).
      split; [split; [|done]|]; cbn [open_files]; by rewrite lookup_insert_eq.
    - intros i Hi. rewrite (load8_u32 _ _ (virt + (pos mod 512 + i))) by mlia. by apply Hbytes. }
  destruct Hread as (d2 & Ed & Hd2 & Hcur). eexists d2, _. split; [reflexivity|]. split; [exact Ed|]. split; [done|]. split; [|done].
  intros Htrack. apply list_eq_nthZ; [by rewrite !lenZ_fmap_seqZ by lia|]. intros i. rewrite lenZ_fmap_seqZ by lia. intros Hi.
  rewrite !nthZ_fmap_seqZ by lia. f_equal. unfold byte_read. rewrite Z.add_0_l. destruct (Z.eqb_spec ((pos + i) / 9216) (pos / 9216)); [done|mlia].
Qed.

(** C39: The transfer is as long as the byte range asks for, whatever the size of the DMA
    buffer: loading more than eight sectors of a track fills the 4096 bytes of the buffer and
    goes on to overwrite the memory behind it. *)
Theorem long_read_overruns_buffer (depth fuel : nat) hw f s n :
  (7 <= fuel)%nat -> fdc_ready hw f -> 0 <= s < 2880 -> 8 < n -> s mod 18 + n <= 18 -> phys mod 65536 + 512 * n <= 65536 ->
  exists hw', fdc_load depth fuel hw (mkSectorRange s n) = Ret (hw', Ok virt) /\
    forall a, phys + DMA_SIZE <= a < phys + 512 * n -> ram (chip hw'.1) a = f (512 * s + (a - phys)).
Proof.
  intros Hf Hr Hs Hn Ht Hp. destruct (load_sectors_spec depth fuel hw f s n Hr Hf Hs) as (hw' & E1 & _ & Hram); [lia..|].
  exists hw'. split; [done|]. intros a Ha. unfold DMA_SIZE in Ha. rewrite Hram.
  by rewrite (proj2 (Z.leb_le _ _)), (proj2 (Z.ltb_lt _ _)) by lia.
Qed.

Lemma try_Ret {A B} (m : routine E A) (k : A -> routine E B) e s e1 s1 a : m e s = Ret (e1, s1, Ok a) -> try m k e s = k a e1 s1.
Proof. unfold try. by intros ->. Qed.

(** A report longer than the slice it is read into is never finished: the loop neither reads
    another byte nor ends. *)
Lemma get_response_never_ends fuel f d r told x l resp e s :
  at_ready f (ResultPhase (x :: l)) d r told (chip e) s ->
  response_loop fuel true resp (lenZ resp) e s = OutOfFuel.
Proof.
  revert e s. induction fuel as [|fuel IH]; intros e s Ha; [done|]. cbn [response_loop negb]. rewrite Z.ltb_irrefl.
  erewrite try_Ret by reflexivity. cbn [fst snd].
  assert (Hst : forall e s, at_ready f (ResultPhase (x :: l)) d r told (chip e) s -> exists e', get_status e s = Ret (e', s, Ok 0xd0) /\
    at_ready f (ResultPhase (x :: l)) d r told (chip e') s).
  { intros e0 s0 [[] Hp]. destruct (fdc_read e0 msr_port (chip e0) 0xd0) as (e' & E1 & E2 & _).
    - unfold chip_in. cbn. by rewrite Hp, at_ph0.
    - exists e'. unfold get_status, read_port, Port.read_u8. rewrite E1, E2. done. }
  destruct (Hst e s Ha) as (e1 & E1 & Ha1). destruct (Hst e1 s Ha1) as (e2 & E2 & Ha2).
  assert (Hw : wait_for_rqm e s = Ret (e1, s, Ok tt)).
  { unfold wait_for_rqm. rewrite (try_Ret _ _ e s e1 s true); [done|]. cbn [rqm_loop]. by erewrite try_Ret by exact E1. }
  erewrite try_Ret by exact Hw. erewrite try_Ret by exact E2. by apply IH.
Qed.
End transfers.

(** * Witnesses *)

(** The chips themselves as a machine, with the process that uses them. *)
Record DemoMachine : Type := mkDemoMachine { m_chip : Chip; m_stopped : bool }.

#[local] Instance demo_ports : Ports DemoMachine := {
  inb m port := match chip_in (m_chip m) port with Some (c, x) => (mkDemoMachine c (m_stopped m), x) | None => (m, 0xff) end;
  outb m port v := match chip_out (m_chip m) port v with Some c => mkDemoMachine c (m_stopped m) | None => m end
}.

Definition demo_yield (m : DemoMachine) (s : FloppyShared) : comp (DemoMachine * FloppyShared) :=
  let c := m_chip m in
  if interrupting c
  then Ret (mkDemoMachine (mkChip (phase c) (polls c) (delays c) false (channel2 c) (report c) (disk c) (ram c)) false,
            with_floppy s (fun c => FloppyController.set_interrupt_received c true))
  else if m_stopped m then OutOfFuel else Ret (m, s).

#[local] Instance demo_system : System DemoMachine FloppyShared := {
  sys_current_pid m := Ret 3;
  sys_send_signal m p sig := Ret (mkDemoMachine (m_chip m) (sig =? SIG_STOP));
  sys_yield := demo_yield;
  sys_sleep m s ms := Ret (m, s)
}.

Definition demo_memory (m : DemoMachine) : mem := store_bytes ∅ 0xc1000000 (ram (m_chip m) <$> seqZ 0x20000 DMA_SIZE).

#[local] Instance demo_fdc : FdcSystem DemoMachine demo_memory 0x20000 0xc1000000.
Proof.
  refine {| chip := m_chip; self _ := 3; stopped := m_stopped |}.
  - intros m p c x Hc. cbn. rewrite Hc. by eexists.
  - intros m p v c Hc. cbn. by rewrite Hc.
  - done.
  - intros m. by eexists.
  - intros m s Hm. cbn. unfold demo_yield. destruct (interrupting (m_chip m)) eqn:Hi; [by eexists|].
    destruct (m_stopped m) eqn:Hs; [by destruct (Hm eq_refl)|]. by exists m.
  - intros m i Hi. unfold demo_memory. apply load8_store_bytes_in; [rewrite lenZ_fmap_seqZ by done; split; by vm_compute|].
    by rewrite nthZ_fmap_seqZ.
  - unfold DMA_SIZE. split_and!; by vm_compute.
Defined.

Definition demo_machine : DemoMachine :=
  mkDemoMachine (mkChip CommandPhase 0 [1; 0; 0; 9; 0; 0; 0; 2; 5; 1]%nat false (mkDmaState true 7 7 7 7)
    (replicate 7 0) demo_bytes (fun _ => 0)) false.
Definition demo_shared : FloppyShared := mkShared FloppyController.new (Some (0x20000, 0xc1000000)).

Lemma demo_machine_ready : fdc_ready (phys := 0x20000) (virt := 0xc1000000) (demo_machine, demo_shared) demo_bytes.
Proof.
  split; [done|]. split; [intros i; unfold demo_bytes; mlia|]. eexists _, _. split; [|done].
  split; try reflexivity; [|cbn; lia|done]. cbn. repeat constructor; lia.
Qed.

(** Three bytes across the end of a sector, and two across the end of a track: the second is not
    the disk's. *)
Lemma floppy_is_byte_stream_witness :
  let d := mkFloppy 0 {[ 4 := 0 ]} (demo_machine, demo_shared) in
  (exists d1 d2, floppy_seek d 4 (Absolute 1023) = Ret (d1, Ok 1023) /\
    floppy_read (fdc_load 0 7) (fdc_memory (memory := demo_memory)) d1 4 [0; 0; 0] = Ret (d2, demo_bytes <$> seqZ 1023 3, Ok 3) /\
    floppy_on_disk (fdc_ready (phys := 0x20000) (virt := 0xc1000000)) d2 4 demo_bytes /\ open_files d2 !! 4 = Some (1023 + 3)) /\
  (exists d1 d2, floppy_seek d 4 (Absolute 9215) = Ret (d1, Ok 9215) /\
    floppy_read (fdc_load 0 7) (fdc_memory (memory := demo_memory)) d1 4 [5; 5] = Ret (d2, [demo_bytes 9215; 0], Ok 2)).
Proof.
  assert (Hd : floppy_on_disk (fdc_ready (phys := 0x20000) (virt := 0xc1000000)) (mkFloppy 0 {[ 4 := 0 ]} (demo_machine, demo_shared)) 4 demo_bytes)
    by (split; [by exists 0|apply demo_machine_ready]).
  split.
  - destruct (floppy_is_byte_stream (phys := 0x20000) (virt := 0xc1000000) 0 7 _ 4 demo_bytes 1023 [0; 0; 0] ltac:(lia) Hd) as (d1 & d2 & bytes & E1 & E2 & _ & E3 & E4);
      [lia|done|by vm_compute|by vm_compute|].
    exists d1, d2. rewrite E3 in E2 by (by vm_compute). split; [exact E1|]. split; [exact E2|exact E4].
  - destruct (floppy_is_byte_stream (phys := 0x20000) (virt := 0xc1000000) 0 7 _ 4 demo_bytes 9215 [5; 5] ltac:(lia) Hd) as (d1 & d2 & bytes & E1 & E2 & E3 & _);
      [lia|done|by vm_compute|by vm_compute|].
    exists d1, d2. split; [exact E1|]. rewrite E3 in E2. exact E2.
Defined.

Lemma long_read_overruns_buffer_witness :
  exists hw', fdc_load 0 7 (demo_machine, demo_shared) (mkSectorRange 40 9) = Ret (hw', Ok 0xc1000000) /\
    forall a, 0x20000 + DMA_SIZE <= a < 0x20000 + 512 * 9 -> ram (chip hw'.1) a = demo_bytes (512 * 40 + (a - 0x20000)).
Proof.
  apply (long_read_overruns_buffer (phys := 0x20000) (virt := 0xc1000000) 0 7 (demo_machine, demo_shared) demo_bytes 40 9);
    [lia|apply demo_machine_ready|lia|lia|by vm_compute|by vm_compute].
Defined.
