(* ===== verification/Fat12.v ===== *)
(** The FAT12 structures: [filesystems/fat12/disk.rs], [filesystems/fat12/fat.rs],
    [filesystems/fat12/file.rs], [filesystems/fat12/directory.rs] and
    [filesystems/fat12/errors.rs].

    Buffers are lists of bytes; the records that the source lays over memory are read from
    the bytes at their offsets. *)

From S2P Require Import Prelude.

(** * Disk layout *)

Definition DIRECTORY_ENTRY_SIZE : Z := 32.

Inductive FatError : Type := InvalidFatTable.

Record SectorRange : Type := mkRange { range_first : Z; range_count : Z }.

Module SectorRange.
Definition new (first count : Z) : SectorRange := mkRange first count.
Definition get_first_sector (r : SectorRange) : Z := range_first r.
Definition get_sector_count (r : SectorRange) : Z := range_count r.
End SectorRange.

Record BiosParamBlock : Type := mkBpb {
  bpb_bytes_per_sector : Z; bpb_sectors_per_cluster : Z; bpb_reserved_sectors : Z; bpb_fat_count : Z;
  bpb_root_directory_entries : Z; bpb_total_sectors : Z; bpb_media_desc : Z; bpb_sectors_per_fat : Z
}.

Definition byte_at (l : list Z) (i : Z) : Z := default 0 (nthZ l i).
Definition u16_at (l : list Z) (i : Z) : Z := byte_at l i + 256 * byte_at l (i + 1).
Definition u32_at (l : list Z) (i : Z) : Z := u16_at l i + 65536 * u16_at l (i + 2).

Module BiosParamBlock.
Definition size : Z := 13.
Definition empty : BiosParamBlock := mkBpb 0 0 0 0 0 0 0 0.
(** The block after its buffer was filled. *)
Definition of_buffer (l : list Z) : BiosParamBlock :=
  mkBpb (u16_at l 0) (byte_at l 2) (u16_at l 3) (byte_at l 5) (u16_at l 6) (u16_at l 8) (byte_at l 10) (u16_at l 11).
End BiosParamBlock.

Record DiskConfig : Type := mkConfig {
  bytes_per_sector : Z; sectors_per_cluster : Z; reserved_sectors : Z; fat_count : Z;
  root_directory_entries : Z; sectors_per_fat : Z; total_sectors : Z
}.

Module DiskConfig.
Definition empty : DiskConfig := mkConfig 512 1 1 1 1 1 1.
Definition from_bpb (b : BiosParamBlock) : DiskConfig :=
  mkConfig (bpb_bytes_per_sector b) (bpb_sectors_per_cluster b) (bpb_reserved_sectors b) (bpb_fat_count b)
    (bpb_root_directory_entries b) (bpb_sectors_per_fat b) (bpb_total_sectors b).
Definition get_sectors_per_cluster (c : DiskConfig) : Z := sectors_per_cluster c.
Definition get_sectors_for_cluster (c : DiskConfig) (cluster : Z) : SectorRange :=
  SectorRange.new (cluster *u sectors_per_cluster c) (sectors_per_cluster c).
Definition get_fat_sectors (c : DiskConfig) (fat_table : Z) : result SectorRange FatError :=
  if fat_table >=? fat_count c then Err InvalidFatTable
  else
    let fat_start := reserved_sectors c in
    let fat_start := fat_start +u (fat_table *u sectors_per_fat c) in
    Ok (SectorRange.new fat_start (sectors_per_fat c)).
Definition get_root_directory_size (c : DiskConfig) : Z := root_directory_entries c *u DIRECTORY_ENTRY_SIZE.
Definition get_bytes_per_sector (c : DiskConfig) : Z := bytes_per_sector c.
Definition get_sectors_per_fat (c : DiskConfig) : Z := sectors_per_fat c.
Definition get_root_directory_sectors (c : DiskConfig) : comp SectorRange :=
  if bytes_per_sector c =? 0 then Panic
  else
    let sector_count := get_root_directory_size c / bytes_per_sector c in
    let first_sector := reserved_sectors c +u (fat_count c *u sectors_per_fat c) in
    Ret (SectorRange.new first_sector sector_count).
Definition get_data_sectors (c : DiskConfig) : comp SectorRange :=
  root ← get_root_directory_sectors c;
  let first_sector := SectorRange.get_first_sector root in
  Ret (SectorRange.new first_sector (total_sectors c -u first_sector)).
Definition get_directory_index_location (c : DiskConfig) (index : Z) : comp (Z * Z) :=
  let entries_per_sector := bytes_per_sector c / DIRECTORY_ENTRY_SIZE in
  if entries_per_sector =? 0 then Panic
  else Ret (index / entries_per_sector, index mod entries_per_sector).
End DiskConfig.

(** * Cluster chains *)

Record ChainSectorIterator : Type := mkChainIter {
  ci_clusters : list Z; cluster_index : Z; sector_index : Z; ci_sectors_per_cluster : Z;
  root_dir_sectors : SectorRange; data_sectors : SectorRange
}.

Module ChainSectorIterator.
Definition new (clusters : list Z) (c : DiskConfig) : comp ChainSectorIterator :=
  root ← DiskConfig.get_root_directory_sectors c;
  data ← DiskConfig.get_data_sectors c;
  Ret (mkChainIter clusters 0 0 (DiskConfig.get_sectors_per_cluster c) root data).

Definition next (it : ChainSectorIterator) : comp (ChainSectorIterator * option Z) :=
  let cluster_count := lenZ (ci_clusters it) in
  if cluster_count =? 0 then
    if sector_index it >? SectorRange.get_sector_count (root_dir_sectors it) then Ret (it, None)
    else Ret (it, Some (SectorRange.get_first_sector (root_dir_sectors it) +u sector_index it))
  else if cluster_index it >=? cluster_count then Ret (it, None)
  else
    current_cluster ← index (ci_clusters it) (cluster_index it);
    if current_cluster <? 2 then Ret (it, None)
    else
      let cluster_start := SectorRange.get_first_sector (data_sectors it) +u
                             ((current_cluster -u 2) *u ci_sectors_per_cluster it) in
      let sector := cluster_start +u sector_index it in
      let sector_index := sector_index it +u 1 in
      let it :=
        if sector_index >=? ci_sectors_per_cluster it
        then mkChainIter (ci_clusters it) (cluster_index it +u 1) 0 (ci_sectors_per_cluster it)
               (root_dir_sectors it) (data_sectors it)
        else mkChainIter (ci_clusters it) (cluster_index it) sector_index (ci_sectors_per_cluster it)
               (root_dir_sectors it) (data_sectors it) in
      Ret (it, Some sector).
End ChainSectorIterator.

(** * The table *)

Inductive FatEntry : Type :=
| NextCluster (c : Z) | EndOfChain | Free | BadSector | Reserved | TemporaryAllocation.

Module FatEntry.
Definition from_value (value : Z) : FatEntry :=
  if value =? 0 then Free
  else if value =? 1 then TemporaryAllocation
  else if (0xff0 <=? value) && (value <=? 0xff5) then EndOfChain
  else if value =? 0xff6 then Reserved
  else if value =? 0xff7 then BadSector
  else if (0xff8 <=? value) && (value <=? 0xfff) then EndOfChain
  else NextCluster value.
Definition has_next (e : FatEntry) : bool := match e with NextCluster _ => true | _ => false end.
End FatEntry.

Inductive FatValueResult : Type :=
| OutOfBoundsBefore | OutOfBoundsAfter | Partial8 (b : Z) | Partial4 (b : Z) | Success (e : FatEntry).

Record FatSection : Type := mkSection { section : list Z; byte_offset : Z; first_cluster : Z }.

Module FatSection.
Definition at_slice (s : list Z) (byte_offset first_cluster : Z) : FatSection := mkSection s byte_offset first_cluster.

Definition get_value (t : FatSection) (target_cluster : Z) : comp FatValueResult :=
  if target_cluster <? first_cluster t then Ret OutOfBoundsBefore
  else
    let distance := target_cluster -u first_cluster t in
    let triad_start := ((distance / 2) *u 3) +u byte_offset t in
    if triad_start >=? lenZ (section t) then Ret OutOfBoundsAfter
    else
      let triad_offset := distance &u 1 in
      let byte_addr := triad_start +u triad_offset in
      if (lenZ (section t) -u byte_addr) <? 2 then
        b ← index (section t) byte_addr;
        if triad_offset =? 0 then Ret (Partial8 b) else Ret (Partial4 (b >>u 4))
      else
        low ← index (section t) byte_addr;
        high ← index (section t) (byte_addr +u 1);
        let value := low |u u16 (Z.shiftl high 8) in
        let value := value >>u (triad_offset * 4) in
        let value := value &u 0xfff in
        Ret (Success (FatEntry.from_value value)).
End FatSection.

(** * Files and names *)

Module FileTime.
Definition get_hours (t : Z) : Z := t >>u 11.
Definition get_minutes (t : Z) : Z := (t >>u 5) &u 0x3f.
Definition get_seconds (t : Z) : Z := u16 (Z.shiftl (t &u 0x1f) 1).
End FileTime.

Module FileDate.
Definition get_year (d : Z) : Z := ((d >>u 9) &u 0x7f) + 1980.
Definition get_month (d : Z) : Z := (d >>u 5) &u 0xf.
Definition get_day (d : Z) : Z := d &u 0x1f.
End FileDate.

Inductive FileType : Type := File | Dir | VolumeLabel.
Module FileType.
Definition is_file (t : FileType) : bool := match t with File => true | _ => false end.
Definition is_directory (t : FileType) : bool := match t with Dir => true | _ => false end.
End FileType.

Definition name_character_matches (a b : Z) : bool :=
  if a =? b then true
  else if b =? 63 then true
  else if (a >? 64) && (a <? 91) && (u8 (a + 32) =? b) then true
  else if (b >? 64) && (b <? 91) && (u8 (b + 32) =? a) then true
  else false.

(** The loop over the bytes of the path with its variables. *)
Fixpoint name_components_loop (s : list Z) (name ext : list Z) (i : Z) (on_extension : bool)
  : comp (list Z * list Z) :=
  match s with
  | [] => Ret (name, ext)
  | ch :: s' =>
      if ch =? 46 then
        if on_extension then Ret (name, ext) else name_components_loop s' name ext 0 true
      else if ch =? 47 then Ret (name, ext)
      else if on_extension then
        if i >=? 3 then Ret (name, ext)
        else ext ← store ext i ch; name_components_loop s' name ext (i + 1) on_extension
      else
        if i >=? 8 then Ret (name, ext)
        else name ← store name i ch; name_components_loop s' name ext (i + 1) on_extension
  end.
Definition file_name_components_from_string (s : list Z) : comp (list Z * list Z) :=
  name_components_loop s (replicate 8 0x20) (replicate 3 0x20) 0 false.

(** * Directory entries *)

Record DirectoryEntry : Type := mkEntry {
  file_name : list Z; ext : list Z; attributes : Z; nonstandard_attributes : Z; fine_create_time : Z;
  creation_time : Z; creation_date : Z; access_date : Z; extended_attributes : Z;
  last_modify_time : Z; last_modify_date : Z; first_file_cluster : Z; byte_size : Z
}.

Definition bytes_at (l : list Z) (i : Z) (n : nat) : list Z := take n (drop (Z.to_nat i) l).

Module DirectoryEntry.
(** The record at the start of the bytes [l]. *)
Definition at_bytes (l : list Z) : DirectoryEntry :=
  mkEntry (bytes_at l 0 8) (bytes_at l 8 3) (byte_at l 11) (byte_at l 12) (byte_at l 13) (u16_at l 14) (u16_at l 16)
    (u16_at l 18) (u16_at l 20) (u16_at l 22) (u16_at l 24) (u16_at l 26) (u32_at l 28).
Definition get_file_type (e : DirectoryEntry) : FileType :=
  if (attributes e &u 0x08) =? 0x08 then VolumeLabel
  else if (attributes e &u 0x10) =? 0x10 then Dir
  else File.
Definition get_first_cluster (e : DirectoryEntry) : Z := first_file_cluster e.
Definition is_empty (e : DirectoryEntry) : bool := byte_at (file_name e) 0 =? 0.
Definition get_full_name (e : DirectoryEntry) : list Z := file_name e ++ ext e.
Definition get_byte_size (e : DirectoryEntry) : Z := byte_size e.
Fixpoint all_match (a b : list Z) : bool :=
  match a, b with
  | x :: a', y :: b' => name_character_matches x y && all_match a' b'
  | _, _ => true
  end.
Definition name_matches_search (e : DirectoryEntry) (name ex : list Z) : bool :=
  all_match (file_name e) name && all_match (ext e) ex.
End DirectoryEntry.

(** The entries the iterator yields from a buffer: it stops at the first empty one. *)
Fixpoint directory_entries (l : list Z) (i : Z) (max_count : nat) : list DirectoryEntry :=
  match max_count with
  | O => []
  | S n =>
      let entry := DirectoryEntry.at_bytes (drop (Z.to_nat (i * DIRECTORY_ENTRY_SIZE)) l) in
      if DirectoryEntry.is_empty entry then [] else entry :: directory_entries l (i + 1) n
  end.

(** * The table as a function *)

(** The first byte and the 12-bit value of a cluster in a table of bytes [f]. *)
Definition fat_byte (c : Z) : Z := 3 * (c / 2) + c mod 2.
Definition fat_value (f : Z -> Z) (c : Z) : Z :=
  ((f (fat_byte c) + 256 * f (fat_byte c + 1)) / 2 ^ (4 * (c mod 2))) mod 4096.

Lemma low_high low high :
  is_u8 low -> is_u8 high -> Z.lor low (u16 (Z.shiftl high 8)) = low + 256 * high.
Proof.
  intros Hl Hh. rewrite Z.shiftl_mul_pow2 by lia. change (2 ^ 8) with 256.
  rewrite u16_small by mlia. change 256 with (2 ^ 8) at 1. rewrite lor_low by (mach_unfold; lia). lia.
Qed.

(** A section of the table that starts at byte [base]; its first whole entry is [fc]. *)
Record section_of (f : Z -> Z) (t : FatSection) (base : Z) : Prop := {
  so_bytes : forall i, 0 <= i < lenZ (section t) -> nthZ (section t) i = Some (f (base + i));
  so_u8 : forall i, is_u8 (f i);
  so_start : base + byte_offset t = fat_byte (first_cluster t) /\ first_cluster t mod 2 = 0;
  so_small : 0 <= first_cluster t < 65536 /\ 0 <= base < 65536 /\ 0 <= byte_offset t <= 3 /\ lenZ (section t) <= 65536
}.

(** Where [get_value] looks for a cluster. *)
Lemma get_value_spec f t base c :
  section_of f t base -> first_cluster t <= c < 65536 ->
  let a := fat_byte c - base in
  (a + 1 < lenZ (section t) -> FatSection.get_value t c = Ret (Success (FatEntry.from_value (fat_value f c)))) /\
  (a + 1 = lenZ (section t) ->
   FatSection.get_value t c =
   Ret (if c mod 2 =? 0 then Partial8 (f (fat_byte c)) else Partial4 (f (fat_byte c) / 16))).
Proof.
  intros [Hb Hu [Hs1 Hs2] (Hf & Hba & Ho & Hl)] Hc. cbv zeta.
  assert (Hd : c -u first_cluster t = c - first_cluster t) by mlia.
  assert (Ha : fat_byte c - base = (c - first_cluster t) / 2 * 3 + byte_offset t + c mod 2) by (unfold fat_byte in *; mlia).
  assert (Hm : (c - first_cluster t) mod 2 = c mod 2) by mlia.
  unfold FatSection.get_value. destruct (Z.ltb_spec c (first_cluster t)); [lia|]. rewrite Hd, land_1, Hm.
  set (ts := (c - first_cluster t) / 2 * 3 + byte_offset t) in *.
  assert (Hts : u32 ((c - first_cluster t) / 2 *u 3 + byte_offset t) = ts) by (unfold ts; mlia). rewrite Hts.
  assert (Hts0 : 0 <= ts < 200000) by (unfold ts; mlia). assert (Hc2 : 0 <= c mod 2 < 2) by mlia.
  rewrite (u32_small (ts + c mod 2)) by (mach_unfold; lia). rewrite <- Ha.
  assert (Hn : forall i, 0 <= i - base < lenZ (section t) -> nthZ (section t) (i - base) = Some (f i)).
  { intros i Hi. rewrite Hb by done. do 2 f_equal. lia. }
  assert (Ha0 : 0 <= fat_byte c - base < 200002) by lia.
  split; intros Hin; (destruct (Z.geb_spec ts (lenZ (section t))); [lia|]);
    rewrite u32_small by (mach_unfold; lia).
  - destruct (Z.ltb_spec (lenZ (section t) - (fat_byte c - base)) 2); [lia|].
    rewrite (index_Ret _ (fat_byte c - base) (f (fat_byte c))) by (apply Hn; lia). cbn [mbind comp_bind].
    rewrite u32_small by (mach_unfold; lia).
    replace (fat_byte c - base + 1) with (fat_byte c + 1 - base) by lia.
    rewrite (index_Ret _ _ (f (fat_byte c + 1))) by (apply Hn; lia). cbn [mbind comp_bind].
    rewrite low_high by done. rewrite shr_div by lia. change 0xfff with (Z.ones 12). rewrite Z.land_ones by lia.
    unfold fat_value. by rewrite (Z.mul_comm (c mod 2)).
  - destruct (Z.ltb_spec (lenZ (section t) - (fat_byte c - base)) 2); [|lia].
    rewrite (index_Ret _ (fat_byte c - base) (f (fat_byte c))) by (apply Hn; lia). cbn [mbind comp_bind].
    destruct (c mod 2 =? 0); [done|]. by rewrite shr_div by lia.
Qed.

(** The two halves of an entry that crosses the end of a section. *)
Lemma fat_value_even f c :
  (forall i, is_u8 (f i)) -> c mod 2 = 0 ->
  Z.lor (f (fat_byte c)) (u16 (Z.shiftl (Z.land (f (fat_byte c + 1)) 0x0f) 8)) = fat_value f c.
Proof.
  intros Hu Hc. change 0x0f with (Z.ones 4). rewrite Z.land_ones by lia. change (2 ^ 4) with 16.
  pose proof (Hu (fat_byte c)). pose proof (Hu (fat_byte c + 1)).
  rewrite low_high by mlia. unfold fat_value. rewrite Hc. change (2 ^ (4 * 0)) with 1. mlia.
Qed.

Lemma fat_value_odd f c :
  (forall i, is_u8 (f i)) -> c mod 2 = 1 ->
  Z.lor (f (fat_byte c) / 16) (u16 (Z.shiftl (f (fat_byte c + 1)) 4)) = fat_value f c.
Proof.
  intros Hu Hc. pose proof (Hu (fat_byte c)) as Hl. pose proof (Hu (fat_byte c + 1)) as Hh.
  rewrite Z.shiftl_mul_pow2 by lia. change (2 ^ 4) with 16. rewrite u16_small by mlia.
  pose proof (Z.add_lor_land (f (fat_byte c) / 16) (f (fat_byte c + 1) * 16)) as H.
  assert (Hz : Z.land (f (fat_byte c) / 16) (f (fat_byte c + 1) * 16) = 0).
  { apply Z.bits_inj'. intros i Hi. rewrite Z.land_spec, Z.bits_0. destruct (Z.lt_ge_cases i 4).
    - assert (Z.testbit (f (fat_byte c + 1) * 16) i = false) as ->; [|by rewrite andb_false_r].
      change 16 with (2 ^ 4) at 1. apply Z.mul_pow2_bits_low. lia.
    - rewrite (testbit_high (f (fat_byte c) / 16) 4); [done| |lia]. change (2 ^ 4) with 16. mlia. }
  unfold fat_value. rewrite Hc. change (2 ^ (4 * 1)) with 16. mlia.
Qed.

(** ** Packing *)

(** Two 12-bit values in three bytes. *)
Fixpoint pack (l : list (Z * Z)) : list Z :=
  match l with
  | [] => []
  | (a, b) :: l' => a mod 256 :: a / 256 + 16 * (b mod 16) :: b / 16 :: pack l'
  end.
Definition unpacked (l : list (Z * Z)) (c : Z) : option Z :=
  match nthZ l (c / 2) with Some (a, b) => Some (if c mod 2 =? 0 then a else b) | None => None end.

Lemma pack_lookup l n a b :
  l !! n = Some (a, b) ->
  pack l !! (3 * n)%nat = Some (a mod 256) /\ pack l !! (3 * n + 1)%nat = Some (a / 256 + 16 * (b mod 16)) /\
  pack l !! (3 * n + 2)%nat = Some (b / 16).
Proof.
  revert n. induction l as [|[x y] l IH]; intros n; [done|]. destruct n as [|n].
  - intros [= -> ->]. done.
  - intros Hl. replace (3 * S n)%nat with (S (S (S (3 * n)))) by lia. cbn [pack]. by apply IH.
Qed.

Lemma pack_nth l k a b :
  nthZ l k = Some (a, b) ->
  nthZ (pack l) (3 * k) = Some (a mod 256) /\ nthZ (pack l) (3 * k + 1) = Some (a / 256 + 16 * (b mod 16)) /\
  nthZ (pack l) (3 * k + 2) = Some (b / 16).
Proof.
  intros Hk. pose proof (nthZ_Some _ _ _ Hk) as [Hk0 _]. unfold nthZ in *.
  destruct (Z.leb_spec 0 k); [|lia]. apply pack_lookup in Hk.
  repeat match goal with |- context [0 <=? ?x] => destruct (Z.leb_spec 0 x); [|lia] end.
  replace (Z.to_nat (3 * k)) with (3 * Z.to_nat k)%nat by lia.
  replace (Z.to_nat (3 * k + 1)) with (3 * Z.to_nat k + 1)%nat by lia.
  replace (Z.to_nat (3 * k + 2)) with (3 * Z.to_nat k + 2)%nat by lia. done.
Qed.

(** C36: Reading back a packed table: the value of a cluster is the one that was packed, for
    every pair of 12-bit values. *)
Theorem fat_unpack_pack l c v :
  Forall (fun '(a, b) => 0 <= a < 4096 /\ 0 <= b < 4096) l -> lenZ (pack l) <= 65536 -> 0 <= c < 65536 ->
  unpacked l c = Some v ->
  FatSection.get_value (FatSection.at_slice (pack l) 0 0) c = Ret (Success (FatEntry.from_value v)).
Proof.
  intros Hl Hlen Hc Hv. unfold unpacked in Hv. destruct (nthZ l (c / 2)) as [[a b]|] eqn:E; [|done].
  destruct (pack_nth l (c / 2) a b E) as (H0 & H1 & H2). rewrite Forall_forall in Hl.
  assert (Hab : forall p, p ∈ l -> let '(a, b) := p in 0 <= a < 4096 /\ 0 <= b < 4096) by exact Hl.
  assert (Hin : (a, b) ∈ l).
  { unfold nthZ in E. destruct (0 <=? c / 2); [|done]. by eapply list_elem_of_lookup_2. }
  pose proof (Hab _ Hin) as [Ha Hb]. cbn in Ha, Hb.
  set (f := fun i => byte_at (pack l) i).
  assert (Hf : section_of f (FatSection.at_slice (pack l) 0 0) 0).
  { split; cbn [section byte_offset first_cluster FatSection.at_slice].
    - intros i Hi. destruct (nthZ_is_Some (pack l) i Hi) as [x Hx]. unfold f, byte_at. by rewrite Z.add_0_l, Hx.
    - intros i. unfold f, byte_at. destruct (nthZ (pack l) i) as [x|] eqn:Ex; [|by vm_compute].
      assert (Hall : Forall is_u8 (pack l)).
      { clear -Hab. induction l as [|[p q] l IH]; [constructor|]. cbn [pack].
        pose proof (Hab (p, q) ltac:(left)) as [Hp Hq]. cbn in Hp, Hq.
        apply Forall_cons; split; [mlia|]. apply Forall_cons; split; [mlia|]. apply Forall_cons; split; [mlia|].
        apply IH. intros r Hr. apply Hab. by right. }
      exact (nthZ_Forall _ _ i x Hall Ex).
    - done.
    - pose proof (lenZ_nonneg (pack l)). lia. }
  destruct (get_value_spec f _ 0 c Hf) as [Hg _]; [cbn; lia|].
  pose proof (nthZ_Some _ _ _ H2). rewrite Hg by (cbn [section FatSection.at_slice]; unfold fat_byte; mlia).
  do 3 f_equal. unfold fat_value, fat_byte, f, byte_at.
  destruct (Z.eqb_spec (c mod 2) 0) as [H0'|H0']; injection Hv as <-.
  - rewrite H0', Z.add_0_r, H0, H1. cbn [from_option id]. change (2 ^ (4 * 0)) with 1. mlia.
  - assert (c mod 2 = 1) as -> by mlia. rewrite H1. replace (3 * (c / 2) + 1 + 1) with (3 * (c / 2) + 2) by lia. rewrite H2.
    cbn [from_option id]. change (2 ^ (4 * 1)) with 16. mlia.
Qed.

(** * Names *)

(** Upper case letters of ASCII. *)
Definition lower (c : Z) : Z := if (64 <? c) && (c <? 91) then c + 32 else c.

Lemma name_character_spec a b :
  is_u8 a -> is_u8 b -> name_character_matches a b = (b =? 63) || (lower a =? lower b).
Proof.
  intros Ha Hb. unfold name_character_matches, lower. rewrite !Z.gtb_ltb. mach_unfold.
  destruct (Z.eqb_spec b 63), (Z.eqb_spec a b), (Z.ltb_spec 64 a), (Z.ltb_spec a 91), (Z.ltb_spec 64 b), (Z.ltb_spec b 91);
    cbn [andb orb]; try done; try lia;
    repeat match goal with |- context [?x =? ?y] => destruct (Z.eqb_spec x y) end; try done; mlia.
Qed.

Lemma all_match_spec a b :
  Forall is_u8 a -> Forall is_u8 b -> length a = length b ->
  DirectoryEntry.all_match a b = true <->
  forall i x y, nthZ a i = Some x -> nthZ b i = Some y -> y = 63 \/ lower x = lower y.
Proof.
  intros Ha Hb Hl. transitivity (Forall2 (fun x y => y = 63 \/ lower x = lower y) a b).
  - revert b Hb Hl. induction Ha as [|x a Hx Ha IH]; intros [|y b] Hb Hl; try done; cbn.
    apply Forall_cons in Hb as [Hy Hb]. rewrite andb_true_iff, name_character_spec, IH by (done || (cbn in Hl; lia)).
    rewrite orb_true_iff, !Z.eqb_eq, Forall2_cons. tauto.
  - split.
    + intros HF i x y. unfold nthZ. destruct (0 <=? i); [|done]. intros Hx Hy. exact (Forall2_lookup_lr _ _ _ _ _ _ HF Hx Hy).
    + intros Hall. apply Forall2_same_length_lookup. split; [done|]. intros i x y Hx Hy. apply (Hall (Z.of_nat i));
        unfold nthZ; destruct (Z.leb_spec 0 (Z.of_nat i)); try lia; by rewrite Nat2Z.id.
Qed.

Definition plain (s : list Z) : Prop := Forall (fun c => c <> 46 /\ c <> 47) s.

(** Filling a field from position [i] with the characters of [s]. *)
Definition filled (field : list Z) (i : Z) (s : list Z) : list Z :=
  take (Z.to_nat i) field ++ s ++ drop (Z.to_nat i + length s) field.

Lemma store_filled field i ch s :
  0 <= i -> i + 1 + lenZ s <= lenZ field -> filled (setZ field i ch) (i + 1) s = filled field i (ch :: s).
Proof.
  intros Hi Hl. unfold filled, setZ, lenZ in *. destruct (Z.leb_spec 0 i); [|lia].
  replace (Z.to_nat (i + 1)) with (S (Z.to_nat i)) by lia.
  rewrite (take_S_r _ _ ch) by (apply list_lookup_insert_eq; lia).
  rewrite take_insert_ge by lia. rewrite <- app_assoc. cbn [app length]. do 2 f_equal.
  rewrite drop_insert_lt by lia. f_equal. f_equal. lia.
Qed.

Lemma name_loop_name s rest name ex i :
  plain s -> 0 <= i -> i + lenZ s <= lenZ name -> lenZ name = 8 ->
  name_components_loop (s ++ rest) name ex i false =
  name_components_loop rest (filled name i s) ex (i + lenZ s) false.
Proof.
  intros Hp. revert name i. induction Hp as [|ch s [H1 H2] Hp IH]; intros name i Hi Hl Hn.
  { unfold filled. cbn [app length]. rewrite Nat.add_0_r, take_drop. f_equal. change (lenZ []) with 0. lia. }
  assert (Hc : lenZ (ch :: s) = 1 + lenZ s) by (unfold lenZ; cbn [length]; lia). pose proof (lenZ_nonneg s).
  cbn [app name_components_loop]. destruct (Z.eqb_spec ch 46); [done|]. destruct (Z.eqb_spec ch 47); [done|].
  destruct (Z.geb_spec i 8); [lia|]. rewrite store_Ret by lia. cbn [mbind comp_bind].
  rewrite IH by (rewrite ?lenZ_setZ; lia). rewrite store_filled by lia. f_equal. lia.
Qed.

Lemma name_loop_ext s rest name ex i :
  plain s -> 0 <= i -> i + lenZ s <= lenZ ex -> lenZ ex = 3 ->
  name_components_loop (s ++ rest) name ex i true =
  name_components_loop rest name (filled ex i s) (i + lenZ s) true.
Proof.
  intros Hp. revert ex i. induction Hp as [|ch s [H1 H2] Hp IH]; intros ex i Hi Hl Hn.
  { unfold filled. cbn [app length]. rewrite Nat.add_0_r, take_drop. f_equal. change (lenZ []) with 0. lia. }
  assert (Hc : lenZ (ch :: s) = 1 + lenZ s) by (unfold lenZ; cbn [length]; lia). pose proof (lenZ_nonneg s).
  cbn [app name_components_loop]. destruct (Z.eqb_spec ch 46); [done|]. destruct (Z.eqb_spec ch 47); [done|].
  destruct (Z.geb_spec i 3); [lia|]. rewrite store_Ret by lia. cbn [mbind comp_bind].
  rewrite IH by (rewrite ?lenZ_setZ; lia). rewrite store_filled by lia. f_equal. lia.
Qed.

(** A field of the directory: the characters padded with blanks. *)
Definition padded (n : nat) (s : list Z) : list Z := s ++ replicate (n - length s) 0x20.

Lemma filled_padded n s : (length s <= n)%nat -> filled (replicate n 0x20) 0 s = padded n s.
Proof.
  intros Hs. unfold filled, padded. change (Z.to_nat 0) with 0%nat. rewrite take_0. cbn [app Nat.add].
  by rewrite drop_replicate.
Qed.

(** A file is found by its name: the parts of "name.ext" are split at the dot and padded
    to eight and three characters, and an entry matches a search exactly when every character
    of its two fields agrees with that of the search up to the case of ASCII letters, or the
    search has a question mark there. *)
Theorem name_search e s t :
  plain s -> plain t -> lenZ s <= 8 -> lenZ t <= 3 ->
  Forall is_u8 (file_name e) -> Forall is_u8 (ext e) -> length (file_name e) = 8%nat -> length (ext e) = 3%nat ->
  Forall is_u8 s -> Forall is_u8 t ->
  file_name_components_from_string (s ++ 46 :: t) = Ret (padded 8 s, padded 3 t) /\
  (DirectoryEntry.name_matches_search e (padded 8 s) (padded 3 t) = true <->
   forall i x y, nthZ (DirectoryEntry.get_full_name e) i = Some x -> nthZ (padded 8 s ++ padded 3 t) i = Some y ->
     y = 63 \/ lower x = lower y).
Proof.
  intros Hs Ht Hls Hlt He1 He2 Hl1 Hl2 Hs8 Ht8. split.
  { unfold file_name_components_from_string. rewrite name_loop_name by (try rewrite lenZ_replicate; done || lia).
    cbn [name_components_loop]. change (46 =? 46) with true. cbv iota.
    rewrite <- (app_nil_r t) at 1. rewrite name_loop_ext by (try rewrite lenZ_replicate; done || lia).
    cbn [name_components_loop]. unfold lenZ in *. by rewrite !filled_padded by lia. }
  unfold lenZ in *.
  assert (Hpl : forall n u, (length u <= n)%nat -> length (padded n u) = n)
    by (intros n u Hu; unfold padded; rewrite length_app, length_replicate; lia).
  assert (Hpu : forall n u, Forall is_u8 u -> Forall is_u8 (padded n u)).
  { intros n u Hu. unfold padded. apply Forall_app. split; [done|]. apply Forall_replicate. mach_unfold. lia. }
  assert (Happ : forall a b c d, length a = length c ->
    DirectoryEntry.all_match (a ++ b) (c ++ d) = DirectoryEntry.all_match a c && DirectoryEntry.all_match b d).
  { induction a as [|x a IH]; intros b [|y c] d Hl; cbn in *; try done. rewrite IH by lia. by rewrite andb_assoc. }
  unfold DirectoryEntry.name_matches_search, DirectoryEntry.get_full_name.
  rewrite <- Happ by (rewrite Hpl; lia). apply all_match_spec.
  - by apply Forall_app.
  - apply Forall_app. split; by apply Hpu.
  - rewrite !length_app, !Hpl; lia.
Qed.

(** * Sectors of a chain *)

(** The sectors a loop over the iterator visits. *)
Fixpoint visited (fuel : nat) (it : ChainSectorIterator) : comp (list Z) :=
  match fuel with
  | O => OutOfFuel
  | S fuel' =>
      '(it, r) ← ChainSectorIterator.next it;
      match r with
      | None => Ret []
      | Some sector => rest ← visited fuel' it; Ret (sector :: rest)
      end
  end.

(** The sectors of one cluster from its [i]-th on. *)
Definition cluster_sectors (c : DiskConfig) (data_first i cluster : Z) : list Z :=
  seqZ (data_first + (cluster - 2) * sectors_per_cluster c + i) (sectors_per_cluster c - i).

Lemma visited_from c root data l k i fuel :
  let spc := sectors_per_cluster c in
  0 < spc -> spc < 256 -> 0 <= range_first data < 16777216 -> lenZ l < 65536 ->
  Forall (fun x => 2 <= x < 4096) l -> 0 <= k < lenZ l -> 0 <= i < spc ->
  (Z.to_nat ((lenZ l - k) * spc - i) < fuel)%nat ->
  visited fuel (mkChainIter l k i spc root data) =
  Ret (match drop (Z.to_nat k) l with
       | [] => []
       | x :: rest => cluster_sectors c (range_first data) i x ++
                      concat (cluster_sectors c (range_first data) 0 <$> rest)
       end).
Proof.
  cbv zeta. intros Hs1 Hs2 Hd Hl Hall Hk Hi Hfuel. set (spc := sectors_per_cluster c) in *.
  revert k i Hk Hi Hfuel. induction fuel as [|fuel IH]; intros k i Hk Hi Hfuel; [lia|].
  destruct (nthZ_is_Some l k Hk) as [x Hx].
  assert (Hx' : l !! Z.to_nat k = Some x) by (unfold nthZ in Hx; destruct (0 <=? k); [done|done]).
  assert (Hxr : 2 <= x < 4096) by (rewrite Forall_forall in Hall; apply Hall; by eapply list_elem_of_lookup_2).
  rewrite (drop_S l x) by done. cbn [visited]. unfold ChainSectorIterator.next.
  cbn [ci_clusters cluster_index sector_index ci_sectors_per_cluster data_sectors root_dir_sectors].
  destruct (Z.eqb_spec (lenZ l) 0); [lia|]. destruct (Z.geb_spec k (lenZ l)); [lia|].
  rewrite (index_Ret _ _ x) by done. cbn [mbind comp_bind]. destruct (Z.ltb_spec x 2); [lia|].
  assert (Hmul : 0 <= (x - 2) * spc < 16777216) by nia.
  assert (Hsec : u32 (range_first data +u ((x -u 2) *u spc) + i) = range_first data + (x - 2) * spc + i).
  { rewrite (u32_small (x - 2)), (u32_small ((x - 2) * spc)), (u32_small (range_first data + _)), u32_small by (mach_unfold; lia). done. }
  unfold SectorRange.get_first_sector. rewrite Hsec, !(u32_small (i + 1)), !(u32_small (k + 1)) by (mach_unfold; lia).
  assert (Hseq : cluster_sectors c (range_first data) i x =
    range_first data + (x - 2) * spc + i :: cluster_sectors c (range_first data) (i + 1) x).
  { unfold cluster_sectors. fold spc. rewrite seqZ_cons by lia. f_equal. f_equal; lia. }
  rewrite Hseq. destruct (Z.geb_spec (i + 1) spc) as [Hend|Hmore]; cbn [mbind comp_bind].
  - assert (Hnil : cluster_sectors c (range_first data) (i + 1) x = []).
    { unfold cluster_sectors. fold spc. apply seqZ_nil. lia. }
    rewrite Hnil. cbn [app]. destruct (Z.eq_dec (k + 1) (lenZ l)) as [Hlast|Hnext].
    + rewrite drop_ge by (unfold lenZ in *; lia). destruct fuel as [|fuel]; [nia|]. cbn [visited].
      unfold ChainSectorIterator.next. cbn [ci_clusters cluster_index]. destruct (Z.eqb_spec (lenZ l) 0); [lia|].
      by destruct (Z.geb_spec (k + 1) (lenZ l)); [|lia].
    + rewrite IH by nia. cbn [mbind comp_bind]. replace (Z.to_nat (k + 1)) with (S (Z.to_nat k)) by lia.
      by destruct (drop (S (Z.to_nat k)) l).
  - rewrite IH by nia. cbn [mbind comp_bind]. by rewrite (drop_S l x) by done.
Qed.

(** Walking the sectors of a cluster chain visits every sector of every cluster of the
    chain, in order and once, and ends; walking the root directory, which is the empty chain,
    returns its first sector forever. *)
Theorem chain_sectors_in_order c l root data :
  0 < sectors_per_cluster c < 256 -> lenZ l < 65536 -> Forall (fun x => 2 <= x < 4096) l ->
  DiskConfig.get_root_directory_sectors c = Ret root -> DiskConfig.get_data_sectors c = Ret data ->
  0 <= range_first data < 16777216 -> 0 <= range_count root ->
  exists it, ChainSectorIterator.new l c = Ret it /\
    if lenZ l =? 0 then forall fuel, visited fuel it = OutOfFuel
    else visited (S (Z.to_nat (lenZ l * sectors_per_cluster c))) it =
         Ret (concat (cluster_sectors c (range_first data) 0 <$> l)).
Proof.
  intros Hs Hl Hall Hr Hd Hf Hc. unfold ChainSectorIterator.new. rewrite Hr, Hd. cbn [mbind comp_bind].
  eexists. split; [done|]. unfold DiskConfig.get_sectors_per_cluster. destruct (Z.eqb_spec (lenZ l) 0) as [H0|H0].
  - induction fuel as [|fuel IH]; [done|]. cbn [visited]. unfold ChainSectorIterator.next at 1.
    cbn [ci_clusters sector_index root_dir_sectors]. rewrite H0. change (0 =? 0) with true. cbv iota.
    unfold SectorRange.get_sector_count. destruct (Z.gtb_spec 0 (range_count root)); [lia|]. cbn [mbind comp_bind].
    by rewrite IH.
  - pose proof (lenZ_nonneg l). rewrite visited_from by (done || nia). change (Z.to_nat 0) with 0%nat. rewrite drop_0.
    by destruct l.
Qed.

(** * Witnesses *)

Lemma fat_unpack_pack_witness :
  FatSection.get_value (FatSection.at_slice (pack [(0xff0, 0xfff); (3, 4)]) 0 0) 3 =
  Ret (Success (FatEntry.from_value 4)).
Proof.
  apply (fat_unpack_pack [(0xff0, 0xfff); (3, 4)] 3 4); [|by vm_compute|lia|reflexivity].
  repeat constructor; lia.
Defined.

Definition demo_entry : DirectoryEntry :=
  mkEntry [75; 69; 82; 78; 69; 76; 32; 32] [66; 73; 78] 0 0 0 0 0 0 0 0 0 2 100.

Lemma name_search_witness :
  file_name_components_from_string ([107; 101; 114; 110; 101; 108] ++ 46 :: [98; 63; 110]) =
    Ret (padded 8 [107; 101; 114; 110; 101; 108], padded 3 [98; 63; 110]) /\
  (DirectoryEntry.name_matches_search demo_entry (padded 8 [107; 101; 114; 110; 101; 108]) (padded 3 [98; 63; 110]) = true <->
   forall i x y, nthZ (DirectoryEntry.get_full_name demo_entry) i = Some x ->
     nthZ (padded 8 [107; 101; 114; 110; 101; 108] ++ padded 3 [98; 63; 110]) i = Some y ->
     y = 63 \/ lower x = lower y).
Proof.
  apply (name_search demo_entry [107; 101; 114; 110; 101; 108] [98; 63; 110]);
    first [by vm_compute | reflexivity | unfold plain; repeat constructor; mach_unfold; lia].
Defined.

Definition demo_config : DiskConfig := mkConfig 512 2 1 2 224 9 2880.

Lemma chain_sectors_in_order_witness :
  exists it, ChainSectorIterator.new [2; 7] demo_config = Ret it /\
    visited (S (Z.to_nat (lenZ [2; 7] * 2))) it = Ret (concat (cluster_sectors demo_config 19 0 <$> [2; 7])).
Proof.
  apply (chain_sectors_in_order demo_config [2; 7] (mkRange 19 14) (mkRange 19 2861));
    first [reflexivity | by vm_compute | cbn; lia | repeat constructor; lia].
Defined.
