(* ===== verification/Fat12Fs.v ===== *)
(** The FAT12 file system: [filesystems/fat12/fs.rs].

    The file system runs over a registry of drivers; every operation passes both states.  The
    theorems about cluster chains hold for every driver that is a [DiskDriver]. *)

From S2P Require Import Prelude Files Drivers Floppy Fat12.

Record OpenFile : Type := mkOpenFile { cursor : Z; file_type : FileType; clusters : list Z }.

Record Fat12FileSystem : Type := mkFat12 {
  handle_allocator : Z;
  open_files : gmap Z OpenFile;
  drive_number : Z;
  drive_access_handle : Z;
  config : DiskConfig;
  io_buffer : list Z
}.

(** The record a directory is listed into. *)
Inductive DirEntryType : Type := TypeEmpty | TypeDirectory | TypeFile.
Record DirEntryInfo : Type := mkInfo {
  info_name : list Z; info_ext : list Z; entry_type : DirEntryType; info_byte_size : Z
}.

Definition with_buffer (s : Fat12FileSystem) (b : list Z) : Fat12FileSystem :=
  mkFat12 (handle_allocator s) (open_files s) (drive_number s) (drive_access_handle s) (config s) b.
Definition with_config (s : Fat12FileSystem) (c : DiskConfig) : Fat12FileSystem :=
  mkFat12 (handle_allocator s) (open_files s) (drive_number s) (drive_access_handle s) c (io_buffer s).
Definition with_file (s : Fat12FileSystem) (next handle : Z) (f : OpenFile) : Fat12FileSystem :=
  mkFat12 next (<[handle := f]> (open_files s)) (drive_number s) (drive_access_handle s) (config s) (io_buffer s).

Module Fat12FileSystem.

Section fat.
Context {D : Type} `{DeviceDriver D}.
Implicit Types (s : Fat12FileSystem) (reg : DeviceDrivers D).

Definition new (number access_handle : Z) : Fat12FileSystem :=
  mkFat12 HandleAllocator.new ∅ number access_handle DiskConfig.empty (replicate 512 0).

(** A call of a method of the drive, with the driver changed in place. *)
Definition seek_drive s reg (position : Z) : comp (DeviceDrivers D * result Z unit) :=
  match DeviceDrivers.get_device reg (drive_number s) with
  | None => Ret (reg, Err tt)
  | Some driver =>
      '(driver, r) ← drv_seek driver (drive_access_handle s) (Absolute position);
      Ret (DeviceDrivers.put reg (drive_number s) driver, r)
  end.
Definition read_drive s reg (buffer : list Z) : comp (DeviceDrivers D * list Z * result Z unit) :=
  match DeviceDrivers.get_device reg (drive_number s) with
  | None => Ret (reg, buffer, Err tt)
  | Some driver =>
      '(driver, buffer, r) ← drv_read driver (drive_access_handle s) buffer;
      Ret (DeviceDrivers.put reg (drive_number s) driver, buffer, r)
  end.

Definition init s reg : comp (Fat12FileSystem * DeviceDrivers D * result unit unit) :=
  match DeviceDrivers.get_device reg (drive_number s) with
  | None => Ret (s, reg, Err tt)
  | Some driver =>
      '(driver, r) ← drv_open driver (drive_access_handle s);
      let reg := DeviceDrivers.put reg (drive_number s) driver in
      match r with
      | Err _ => Ret (s, reg, Err tt)
      | Ok _ =>
          '(reg, r) ← seek_drive s reg 0x0b;
          match r with
          | Err _ => Ret (s, reg, Err tt)
          | Ok _ =>
              '(reg, bpb, r) ← read_drive s reg (replicate (Z.to_nat BiosParamBlock.size) 0);
              match r with
              | Err _ => Ret (s, reg, Err tt)
              | Ok _ => Ret (with_config s (DiskConfig.from_bpb (BiosParamBlock.of_buffer bpb)), reg, Ok tt)
              end
          end
      end
  end.

(** [seek] and [read] of a sector into the buffer of the file system. *)
Definition fill_buffer s reg (position : Z) : comp (Fat12FileSystem * DeviceDrivers D * result unit unit) :=
  '(reg, r) ← seek_drive s reg position;
  match r with
  | Err _ => Ret (s, reg, Err tt)
  | Ok _ =>
      '(reg, b, r) ← read_drive s reg (io_buffer s);
      match r with
      | Err _ => Ret (with_buffer s b, reg, Err tt)
      | Ok _ => Ret (with_buffer s b, reg, Ok tt)
      end
  end.

Definition clusters_per_sector s : Z := ((DiskConfig.get_bytes_per_sector (config s) *u 2) / 3) +u 1.
Definition get_fat_sector_for_cluster s (cluster : Z) : Z := cluster / clusters_per_sector s.

Definition load_sector_of_fat_table s reg (table sector : Z)
  : comp (Fat12FileSystem * DeviceDrivers D * result unit unit) :=
  if sector >=? DiskConfig.get_sectors_per_fat (config s) then Ret (s, reg, Err tt)
  else match DiskConfig.get_fat_sectors (config s) table with
  | Err _ => Ret (s, reg, Err tt)
  | Ok fat_sectors =>
      let sector_index := SectorRange.get_first_sector fat_sectors +u sector in
      let position := DiskConfig.get_bytes_per_sector (config s) *u sector_index in
      fill_buffer s reg position
  end.

(** The variables of the loop besides the chain and the buffer. *)
Record chain_vars : Type := mkVars { current_fat_sector : Z; fat_sector_byte_offset : Z; first_cluster_in_fat_sector : Z }.

(** The table sector of a cluster is loaded when it is not the current one. *)
Definition load_if_needed s reg (sector : Z) (v : chain_vars)
  : comp (Fat12FileSystem * DeviceDrivers D * chain_vars) :=
  if negb (sector =? current_fat_sector v) then
    '(s, reg, _) ← load_sector_of_fat_table s reg 0 sector;
    let offset :=
      if sector >? 0 then
        let prev_trailing_bytes := (sector *u DiskConfig.get_bytes_per_sector (config s)) mod 3 in
        3 - prev_trailing_bytes
      else 0 in
    Ret (s, reg, mkVars sector offset (clusters_per_sector s *u sector))
  else Ret (s, reg, v).

(** An entry that continues in the next sector. *)
Definition load_next s reg (sector offset : Z) (v : chain_vars)
  : comp (Fat12FileSystem * DeviceDrivers D * chain_vars) :=
  '(s, reg, _) ← load_sector_of_fat_table s reg 0 (sector +u 1);
  Ret (s, reg, mkVars (current_fat_sector v +u 1) offset (first_cluster_in_fat_sector v +u clusters_per_sector s)).

(** One turn of the loop: the entry that follows [c]. *)
Definition next_entry s reg (v : chain_vars) (c : Z)
  : comp (Fat12FileSystem * DeviceDrivers D * chain_vars * FatEntry) :=
  let sector := get_fat_sector_for_cluster s c in
  '(s, reg, v) ← load_if_needed s reg sector v;
  value ← FatSection.get_value
            (FatSection.at_slice (io_buffer s) (fat_sector_byte_offset v) (first_cluster_in_fat_sector v)) c;
  match value with
  | Partial4 part =>
      '(s, reg, v) ← load_next s reg sector 1 v;
      high ← index (io_buffer s) 0;
      Ret (s, reg, v, FatEntry.from_value (part |u u16 (Z.shiftl high 4)))
  | Partial8 part =>
      '(s, reg, v) ← load_next s reg sector 2 v;
      high ← index (io_buffer s) 0;
      Ret (s, reg, v, FatEntry.from_value (part |u u16 (Z.shiftl (high &u 0x0f) 8)))
  | Success entry => Ret (s, reg, v, entry)
  | _ => Ret (s, reg, v, NextCluster c)
  end.

Fixpoint chain_loop (fuel : nat) s reg (v : chain_vars) (next : FatEntry) (chain : list Z)
  : comp (Fat12FileSystem * DeviceDrivers D * list Z) :=
  match next with
  | NextCluster c =>
      match fuel with
      | O => OutOfFuel
      | S fuel' =>
          '(s, reg, v, next) ← next_entry s reg v c;
          chain_loop fuel' s reg v next (chain ++ [c])
      end
  | _ => Ret (s, reg, chain)
  end.

Definition get_cluster_chain (fuel : nat) s reg (first_cluster : Z)
  : comp (Fat12FileSystem * DeviceDrivers D * result (list Z) unit) :=
  '(s, reg, chain) ← chain_loop fuel s reg (mkVars 0xffff 0 0) (NextCluster first_cluster) [];
  Ret (s, reg, Ok chain).

(** The loop over the sectors of a directory. *)
Fixpoint find_entry_loop (fuel : nat) s reg (it : ChainSectorIterator) (name ex : list Z)
  : comp (Fat12FileSystem * DeviceDrivers D * result DirectoryEntry unit) :=
  match fuel with
  | O => OutOfFuel
  | S fuel' =>
      '(it, r) ← ChainSectorIterator.next it;
      match r with
      | None => Ret (s, reg, Err tt)
      | Some sector =>
          let bytes_per_sector := DiskConfig.get_bytes_per_sector (config s) in
          '(s, reg, r) ← fill_buffer s reg (sector *u bytes_per_sector);
          match r with
          | Err _ => Ret (s, reg, Err tt)
          | Ok _ =>
              let entries_per_sector := bytes_per_sector / DIRECTORY_ENTRY_SIZE in
              let entries := directory_entries (io_buffer s) 0 (Z.to_nat entries_per_sector) in
              match List.find (fun e => DirectoryEntry.name_matches_search e name ex) entries with
              | Some e => Ret (s, reg, Ok e)
              | None =>
                  if lenZ entries <? entries_per_sector then Ret (s, reg, Err tt)
                  else find_entry_loop fuel' s reg it name ex
              end
          end
      end
  end.

Definition find_entry_in_directory (fuel : nat) s reg (name ex search_dir : list Z)
  : comp (Fat12FileSystem * DeviceDrivers D * result DirectoryEntry unit) :=
  match DeviceDrivers.get_device reg (drive_number s) with
  | None => Ret (s, reg, Err tt)
  | Some _ =>
      it ← ChainSectorIterator.new search_dir (config s);
      find_entry_loop fuel s reg it name ex
  end.

(** The last component of the path; directories on the way are not looked up. *)
Fixpoint last_part (path part : list Z) : list Z :=
  match path with
  | [] => part
  | ch :: path' => if ch =? 92 then last_part path' [] else last_part path' (part ++ [ch])
  end.

Definition open (fuel : nat) s reg (path : list Z) : comp (Fat12FileSystem * DeviceDrivers D * result Z unit) :=
  '(name, ex) ← file_name_components_from_string (last_part path []);
  '(s, reg, r) ← find_entry_in_directory fuel s reg name ex [];
  match r with
  | Err _ => Ret (s, reg, Err tt)
  | Ok entry =>
      '(s, reg, r) ← get_cluster_chain fuel s reg (DirectoryEntry.get_first_cluster entry);
      match r with
      | Err _ => Ret (s, reg, Err tt)
      | Ok cluster_chain =>
          let '(next, handle) := HandleAllocator.get_next (handle_allocator s) in
          Ret (with_file s next handle (mkOpenFile 0 File cluster_chain), reg, Ok handle)
      end
  end.

Definition read s (handle : Z) (buffer : list Z) : result Z unit := Err tt.
Definition write s (handle : Z) (buffer : list Z) : result Z unit := Err tt.
Definition close s (handle : Z) : result unit unit := Err tt.
Definition dup s (handle : Z) : result Z unit := Err tt.
Definition seek s (handle : Z) (offset : SeekMethod) : result Z unit := Err tt.

Definition open_dir s (path : list Z) : Fat12FileSystem * result Z unit :=
  let '(next, handle) := HandleAllocator.get_next (handle_allocator s) in
  (with_file s next handle (mkOpenFile 0 Dir []), Ok handle).

(** [n] calls of the iterator whose results are dropped. *)
Fixpoint skip_sectors (n : nat) (it : ChainSectorIterator) : comp ChainSectorIterator :=
  match n with O => Ret it | S n' => '(it, _) ← ChainSectorIterator.next it; skip_sectors n' it end.

Definition read_dir s reg (handle i : Z) (info : DirEntryInfo)
  : comp (Fat12FileSystem * DeviceDrivers D * DirEntryInfo * result unit unit) :=
  match open_files s !! handle with
  | None => Ret (s, reg, info, Err tt)
  | Some file =>
      '(dir_sector, local_index) ← DiskConfig.get_directory_index_location (config s) i;
      it ← ChainSectorIterator.new (clusters file) (config s);
      it ← skip_sectors (Z.to_nat dir_sector) it;
      '(_, r) ← ChainSectorIterator.next it;
      match r with
      | None => Ret (s, reg, info, Err tt)
      | Some sector =>
          let position := (sector *u DiskConfig.get_bytes_per_sector (config s)) +u (local_index *u DIRECTORY_ENTRY_SIZE) in
          '(reg, r) ← seek_drive s reg position;
          match r with
          | Err _ => Ret (s, reg, info, Err tt)
          | Ok _ =>
              '(reg, subset, r) ← read_drive s reg (take 32 (io_buffer s));
              let s := with_buffer s (subset ++ drop 32 (io_buffer s)) in
              match r with
              | Err _ => Ret (s, reg, info, Err tt)
              | Ok _ =>
                  let entry := DirectoryEntry.at_bytes (io_buffer s) in
                  if DirectoryEntry.is_empty entry then
                    Ret (s, reg, mkInfo (replicate 8 0x20) (replicate 3 0x20) TypeEmpty 0, Ok tt)
                  else
                    Ret (s, reg, mkInfo (file_name entry) (ext entry) TypeFile (DirectoryEntry.get_byte_size entry), Ok tt)
              end
          end
      end
  end.

End fat.

End Fat12FileSystem.

(** * Cluster chains *)

Section chains.
Context {D : Type} `{DiskDriver D}.

(** A mounted 512-byte-sector disk with the contents [f] and at least three sectors per table. *)
Record mounted (s : Fat12FileSystem) (reg : DeviceDrivers D) (f : Z -> Z) : Prop := {
  mt_driver : exists d, DeviceDrivers.get_device reg (drive_number s) = Some d /\ on_disk d (drive_access_handle s) f;
  mt_bytes : forall i, is_u8 (f i);
  mt_sector : bytes_per_sector (config s) = 512;
  mt_fat : 0 < fat_count (config s) /\ 3 <= sectors_per_fat (config s);
  mt_reserved : 0 <= reserved_sectors (config s) < 2800;
  mt_buffer : lenZ (io_buffer s) = 512
}.

(** The bytes of the first table. *)
Definition fat_bytes (s : Fat12FileSystem) (f : Z -> Z) (i : Z) : Z := f (512 * reserved_sectors (config s) + i).
Definition fat_sector (s : Fat12FileSystem) (f : Z -> Z) (k : Z) : list Z := fat_bytes s f <$> seqZ (512 * k) 512.

Lemma get_device_put_same (reg : DeviceDrivers D) n d d' :
  DeviceDrivers.get_device reg n = Some d -> DeviceDrivers.get_device (DeviceDrivers.put reg n d') n = Some d'.
Proof.
  unfold DeviceDrivers.get_device, DeviceDrivers.put. cbn. destruct (n >? 0); [|done]. intros Hn.
  by rewrite nthZ_setZ_in, Z.eqb_refl by (by eapply nthZ_Some).
Qed.

Lemma load_sector_spec s reg f k :
  mounted s reg f -> 0 <= k < 3 ->
  exists reg', Fat12FileSystem.load_sector_of_fat_table s reg 0 k = Ret (with_buffer s (fat_sector s f k), reg', Ok tt) /\
    mounted (with_buffer s (fat_sector s f k)) reg' f.
Proof.
  intros [(d & Hd & Ho) Hu Hb [Hf1 Hf2] Hr Hl] Hk. unfold Fat12FileSystem.load_sector_of_fat_table.
  unfold DiskConfig.get_sectors_per_fat, DiskConfig.get_fat_sectors, DiskConfig.get_bytes_per_sector. rewrite Hb.
  destruct (Z.geb_spec k (sectors_per_fat (config s))); [lia|]. destruct (Z.geb_spec 0 (fat_count (config s))); [lia|].
  unfold SectorRange.get_first_sector, SectorRange.new. cbn [range_first]. rewrite Z.mul_0_l. change (u32 0) with 0.
  rewrite Z.add_0_r, !(u32_small (reserved_sectors (config s))) by (mach_unfold; lia).
  rewrite !(u32_small (reserved_sectors (config s) + k)), u32_small by (mach_unfold; lia).
  destruct (disk_read d (drive_access_handle s) f (512 * (reserved_sectors (config s) + k)) (io_buffer s) Ho) as (d1 & d2 & E1 & E2 & Ho2).
  { unfold in_sector. rewrite Hl, Z.mul_comm, Z.mod_mul by lia. lia. }
  unfold Fat12FileSystem.fill_buffer, Fat12FileSystem.seek_drive, Fat12FileSystem.read_drive. rewrite Hd, E1. cbn [mbind comp_bind].
  rewrite (get_device_put_same reg _ d d1) by done. rewrite E2. cbn [mbind comp_bind]. rewrite Hl.
  assert (Heq : f <$> seqZ (512 * (reserved_sectors (config s) + k)) 512 = fat_sector s f k).
  { unfold fat_sector, fat_bytes. apply list_eq_nthZ; [by rewrite !lenZ_fmap_seqZ by lia|].
    rewrite lenZ_fmap_seqZ by lia. intros i Hi. rewrite !nthZ_fmap_seqZ by lia. do 2 f_equal. lia. }
  rewrite Heq. eexists. split; [done|]. split; cbn [with_buffer drive_number drive_access_handle config io_buffer]; try done.
  - exists d2. split; [|done]. eapply get_device_put_same, get_device_put_same, Hd.
Qed.

(** The loop variables describe the table sector in the buffer. *)
Definition vars_for (k : Z) : Fat12FileSystem.chain_vars := Fat12FileSystem.mkVars k k (342 * k).
Definition vars_ok (s : Fat12FileSystem) (f : Z -> Z) (v : Fat12FileSystem.chain_vars) : Prop :=
  Fat12FileSystem.current_fat_sector v = 0xffff \/
  exists k, 0 <= k < 3 /\ v = vars_for k /\ io_buffer s = fat_sector s f k.

Lemma cps_342 s reg f : mounted s reg f -> Fat12FileSystem.clusters_per_sector s = 342.
Proof. intros Hm. unfold Fat12FileSystem.clusters_per_sector, DiskConfig.get_bytes_per_sector. by rewrite (mt_sector s reg f Hm). Qed.

Lemma load_if_needed_spec s reg f k v :
  mounted s reg f -> vars_ok s f v -> 0 <= k < 3 ->
  exists reg', Fat12FileSystem.load_if_needed s reg k v = Ret (with_buffer s (fat_sector s f k), reg', vars_for k) /\
    mounted (with_buffer s (fat_sector s f k)) reg' f.
Proof.
  intros Hm Hv Hk. unfold Fat12FileSystem.load_if_needed.
  destruct (Z.eqb_spec k (Fat12FileSystem.current_fat_sector v)) as [Heq|Hne]; cbn [negb].
  - destruct Hv as [Hv|(j & Hj & -> & Hb)]; [lia|]. cbn in Heq. subst j. exists reg. rewrite <- Hb.
    destruct s; cbn in *. split; [done|]. exact Hm.
  - destruct (load_sector_spec s reg f k Hm Hk) as (reg' & -> & Hm'). cbn [mbind comp_bind]. exists reg'. split; [|done].
    rewrite (cps_342 _ _ _ Hm'). unfold DiskConfig.get_bytes_per_sector. rewrite (mt_sector _ _ _ Hm').
    unfold vars_for. assert (k = 0 \/ k = 1 \/ k = 2) as [-> | [-> | ->]] by lia; reflexivity.
Qed.

Lemma load_next_spec s reg f k :
  mounted s reg f -> 0 <= k < 2 ->
  exists reg', Fat12FileSystem.load_next s reg k (k + 1) (vars_for k) =
      Ret (with_buffer s (fat_sector s f (k + 1)), reg', vars_for (k + 1)) /\
    mounted (with_buffer s (fat_sector s f (k + 1))) reg' f.
Proof.
  intros Hm Hk. unfold Fat12FileSystem.load_next. rewrite (u32_small (k + 1)) by (mach_unfold; lia).
  destruct (load_sector_spec s reg f (k + 1) Hm ltac:(lia)) as (reg' & -> & Hm'). cbn [mbind comp_bind]. exists reg'. split; [|done].
  rewrite (cps_342 _ _ _ Hm'). unfold vars_for. cbn. rewrite !u32_small by (mach_unfold; lia). do 3 f_equal. lia.
Qed.

Lemma sector_section s reg f k :
  mounted s reg f -> 0 <= k < 3 ->
  section_of (fat_bytes s f) (FatSection.at_slice (fat_sector s f k) k (342 * k)) (512 * k).
Proof.
  intros Hm Hk. assert (Hl : lenZ (fat_sector s f k) = 512) by (unfold fat_sector; by rewrite lenZ_fmap_seqZ by lia).
  split; cbn [section byte_offset first_cluster FatSection.at_slice].
  - rewrite Hl. intros i Hi. unfold fat_sector. by rewrite nthZ_fmap_seqZ by lia.
  - intros i. apply (mt_bytes s reg f Hm).
  - unfold fat_byte. mlia.
  - lia.
Qed.

(** One turn of the loop finds the entry, also across the end of a table sector. *)
Lemma next_entry_spec s reg f v c :
  mounted s reg f -> vars_ok s f v -> 0 <= c < 683 ->
  exists b reg' v', Fat12FileSystem.next_entry s reg v c =
      Ret (with_buffer s b, reg', v', FatEntry.from_value (fat_value (fat_bytes s f) c)) /\
    mounted (with_buffer s b) reg' f /\ vars_ok (with_buffer s b) f v'.
Proof.
  intros Hm Hv Hc. unfold Fat12FileSystem.next_entry, Fat12FileSystem.get_fat_sector_for_cluster. rewrite (cps_342 _ _ _ Hm).
  set (k := c / 342). assert (Hk : 0 <= k < 2) by (unfold k; mlia).
  destruct (load_if_needed_spec s reg f k v Hm Hv ltac:(lia)) as (reg1 & -> & Hm1). cbn [mbind comp_bind].
  change (io_buffer (with_buffer s (fat_sector s f k))) with (fat_sector s f k).
  change (Fat12FileSystem.fat_sector_byte_offset (vars_for k)) with k.
  change (Fat12FileSystem.first_cluster_in_fat_sector (vars_for k)) with (342 * k).
  destruct (get_value_spec _ _ _ c (sector_section s reg f k Hm ltac:(lia))) as [Hin Hpart]; [cbn; unfold k; mlia|].
  assert (Hl : lenZ (section (FatSection.at_slice (fat_sector s f k) k (342 * k))) = 512)
    by (cbn; unfold fat_sector; by rewrite lenZ_fmap_seqZ by lia).
  rewrite Hl in *.
  destruct (Z.eq_dec (fat_byte c - 512 * k + 1) 512) as [Hend|Hmid].
  - rewrite Hpart by lia. cbn [mbind comp_bind].
    assert (Hcase : (c = 341 /\ k = 0) \/ (c = 682 /\ k = 1)) by (unfold fat_byte, k in *; mlia).
    destruct (load_next_spec _ reg1 f k Hm1 Hk) as (reg2 & Hload & Hm2).
    change (fat_sector (with_buffer s (fat_sector s f k)) f (k + 1)) with (fat_sector s f (k + 1)) in Hload, Hm2.
    change (with_buffer (with_buffer s (fat_sector s f k)) (fat_sector s f (k + 1)))
      with (with_buffer s (fat_sector s f (k + 1))) in Hload, Hm2.
    assert (Hz : index (fat_sector s f (k + 1)) 0 = Ret (fat_bytes s f (fat_byte c + 1))).
    { apply index_Ret. unfold fat_sector. rewrite nthZ_fmap_seqZ by lia. do 2 f_equal. lia. }
    destruct Hcase as [[-> Hk0]|[-> Hk1]].
    + rewrite Hk0 in *. change (341 mod 2 =? 0) with false. cbv iota. change (0 + 1) with 1 in *. rewrite Hload. cbn [mbind comp_bind].
      change (io_buffer (with_buffer s (fat_sector s f 1))) with (fat_sector s f 1). rewrite Hz. cbn [mbind comp_bind]. eexists _, reg2, _.
      rewrite fat_value_odd by (done || (intros i; apply (mt_bytes s reg f Hm))). split; [done|]. split; [done|].
      right. exists 1. split; [lia|]. done.
    + rewrite Hk1 in *. change (682 mod 2 =? 0) with true. cbv iota. change (1 + 1) with 2 in *. rewrite Hload. cbn [mbind comp_bind].
      change (io_buffer (with_buffer s (fat_sector s f 2))) with (fat_sector s f 2). rewrite Hz. cbn [mbind comp_bind]. eexists _, reg2, _.
      rewrite fat_value_even by (done || (intros i; apply (mt_bytes s reg f Hm))). split; [done|]. split; [done|].
      right. exists 2. split; [lia|]. done.
  - rewrite Hin by (unfold fat_byte, k in *; mlia). cbn [mbind comp_bind]. eexists _, reg1, _. split; [done|].
    split; [done|]. right. exists k. split; [lia|]. done.
Qed.

(** [l] is the chain that starts at [c], inside the first two table sectors. *)
Fixpoint follows (g : Z -> Z) (c : Z) (l : list Z) : Prop :=
  match l with
  | [] => False
  | x :: rest =>
      x = c /\ 0 <= c < 683 /\
      match FatEntry.from_value (fat_value g c) with
      | NextCluster c' => follows g c' rest
      | _ => rest = []
      end
  end.

Lemma chain_loop_spec s reg f v c l acc :
  mounted s reg f -> vars_ok s f v -> follows (fat_bytes s f) c l ->
  exists b reg', Fat12FileSystem.chain_loop (length l) s reg v (NextCluster c) acc =
      Ret (with_buffer s b, reg', acc ++ l) /\ mounted (with_buffer s b) reg' f.
Proof.
  revert s reg v c acc. induction l as [|x l IH]; intros s reg v c acc Hm Hv Hf; [done|].
  destruct Hf as (-> & Hc & Hf). cbn [length Fat12FileSystem.chain_loop].
  destruct (next_entry_spec s reg f v c Hm Hv Hc) as (b & reg1 & v1 & -> & Hm1 & Hv1). cbn [mbind comp_bind].
  set (e := FatEntry.from_value _) in *. destruct e as [c'| | | | |] eqn:He;
    [|subst l; exists b, reg1; destruct (length _); done..].
  destruct (IH (with_buffer s b) reg1 v1 c' (acc ++ [c]) Hm1 Hv1 Hf) as (b2 & reg2 & H2 & Hm2).
  exists b2, reg2. rewrite H2, <- app_assoc. done.
Qed.

(** C15: On a mounted disk the chain of a file is read correctly from the table: for every
    chain of clusters below 683, also where a 12-bit entry lies across two sectors of the
    table, the result is exactly that chain. *)
Theorem cluster_chain_followed s reg f c l :
  mounted s reg f -> follows (fat_bytes s f) c l ->
  exists b reg', Fat12FileSystem.get_cluster_chain (length l) s reg c = Ret (with_buffer s b, reg', Ok l) /\
    mounted (with_buffer s b) reg' f.
Proof.
  intros Hm Hf. unfold Fat12FileSystem.get_cluster_chain.
  destruct (chain_loop_spec s reg f (Fat12FileSystem.mkVars 0xffff 0 0) c l [] Hm ltac:(by left) Hf) as (b & reg' & -> & Hm').
  cbn [mbind comp_bind app]. eauto.
Qed.

Lemma broken_get_value s f k c :
  (k = 1 /\ c = 683) \/ (k = 2 /\ c = 1024) ->
  FatSection.get_value (FatSection.at_slice (fat_sector s f k) k (342 * k)) c =
  if k =? 1 then Panic else Ret OutOfBoundsAfter.
Proof.
  intros Hkc. assert (Hlen : lenZ (fat_sector s f k) = 512) by (unfold fat_sector; by rewrite lenZ_fmap_seqZ by lia).
  unfold FatSection.get_value, FatSection.at_slice. cbn [section byte_offset first_cluster]. rewrite Hlen.
  destruct Hkc as [[-> ->]|[-> ->]]; [|done]. unfold index.
  rewrite (proj2 (nthZ_None _ _)) by (rewrite Hlen; intros [_ Hlt]; vm_compute in Hlt; discriminate). done.
Qed.

(** The turn of the loop at the two clusters. *)
Lemma next_entry_breaks s reg f v c :
  mounted s reg f -> vars_ok s f v -> c = 683 \/ c = 1024 ->
  if c =? 683 then Fat12FileSystem.next_entry s reg v c = Panic
  else exists s2 reg2 v2, Fat12FileSystem.next_entry s reg v c = Ret (s2, reg2, v2, NextCluster c) /\
    mounted s2 reg2 f /\ vars_ok s2 f v2.
Proof.
  intros Hm Hv Hc. unfold Fat12FileSystem.next_entry, Fat12FileSystem.get_fat_sector_for_cluster.
  rewrite (cps_342 _ _ _ Hm). assert (Hload : forall k, 0 <= k < 3 -> _) by (intros k Hk; exact (load_if_needed_spec s reg f k v Hm Hv Hk)).
  destruct Hc as [-> | ->].
  - destruct (Hload 1 ltac:(lia)) as (reg2 & Hl & _). change (683 / 342) with 1. rewrite Hl. cbn [mbind comp_bind].
    change (683 =? 683) with true. cbv iota.
    change (io_buffer (with_buffer s (fat_sector s f 1))) with (fat_sector s f 1).
    change (Fat12FileSystem.fat_sector_byte_offset (vars_for 1)) with 1.
    change (Fat12FileSystem.first_cluster_in_fat_sector (vars_for 1)) with (342 * 1).
    rewrite broken_get_value by (by left). done.
  - destruct (Hload 2 ltac:(lia)) as (reg2 & Hl & Hm2). change (1024 / 342) with 2. rewrite Hl. cbn [mbind comp_bind].
    change (1024 =? 683) with false. cbv iota.
    change (io_buffer (with_buffer s (fat_sector s f 2))) with (fat_sector s f 2).
    change (Fat12FileSystem.fat_sector_byte_offset (vars_for 2)) with 2.
    change (Fat12FileSystem.first_cluster_in_fat_sector (vars_for 2)) with (342 * 2).
    rewrite broken_get_value by (by right). change (2 =? 1) with false. cbn [mbind comp_bind].
    eexists _, _, _. split; [done|]. split; [done|]. right. exists 2. split; [lia|]. done.
Qed.

(** Behind the second table sector the arithmetic of the loop does not fit the table:
    following the chain at cluster 683 indexes past the buffer and panics, and at cluster 1024
    the loop never ends and the chain grows without bound, whatever the table holds. *)
Theorem cluster_chain_breaks s reg f fuel :
  mounted s reg f ->
  Fat12FileSystem.get_cluster_chain (S fuel) s reg 683 = Panic /\
  Fat12FileSystem.get_cluster_chain fuel s reg 1024 = OutOfFuel.
Proof.
  intros Hm. unfold Fat12FileSystem.get_cluster_chain. split.
  - cbn [Fat12FileSystem.chain_loop].
    pose proof (next_entry_breaks s reg f (Fat12FileSystem.mkVars 0xffff 0 0) 683 Hm ltac:(by left) ltac:(by left)) as Hp.
    change (683 =? 683) with true in Hp. cbv iota in Hp. by rewrite Hp.
  - enough (Hloop : forall s1 reg1 v acc, mounted s1 reg1 f -> vars_ok s1 f v ->
      Fat12FileSystem.chain_loop fuel s1 reg1 v (NextCluster 1024) acc = OutOfFuel)
      by (rewrite Hloop; [done|done|by left]).
    induction fuel as [|fuel IH]; intros s1 reg1 v acc Hm1 Hv1; [done|]. cbn [Fat12FileSystem.chain_loop].
    pose proof (next_entry_breaks s1 reg1 f v 1024 Hm1 Hv1 ltac:(by right)) as Hp.
    change (1024 =? 683) with false in Hp. cbv iota in Hp.
    destruct Hp as (s2 & reg2 & v2 & -> & Hm2 & Hv2). cbn [mbind comp_bind]. by apply IH.
Qed.

End chains.

(** * Witnesses *)

(** A disk with one reserved sector whose table holds a chain across its sectors. *)
Definition demo_fat (c : Z) : Z :=
  if c =? 2 then 341 else if c =? 341 then 342 else if c =? 342 then 682 else if c =? 682 then 0xfff else 0.
Definition demo_disk (pos : Z) : Z :=
  let i := pos - 512 in
  let c := 2 * (i / 3) in
  if i mod 3 =? 0 then demo_fat c mod 256
  else if i mod 3 =? 1 then demo_fat c / 256 + 16 * (demo_fat (c + 1) mod 16)
  else demo_fat (c + 1) / 16.
Definition demo_mounted_fs : Fat12FileSystem :=
  mkFat12 1 ∅ 1 9 (mkConfig 512 1 1 2 224 9 2880) (replicate 512 0).
Definition demo_drives : DeviceDrivers (FloppyDevice (gmap Z Z)) := mkDrivers [mkFloppy 0 {[ 9 := 0 ]} ∅] [].

#[local] Instance demo_driver : DeviceDriver (FloppyDevice (gmap Z Z)) := floppy_driver (demo_load demo_disk) id.
#[local] Instance demo_disk_driver : DiskDriver (FloppyDevice (gmap Z Z)) :=
  floppy_disk_driver (demo_load demo_disk) id (demo_ready demo_disk) (demo_load_sector demo_disk).

Lemma demo_disk_u8 i : is_u8 (demo_disk i).
Proof.
  assert (Hf : forall c, 0 <= demo_fat c < 4096) by (intros c; unfold demo_fat; repeat case_match; lia).
  unfold demo_disk. cbv zeta. pose proof (Hf (2 * ((i - 512) / 3))). pose proof (Hf (2 * ((i - 512) / 3) + 1)).
  repeat case_match; mlia.
Qed.

Lemma demo_is_mounted : mounted demo_mounted_fs demo_drives demo_disk.
Proof.
  split.
  - eexists. split; [reflexivity|]. split; [by exists 0|]. split; [done|apply demo_disk_u8].
  - apply demo_disk_u8.
  - done.
  - cbn. lia.
  - cbn. lia.
  - reflexivity.
Qed.

Lemma cluster_chain_followed_witness :
  exists b reg', Fat12FileSystem.get_cluster_chain 4 demo_mounted_fs demo_drives 2 =
      Ret (with_buffer demo_mounted_fs b, reg', Ok [2; 341; 342; 682]) /\
    mounted (with_buffer demo_mounted_fs b) reg' demo_disk.
Proof.
  apply (cluster_chain_followed demo_mounted_fs demo_drives demo_disk 2 [2; 341; 342; 682] demo_is_mounted).
  vm_compute. repeat split; discriminate.
Defined.

Lemma cluster_chain_breaks_witness :
  Fat12FileSystem.get_cluster_chain 1 demo_mounted_fs demo_drives 683 = Panic /\
  Fat12FileSystem.get_cluster_chain 0 demo_mounted_fs demo_drives 1024 = OutOfFuel.
Proof. apply (cluster_chain_breaks demo_mounted_fs demo_drives demo_disk 0 demo_is_mounted). Defined.
