(* ===== verification/Mount.v ===== *)
(** Mounting a FAT12 disk: [filesystems/fat12/mod.rs].

    The device file system opens the device and tells its number; the file system then opens the
    driver a second time under the same handle and reads the parameters of the disk. *)

From S2P Require Import Prelude Files Drivers DevFs Floppy Fat12 Fat12Fs.

Section mount.
Context {D : Type} `{DeviceDriver D}.

(** [unwrap] of a failed open panics. *)
Definition create_fs (dev_fs : DevFileSystem) (reg : DeviceDrivers D) (device : list Z)
  : comp (DevFileSystem * DeviceDrivers D * result Fat12FileSystem unit) :=
  '(dev_fs, reg, r) ← DevFileSystem.open dev_fs reg device;
  match r with
  | Err _ => Panic
  | Ok access_handle =>
      match DevFileSystem.ioctl dev_fs access_handle 0 0 with
      | Err _ => Ret (dev_fs, reg, Err tt)
      | Ok device_no =>
          let fat_fs := Fat12FileSystem.new device_no access_handle in
          '(fat_fs, reg, r) ← Fat12FileSystem.init fat_fs reg;
          match r with Err _ => Ret (dev_fs, reg, Err tt) | Ok _ => Ret (dev_fs, reg, Ok fat_fs) end
      end
  end.
End mount.

Section disk.
Context {D : Type} `{DiskDriver D} (f : Z -> Z).

(** A drive that holds the disk [f] and can be opened under any handle. *)
Context (drive : D -> Prop).
Context (drive_open : forall d h, drive d -> exists d', drv_open d h = Ret (d', Ok tt) /\ drive d' /\ on_disk d' h f).

(** The parameters on the disk. *)
Definition disk_bpb : BiosParamBlock := BiosParamBlock.of_buffer (f <$> seqZ 0x0b BiosParamBlock.size).

Theorem create_fs_mounts dev_fs reg device number driver :
  DevFileSystem.handles_ok dev_fs -> is_u32 number ->
  DeviceDrivers.get_device_number_by_name reg (name_array (local_path device)) = Some number ->
  DeviceDrivers.get_device reg number = Some driver -> drive driver -> (forall i, is_u8 (f i)) ->
  bpb_bytes_per_sector disk_bpb = 512 -> 0 < bpb_fat_count disk_bpb -> 3 <= bpb_sectors_per_fat disk_bpb -> 0 <= bpb_reserved_sectors disk_bpb < 2800 ->
  exists dev_fs' reg' fs, create_fs dev_fs reg device = Ret (dev_fs', reg', Ok fs) /\
    mounted fs reg' f /\ config fs = DiskConfig.from_bpb disk_bpb /\ drive_number fs = number /\ drive_access_handle fs = DevFs.handle_allocator dev_fs.
Proof.
  intros Hh Hn Hname Hdev Hdrive Hu B1 B2 B3 B4. destruct (drive_open driver (DevFs.handle_allocator dev_fs) Hdrive) as (d1 & E1 & Hd1 & _).
  destruct (DevFileSystem.open_reaches_driver dev_fs reg device number driver d1 [] Hh Hname Hdev E1) as (dev_fs' & reg1 & Eo & _ & _ & Hg & Hr & _).
  unfold create_fs. rewrite Eo. cbn [mbind comp_bind]. unfold DevFileSystem.ioctl. rewrite Z.eqb_refl, Hg, Z.eqb_refl, u32_small by done.
  unfold Fat12FileSystem.init. cbn [drive_number drive_access_handle Fat12FileSystem.new]. set (h := DevFs.handle_allocator dev_fs) in *.
  assert (H1 : DeviceDrivers.get_device reg1 number = Some d1) by (by rewrite Hr, Z.eqb_refl).
  destruct (drive_open d1 h Hd1) as (d2 & E2 & _ & Ho). rewrite H1, E2. cbn [mbind comp_bind].
  pose proof (get_device_put_same reg1 number d1 d2 H1) as H2. set (reg2 := DeviceDrivers.put reg1 number d2) in *.
  destruct (disk_read d2 h f 0x0b (replicate (Z.to_nat BiosParamBlock.size) 0) Ho) as (d3 & d4 & E3 & E4 & Ho4); [by vm_compute|].
  unfold Fat12FileSystem.seek_drive, Fat12FileSystem.read_drive. cbn [drive_number drive_access_handle Fat12FileSystem.new]. rewrite H2, E3. cbn [mbind comp_bind].
  pose proof (get_device_put_same reg2 number d2 d3 H2) as H3. rewrite H3, E4. cbn [mbind comp_bind]. pose proof (get_device_put_same _ number d3 d4 H3) as H4.
  eexists _, _, _. split; [reflexivity|]. split; [|done]. split; [by eexists|done|exact B1|done|exact B4|reflexivity].
Qed.
End disk.

(** * The floppy drive *)

(** A drive with nothing open yet, registered as [FD0]. *)
Definition mount_disk (i : Z) : Z := if (11 <=? i) && (i <? 24) then default 0 (nthZ [0; 2; 1; 1; 0; 2; 224; 0; 0x40; 0x0b; 0xf0; 9; 0] (i - 11)) else demo_disk i.
Definition FD0 : list Z := [70; 68; 48].
Definition mount_drives : DeviceDrivers (FloppyDevice (gmap Z Z)) := mkDrivers [mkFloppy 0 ∅ ∅] [(name_array FD0, 1)].

#[local] Instance mount_driver : DeviceDriver (FloppyDevice (gmap Z Z)) := floppy_driver (demo_load mount_disk) id.
#[local] Instance mount_disk_driver : DiskDriver (FloppyDevice (gmap Z Z)) :=
  floppy_disk_driver (demo_load mount_disk) id (demo_ready mount_disk) (demo_load_sector mount_disk).

Lemma mount_disk_u8 i : is_u8 (mount_disk i).
Proof.
  unfold mount_disk. destruct ((11 <=? i) && (i <? 24)); [|apply demo_disk_u8]. destruct (nthZ _ _) as [x|] eqn:E; [|by vm_compute].
  cbn. refine (nthZ_Forall _ _ _ _ _ E). repeat (apply Forall_cons; split; [by vm_compute|]). apply Forall_nil_2.
Qed.

Lemma create_fs_mounts_witness :
  exists dev_fs' reg' fs, create_fs DevFileSystem.new mount_drives FD0 = Ret (dev_fs', reg', Ok fs) /\
    mounted fs reg' mount_disk /\ config fs = mkConfig 512 1 1 2 224 9 2880 /\ drive_number fs = 1 /\ drive_access_handle fs = DevFs.handle_allocator DevFileSystem.new.
Proof.
  assert (E : mkConfig 512 1 1 2 224 9 2880 = DiskConfig.from_bpb (disk_bpb mount_disk)) by (vm_compute; reflexivity). rewrite E.
  refine (create_fs_mounts mount_disk (fun d => demo_ready mount_disk (hardware d) mount_disk) _ DevFileSystem.new mount_drives FD0 1 (mkFloppy 0 ∅ ∅) _ _ _ _ _ mount_disk_u8 _ _ _ _).
  - intros d h Hd. eexists. split; [reflexivity|]. split; [exact Hd|]. split; [exists 0; apply lookup_insert_eq|exact Hd].
  - by vm_compute.
  - by vm_compute.
  - reflexivity.
  - reflexivity.
  - split; [done|apply mount_disk_u8].
  - reflexivity.
  - by vm_compute.
  - by vm_compute.
  - by vm_compute.
Defined.
