(* ===== verification/Process.v ===== *)
(** Processes: [process/process_state.rs], [process/signals.rs], [process/id.rs],
    [process/map.rs], [process/subsystem.rs], [process/files.rs], [process/exec.rs] and
    [process/mod.rs].

    A process is a record, the process map an ordered association list as a [BTreeMap] is
    iterated.  Spin locks are modelled where a thread can wait for itself: the run state of a
    process that is being terminated stays locked while its parent is informed. *)

From Stdlib Require Import Sorted.
From S2P Require Import Prelude Memory Address FrameBitmap Physical ListAllocator Region PageTable ProcMemory Time Blocking Files.

(** * Ordered maps *)

Module BTree.

Section btree.
Context {A : Type}.

Fixpoint get (l : list (Z * A)) (k : Z) : option A :=
  match l with
  | [] => None
  | (j, a) :: l' => if k =? j then Some a else get l' k
  end.

Fixpoint insert (l : list (Z * A)) (k : Z) (a : A) : list (Z * A) :=
  match l with
  | [] => [(k, a)]
  | (j, b) :: l' =>
      if k =? j then (k, a) :: l'
      else if k <? j then (k, a) :: l
      else (j, b) :: insert l' k a
  end.

Definition keys (l : list (Z * A)) : list Z := l.*1.

(** Keys ascend from above [lo]. *)
Fixpoint sorted_above (lo : Z) (l : list (Z * A)) : Prop :=
  match l with
  | [] => True
  | (j, _) :: l' => lo < j /\ sorted_above j l'
  end.
Definition sorted (l : list (Z * A)) : Prop := sorted_above (-1) l.

Lemma sorted_above_weaken lo lo' l : lo' <= lo -> sorted_above lo l -> sorted_above lo' l.
Proof. destruct l as [|[j a] l]; simpl; [done|]. intros ? [? ?]. split; [lia|done]. Qed.

Lemma sorted_above_elem lo l k a : sorted_above lo l -> (k, a) ∈ l -> lo < k.
Proof.
  revert lo. induction l as [|[j b] l IH]; intros lo Hs Hin; [inversion Hin|].
  destruct Hs as [Hj Hs]. apply elem_of_cons in Hin as [[= -> ->]|Hin]; [done|].
  specialize (IH j Hs Hin). lia.
Qed.

Lemma get_elem lo l k a : sorted_above lo l -> get l k = Some a <-> (k, a) ∈ l.
Proof.
  revert lo. induction l as [|[j b] l IH]; intros lo Hs; simpl.
  { split; [done|intros H; inversion H]. }
  destruct Hs as [Hj Hs]. rewrite elem_of_cons. destruct (Z.eqb_spec k j) as [->|Hk].
  - split; [intros [= ->]; by left|]. intros [[= ->]|Hin]; [done|].
    pose proof (sorted_above_elem j l j a Hs Hin). lia.
  - rewrite (IH j Hs). split; [tauto|]. intros [[= -> _]|H]; [done|done].
Qed.

Lemma get_insert l k a j : get (insert l k a) j = if j =? k then Some a else get l j.
Proof.
  induction l as [|[i b] l IH]; simpl; [done|].
  destruct (Z.eqb_spec k i) as [->|Hki]; simpl; [by destruct (j =? i)|].
  destruct (k <? i); simpl; [done|].
  rewrite IH. destruct (Z.eqb_spec j i), (Z.eqb_spec j k); try done. congruence.
Qed.

Lemma sorted_insert lo l k a : lo < k -> sorted_above lo l -> sorted_above lo (insert l k a).
Proof.
  revert lo. induction l as [|[j b] l IH]; intros lo Hk Hs; simpl; [done|].
  destruct Hs as [Hj Hs]. destruct (Z.eqb_spec k j) as [->|]; simpl; [done|].
  destruct (Z.ltb_spec k j); simpl; [done|]. split; [done|]. apply IH; [lia|done].
Qed.

Lemma keys_insert_present lo l k a b :
  sorted_above lo l -> get l k = Some b -> keys (insert l k a) = keys l.
Proof.
  revert lo. induction l as [|[j c] l IH]; intros lo Hs Hg; simpl in *; [done|].
  destruct (Z.eqb_spec k j) as [->|Hk]; [done|]. destruct Hs as [Hj Hs].
  apply (get_elem j) in Hg as Hin; [|done]. pose proof (sorted_above_elem _ _ _ _ Hs Hin).
  destruct (Z.ltb_spec k j); [lia|]. cbn. f_equal. by apply (IH j).
Qed.

End btree.

End BTree.

(** * Process state *)

Inductive BlockReason : Type := BlockNone | BlockChild (id : Z).
Inductive RunState : Type :=
| Running
| Sleeping (ms : Z)
| Paused
| Blocked (r : BlockReason)
| Resumed (code : Z)
| Terminated.

Record DosSubsystemMetadata : Type := mkDosMeta {
  ds : Z; es : Z; fs : Z; gs : Z; ss : Z; interrupts_enabled : bool
}.
Inductive Subsystem : Type := Native | DOS (meta : DosSubsystemMetadata).

Record ProcessState : Type := mkProcess {
  pid : Z;
  parent : Z;
  pmem : ProcMemory;
  page_directory : Z;
  kernel_esp : Z;
  open_files : FileHandleMap.FileHandleMap;
  open_directories : FileHandleMap.FileHandleMap;
  run_state : RunState;
  subsystem : Subsystem;
  exit_code : Z
}.

Module DosSubsystemMetadata.
Definition new : DosSubsystemMetadata := mkDosMeta 0 0 0 0 0 false.
End DosSubsystemMetadata.

Module ProcessState.

Definition with_run_state (p : ProcessState) (s : RunState) : ProcessState :=
  mkProcess (pid p) (parent p) (pmem p) (page_directory p) (kernel_esp p) (open_files p)
    (open_directories p) s (subsystem p) (exit_code p).
Definition with_esp (p : ProcessState) (e : Z) : ProcessState :=
  mkProcess (pid p) (parent p) (pmem p) (page_directory p) e (open_files p)
    (open_directories p) (run_state p) (subsystem p) (exit_code p).
Definition set_exit_code (p : ProcessState) (code : Z) : ProcessState :=
  mkProcess (pid p) (parent p) (pmem p) (page_directory p) (kernel_esp p) (open_files p)
    (open_directories p) (run_state p) (subsystem p) code.
Definition with_memory (p : ProcessState) (pm : ProcMemory) (s : Subsystem) : ProcessState :=
  mkProcess (pid p) (parent p) pm (page_directory p) (kernel_esp p) (open_files p)
    (open_directories p) (run_state p) s (exit_code p).
Definition with_files (p : ProcessState) (f d : FileHandleMap.FileHandleMap) : ProcessState :=
  mkProcess (pid p) (parent p) (pmem p) (page_directory p) (kernel_esp p) f d
    (run_state p) (subsystem p) (exit_code p).

Definition first (v : VM) (k : KernelMemory) (pid heap_start : Z) : KernelMemory * ProcessState :=
  let '(k, regions) := MemoryRegions.initial k heap_start in
  (k, mkProcess pid pid (mkProcMemory regions 0) (get_current_pagedir v) 0
        FileHandleMap.new FileHandleMap.new Running Native 0).

(** ** Files *)

(** [set_handle_directly] for every pair the iterator yields. *)
Definition fork_map (m : FileHandleMap.FileHandleMap) : comp FileHandleMap.FileHandleMap :=
  for_each (fun '(handle, p) forked =>
      '(forked, _) ← FileHandleMap.set_handle_directly forked handle (drive p) (local p);
      Ret forked) (FileHandleMap.iter m) FileHandleMap.new.
Definition fork_file_map (p : ProcessState) := fork_map (open_files p).
Definition fork_directory_map (p : ProcessState) := fork_map (open_directories p).

Definition open_file (p : ProcessState) (drv loc : Z) : comp (ProcessState * Z) :=
  '(files, r) ← FileHandleMap.open_handle (open_files p) drv loc;
  match r with
  | Some handle => Ret (with_files p files (open_directories p), handle)
  | None => Panic
  end.
Definition close_file (p : ProcessState) (handle : Z) : ProcessState * option DriveHandlePair :=
  let '(files, r) := FileHandleMap.close_handle (open_files p) handle in
  (with_files p files (open_directories p), r).
Definition get_open_file_info (p : ProcessState) (handle : Z) : option DriveHandlePair :=
  FileHandleMap.get_drive_and_handle (open_files p) handle.
Definition references_drive_and_handle (p : ProcessState) (drv loc : Z) : bool :=
  FileHandleMap.references_drive_and_handle (open_files p) drv loc.

Definition open_directory (p : ProcessState) (drv loc : Z) : comp (ProcessState * result Z SystemError) :=
  '(dirs, r) ← FileHandleMap.open_handle (open_directories p) drv loc;
  let p := with_files p (open_files p) dirs in
  match r with
  | Some handle => Ret (p, Ok handle)
  | None => Ret (p, Err MaxFilesExceeded)
  end.
Definition close_directory (p : ProcessState) (handle : Z) : ProcessState * result DriveHandlePair SystemError :=
  let '(dirs, r) := FileHandleMap.close_handle (open_directories p) handle in
  (with_files p (open_files p) dirs, ok_or r BadFileDescriptor).
Definition get_open_dir_info (p : ProcessState) (handle : Z) : option DriveHandlePair :=
  FileHandleMap.get_drive_and_handle (open_directories p) handle.

(** ** Forking *)

Definition fork (fuel : nat) (v : VM) (k : KernelMemory) (p : ProcessState) (new_pid : Z)
  : comp (VM * ProcessState) :=
  let new_regions := MemoryRegions.fork (memory_regions (pmem p)) in
  '(v, new_pagedir) ← fork_page_directory fuel v k (pmem p);
  new_filemap ← fork_file_map p;
  new_dirmap ← fork_directory_map p;
  Ret (v, mkProcess new_pid (pid p) (mkProcMemory new_regions (heap_break (pmem p))) new_pagedir
            (STACK_START +u STACK_SIZE -u 4) new_filemap new_dirmap Running Native 0).

(** ** Kernel stacks of other processes *)

Definition make_current_stack_frame_editable (v : VM) (p : ProcessState) : comp VM :=
  let directory_entry := kernel_esp p >>u 22 in
  let table_entry := (kernel_esp p >>u 12) &u 0x3ff in
  v ← map_frame_to_temporary_page v (Frame.new (page_directory p));
  let pagedir := get_temporary_page_address in
  e ← PageTable.get v pagedir directory_entry;
  v ← map_frame_to_temporary_page v (Frame.new (PageTableEntry.get_address e));
  e ← PageTable.get v pagedir table_entry;
  v ← (if negb (PageTableEntry.is_present e) then
         '(v, stack_frame) ← vm_allocate_unwrap v;
         v ← PageTable.modify v pagedir table_entry
               (PageTableEntry.set_address (Frame.get_address stack_frame));
         PageTable.modify v pagedir table_entry PageTableEntry.set_present
       else Ret v);
  e ← PageTable.get v pagedir table_entry;
  map_frame_to_temporary_page v (Frame.new (PageTableEntry.get_address e)).

Definition set_initial_entry_point (v : VM) (p : ProcessState) (func esp : Z) : comp (VM * ProcessState) :=
  v ← make_current_stack_frame_editable v p;
  let stack_ptr := get_temporary_page_address +u (kernel_esp p &u 0xfff) in
  v ← vstore v (stack_ptr -u 4) 0x23;
  v ← vstore v (stack_ptr -u 8) esp;
  v ← vstore v (stack_ptr -u 12) 0x200;
  v ← vstore v (stack_ptr -u 16) 0x1b;
  v ← vstore v (stack_ptr -u 20) (func &u 0x3fffffff);
  Ret (v, with_esp p (kernel_esp p -u 20)).

Definition set_kernel_mode_entry_point (v : VM) (p : ProcessState) (func : Z) : comp (VM * ProcessState) :=
  let p := with_esp p 0xffbfeff8 in
  v ← make_current_stack_frame_editable v p;
  v ← vstore v 0xffbffff8 func;
  Ret (v, p).

(** ** Run states *)

Definition sleep (p : ProcessState) (ms : Z) : ProcessState := with_run_state p (Sleeping ms).
Definition update_tick (p : ProcessState) : ProcessState :=
  match run_state p with
  | Sleeping duration =>
      if duration >? MS_PER_TICK then with_run_state p (Sleeping (duration -u MS_PER_TICK))
      else with_run_state p Running
  | _ => p
  end.
Definition is_running (p : ProcessState) : bool :=
  match run_state p with Running | Resumed _ => true | _ => false end.
Definition block (p : ProcessState) : ProcessState := with_run_state p (Blocked BlockNone).
Definition block_on_child (p : ProcessState) (id : Z) : ProcessState := with_run_state p (Blocked (BlockChild id)).
Definition resume (p : ProcessState) : ProcessState :=
  match run_state p with Blocked _ => with_run_state p Running | _ => p end.
Definition get_resume_code (p : ProcessState) : ProcessState * Z :=
  match run_state p with Resumed code => (with_run_state p Running, code) | _ => (p, 0) end.

Definition is_vm8086 (p : ProcessState) : bool :=
  match subsystem p with DOS _ => true | Native => false end.
Definition get_vm8086_metadata (p : ProcessState) : option DosSubsystemMetadata :=
  match subsystem p with DOS meta => Some meta | Native => None end.

End ProcessState.

(** * The process map *)

Record ProcessMap : Type := mkProcessMap {
  current : Z;
  next_pid : Z;
  processes : list (Z * ProcessState)
}.

Module ProcessMap.

Definition new : ProcessMap := mkProcessMap 0 0 [].
Definition get_next_pid (m : ProcessMap) : ProcessMap * Z :=
  (mkProcessMap (current m) (next_pid m +u 1) (processes m), next_pid m).
Definition get_process (m : ProcessMap) (id : Z) : option ProcessState := BTree.get (processes m) id.
Definition get_current_process (m : ProcessMap) : option ProcessState := BTree.get (processes m) (current m).
Definition make_current (m : ProcessMap) (id : Z) : ProcessMap := mkProcessMap id (next_pid m) (processes m).
Definition insert (m : ProcessMap) (id : Z) (p : ProcessState) : ProcessMap :=
  mkProcessMap (current m) (next_pid m) (BTree.insert (processes m) id p).

(** The loop with its variable [first]. *)
Fixpoint next_running_loop (cur : Z) (first : option Z) (l : list (Z * ProcessState)) : Z :=
  match l with
  | [] => match first with Some id => id | None => cur end
  | (id, process) :: l' =>
      if ProcessState.is_running process then
        let first := match first with None => Some id | Some _ => first end in
        if id >? cur then id else next_running_loop cur first l'
      else next_running_loop cur first l'
  end.
Definition get_next_running_process (m : ProcessMap) : Z :=
  next_running_loop (current m) None (processes m).

Definition spawn_first_process (v : VM) (k : KernelMemory) (m : ProcessMap) (heap_location : Z)
  : KernelMemory * ProcessMap * Z :=
  let '(m, id) := get_next_pid m in
  let '(k, p) := ProcessState.first v k id heap_location in
  (k, insert m id p, id).

Definition fork_current (fuel : nat) (v : VM) (k : KernelMemory) (m : ProcessMap)
  : comp (VM * ProcessMap * Z) :=
  let '(m, id) := get_next_pid m in
  cur ← unwrap (get_current_process m);
  '(v, next) ← ProcessState.fork fuel v k cur id;
  Ret (v, insert m id next, id).

End ProcessMap.

(** * Signals *)

Module Signals.

Definition exit_code (signal code : Z) : Z := ((code &u 0xff) <<u 8) |u (signal &u 0x7f).

(** A process in the map is changed in place. *)
Definition update (m : ProcessMap) (p : ProcessState) : ProcessMap := ProcessMap.insert m (pid p) p.

(** [held] is the process whose run state the caller has locked for writing. *)
Definition locked (held : option Z) (id : Z) : bool :=
  match held with Some h => h =? id | None => false end.

(** [send] is the method [send_signal], which [child_exited] calls and which calls
    [terminate]. *)
Definition child_exited_with (send : ProcessMap -> option Z -> ProcessState -> Z -> comp ProcessMap)
    (m : ProcessMap) (held : option Z) (self : ProcessState) (child code : Z) : comp ProcessMap :=
  m ← send m held self SIG_CHILD;
  if locked held (pid self) then Deadlock
  else
    self ← unwrap (ProcessMap.get_process m (pid self));
    match run_state self with
    | Blocked (BlockChild id) =>
        if id =? child then Ret (update m (ProcessState.with_run_state self (Resumed code))) else Ret m
    | _ => Ret m
    end.

Definition terminate_with (send : ProcessMap -> option Z -> ProcessState -> Z -> comp ProcessMap)
    (m : ProcessMap) (held : option Z) (self : ProcessState) (signal code : Z) : comp ProcessMap :=
  let self := ProcessState.set_exit_code self (exit_code signal code) in
  if locked held (pid self) then Deadlock
  else
    let self := ProcessState.with_run_state self Terminated in
    let m := update m self in
    match ProcessMap.get_process m (parent self) with
    | Some par => child_exited_with send m (Some (pid self)) par (pid self) code
    | None => Ret m
    end.

Fixpoint send_signal_loop (fuel : nat) (m : ProcessMap) (held : option Z) (self : ProcessState) (sig : Z)
  : comp ProcessMap :=
  match fuel with
  | O => OutOfFuel
  | S fuel' =>
      if (sig =? SIG_STOP) || (sig =? SIG_TSTOP) then
        if locked held (pid self) then Deadlock
        else Ret (update m (ProcessState.with_run_state self Paused))
      else if sig =? SIG_CONTINUE then
        if locked held (pid self) then Deadlock
        else match run_state self with
        | Paused => Ret (update m (ProcessState.with_run_state self Running))
        | _ => Ret m
        end
      else if (sig =? SIG_INT) || (sig =? SIG_TERM) then
        terminate_with (send_signal_loop fuel') m held self sig 0
      else if sig =? SIG_KILL then
        terminate_with (send_signal_loop fuel') m held self sig 0
      else Ret m
  end.

(** A signal can cause one more, to the parent, and that one none. *)
Definition send_signal (m : ProcessMap) (self : ProcessState) (sig : Z) : comp ProcessMap :=
  send_signal_loop 2 m None self sig.
Definition terminate (m : ProcessMap) (self : ProcessState) (signal code : Z) : comp ProcessMap :=
  terminate_with (send_signal_loop 1) m None self signal code.
Definition child_exited (m : ProcessMap) (self : ProcessState) (child code : Z) : comp ProcessMap :=
  child_exited_with (send_signal_loop 1) m None self child code.
Definition exit (m : ProcessMap) (self : ProcessState) (code : Z) : comp ProcessMap :=
  terminate m self 0 code.

End Signals.

(** * Executables *)

Inductive InterpretationMode : Type := Detect | ModeBIN | ModeELF | ModeCOM | ModeDOS.
Inductive ExecFormat : Type := BIN | ELF | COM | MZ.

Module Exec.

Definition from_u32 (raw : Z) : InterpretationMode :=
  match raw with 1 => ModeBIN | 2 => ModeELF | 3 => ModeCOM | 4 => ModeDOS | _ => Detect end.

(** The buffer is compared as it was initialised; the file is not read. *)
Definition detect_exec_format : ExecFormat :=
  let buffer := [0; 0; 0; 0] in
  if bool_decide (take 2 buffer = [77; 90]) then MZ
  else if bool_decide (buffer = [0x7f; 69; 76; 70]) then ELF
  else BIN.

Definition get_exec_format (interp_mode : InterpretationMode) : ExecFormat :=
  match interp_mode with
  | Detect => detect_exec_format
  | ModeBIN => BIN
  | ModeELF => ELF
  | ModeCOM => COM
  | ModeDOS => MZ
  end.

Definition prepare_for_exec (fuel : nat) (v : VM) (p : ProcessState) (drive_number handle : Z)
    (interp_mode : InterpretationMode) : comp (VM * ProcessState * Z) :=
  let format := get_exec_format interp_mode in
  let new_subsystem := match format with MZ | COM => DOS DosSubsystemMetadata.new | _ => Native end in
  '(v, pm) ← unmap_all fuel v (pmem p);
  '(pm, entry) ←
    match format with
    | BIN =>
        let length := 0xf0 in
        let pm := mmap pm 0 length drive_number handle in
        Ret (start_heap pm ((length +u 0x1000) &u 0x1000), 0)
    | ELF => Panic
    | COM =>
        let length := 0xf0 in
        let prog_start := 0x1000 in
        let pm := anonymous_map pm 0 prog_start in
        Ret (mmap pm prog_start length drive_number handle, prog_start)
    | MZ => Panic
    end;
  Ret (v, ProcessState.with_memory p pm new_subsystem, entry).

(** The words [exec] pushes for [iretd], the first pushed first. *)
Definition exec_frame (p : ProcessState) (entry : Z) : list Z :=
  match ProcessState.get_vm8086_metadata p with
  | Some meta => [gs meta; fs meta; ds meta; es meta; ss meta; 0xffc; 0x20200; entry >>u 4; 0]
  | None => [0x23; 0xbffffffc; 0x200; 0x1b; entry]
  end.

End Exec.

(** * The kernel *)

(** [esp] and [tss_esp] are the stack register and the stack the processor takes on an
    interrupt from user mode; the registers [switch_to] pushes around the switch are popped by
    the process that pushed them. *)
Record Kernel : Type := mkKernel {
  vm : VM;
  kmem : KernelMemory;
  PROCESS_MAP : option ProcessMap;
  esp : Z;
  tss_esp : Z
}.
Definition with_map (k : Kernel) (m : ProcessMap) : Kernel :=
  mkKernel (vm k) (kmem k) (Some m) (esp k) (tss_esp k).

Definition init (k : Kernel) : Kernel := with_map k ProcessMap.new.
Definition all_processes (k : Kernel) : comp ProcessMap := unwrap (PROCESS_MAP k).

(** The page directory changes first, then the stacks. *)
Definition switch_inner (k : Kernel) (m : ProcessMap) (pagedir old_proc new_proc : Z) : comp Kernel :=
  old ← unwrap (ProcessMap.get_process m old_proc);
  let m := Signals.update m (ProcessState.with_esp old (esp k)) in
  new ← unwrap (ProcessMap.get_process m new_proc);
  Ret (mkKernel (set_current_pagedir (vm k) pagedir) (kmem k) (Some m) (kernel_esp new) (tss_esp k)).

Definition switch_to (k : Kernel) (id : Z) : comp Kernel :=
  m ← all_processes k;
  cur ← unwrap (ProcessMap.get_current_process m);
  let m := ProcessMap.make_current m id in
  next ← unwrap (ProcessMap.get_process m id);
  let k := mkKernel (vm k) (kmem k) (Some m) (esp k) (STACK_START +u STACK_SIZE -u 4) in
  switch_inner k m (page_directory next) (pid cur) (pid next).

Definition yield_coop (k : Kernel) : comp Kernel :=
  m ← all_processes k;
  let next := ProcessMap.get_next_running_process m in
  if negb (next =? current m) then switch_to k next else Ret k.

Definition sleep (k : Kernel) (ms : Z) : comp Kernel :=
  m ← all_processes k;
  cur ← unwrap (ProcessMap.get_current_process m);
  yield_coop (with_map k (Signals.update m (ProcessState.sleep cur ms))).

Definition send_tick (m : ProcessMap) : ProcessMap :=
  mkProcessMap (current m) (next_pid m)
    ((fun '(id, p) => (id, ProcessState.update_tick p)) <$> processes m).

(** Up to the loop that follows the switch. *)
Definition exit (k : Kernel) (code : Z) : comp Kernel :=
  m ← all_processes k;
  cur ← unwrap (ProcessMap.get_current_process m);
  m ← Signals.exit m cur code;
  yield_coop (with_map k m).

Definition send_signal (k : Kernel) (id sig : Z) : comp Kernel :=
  m ← all_processes k;
  match ProcessMap.get_process m id with
  | Some p => m ← Signals.send_signal m p sig; Ret (with_map k m)
  | None => Ret k
  end.

(** [wait] before and after it gives up the processor. *)
Definition wait_block (k : Kernel) (id : Z) : comp Kernel :=
  m ← all_processes k;
  cur ← unwrap (ProcessMap.get_current_process m);
  yield_coop (with_map k (Signals.update m (ProcessState.block_on_child cur id))).
Definition wait_resume (k : Kernel) : comp (Kernel * Z) :=
  m ← all_processes k;
  cur ← unwrap (ProcessMap.get_current_process m);
  let '(cur, code) := ProcessState.get_resume_code cur in
  Ret (with_map k (Signals.update m cur), code).

Definition make_current (k : Kernel) (id : Z) : comp Kernel :=
  m ← all_processes k;
  Ret (with_map k (ProcessMap.make_current m id)).

Definition get_current_pid (k : Kernel) : comp Z := m ← all_processes k; Ret (current m).
Definition current_process (k : Kernel) : comp (option ProcessState) :=
  m ← all_processes k;
  Ret (ProcessMap.get_current_process m).

(** What [iretd] loads: instruction pointer, code segment, flags, stack pointer and segment. *)
Record UserContext : Type := mkUserContext { u_eip : Z; u_cs : Z; u_eflags : Z; u_esp : Z; u_ss : Z }.
Definition iretd (v : VM) (esp : Z) : comp UserContext :=
  eip ← vload v esp;
  cs ← vload v (esp +u 4);
  eflags ← vload v (esp +u 8);
  uesp ← vload v (esp +u 12);
  uss ← vload v (esp +u 16);
  Ret (mkUserContext eip cs eflags uesp uss).

(** [enter_inner] is [switch_inner] with an [iretd] on the new stack. *)
Definition enter_inner (k : Kernel) (m : ProcessMap) (pagedir old_proc new_proc : Z) : comp (Kernel * UserContext) :=
  k ← switch_inner k m pagedir old_proc new_proc;
  c ← iretd (vm k) (esp k);
  Ret (k, c).
Definition enter_usermode (k : Kernel) (id : Z) : comp (Kernel * UserContext) :=
  m ← all_processes k;
  cur ← unwrap (ProcessMap.get_current_process m);
  let m := ProcessMap.make_current m id in
  next ← unwrap (ProcessMap.get_process m id);
  let k := mkKernel (vm k) (kmem k) (Some m) (esp k) (STACK_START +u STACK_SIZE -u 4) in
  enter_inner k m (page_directory next) (pid cur) (pid next).

(** [fork] for the parent.  [ret_esp] is the address of the word that holds the return value,
    [cur_esp] the stack pointer inside [fork_inner]: the compiler lays out the frames between
    them.  The child's copy of the return value is set to 0 through the temporary page, and
    the word at [cur_esp], which the call pushed after the stack was copied, is copied there. *)
Definition fork_inner (v : VM) (p : ProcessState) (cur_esp : Z) : comp (VM * ProcessState) :=
  ret ← vload v cur_esp;
  v ← vstore v ((cur_esp &u 0xfff) |u 0xffbff000) ret;
  Ret (v, ProcessState.with_esp p cur_esp).
Definition fork (fuel : nat) (k : Kernel) (ret_esp cur_esp : Z) : comp (Kernel * Z) :=
  m ← all_processes k;
  '(v, m, next_pid) ← ProcessMap.fork_current fuel (vm k) (kmem k) m;
  next_proc ← unwrap (ProcessMap.get_process m next_pid);
  v ← ProcessState.make_current_stack_frame_editable v next_proc;
  v ← vstore v (get_temporary_page_address +u (ret_esp &u 0xfff)) 0;
  '(v, next_proc) ← fork_inner v next_proc cur_esp;
  Ret (mkKernel v (kmem k) (Some (Signals.update m next_proc)) (esp k) (tss_esp k), next_pid).

(** [exec], up to the [iretd] that leaves for the program: the words it pops. *)
Definition exec (fuel : nat) (k : Kernel) (drive_number handle : Z) (interp_mode : InterpretationMode)
  : comp (Kernel * list Z) :=
  m ← all_processes k;
  cur ← unwrap (ProcessMap.get_current_process m);
  '(v, cur, entry) ← Exec.prepare_for_exec fuel (vm k) cur drive_number handle interp_mode;
  Ret (mkKernel v (kmem k) (Some (Signals.update m cur)) (esp k) (tss_esp k), Exec.exec_frame cur entry).

Definition set_kernel_mode_function (k : Kernel) (id func : Z) : comp Kernel :=
  m ← all_processes k;
  match ProcessMap.get_process m id with
  | Some p =>
      '(v, p) ← ProcessState.set_kernel_mode_entry_point (vm k) p func;
      Ret (mkKernel v (kmem k) (Some (Signals.update m p)) (esp k) (tss_esp k))
  | None => Ret k
  end.

(** * Scheduling *)

(** The pids the scheduler may choose, in order. *)
Definition running_ids (l : list (Z * ProcessState)) : list Z :=
  (List.filter (fun e => ProcessState.is_running e.2) l).*1.

Lemma next_running_ids cur first l :
  ProcessMap.next_running_loop cur first l =
  match List.find (fun id => id >? cur) (running_ids l) with
  | Some id => id
  | None => match first with Some id => id | None => default cur (head (running_ids l)) end
  end.
Proof.
  revert first. induction l as [|[id p] l IH]; intros first; cbn.
  { by destruct first. }
  unfold running_ids in *. cbn. destruct (ProcessState.is_running p); cbn.
  - destruct (id >? cur); [done|]. rewrite IH. by destruct (List.find _ _), first.
  - rewrite IH. by destruct (List.find _ _).
Qed.

Lemma running_ids_elem m id :
  BTree.sorted (processes m) ->
  id ∈ running_ids (processes m) <->
  exists p, ProcessMap.get_process m id = Some p /\ ProcessState.is_running p = true.
Proof.
  intros Hs. unfold running_ids. rewrite list_elem_of_fmap. split.
  - intros ([j p] & -> & Hin). apply list_elem_of_In, List.filter_In in Hin as [Hin Hr].
    apply list_elem_of_In in Hin. exists p.
    split; [by apply (BTree.get_elem (-1))|done].
  - intros (p & Hg & Hr). apply (BTree.get_elem (-1)) in Hg; [|done]. exists (id, p).
    split; [done|]. apply list_elem_of_In, List.filter_In. split; [by apply list_elem_of_In|done].
Qed.

Lemma running_ids_sorted lo l :
  BTree.sorted_above lo l -> StronglySorted Z.lt (running_ids l) /\ Forall (Z.lt lo) (running_ids l).
Proof.
  revert lo. induction l as [|[j p] l IH]; intros lo Hs; cbn; [by repeat constructor|].
  destruct Hs as [Hj Hs]. destruct (IH j Hs) as [H1 H2]. unfold running_ids in *. cbn.
  assert (Hlo : Forall (Z.lt lo) (running_ids l)) by (eapply Forall_impl; [exact H2|cbn; lia]).
  destruct (ProcessState.is_running p); cbn; [|done].
  split; [by constructor|by constructor].
Qed.

(** The first of a sorted list that satisfies a test is the least that does. *)
Lemma find_least (f : Z -> bool) l x :
  StronglySorted Z.lt l -> List.find f l = Some x ->
  x ∈ l /\ f x = true /\ forall y, y ∈ l -> f y = true -> x <= y.
Proof.
  induction 1 as [|a l Hs IH Ha]; cbn; [done|]. destruct (f a) eqn:E.
  - intros [= ->]. split; [left|]. split; [done|]. intros y Hy _.
    apply elem_of_cons in Hy as [->|Hy]; [lia|]. rewrite Forall_forall in Ha. specialize (Ha y Hy). lia.
  - intros Hf. destruct (IH Hf) as (H1 & H2 & H3). split; [by right|]. split; [done|].
    intros y Hy Hfy. apply elem_of_cons in Hy as [->|Hy]; [congruence|]. by apply H3.
Qed.

(** The next process is the least running one above the current one, else the least running
    one, else the current one. *)
Lemma next_running_spec m :
  BTree.sorted (processes m) ->
  let n := ProcessMap.get_next_running_process m in
  let R := running_ids (processes m) in
  (n ∈ R /\ current m < n /\ forall y, y ∈ R -> current m < y -> n <= y) \/
  (n ∈ R /\ (forall y, y ∈ R -> y <= current m) /\ forall y, y ∈ R -> n <= y) \/
  (R = [] /\ n = current m).
Proof.
  intros Hs. cbv zeta. unfold ProcessMap.get_next_running_process. rewrite next_running_ids.
  destruct (running_ids_sorted _ _ Hs) as [HR _]. destruct (List.find _ _) as [id|] eqn:E.
  - left. apply find_least in E as (H1 & H2 & H3); [|done]. apply Z.gtb_lt in H2.
    split; [done|]. split; [done|]. intros y Hy Hc. apply H3; [done|]. by apply Z.gtb_lt.
  - right. destruct (running_ids (processes m)) as [|r R] eqn:ER; [by right|left]. cbn.
    split; [left|]. split.
    + intros y Hy. pose proof (List.find_none _ _ E y) as Hn.
      rewrite <- list_elem_of_In in Hn. specialize (Hn Hy). cbn in Hn. destruct (Z.gtb_spec y (current m)); [done|lia].
    + intros y Hy. apply elem_of_cons in Hy as [->|Hy]; [lia|].
      inversion_clear HR as [|? ? ? Hr]. rewrite Forall_forall in Hr. specialize (Hr y Hy). lia.
Qed.

(** The pids after [cur] up to [p] in cyclic order. *)
Definition between (cur p k : Z) : bool :=
  if cur <? p then (cur <? k) && (k <=? p) else (cur <? k) || (k <=? p).
Definition distance (K : list Z) (cur p : Z) : nat := length (List.filter (between cur p) K).

Lemma filter_length_lt (f g : Z -> bool) K x :
  (forall k, f k = true -> g k = true) -> x ∈ K -> f x = false -> g x = true ->
  (length (List.filter f K) < length (List.filter g K))%nat.
Proof.
  intros Hfg Hx Hf Hg.
  assert (Hle : forall L, (length (List.filter f L) <= length (List.filter g L))%nat).
  { induction L as [|a L IH]; cbn; [done|]. specialize (Hfg a). destruct (f a), (g a); cbn; try lia; by specialize (Hfg eq_refl). }
  induction K as [|a K IH]; [inversion Hx|]. cbn. apply elem_of_cons in Hx as [->|Hx].
  - rewrite Hf, Hg. cbn. specialize (Hle K). lia.
  - specialize (IH Hx). specialize (Hfg a). destruct (f a), (g a); cbn; try lia; by specialize (Hfg eq_refl).
Qed.

Lemma next_running_closer m K p :
  BTree.sorted (processes m) -> BTree.keys (processes m) ⊆ K ->
  p ∈ running_ids (processes m) ->
  let n := ProcessMap.get_next_running_process m in
  n <> p -> (distance K n p < distance K (current m) p)%nat.
Proof.
  intros Hs HK Hp n Hn.
  assert (Hin : n ∈ K).
  { assert (HnR : n ∈ running_ids (processes m)).
    { destruct (next_running_spec m Hs) as [(H & _)|[(H & _)|(H & _)]]; [done|done|]. rewrite H in Hp. inversion Hp. }
    apply HK. unfold running_ids in HnR. apply list_elem_of_fmap in HnR as ([j q] & -> & Hj).
    apply list_elem_of_In, List.filter_In in Hj as [Hj _]. apply list_elem_of_In in Hj. apply list_elem_of_fmap. by exists (j, q). }
  apply (filter_length_lt _ _ K n); [|done|..]; unfold between;
    destruct (next_running_spec m Hs) as [(H1 & H2 & H3)|[(H1 & H2 & H3)|(H1 & _)]];
    try (rewrite H1 in Hp; by inversion Hp); fold n in H1, H2, H3;
    first [pose proof (H3 p Hp) as Hnp|idtac]; try pose proof (H2 p Hp) as Hpc;
    try intros k;
    repeat match goal with |- context [?a <? ?b] => destruct (Z.ltb_spec a b) end;
    repeat match goal with |- context [?a <=? ?b] => destruct (Z.leb_spec a b) end; cbn; try done; try lia.
Qed.

(** C24: The scheduler is fair as long as the pids in use stay within a finite set [K]: in
    every run in which process [p] can always run, whatever the other processes do between two
    scheduling decisions (they may stop, exit, and fork children with pids of [K]), [p] is
    chosen within as many decisions as [K] has pids. *)
Theorem scheduler_bounded_wait (ms : nat -> ProcessMap) (K : list Z) (p : Z) :
  (forall i, BTree.sorted (processes (ms i)) /\ BTree.keys (processes (ms i)) ⊆ K) ->
  (forall i, exists q, ProcessMap.get_process (ms i) p = Some q /\ ProcessState.is_running q = true) ->
  (forall i, current (ms (S i)) = ProcessMap.get_next_running_process (ms i)) ->
  exists k, (1 <= k <= length K)%nat /\ current (ms k) = p.
Proof.
  intros HK Hrun Hsched.
  assert (Hp : forall i, p ∈ running_ids (processes (ms i))).
  { intros i. apply running_ids_elem; [apply HK|apply Hrun]. }
  enough (Hgen : forall d i, (distance K (current (ms i)) p <= d)%nat ->
    exists k, (1 <= k <= d)%nat /\ current (ms (i + k)%nat) = p).
  { destruct (Hgen (length K) 0%nat) as (k & Hk & Hc); [apply List.filter_length_le|]. eauto. }
  induction d as [|d IH]; intros i Hd.
  - destruct (HK i) as [Hs Hk]. destruct (Z.eq_dec (current (ms (S i))) p) as [Heq|Hne].
    + exfalso. destruct (Hrun i) as (q & Hq & _). apply (BTree.get_elem (-1)) in Hq; [|done].
      assert (Hin : p ∈ K) by (apply Hk, list_elem_of_fmap; by exists (p, q)).
      assert (Hlt : (0 < distance K (current (ms i)) p)%nat); [|lia].
      unfold distance. apply list_elem_of_In in Hin.
      pose proof (proj2 (List.filter_In (between (current (ms i)) p) p K)) as Hf.
      destruct (List.filter _ K); cbn in *; [|lia]. exfalso. apply Hf. split; [done|].
      unfold between. rewrite Z.leb_refl, orb_true_r, andb_true_r. by destruct (Z.ltb_spec (current (ms i)) p).
    + rewrite Hsched in Hne. pose proof (next_running_closer (ms i) K p Hs Hk (Hp i) Hne). lia.
  - destruct (HK i) as [Hs Hk]. destruct (Z.eq_dec (current (ms (S i))) p) as [Heq|Hne].
    + exists 1%nat. split; [lia|]. by rewrite Nat.add_1_r.
    + assert (Hc : (distance K (current (ms (S i))) p <= d)%nat).
      { rewrite Hsched in *. pose proof (next_running_closer (ms i) K p Hs Hk (Hp i) Hne). lia. }
      destruct (IH (S i) Hc) as (k & Hk1 & Hk2). exists (S k). split; [lia|].
      by rewrite <- plus_n_Sm.
Qed.

(** Without the bound there is starvation: pids only grow and the next process is looked for
    above the current one, so a family in which the newest process always forks and yields
    keeps a running process from ever being chosen. *)
Definition forking (q : ProcessState) (n : nat) : ProcessMap :=
  mkProcessMap (Z.of_nat n + 1) (Z.of_nat n + 3) ((fun i => (Z.of_nat i, q)) <$> seq 0 (n + 3)).

Lemma numbered_sorted (q : ProcessState) n : forall i, BTree.sorted_above (Z.of_nat i - 1) ((fun i => (Z.of_nat i, q)) <$> seq i n).
Proof.
  induction n as [|n IH]; intros i; cbn; [done|]. split; [lia|]. specialize (IH (S i)). by replace (Z.of_nat (S i) - 1) with (Z.of_nat i) in IH by lia.
Qed.

Lemma running_numbered (q : ProcessState) n : ProcessState.is_running q = true ->
  forall i, running_ids ((fun i => (Z.of_nat i, q)) <$> seq i n) = Z.of_nat <$> seq i n.
Proof. intros Hq. induction n as [|n IH]; intros i; cbn; [done|]. unfold running_ids in *. cbn. rewrite Hq. cbn. by rewrite IH. Qed.

Theorem forking_starves (q : ProcessState) : ProcessState.is_running q = true ->
  forall n, BTree.sorted (processes (forking q n)) /\
    ProcessMap.get_process (forking q n) 0 = Some q /\
    processes (forking q (S n)) = processes (forking q n) ++ [(next_pid (forking q n), q)] /\
    current (forking q (S n)) = ProcessMap.get_next_running_process (forking q n) /\ current (forking q n) <> 0.
Proof.
  intros Hq n. assert (Hs : BTree.sorted (processes (forking q n))) by apply (numbered_sorted q (n + 3) 0).
  split; [done|]. split; [|split; [|split; [|cbn; lia]]].
  - unfold ProcessMap.get_process. cbn. by replace (n + 3)%nat with (S (n + 2)) by lia.
  - cbn [forking processes next_pid]. replace (S n + 3)%nat with (S (n + 3)) by lia. rewrite seq_S, fmap_app. cbn. do 3 f_equal. lia.
  - assert (HR : forall y, y ∈ running_ids (processes (forking q n)) <-> 0 <= y < Z.of_nat n + 3).
    { intros y. cbn [forking processes]. rewrite running_numbered, list_elem_of_fmap by done. split.
      - intros (i & -> & Hi). apply elem_of_seq in Hi. lia.
      - intros Hy. exists (Z.to_nat y). rewrite elem_of_seq. lia. }
    assert (Hc : current (forking q n) = Z.of_nat n + 1) by done.
    destruct (next_running_spec _ Hs) as [(H1 & H2 & H3)|[(H1 & H2 & H3)|[H1 _]]].
    + pose proof (H3 (Z.of_nat n + 2)). rewrite HR, Hc in *. cbn [current forking]. lia.
    + pose proof (H2 (Z.of_nat n + 2)). rewrite HR, Hc in *. lia.
    + pose proof (proj2 (HR 0)) as H0. rewrite H1 in H0. exfalso. apply (not_elem_of_nil 0), H0. lia.
Qed.

(** * The invariant of the process map *)

(** Pids are unique and below the next one; every process but the first, which is its own
    parent, was forked from an older one. *)
Record map_ok (m : ProcessMap) : Prop := {
  mo_sorted : BTree.sorted (processes m);
  mo_pid : forall id p, ProcessMap.get_process m id = Some p -> pid p = id /\ 0 <= id < next_pid m;
  mo_parent : forall id p, ProcessMap.get_process m id = Some p ->
    (id = 0 /\ parent p = 0) \/ (0 <= parent p < id /\ exists q, ProcessMap.get_process m (parent p) = Some q);
  mo_current : exists p, ProcessMap.get_process m (current m) = Some p
}.

Lemma get_update m p id :
  ProcessMap.get_process (Signals.update m p) id =
  if id =? pid p then Some p else ProcessMap.get_process m id.
Proof. apply BTree.get_insert. Qed.

(** Replacing a process by one with the same pid and parent. *)
Lemma map_ok_update m p q :
  map_ok m -> ProcessMap.get_process m (pid p) = Some q -> parent p = parent q ->
  map_ok (Signals.update m p).
Proof.
  intros [Hs Hp Hpar Hc] Hq Hpp. destruct (Hp _ _ Hq) as [_ Hr].
  assert (Hex : forall id r, ProcessMap.get_process m id = Some r ->
    exists r', ProcessMap.get_process (Signals.update m p) id = Some r').
  { intros id r Hr'. rewrite get_update. destruct (id =? pid p); eauto. }
  split.
  - apply BTree.sorted_insert; [lia|done].
  - intros id r. rewrite get_update. destruct (Z.eqb_spec id (pid p)) as [->|]; [|apply Hp].
    intros [= <-]. done.
  - intros id r. rewrite get_update. destruct (Z.eqb_spec id (pid p)) as [->|].
    + intros [= <-]. rewrite Hpp. destruct (Hpar _ _ Hq) as [?|(H1 & r' & H2)]; [by left|]. right.
      split; [done|]. by apply (Hex _ r').
    + intros Hr'. destruct (Hpar _ _ Hr') as [?|(H1 & r' & H2)]; [by left|]. right.
      split; [done|]. by apply (Hex _ r').
  - destruct Hc as [r Hr']. by apply (Hex _ r).
Qed.

Lemma map_ok_run_state m id p s :
  map_ok m -> ProcessMap.get_process m id = Some p ->
  map_ok (Signals.update m (ProcessState.with_run_state p s)).
Proof.
  intros Hm Hp. destruct (mo_pid m Hm id p Hp) as [<- _]. by apply (map_ok_update m _ p).
Qed.

(** ** Termination of a process *)

(** What the parent [par] of [child] becomes when the child exits with [code]. *)
Definition informed (par : ProcessState) (child code : Z) : ProcessState :=
  match run_state par with
  | Blocked (BlockChild id) => if id =? child then ProcessState.with_run_state par (Resumed code) else par
  | _ => par
  end.
Definition terminated (p : ProcessState) (signal code : Z) : ProcessState :=
  ProcessState.with_run_state (ProcessState.set_exit_code p (Signals.exit_code signal code)) Terminated.

Lemma send_child_signal fuel m held p :
  Signals.send_signal_loop (S fuel) m held p SIG_CHILD = Ret m.
Proof. reflexivity. Qed.

Lemma child_exited_with_spec fuel m held par child code :
  map_ok m -> ProcessMap.get_process m (pid par) = Some par -> Signals.locked held (pid par) = false ->
  exists m', Signals.child_exited_with (Signals.send_signal_loop (S fuel)) m held par child code = Ret m' /\
    map_ok m' /\ current m' = current m /\ next_pid m' = next_pid m /\
    forall j, ProcessMap.get_process m' j =
      if j =? pid par then Some (informed par child code) else ProcessMap.get_process m j.
Proof.
  intros Hm Hpar Hl. unfold Signals.child_exited_with. rewrite send_child_signal. cbn [mbind comp_bind].
  rewrite Hl, Hpar. cbn [unwrap mbind comp_bind].
  assert (Hsame : forall j, ProcessMap.get_process m j = if j =? pid par then Some par else ProcessMap.get_process m j).
  { intros j. by destruct (Z.eqb_spec j (pid par)) as [->|]. }
  unfold informed. destruct (run_state par) as [| | |[|c]| |]; try (by eexists; split_and!).
  destruct (c =? child); [|by eexists; split_and!]. eexists. split; [done|].
  split; [by apply (map_ok_run_state m (pid par))|]. split; [done|]. split; [done|].
  intros j. by rewrite get_update.
Qed.

Lemma terminate_with_spec fuel m id p par signal code :
  map_ok m -> ProcessMap.get_process m id = Some p -> id <> 0 ->
  ProcessMap.get_process m (parent p) = Some par ->
  exists m', Signals.terminate_with (Signals.send_signal_loop (S fuel)) m None p signal code = Ret m' /\
    map_ok m' /\ current m' = current m /\ next_pid m' = next_pid m /\
    forall j, ProcessMap.get_process m' j =
      if j =? id then Some (terminated p signal code)
      else if j =? parent p then Some (informed par id code)
      else ProcessMap.get_process m j.
Proof.
  intros Hm Hp Hid Hpar. destruct (mo_pid m Hm _ _ Hp) as [Hpid Hr]. destruct (mo_pid m Hm _ _ Hpar) as [Hppid _].
  destruct (mo_parent m Hm _ _ Hp) as [[? _]|[Hlt _]]; [done|].
  set (t := terminated p signal code). assert (Ht : pid t = id) by done.
  assert (Hm1 : map_ok (Signals.update m t)) by (apply (map_ok_update m _ p); [done|by rewrite Ht|done]).
  unfold Signals.terminate_with, Signals.locked. fold (terminated p signal code). fold t.
  change (parent t) with (parent p). rewrite get_update, Ht. destruct (Z.eqb_spec (parent p) id); [lia|]. rewrite Hpar.
  destruct (child_exited_with_spec fuel (Signals.update m t) (Some id) par id code) as (m' & -> & Hm' & Hc & Hn & Hg).
  { done. }
  { rewrite get_update, Ht, Hppid. by destruct (Z.eqb_spec (parent p) id); [lia|]. }
  { cbn. apply Z.eqb_neq. lia. }
  eexists. split; [done|]. split_and!; [done..|]. intros j. rewrite Hg, get_update, Ht, Hppid.
  destruct (Z.eqb_spec j (parent p)), (Z.eqb_spec j id); try done. lia.
Qed.

Lemma terminate_first m p signal code :
  map_ok m -> ProcessMap.get_process m 0 = Some p -> Signals.terminate m p signal code = Deadlock.
Proof.
  intros Hm Hp. destruct (mo_pid m Hm _ _ Hp) as [Hpid _].
  destruct (mo_parent m Hm _ _ Hp) as [[_ Hpar]|[? _]]; [|lia].
  unfold Signals.terminate, Signals.terminate_with, Signals.locked.
  fold (terminated p signal code). change (parent (terminated p signal code)) with (parent p).
  rewrite get_update. change (pid (terminated p signal code)) with (pid p). rewrite Hpar, Hpid.
  change (0 =? 0) with true. cbv iota. unfold Signals.child_exited_with. rewrite send_child_signal. cbn [mbind comp_bind].
  change (pid (terminated p signal code)) with (pid p). by rewrite Hpid.
Qed.

(** C27: Terminating a process other than the first records its exit status, wakes its parent
    exactly when it waits for that child, hands over the exit code, and changes no other
    process; terminating the first process, which is its own parent, waits forever for the
    lock it holds. *)
Theorem terminate_informs_parent m id p signal code :
  map_ok m -> ProcessMap.get_process m id = Some p ->
  if id =? 0 then Signals.terminate m p signal code = Deadlock
  else exists m' par,
    ProcessMap.get_process m (parent p) = Some par /\
    Signals.terminate m p signal code = Ret m' /\ map_ok m' /\ current m' = current m /\
    (forall j, ProcessMap.get_process m' j =
      if j =? id then Some (terminated p signal code)
      else if j =? parent p then Some (informed par id code)
      else ProcessMap.get_process m j) /\
    (run_state par = Blocked (BlockChild id) ->
     ProcessState.get_resume_code (informed par id code) = (ProcessState.with_run_state par Running, code)).
Proof.
  intros Hm Hp. destruct (Z.eqb_spec id 0) as [->|Hid].
  - by apply terminate_first.
  - destruct (mo_parent m Hm _ _ Hp) as [[? _]|(Hlt & par & Hpar)]; [done|].
    destruct (terminate_with_spec 0 m id p par signal code) as (m' & H1 & H2 & H3 & _ & H4); [done..|].
    exists m', par. split_and!; try done. intros Hb. unfold informed. rewrite Hb, Z.eqb_refl. done.
Qed.

(** ** Everything that changes the map *)

Inductive map_step : ProcessMap -> ProcessMap -> Prop :=
| step_fork fuel v k m v' m' id :
    next_pid m < 4294967295 -> ProcessMap.fork_current fuel v k m = Ret (v', m', id) -> map_step m m'
| step_tick m : map_step m (send_tick m)
| step_signal m id p sig m' :
    ProcessMap.get_process m id = Some p -> Signals.send_signal m p sig = Ret m' -> map_step m m'
| step_exit m p code m' :
    ProcessMap.get_current_process m = Some p -> Signals.exit m p code = Ret m' -> map_step m m'
| step_sleep m p ms :
    ProcessMap.get_current_process m = Some p -> map_step m (Signals.update m (ProcessState.sleep p ms))
| step_block m p :
    ProcessMap.get_current_process m = Some p -> map_step m (Signals.update m (ProcessState.block p))
| step_wait m p id :
    ProcessMap.get_current_process m = Some p -> map_step m (Signals.update m (ProcessState.block_on_child p id))
| step_waited m p :
    ProcessMap.get_current_process m = Some p -> map_step m (Signals.update m (ProcessState.get_resume_code p).1)
| step_resume m id p :
    ProcessMap.get_process m id = Some p -> map_step m (Signals.update m (ProcessState.resume p))
| step_open m p drv loc p' h :
    ProcessMap.get_current_process m = Some p -> ProcessState.open_file p drv loc = Ret (p', h) ->
    map_step m (Signals.update m p')
| step_close m p h :
    ProcessMap.get_current_process m = Some p -> map_step m (Signals.update m (ProcessState.close_file p h).1)
| step_exec fuel v m p d h mode v' p' entry :
    ProcessMap.get_current_process m = Some p ->
    Exec.prepare_for_exec fuel v p d h mode = Ret (v', p', entry) -> map_step m (Signals.update m p')
| step_schedule m : map_step m (ProcessMap.make_current m (ProcessMap.get_next_running_process m)).

(** Inversion of a bind that returned. *)
Lemma bind_Ret {A B} (c : comp A) (k : A -> comp B) b :
  (x ← c; k x) = Ret b -> exists a, c = Ret a /\ k a = Ret b.
Proof. destruct c; cbn; try done. eauto. Qed.

Definition terminating (sig : Z) : bool := (sig =? SIG_INT) || (sig =? SIG_TERM) || (sig =? SIG_KILL).

Lemma send_signal_cases m id p sig :
  map_ok m -> ProcessMap.get_process m id = Some p ->
  (exists m', Signals.send_signal m p sig = Ret m' /\ map_ok m') \/
  (id = 0 /\ terminating sig = true /\ Signals.send_signal m p sig = Deadlock).
Proof.
  intros Hm Hp.
  assert (Hterm : (exists m', Signals.terminate m p sig 0 = Ret m' /\ map_ok m') \/
    (id = 0 /\ Signals.terminate m p sig 0 = Deadlock)).
  { destruct (Z.eq_dec id 0) as [->|Hid]; [right; by eauto using terminate_first|left].
    destruct (mo_parent m Hm _ _ Hp) as [[? _]|(_ & par & Hpar)]; [done|].
    destruct (terminate_with_spec 0 m id p par sig 0) as (m' & H1 & H2 & _); [done..|]. eauto. }
  unfold Signals.send_signal, terminating. cbn [Signals.send_signal_loop Signals.locked].
  fold (Signals.terminate m p sig 0).
  destruct ((sig =? SIG_STOP) || (sig =? SIG_TSTOP)); [left; eauto using map_ok_run_state|].
  destruct (sig =? SIG_CONTINUE); [left; destruct (run_state p); eauto using map_ok_run_state|].
  destruct ((sig =? SIG_INT) || (sig =? SIG_TERM)); [|destruct (sig =? SIG_KILL)]; [..|left; eauto];
    destruct Hterm as [?|[? ?]]; eauto.
Qed.

Lemma map_ok_current m p q :
  map_ok m -> ProcessMap.get_current_process m = Some p -> pid q = pid p -> parent q = parent p ->
  map_ok (Signals.update m q).
Proof.
  intros Hm Hp H1 H2. destruct (mo_pid m Hm (current m) p Hp) as [Hpid _].
  apply (map_ok_update m q p); [done| |done]. by rewrite H1, Hpid.
Qed.

Lemma map_ok_fork fuel v k m v' m' id :
  map_ok m -> next_pid m < 4294967295 -> ProcessMap.fork_current fuel v k m = Ret (v', m', id) -> map_ok m'.
Proof.
  intros [Hs Hp Hpar [c Hc]] Hn Hf. unfold ProcessMap.fork_current, ProcessMap.get_next_pid in Hf.
  destruct (Hp _ _ Hc) as [Hcp Hcr]. cbn in Hf. unfold ProcessMap.get_current_process in Hf. cbn in Hf.
  unfold ProcessMap.get_process in Hc. rewrite Hc in Hf. cbn [unwrap mbind comp_bind] in Hf.
  apply bind_Ret in Hf as ([v1 q] & Hfork & [= <- <- <-]).
  assert (Hq : pid q = next_pid m /\ parent q = current m).
  { unfold ProcessState.fork in Hfork. apply bind_Ret in Hfork as ([? ?] & _ & H). apply bind_Ret in H as (? & _ & H).
    apply bind_Ret in H as (? & _ & [= _ <-]). by rewrite <- Hcp. }
  destruct Hq as [Hq1 Hq2]. unfold ProcessMap.insert. cbn.
  assert (Hg : forall j, ProcessMap.get_process (mkProcessMap (current m) (next_pid m +u 1)
      (BTree.insert (processes m) (next_pid m) q)) j = if j =? next_pid m then Some q else ProcessMap.get_process m j)
    by (intros j; apply BTree.get_insert).
  assert (Hu : next_pid m +u 1 = next_pid m + 1) by (apply u32_small; mach_unfold; lia).
  split; [apply BTree.sorted_insert; [lia|done]|..].
  - intros j r. rewrite Hg. cbn. rewrite Hu. destruct (Z.eqb_spec j (next_pid m)) as [->|].
    + intros [= <-]. lia.
    + intros Hr. destruct (Hp _ _ Hr). lia.
  - intros j r. rewrite Hg. destruct (Z.eqb_spec j (next_pid m)) as [->|].
    + intros [= <-]. right. rewrite Hq2. split; [lia|]. exists c. rewrite Hg.
      destruct (Z.eqb_spec (current m) (next_pid m)); [lia|done].
    + intros Hr. destruct (Hpar _ _ Hr) as [?|(H1 & r' & H2)]; [by left|]. right. split; [done|].
      destruct (Hp _ _ H2). exists r'. rewrite Hg. by destruct (Z.eqb_spec (parent r) (next_pid m)); [lia|].
  - exists c. rewrite Hg. cbn. by destruct (Z.eqb_spec (current m) (next_pid m)); [lia|].
Qed.

Lemma map_ok_schedule m :
  map_ok m -> map_ok (ProcessMap.make_current m (ProcessMap.get_next_running_process m)).
Proof.
  intros [Hs Hp Hpar [c Hc]]. split; [done..|]. cbn.
  assert (HR : forall n, n ∈ running_ids (processes m) -> exists p, ProcessMap.get_process m n = Some p).
  { intros n Hn. apply running_ids_elem in Hn as (p & H & _); eauto. }
  destruct (next_running_spec m Hs) as [(H & _)|[(H & _)|(_ & ->)]]; [by apply HR..|by exists c].
Qed.

Lemma get_tick m id :
  ProcessMap.get_process (send_tick m) id = ProcessState.update_tick <$> ProcessMap.get_process m id.
Proof.
  unfold ProcessMap.get_process, send_tick. cbn. generalize (processes m) as l.
  induction l as [|[j p] l IH]; cbn; [done|]. by destruct (id =? j).
Qed.

Lemma map_ok_tick m : map_ok m -> map_ok (send_tick m).
Proof.
  intros [Hs Hp Hpar [c Hc]].
  assert (Ht : forall p, pid (ProcessState.update_tick p) = pid p /\ parent (ProcessState.update_tick p) = parent p).
  { intros p. unfold ProcessState.update_tick. destruct (run_state p); try done. by destruct (ms >? MS_PER_TICK). }
  split.
  - unfold BTree.sorted, send_tick in *. cbn. revert Hs. generalize (-1). generalize (processes m) as l.
    induction l as [|[j p] l IH]; intros lo; cbn; [done|]. intros [? ?]. split; [done|]. by apply IH.
  - intros id q. rewrite get_tick. intros (p & H & ->)%fmap_Some. destruct (Ht p) as [-> _]. by apply Hp.
  - intros id q. rewrite get_tick. intros (p & H & ->)%fmap_Some. destruct (Ht p) as [_ ->].
    destruct (Hpar _ _ H) as [?|(H1 & r & H2)]; [by left|]. right. split; [done|]. rewrite get_tick, H2. eauto.
  - exists (ProcessState.update_tick c). change (current (send_tick m)) with (current m). by rewrite get_tick, Hc.
Qed.

Lemma map_ok_step m m' : map_step m m' -> map_ok m -> map_ok m'.
Proof.
  intros Hstep Hm.
  destruct Hstep as [fuel v k m v' m' id Hn Hf|m|m id p sig m' Hp Hs|m p code m' Hp He|m p ms Hp|m p Hp|m p id Hp
    |m p Hp|m id p Hp|m p drv loc p' h Hp Ho|m p h Hp|fuel v m p d h mode v' p' entry Hp He|m];
    eauto using map_ok_tick, map_ok_fork, map_ok_schedule.
  - destruct (send_signal_cases m id p sig Hm Hp) as [(m2 & H1 & H2)|(_ & _ & H1)]; rewrite Hs in H1; [|done].
    by injection H1 as ->.
  - unfold Signals.exit in He. destruct (Z.eq_dec (current m) 0) as [H0|H0].
    { unfold ProcessMap.get_current_process in Hp. rewrite H0 in Hp. by rewrite (terminate_first m p) in He. }
    destruct (mo_parent m Hm _ _ Hp) as [[? _]|(_ & par & Hpar)]; [done|].
    destruct (terminate_with_spec 0 m _ p par 0 code Hm Hp H0 Hpar) as (m2 & H1 & H2 & _).
    unfold Signals.terminate in He. rewrite H1 in He. by injection He as <-.
  - by apply (map_ok_current m p).
  - by apply (map_ok_current m p).
  - by apply (map_ok_current m p).
  - apply (map_ok_current m p); [done..| |]; unfold ProcessState.get_resume_code; by destruct (run_state p).
  - apply (map_ok_update m _ p); [done|..]; destruct (mo_pid m Hm _ _ Hp) as [Hpid _];
      unfold ProcessState.resume; destruct (run_state p); cbn; by rewrite ?Hpid.
  - unfold ProcessState.open_file in Ho. apply bind_Ret in Ho as ([f [r|]] & _ & H); [|done].
    injection H as <- <-. by apply (map_ok_current m p).
  - unfold ProcessState.close_file. destruct (FileHandleMap.close_handle _ _). by apply (map_ok_current m p).
  - unfold Exec.prepare_for_exec in He. apply bind_Ret in He as ([v1 pm] & _ & H).
    apply bind_Ret in H as ([pm2 e] & _ & [= _ <- _]). by apply (map_ok_current m p).
Qed.

(** C26: In every state reachable from the first process by forks, timer ticks, signals, exits,
    blocking, resuming, file and program changes and scheduling, pids are unique and lead to
    their process, every other process has an older parent in the map, and the current
    process exists; every signal can then be delivered, except a fatal one to the first
    process. *)
Theorem reachable_map_ok v k heap_location m :
  rtc map_step (ProcessMap.spawn_first_process v k ProcessMap.new heap_location).1.2 m ->
  map_ok m /\
  forall id p sig, ProcessMap.get_process m id = Some p ->
    (exists m', Signals.send_signal m p sig = Ret m' /\ map_ok m') \/
    (id = 0 /\ terminating sig = true /\ Signals.send_signal m p sig = Deadlock).
Proof.
  intros Hsteps. enough (Hm : map_ok m) by (split; [done|]; intros; by apply send_signal_cases).
  remember (_.1.2) as m0 eqn:E0.
  assert (H0 : map_ok m0).
  { subst m0. split; cbn; try done.
    - intros id p. unfold ProcessMap.get_process. cbn. destruct (Z.eqb_spec id 0) as [->|]; [|done].
      intros [= <-]. cbn. split; [done|]. by vm_compute.
    - intros id p. unfold ProcessMap.get_process. cbn. destruct (Z.eqb_spec id 0) as [->|]; [|done].
      intros [= <-]. by left.
    - eexists. reflexivity. }
  clear E0. induction Hsteps; eauto using map_ok_step.
Qed.

(** ** Stopping and sleeping *)

(** A stop signal followed by a continue signal leaves every process running, whatever it
    did before: a process blocked on a resource or a child, a sleeping and even a terminated
    one is scheduled again. *)
Theorem stop_continue_runs m id p sig :
  map_ok m -> ProcessMap.get_process m id = Some p -> sig = SIG_STOP \/ sig = SIG_TSTOP ->
  exists m1 p1 m2,
    Signals.send_signal m p sig = Ret m1 /\ ProcessMap.get_process m1 id = Some p1 /\
    ProcessState.is_running p1 = false /\
    Signals.send_signal m1 p1 SIG_CONTINUE = Ret m2 /\
    ProcessMap.get_process m2 id = Some (ProcessState.with_run_state p Running) /\
    forall j, j <> id -> ProcessMap.get_process m2 j = ProcessMap.get_process m j.
Proof.
  intros Hm Hp Hsig. destruct (mo_pid m Hm _ _ Hp) as [Hpid _].
  exists (Signals.update m (ProcessState.with_run_state p Paused)), (ProcessState.with_run_state p Paused).
  eexists. split; [by destruct Hsig as [-> | ->]|]. split; [rewrite get_update; cbn; by rewrite Hpid, Z.eqb_refl|].
  split; [done|]. split; [reflexivity|]. split.
  - rewrite get_update. cbn. by rewrite Hpid, Z.eqb_refl.
  - intros j Hj. rewrite !get_update. cbn. rewrite Hpid. by destruct (Z.eqb_spec j id).
Qed.

(** A sleeping process wakes after exactly as many timer ticks of 10 ms as cover the time
    it asked for, and after at least one. *)
Theorem sleep_wakes_on_time m id p ms n :
  ProcessMap.get_process m id = Some p -> run_state p = Sleeping ms -> is_u32 ms ->
  ProcessMap.get_process (Nat.iter n send_tick m) id =
  Some (ProcessState.with_run_state p
    (if (Z.of_nat n =? 0) || (10 * Z.of_nat n <? ms) then Sleeping (ms - 10 * Z.of_nat n) else Running)).
Proof.
  intros Hp Hs Hms. induction n as [|n IH].
  { cbn. rewrite Hp. destruct p. cbn in *. subst. by rewrite Z.sub_0_r. }
  change (Nat.iter (S n) send_tick m) with (send_tick (Nat.iter n send_tick m)). rewrite get_tick, IH. cbn [fmap option_fmap option_map]. f_equal.
  unfold ProcessState.update_tick. change MS_PER_TICK with 10.
  destruct (Z.eqb_spec (Z.of_nat (S n)) 0); [lia|]. cbn [orb].
  destruct (Z.eqb_spec (Z.of_nat n) 0) as [Hn|Hn], (Z.ltb_spec (10 * Z.of_nat n) ms); cbn [orb run_state ProcessState.with_run_state];
    try (destruct (Z.gtb_spec (ms - 10 * Z.of_nat n) 10)); destruct (Z.ltb_spec (10 * Z.of_nat (S n)) ms); try lia; try done;
    rewrite u32_small by (mach_unfold; lia); unfold ProcessState.with_run_state; cbn; do 2 f_equal; lia.
Qed.

(** ** Forked file maps *)

Lemma fork_map_loop l forked cur :
  0 <= cur -> cur + lenZ l < 4294967296 ->
  exists forked', for_each (fun '(handle, p) forked =>
      '(forked, _) ← FileHandleMap.set_handle_directly forked handle (drive p) (local p); Ret forked)
      (FileHandleMap.iter_from l cur) forked = Ret forked' /\
    forall h, FileHandleMap.get_drive_and_handle forked' h =
      match FileHandleMap.get_drive_and_handle l (h - cur) with
      | Some p => Some p
      | None => FileHandleMap.get_drive_and_handle forked h
      end.
Proof.
  revert forked cur. induction l as [|o l IH]; intros forked cur Hc Hl; cbn [FileHandleMap.iter_from for_each].
  { exists forked. split; [done|]. intros h. unfold FileHandleMap.get_drive_and_handle at 2.
    by rewrite (proj2 (nthZ_None [] (h - cur))) by (change (lenZ []) with 0; lia). }
  assert (Hcons : lenZ (o :: l) = 1 + lenZ l) by (unfold lenZ; cbn [length]; lia). pose proof (lenZ_nonneg l).
  assert (Hnth : forall h, FileHandleMap.get_drive_and_handle (o :: l) (h - cur) =
    if h =? cur then o else FileHandleMap.get_drive_and_handle l (h - (cur + 1))).
  { intros h. unfold FileHandleMap.get_drive_and_handle. destruct (Z.eqb_spec h cur) as [->|].
    - rewrite Z.sub_diag. by destruct o.
    - destruct (Z.lt_ge_cases h cur); [by rewrite !(proj2 (nthZ_None _ _)) by lia|].
      change (o :: l) with ([o] ++ l). rewrite nthZ_app_r by (change (lenZ [o]) with 1; lia).
      change (lenZ [o]) with 1. by replace (h - cur - 1) with (h - (cur + 1)) by lia. }
  destruct o as [p|].
  - cbn [for_each]. rewrite u32_small by (mach_unfold; lia).
    destruct (FileHandleMap.set_handle_spec forked cur (drive p) (local p)) as (m1 & prev & -> & _ & _ & Hg); [done|].
    cbn [mbind comp_bind]. destruct (IH m1 (cur + 1)) as (m2 & -> & H2); [lia..|]. exists m2. split; [done|].
    intros h. rewrite H2, Hg, Hnth. destruct (Z.eqb_spec h cur) as [->|]; [|done].
    unfold FileHandleMap.get_drive_and_handle. rewrite (proj2 (nthZ_None _ _)) by lia. by destruct p.
  - destruct (IH forked (cur + 1)) as (m2 & -> & H2); [lia..|]. exists m2. split; [done|].
    intros h. rewrite H2, Hnth. destruct (Z.eqb_spec h cur) as [->|]; [|done].
    unfold FileHandleMap.get_drive_and_handle at 1. by rewrite (proj2 (nthZ_None _ _)) by lia.
Qed.

(** A forked process has its parent's open files and directories under the same handles,
    and no others. *)
Theorem fork_copies_handles p :
  lenZ (open_files p) <= MAX_OPEN_FILES -> lenZ (open_directories p) <= MAX_OPEN_FILES ->
  exists files dirs, ProcessState.fork_file_map p = Ret files /\ ProcessState.fork_directory_map p = Ret dirs /\
    forall h, FileHandleMap.get_drive_and_handle files h = ProcessState.get_open_file_info p h /\
              FileHandleMap.get_drive_and_handle dirs h = ProcessState.get_open_dir_info p h.
Proof.
  unfold MAX_OPEN_FILES. intros Hf Hd.
  destruct (fork_map_loop (open_files p) FileHandleMap.new 0) as (files & H1 & H2); [lia..|].
  destruct (fork_map_loop (open_directories p) FileHandleMap.new 0) as (dirs & H3 & H4); [lia..|].
  assert (Hnew : forall h, FileHandleMap.get_drive_and_handle FileHandleMap.new h = None).
  { intros h. unfold FileHandleMap.get_drive_and_handle, FileHandleMap.new.
    by rewrite (proj2 (nthZ_None [] h)) by (change (lenZ []) with 0; lia). }
  exists files, dirs. split; [done|]. split; [done|]. intros h. rewrite H2, H4, Hnew, Z.sub_0_r.
  unfold ProcessState.get_open_file_info, ProcessState.get_open_dir_info.
  by destruct (FileHandleMap.get_drive_and_handle (open_files p) h), (FileHandleMap.get_drive_and_handle (open_directories p) h).
Qed.

(** ** Context switches *)

Lemma switch_to_spec k m a b pa pb :
  PROCESS_MAP k = Some m -> map_ok m -> current m = a -> a <> b ->
  ProcessMap.get_process m a = Some pa -> ProcessMap.get_process m b = Some pb ->
  exists m', switch_to k b =
      Ret (mkKernel (set_current_pagedir (vm k) (page_directory pb)) (kmem k) (Some m') (kernel_esp pb)
             (STACK_START +u STACK_SIZE -u 4)) /\
    map_ok m' /\ current m' = b /\
    forall j, ProcessMap.get_process m' j =
      if j =? a then Some (ProcessState.with_esp pa (esp k)) else ProcessMap.get_process m j.
Proof.
  intros HM Hm Hc Hab Ha Hb. destruct (mo_pid m Hm _ _ Ha) as [Hpa _]. destruct (mo_pid m Hm _ _ Hb) as [Hpb _].
  unfold switch_to, all_processes, ProcessMap.get_current_process. rewrite HM. cbn [unwrap mbind comp_bind]. rewrite Hc.
  unfold ProcessMap.get_process in Ha. rewrite Ha. cbn [unwrap mbind comp_bind].
  change (ProcessMap.get_process (ProcessMap.make_current m b) b) with (ProcessMap.get_process m b). rewrite Hb.
  cbn [unwrap mbind comp_bind]. unfold switch_inner.
  change (ProcessMap.get_process (ProcessMap.make_current m b) (pid pa)) with (BTree.get (processes m) (pid pa)).
  rewrite Hpa, Ha. cbn [unwrap mbind comp_bind]. rewrite get_update. cbn [pid ProcessState.with_esp]. rewrite Hpa, Hpb.
  destruct (Z.eqb_spec b a); [congruence|].
  change (ProcessMap.get_process (ProcessMap.make_current m b) b) with (ProcessMap.get_process m b). rewrite Hb.
  cbn [unwrap mbind comp_bind]. eexists. split; [done|].
  assert (Hmb : map_ok (ProcessMap.make_current m b)) by (destruct Hm; split; [done..|]; by exists pb).
  split; [apply (map_ok_update _ _ pa); [done| |done]; cbn [pid ProcessState.with_esp]; by rewrite Hpa|].
  split; [done|]. intros j. rewrite get_update. cbn [pid ProcessState.with_esp]. by rewrite Hpa.
Qed.

(** Switching away from a process and, at any later stack position [e] of the other one,
    back again restores its stack pointer and address space, keeps the other's stack pointer,
    and leaves every other process as it was. *)
Theorem switch_round_trip k m a b pa pb e :
  PROCESS_MAP k = Some m -> map_ok m -> current m = a -> a <> b ->
  ProcessMap.get_process m a = Some pa -> ProcessMap.get_process m b = Some pb ->
  exists k1 k2 m2,
    switch_to k b = Ret k1 /\ esp k1 = kernel_esp pb /\ cr3 (vm k1) = page_directory pb /\
    switch_to (mkKernel (vm k1) (kmem k1) (PROCESS_MAP k1) e (tss_esp k1)) a = Ret k2 /\
    esp k2 = esp k /\ cr3 (vm k2) = page_directory pa /\
    PROCESS_MAP k2 = Some m2 /\ current m2 = a /\ map_ok m2 /\
    forall j, ProcessMap.get_process m2 j =
      if j =? b then Some (ProcessState.with_esp pb e)
      else if j =? a then Some (ProcessState.with_esp pa (esp k))
      else ProcessMap.get_process m j.
Proof.
  intros HM Hm Hc Hab Ha Hb.
  destruct (switch_to_spec k m a b pa pb) as (m1 & H1 & Hm1 & Hc1 & Hg1); [done..|].
  set (k1 := mkKernel _ _ _ _ _) in H1.
  destruct (switch_to_spec (mkKernel (vm k1) (kmem k1) (PROCESS_MAP k1) e (tss_esp k1)) m1 b a pb
    (ProcessState.with_esp pa (esp k))) as (m2 & H2 & Hm2 & Hc2 & Hg2).
  - done.
  - done.
  - done.
  - done.
  - rewrite Hg1. by destruct (Z.eqb_spec b a); [congruence|].
  - by rewrite Hg1, Z.eqb_refl.
  - eexists k1, _, m2. split; [done|]. split; [done|]. split; [done|]. split; [done|].
    split; [done|]. split; [done|]. split; [done|]. split; [done|]. split; [done|].
    intros j. rewrite Hg2, Hg1. done.
Qed.

(** * Witnesses *)

(** Three processes; the second waits for the third. *)
Definition demo_process (id par : Z) (s : RunState) : ProcessState :=
  mkProcess id par demo_proc (0x1000 * (id + 1)) (0xffbfe000 + id) [None; Some (mkPair 1 7)] [] s Native 0.
Definition demo_processes (cur : Z) : ProcessMap :=
  mkProcessMap cur 3 [(0, demo_process 0 0 Running); (1, demo_process 1 0 (Blocked (BlockChild 2)));
                      (2, demo_process 2 1 Running)].

Lemma demo_get cur id p :
  ProcessMap.get_process (demo_processes cur) id = Some p ->
  (id = 0 /\ p = demo_process 0 0 Running) \/ (id = 1 /\ p = demo_process 1 0 (Blocked (BlockChild 2))) \/
  (id = 2 /\ p = demo_process 2 1 Running).
Proof.
  unfold ProcessMap.get_process. cbn. destruct (Z.eqb_spec id 0); [intros [= <-]; tauto|].
  destruct (Z.eqb_spec id 1); [intros [= <-]; tauto|]. destruct (Z.eqb_spec id 2); [intros [= <-]; tauto|done].
Qed.

Lemma demo_processes_ok : map_ok (demo_processes 2).
Proof.
  split.
  - cbn. lia.
  - intros id p [[-> ->]|[[-> ->]|[-> ->]]]%demo_get; cbn; lia.
  - intros id p [[-> ->]|[[-> ->]|[-> ->]]]%demo_get; cbn; [by left|right; split; [lia|]; by eexists..].
  - by eexists.
Qed.

Definition demo_kernel_state : Kernel :=
  mkKernel demo_vm initial_kernel_memory (Some (demo_processes 2)) 0xffbfe800 0.

(** Process 1 starts and ends while 0 and 2 take turns. *)
Definition demo_changing (i : nat) : ProcessMap :=
  if Nat.even i then demo_processes 2
  else mkProcessMap 0 3 [(0, demo_process 0 0 Running); (2, demo_process 2 0 Running)].

Lemma scheduler_bounded_wait_witness :
  exists k, (1 <= k <= length [0; 1; 2])%nat /\ current (demo_changing k) = 2.
Proof.
  apply (scheduler_bounded_wait demo_changing [0; 1; 2] 2); intros i; unfold demo_changing.
  - destruct (Nat.even i); (split; [cbn; lia|]); cbn; set_solver.
  - destruct (Nat.even i); eexists; split; reflexivity.
  - rewrite Nat.even_succ, <- Nat.negb_even. destruct (Nat.even i); reflexivity.
Defined.

Lemma terminate_informs_parent_witness :
  exists m' par,
    ProcessMap.get_process (demo_processes 2) 1 = Some par /\
    Signals.terminate (demo_processes 2) (demo_process 2 1 Running) 0 7 = Ret m' /\ map_ok m' /\ current m' = 2 /\
    (forall j, ProcessMap.get_process m' j =
      if j =? 2 then Some (terminated (demo_process 2 1 Running) 0 7)
      else if j =? 1 then Some (informed par 2 7)
      else ProcessMap.get_process (demo_processes 2) j) /\
    (run_state par = Blocked (BlockChild 2) ->
     ProcessState.get_resume_code (informed par 2 7) = (ProcessState.with_run_state par Running, 7)).
Proof.
  apply (terminate_informs_parent (demo_processes 2) 2 (demo_process 2 1 Running) 0 7 demo_processes_ok). reflexivity.
Defined.

Lemma reachable_map_ok_witness :
  let m := (ProcessMap.spawn_first_process demo_vm initial_kernel_memory ProcessMap.new 0xc0100000).1.2 in
  map_ok (send_tick m) /\
  forall id p sig, ProcessMap.get_process (send_tick m) id = Some p ->
    (exists m', Signals.send_signal (send_tick m) p sig = Ret m' /\ map_ok m') \/
    (id = 0 /\ terminating sig = true /\ Signals.send_signal (send_tick m) p sig = Deadlock).
Proof.
  apply (reachable_map_ok demo_vm initial_kernel_memory 0xc0100000). apply rtc_once, step_tick.
Defined.

Lemma stop_continue_runs_witness :
  exists m1 p1 m2,
    Signals.send_signal (demo_processes 2) (demo_process 1 0 (Blocked (BlockChild 2))) SIG_STOP = Ret m1 /\
    ProcessMap.get_process m1 1 = Some p1 /\ ProcessState.is_running p1 = false /\
    Signals.send_signal m1 p1 SIG_CONTINUE = Ret m2 /\
    ProcessMap.get_process m2 1 = Some (demo_process 1 0 Running) /\
    forall j, j <> 1 -> ProcessMap.get_process m2 j = ProcessMap.get_process (demo_processes 2) j.
Proof.
  apply (stop_continue_runs (demo_processes 2) 1 (demo_process 1 0 (Blocked (BlockChild 2))) SIG_STOP demo_processes_ok);
    [reflexivity|by left].
Defined.

Lemma sleep_wakes_on_time_witness :
  ProcessMap.get_process (Nat.iter 3 send_tick (mkProcessMap 0 1 [(0, demo_process 0 0 (Sleeping 25))])) 0 =
  Some (demo_process 0 0 Running).
Proof.
  apply (sleep_wakes_on_time (mkProcessMap 0 1 [(0, demo_process 0 0 (Sleeping 25))]) 0
    (demo_process 0 0 (Sleeping 25)) 25 3); [reflexivity|reflexivity|mach_unfold; lia].
Defined.

Lemma fork_copies_handles_witness :
  exists files dirs, ProcessState.fork_file_map (demo_process 0 0 Running) = Ret files /\
    ProcessState.fork_directory_map (demo_process 0 0 Running) = Ret dirs /\
    forall h,
      FileHandleMap.get_drive_and_handle files h = ProcessState.get_open_file_info (demo_process 0 0 Running) h /\
      FileHandleMap.get_drive_and_handle dirs h = ProcessState.get_open_dir_info (demo_process 0 0 Running) h.
Proof. apply (fork_copies_handles (demo_process 0 0 Running)); by vm_compute. Defined.

Lemma switch_round_trip_witness :
  exists k1 k2 m2,
    switch_to demo_kernel_state 0 = Ret k1 /\ esp k1 = 0xffbfe000 /\ cr3 (vm k1) = 0x1000 /\
    switch_to (mkKernel (vm k1) (kmem k1) (PROCESS_MAP k1) 0xffbfe444 (tss_esp k1)) 2 = Ret k2 /\
    esp k2 = esp demo_kernel_state /\ cr3 (vm k2) = 0x3000 /\
    PROCESS_MAP k2 = Some m2 /\ current m2 = 2 /\ map_ok m2 /\
    forall j, ProcessMap.get_process m2 j =
      if j =? 0 then Some (ProcessState.with_esp (demo_process 0 0 Running) 0xffbfe444)
      else if j =? 2 then Some (ProcessState.with_esp (demo_process 2 1 Running) (esp demo_kernel_state))
      else ProcessMap.get_process (demo_processes 2) j.
Proof.
  apply (switch_round_trip demo_kernel_state (demo_processes 2) 2 0 (demo_process 2 1 Running)
    (demo_process 0 0 Running) 0xffbfe444 eq_refl demo_processes_ok eq_refl); [lia|reflexivity|reflexivity].
Defined.
