(* ===== verification/ComReaders.v ===== *)
(** Processes that read from a serial port: the blocking read of [drivers/queue.rs] on the
    device of [drivers/com/mod.rs], with the interrupt handler of [drivers/com/serial.rs], the
    signals of [process/signals.rs] and the scheduler of [process/mod.rs] around it.

    While the reader sleeps, everything else runs: bytes arrive, the interrupt handler wakes
    the process the port refers to, other processes queue up, read, finish and hand over.
    [elsewhere] has one rule for each of these, made of the functions that model the code, and
    the wake-up and the hand-over are derived from them.  Assumed are the registers of the
    UART and that the reader, asleep in the queue, is reached by such steps at all
    ([line_yield]): the sender keeps sending and the readers before it keep reading. *)

From S2P Require Import Prelude Ports Drivers Blocking Serial Time Physical Memory ListAllocator Region ProcMemory PageTable Process.

(** * The run states of the kernel's processes *)

Definition kernel_ok (k : Kernel) : Prop := exists m, PROCESS_MAP k = Some m /\ map_ok m.
Definition cpu (k : Kernel) : option Z := current <$> PROCESS_MAP k.
Definition state (k : Kernel) (p : Z) : option RunState :=
  match PROCESS_MAP k with Some m => run_state <$> ProcessMap.get_process m p | None => None end.
Definition runnable (k : Kernel) (p : Z) : Prop :=
  exists q, PROCESS_MAP k ≫= (fun m => ProcessMap.get_process m p) = Some q /\ ProcessState.is_running q = true.

(** What a stop or continue signal makes of the state of its receiver. *)
Definition signalled (sig : Z) (s : RunState) : RunState :=
  if sig =? SIG_STOP then Paused else match s with Paused => Running | _ => s end.

Lemma send_signal_state k p sig s :
  kernel_ok k -> state k p = Some s -> sig = SIG_STOP \/ sig = SIG_CONTINUE ->
  exists k', send_signal k p sig = Ret k' /\ kernel_ok k' /\ cpu k' = cpu k /\
    forall j, state k' j = if j =? p then Some (signalled sig s) else state k j.
Proof.
  intros (m & Hk & Hm) Hs Hsig. unfold state in *. rewrite Hk in Hs.
  destruct (ProcessMap.get_process m p) as [q|] eqn:Hq; [|done]. injection Hs as <-.
  destruct (mo_pid m Hm _ _ Hq) as [Hp _].
  assert (Hupd : forall r, let k' := with_map k (Signals.update m (ProcessState.with_run_state q r)) in
    kernel_ok k' /\ cpu k' = cpu k /\ forall j,
      match PROCESS_MAP k' with Some m => run_state <$> ProcessMap.get_process m j | None => None end =
      if j =? p then Some r else run_state <$> ProcessMap.get_process m j).
  { intros r. cbv zeta. split; [eexists; split; [done|]; by eapply map_ok_run_state|].
    split; [unfold cpu; by rewrite Hk|]. intros j. cbn [with_map PROCESS_MAP]. rewrite get_update. cbn [pid ProcessState.with_run_state]. rewrite Hp.
    by destruct (j =? p). }
  assert (Hsame : kernel_ok (with_map k m) /\ cpu (with_map k m) = cpu k /\ forall j,
      run_state <$> ProcessMap.get_process m j =
      if j =? p then Some (run_state q) else run_state <$> ProcessMap.get_process m j).
  { split; [by eexists|]. split; [unfold cpu; by rewrite Hk|]. intros j. destruct (Z.eqb_spec j p) as [->|]; [by rewrite Hq|done]. }
  unfold send_signal, all_processes. rewrite Hk. cbn [unwrap mbind comp_bind]. rewrite Hq.
  destruct Hsig as [-> | ->]; cbn [Signals.send_signal Signals.send_signal_loop Signals.locked signalled]; cbn -[Signals.update].
  - eexists. split; [reflexivity|]. apply Hupd.
  - destruct (run_state q) eqn:Hr; cbn -[Signals.update]; (eexists; split; [reflexivity|]; first [apply Hupd|apply Hsame]).
Qed.

(** Yielding with a process that can run takes the processor to such a one and leaves the
    states as they are. *)
Lemma yield_coop_state k p :
  kernel_ok k -> runnable k p ->
  exists k' n, yield_coop k = Ret k' /\ kernel_ok k' /\ cpu k' = Some n /\ runnable k n /\
    forall j, state k' j = state k j.
Proof.
  intros (m & Hk & Hm) (q & Hq & Hr). rewrite Hk in Hq. cbn in Hq.
  assert (Hin : p ∈ running_ids (processes m)) by (apply running_ids_elem; [apply Hm|eauto]).
  assert (Hn : ProcessMap.get_next_running_process m ∈ running_ids (processes m)).
  { destruct (next_running_spec m (mo_sorted m Hm)) as [(H & _)|[(H & _)|(H & _)]]; [done..|]. rewrite H in Hin. by apply not_elem_of_nil in Hin. }
  apply running_ids_elem in Hn as (nq & Hnq & Hnr); [|apply Hm]. destruct (mo_current m Hm) as [c Hc].
  assert (Hrun : runnable k (ProcessMap.get_next_running_process m)) by (exists nq; rewrite Hk; done).
  unfold yield_coop, all_processes. rewrite Hk. cbn [unwrap mbind comp_bind].
  destruct (Z.eqb_spec (ProcessMap.get_next_running_process m) (current m)) as [Heq|Hne]; cbn [negb].
  - exists k, (ProcessMap.get_next_running_process m). split; [done|]. split; [by exists m|]. split; [unfold cpu; rewrite Hk; cbn; by rewrite Heq|]. done.
  - destruct (switch_to_spec k m (current m) (ProcessMap.get_next_running_process m) c nq) as (m' & -> & Hm' & Hc' & Hg); [done..|].
    eexists _, _. split; [done|]. split; [by exists m'|]. split; [unfold cpu; cbn; by rewrite Hc'|]. split; [done|].
    intros j. unfold state. cbn. rewrite Hk, Hg. destruct (Z.eqb_spec j (current m)) as [->|]; [by rewrite Hc|done].
Qed.

Lemma runnable_state k p s : runnable k p -> state k p = Some s -> s = Running \/ exists c, s = Resumed c.
Proof.
  intros (q & Hq & Hr) Hs. unfold state in Hs. destruct (PROCESS_MAP k); [|done]. cbn in Hq. rewrite Hq in Hs. injection Hs as <-.
  unfold ProcessState.is_running in Hr. destruct (run_state q); naive_solver.
Qed.
Lemma running_runnable k p : state k p = Some Running -> runnable k p.
Proof.
  unfold state, runnable. destruct (PROCESS_MAP k) as [m|]; [|done]. cbn. destruct (ProcessMap.get_process m p) as [q|]; [|done].
  intros [= Hr]. exists q. unfold ProcessState.is_running. by rewrite Hr.
Qed.

(** * A line and its readers *)

(** A machine with a UART on whose line the bytes [wire 0], [wire 1], ... come in, [arrived]
    of them so far and [consumed] of them read, with the kernel that runs on it and a process
    [idle] of this kernel that never reads from the line. *)
Class LineState (E : Type) := {
  wire : Z -> Z;
  arrived : E -> Z;
  consumed : E -> Z;
  kern : E -> Kernel;
  idle : Z
}.

Section readers.
Context {E : Type} `{System E ComDevice} `{LineState E} (base : Z).

(** The wake reference names the first of the queue. *)
Definition com_ok (d : ComDevice) : Prop := serial d = SerialPort.with_wake (SerialPort.new base) (head (queue d)).

(** The processes in the queue are awake or stopped, none is there twice. *)
Record line_ok (k : Kernel) (d : ComDevice) : Prop := {
  lo_kernel : kernel_ok k;
  lo_com : com_ok d;
  lo_nodup : NoDup (queue d);
  lo_readers : forall p, p ∈ queue d -> state k p = Some Paused \/ state k p = Some Running;
  lo_idle : ~ idle ∈ queue d /\ state k idle = Some Running
}.

Definition same_line (e e' : E) : Prop := consumed e' = consumed e /\ arrived e' = arrived e.

(** What happens while [me] sleeps in the queue of the device. *)
Inductive elsewhere (me : Z) : E * ComDevice -> E * ComDevice -> Prop :=
| ew_arrive e e' d :
    consumed e' = consumed e -> arrived e <= arrived e' -> kern e' = kern e -> elsewhere me (e, d) (e', d)
| ew_interrupt e e' d :
    consumed e < arrived e -> SerialPort.handle_interrupt sys_send_signal e (serial d) = Ret e' ->
    elsewhere me (e, d) (e', d)
(** Processes that have no part in this run, start and end; one that can run gets the processor. *)
| ew_run e e' d n :
    cpu (kern e) <> Some me -> same_line e e' -> kernel_ok (kern e') -> cpu (kern e') = Some n -> runnable (kern e') n ->
    (forall p, p ∈ idle :: queue d -> state (kern e') p = state (kern e) p) -> elsewhere me (e, d) (e', d)
(** A process that begins to read: there are others before it, so it stops. *)
| ew_join e e1 e' d d' p len :
    cpu (kern e) = Some p -> p <> idle -> p ∉ queue d -> state (kern e) p = Some Running ->
    ComDevice.add_process_to_queue e d p = (e1, d', len) -> sys_send_signal e1 p SIG_STOP = Ret e' ->
    elsewhere me (e, d) (e', d')
(** The first of the queue reads, a process of the queue stops, the first has all it wants. *)
| ew_read e e' d p fuel buffer buffer' n :
    cpu (kern e) = Some p -> p <> me -> head (queue d) = Some p -> lenZ buffer <= Z.of_nat fuel -> lenZ buffer < 4294967296 ->
    ComDevice.read_available_data fuel e d buffer = Ret (e', buffer', n) -> elsewhere me (e, d) (e', d)
| ew_stop e e' d p :
    cpu (kern e) = Some p -> p <> me -> p ∈ queue d -> sys_send_signal e p SIG_STOP = Ret e' ->
    elsewhere me (e, d) (e', d)
| ew_finish e e' d d' p fuel :
    cpu (kern e) = Some p -> p <> me -> head (queue d) = Some p ->
    @finish_read _ _ _ (com_read_queue fuel) e d = Ret (e', d') -> elsewhere me (e, d) (e', d').

(** [me] has just stopped itself in the queue. *)
Record stopped (me : Z) (e : E) (d : ComDevice) : Prop := {
  sp_ok : line_ok (kern e) d;
  sp_queued : me ∈ queue d;
  sp_state : state (kern e) me = Some Paused;
  sp_cpu : cpu (kern e) = Some me
}.

(** What the UART's registers show, and that the driver calls the functions of the kernel. *)
Class Uart := {
  line_status_reg : forall e, exists e' x, inb e (u16 (base + 5)) = (e', x) /\
    consumed e' = consumed e /\ arrived e <= arrived e' /\ kern e' = kern e /\
    x mod 2 = if consumed e' <? arrived e' then 1 else 0;
  line_data_reg : forall e, consumed e < arrived e -> exists e',
    inb e base = (e', wire (consumed e)) /\
    consumed e' = consumed e + 1 /\ arrived e <= arrived e' /\ kern e' = kern e;
  line_interrupt_reg : forall e, consumed e < arrived e -> exists e' x, inb e (u16 (base + 2)) = (e', x) /\
    consumed e' = consumed e /\ arrived e <= arrived e' /\ kern e' = kern e /\ x &u 4 <> 0;
  line_pid : forall e, sys_current_pid e = get_current_pid (kern e);
  line_signal : forall e p sig k', send_signal (kern e) p sig = Ret k' ->
    exists e', sys_send_signal e p sig = Ret e' /\ kern e' = k' /\ same_line e e'
}.

(** A process waiting for its turn and for bytes gets the processor back at some time. *)
Class Line := {
  line_yield : forall me e d, stopped me e d -> exists e1 e' d',
    yield_coop (kern e) = Ret (kern e1) /\ same_line e e1 /\ rtc (elsewhere me) (e1, d) (e', d') /\
    cpu (kern e') = Some me /\ sys_yield e d = Ret (e', d')
}.
End readers.
Arguments Uart E {_ _} base.
Arguments Line E {_ _} base.

Section line.
Context {E : Type} `{System E ComDevice} `{LineState E} {base : Z} `{!Uart E base}.

(** ** The device *)

Definition later (e e' : E) : Prop := consumed e' = consumed e /\ arrived e <= arrived e' /\ kern e' = kern e.

Lemma has_data_spec e s w : s = SerialPort.with_wake (SerialPort.new base) w ->
  exists e', SerialPort.has_data e s = (e', consumed e' <? arrived e') /\ later e e'.
Proof.
  intros ->. unfold SerialPort.has_data, Port.read_u8. cbn [line_status SerialPort.with_wake SerialPort.new].
  destruct (line_status_reg base e) as (e' & x & -> & H1 & H2 & H3 & Hx). exists e'. split; [|done]. f_equal.
  unfold STATUS_DATA_READY. rewrite land_1, Hx. by destruct (consumed e' <? arrived e').
Qed.

Lemma receive_byte_spec e s w : s = SerialPort.with_wake (SerialPort.new base) w -> consumed e < arrived e ->
  exists e', SerialPort.receive_byte e s = (e', Some (wire (consumed e))) /\
    consumed e' = consumed e + 1 /\ arrived e <= arrived e' /\ kern e' = kern e.
Proof.
  intros Hs Hc. unfold SerialPort.receive_byte. destruct (has_data_spec e s w Hs) as (e1 & -> & (E1 & E2 & E3)).
  destruct (Z.ltb_spec (consumed e1) (arrived e1)); [|lia]. unfold Port.read_u8. subst s. cbn [Serial.data SerialPort.with_wake SerialPort.new].
  destruct (line_data_reg base e1) as (e2 & -> & F1 & F2 & F3); [lia|]. exists e2. rewrite E1, E3 in *. split; [done|]. split_and!; [lia..|done].
Qed.

(** One call reads the bytes that have arrived, up to the size of the buffer. *)
Lemma read_available_spec fuel e d (pre rest : list Z) :
  com_ok base d -> lenZ rest <= Z.of_nat fuel -> lenZ pre + lenZ rest < 4294967296 ->
  exists e' n rest', ComDevice.read_available_loop fuel e d (pre ++ rest) (lenZ pre) =
      Ret (e', pre ++ (wire <$> seqZ (consumed e) n) ++ rest', lenZ pre + n) /\
    0 <= n <= lenZ rest /\ lenZ rest' = lenZ rest - n /\ consumed e' = consumed e + n /\ arrived e <= arrived e' /\ kern e' = kern e /\
    (consumed e < arrived e -> rest <> [] -> 0 < n).
Proof.
  intros Hd. revert e pre rest. induction fuel as [|fuel IH]; intros e pre rest Hf Hb.
  - pose proof (lenZ_nonneg rest). destruct rest as [|y rest]; [|rewrite lenZ_cons in Hf; pose proof (lenZ_nonneg rest); lia].
    exists e, 0, []. cbn [ComDevice.read_available_loop]. rewrite app_nil_r, Z.ltb_irrefl, Z.add_0_r. split; [by rewrite app_nil_r|].
    change (lenZ []) with 0. split_and!; try done; lia.
  - cbn [ComDevice.read_available_loop]. rewrite lenZ_app. destruct rest as [|y rest].
    { exists e, 0, []. change (lenZ []) with 0. rewrite Z.add_0_r, Z.ltb_irrefl, Z.add_0_r. rewrite app_nil_r.
      split; [by rewrite app_nil_r|]. split_and!; try done; lia. }
    rewrite lenZ_cons in *. pose proof (lenZ_nonneg rest). pose proof (lenZ_nonneg pre).
    destruct (Z.ltb_spec (lenZ pre) (lenZ pre + (lenZ rest + 1))); [|lia].
    destruct (has_data_spec e (serial d) _ Hd) as (e1 & -> & (E1 & E2 & E3)).
    destruct (Z.ltb_spec (consumed e1) (arrived e1)).
    + destruct (receive_byte_spec e1 (serial d) _ Hd) as (e2 & -> & F1 & F2 & F3); [lia|].
      rewrite store_Ret by (rewrite lenZ_app, lenZ_cons; lia). cbn [mbind comp_bind].
      assert (Hset : setZ (pre ++ y :: rest) (lenZ pre) (wire (consumed e1)) = (pre ++ [wire (consumed e)]) ++ rest).
      { rewrite E1. unfold setZ, lenZ. destruct (Z.leb_spec 0 (Z.of_nat (length pre))); [|lia]. rewrite Nat2Z.id.
        rewrite insert_app_r_alt, Nat.sub_diag by done. cbn. by rewrite <- app_assoc. }
      rewrite Hset, u32_small by (mach_unfold; lia).
      assert (Hl : lenZ pre + 1 = lenZ (pre ++ [wire (consumed e)])) by (rewrite lenZ_app; done). rewrite Hl.
      destruct (IH e2 (pre ++ [wire (consumed e)]) rest) as (e' & n & rest' & -> & G1 & G2 & G3 & G4 & G5 & _); [lia|lia|].
      exists e', (n + 1), rest'. split.
      * f_equal. f_equal; [|lia]. f_equal. rewrite <- !app_assoc. f_equal. rewrite F1, E1.
        rewrite (seqZ_cons (consumed e)) by lia. cbn. do 3 f_equal. f_equal; lia.
      * rewrite G5, F3, E3. split_and!; try done; lia.
    + exists e1, 0, (y :: rest). rewrite lenZ_cons, Z.add_0_r. cbn. split; [done|]. split_and!; try done; lia.
Qed.

Lemma read_available_data_spec fuel e d buffer :
  com_ok base d -> lenZ buffer <= Z.of_nat fuel -> lenZ buffer < 4294967296 ->
  exists e' n rest, ComDevice.read_available_data fuel e d buffer = Ret (e', (wire <$> seqZ (consumed e) n) ++ rest, n) /\
    0 <= n <= lenZ buffer /\ lenZ rest = lenZ buffer - n /\ consumed e' = consumed e + n /\ arrived e <= arrived e' /\
    kern e' = kern e /\ (consumed e < arrived e -> buffer <> [] -> 0 < n).
Proof. intros Hd Hf Hb. by apply (read_available_spec fuel e d [] buffer). Qed.

Lemma add_process_spec (e : E) d p : com_ok base d ->
  exists d', ComDevice.add_process_to_queue e d p = (e, d', lenZ (queue d) + 1) /\ com_ok base d' /\ queue d' = queue d ++ [p].
Proof.
  intros Hd. unfold ComDevice.add_process_to_queue. rewrite lenZ_app. change (lenZ [p]) with 1. eexists. split; [done|]. split; [|done].
  unfold com_ok in *. cbn [serial queue]. rewrite Hd. destruct (queue d) as [|p' q]; [done|]. rewrite lenZ_cons. pose proof (lenZ_nonneg q).
  by destruct (Z.eqb_spec (lenZ q + 1 + 1) 1); [lia|].
Qed.

Lemma remove_first_spec (e : E) d p rest : com_ok base d -> queue d = p :: rest ->
  exists d', ComDevice.remove_first_in_queue e d = (e, d', Some p) /\ com_ok base d' /\ queue d' = rest.
Proof.
  intros Hd Hq. unfold ComDevice.remove_first_in_queue. rewrite Hq, Hd. eexists. split; [done|]. split; [|done].
  unfold com_ok. cbn [serial queue]. by destruct rest.
Qed.

(** ** Signals to readers *)

Lemma line_ok_later e e' d : line_ok base (kern e) d -> later e e' -> line_ok base (kern e') d.
Proof. by intros Hl (_ & _ & ->). Qed.

Lemma line_ok_join k d d' p :
  line_ok base k d -> com_ok base d' -> queue d' = queue d ++ [p] -> p ∉ queue d -> p <> idle -> state k p = Some Running ->
  line_ok base k d'.
Proof.
  intros [K1 K2 K3 K4 [K5 K6]] Hd Hq Hn Hi Hs. split; try done; rewrite ?Hq.
  - apply NoDup_app. split; [done|]. split; [|apply NoDup_singleton]. intros j Hj Hj'. apply list_elem_of_singleton in Hj' as ->. done.
  - intros j [Hj|Hj]%elem_of_app; [by apply K4|]. apply list_elem_of_singleton in Hj as ->. by right.
  - split; [|done]. intros [?|Hj]%elem_of_app; [done|]. by apply list_elem_of_singleton in Hj.
Qed.

Lemma line_ok_signal e d p sig :
  line_ok base (kern e) d -> p ∈ queue d -> sig = SIG_STOP \/ sig = SIG_CONTINUE ->
  exists e', sys_send_signal e p sig = Ret e' /\ same_line e e' /\ cpu (kern e') = cpu (kern e) /\ line_ok base (kern e') d /\
    (forall j, j <> p -> state (kern e') j = state (kern e) j) /\
    state (kern e') p = Some (if sig =? SIG_STOP then Paused else Running).
Proof.
  intros Hl Hp Hsig. destruct (lo_readers _ _ _ Hl p Hp) as [Hs|Hs];
    (destruct (send_signal_state _ _ sig _ (lo_kernel _ _ _ Hl) Hs Hsig) as (k' & Hk & Hok & Hc & Hst);
     destruct (line_signal base e p sig k' Hk) as (e' & He & <- & Hsame); exists e'; split; [done|]; split; [done|]; split; [done|];
     assert (Hp' : state (kern e') p = Some (if sig =? SIG_STOP then Paused else Running))
       by (rewrite Hst, Z.eqb_refl; by destruct Hsig as [-> | ->]);
     assert (Hj : forall j, j <> p -> state (kern e') j = state (kern e) j) by (intros j Hj; rewrite Hst; by destruct (Z.eqb_spec j p));
     split; [|done]; destruct Hl as [H1 H2 H3 H4 [H5 H6]]; split; try done;
     [intros j Hin; destruct (decide (j = p)) as [->|]; [rewrite Hp'; destruct (sig =? SIG_STOP); auto|rewrite Hj by done; by apply H4]
     |split; [done|]; rewrite Hj; [done|by intros <-]]).
Qed.

Lemma handle_interrupt_spec e d p rest :
  line_ok base (kern e) d -> queue d = p :: rest -> consumed e < arrived e ->
  exists e', SerialPort.handle_interrupt sys_send_signal e (serial d) = Ret e' /\
    consumed e' = consumed e /\ consumed e' < arrived e' /\ cpu (kern e') = cpu (kern e) /\ line_ok base (kern e') d /\
    (forall j, j <> p -> state (kern e') j = state (kern e) j) /\ state (kern e') p = Some Running.
Proof.
  intros Hl Hq Hc. unfold SerialPort.handle_interrupt, Port.read_u8. rewrite (lo_com _ _ _ Hl), Hq.
  cbn [fifo_control wake_on_data_ready SerialPort.with_wake SerialPort.new head].
  destruct (line_interrupt_reg base e Hc) as (e1 & x & -> & L1 & L2 & L3 & Hx).
  destruct (Z.eqb_spec (x &u 4) 0) as [|_]; [done|]. cbn [negb].
  destruct (line_ok_signal e1 d p SIG_CONTINUE) as (e' & -> & (S1 & S2) & S3 & S4 & S5 & S6);
    [by rewrite L3|rewrite Hq; left|by right|].
  exists e'. rewrite L3 in *. split_and!; try done; lia.
Qed.

(** The hand-over: the next in the queue runs if there is something to read. *)
Lemma finish_read_spec fuel e d p rest :
  line_ok base (kern e) d -> queue d = p :: rest ->
  exists e' d', @finish_read _ _ _ (com_read_queue fuel) e d = Ret (e', d') /\
    line_ok base (kern e') d' /\ queue d' = rest /\ consumed e' = consumed e /\ arrived e <= arrived e' /\
    cpu (kern e') = cpu (kern e) /\
    (forall j, head rest <> Some j \/ arrived e' <= consumed e' -> state (kern e') j = state (kern e) j) /\
    (forall j, head rest = Some j -> consumed e' < arrived e' -> state (kern e') j = Some Running).
Proof.
  intros Hl Hq. unfold finish_read. cbn [remove_first_in_queue is_data_available get_first_process_in_queue com_read_queue].
  destruct (remove_first_spec e d p rest (lo_com _ _ _ Hl) Hq) as (d' & -> & Hd & Hr).
  assert (Hl' : line_ok base (kern e) d').
  { destruct Hl as [H1 H2 H3 H4 [H5 H6]]. rewrite Hq in *. apply NoDup_cons in H3 as [_ H3].
    split; rewrite ?Hr; try done; [|set_solver]. intros j Hj. apply H4. by right. }
  unfold ComDevice.is_data_available. destruct (has_data_spec e (serial d') _ Hd) as (e1 & -> & Hlt). pose proof Hlt as (L1 & L2 & L3).
  apply (line_ok_later _ e1) in Hl'; [|done].
  unfold ComDevice.get_first_process_in_queue, process_wake. rewrite Hr.
  destruct (Z.ltb_spec (consumed e1) (arrived e1)) as [Hc|Hc].
  - destruct rest as [|q rest].
    + cbn. exists e1, d'. rewrite <- L3. split_and!; try done; try lia.
    + change (nthZ (q :: rest) 0) with (Some q). cbn [mbind comp_bind].
      destruct (line_ok_signal e1 d' q SIG_CONTINUE) as (e' & -> & (S1 & S2) & S3 & S4 & S5 & S6); [done|rewrite Hr; left|by right|].
      cbn [mbind comp_bind]. exists e', d'. rewrite <- L3. split_and!; try done; try lia.
      * intros j [Hj|]; [|lia]. apply S5. intros ->. by apply Hj.
      * intros j [= <-] _. done.
  - cbn [mbind comp_bind]. exists e1, d'. rewrite <- L3. split_and!; try done; try lia.
Qed.

(** ** While the reader sleeps *)

(** A reader that is awake is the first of the queue and has something to read. *)
Record asleep (me : Z) (e : E) (d : ComDevice) : Prop := {
  as_ok : line_ok base (kern e) d;
  as_queued : me ∈ queue d;
  as_turn : state (kern e) me = Some Running -> head (queue d) = Some me /\ consumed e < arrived e;
  as_cpu : cpu (kern e) = Some me -> state (kern e) me = Some Running
}.

(** No byte is taken from the first of the queue. *)
Definition onward (me : Z) (x y : E * ComDevice) : Prop :=
  asleep me y.1 y.2 /\ consumed x.1 <= consumed y.1 /\
  (head (queue x.2) = Some me -> head (queue y.2) = Some me /\ consumed y.1 = consumed x.1).

Lemma head_elem (l : list Z) p : head l = Some p -> exists rest, l = p :: rest.
Proof. destruct l as [|q l]; [done|]. intros [= ->]. by exists l. Qed.

Lemma interrupt_onward me e e' d :
  asleep me e d -> consumed e < arrived e -> SerialPort.handle_interrupt sys_send_signal e (serial d) = Ret e' ->
  onward me (e, d) (e', d).
Proof.
  intros [Hl Hq Ht Hcpu] Hc He. destruct (queue d) as [|p rest] eqn:Hqd; [by apply not_elem_of_nil in Hq|].
  destruct (handle_interrupt_spec e d p rest Hl Hqd Hc) as (e1 & H1 & L1 & L2 & L3 & L4 & L5 & L6). rewrite He in H1. injection H1 as <-.
  unfold onward. cbn [fst snd]. rewrite Hqd. split; [|split; [lia|done]]. split; rewrite ?Hqd, ?L3; try done.
  - intros Hs. split; [|done]. destruct (decide (me = p)) as [->|Hne]; [done|]. rewrite L5 in Hs by done. by apply Ht.
  - intros Hm. destruct (decide (me = p)) as [->|Hne]; [done|]. rewrite L5 by done. by apply Hcpu.
Qed.

Lemma run_onward me e e' d n :
  asleep me e d -> cpu (kern e) <> Some me -> same_line e e' -> kernel_ok (kern e') -> cpu (kern e') = Some n ->
  runnable (kern e') n -> (forall p, p ∈ idle :: queue d -> state (kern e') p = state (kern e) p) -> onward me (e, d) (e', d).
Proof.
  intros [Hl Hq Ht Hcpu] Hnc [S1 S2] Hk Hn Hr Hs. unfold onward. cbn [fst snd]. split; [|split; [lia|done]].
  assert (Hme : state (kern e') me = state (kern e) me) by (apply Hs; by right). split; rewrite ?Hme, ?Hn; try done.
  - destruct Hl as [H1 H2 H3 H4 [H5 H6]]. split; try done; [|split; [done|rewrite Hs; [done|left]]].
    intros p Hp. rewrite Hs by (by right). by apply H4.
  - rewrite S1, S2. done.
  - intros [= ->]. destruct (lo_readers _ _ _ Hl me Hq) as [Hp|Hp]; [|done].
    destruct (runnable_state _ _ _ Hr (eq_trans Hme Hp)) as [|[? ?]]; done.
Qed.

Lemma join_onward me e e1 e' d d' p len :
  asleep me e d -> cpu (kern e) = Some p -> p <> idle -> p ∉ queue d -> state (kern e) p = Some Running ->
  ComDevice.add_process_to_queue e d p = (e1, d', len) -> sys_send_signal e1 p SIG_STOP = Ret e' -> onward me (e, d) (e', d').
Proof.
  intros [Hl Hq Ht Hcpu] Hc Hi Hp Hs Hadd He. destruct (add_process_spec e d p (lo_com _ _ _ Hl)) as (d1 & H1 & Hd & Hq'). rewrite Hadd in H1. injection H1 as -> -> _.
  assert (Hhead : head (queue d1) = head (queue d)).
  { rewrite Hq'. destruct (queue d); [by apply not_elem_of_nil in Hq|done]. }
  assert (Hl' : line_ok base (kern e) d1) by (by eapply line_ok_join).
  assert (Hne : me <> p) by (by intros ->).
  destruct (line_ok_signal e d1 p SIG_STOP) as (e2 & H2 & (S1 & S2) & S3 & S4 & S5 & S6); [done|rewrite Hq'; set_solver|by left|].
  rewrite He in H2. injection H2 as <-. unfold onward. cbn [fst snd]. rewrite Hhead. split; [|split; [lia|done]].
  split; rewrite ?Hhead, ?S1, ?S2, ?S3, ?S5 by done; try done. rewrite Hq'. set_solver.
Qed.

Lemma read_onward me e e' d p fuel buffer buffer' n :
  asleep me e d -> cpu (kern e) = Some p -> p <> me -> head (queue d) = Some p -> lenZ buffer <= Z.of_nat fuel ->
  lenZ buffer < 4294967296 -> ComDevice.read_available_data fuel e d buffer = Ret (e', buffer', n) -> onward me (e, d) (e', d).
Proof.
  intros [Hl Hq Ht Hcpu] Hc Hp Hh Hf Hb He.
  destruct (read_available_data_spec fuel e d buffer (lo_com _ _ _ Hl) Hf Hb) as (e1 & n1 & rest & H1 & G1 & G2 & G3 & G4 & G5 & _).
  rewrite He in H1. injection H1 as <- _ _. unfold onward. cbn [fst snd]. rewrite Hh. split; [|split; [lia|congruence]].
  split; rewrite ?G5; try done. intros Hs. destruct (Ht Hs). congruence.
Qed.

Lemma stop_onward me e e' d p :
  asleep me e d -> p <> me -> p ∈ queue d -> sys_send_signal e p SIG_STOP = Ret e' -> onward me (e, d) (e', d).
Proof.
  intros [Hl Hq Ht Hcpu] Hp Hin He.
  destruct (line_ok_signal e d p SIG_STOP) as (e1 & H1 & (S1 & S2) & S3 & S4 & S5 & S6); [done|done|by left|]. rewrite He in H1. injection H1 as <-.
  unfold onward. cbn [fst snd]. split; [|split; [lia|done]]. split; rewrite ?S1, ?S2, ?S3, ?S5 by done; done.
Qed.

Lemma finish_onward me e e' d d' p fuel :
  asleep me e d -> p <> me -> head (queue d) = Some p -> @finish_read _ _ _ (com_read_queue fuel) e d = Ret (e', d') ->
  onward me (e, d) (e', d').
Proof.
  intros [Hl Hq Ht Hcpu] Hp Hh He. apply head_elem in Hh as [rest Hqd].
  destruct (finish_read_spec fuel e d p rest Hl Hqd) as (e1 & d1 & H1 & F1 & F2 & F3 & F4 & F5 & F6 & F7). rewrite He in H1. injection H1 as <- <-.
  unfold onward. cbn [fst snd]. rewrite Hqd in *. split; [|split; [lia|cbn; congruence]].
  assert (Hnr : state (kern e) me <> Some Running) by (intros Hs; destruct (Ht Hs); cbn in *; congruence).
  split; rewrite ?F5, ?F2; try done.
  - apply elem_of_cons in Hq as [->|]; done.
  - intros Hs. destruct (decide (head rest = Some me)) as [Hm|Hm].
    + split; [done|]. destruct (Z.lt_ge_cases (consumed e') (arrived e')) as [|Hge]; [done|]. rewrite F6 in Hs by (by right). done.
    + rewrite F6 in Hs by (by left). done.
  - intros Hc. by apply Hcpu in Hc.
Qed.

Lemma elsewhere_onward me x y : elsewhere me x y -> asleep me x.1 x.2 -> onward me x y.
Proof.
  intros Hs Ha. destruct Hs as [e e' d H1 H2 H3| | | | | | ]; cbn [fst snd] in Ha;
    eauto using interrupt_onward, run_onward, join_onward, read_onward, stop_onward, finish_onward.
  destruct Ha as [Hl Hq Ht Hcpu]. unfold onward. cbn [fst snd]. split; [|split; [lia|done]].
  split; rewrite ?H3; try done. intros Hr. split; [by apply Ht|]. destruct (Ht Hr). lia.
Qed.

Lemma elsewhere_rtc me x y : rtc (elsewhere me) x y -> asleep me x.1 x.2 -> onward me x y.
Proof.
  induction 1 as [x|x y z Hs _ IH]; intros Ha; [split; [done|]; split; [lia|done]|].
  destruct (elsewhere_onward me x y Hs Ha) as (A1 & A2 & A3). destruct (IH A1) as (B1 & B2 & B3).
  split; [done|]. split; [lia|]. intros Hh. destruct (A3 Hh) as [Hh' ?]. destruct (B3 Hh'). split; [done|lia].
Qed.

(** ** The reader *)

Context `{!Line E base}.

(** It has the processor and is the first of the queue. *)
Record in_turn (me : Z) (e : E) (d : ComDevice) : Prop := {
  it_ok : line_ok base (kern e) d;
  it_first : head (queue d) = Some me;
  it_cpu : cpu (kern e) = Some me;
  it_state : state (kern e) me = Some Running
}.

Lemma in_turn_kern me e e' d : in_turn me e d -> kern e' = kern e -> in_turn me e' d.
Proof. intros [H1 H2 H3 H4] Hk. by split; rewrite ?Hk. Qed.

(** A process that stops in the queue comes back in its turn and with something to read. *)
Lemma process_wait_spec me e d :
  line_ok base (kern e) d -> me ∈ queue d -> cpu (kern e) = Some me ->
  exists e' d', process_wait e d me = Ret (e', d') /\ in_turn me e' d' /\ consumed e <= consumed e' /\ consumed e' < arrived e' /\
    (head (queue d) = Some me -> consumed e' = consumed e).
Proof.
  intros Hl Hq Hc. unfold process_wait.
  destruct (line_ok_signal e d me SIG_STOP) as (e1 & -> & (S1 & S2) & S3 & S4 & S5 & S6); [done|done|by left|]. cbn [mbind comp_bind].
  assert (Hstop : stopped base me e1 d) by (split; rewrite ?S3; done).
  destruct (line_yield base me e1 d Hstop) as (e2 & e' & d' & Hy & (Y1 & Y2) & Hrtc & Hc' & ->).
  destruct (yield_coop_state (kern e1) idle (lo_kernel _ _ _ S4)) as (k2 & n & Hk & K1 & K2 & K3 & K4);
    [apply running_runnable, (lo_idle _ _ _ S4)|]. rewrite Hy in Hk. injection Hk as <-.
  assert (Ha : asleep me e2 d).
  { split; rewrite ?K4; try done.
    - destruct S4 as [H1 H2 H3 H4 H5]. split; rewrite ?K4; try done. intros p. rewrite K4. apply H4.
    - by rewrite S6.
    - rewrite K2. intros [= ->]. by destruct (runnable_state _ _ _ K3 S6) as [|[? ?]]. }
  destruct (elsewhere_rtc me _ _ Hrtc Ha) as ([A1 A2 A3 A4] & B2 & B3). cbn [fst snd] in *.
  destruct (A3 (A4 Hc')) as [A5 A6]. exists e', d'. split; [done|]. split; [split; auto|]. split; [lia|]. split; [done|].
  intros Hh. destruct (B3 Hh). lia.
Qed.

(** It fills its buffer with the bytes that come next. *)
Lemma read_loop_in_turn F fuel me e d partial br :
  in_turn me e d -> lenZ partial <= Z.of_nat F ->
  lenZ partial = 0 \/ lenZ partial + (if consumed e <? arrived e then 0 else 1) <= Z.of_nat fuel ->
  0 <= br -> br + lenZ partial < 4294967296 ->
  exists e' d', @read_loop _ _ _ (com_read_queue F) fuel e d me partial br =
      Ret (e', d', wire <$> seqZ (consumed e) (lenZ partial), br + lenZ partial) /\
    consumed e' = consumed e + lenZ partial /\ in_turn me e' d'.
Proof.
  revert e d partial br. induction fuel as [|fuel IH]; intros e d partial br Ht HF Hf Hb1 Hb2;
    pose proof (lenZ_nonneg partial) as Hp; cbn [read_loop]; destruct (Z.eqb_spec (lenZ partial) 0) as [E0|Hne].
  1,3: exists e, d; by rewrite E0, !Z.add_0_r.
  { destruct (consumed e <? arrived e); lia. }
  pose proof (lo_com _ _ _ (it_ok _ _ _ Ht)) as Hd. cbn [read_available_data is_data_available com_read_queue].
  destruct (read_available_data_spec F e d partial Hd) as (e1 & n & rest1 & -> & G1 & G2 & G3 & G4 & G5 & G6); [lia|lia|].
  apply (in_turn_kern _ _ e1) in Ht; [|done]. cbn [mbind comp_bind].
  assert (Hn : length (wire <$> seqZ (consumed e) n) = Z.to_nat n) by (rewrite length_fmap, length_seqZ; lia).
  rewrite <- Hn. rewrite take_app_length, drop_app_length. rewrite u32_small by (mach_unfold; lia).
  assert (Hstep : exists e2 d2, (if 0 <? lenZ rest1 then
      let '(e0, avail) := ComDevice.is_data_available e1 d in if negb avail then process_wait e0 d me else Ret (e0, d)
      else Ret (e1, d)) = Ret (e2, d2) /\ consumed e2 = consumed e1 /\ in_turn me e2 d2 /\
      (0 < lenZ rest1 -> consumed e2 < arrived e2)).
  { destruct (Z.ltb_spec 0 (lenZ rest1)); [|exists e1, d; split_and!; try done; lia].
    unfold ComDevice.is_data_available. destruct (has_data_spec e1 (serial d) _ Hd) as (e2 & -> & (L1 & L2 & L3)).
    apply (in_turn_kern _ _ e2) in Ht; [|done]. destruct (Z.ltb_spec (consumed e2) (arrived e2)); cbn [negb]; [by exists e2, d|].
    destruct Ht as [T1 T2 T3 T4]. destruct (process_wait_spec me e2 d T1) as (e3 & d3 & -> & W1 & W2 & W3 & W4); [|done|].
    - destruct (head_elem _ _ T2) as [r ->]. left.
    - exists e3, d3. split; [done|]. split; [by rewrite W4|]. done. }
  destruct Hstep as (e2 & d2 & -> & S1 & S2 & S3). cbn [mbind comp_bind].
  destruct (IH e2 d2 rest1 (br + n)) as (e' & d' & -> & T1 & T2); [done|lia| |lia|lia|].
  { assert (Hnil : partial <> []) by (intros ->; done). specialize (fun H => G6 H Hnil) as G7. pose proof (lenZ_nonneg rest1).
    destruct (Z.ltb_spec (consumed e2) (arrived e2)); destruct (Z.ltb_spec (consumed e) (arrived e)); lia. }
  cbn [mbind comp_bind]. exists e', d'. split; [|split; [lia|done]]. f_equal. f_equal; [f_equal|lia].
  rewrite S1, G3, <- fmap_app. f_equal. rewrite G2. replace (lenZ partial) with (n + (lenZ partial - n)) at 2 by lia.
  symmetry. apply seqZ_app; lia.
Qed.

(** The beginning of a blocking read: the process queues up and waits for its turn. *)
Lemma queue_up_spec F fuel me e d :
  line_ok base (kern e) d -> cpu (kern e) = Some me -> state (kern e) me = Some Running -> me <> idle -> me ∉ queue d ->
  exists e' d', (let '(e0, d0, len) := ComDevice.add_process_to_queue e d me in
      '(e0, d0) ← (if 1 <? len then process_wait e0 d0 me else Ret (e0, d0));
      @wait_for_turn _ _ _ (com_read_queue F) fuel e0 d0 me) = Ret (e', d') /\
    in_turn me e' d' /\ consumed e <= consumed e' /\ (queue d = [] -> consumed e' = consumed e).
Proof.
  intros Hl Hc Hs Hi Hn. destruct (add_process_spec e d me (lo_com _ _ _ Hl)) as (d1 & -> & Hd & Hq).
  assert (Hl1 : line_ok base (kern e) d1) by (by eapply line_ok_join).
  assert (Hturn : forall e' d', in_turn me e' d' -> @wait_for_turn _ _ _ (com_read_queue F) fuel e' d' me = Ret (e', d')).
  { intros e' d' [_ Hh _ _]. destruct (head_elem _ _ Hh) as [r Hr]. destruct fuel; cbn [wait_for_turn get_first_process_in_queue com_read_queue];
      unfold ComDevice.get_first_process_in_queue; rewrite Hr; by rewrite bool_decide_true. }
  pose proof (lenZ_nonneg (queue d)). destruct (Z.ltb_spec 1 (lenZ (queue d) + 1)).
  - destruct (process_wait_spec me e d1 Hl1) as (e' & d' & -> & W1 & W2 & W3 & W4); [rewrite Hq; set_solver|done|].
    cbn [mbind comp_bind]. rewrite Hturn by done. exists e', d'. split_and!; try done. intros Hnil.
    exfalso. match goal with Hlt : 1 < _ |- _ => rewrite Hnil in Hlt; by vm_compute in Hlt end.
  - assert (Hnil : queue d = []) by (destruct (queue d) as [|p q]; [done|]; rewrite lenZ_cons in *; pose proof (lenZ_nonneg q); lia).
    rewrite Hnil in Hq. cbn [mbind comp_bind]. assert (Ht : in_turn me e d1) by (split; rewrite ?Hq; done).
    rewrite Hturn by done. exists e, d1. split_and!; try done; lia.
Qed.

End line.

(** * Witness *)

(** A UART whose bytes arrive one at a time, when somebody waits for one. *)
Record DemoUart : Type := mkDemoUart { u_arrived : Z; u_consumed : Z; u_kern : Kernel }.

#[local] Instance demo_uart_ports : Ports DemoUart := {
  inb u port :=
    if port =? 0x3fd then (u, if u_consumed u <? u_arrived u then 1 else 0)
    else if port =? 0x3fa then (u, if u_consumed u <? u_arrived u then 0xc4 else 0xc1)
    else if u_consumed u <? u_arrived u then (mkDemoUart (u_arrived u) (u_consumed u + 1) (u_kern u), u8 (3 * u_consumed u))
    else (u, 0);
  outb u port value := u
}.

Definition demo_send (u : DemoUart) (p sig : Z) : comp DemoUart :=
  k ← send_signal (u_kern u) p sig; Ret (mkDemoUart (u_arrived u) (u_consumed u) k).
Definition demo_arrive (u : DemoUart) : DemoUart := mkDemoUart (Z.max (u_arrived u) (u_consumed u + 1)) (u_consumed u) (u_kern u).
Definition demo_switch (u : DemoUart) (p : Z) : DemoUart :=
  match PROCESS_MAP (u_kern u) with
  | Some m => mkDemoUart (u_arrived u) (u_consumed u) (with_map (u_kern u) (ProcessMap.make_current m p))
  | None => u
  end.

(** The part of a system that [finish_read] needs. *)
Definition demo_signals : System DemoUart ComDevice := {|
  sys_current_pid u := get_current_pid (u_kern u);
  sys_send_signal := demo_send;
  sys_yield u d := Ret (u, d);
  sys_sleep u d ms := Ret (u, d)
|}.

(** While [me] sleeps, a byte arrives for the first of the queue, which has enough with it
    unless it is [me]. *)
Fixpoint demo_serve (fuel : nat) (me : Z) (u : DemoUart) (d : ComDevice) : comp (DemoUart * ComDevice) :=
  u ← SerialPort.handle_interrupt demo_send (demo_arrive u) (serial d);
  match queue d with
  | p :: _ =>
      let u := demo_switch u p in
      if p =? me then Ret (u, d)
      else match fuel with
           | O => OutOfFuel
           | S fuel => '(u, d) ← @finish_read _ _ demo_signals (@com_read_queue _ demo_signals 0) u d; demo_serve fuel me u d
           end
  | [] => OutOfFuel
  end.
Definition demo_yield (u : DemoUart) (d : ComDevice) : comp (DemoUart * ComDevice) :=
  me ← get_current_pid (u_kern u);
  k ← yield_coop (u_kern u);
  demo_serve (length (queue d)) me (mkDemoUart (u_arrived u) (u_consumed u) k) d.

#[local] Instance demo_system : System DemoUart ComDevice := {
  sys_current_pid u := get_current_pid (u_kern u);
  sys_send_signal := demo_send;
  sys_yield := demo_yield;
  sys_sleep u d ms := Ret (u, d)
}.
#[local] Instance demo_line_state : LineState DemoUart := {
  wire n := u8 (3 * n); arrived := u_arrived; consumed := u_consumed; kern := u_kern; idle := 0 }.

#[local] Instance demo_uart : Uart DemoUart 0x3f8.
Proof.
  split; cbn [inb demo_uart_ports demo_system sys_ports arrived consumed kern demo_line_state sys_current_pid sys_send_signal].
  - intros u. eexists _, _. split; [reflexivity|]. split_and!; try done. by destruct (u_consumed u <? u_arrived u).
  - intros u Hu. cbn. destruct (Z.ltb_spec (u_consumed u) (u_arrived u)); [|lia]. eexists. split; [reflexivity|]. cbn. split_and!; [lia..|done].
  - intros u Hu. cbn. destruct (Z.ltb_spec (u_consumed u) (u_arrived u)); [|lia]. eexists _, _. split; [reflexivity|]. split_and!; [done|lia|done|done].
  - done.
  - intros u p sig k' Hk. unfold demo_send. rewrite Hk. cbn [mbind comp_bind]. by eexists.
Qed.

Lemma demo_switch_run u d p me :
  line_ok 0x3f8 (u_kern u) d -> state (u_kern u) p = Some Running -> cpu (u_kern u) <> Some me ->
  cpu (u_kern (demo_switch u p)) = Some p /\ line_ok 0x3f8 (u_kern (demo_switch u p)) d /\
  elsewhere me (u, d) (demo_switch u p, d).
Proof.
  intros Hl Hs Hc. destruct (lo_kernel _ _ _ Hl) as (m & Hk & Hm). unfold state in Hs. rewrite Hk in Hs.
  destruct (ProcessMap.get_process m p) as [q|] eqn:Hq; [|done].
  assert (Hst : forall j, state (u_kern (demo_switch u p)) j = state (u_kern u) j) by (intros j; unfold state, demo_switch; by rewrite Hk).
  assert (Hok : kernel_ok (u_kern (demo_switch u p))).
  { unfold demo_switch. rewrite Hk. eexists. split; [done|]. destruct Hm. split; [done..|]. by exists q. }
  assert (Hcpu : cpu (u_kern (demo_switch u p)) = Some p) by (unfold cpu, demo_switch; by rewrite Hk).
  split; [done|]. split.
  - destruct Hl as [H1 H2 H3 H4 H5]. split; rewrite ?Hst; try done. intros j Hj. rewrite Hst. by apply H4.
  - apply (ew_run _ _ _ _ p); try done.
    + unfold demo_switch. by rewrite Hk.
    + apply running_runnable. cbn. rewrite Hst. unfold state. by rewrite Hk, Hq.
Qed.

Lemma demo_serve_reaches me fuel u d :
  line_ok 0x3f8 (u_kern u) d -> me ∈ queue d -> (length (queue d) <= fuel)%nat -> cpu (u_kern u) <> Some me ->
  exists u' d', demo_serve fuel me u d = Ret (u', d') /\ rtc (elsewhere me) (u, d) (u', d') /\ cpu (u_kern u') = Some me.
Proof.
  revert u d. induction fuel as [|fuel IH]; intros u d Hl Hin Hlen Hc;
    (destruct (queue d) as [|p rest] eqn:Hq; [by apply not_elem_of_nil in Hin|]); [cbn in Hlen; lia|].
  assert (Ha : elsewhere me (u, d) (demo_arrive u, d)) by (apply ew_arrive; cbn; [done|lia|done]).
  destruct (handle_interrupt_spec (base := 0x3f8) (demo_arrive u) d p rest Hl Hq) as (u1 & Hi & L1 & L2 & L3 & L4 & _ & L6); [cbn; lia|].
  assert (Hint : elsewhere me (demo_arrive u, d) (u1, d)) by (apply ew_interrupt; [cbn; lia|done]).
  cbn [kern demo_line_state] in *. change (u_kern (demo_arrive u)) with (u_kern u) in L3.
  destruct (demo_switch_run u1 d p me) as (S1 & S2 & S3); [done|done|by rewrite L3|].
  assert (Hpre : rtc (elsewhere me) (u, d) (demo_switch u1 p, d)) by (do 3 (eapply rtc_l; [eassumption|]); apply rtc_refl).
  change (@SerialPort.handle_interrupt _ demo_uart_ports demo_send (demo_arrive u) (serial d) = Ret u1) in Hi.
  cbn [demo_serve]. rewrite Hi. cbn [mbind comp_bind]. rewrite Hq.
  destruct (Z.eqb_spec p me) as [->|Hne]; [by eauto|].
  destruct (finish_read_spec (base := 0x3f8) 0 (demo_switch u1 p) d p rest S2 Hq) as (u2 & d2 & Hf & F1 & F2 & _ & _ & F5 & _).
  change (@finish_read _ _ demo_signals (@com_read_queue _ demo_signals 0)) with (@finish_read _ _ demo_system (com_read_queue 0)).
  rewrite Hf. cbn [mbind comp_bind]. destruct (IH u2 d2) as (u' & d' & -> & R1 & R2); [done|..].
  - rewrite F2. apply elem_of_cons in Hin as [->|]; done.
  - rewrite F2. cbn in Hlen. lia.
  - change (kern u2) with (u_kern u2) in F5. rewrite F5. change (kern ?x) with (u_kern x). rewrite S1. congruence.
  - exists u', d'. split; [done|]. split; [|done]. etrans; [exact Hpre|]. eapply rtc_l; [|exact R1].
    eapply (ew_finish _ _ _ _ _ p 0); [exact S1|done|by rewrite Hq|done].
Qed.

#[local] Instance demo_line : Line DemoUart 0x3f8.
Proof.
  split. intros me u d [Hl Hq Hs Hc].
  destruct (yield_coop_state (u_kern u) 0 (lo_kernel _ _ _ Hl)) as (k1 & n & Hk & K1 & K2 & K3 & K4);
    [apply running_runnable, (lo_idle _ _ _ Hl)|].
  set (u1 := mkDemoUart (u_arrived u) (u_consumed u) k1).
  assert (Hl1 : line_ok 0x3f8 (u_kern u1) d).
  { destruct Hl as [H1 H2 H3 H4 H5]. split; cbn [u1 u_kern]; rewrite ?K4; try done. intros p. rewrite K4. apply H4. }
  assert (Hn : cpu (u_kern u1) <> Some me).
  { cbn [u1 u_kern]. rewrite K2. intros [= ->]. by destruct (runnable_state _ _ _ K3 Hs) as [|[? ?]]. }
  destruct (demo_serve_reaches me (length (queue d)) u1 d Hl1 Hq) as (u' & d' & Hd & R1 & R2); [lia|done|].
  exists u1, u', d'. split; [done|]. split; [done|]. split; [done|]. split; [done|]. cbn [sys_yield demo_system]. unfold demo_yield.
  assert (Hpid : get_current_pid (u_kern u) = Ret me).
  { unfold get_current_pid, all_processes, cpu in *. cbn [kern demo_line_state] in Hc. destruct (PROCESS_MAP (u_kern u)); [|done]. by injection Hc as <-. }
  rewrite Hpid, Hk. exact Hd.
Qed.

(** Process 2 queues up behind process 1, which sleeps. *)
Definition demo_readers : DemoUart :=
  mkDemoUart 1 1 (with_map demo_kernel_state
    (Signals.update (demo_processes 2) (ProcessState.with_run_state (demo_process 1 0 (Blocked (BlockChild 2))) Paused))).
Definition demo_queue : ComDevice := mkComDevice (SerialPort.with_wake (SerialPort.new 0x3f8) (Some 1)) [1].

