(* ===== verification/Vfs.v ===== *)
(** The virtual file system: [filesystems/filesystem.rs] and [filesystems/mod.rs].

    The trait [FileSystem] is a class; the four file systems of the kernel are its instances
    and [AnyFs] is the boxed file system the map holds.  What file systems share (memory, the
    driver registry, the pipes) is the [World] every operation passes on. *)

From S2P Require Import Prelude Memory Files Drivers DevFs InitFs Pipes Fat12 Fat12Fs.

(** Directory records are objects of the caller, whose layout in memory Rust leaves open. *)
Record World (D : Type) : Type := mkWorld {
  w_mem : mem;
  w_infos : gmap Z DirEntryInfo;
  w_drivers : DeviceDrivers D;
  w_pipes : option PipeCollection
}.
Arguments mkWorld {D}. Arguments w_mem {D}. Arguments w_infos {D}. Arguments w_drivers {D}. Arguments w_pipes {D}.

Definition set_mem {D} (w : World D) (m : mem) : World D := mkWorld m (w_infos w) (w_drivers w) (w_pipes w).
Definition set_info {D} (w : World D) (a : Z) (i : DirEntryInfo) : World D :=
  mkWorld (w_mem w) (<[a := i]> (w_infos w)) (w_drivers w) (w_pipes w).
Definition set_drivers {D} (w : World D) (r : DeviceDrivers D) : World D := mkWorld (w_mem w) (w_infos w) r (w_pipes w).
Definition set_pipes {D} (w : World D) (p : option PipeCollection) : World D :=
  mkWorld (w_mem w) (w_infos w) (w_drivers w) p.

Class FileSystem (D F : Type) := {
  fs_open : F -> World D -> list Z -> comp (F * World D * result Z unit);
  fs_read : F -> World D -> Z -> list Z -> comp (F * World D * list Z * result Z unit);
  fs_write : F -> World D -> Z -> list Z -> comp (F * World D * result Z unit);
  fs_close : F -> World D -> Z -> comp (F * World D * result unit unit);
  fs_dup : F -> World D -> Z -> comp (F * World D * result Z unit);
  fs_seek : F -> World D -> Z -> SeekMethod -> comp (F * World D * result Z unit);
  fs_open_dir : F -> World D -> list Z -> comp (F * World D * result Z unit);
  fs_read_dir : F -> World D -> Z -> Z -> DirEntryInfo -> comp (F * World D * DirEntryInfo * result unit unit);
  fs_ioctl : F -> World D -> Z -> Z -> Z -> comp (F * World D * result Z unit)
}.

(** The trait's own [ioctl]. *)
Definition default_ioctl {D F} (f : F) (w : World D) (handle command arg : Z) : comp (F * World D * result Z unit) :=
  Ret (f, w, Err tt).

(** * The instances *)

Section instances.
Context {D : Type} `{DeviceDriver D}.

#[global] Instance dev_fs : FileSystem D DevFileSystem := {
  fs_open f w path :=
    '(f, reg, r) ← DevFileSystem.open f (w_drivers w) path; Ret (f, set_drivers w reg, r);
  fs_read f w handle buffer :=
    '(reg, buffer, r) ← DevFileSystem.read f (w_drivers w) handle buffer; Ret (f, set_drivers w reg, buffer, r);
  fs_write f w handle buffer :=
    '(reg, r) ← DevFileSystem.write f (w_drivers w) handle buffer; Ret (f, set_drivers w reg, r);
  fs_close f w handle := Ret (f, w, DevFileSystem.close f handle);
  fs_dup f w handle := let '(f, r) := DevFileSystem.dup f handle in Ret (f, w, r);
  fs_seek f w handle offset :=
    '(reg, r) ← DevFileSystem.seek f (w_drivers w) handle offset; Ret (f, set_drivers w reg, r);
  fs_open_dir f w path := Ret (f, w, DevFileSystem.open_dir f path);
  fs_read_dir f w handle index info := Ret (f, w, info, DevFileSystem.read_dir f handle index);
  fs_ioctl f w handle command arg := Ret (f, w, DevFileSystem.ioctl f handle command arg)
}.

(** The pipe file system holds a reference to the collection that [PIPES] holds as well. *)
Inductive PipeFs : Type := mkPipeFs.

#[global] Instance pipe_fs : FileSystem D PipeFs := {
  fs_open f w path := c ← unwrap (w_pipes w); Ret (f, w, PipeFileSystem.open c path);
  fs_read f w handle buffer :=
    c ← unwrap (w_pipes w);
    '(c, buffer, r) ← PipeFileSystem.read c handle buffer; Ret (f, set_pipes w (Some c), buffer, r);
  fs_write f w handle buffer :=
    c ← unwrap (w_pipes w);
    '(c, r) ← PipeFileSystem.write c handle buffer; Ret (f, set_pipes w (Some c), r);
  fs_close f w handle := c ← unwrap (w_pipes w); Ret (f, w, PipeFileSystem.close c handle);
  fs_dup f w handle := c ← unwrap (w_pipes w); Ret (f, w, PipeFileSystem.dup c handle);
  fs_seek f w handle offset := c ← unwrap (w_pipes w); Ret (f, w, PipeFileSystem.seek c handle offset);
  fs_open_dir f w path := c ← unwrap (w_pipes w); Ret (f, w, PipeFileSystem.open_dir c path);
  fs_read_dir f w handle index info := c ← unwrap (w_pipes w); Ret (f, w, info, PipeFileSystem.read_dir c handle index);
  fs_ioctl f w handle command arg :=
    c ← unwrap (w_pipes w);
    let '(m, r) := PipeFileSystem.ioctl c (w_mem w) handle command arg in Ret (f, set_mem w m, r)
}.

(** [fuel] bounds the walk over the archive, and over cluster chains and directories. *)
Context (fuel : nat).

#[local] Instance init_fs_instance : FileSystem D InitFileSystem := {
  fs_open f w path := '(f, r) ← InitFileSystem.open (w_mem w) fuel f path; Ret (f, w, r);
  fs_read f w handle buffer :=
    '(f, buffer, r) ← InitFileSystem.read (w_mem w) f handle buffer; Ret (f, w, buffer, r);
  fs_write f w handle buffer := Ret (f, w, InitFileSystem.write f handle buffer);
  fs_close f w handle := Ret (f, w, InitFileSystem.close f handle);
  fs_dup f w handle := Ret (f, w, InitFileSystem.dup f handle);
  fs_seek f w handle offset := let '(f, r) := InitFileSystem.seek f handle offset in Ret (f, w, r);
  fs_open_dir f w path := Ret (f, w, InitFileSystem.open_dir f path);
  fs_read_dir f w handle index info := Ret (f, w, info, InitFileSystem.read_dir f handle index);
  fs_ioctl f w handle command arg := Ret (f, w, InitFileSystem.ioctl f handle command arg)
}.

#[local] Instance fat12_fs_instance : FileSystem D Fat12FileSystem := {
  fs_open f w path :=
    '(f, reg, r) ← Fat12FileSystem.open fuel f (w_drivers w) path; Ret (f, set_drivers w reg, r);
  fs_read f w handle buffer := Ret (f, w, buffer, Fat12FileSystem.read f handle buffer);
  fs_write f w handle buffer := Ret (f, w, Fat12FileSystem.write f handle buffer);
  fs_close f w handle := Ret (f, w, Fat12FileSystem.close f handle);
  fs_dup f w handle := Ret (f, w, Fat12FileSystem.dup f handle);
  fs_seek f w handle offset := Ret (f, w, Fat12FileSystem.seek f handle offset);
  fs_open_dir f w path := let '(f, r) := Fat12FileSystem.open_dir f path in Ret (f, w, r);
  fs_read_dir f w handle index info :=
    '(f, reg, info, r) ← Fat12FileSystem.read_dir f (w_drivers w) handle index info; Ret (f, set_drivers w reg, info, r);
  fs_ioctl := default_ioctl
}.

(** [Box<FileSystemType>]: dynamic dispatch to one of the four. *)
Inductive AnyFs : Type :=
| FsDev (f : DevFileSystem) | FsPipe (f : PipeFs) | FsInit (f : InitFileSystem) | FsFat (f : Fat12FileSystem).

Definition dispatch {A} (op : forall F, FileSystem D F -> F -> comp (F * A)) (f : AnyFs) : comp (AnyFs * A) :=
  match f with
  | FsDev f => '(f, a) ← op _ dev_fs f; Ret (FsDev f, a)
  | FsPipe f => '(f, a) ← op _ pipe_fs f; Ret (FsPipe f, a)
  | FsInit f => '(f, a) ← op _ init_fs_instance f; Ret (FsInit f, a)
  | FsFat f => '(f, a) ← op _ fat12_fs_instance f; Ret (FsFat f, a)
  end.

#[local] Instance any_fs : FileSystem D AnyFs := {
  fs_open f w path :=
    '(f, (w, r)) ← dispatch (fun F _ f => '(f, w, r) ← fs_open f w path; Ret (f, (w, r))) f; Ret (f, w, r);
  fs_read f w handle buffer :=
    '(f, (w, b, r)) ← dispatch (fun F _ f => '(f, w, b, r) ← fs_read f w handle buffer; Ret (f, (w, b, r))) f; Ret (f, w, b, r);
  fs_write f w handle buffer :=
    '(f, (w, r)) ← dispatch (fun F _ f => '(f, w, r) ← fs_write f w handle buffer; Ret (f, (w, r))) f; Ret (f, w, r);
  fs_close f w handle :=
    '(f, (w, r)) ← dispatch (fun F _ f => '(f, w, r) ← fs_close f w handle; Ret (f, (w, r))) f; Ret (f, w, r);
  fs_dup f w handle :=
    '(f, (w, r)) ← dispatch (fun F _ f => '(f, w, r) ← fs_dup f w handle; Ret (f, (w, r))) f; Ret (f, w, r);
  fs_seek f w handle offset :=
    '(f, (w, r)) ← dispatch (fun F _ f => '(f, w, r) ← fs_seek f w handle offset; Ret (f, (w, r))) f; Ret (f, w, r);
  fs_open_dir f w path :=
    '(f, (w, r)) ← dispatch (fun F _ f => '(f, w, r) ← fs_open_dir f w path; Ret (f, (w, r))) f; Ret (f, w, r);
  fs_read_dir f w handle index info :=
    '(f, (w, i, r)) ← dispatch (fun F _ f => '(f, w, i, r) ← fs_read_dir f w handle index info; Ret (f, (w, i, r))) f;
    Ret (f, w, i, r);
  fs_ioctl f w handle command arg :=
    '(f, (w, r)) ← dispatch (fun F _ f => '(f, w, r) ← fs_ioctl f w handle command arg; Ret (f, (w, r))) f; Ret (f, w, r)
}.

End instances.

(** * The map of file systems *)

Record NamedFileSystem (F : Type) : Type := Named { named_name : list Z; named_fs : F }.
Arguments Named {F}. Arguments named_name {F}. Arguments named_fs {F}.

Definition FileSystemMap (F : Type) : Type := list (NamedFileSystem F).

Module FileSystemMap.
Section map.
Context {F : Type}.

Definition matches_name (e : NamedFileSystem F) (name : list Z) : bool := bool_decide (named_name e = name).

Definition new : FileSystemMap F := [].

Definition register_fs (m : FileSystemMap F) (name : list Z) (fs : F) : FileSystemMap F * result Z unit :=
  let m := m ++ [Named name fs] in
  (m, Ok (lenZ m - 1)).

Fixpoint number_loop (l : FileSystemMap F) (name : list Z) (index : Z) : option Z :=
  match l with
  | [] => None
  | entry :: l => if matches_name entry name then Some index else number_loop l name (index +u 1)
  end.
Definition get_fs_number (m : FileSystemMap F) (name : list Z) : option Z := number_loop m name 0.

Definition get_fs (m : FileSystemMap F) (index : Z) : option F := named_fs <$> nthZ m index.

(** The shared file system after an operation. *)
Definition put_fs (m : FileSystemMap F) (index : Z) (f : F) : FileSystemMap F :=
  match nthZ m index with Some e => setZ m index (Named (named_name e) f) | None => m end.
End map.
End FileSystemMap.

(** [init_fs] makes the map with the device and pipe file systems; [PIPE_FS] and [DEV_FS] are
    the numbers it stores. *)
Record Statics : Type := mkStatics { DEV_FS : Z; PIPE_FS : Z }.

Definition DEV_NAME : list Z := [68; 69; 86].
Definition PIPE_NAME : list Z := [80; 73; 80; 69].

Definition init_fs {D} (vfs : FileSystemMap AnyFs) (w : World D) : comp (FileSystemMap AnyFs * World D * Statics) :=
  let '(vfs, dev) := FileSystemMap.register_fs vfs DEV_NAME (FsDev DevFileSystem.new) in
  dev_number ← match dev with Ok n => Ret n | Err _ => Panic end;
  let w := set_pipes w create_fs in
  let '(vfs, pipe) := FileSystemMap.register_fs vfs PIPE_NAME (FsPipe mkPipeFs) in
  pipe_number ← match pipe with Ok n => Ret n | Err _ => Panic end;
  Ret (vfs, w, mkStatics dev_number pipe_number).

(** * Lookups *)

Section lookups.
Context {F : Type}.
Implicit Type m : FileSystemMap F.

Lemma number_loop_spec m name i :
  0 <= i -> i + lenZ m < 4294967296 ->
  match FileSystemMap.number_loop m name i with
  | Some n => i <= n < i + lenZ m /\ named_name <$> nthZ m (n - i) = Some name /\
      forall j, 0 <= j < n - i -> named_name <$> nthZ m j <> Some name
  | None => name ∉ (named_name <$> m)
  end.
Proof.
  revert i. induction m as [|[nm f] m IH]; intros i Hi Hl; [cbn; set_solver|].
  pose proof (lenZ_cons (Named nm f) m) as Hc. pose proof (lenZ_nonneg m). rewrite Hc in *.
  cbn [FileSystemMap.number_loop]. unfold FileSystemMap.matches_name. cbn [named_name]. case_bool_decide as Hn.
  - subst nm. rewrite Z.sub_diag. split; [lia|]. split; [done|]. intros j Hj. lia.
  - rewrite u32_small by (mach_unfold; lia). specialize (IH (i + 1) ltac:(lia) ltac:(lia)).
    destruct (FileSystemMap.number_loop m name (i + 1)) as [n|]; [|cbn; set_solver].
    destruct IH as (H1 & H2 & H3).
    assert (Hs : forall j, 0 < j -> nthZ (Named nm f :: m) j = nthZ m (j - 1)).
    { intros j Hj. unfold nthZ. destruct (Z.leb_spec 0 j), (Z.leb_spec 0 (j - 1)); try lia.
      replace (Z.to_nat j) with (S (Z.to_nat (j - 1))) by lia. done. }
    split; [lia|]. split.
    + rewrite Hs by lia. by replace (n - i - 1) with (n - (i + 1)) by lia.
    + intros j Hj. destruct (Z.eq_dec j 0) as [->|]; [change (Some nm <> Some name); congruence|]. rewrite Hs by lia. apply H3. lia.
Qed.

Lemma get_put_fs m n f f' k :
  FileSystemMap.get_fs m n = Some f ->
  FileSystemMap.get_fs (FileSystemMap.put_fs m n f') k = if k =? n then Some f' else FileSystemMap.get_fs m k.
Proof.
  unfold FileSystemMap.get_fs, FileSystemMap.put_fs. destruct (nthZ m n) as [[nm g]|] eqn:E; [|done]. intros _.
  rewrite nthZ_setZ_in by (by eapply nthZ_Some). rewrite Z.eqb_sym. by destruct (k =? n).
Qed.

Lemma put_fs_numbers m n f' name : FileSystemMap.get_fs_number (FileSystemMap.put_fs m n f') name = FileSystemMap.get_fs_number m name.
Proof.
  unfold FileSystemMap.get_fs_number, FileSystemMap.put_fs. destruct (nthZ m n) as [[nm g]|] eqn:E; [|done].
  assert (Hk : (named_name <$> setZ m n (Named nm f')) = (named_name <$> m)).
  { unfold setZ, nthZ in *. destruct (0 <=? n); [|done]. rewrite list_fmap_insert. cbn. apply list_insert_id.
    by rewrite list_lookup_fmap, E. }
  assert (Hext : forall (l k : FileSystemMap F) i, (named_name <$> l) = (named_name <$> k) -> FileSystemMap.number_loop l name i = FileSystemMap.number_loop k name i).
  { induction l as [|[a x] l IH]; intros [|[b y] k] i Heq; try done. cbn in Heq. injection Heq as -> Heq.
    cbn. unfold FileSystemMap.matches_name. cbn. case_bool_decide; [done|by apply IH]. }
  by apply Hext.
Qed.

(** Registering file systems: the number [register_fs] returns is the one under which the
    file system is found; its name leads there unless an earlier one has the same name, and
    all earlier file systems keep their numbers and names. *)
Theorem registered_fs_found m name fs :
  lenZ m + 1 < 4294967296 ->
  let '(m', r) := FileSystemMap.register_fs m name fs in
  r = Ok (lenZ m) /\ FileSystemMap.get_fs m' (lenZ m) = Some fs /\
  (forall k, k <> lenZ m -> FileSystemMap.get_fs m' k = FileSystemMap.get_fs m k) /\
  (forall other, FileSystemMap.get_fs_number m' other =
     match FileSystemMap.get_fs_number m other with
     | Some n => Some n
     | None => if bool_decide (other = name) then Some (lenZ m) else None
     end).
Proof.
  intros Hl. unfold FileSystemMap.register_fs. pose proof (lenZ_nonneg m). split_and!.
  - f_equal. rewrite lenZ_app. change (lenZ [Named name fs]) with 1. lia.
  - unfold FileSystemMap.get_fs. by rewrite nthZ_snoc.
  - intros k Hk. unfold FileSystemMap.get_fs. destruct (Z.lt_ge_cases k (lenZ m)); [by rewrite nthZ_app_l|].
    by rewrite !(proj2 (nthZ_None _ _)) by (rewrite ?lenZ_app; change (lenZ [Named name fs]) with 1; lia).
  - intros other. unfold FileSystemMap.get_fs_number.
    assert (Hgen : forall (l : FileSystemMap F) i, 0 <= i -> i + lenZ l + 1 < 4294967296 ->
      FileSystemMap.number_loop (l ++ [Named name fs]) other i =
      match FileSystemMap.number_loop l other i with
      | Some n => Some n | None => if bool_decide (other = name) then Some (i + lenZ l) else None end).
    { induction l as [|[nm f] l IH]; intros i Hi Hil; cbn [app FileSystemMap.number_loop]; unfold FileSystemMap.matches_name; cbn [named_name].
      - rewrite (bool_decide_ext (name = other) (other = name)) by (split; congruence). case_bool_decide; [|done].
        f_equal. change (lenZ []) with 0. lia.
      - pose proof (lenZ_cons (Named nm f) l) as Hc. pose proof (lenZ_nonneg l). rewrite Hc in *.
        destruct (bool_decide (nm = other)); [done|]. rewrite u32_small by (mach_unfold; lia). rewrite IH by lia.
        destruct (FileSystemMap.number_loop l other (i + 1)); [done|]. case_bool_decide; [|done]. f_equal. lia. }
    rewrite Hgen by lia. by rewrite Z.add_0_l.
Qed.

End lookups.

Lemma registered_fs_found_witness :
  let '(m', r) := FileSystemMap.register_fs [Named [65] tt] [66] tt in
  r = Ok 1 /\ FileSystemMap.get_fs m' 1 = Some tt /\
  (forall k, k <> 1 -> FileSystemMap.get_fs m' k = FileSystemMap.get_fs [Named [65] tt] k) /\
  (forall other, FileSystemMap.get_fs_number m' other =
     match FileSystemMap.get_fs_number [Named [65] tt] other with
     | Some n => Some n
     | None => if bool_decide (other = [66]) then Some 1 else None
     end).
Proof. apply (registered_fs_found [Named [65] tt] [66] tt). by vm_compute. Defined.
