(* ===== verification/Syscalls.v ===== *)
(** System calls: [syscalls/file.rs], [syscalls/exec.rs], the dispatcher of
    [interrupts/syscall.rs], and the stubs of [syscall/src/lib.rs] that programs call.

    File calls go from a handle of the current process to a file system of the map and its
    own handle.  Memory is the address space of the current process as a flat map. *)

From S2P Require Import Prelude Memory Files Drivers RingBuffer DevFs InitFs Pipes Fat12Fs Vfs PageTable ProcMemory Process.

Record Sys (D F : Type) : Type := mkSys {
  kernel : Kernel;
  vfs : FileSystemMap F;
  world : World D;
  statics : Statics
}.
Arguments mkSys {D F}. Arguments kernel {D F}. Arguments vfs {D F}. Arguments world {D F}. Arguments statics {D F}.

(** [StringPtr]: address and length of a string, in memory. *)
Module StringPtr.
Definition addr (m : mem) (p : Z) : Z := load32 m p.
Definition length (m : mem) (p : Z) : Z := load32 m (p + 4).
Definition get_starting_ptr (m : mem) (p : Z) : Z := addr m p.
Definition as_str (m : mem) (p : Z) : list Z := load_bytes m (get_starting_ptr m p) (length m p).
End StringPtr.

Section syscalls.
Context {D F : Type} `{FileSystem D F}.
Implicit Type s : Sys D F.

Definition with_kernel s (k : Kernel) : Sys D F := mkSys k (vfs s) (world s) (statics s).
Definition with_world s (w : World D) : Sys D F := mkSys (kernel s) (vfs s) w (statics s).

(** [current_process().expect(..)], and the process written back. *)
Definition this_process s : comp ProcessState := o ← current_process (kernel s); unwrap o.
Definition put_process s (p : ProcessState) : comp (Sys D F) :=
  m ← all_processes (kernel s);
  Ret (with_kernel s (with_map (kernel s) (Signals.update m p))).

(** The file system of the map after an operation that returned [f] and [w]. *)
Definition put_file_system s (number : Z) (f : F) (w : World D) : Sys D F :=
  mkSys (kernel s) (FileSystemMap.put_fs (vfs s) number f) w (statics s).

End syscalls.

(** * Files *)

Module file.
Section file.
Context {D F : Type} `{FileSystem D F}.
Implicit Type s : Sys D F.

Definition open_path s (path_str : list Z) : comp (Sys D F * result Z SystemError) :=
  let '(drive, path) := string_to_drive_and_path path_str in
  match FileSystemMap.get_fs_number (vfs s) drive with
  | None => Ret (s, Err NoSuchDrive)
  | Some number =>
      match FileSystemMap.get_fs (vfs s) number with
      | None => Ret (s, Err NoSuchFileSystem)
      | Some fs =>
          '(fs, w, r) ← fs_open fs (world s) path;
          let s := put_file_system s number fs w in
          match r with
          | Err _ => Ret (s, Err NoSuchEntity)
          | Ok local_handle =>
              p ← this_process s;
              '(p, handle) ← ProcessState.open_file p number local_handle;
              s ← put_process s p;
              Ret (s, Ok handle)
          end
      end
  end.

(** The end of [close] and [dup]: the file system closes its handle. *)
Definition close_local s (closing : DriveHandlePair) : comp (Sys D F * result unit SystemError) :=
  match FileSystemMap.get_fs (vfs s) (drive closing) with
  | Some fs =>
      '(fs, w, r) ← fs_close fs (world s) (local closing);
      Ret (put_file_system s (drive closing) fs w, map_err (fun _ => IOError) r)
  | None => Ret (s, Err NoSuchFileSystem)
  end.

Definition close s (handle : Z) : comp (Sys D F * result unit SystemError) :=
  cur ← this_process s;
  let '(cur, prev) := ProcessState.close_file cur handle in
  s ← put_process s cur;
  cur ← this_process s;
  let pair_to_close :=
    match prev with
    | Some closing =>
        if negb (ProcessState.references_drive_and_handle cur (drive closing) (local closing)) then Some closing else None
    | None => None
    end in
  match pair_to_close with
  | None => Ret (s, Err BadFileDescriptor)
  | Some closing => close_local s closing
  end.

(** The beginning of the calls on an open file. *)
Definition with_file {A} s (handle : Z) (k : DriveHandlePair -> F -> comp (Sys D F * result A SystemError))
  : comp (Sys D F * result A SystemError) :=
  p ← this_process s;
  match ProcessState.get_open_file_info p handle with
  | None => Ret (s, Err BadFileDescriptor)
  | Some drive_and_handle =>
      match FileSystemMap.get_fs (vfs s) (drive drive_and_handle) with
      | None => Ret (s, Err NoSuchFileSystem)
      | Some fs => k drive_and_handle fs
      end
  end.

Definition read s (handle dest length : Z) : comp (Sys D F * result Z SystemError) :=
  with_file s handle (fun dh fs =>
    let buffer := load_bytes (w_mem (world s)) dest length in
    '(fs, w, buffer, r) ← fs_read fs (world s) (local dh) buffer;
    let w := set_mem w (store_bytes (w_mem w) dest buffer) in
    Ret (put_file_system s (drive dh) fs w, map_err (fun _ => IOError) r)).

Definition write s (handle src length : Z) : comp (Sys D F * result Z SystemError) :=
  with_file s handle (fun dh fs =>
    let buffer := load_bytes (w_mem (world s)) src length in
    '(fs, w, r) ← fs_write fs (world s) (local dh) buffer;
    Ret (put_file_system s (drive dh) fs w, map_err (fun _ => IOError) r)).

Definition ioctl s (handle command arg : Z) : comp (Sys D F * result Z SystemError) :=
  with_file s handle (fun dh fs =>
    '(fs, w, r) ← fs_ioctl fs (world s) (local dh) command arg;
    Ret (put_file_system s (drive dh) fs w, map_err (fun _ => IOError) r)).

Definition seek s (handle method cursor : Z) : comp (Sys D F * result Z SystemError) :=
  let seek_method := match method with 1 => Relative (i32 cursor) | _ => Absolute cursor end in
  with_file s handle (fun dh fs =>
    '(fs, w, r) ← fs_seek fs (world s) (local dh) seek_method;
    Ret (put_file_system s (drive dh) fs w,
         match r with Ok new_cursor => Ok (u32 new_cursor) | Err _ => Err IOError end)).

(** The table of open files is locked for writing until the block ends, and the test whether
    another handle refers to the replaced file locks it for reading. *)
Definition dup s (to_duplicate to_replace : Z) : comp (Sys D F * result Z SystemError) :=
  p ← this_process s;
  match ProcessState.get_open_file_info p to_duplicate with
  | None => Ret (s, Err BadFileDescriptor)
  | Some drive_and_handle =>
      let '(files, h) :=
        if to_replace =? 0xffffffff then FileHandleMap.get_next_available_handle (open_files p)
        else (open_files p, Some to_replace) in
      match h with
      | None =>
          s ← put_process s (ProcessState.with_files p files (open_directories p));
          Ret (s, Err MaxFilesExceeded)
      | Some handle =>
          '(files, prev) ← FileHandleMap.set_handle_directly files handle (drive drive_and_handle) (local drive_and_handle);
          s ← put_process s (ProcessState.with_files p files (open_directories p));
          pair_to_close ← match prev with Some _ => Deadlock | None => Ret None end;
          match pair_to_close with
          | None => Ret (s, Err BadFileDescriptor)
          | Some closing =>
              '(s, r) ← close_local s closing;
              match r with Ok _ => Ret (s, Ok handle) | Err e => Ret (s, Err e) end
          end
      end
  end.

Definition pipe s : comp (Sys D F * result (Z * Z) SystemError) :=
  '(pipes, r) ← create_pipe (w_pipes (world s));
  let s := with_world s (set_pipes (world s) pipes) in
  match r with
  | Err _ => Ret (s, Err Unknown)
  | Ok (read_local, write_local) =>
      current ← this_process s;
      let fs_number := PIPE_FS (statics s) in
      '(current, read) ← ProcessState.open_file current fs_number read_local;
      '(current, write) ← ProcessState.open_file current fs_number write_local;
      s ← put_process s current;
      Ret (s, Ok (read, write))
  end.

Definition open_dir s (path_str : list Z) : comp (Sys D F * result Z SystemError) :=
  let '(drive, path) := string_to_drive_and_path path_str in
  match FileSystemMap.get_fs_number (vfs s) drive with
  | None => Ret (s, Err NoSuchDrive)
  | Some number =>
      match FileSystemMap.get_fs (vfs s) number with
      | None => Ret (s, Err NoSuchFileSystem)
      | Some fs =>
          '(fs, w, r) ← fs_open_dir fs (world s) path;
          let s := put_file_system s number fs w in
          match r with
          | Err _ => Ret (s, Err NoSuchEntity)
          | Ok local_handle =>
              p ← this_process s;
              '(p, r) ← ProcessState.open_directory p number local_handle;
              s ← put_process s p;
              Ret (s, r)
          end
      end
  end.

Definition read_dir s (handle index info : Z) : comp (Sys D F * result unit SystemError) :=
  p ← this_process s;
  match ProcessState.get_open_dir_info p handle with
  | None => Ret (s, Err BadFileDescriptor)
  | Some dh =>
      match FileSystemMap.get_fs (vfs s) (drive dh) with
      | None => Ret (s, Err NoSuchFileSystem)
      | Some fs =>
          entry ← unwrap (w_infos (world s) !! info);
          '(fs, w, entry, r) ← fs_read_dir fs (world s) (local dh) index entry;
          Ret (put_file_system s (drive dh) fs (set_info w info entry), map_err (fun _ => NoSuchEntity) r)
      end
  end.

End file.
End file.

(** * Processes *)

Module exec.
Section exec.
Context {D F : Type} `{FileSystem D F}.
Implicit Type s : Sys D F.

Definition yield_coop s : comp (Sys D F) := k ← yield_coop (kernel s); Ret (with_kernel s k).
Definition sleep s (ms : Z) : comp (Sys D F) := k ← sleep (kernel s) ms; Ret (with_kernel s k).
Definition fork (fuel : nat) s (ret_esp cur_esp : Z) : comp (Sys D F * Z) :=
  '(k, pid) ← fork fuel (kernel s) ret_esp cur_esp; Ret (with_kernel s k, pid).
Definition exit s (code : Z) : comp (Sys D F) := k ← exit (kernel s) code; Ret (with_kernel s k).
Definition get_pid s : comp Z := get_current_pid (kernel s).
Definition raise_signal s (sig : Z) : comp (Sys D F) :=
  id ← get_current_pid (kernel s);
  k ← send_signal (kernel s) id sig;
  Ret (with_kernel s k).
Definition send_signal s (id sig : Z) : comp (Sys D F) := k ← send_signal (kernel s) id sig; Ret (with_kernel s k).

(** [Ok] is the frame with which the program is entered. *)
Definition exec_path (fuel : nat) s (path_str arg_str : list Z) (raw_interp_mode : Z)
  : comp (Sys D F * result (list Z) SystemError) :=
  let '(drive, path) := string_to_drive_and_path path_str in
  match FileSystemMap.get_fs_number (vfs s) drive with
  | None => Ret (s, Err NoSuchDrive)
  | Some number =>
      match FileSystemMap.get_fs (vfs s) number with
      | None => Ret (s, Err NoSuchFileSystem)
      | Some fs =>
          '(fs, w, r) ← fs_open fs (world s) path;
          let s := put_file_system s number fs w in
          match r with
          | Err _ => Ret (s, Err NoSuchEntity)
          | Ok local_handle =>
              let interp_mode := Exec.from_u32 raw_interp_mode in
              '(k, frame) ← exec fuel (kernel s) number local_handle interp_mode;
              Ret (with_kernel s k, Ok frame)
          end
      end
  end.

Definition brk s (method offset : Z) : comp (Sys D F * result Z unit) :=
  o ← current_process (kernel s);
  match o with
  | None => Ret (s, Err tt)
  | Some cur =>
      let '(pm, r) :=
        match method with
        | 0 => set_heap_break (pmem cur) offset
        | 1 => move_heap_break (pmem cur) (i32 offset)
        | _ => (pmem cur, Err tt)
        end in
      s ← put_process s (ProcessState.with_memory cur pm (subsystem cur));
      Ret (s, r)
  end.

End exec.
End exec.

(** * The dispatcher *)

Record SavedRegisters : Type := mkRegs { edi : Z; esi : Z; ebp : Z; ebx : Z; edx : Z; ecx : Z; eax : Z }.
Definition set_eax (r : SavedRegisters) (x : Z) : SavedRegisters :=
  mkRegs (edi r) (esi r) (ebp r) (ebx r) (edx r) (ecx r) x.

Section dispatcher.
Context {D F : Type} `{FileSystem D F}.
Implicit Type s : Sys D F.

(** A handler returns to the program; never returns ([exit]); leaves for another program
    ([exec]); or is suspended inside [wait] and goes on when the process runs again. *)
Inductive outcome : Type :=
| Returns (s : Sys D F) (regs : SavedRegisters)
| Exited (s : Sys D F)
| Enters (s : Sys D F) (frame : list Z)
| Waits (s : Sys D F) (resume : Sys D F -> comp (Sys D F * SavedRegisters)).

Definition code_or {A} (f : A -> Z) (r : result A SystemError) : Z :=
  match r with Ok a => f a | Err e => SystemError.to_code e end.
Definition returns {A} (c : comp (Sys D F * A)) (regs : SavedRegisters) (f : A -> Z) : comp outcome :=
  '(s, a) ← c; Ret (Returns s (set_eax regs (f a))).

(** The pages of the stack frame and the compiler decide [ret_esp] and [cur_esp], see [fork]. *)
Definition syscall_inner (fuel : nat) (ret_esp cur_esp : Z) s (regs : SavedRegisters) : comp outcome :=
  let m := w_mem (world s) in
  match eax regs with
  | 0x0 => s ← exec.exit s (ebx regs); Ret (Exited s)
  | 0x1 => returns (exec.fork fuel s ret_esp cur_esp) regs id
  | 0x2 =>
      let path_str := StringPtr.as_str m (ebx regs) in
      let arg_str := if ecx regs =? 0 then [] else StringPtr.as_str m (ecx regs) in
      '(s, r) ← exec.exec_path fuel s path_str arg_str (edx regs);
      match r with
      | Ok frame => Ret (Enters s frame)
      | Err e => Ret (Returns s (set_eax regs (SystemError.to_code e)))
      end
  | 0x3 => pid ← exec.get_pid s; Ret (Returns s (set_eax regs pid))
  | 0x4 =>
      returns (exec.brk s (ebx regs) (ecx regs)) regs
        (fun r => match r with Ok new_cursor => new_cursor | Err _ => SystemError.to_code Unknown end)
  | 0x5 => s ← exec.sleep s (ebx regs); Ret (Returns s regs)
  | 0x6 => s ← exec.yield_coop s; Ret (Returns s regs)
  | 0x7 => s ← exec.raise_signal s (ebx regs); Ret (Returns s regs)
  | 0x8 => s ← exec.send_signal s (ebx regs) (ecx regs); Ret (Returns s regs)
  | 0x9 =>
      let finish s '(pid, code) :=
        let s := with_world s (set_mem (world s) (store32 (w_mem (world s)) (ecx regs) code)) in
        (s, set_eax regs pid) in
      if ebx regs =? 0 then
        let '(s, regs) := finish s (0, 0) in Ret (Returns s regs)
      else
        k ← wait_block (kernel s) (ebx regs);
        Ret (Waits (with_kernel s k) (fun s =>
          '(k, code) ← wait_resume (kernel s);
          Ret (finish (with_kernel s k) (ebx regs, code))))
  | 0x10 => returns (file.open_path s (StringPtr.as_str m (ebx regs))) regs (code_or id)
  | 0x11 => returns (file.close s (eax regs)) regs (code_or (fun _ => 0))
  | 0x12 => returns (file.read s (ebx regs) (ecx regs) (edx regs)) regs (code_or u32)
  | 0x13 => returns (file.write s (ebx regs) (ecx regs) (edx regs)) regs (code_or u32)
  | 0x14 | 0x15 | 0x16 | 0x17 | 0x18 | 0x19 => Ret (Returns s regs)
  | 0x1a => returns (file.open_dir s (StringPtr.as_str m (ebx regs))) regs (code_or id)
  | 0x1b => returns (file.read_dir s (ebx regs) (ecx regs) (edx regs)) regs (code_or (fun _ => 0))
  | 0x1c => Ret (Returns s regs)
  | 0x1d =>
      returns (file.dup s (ebx regs) (ecx regs)) regs
        (fun r => match r with Ok handle => handle | Err _ => 0xffffffff end)
  | 0x1e =>
      returns (file.ioctl s (ebx regs) (ecx regs) (edx regs)) regs
        (fun r => match r with Ok value => value | Err _ => SystemError.to_code UnsupportedCommand end)
  | 0x1f =>
      '(s, r) ← file.pipe s;
      match r with
      | Ok (read, write) =>
          let m := store32 (store32 (w_mem (world s)) (ebx regs) read) (ecx regs) write in
          Ret (Returns (with_world s (set_mem (world s) m)) (set_eax regs 0))
      | Err _ => Ret (Returns s (set_eax regs 0xffffffff))
      end
  | 0x20 =>
      returns (file.seek s (ebx regs) (ecx regs) (edx regs)) regs
        (fun r => match r with Ok new_cursor => new_cursor | Err _ => SystemError.to_code BadFileDescriptor end)
  | 0x21 | 0x22 | 0x30 | 0x31 | 0x32 | 0x33 => Ret (Returns s regs)
  | 0xffff => Ret (Returns s (set_eax regs 0))
  | _ => Ret (Returns s (set_eax regs (SystemError.to_code Unknown)))
  end.

End dispatcher.

(** * The stubs

    What a stub of the [syscall] crate loads into the registers before the interrupt; a string
    is passed by the address of its [StringPtr]. The other registers are the program's. *)

Module stub.
Section stub.
Context (edi0 esi0 ebp0 : Z).
Definition syscall_inner (method arg0 arg1 arg2 : Z) : SavedRegisters := mkRegs edi0 esi0 ebp0 arg0 arg2 arg1 method.
Definition debug : SavedRegisters := syscall_inner 0xffff 0 0 0.
Definition open (path_ptr : Z) : SavedRegisters := syscall_inner 0x10 path_ptr 0 0.
Definition read (handle buffer length : Z) : SavedRegisters := syscall_inner 0x12 handle buffer length.
Definition write (handle buffer length : Z) : SavedRegisters := syscall_inner 0x13 handle buffer length.
Definition write_str (handle addr length : Z) : SavedRegisters := write handle addr length.
Definition open_dir (path_ptr : Z) : SavedRegisters := syscall_inner 0x1a path_ptr 0 0.
Definition read_dir (handle index info : Z) : SavedRegisters := syscall_inner 0x1b handle index info.
Definition dup (handle : Z) : SavedRegisters := syscall_inner 0x1d handle 0xffffffff 0.
Definition dup2 (handle replace : Z) : SavedRegisters := syscall_inner 0x1d handle replace 0.
Definition ioctl (handle command arg : Z) : SavedRegisters := syscall_inner 0x1e handle command arg.
(** [handles] is the address of the two words. *)
Definition pipe (handles : Z) : SavedRegisters := syscall_inner 0x1f handles (handles + 4) 0.
Definition seek (handle position : Z) : SavedRegisters := syscall_inner 0x20 handle 0 position.
Definition seek_relative (handle offset : Z) : SavedRegisters := syscall_inner 0x20 handle 1 (u32 offset).
Definition fork : SavedRegisters := syscall_inner 0x01 0 0 0.
Definition exec (path_ptr : Z) : SavedRegisters := syscall_inner 0x02 path_ptr 0 0.
Definition execv (path_ptr arg_ptr : Z) : SavedRegisters := syscall_inner 0x02 path_ptr arg_ptr 0.
Definition exec_format (path_ptr format : Z) : SavedRegisters := syscall_inner 0x02 path_ptr 0 format.
Definition brk (addr : Z) : SavedRegisters := syscall_inner 0x04 0 addr 0.
Definition sbrk (delta : Z) : SavedRegisters := syscall_inner 0x04 1 (u32 delta) 0.
Definition yield_coop : SavedRegisters := syscall_inner 0x06 0 0 0.
Definition sleep (ms : Z) : SavedRegisters := syscall_inner 0x05 ms 0 0.
Definition exit (code : Z) : SavedRegisters := syscall_inner 0 code 0 0.
Definition get_pid : SavedRegisters := syscall_inner 0x03 0 0 0.
Definition wait_pid (id status_ptr : Z) : SavedRegisters := syscall_inner 0x09 id status_ptr 0.
Definition send_signal (pid signal : Z) : SavedRegisters := syscall_inner 0x8 pid signal 0.
Definition raise (signal : Z) : SavedRegisters := syscall_inner 0x7 signal 0 0.
End stub.
End stub.

(** * The current process *)

Section current.
Context {D F : Type} `{FileSystem D F}.
Implicit Type s : Sys D F.

(** [p] is the running process. *)
Definition runs s (p : ProcessState) : Prop :=
  exists m, PROCESS_MAP (kernel s) = Some m /\ ProcessMap.get_current_process m = Some p /\ pid p = current m.

(** Everything but the processes is the same. *)
Definition same_files s s' : Prop := vfs s' = vfs s /\ world s' = world s /\ statics s' = statics s.

Lemma this_process_spec s p : runs s p -> this_process s = Ret p.
Proof.
  intros (m & Hm & Hg & _). unfold this_process, current_process, all_processes. rewrite Hm. cbn [unwrap mbind comp_bind].
  by rewrite Hg.
Qed.

Lemma put_process_spec s p p' :
  runs s p -> pid p' = pid p -> exists s', put_process s p' = Ret s' /\ runs s' p' /\ same_files s s'.
Proof.
  intros (m & Hm & Hg & Hp) Hpid. unfold put_process, all_processes. rewrite Hm. cbn [unwrap mbind comp_bind].
  eexists. split; [done|]. split; [|done]. exists (Signals.update m p'). split; [done|]. split.
  - unfold ProcessMap.get_current_process, Signals.update, ProcessMap.insert. cbn. rewrite BTree.get_insert.
    destruct (Z.eqb_spec (current m) (pid p')); [done|congruence].
  - cbn. congruence.
Qed.

(** The table of open files of [p] has room. *)
Definition has_room (p : ProcessState) : Prop :=
  lenZ (open_files p) <= MAX_OPEN_FILES /\
  exists j, 0 <= j < MAX_OPEN_FILES /\ ProcessState.get_open_file_info p j = None.

(** The handle [h] of [p'] is new, and the only difference to the files of [p]. *)
Definition opens (p p' : ProcessState) (h : Z) (dh : DriveHandlePair) : Prop :=
  pid p' = pid p /\ 0 <= h < MAX_OPEN_FILES /\ lenZ (open_files p') <= MAX_OPEN_FILES /\
  ProcessState.get_open_file_info p h = None /\
  forall j, ProcessState.get_open_file_info p' j = if j =? h then Some dh else ProcessState.get_open_file_info p j.

Lemma open_file_spec p number loc :
  has_room p -> exists p' h, ProcessState.open_file p number loc = Ret (p', h) /\ opens p p' h (mkPair number loc).
Proof.
  intros [Hl (j & Hj & Hfree)]. unfold ProcessState.open_file.
  destruct (FileHandleMap.open_handle_cases (open_files p) number loc Hl) as
    [(m' & h & -> & Hl' & Hh & Hnew & _ & Hg)|[_ Hfull]]; [|by destruct (Hfull j Hj)].
  cbn [mbind comp_bind]. eexists _, h. split; [done|]. split_and!; first [done|lia|exact Hg|exact Hnew].
Qed.

(** A successful [open] of the file system becomes a handle of the process. *)
Lemma open_path_spec s p path_str drv path number fs fs' w' loc :
  runs s p -> has_room p -> string_to_drive_and_path path_str = (drv, path) ->
  FileSystemMap.get_fs_number (vfs s) drv = Some number -> FileSystemMap.get_fs (vfs s) number = Some fs ->
  fs_open fs (world s) path = Ret (fs', w', Ok loc) ->
  exists s' p' h, file.open_path s path_str = Ret (s', Ok h) /\ runs s' p' /\ opens p p' h (mkPair number loc) /\
    vfs s' = FileSystemMap.put_fs (vfs s) number fs' /\ world s' = w' /\ statics s' = statics s.
Proof.
  intros Hr Hroom Hp Hn Hg Ho. unfold file.open_path. rewrite Hp, Hn, Hg, Ho. cbn [mbind comp_bind].
  assert (Hr' : runs (put_file_system s number fs' w') p) by exact Hr.
  rewrite (this_process_spec _ p Hr'). cbn [mbind comp_bind].
  destruct (open_file_spec p number loc Hroom) as (p' & h & -> & Hop). cbn [mbind comp_bind].
  destruct (put_process_spec _ p p' Hr' (proj1 Hop)) as (s' & -> & Hr'' & Hv & Hw & Hs). cbn [mbind comp_bind].
  exists s', p', h. by split_and!.
Qed.

(** A call on an open handle reaches the file system. *)
Lemma with_file_spec {A} s p handle dh fs (k : DriveHandlePair -> F -> comp (Sys D F * result A SystemError)) :
  runs s p -> ProcessState.get_open_file_info p handle = Some dh -> FileSystemMap.get_fs (vfs s) (drive dh) = Some fs ->
  file.with_file s handle k = k dh fs.
Proof.
  intros Hr Hh Hf. unfold file.with_file. rewrite (this_process_spec s p Hr). cbn [mbind comp_bind]. by rewrite Hh, Hf.
Qed.

Lemma close_file_info p handle :
  let '(p', prev) := ProcessState.close_file p handle in
  pid p' = pid p /\ prev = ProcessState.get_open_file_info p handle /\
  forall j, ProcessState.get_open_file_info p' j = if j =? handle then None else ProcessState.get_open_file_info p j.
Proof.
  unfold ProcessState.close_file, ProcessState.get_open_file_info, FileHandleMap.close_handle.
  pose proof (SlotList.remove_spec (open_files p) handle) as Hs. unfold SlotList.remove in Hs.
  destruct (nthZ (open_files p) handle); destruct Hs as [H1 H2]; by split_and!.
Qed.

(** C33: [close] gives the handle up whatever it returns: the handle leads nowhere, the other
    handles are unchanged.  The file system is told to close its file only when no other
    handle of the process refers to it, and an error it reports becomes an I/O error; without
    the file system the error says so.  Otherwise the call reports a bad descriptor although
    the handle was closed, and a handle that was not open reports the same. *)
Theorem close_outcomes s p handle :
  runs s p ->
  exists s1 p', runs s1 p' /\ same_files s s1 /\
    (forall j, ProcessState.get_open_file_info p' j = if j =? handle then None else ProcessState.get_open_file_info p j) /\
    match ProcessState.get_open_file_info p handle with
    | None => file.close s handle = Ret (s1, Err BadFileDescriptor)
    | Some dh =>
        ((exists other, other <> handle /\ ProcessState.get_open_file_info p other = Some dh) /\
         file.close s handle = Ret (s1, Err BadFileDescriptor)) \/
        ((forall other, other <> handle -> ProcessState.get_open_file_info p other <> Some dh) /\
         file.close s handle =
           match FileSystemMap.get_fs (vfs s) (drive dh) with
           | Some fs =>
               '(fs, w, r) ← fs_close fs (world s) (local dh);
               Ret (put_file_system s1 (drive dh) fs w, map_err (fun _ => IOError) r)
           | None => Ret (s1, Err NoSuchFileSystem)
           end)
    end.
Proof.
  intros Hr. pose proof (close_file_info p handle) as Hc. unfold file.close. rewrite (this_process_spec s p Hr). cbn [mbind comp_bind].
  destruct (ProcessState.close_file p handle) as [p' prev] eqn:E. destruct Hc as (Hpid & -> & Hinfo).
  destruct (put_process_spec s p p' Hr Hpid) as (s1 & -> & Hr1 & Hsame). cbn [mbind comp_bind].
  rewrite (this_process_spec s1 p' Hr1). cbn [mbind comp_bind].
  assert (Href : forall dh, ProcessState.references_drive_and_handle p' (drive dh) (local dh) = true <->
    exists j, ProcessState.get_open_file_info p' j = Some dh).
  { intros dh. unfold ProcessState.references_drive_and_handle. rewrite FileHandleMap.references_spec. by destruct dh. }
  exists s1, p'. split; [done|]. split; [done|]. split; [done|].
  destruct (ProcessState.get_open_file_info p handle) as [dh|]; [|done].
  destruct (ProcessState.references_drive_and_handle p' (drive dh) (local dh)) eqn:Er; cbn [negb].
  - left. split; [|done]. apply Href in Er as [j Hj]. rewrite Hinfo in Hj. destruct (Z.eqb_spec j handle); [done|]. by exists j.
  - right. split.
    + intros other Hne Ho. assert (Hx : ProcessState.references_drive_and_handle p' (drive dh) (local dh) = true); [|congruence].
      apply Href. exists other. rewrite Hinfo. by destruct (Z.eqb_spec other handle).
    + unfold file.close_local. destruct Hsame as (Hv & Hw & Hst). by rewrite Hv, Hw.
Qed.
End current.

Section duplicates.
Context {D F : Type} `{FileSystem D F}.
Implicit Type s : Sys D F.

Lemma next_handle_spec p :
  has_room p ->
  exists files h, FileHandleMap.get_next_available_handle (open_files p) = (files, Some h) /\ 0 <= h < MAX_OPEN_FILES /\
    (forall j, FileHandleMap.get_drive_and_handle files j = ProcessState.get_open_file_info p j) /\
    ProcessState.get_open_file_info p h = None.
Proof.
  intros [Hl (j & Hj & Hfree)]. unfold FileHandleMap.get_next_available_handle, ProcessState.get_open_file_info in *.
  unfold MAX_OPEN_FILES in *. pose proof (lenZ_nonneg (open_files p)). pose proof (SlotList.find_none_spec (open_files p) 0) as Hs.
  destruct (SlotList.find_none (open_files p) 0) as [i|].
  - destruct Hs as (H1 & H2 & _). rewrite Z.sub_0_r in *. rewrite u32_small by (mach_unfold; lia).
    exists (open_files p), i. split_and!; try done; try lia. unfold FileHandleMap.get_drive_and_handle. by rewrite H2.
  - destruct (Z.ltb_spec (lenZ (open_files p)) 4096) as [Hlt|Hge].
    + rewrite u32_small by (mach_unfold; lia). eexists _, _. split; [done|]. split; [lia|].
      assert (Hsame : forall j, FileHandleMap.get_drive_and_handle (open_files p ++ [None]) j = FileHandleMap.get_drive_and_handle (open_files p) j).
      { intros k. unfold FileHandleMap.get_drive_and_handle. destruct (Z.lt_ge_cases k (lenZ (open_files p))); [by rewrite nthZ_app_l|].
        rewrite nthZ_app_r, (proj2 (nthZ_None (open_files p) k)) by lia. destruct (Z.eq_dec k (lenZ (open_files p))) as [->|].
        - by rewrite Z.sub_diag.
        - by rewrite (proj2 (nthZ_None _ _)) by (change (lenZ [@None DriveHandlePair]) with 1; lia). }
      split; [done|]. unfold FileHandleMap.get_drive_and_handle. by rewrite (proj2 (nthZ_None _ _)) by lia.
    + destruct (Hs j ltac:(lia)) as [y Hy]. unfold FileHandleMap.get_drive_and_handle in Hfree. by rewrite Hy in Hfree.
Qed.

(** [dup] never succeeds.  A free target (or the next free handle, which is asked for with
    0xffffffff) is made to refer to the file, but the call reports a bad descriptor; a target
    in use makes it wait for the lock on the table of open files that it holds itself. *)
Theorem dup_never_succeeds s p a b dh :
  runs s p -> has_room p -> is_u32 b -> ProcessState.get_open_file_info p a = Some dh ->
  if (b =? 0xffffffff) || bool_decide (ProcessState.get_open_file_info p b = None)
  then exists s' p' h, file.dup s a b = Ret (s', Err BadFileDescriptor) /\ runs s' p' /\ same_files s s' /\
    (b <> 0xffffffff -> h = b) /\ ProcessState.get_open_file_info p h = None /\
    forall j, ProcessState.get_open_file_info p' j = if j =? h then Some dh else ProcessState.get_open_file_info p j
  else file.dup s a b = Deadlock.
Proof.
  intros Hr Hroom Hb Ha. unfold file.dup. rewrite (this_process_spec s p Hr). cbn [mbind comp_bind]. rewrite Ha.
  assert (Hset : forall files h, 0 <= h -> (forall j, FileHandleMap.get_drive_and_handle files j = ProcessState.get_open_file_info p j) ->
    exists m' prev s' p', FileHandleMap.set_handle_directly files h (drive dh) (local dh) = Ret (m', prev) /\
      prev = ProcessState.get_open_file_info p h /\ put_process s (ProcessState.with_files p m' (open_directories p)) = Ret s' /\
      runs s' p' /\ same_files s s' /\
      forall j, ProcessState.get_open_file_info p' j = if j =? h then Some dh else ProcessState.get_open_file_info p j).
  { intros files h Hh Hfiles. destruct (FileHandleMap.set_handle_spec files h (drive dh) (local dh) Hh) as (m' & prev & E & Hprev & _ & Hg).
    destruct (put_process_spec s p (ProcessState.with_files p m' (open_directories p)) Hr eq_refl) as (s' & E' & Hr' & Hsame).
    exists m', prev, s', (ProcessState.with_files p m' (open_directories p)). split_and!; try done; [by rewrite Hprev|].
    intros j. unfold ProcessState.get_open_file_info. cbn [ProcessState.with_files open_files]. rewrite Hg.
    destruct (j =? h); [by destruct dh|apply Hfiles]. }
  destruct (Z.eqb_spec b 0xffffffff) as [->|Hne]; cbn [orb].
  - destruct (next_handle_spec p Hroom) as (files & h & -> & Hh & Hfiles & Hnone).
    destruct (Hset files h ltac:(lia) Hfiles) as (m' & prev & s' & p' & -> & -> & E & Hr' & Hsame & Hinfo).
    cbn [mbind comp_bind]. rewrite E, Hnone. cbn [mbind comp_bind]. exists s', p', h. by split_and!.
  - destruct (Hset (open_files p) b ltac:(apply Hb) ltac:(done)) as (m' & prev & s' & p' & -> & -> & E & Hr' & Hsame & Hinfo).
    cbn [mbind comp_bind]. rewrite E. cbn [mbind comp_bind]. case_bool_decide as Hbn.
    + rewrite Hbn. cbn [mbind comp_bind]. exists s', p', b. by split_and!.
    + by destruct (ProcessState.get_open_file_info p b).
Qed.
End duplicates.

(** * Whole calls *)

Definition INIT_NAME : list Z := [73; 78; 73; 84].

Section calls.
Context {D : Type} `{DeviceDriver D} (fuel : nat) (ret_esp cur_esp : Z).
#[local] Instance boxed_fs : FileSystem D AnyFs := any_fs fuel.
Implicit Type s : Sys D AnyFs.

Notation system_call := (syscall_inner fuel ret_esp cur_esp).

Lemma open_init_spec (f : InitFileSystem) (w : World D) path es :
  0 <= cpio_archive_address f -> cpio_archive_address f + lenZ (cpio_archive es) < 4294967296 ->
  bytes_at (w_mem w) (cpio_archive_address f) (cpio_archive es) -> Forall entry_ok es -> (length es < fuel)%nat ->
  fs_open (FsInit f) w path =
  Ret (match find_entry (cpio_archive_address f) es (local_path path) with
       | Some (b, e) => (FsInit (opened f b e), w, Ok (init_allocator f))
       | None => (FsInit f, w, Err tt)
       end).
Proof.
  intros H1 H2 H3 H4 H5. cbn [fs_open boxed_fs any_fs dispatch init_fs_instance]. unfold InitFileSystem.open.
  rewrite (open_loop_spec _ _ _ _ es) by (try done). cbn [mbind comp_bind]. unfold CpioIterator.new.
  by destruct (find_entry (cpio_archive_address f) es (local_path path)) as [[b e]|].
Qed.

(** C2: A program opens a file of the initial file system by its name and reads it: the two
    system calls go through the dispatcher, the table of file systems, the handles of the
    process and the archive, and leave the first bytes of the file in the program's buffer
    and their number in [eax]. *)
Theorem syscall_reads_init_file s p number f es path b e edi0 esi0 ebp0 path_ptr dest len :
  runs s p -> has_room p ->
  FileSystemMap.get_fs_number (vfs s) INIT_NAME = Some number ->
  FileSystemMap.get_fs (vfs s) number = Some (FsInit f) ->
  0 <= cpio_archive_address f -> cpio_archive_address f + lenZ (cpio_archive es) < 4294967296 ->
  bytes_at (w_mem (world s)) (cpio_archive_address f) (cpio_archive es) -> Forall entry_ok es -> (length es < fuel)%nat ->
  StringPtr.as_str (w_mem (world s)) path_ptr = INIT_NAME ++ COLON :: path ->
  find_entry (cpio_archive_address f) es (local_path path) = Some (b, e) ->
  0 <= len -> in_space dest len ->
  exists s1 h s2,
    system_call s (stub.open edi0 esi0 ebp0 path_ptr) = Ret (Returns s1 (set_eax (stub.open edi0 esi0 ebp0 path_ptr) h)) /\
    let n := Z.min len (lenZ (en_content e)) in
    let call := stub.read edi0 esi0 ebp0 h dest len in
    system_call s1 call = Ret (Returns s2 (set_eax call n)) /\
    load_bytes (w_mem (world s2)) dest n = take (Z.to_nat n) (en_content e).
Proof.
  intros Hr Hroom Hn Hf Ha Hs Hb Hok Hfuel Hstr Hfind Hlen Hsp.
  assert (Hpath : string_to_drive_and_path (INIT_NAME ++ COLON :: path) = (INIT_NAME, path))
    by (apply drive_and_path_round_trip; set_solver).
  pose proof (open_init_spec f (world s) path es Ha Hs Hb Hok Hfuel) as Hopen. rewrite Hfind in Hopen.
  destruct (open_path_spec s p _ INIT_NAME path number (FsInit f) _ _ _ Hr Hroom Hpath Hn Hf Hopen)
    as (s1 & p1 & h & Hcall & Hr1 & (Hpid & Hh & Hl & Hnew & Hinfo) & Hv & Hw & _).
  pose proof (find_entry_content _ es _ _ b e Ha Hs Hb Hok Hfind) as (Hc1 & Hc2 & Hc3).
  set (buffer := load_bytes (w_mem (world s1)) dest len).
  assert (Hbl : lenZ buffer = len) by (by apply lenZ_load_bytes).
  destruct (init_read_spec (w_mem (world s1)) (opened f b e) (init_allocator f) 0 (en_content e) buffer) as (f2 & Hread & _).
  { split; [|pose proof (lenZ_nonneg (en_content e)); lia]. exists (b + content_offset e). cbn. rewrite lookup_insert_eq, Hw. done. }
  rewrite Hbl, Z.sub_0_r, drop_0 in Hread. set (n := Z.min len (lenZ (en_content e))) in *.
  assert (Hnn : 0 <= n <= len) by (pose proof (lenZ_nonneg (en_content e)); unfold n; lia).
  eexists s1, h, _. split.
  { unfold syscall_inner, stub.open, stub.syscall_inner. cbn [eax ebx]. rewrite Hstr. unfold returns. rewrite Hcall. done. }
  cbv zeta. fold n. split.
  - unfold syscall_inner, stub.read, stub.syscall_inner. cbn [eax ebx ecx edx]. unfold returns, file.read.
    erewrite (with_file_spec s1 p1 h (mkPair number (init_allocator f)) (FsInit (opened f b e)));
      [|exact Hr1|rewrite Hinfo, Z.eqb_refl; done|rewrite Hv; cbn [drive]; erewrite get_put_fs by exact Hf; by rewrite Z.eqb_refl].
    fold buffer. cbn [local fs_read boxed_fs any_fs dispatch init_fs_instance]. rewrite Hread. cbn [mbind comp_bind map_err code_or].
    rewrite u32_small by (destruct Hsp; mach_unfold; lia). reflexivity.
  - cbn [world put_file_system with_world set_mem w_mem]. set (out := take (Z.to_nat n) (en_content e) ++ drop (Z.to_nat n) buffer).
    assert (Hol : lenZ out = len).
    { unfold out. rewrite lenZ_app, lenZ_take, lenZ_drop by (pose proof (lenZ_nonneg (en_content e)); unfold n in *; lia). lia. }
    rewrite (load_bytes_take _ dest len n) by lia. rewrite <- Hol at 1. rewrite load_store_bytes by (by rewrite Hol).
    rewrite <- fmap_take. unfold out. rewrite take_app_length' by (rewrite length_take; unfold n, lenZ in *; lia).
    rewrite <- Hc3, fmap_take, load_bytes_u8, Hc3. done.
Qed.

Lemma opens_room p p' h dh j k :
  opens p p' h dh -> 0 <= j < MAX_OPEN_FILES -> 0 <= k < MAX_OPEN_FILES -> j <> k ->
  ProcessState.get_open_file_info p j = None -> ProcessState.get_open_file_info p k = None -> has_room p'.
Proof.
  intros (_ & _ & Hl & _ & Hinfo) Hj Hk Hne Hfj Hfk. split; [done|]. destruct (Z.eq_dec j h) as [->|Hjh].
  - exists k. split; [done|]. rewrite Hinfo. destruct (Z.eqb_spec k h); [congruence|done].
  - exists j. split; [done|]. rewrite Hinfo. by destruct (Z.eqb_spec j h).
Qed.

(** [pipe] gives the process two handles of a new pipe. *)
Lemma pipe_call_spec s p c j k :
  runs s p -> lenZ (open_files p) <= MAX_OPEN_FILES ->
  0 <= j < MAX_OPEN_FILES -> 0 <= k < MAX_OPEN_FILES -> j <> k ->
  ProcessState.get_open_file_info p j = None -> ProcessState.get_open_file_info p k = None ->
  w_pipes (world s) = Some c -> lenZ (handles c) < 4294967294 ->
  exists s' p' c' rh wh r w i,
    file.pipe s = Ret (s', Ok (rh, wh)) /\ runs s' p' /\ 0 <= rh < MAX_OPEN_FILES /\ 0 <= wh < MAX_OPEN_FILES /\
    ProcessState.get_open_file_info p' rh = Some (mkPair (PIPE_FS (statics s)) r) /\
    ProcessState.get_open_file_info p' wh = Some (mkPair (PIPE_FS (statics s)) w) /\
    vfs s' = vfs s /\ world s' = set_pipes (world s) (Some c') /\ pipe_at c' r w i [].
Proof.
  intros Hr Hl Hj Hk Hne Hfj Hfk Hc Hlc. destruct (create_spec c Hlc) as (c' & r & w & i & E & Hrw & Hp & _).
  unfold file.pipe. rewrite Hc. cbn [create_pipe]. rewrite E. cbn [mbind comp_bind].
  assert (Hr1 : runs (with_world s (set_pipes (world s) (Some c'))) p) by exact Hr.
  rewrite (this_process_spec _ p Hr1). cbn [mbind comp_bind]. cbn [statics with_world].
  destruct (open_file_spec p (PIPE_FS (statics s)) r) as (p1 & rh & -> & Hop1); [split; [done|by exists j]|]. cbn [mbind comp_bind].
  pose proof (opens_room p p1 rh _ j k Hop1 Hj Hk Hne Hfj Hfk) as Hroom.
  destruct (open_file_spec p1 (PIPE_FS (statics s)) w Hroom) as (p2 & wh & -> & Hop2). cbn [mbind comp_bind].
  destruct Hop1 as (Hpid1 & Hrh & _ & _ & Hi1). destruct Hop2 as (Hpid2 & Hwh & _ & Hfree & Hi2).
  destruct (put_process_spec _ p p2 Hr1 ltac:(congruence)) as (s' & -> & Hr2 & Hv & Hw & _). cbn [mbind comp_bind].
  exists s', p2, c', rh, wh, r, w, i. split_and!; try done; try lia.
  - rewrite Hi2, Hi1, Z.eqb_refl. rewrite Hi1 in Hfree. destruct (Z.eqb_spec rh wh) as [->|]; [by rewrite Z.eqb_refl in Hfree|done].
  - by rewrite Hi2, Z.eqb_refl.
Qed.

(** C17: A program makes a pipe, writes up to 256 bytes of its memory into it and reads them
    back into a buffer: the three system calls store the handles, accept all bytes and deliver
    the same bytes in the same order. *)
Theorem syscall_pipe_carries s p c j k edi0 esi0 ebp0 hs src len dst size :
  runs s p -> lenZ (open_files p) <= MAX_OPEN_FILES ->
  0 <= j < MAX_OPEN_FILES -> 0 <= k < MAX_OPEN_FILES -> j <> k ->
  ProcessState.get_open_file_info p j = None -> ProcessState.get_open_file_info p k = None ->
  w_pipes (world s) = Some c -> lenZ (handles c) < 4294967294 ->
  FileSystemMap.get_fs (vfs s) (PIPE_FS (statics s)) = Some (FsPipe mkPipeFs) ->
  in_space hs 8 -> 0 <= len <= BUFFER_SIZE -> len <= size -> in_space dst size ->
  exists s1 s2 s3 rh wh,
    system_call s (stub.pipe edi0 esi0 ebp0 hs) = Ret (Returns s1 (set_eax (stub.pipe edi0 esi0 ebp0 hs) 0)) /\
    load32 (w_mem (world s1)) hs = rh /\ load32 (w_mem (world s1)) (hs + 4) = wh /\
    let write := stub.write edi0 esi0 ebp0 wh src len in
    let read := stub.read edi0 esi0 ebp0 rh dst size in
    system_call s1 write = Ret (Returns s2 (set_eax write len)) /\
    system_call s2 read = Ret (Returns s3 (set_eax read len)) /\
    load_bytes (w_mem (world s3)) dst len = load_bytes (w_mem (world s1)) src len.
Proof.
  intros Hr Hl Hj Hk Hne Hfj Hfk Hc Hlc Hfs Hhs Hlen Hsize Hdst.
  destruct (pipe_call_spec s p c j k Hr Hl Hj Hk Hne Hfj Hfk Hc Hlc)
    as (s' & p' & c1 & rh & wh & r & w & i & E & Hr1 & Hrh & Hwh & Hri & Hwi & Hv & Hw & Hp1).
  unfold MAX_OPEN_FILES, BUFFER_SIZE in *.
  set (m1 := store32 (store32 (w_mem (world s')) hs rh) (hs + 4) wh).
  set (s1 := with_world s' (set_mem (world s') m1)). set (bytes := load_bytes m1 src len).
  assert (Hbl : lenZ bytes = len) by (apply lenZ_load_bytes; lia).
  assert (Hr1' : runs s1 p') by exact Hr1. assert (Hv1 : vfs s1 = vfs s) by exact Hv.
  assert (Hp1' : w_pipes (world s1) = Some c1) by (cbn; by rewrite Hw).
  destruct (pipe_write_spec c1 r w i [] bytes Hp1) as (c2 & Ew & Hp2 & _).
  change (lenZ []) with 0 in Ew, Hp2. unfold BUFFER_SIZE in *. rewrite Hbl, Z.min_l in Ew, Hp2 by lia.
  set (s2 := put_file_system s1 (PIPE_FS (statics s)) (FsPipe mkPipeFs) (set_pipes (world s1) (Some c2))).
  set (buffer := load_bytes m1 dst size). assert (Hbf : lenZ buffer = size) by (apply lenZ_load_bytes; lia).
  assert (Ht : take (Z.to_nat len) bytes = bytes) by (rewrite <- Hbl; unfold lenZ; rewrite Nat2Z.id; apply firstn_all).
  rewrite Ht in Hp2. cbn [app] in Hp2. destruct (pipe_read_spec c2 r w i bytes buffer Hp2) as (c3 & Er & _).
  rewrite Hbl, Hbf, Z.min_r, Ht in Er by lia. set (out := bytes ++ drop (Z.to_nat len) buffer) in *.
  assert (Hg1 : FileSystemMap.get_fs (vfs s1) (PIPE_FS (statics s)) = Some (FsPipe mkPipeFs)) by (rewrite Hv1; exact Hfs).
  exists s1, s2, (put_file_system s2 (PIPE_FS (statics s)) (FsPipe mkPipeFs) (set_mem (set_pipes (world s1) (Some c3)) (store_bytes m1 dst out))), rh, wh.
  split_and!.
  - unfold syscall_inner, stub.pipe, stub.syscall_inner. cbn [eax ebx ecx]. rewrite E. cbn [mbind comp_bind]. reflexivity.
  - cbn [world with_world set_mem w_mem s1]. unfold m1.
    destruct Hhs. rewrite load32_store32_ne by (unfold in_space, apart; lia). apply load32_store32_eq. mach_unfold. lia.
  - cbn [world with_world set_mem w_mem s1]. unfold m1. apply load32_store32_eq. mach_unfold. lia.
  - unfold syscall_inner, stub.write, stub.syscall_inner. cbn [eax ebx ecx edx]. unfold returns, file.write.
    rewrite (with_file_spec s1 p' wh (mkPair (PIPE_FS (statics s)) w) (FsPipe mkPipeFs)) by (done || exact Hg1).
    change (load_bytes (w_mem (world s1)) src len) with bytes. cbn [local drive fs_write boxed_fs any_fs dispatch pipe_fs].
    rewrite Hp1'. cbn [unwrap mbind comp_bind]. unfold PipeFileSystem.write. rewrite Ew. cbn [mbind comp_bind map_err code_or].
    rewrite u32_small by (mach_unfold; lia). reflexivity.
  - unfold syscall_inner, stub.read, stub.syscall_inner. cbn [eax ebx ecx edx]. unfold returns, file.read.
    rewrite (with_file_spec s2 p' rh (mkPair (PIPE_FS (statics s)) r) (FsPipe mkPipeFs));
      [|exact Hr1|done|cbn [drive s2 put_file_system vfs]; erewrite get_put_fs by exact Hg1; by rewrite Z.eqb_refl].
    change (load_bytes (w_mem (world s2)) dst size) with buffer. cbn [local drive fs_read boxed_fs any_fs dispatch pipe_fs].
    change (w_pipes (world s2)) with (Some c2). cbn [unwrap mbind comp_bind]. unfold PipeFileSystem.read. rewrite Er.
    cbn [mbind comp_bind map_err code_or]. rewrite u32_small by (mach_unfold; lia). reflexivity.
  - change (load_bytes (store_bytes m1 dst out) dst len = bytes).
    assert (Hol : lenZ out = size) by (unfold out; rewrite lenZ_app, lenZ_drop by lia; lia).
    rewrite (load_bytes_take _ dst size len) by lia. rewrite <- Hol. rewrite load_store_bytes by (by rewrite Hol).
    rewrite <- fmap_take. unfold out. rewrite take_app_length' by (unfold lenZ in *; lia). apply load_bytes_u8.
Qed.

Lemma any_close_returns (f : AnyFs) (w : World D) c loc :
  w_pipes w = Some c -> fs_close f w loc = Ret (f, w, Err tt).
Proof. intros Hc. destruct f as [f|[]|f|f]; cbn; [done| |done|done]. by rewrite Hc. Qed.

Lemma close_leaves_others s p handle c :
  runs s p -> w_pipes (world s) = Some c ->
  exists s' p' r, file.close s handle = Ret (s', r) /\ runs s' p' /\
    forall j, j <> handle -> ProcessState.get_open_file_info p' j = ProcessState.get_open_file_info p j.
Proof.
  intros Hr Hc. unfold file.close. rewrite (this_process_spec s p Hr). cbn [mbind comp_bind].
  pose proof (close_file_info p handle) as Hi. destruct (ProcessState.close_file p handle) as [p' prev]. destruct Hi as (Hpid & _ & Hinfo).
  destruct (put_process_spec s p p' Hr Hpid) as (s1 & -> & Hr1 & Hv & Hw & Hs). cbn [mbind comp_bind].
  rewrite (this_process_spec s1 p' Hr1). cbn [mbind comp_bind].
  assert (Hj : forall j, j <> handle -> ProcessState.get_open_file_info p' j = ProcessState.get_open_file_info p j)
    by (intros j Hj; rewrite Hinfo; by destruct (Z.eqb_spec j handle)).
  destruct (match prev with Some closing => if negb _ then Some closing else None | None => None end) as [closing|]; [|by eexists s1, p', _].
  unfold file.close_local. destruct (FileSystemMap.get_fs (vfs s1) (drive closing)) as [fs|]; [|by eexists s1, p', _].
  rewrite (any_close_returns fs (world s1) c) by (by rewrite Hw). cbn [mbind comp_bind].
  eexists _, p', _. split; [done|]. split; [exact Hr1|done].
Qed.

(** The close call takes its handle from the register that holds the number of the call:
    whatever handle the program passes in [ebx], unless it is 17 it stays open. *)
Theorem syscall_close_wrong_handle s p c regs dh :
  runs s p -> w_pipes (world s) = Some c -> eax regs = 0x11 -> ebx regs <> 0x11 ->
  ProcessState.get_open_file_info p (ebx regs) = Some dh ->
  exists s' p' code, system_call s regs = Ret (Returns s' (set_eax regs code)) /\ runs s' p' /\
    ProcessState.get_open_file_info p' (ebx regs) = Some dh.
Proof.
  intros Hr Hc Ha Hb Hi. destruct (close_leaves_others s p 0x11 c Hr Hc) as (s' & p' & r & E & Hr' & Hj).
  unfold syscall_inner. rewrite Ha. unfold returns. rewrite E. cbn [mbind comp_bind].
  eexists s', p', _. split; [done|]. split; [done|]. by rewrite Hj.
Qed.
End calls.

(** * Examples *)

(** A process with one open file and the archive of [demo_archive] as drive INIT. *)
Definition demo_user (files : FileHandleMap.FileHandleMap) : ProcessState :=
  ProcessState.with_files (demo_process 1 0 Running) files [].
Definition demo_kernel (files : FileHandleMap.FileHandleMap) : Kernel :=
  with_map demo_kernel_state (mkProcessMap 1 1 [(1, demo_user files)]).
Definition demo_path_memory : mem :=
  store_bytes (store32 (store32 demo_cpio_memory 0x500 0x600) 0x504 9) 0x600 (INIT_NAME ++ COLON :: [92; 98; 46; 99]).
Definition demo_system (files : FileHandleMap.FileHandleMap) : Sys ZeroDevice AnyFs :=
  mkSys (demo_kernel files) [Named DEV_NAME (FsDev DevFileSystem.new); Named PIPE_NAME (FsPipe mkPipeFs); Named INIT_NAME (FsInit demo_init_fs)]
    (mkWorld demo_path_memory ∅ (mkDrivers [] []) (Some PipeCollection.new)) (mkStatics 0 1).

Lemma demo_runs files : runs (demo_system files) (demo_user files).
Proof. eexists. split; [done|]. by split. Qed.

Lemma demo_room files : (length files <=? 2)%nat = true -> has_room (demo_user files).
Proof.
  intros Hl%Nat.leb_le. unfold has_room, MAX_OPEN_FILES. cbn [demo_user ProcessState.with_files open_files]. split; [unfold lenZ; lia|].
  exists 2. split; [lia|]. unfold ProcessState.get_open_file_info, FileHandleMap.get_drive_and_handle. cbn [demo_user ProcessState.with_files open_files].
  by rewrite (proj2 (nthZ_None files 2)) by (unfold lenZ; lia).
Qed.

(** Handles 0 and 1 are the same file, the drive of handle 2 does not exist, handle 3 is the
    only one of its file, and handle 5 is not open. *)
Definition demo_handles : FileHandleMap.FileHandleMap :=
  [Some (mkPair 2 1); Some (mkPair 2 1); Some (mkPair 9 4); Some (mkPair 2 3)].

Lemma demo_handles_range j dh :
  ProcessState.get_open_file_info (demo_user demo_handles) j = Some dh -> j = 0 \/ j = 1 \/ j = 2 \/ j = 3.
Proof.
  unfold ProcessState.get_open_file_info, FileHandleMap.get_drive_and_handle. cbn [demo_user ProcessState.with_files open_files].
  destruct (nthZ demo_handles j) eqn:E; [|done]. apply nthZ_Some in E. unfold demo_handles, lenZ in E. cbn in E. lia.
Qed.

Lemma close_outcomes_witness :
  let s := demo_system demo_handles in let p := demo_user demo_handles in
  (exists s1 p', file.close (H := any_fs 3) s 0 = Ret (s1, Err BadFileDescriptor) /\ runs s1 p' /\
     ProcessState.get_open_file_info p' 0 = None /\ ProcessState.get_open_file_info p' 1 = Some (mkPair 2 1)) /\
  (exists s1, file.close (H := any_fs 3) s 2 = Ret (s1, Err NoSuchFileSystem)) /\
  (exists s1, file.close (H := any_fs 3) s 3 = Ret (s1, Err IOError)) /\
  (exists s1, file.close (H := any_fs 3) s 5 = Ret (s1, Err BadFileDescriptor)).
Proof.
  cbv zeta. split_and!.
  - destruct (close_outcomes (H := any_fs 3) (demo_system demo_handles) (demo_user demo_handles) 0 (demo_runs _))
      as (s1 & p' & Hr & _ & Hi & [[_ Hc]|[Hn _]]); [|exfalso; by apply (Hn 1)].
    exists s1, p'. split; [exact Hc|]. split; [done|]. split; rewrite Hi; reflexivity.
  - destruct (close_outcomes (H := any_fs 3) (demo_system demo_handles) (demo_user demo_handles) 2 (demo_runs _))
      as (s1 & p' & Hr & _ & _ & [[(j & Hj & Hs) _]|[_ Hc]]); [exfalso|by exists s1].
    destruct (demo_handles_range j _ Hs) as [->|[->|[->| ->]]]; first [discriminate Hs|by apply Hj].
  - destruct (close_outcomes (H := any_fs 3) (demo_system demo_handles) (demo_user demo_handles) 3 (demo_runs _))
      as (s1 & p' & Hr & _ & _ & [[(j & Hj & Hs) _]|[_ Hc]]); [exfalso|by eexists].
    destruct (demo_handles_range j _ Hs) as [->|[->|[->| ->]]]; first [discriminate Hs|by apply Hj].
  - destruct (close_outcomes (H := any_fs 3) (demo_system demo_handles) (demo_user demo_handles) 5 (demo_runs _))
      as (s1 & p' & Hr & _ & _ & Hc). by exists s1.
Defined.

Lemma dup_never_succeeds_witness :
  file.dup (H := any_fs 3) (demo_system [Some (mkPair 2 1); Some (mkPair 2 2)]) 0 1 = Deadlock.
Proof.
  assert (E : (1 =? 0xffffffff) || bool_decide (ProcessState.get_open_file_info (demo_user [Some (mkPair 2 1); Some (mkPair 2 2)]) 1 = None) = false)
    by (by vm_compute).
  pose proof (dup_never_succeeds (H := any_fs 3) (demo_system [Some (mkPair 2 1); Some (mkPair 2 2)]) (demo_user [Some (mkPair 2 1); Some (mkPair 2 2)])
    0 1 (mkPair 2 1) (demo_runs _) (demo_room [Some (mkPair 2 1); Some (mkPair 2 2)] eq_refl) ltac:(by vm_compute) eq_refl) as Hd.
  by rewrite E in Hd.
Defined.

Lemma syscall_reads_init_file_witness :
  exists s1 h s2,
    syscall_inner (H := any_fs 3) 3 0 0 (demo_system []) (stub.open 0 0 0 0x500) = Ret (Returns s1 (set_eax (stub.open 0 0 0 0x500) h)) /\
    syscall_inner (H := any_fs 3) 3 0 0 s1 (stub.read 0 0 0 h 0x700 4) = Ret (Returns s2 (set_eax (stub.read 0 0 0 h 0x700 4) 4)) /\
    load_bytes (w_mem (world s2)) 0x700 4 = [10; 20; 30; 40].
Proof.
  apply (syscall_reads_init_file 3 0 0 (demo_system []) (demo_user []) 2 demo_init_fs demo_archive [92; 98; 46; 99] (0x1000 + 32)
    (mkEntry (replicate 18 7) [98; 46; 99] [10; 20; 30; 40; 50]) 0 0 0 0x500 0x700 4 (demo_runs [])
    (demo_room [] eq_refl));
    first [exact demo_archive_ok|lia|by vm_compute].
Defined.

Lemma syscall_pipe_carries_witness :
  exists s1 s2 s3 rh wh,
    syscall_inner (H := any_fs 3) 3 0 0 (demo_system []) (stub.pipe 0 0 0 0x800) = Ret (Returns s1 (set_eax (stub.pipe 0 0 0 0x800) 0)) /\
    load32 (w_mem (world s1)) 0x800 = rh /\ load32 (w_mem (world s1)) (0x800 + 4) = wh /\
    syscall_inner (H := any_fs 3) 3 0 0 s1 (stub.write 0 0 0 wh 0x600 4) = Ret (Returns s2 (set_eax (stub.write 0 0 0 wh 0x600 4) 4)) /\
    syscall_inner (H := any_fs 3) 3 0 0 s2 (stub.read 0 0 0 rh 0x900 6) = Ret (Returns s3 (set_eax (stub.read 0 0 0 rh 0x900 6) 4)) /\
    load_bytes (w_mem (world s3)) 0x900 4 = load_bytes (w_mem (world s1)) 0x600 4.
Proof.
  apply (syscall_pipe_carries 3 0 0 (demo_system []) (demo_user []) PipeCollection.new 0 1 0 0 0 0x800 0x600 4 0x900 6 (demo_runs []));
    first [lia|by vm_compute].
Defined.

Lemma syscall_close_wrong_handle_witness :
  exists s' p' code,
    syscall_inner (H := any_fs 3) 3 0 0 (demo_system [Some (mkPair 2 1)]) (mkRegs 0 0 0 0 0 0 0x11) =
      Ret (Returns s' (set_eax (mkRegs 0 0 0 0 0 0 0x11) code)) /\ runs s' p' /\
    ProcessState.get_open_file_info p' 0 = Some (mkPair 2 1).
Proof.
  apply (syscall_close_wrong_handle 3 0 0 (demo_system [Some (mkPair 2 1)]) (demo_user [Some (mkPair 2 1)]) PipeCollection.new
    (mkRegs 0 0 0 0 0 0 0x11) (mkPair 2 1) (demo_runs _)); first [done|by vm_compute].
Defined.
