(* ===== verification/Exceptions.v ===== *)
(** Processor exceptions: [interrupts/exceptions.rs] and the DOS call of
    [interrupts/syscall_legacy.rs].

    A handler returns to the interrupted code or loops forever.  The page fault handler works
    on the page tables of [PageTable]; a page of a mapped file is filled through the frame it
    translates to. *)

From S2P Require Import Prelude Memory Address FrameBitmap Physical Region PageTable ProcMemory Files Drivers Vfs Process Syscalls.

(** * Page faults *)

Section page_fault.
Context {D F : Type} `{FileSystem D F}.
Implicit Type s : Sys D F.

Inductive handled : Type := Resumes (s : Sys D F) | Hangs (s : Sys D F).

Definition with_vm s (v : VM) : Sys D F :=
  with_kernel s (mkKernel v (kmem (kernel s)) (PROCESS_MAP (kernel s)) (esp (kernel s)) (tss_esp (kernel s))).

Definition map_page s (frame page flags : Z) : comp (Sys D F) :=
  v ← CurrentPageDirectory.map (vm (kernel s)) frame page flags;
  Ret (with_vm s v).

(** [allocate_frame], or panic. *)
Definition new_frame s : comp (Sys D F * Z) :=
  '(v, f) ← vm_allocate_unwrap (vm (kernel s));
  Ret (with_vm s v, f).

(** The frame of a region that has its own frames. *)
Definition frame_in (range : VirtualMemoryRegion) (frames : FrameRange) (address : Z) : Z :=
  let offset := (address &u 0xfffff000) -u VirtualMemoryRegion.get_starting_address_as_usize range in
  let paddr := FrameRange.get_starting_address frames in
  Frame.new (paddr +u offset).

Definition user_flags : Z := USER_ACCESS |u WRITE_ACCESS.

(** The page of a mapped file is read from the file system into the page itself. *)
Definition fill_page s (range : VirtualMemoryRegion) (page_start drive handle length : Z) : comp (Sys D F) :=
  let offset := page_start -u VirtualMemoryRegion.get_starting_address_as_usize range in
  let read_len := if length <? offset then 0 else if offset +u length <? 0x1000 then length else 0x1000 in
  fs ← unwrap (FileSystemMap.get_fs (vfs s) drive);
  p ← unwrap (walk (phys (vm (kernel s))) (cr3 (vm (kernel s))) page_start);
  let buffer := load_bytes (phys (vm (kernel s))) p read_len in
  '(fs, w, buffer, r) ← fs_read fs (world s) handle buffer;
  let s := put_file_system s drive fs w in
  let s := with_vm s (set_phys (vm (kernel s)) (store_bytes (phys (vm (kernel s))) p buffer)) in
  match r with Ok _ => Ret s | Err _ => Panic end.

Definition kernel_fault s (p : ProcessState) (address error : Z) : comp handled :=
  if error &u 4 =? 4 then Ret (Hangs s)
  else if error &u 1 =? 0 then
    match MemoryRegions.get_range_containing_address (kmem (kernel s)) (memory_regions (pmem p)) address with
    | Some range =>
        match VirtualMemoryRegion.backing_type range with
        | Anonymous _ =>
            '(s, kernel_frame) ← new_frame s;
            s ← map_page s kernel_frame (address &u 0xfffff000) 0;
            Ret (Resumes s)
        | DMA frame_range =>
            s ← map_page s (frame_in range frame_range address) (address &u 0xfffff000) 0;
            Ret (Resumes s)
        | _ => Ret (Resumes s)
        end
    | None => Ret (Resumes s)
    end
  else Ret (Hangs s).

Definition user_fault s (p : ProcessState) (address error : Z) : comp handled :=
  match MemoryRegions.get_range_containing_address (kmem (kernel s)) (memory_regions (pmem p)) address with
  | Some range =>
      if error &u 1 =? 0 then
        let page_start := address &u 0xfffff000 in
        match VirtualMemoryRegion.backing_type range with
        | Direct frame_range =>
            s ← map_page s (frame_in range frame_range address) page_start user_flags;
            Ret (Resumes s)
        | _ =>
            '(s, new_frame) ← new_frame s;
            s ← map_page s new_frame page_start user_flags;
            s ← (if bool_decide (VirtualMemoryRegion.get_permissions range = CopyOnWrite) then
                   '(st, _) ← reference_frame_at_address (frames (vm (kernel s))) (Frame.get_address new_frame);
                   Ret (with_vm s (set_frames (vm (kernel s)) st))
                 else Ret s);
            s ← match VirtualMemoryRegion.backing_type range with
                | MemMapped drive handle length => fill_page s range page_start drive handle length
                | _ => Ret s
                end;
            Ret (Resumes s)
        end
      else Ret (Hangs s)
  | None => Ret (Hangs s)
  end.

Definition page_fault s (address error : Z) : comp handled :=
  p ← this_process s;
  if address >=? 0xc0000000 then kernel_fault s p address error
  else user_fault s p address error.

End page_fault.
Arguments handled D F : clear implicits.

(** * Other exceptions *)

Record StackFrame : Type := mkFrame { eip : Z; cs : Z; eflags : Z }.
Record DosApiRegisters : Type := mkDosRegs { ax : Z; bx : Z; cx : Z; dx : Z; si : Z; di : Z; bp : Z }.

Module DosApiRegisters.
Definition empty : DosApiRegisters := mkDosRegs 0 0 0 0 0 0 0.
End DosApiRegisters.

Definition dos_api (regs : DosApiRegisters) : DosApiRegisters :=
  match (ax regs &u 0xff00) >>u 8 with
  | 0x02 => mkDosRegs ((ax regs &u 0xff00) |u (dx regs &u 0xff)) (bx regs) (cx regs) (dx regs) (si regs) (di regs) (bp regs)
  | _ => regs
  end.

(** [None] when the handler loops. *)
Definition gpf (m : mem) (frame : StackFrame) (regs : DosApiRegisters) : option (StackFrame * DosApiRegisters) :=
  if negb (eflags frame &u 0x20000 =? 0) then
    let op_ptr := (cs frame <<u 4) +u eip frame in
    if load8 m op_ptr =? 0xcd then
      let regs := match load8 m (op_ptr + 1) with 0x21 => dos_api regs | _ => regs end in
      Some (mkFrame (eip frame +u 2) (cs frame) (eflags frame), regs)
    else None
  else None.

Definition divide_by_zero (frame : StackFrame) : option StackFrame := None.
Definition double_fault (frame : StackFrame) : option StackFrame := None.

(** * What a fault maps *)

Section faults.
Context {D F : Type} `{FileSystem D F}.
Implicit Type s : Sys D F.

(** The frames and the page tables of [s] are consistent and its directory entries private. *)
Definition memory_ok s (bm : FrameBitmap) (address : Z) : Prop :=
  vm_ok (vm (kernel s)) bm /\ is_u32 address /\ dir_index address < 1023 /\ private (vm (kernel s)) (dir_index address).

(** The outcome of mapping [frame] at the page of [address]. *)
Definition backed s (s' : Sys D F) (frame address : Z) : Prop :=
  maps_page (vm (kernel s)) (vm (kernel s')) frame address /\
  vfs s' = vfs s /\ world s' = world s /\ PROCESS_MAP (kernel s') = PROCESS_MAP (kernel s).

Definition out_of_frames (bm : FrameBitmap) : Prop := forall j, 0 <= j < frame_count bm -> occupied bm j = true.

(** No frame is free, or a page table is needed as well and at most one frame is free. *)
Definition short_of_frames s (bm : FrameBitmap) (address : Z) : Prop :=
  out_of_frames bm \/
  (~ has_table (phys (vm (kernel s))) (cr3 (vm (kernel s))) (dir_index address) /\
   forall i j, 0 <= i < frame_count bm -> 0 <= j < frame_count bm ->
     occupied bm i = false -> occupied bm j = false -> i = j).

Lemma page_split address : is_u32 address ->
  Z.land address 0xfffff000 = address / 4096 * 4096 /\ is_u32 (Z.land address 0xfffff000) /\
  dir_index (Z.land address 0xfffff000) = dir_index address.
Proof.
  intros Ha. rewrite land_page by done. split; [mlia|]. split; [mlia|].
  unfold VirtualAddress.get_page_directory_index. rewrite !Z.shiftr_div_pow2 by lia. change (2 ^ 22) with 4194304.
  mlia.
Qed.

Lemma maps_page_address v v' frame address :
  is_u32 address -> maps_page v v' frame (Z.land address 0xfffff000) -> maps_page v v' frame address.
Proof.
  intros Ha (Hc & Hw & Hother). destruct (page_split address Ha) as (Hp & _ & _). rewrite Hp in *.
  assert (Hd : address / 4096 * 4096 / 4096 = address / 4096) by mlia. split; [done|]. split.
  - rewrite (walk_same_page _ _ (address / 4096 * 4096)), Hw by done. cbn. f_equal. mlia.
  - intros w Hw32 Hdw Hne. apply Hother; [done|done|congruence].
Qed.

(** [map_page] backs the page, unless a page table is needed and there is no frame. *)
Lemma map_page_spec s bm frame address flags :
  memory_ok s bm address -> Frame.aligned frame ->
  (out_of_frames bm /\ ~ has_table (phys (vm (kernel s))) (cr3 (vm (kernel s))) (dir_index address) /\
   map_page s frame (Z.land address 0xfffff000) flags = Panic) \/
  exists s' bm', map_page s frame (Z.land address 0xfffff000) flags = Ret s' /\ vm_ok (vm (kernel s')) bm' /\
    (forall j, 0 <= j -> occupied bm j = true -> occupied bm' j = true) /\ backed s s' frame address /\
    tables_from (vm (kernel s)) (vm (kernel s')) bm.
Proof.
  intros (Hok & Ha & Hd & Hpriv) Hf. destruct (page_split address Ha) as (_ & Hp32 & Hpd). unfold map_page.
  destruct (map_current_spec (vm (kernel s)) bm frame (Z.land address 0xfffff000) flags Hok Hp32 Hf ltac:(by rewrite Hpd) ltac:(by rewrite Hpd))
    as [(Hno & Hfull & ->)|(v' & bm' & -> & Hok' & Hocc & Hmaps & Htab)]; [left; by rewrite Hpd in Hno|right].
  cbn [mbind comp_bind]. eexists _, bm'. split; [done|]. split; [done|]. split; [done|].
  split; [|done]. split; [|done]. by apply maps_page_address.
Qed.

(** [new_frame] takes the lowest free frame. *)
Lemma new_frame_spec s bm address :
  memory_ok s bm address ->
  (out_of_frames bm /\ new_frame s = Panic) \/
  exists s1 bm1 f, new_frame s = Ret (s1, f * 4096) /\ memory_ok s1 bm1 address /\ Frame.aligned (f * 4096) /\
    0 <= f < frame_count bm /\ occupied bm f = false /\ (forall j, 0 <= j < f -> occupied bm j = true) /\
    occupied bm1 f = true /\ frame_count bm1 = frame_count bm /\
    (forall j, 0 <= j -> j <> f -> occupied bm1 j = occupied bm j) /\
    vm (kernel s1) = set_frames (vm (kernel s)) (frames (vm (kernel s1))) /\
    s1 = with_vm s (vm (kernel s1)).
Proof.
  intros (Hok & Ha & Hd & Hpriv). pose proof (vo_bm _ _ Hok) as Hwf. pose proof Hwf as (Hc & _).
  unfold new_frame, vm_allocate_unwrap, vm_allocate_frame.
  destruct (allocate_frame_cases (frames (vm (kernel s))) bm (vo_alloc _ _ Hok) Hwf)
    as [(f & bm' & -> & Hf & Hfree & Hlow & Hwf' & Hcnt & Hocc)|[-> Hfull]]; [right|by left].
  cbn [mbind comp_bind]. eexists _, bm', f. split; [done|]. split.
  { split; [|done]. apply (vm_ok_frames _ bm); [done..|]. intros j Hj Ho. rewrite Hocc, Ho by done. apply orb_true_r. }
  split; [split; mlia|]. split; [done|]. split; [done|]. split; [done|]. split; [rewrite Hocc, Z.eqb_refl by lia; done|]. split; [done|].
  split; [|done]. intros j Hj Hne. rewrite Hocc by done. by destruct (Z.eqb_spec f j).
Qed.

(** A new frame mapped at the page of [address]: it was the lowest free one, and is neither the
    directory nor a page table. *)
Lemma new_page_spec s bm address flags :
  memory_ok s bm address ->
  (short_of_frames s bm address /\ ('(s, fr) ← new_frame s; map_page s fr (Z.land address 0xfffff000) flags) = Panic) \/
  exists s1 s' bm' f, new_frame s = Ret (s1, f * 4096) /\ map_page s1 (f * 4096) (Z.land address 0xfffff000) flags = Ret s' /\
    backed s s' (f * 4096) address /\ vm_ok (vm (kernel s')) bm' /\ 0 <= f < frame_count bm /\ frame_count bm <= 1048576 /\
    occupied bm f = false /\ (forall j, 0 <= j < f -> occupied bm j = true) /\ occupied bm' f = true /\
    cr3 (vm (kernel s')) <> f * 4096 /\
    forall d, 0 <= d < 1023 -> has_table (phys (vm (kernel s'))) (cr3 (vm (kernel s'))) d ->
      table_of (phys (vm (kernel s'))) (cr3 (vm (kernel s'))) d <> f * 4096.
Proof.
  intros Hm. pose proof Hm as (Hok & _). pose proof (vo_bm _ _ Hok) as (Hc & _).
  destruct (new_frame_spec s bm address Hm)
    as [[Hfull ->]|(s1 & bm1 & f & -> & Hm1 & Hal & Hf & Hfree & Hlow & Hocc1 & Hcnt & Hsame & Hv & Hs1)].
  { left. split; [by left|done]. }
  cbn [mbind comp_bind].
  destruct (map_page_spec s1 bm1 (f * 4096) address flags Hm1 Hal) as [(Hfull & Hno & ->)|(s2 & bm2 & E2 & Hok2 & Hocc & Hb & Htab)].
  { left. split; [|done]. right. split; [by rewrite Hv in Hno|]. intros i j Hi Hj Fi Fj.
    assert (Hone : forall x, 0 <= x < frame_count bm -> occupied bm x = false -> x = f); [|by rewrite (Hone i), (Hone j)].
    intros x Hx Fx. destruct (Z.eq_dec x f) as [|Hne]; [done|]. rewrite <- Hsame, Hfull in Fx by lia. done. }
  right. assert (Ef : f * 4096 / 4096 = f) by mlia.
  assert (Hcr : cr3 (vm (kernel s2)) = cr3 (vm (kernel s))) by (destruct Hb as ((Hc3 & _) & _); rewrite Hc3, Hv; done).
  assert (Hb' : backed s s2 (f * 4096) address).
  { rewrite Hs1 in Hb. destruct Hb as ((Hc3 & Hw & Ho) & Hrest). rewrite Hv in Hc3, Ho. split; [|exact Hrest].
    split; [exact Hc3|]. split; [exact Hw|exact Ho]. }
  exists s1, s2, bm2, f. split; [done|]. split; [exact E2|]. split; [exact Hb'|]. split; [done|]. split; [done|]. split; [lia|].
  split; [done|]. split; [done|]. split; [apply Hocc; [lia|done]|]. rewrite Hcr. split.
  - intros Ec. pose proof (vo_dir _ _ Hok) as Hd. rewrite Ec, Ef in Hd. congruence.
  - intros d Hd Hh Ht. rewrite <- Hcr in Hh, Ht. destruct (Htab d Hd Hh) as [[Hh' Hsame']|Hfree'].
    + rewrite Hsame' in Ht. rewrite Hv in Hh', Ht. destruct (vo_tables _ _ Hok d Hd Hh') as [_ Ho].
      change (table_of (phys (vm (kernel s))) (cr3 (vm (kernel s))) d = f * 4096) in Ht. rewrite Ht, Ef in Ho. congruence.
    + rewrite Ht, Ef in Hfree'. congruence.
Qed.

(** The regions a fault backs with a new frame, the flags it gives the page. *)
Definition demand_zero (address : Z) (range : VirtualMemoryRegion) : Prop :=
  match backed_by range with
  | Anonymous _ => address >= 0xc0000000 \/ permissions range <> CopyOnWrite
  | DMA _ => address < 0xc0000000 /\ permissions range <> CopyOnWrite
  | _ => False
  end.

(** C9: A fault on a missing page of an anonymous region of the process, or of the kernel
    from kernel mode, takes the lowest free frame and maps the page to it; every other page
    keeps its translation and the page tables stay consistent with the allocator.  The one
    failure is that no frame is free, or only one where a page table is needed as well. *)
Theorem page_fault_backs_page s p bm address error range :
  runs s p -> memory_ok s bm address -> Z.land error 1 = 0 -> (address >= 0xc0000000 -> Z.land error 4 = 0) ->
  MemoryRegions.get_range_containing_address (kmem (kernel s)) (memory_regions (pmem p)) address = Some range ->
  demand_zero address range ->
  (short_of_frames s bm address /\ page_fault s address error = Panic) \/
  exists s' bm' f, page_fault s address error = Ret (Resumes s') /\ backed s s' (f * 4096) address /\
    vm_ok (vm (kernel s')) bm' /\ 0 <= f < frame_count bm /\ occupied bm f = false /\
    (forall j, 0 <= j < f -> occupied bm j = true) /\ occupied bm' f = true.
Proof.
  intros Hr Hm He1 He4 Hrange Hdz. unfold page_fault. rewrite (this_process_spec s p Hr). cbn [mbind comp_bind].
  pose proof (new_page_spec s bm address) as Hnew.
  unfold demand_zero in Hdz. destruct (Z.geb_spec address 0xc0000000) as [Hk|Hu].
  - unfold kernel_fault. rewrite He4, He1, Hrange by lia. cbn [Z.eqb]. unfold VirtualMemoryRegion.backing_type.
    destruct (backed_by range); try done; [|lia].
    destruct (Hnew 0 Hm) as [[Hsh H4]|(s1 & s' & bm' & f & -> & H1 & H2 & H3 & H4 & _ & H5 & H6 & H7 & _)].
    + left. split; [done|]. destruct (new_frame s) as [[s1 fr]| | |]; cbn [mbind comp_bind] in *; try done. by rewrite H4.
    + right. cbn [mbind comp_bind]. rewrite H1. by exists s', bm', f.
  - unfold user_fault. rewrite Hrange, He1. cbn [Z.eqb]. unfold VirtualMemoryRegion.backing_type, VirtualMemoryRegion.get_permissions.
    destruct (Hnew user_flags Hm) as [[Hsh H4]|(s1 & s' & bm' & f & -> & H1 & H2 & H3 & H4 & _ & H5 & H6 & H7 & _)].
    + left. split; [done|]. destruct (backed_by range); try done;
        (destruct (new_frame s) as [[s1 fr]| | |]; cbn [mbind comp_bind] in *; try done; by rewrite H4).
    + right. cbn [mbind comp_bind]. rewrite H1. cbn [mbind comp_bind].
      destruct (backed_by range); try done; (rewrite bool_decide_eq_false_2 by (destruct Hdz; done || lia)); by exists s', bm', f.
Qed.

(** A fault on a missing page of a region that has its own frames (video memory in user
    space, buffers for direct memory access in kernel space) maps the page to the frame at the
    same offset, so that the whole region is one piece of physical memory. *)
Theorem page_fault_direct_frame s p bm address error range frame_range :
  runs s p -> memory_ok s bm address -> Z.land error 1 = 0 ->
  MemoryRegions.get_range_containing_address (kmem (kernel s)) (memory_regions (pmem p)) address = Some range ->
  (if address >=? 0xc0000000 then Z.land error 4 = 0 /\ backed_by range = DMA frame_range else backed_by range = Direct frame_range) ->
  start range mod 4096 = 0 -> start range <= address -> fr_start frame_range mod 4096 = 0 ->
  0 <= start range -> 0 <= fr_start frame_range -> fr_start frame_range + (address - start range) < 4294967296 ->
  (page_fault s address error = Panic /\ out_of_frames bm) \/
  exists s' bm', page_fault s address error = Ret (Resumes s') /\ vm_ok (vm (kernel s')) bm' /\
    walk (phys (vm (kernel s'))) (cr3 (vm (kernel s'))) address = Some (fr_start frame_range + (address - start range)) /\
    forall w, is_u32 w -> dir_index w < 1023 -> w / 4096 <> address / 4096 ->
      walk (phys (vm (kernel s'))) (cr3 (vm (kernel s'))) w = walk (phys (vm (kernel s))) (cr3 (vm (kernel s))) w.
Proof.
  intros Hr Hm He Hrange Hback Hst Hle Hfr H0 Hf0 Hover. pose proof Hm as (_ & Ha & _). destruct (page_split address Ha) as (Hp & _).
  assert (Hframe : frame_in range frame_range address = fr_start frame_range + (address / 4096 * 4096 - start range)).
  { unfold frame_in, VirtualMemoryRegion.get_starting_address_as_usize, FrameRange.get_starting_address. rewrite Hp.
    rewrite (u32_small (_ - _)), (u32_small (_ + _)) by (mach_unfold; mlia). apply Frame.new_id. split; [mach_unfold; mlia|mlia]. }
  assert (Hal : Frame.aligned (frame_in range frame_range address)) by (rewrite Hframe; split; [mach_unfold; mlia|mlia]).
  unfold page_fault. rewrite (this_process_spec s p Hr). cbn [mbind comp_bind].
  assert (Hbody : forall flags, (x ← map_page s (frame_in range frame_range address) (Z.land address 0xfffff000) flags; Ret (Resumes x)) = Panic /\ out_of_frames bm \/
    exists s' bm', (x ← map_page s (frame_in range frame_range address) (Z.land address 0xfffff000) flags; Ret (Resumes x)) = Ret (Resumes s') /\
      vm_ok (vm (kernel s')) bm' /\
      walk (phys (vm (kernel s'))) (cr3 (vm (kernel s'))) address = Some (fr_start frame_range + (address - start range)) /\
      forall w, is_u32 w -> dir_index w < 1023 -> w / 4096 <> address / 4096 ->
        walk (phys (vm (kernel s'))) (cr3 (vm (kernel s'))) w = walk (phys (vm (kernel s))) (cr3 (vm (kernel s))) w).
  { intros flags. destruct (map_page_spec s bm _ address flags Hm Hal) as [(Hfull & _ & ->)|(s' & bm' & -> & Hok' & _ & ((_ & Hw & Ho) & _) & _)]; [by left|right].
    exists s', bm'. split; [done|]. split; [done|]. split; [|exact Ho]. rewrite Hw, Hframe. f_equal. mlia. }
  destruct (Z.geb_spec address 0xc0000000).
  - destruct Hback as [He4 Hback]. unfold kernel_fault. rewrite He4, He, Hrange. cbn [Z.eqb].
    unfold VirtualMemoryRegion.backing_type. rewrite Hback. apply Hbody.
  - unfold user_fault. rewrite Hrange, He. cbn [Z.eqb]. unfold VirtualMemoryRegion.backing_type. rewrite Hback. apply Hbody.
Qed.
End faults.

(** * Mapped files *)

(** Bytes written into a frame that holds no table change no translation. *)
Lemma store_frame_walk m m' dir f w :
  Frame.aligned dir -> Frame.aligned f -> is_u32 w -> dir_index w < 1023 -> dir <> f ->
  (has_table m dir (dir_index w) -> table_of m dir (dir_index w) <> f) ->
  (forall x, ~ (f <= x < f + 4096) -> m' !! x = m !! x) -> walk m' dir w = walk m dir w.
Proof.
  intros Hda Hfa Hw Hd Hne Htab Hout. destruct (index_range w Hw) as [Hdi Hti].
  assert (Hcell : forall g i, Frame.aligned g -> 0 <= i < 1024 -> g <> f -> load32 m' (g + 4 * i) = load32 m (g + 4 * i)).
  { intros g i Hg Hi Hgf. apply load32_ext; [by apply aligned_space|]. intros x Hx. apply Hout.
    destruct Hg as [_ Hg], Hfa as [_ Hf']. mlia. }
  apply walk_cells; [by apply Hcell|]. intros Hh. apply Hcell; [apply table_aligned|done|by apply Htab].
Qed.

Section mapped.
Context {D : Type} `{DeviceDriver D} (fuel : nat).
#[local] Instance boxed : FileSystem D AnyFs := any_fs fuel.
Implicit Type s : Sys D AnyFs.

(** The bytes a fault asks the file system for. *)
Definition read_length (range : VirtualMemoryRegion) (page_start length : Z) : Z :=
  let offset := page_start -u start range in
  if length <? offset then 0 else if offset +u length <? 0x1000 then length else 0x1000.

Lemma fill_page_spec s range page drive handle length f cursor content frame :
  FileSystemMap.get_fs (vfs s) drive = Some (FsInit f) -> InitFs.open_at (w_mem (world s)) f handle cursor content ->
  walk (phys (vm (kernel s))) (cr3 (vm (kernel s))) page = Some frame -> 0 <= length < 2147483648 -> in_space frame 4096 ->
  let n := Z.min (read_length range page length) (lenZ content - cursor) in
  exists s' f', fill_page s range page drive handle length = Ret s' /\
    load_bytes (phys (vm (kernel s'))) frame n = take (Z.to_nat n) (drop (Z.to_nat cursor) content) /\
    (forall x, ~ (frame <= x < frame + 4096) -> phys (vm (kernel s')) !! x = phys (vm (kernel s)) !! x) /\
    vm (kernel s') = set_phys (vm (kernel s)) (phys (vm (kernel s'))) /\
    FileSystemMap.get_fs (vfs s') drive = Some (FsInit f') /\ InitFs.open_at (w_mem (world s')) f' handle (cursor + n) content.
Proof.
  intros Hfs Hopen Hw Hlen Hsp n. unfold fill_page. unfold VirtualMemoryRegion.get_starting_address_as_usize.
  change (if length <? page -u start range then 0 else if (page -u start range) +u length <? 0x1000 then length else 0x1000)
    with (read_length range page length).
  assert (Hrl : 0 <= read_length range page length <= 4096).
  { unfold read_length. repeat case_match; try lia. bool_to_prop. set (o := u32 (page - start range)) in *. assert (is_u32 o) by (unfold o; auto with mach). mlia. }
  rewrite Hfs, Hw. cbn [unwrap mbind comp_bind]. set (buffer := load_bytes _ frame _).
  assert (Hbl : lenZ buffer = read_length range page length) by (apply lenZ_load_bytes; lia).
  destruct (InitFs.init_read_spec (w_mem (world s)) f handle cursor content buffer Hopen) as (f' & Hread & Hopen').
  rewrite Hbl in Hread, Hopen'. fold n in Hread, Hopen'. cbn [fs_read boxed any_fs dispatch init_fs_instance]. rewrite Hread.
  cbn [mbind comp_bind]. set (out := take (Z.to_nat n) (drop (Z.to_nat cursor) content) ++ drop (Z.to_nat n) buffer).
  pose proof Hopen as [(st & _ & _ & _ & Hb) Hc]. assert (Hn : 0 <= n <= lenZ buffer) by (unfold n; lia).
  assert (Htl : lenZ (take (Z.to_nat n) (drop (Z.to_nat cursor) content)) = n)
    by (rewrite lenZ_take; [done|rewrite lenZ_drop by lia; unfold n in *; lia]).
  assert (Hol : lenZ out = lenZ buffer) by (unfold out; rewrite lenZ_app, Htl, lenZ_drop by lia; lia).
  eexists _, f'. split; [done|]. cbn [vm kernel with_vm with_kernel put_file_system phys set_phys vfs world]. split_and!.
  - rewrite (load_bytes_take _ frame (lenZ buffer) n) by lia. rewrite <- Hol at 1.
    rewrite load_store_bytes by (destruct Hsp; split; lia). rewrite <- fmap_take. unfold out.
    rewrite take_app_length' by (unfold lenZ in Htl; lia).
    pose proof (InitFs.oa_file _ _ _ _ _ Hopen) as (st' & _ & _ & _ & Hb').
    rewrite <- (bytes_at_sub (w_mem (world s)) st' content cursor n Hb' ltac:(lia) ltac:(lia) ltac:(lia)). apply load_bytes_u8.
  - intros x Hx. apply store_bytes_lookup_ne; [destruct Hsp; split; lia|]. lia.
  - done.
  - erewrite get_put_fs by exact Hfs. by rewrite Z.eqb_refl.
  - exact Hopen'.
Qed.

End mapped.


(** * Examples *)

Definition demo_fault_regions : MemoryRegions :=
  mkMemoryRegions VirtualMemoryRegion.empty VirtualMemoryRegion.empty
    (VirtualMemoryRegion.new 0x400000 0x2000 (Anonymous NoExpansion) ReadWrite)
    VirtualMemoryRegion.empty
    [VirtualMemoryRegion.new 0xa0000 0x10000 (Direct (FrameRange.new 0xb0000 0x10000)) ReadWrite;
     VirtualMemoryRegion.new 0x100000 0x1000 (MemMapped 2 1 5) ReadWrite].
Definition demo_faulting : ProcessState :=
  ProcessState.with_memory (demo_process 1 0 Running) (mkProcMemory demo_fault_regions 0) Native.
Definition demo_fault_system : Sys ZeroDevice AnyFs :=
  mkSys (mkKernel demo_vm initial_kernel_memory (Some (mkProcessMap 1 1 [(1, demo_faulting)])) 0 0)
    [Named DEV_NAME (FsDev DevFs.DevFileSystem.new); Named PIPE_NAME (FsPipe mkPipeFs);
     Named INIT_NAME (FsInit (InitFs.opened InitFs.demo_init_fs (0x1000 + 32) (InitFs.mkEntry (replicate 18 7) [98; 46; 99] [10; 20; 30; 40; 50])))]
    (world (demo_system [])) (mkStatics 0 1).

Lemma demo_fault_runs : runs demo_fault_system demo_faulting.
Proof. eexists. split; [done|]. by split. Qed.

Lemma demo_memory_ok address : 0 <= address < 0xc0000000 -> memory_ok demo_fault_system demo_bitmap address.
Proof.
  intros Ha. split; [apply demo_vm_ok|]. split; [mach_unfold; lia|]. split; [|apply demo_vm_private].
  apply dir_index_below. lia.
Qed.

(** Two frames are free. *)
Lemma demo_frames_left address : ~ short_of_frames demo_fault_system demo_bitmap address.
Proof.
  intros [Hout|[_ Hone]].
  - by specialize (Hout 1 ltac:(cbn; lia)).
  - by specialize (Hone 1 3 ltac:(cbn; lia) ltac:(cbn; lia) eq_refl eq_refl).
Qed.

Lemma page_fault_backs_page_witness :
  exists s' bm' f, page_fault (H := any_fs 3) demo_fault_system 0x401234 6 = Ret (Resumes s') /\ backed demo_fault_system s' (f * 4096) 0x401234 /\
    vm_ok (vm (kernel s')) bm' /\ 0 <= f < frame_count demo_bitmap /\ occupied demo_bitmap f = false /\
    (forall j, 0 <= j < f -> occupied demo_bitmap j = true) /\ occupied bm' f = true.
Proof.
  destruct (page_fault_backs_page (H := any_fs 3) demo_fault_system demo_faulting demo_bitmap 0x401234 6
    (VirtualMemoryRegion.new 0x400000 0x2000 (Anonymous NoExpansion) ReadWrite) demo_fault_runs (demo_memory_ok 0x401234 ltac:(lia)))
    as [[Hsh _]|Hok]; [done|lia|by vm_compute|by right|by apply demo_frames_left in Hsh|exact Hok].
Defined.

Lemma page_fault_direct_frame_witness :
  (page_fault (H := any_fs 3) demo_fault_system 0xa1234 6 = Panic /\ out_of_frames demo_bitmap) \/
  exists s' bm', page_fault (H := any_fs 3) demo_fault_system 0xa1234 6 = Ret (Resumes s') /\ vm_ok (vm (kernel s')) bm' /\
    walk (phys (vm (kernel s'))) (cr3 (vm (kernel s'))) 0xa1234 = Some 0xb1234 /\
    forall w, is_u32 w -> dir_index w < 1023 -> w / 4096 <> 0xa1234 / 4096 ->
      walk (phys (vm (kernel s'))) (cr3 (vm (kernel s'))) w = walk (phys demo_vm) (cr3 demo_vm) w.
Proof.
  apply (page_fault_direct_frame (H := any_fs 3) demo_fault_system demo_faulting demo_bitmap 0xa1234 6
    (VirtualMemoryRegion.new 0xa0000 0x10000 (Direct (FrameRange.new 0xb0000 0x10000)) ReadWrite) (FrameRange.new 0xb0000 0x10000)
    demo_fault_runs (demo_memory_ok 0xa1234 ltac:(lia))); first [done|by vm_compute].
Defined.

