(* ===== verification/Interrupts.v ===== *)
(** Device interrupts and the input thread: [interrupts/pic.rs], [input.rs], and the part of
    [drivers/keyboard/mod.rs] that hands key actions on to the terminals.

    The handlers only record what happened and wake a process; the input thread turns the
    recorded scan codes into key actions.  The last part follows a text typed on the keyboard
    from the interrupts to the bytes a program reads from the terminal. *)

From S2P Require Import Prelude Memory PageTable ProcMemory RingBuffer Ports Time Blocking TextMode Files Drivers Serial Keyboard Tty Floppy FloppyController Process.

(** The machine behind the ports and the statics the handlers use. *)
Record Machine (H : Type) : Type := mkMachine {
  hw : H;
  kernel : Kernel;
  clock : Clock;
  INPUT_THREAD_ID : Z;
  INPUT_EVENTS : RingBuffer;
  KEYBOARD : option Keyboard;
  ROUTER : option TTYRouter;
  COM1 : SerialPort;
  floppy_controller : FloppyController
}.
Arguments mkMachine {H}. Arguments hw {H}. Arguments kernel {H}. Arguments clock {H}. Arguments INPUT_THREAD_ID {H}.
Arguments INPUT_EVENTS {H}. Arguments KEYBOARD {H}. Arguments ROUTER {H}. Arguments COM1 {H}. Arguments floppy_controller {H}.

Section machine.
Context {H : Type} `{Ports H}.

Definition with_hw (m : Machine H) (x : H) : Machine H :=
  mkMachine x (kernel m) (clock m) (INPUT_THREAD_ID m) (INPUT_EVENTS m) (KEYBOARD m) (ROUTER m) (COM1 m) (floppy_controller m).
Definition with_kernel (m : Machine H) (k : Kernel) : Machine H :=
  mkMachine (hw m) k (clock m) (INPUT_THREAD_ID m) (INPUT_EVENTS m) (KEYBOARD m) (ROUTER m) (COM1 m) (floppy_controller m).
Definition with_clock (m : Machine H) (c : Clock) : Machine H :=
  mkMachine (hw m) (kernel m) c (INPUT_THREAD_ID m) (INPUT_EVENTS m) (KEYBOARD m) (ROUTER m) (COM1 m) (floppy_controller m).
Definition with_events (m : Machine H) (b : RingBuffer) : Machine H :=
  mkMachine (hw m) (kernel m) (clock m) (INPUT_THREAD_ID m) b (KEYBOARD m) (ROUTER m) (COM1 m) (floppy_controller m).
Definition with_input (m : Machine H) (k : Kernel) (kbd : option Keyboard) (r : option TTYRouter) : Machine H :=
  mkMachine (hw m) k (clock m) (INPUT_THREAD_ID m) (INPUT_EVENTS m) kbd r (COM1 m) (floppy_controller m).
Definition with_controller (m : Machine H) (c : FloppyController) : Machine H :=
  mkMachine (hw m) (kernel m) (clock m) (INPUT_THREAD_ID m) (INPUT_EVENTS m) (KEYBOARD m) (ROUTER m) (COM1 m) c.
Definition with_thread_id (m : Machine H) (id : Z) : Machine H :=
  mkMachine (hw m) (kernel m) (clock m) id (INPUT_EVENTS m) (KEYBOARD m) (ROUTER m) (COM1 m) (floppy_controller m).

#[export] Instance machine_ports : Ports (Machine H) := {
  inb m port := let '(x, v) := inb (hw m) port in (with_hw m x, v);
  outb m port v := with_hw m (outb (hw m) port v)
}.

(** [process::send_signal] *)
Definition signal (m : Machine H) (id sig : Z) : comp (Machine H) :=
  k ← Process.send_signal (kernel m) id sig; Ret (with_kernel m k).

(** * The handlers *)

Definition pit (m : Machine H) : comp (Machine H) :=
  '(c, _) ← run_alone (increment_offset HUNDRED_NS_PER_TICK) (clock m);
  let m := with_clock m c in
  pm ← Process.all_processes (kernel m);
  let m := with_kernel m (Process.with_map (kernel m) (Process.send_tick pm)) in
  Ret (PIC.acknowledge_interrupt m 0).

Definition KEYBOARD_PORT : Z := 0x60.

Definition wake_thread (m : Machine H) : comp (Machine H) := signal m (INPUT_THREAD_ID m) SIG_CONTINUE.

Definition keyboard (m : Machine H) : comp (Machine H) :=
  let '(m, data) := Port.read_u8 m KEYBOARD_PORT in
  '(b, _) ← RingBuffer.write (INPUT_EVENTS m) [data];
  let m := with_events m b in
  m ← wake_thread m;
  Ret (PIC.acknowledge_interrupt m 1).

Definition com1 (m : Machine H) : comp (Machine H) :=
  m ← SerialPort.handle_interrupt signal m (COM1 m);
  Ret (PIC.acknowledge_interrupt m 4).

Definition floppy (m : Machine H) : comp (Machine H) :=
  '(m, c) ← FloppyController.handle_int6 signal m (floppy_controller m);
  let m := with_controller m c in
  Ret (PIC.acknowledge_interrupt m 6).

(** * The input thread *)

(** The address space the thread runs in. *)
Definition translate (v : VM) (a : Z) : Z := default a (walk (phys v) (cr3 v) a).

(** Key actions are drawn on the screen by the router, in physical memory. *)
Definition send_key_action (m : Machine H) (kbd : Keyboard) (action : KeyAction) : comp (Machine H) :=
  let v := vm (kernel m) in
  r ← get_router (ROUTER m);
  '(mem, r) ← TTYRouter.send_key_action (translate v) (phys v) r action;
  let k := kernel m in
  let k := mkKernel (set_phys v mem) (kmem k) (PROCESS_MAP k) (Process.esp k) (tss_esp k) in
  Ret (with_input m k (Some kbd) (Some r)).

Definition handle_data (m : Machine H) (kbd : Keyboard) (data : Z) : comp (Machine H) :=
  '(kbd, action) ← Keyboard.generate_action_from_scan_code kbd data;
  match action with
  | Some action => send_key_action m (Keyboard.process_action kbd action) action
  | None => Ret (with_input m (kernel m) (Some kbd) (ROUTER m))
  end.

(** [for _ in 0..to_read], left by [break]. *)
Fixpoint input_loop (to_read : nat) (m : Machine H) (read_buffer : list Z) : comp (Machine H) :=
  match to_read with
  | O => Ret m
  | S to_read =>
      '(b, read_buffer, read_len) ← RingBuffer.read (INPUT_EVENTS m) read_buffer;
      let m := with_events m b in
      if read_len <? 1 then Ret m
      else
        m ← match KEYBOARD m with
            | Some kbd => x ← index read_buffer 0; handle_data m kbd x
            | None => Ret m
            end;
        input_loop to_read m read_buffer
  end.

(** What the thread does each time it has been woken. *)
Definition input_round (m : Machine H) : comp (Machine H) :=
  input_loop (Z.to_nat (RingBuffer.available_bytes (INPUT_EVENTS m))) m [0].

(** [run_input] up to its loop, with the message it prints; and the sleep at the start of
    each iteration, up to the switch to another process. *)
Definition run_input_start (m : Machine H) (message : list (list Z)) : comp (Machine H) :=
  id ← Process.get_current_pid (kernel m);
  let m := with_thread_id m id in
  r ← console_write (ROUTER m) message;
  Ret (with_input m (kernel m) (KEYBOARD m) r).
Definition run_input_sleep (m : Machine H) : comp (Machine H) :=
  m ← signal m (INPUT_THREAD_ID m) SIG_STOP;
  k ← Process.yield_coop (kernel m);
  Ret (with_kernel m k).
End machine.

(** * A US keyboard

    The reference: the scan codes of the keys that type characters, row by row, with what
    they type alone and with shift. *)
Fixpoint key_row (scan : Z) (normal shifted : list Z) : list (Z * Z * Z) :=
  match normal, shifted with
  | n :: normal, s :: shifted => (scan, n, s) :: key_row (scan + 1) normal shifted
  | _, _ => []
  end.
Definition us_keys : list (Z * Z * Z) :=
  key_row 0x02 [49; 50; 51; 52; 53; 54; 55; 56; 57; 48; 45; 61] [33; 64; 35; 36; 37; 94; 38; 42; 40; 41; 95; 43] ++
  key_row 0x10 [113; 119; 101; 114; 116; 121; 117; 105; 111; 112; 91; 93] [81; 87; 69; 82; 84; 89; 85; 73; 79; 80; 123; 125] ++
  key_row 0x1e [97; 115; 100; 102; 103; 104; 106; 107; 108; 59; 39; 96] [65; 83; 68; 70; 71; 72; 74; 75; 76; 58; 34; 126] ++
  key_row 0x2b [92; 122; 120; 99; 118; 98; 110; 109; 44; 46; 47] [124; 90; 88; 67; 86; 66; 78; 77; 60; 62; 63] ++
  key_row 0x39 [32] [32].

(** A key is pressed and released, between a press and a release of shift if it is shifted;
    a released key sends its code with the top bit set. *)
Definition stroke : Type := Z * Z * Z * bool.
Definition stroke_codes (k : stroke) : list Z :=
  let '(scan, _, _, sh) := k in if sh then [0x2a; scan; scan + 128; 0xaa] else [scan; scan + 128].
Definition stroke_char (k : stroke) : Z := let '(_, normal, shifted, sh) := k in if sh : bool then shifted else normal.

(** What the two tables of the code say of a key of the layout. *)
Definition key_ok (key : Z * Z * Z) : Prop :=
  let '(scan, n, s) := key in
  0 <= scan < 60 /\ exists c, nthZ SCANCODES_TO_KEYCODES scan = Some c /\ nthZ US_LAYOUT (key_byte c) = Some (n, s) /\
    key_byte c < 0x60 /\ c <> KeyNone /\ c <> KeyAlt /\ c <> KeyControl /\ c <> KeyShift /\ c <> KeyArrowLeft.

Lemma us_keys_ok : Forall key_ok us_keys.
Proof.
  unfold us_keys. cbn [key_row app]. repeat (apply Forall_cons; split);
    [split; [lia|]; eexists; split_and!; [reflexivity|reflexivity|done|done|done|done|done|done]..|by apply Forall_nil].
Qed.

Section typing.
Context {H : Type} `{Ports H}.

(** The keyboard is between two keys; the active terminal has the bytes [q] for its readers,
    and shift is held or not. *)
Record typing (m : Machine H) (q : list Z) (sh : bool) : Prop := {
  ty_kbd : exists kbd, KEYBOARD m = Some kbd /\ receiving_extended_code kbd = false;
  ty_router : exists r d, ROUTER m = Some r /\ alt (key_state r) = false /\ shift (key_state r) = sh /\
    nthZ (tty_set r) (active_tty r) = Some d /\ rep (output_buffer (data_buffers d)) q /\
    lenZ (rb_data (output_buffer (data_buffers d))) = 256
}.

(** Handling the scan code [c] sends [out] to the readers. *)
Definition handles (c : Z) (sh sh' : bool) (out : list Z) : Prop := forall m q kbd,
  typing m q sh -> KEYBOARD m = Some kbd -> lenZ q + lenZ out <= 256 ->
  exists m', handle_data m kbd c = Ret m' /\ typing m' (q ++ out) sh' /\ INPUT_EVENTS m' = INPUT_EVENTS m.

(** The action a scan code means. *)
Lemma generate_spec kbd scan c : receiving_extended_code kbd = false -> 0 <= scan < 60 -> nthZ SCANCODES_TO_KEYCODES scan = Some c -> c <> KeyNone ->
  Keyboard.generate_action_from_scan_code kbd scan = Ret (kbd, Some (Press c)) /\
  Keyboard.generate_action_from_scan_code kbd (scan + 128) = Ret (kbd, Some (Release c)).
Proof.
  intros He Hs Hc Hn. unfold Keyboard.generate_action_from_scan_code, get_keycode. rewrite He.
  assert (E1 : Z.land scan 0x7f = scan) by (change 0x7f with (Z.ones 7); rewrite Z.land_ones by lia; apply Z.mod_small; lia).
  assert (E2 : Z.land (scan + 128) 0x7f = scan) by (change 0x7f with (Z.ones 7); rewrite Z.land_ones by lia; change (2 ^ 7) with 128; mlia).
  assert (Hbit : forall x, Z.land x 0x80 = x / 128 mod 2 * 128).
  { intros x. apply Z.bits_inj'. intros n Hn'. rewrite Z.land_spec. change 0x80 with (2 ^ 7). rewrite Z.pow2_bits_eqb by lia.
    rewrite Z.mul_pow2_bits by lia.
    change 2 with (2 ^ 1) at 2. destruct (Z.eqb_spec 7 n) as [<-|Hne].
    - rewrite andb_true_r, Z.sub_diag, Z.mod_pow2_bits_low by lia. by rewrite Z.div_pow2_bits.
    - rewrite andb_false_r. symmetry. destruct (Z.lt_ge_cases n 7); [apply Z.testbit_neg_r; lia|apply Z.mod_pow2_bits_high; lia]. }
  rewrite E1, E2, !Hbit. replace (scan / 128 mod 2 * 128) with 0 by mlia. replace ((scan + 128) / 128 mod 2 * 128) with 128 by mlia.
  destruct (Z.eqb_spec scan 0xe0); [lia|]. destruct (Z.ltb_spec scan 60); [|lia].
  rewrite (index_Ret _ _ c Hc). cbn [mbind comp_bind].
  assert (Hk : mkKeyboard false (open_readers kbd) = kbd) by (destruct kbd; cbn in He |- *; congruence). rewrite Hk.
  split; [by destruct c|]. destruct (Z.eqb_spec (scan + 128) 0xe0) as [E|]; [|by destruct c]. exfalso. lia.
Qed.

Lemma press_spec k c n s : nthZ US_LAYOUT (key_byte c) = Some (n, s) -> key_byte c < 0x60 ->
  c <> KeyAlt -> c <> KeyControl -> c <> KeyShift -> c <> KeyArrowLeft ->
  KeyState.process_key_action k (Press c) [0; 0; 0; 0] = Ret (k, [if shift k then s else n; 0; 0; 0], Some 1).
Proof.
  intros Hl Hb Ha Hc Hs Hw.
  assert (E : KeyState.process_key_action k (Press c) [0; 0; 0; 0] =
    ('(buffer, len) ← KeyState.key_code_to_ascii k c [0; 0; 0; 0]; Ret (k, buffer, Some len))) by (by destruct c). rewrite E.
  assert (E2 : KeyState.key_code_to_ascii k c [0; 0; 0; 0] =
    ('(normal, shifted) ← (if key_byte c <? 0x60 then index US_LAYOUT (key_byte c) else Ret (0, 0));
     buffer ← store [0; 0; 0; 0] 0 (if shift k then shifted else normal); Ret (buffer, 1))) by (by destruct c). rewrite E2.
  destruct (Z.ltb_spec (key_byte c) 0x60); [|lia]. rewrite (index_Ret _ _ (n, s) Hl). reflexivity.
Qed.

(** A byte for the active terminal. *)
Lemma send_bytes_spec tr mem r d q x : nthZ (tty_set r) (active_tty r) = Some d -> rep (output_buffer (data_buffers d)) q ->
  lenZ (rb_data (output_buffer (data_buffers d))) = 256 -> lenZ q + 1 <= 256 ->
  exists mem' r' d', TTYRouter.send_bytes tr mem r [x] = Ret (mem', r') /\ key_state r' = key_state r /\
    nthZ (tty_set r') (active_tty r') = Some d' /\ rep (output_buffer (data_buffers d')) (q ++ [x]) /\
    lenZ (rb_data (output_buffer (data_buffers d'))) = 256.
Proof.
  intros Hd Hr Hl Hq. unfold TTYRouter.send_bytes. rewrite Hd. cbn [foldl]. destruct (TTY.handle_input tr mem (data_tty d) x) as [mem' y].
  destruct (RingBuffer.write_spec _ _ [x] Hr) as (b & E1 & Hrep & Hlen). rewrite Hl in *. change (lenZ [x]) with 1 in *.
  rewrite Z.min_l in * by lia. rewrite E1. cbn [mbind comp_bind]. eexists mem', _, _. split; [done|]. split; [done|].
  cbn [TTYRouter.with_set tty_set active_tty]. pose proof (nthZ_Some _ _ _ Hd). rewrite nthZ_setZ_in, Z.eqb_refl by lia.
  split; [done|]. cbn [data_buffers output_buffer]. split; [exact Hrep|]. congruence.
Qed.

Lemma typing_intro m q sh k kbd r d : receiving_extended_code kbd = false -> alt (key_state r) = false -> shift (key_state r) = sh ->
  nthZ (tty_set r) (active_tty r) = Some d -> rep (output_buffer (data_buffers d)) q -> lenZ (rb_data (output_buffer (data_buffers d))) = 256 ->
  typing (with_input m k (Some kbd) (Some r)) q sh.
Proof. intros. split; [by exists kbd|]. by exists r, d. Qed.

Lemma handles_press scan n s sh : key_ok (scan, n, s) -> handles scan sh sh [if sh then s else n].
Proof.
  intros (Hs & c & Hc & Hl & Hb & N0 & N1 & N2 & N3 & N4) m q kbd [(kbd' & Hk' & He) (r & d & Hr & Ha & Hsh & Hd & Hq & Hlen)] Hk Hroom.
  change (lenZ [if sh then s else n]) with 1 in Hroom. rewrite Hk in Hk'. injection Hk' as <-. unfold handle_data.
  destruct (generate_spec kbd scan c He Hs Hc N0) as [-> _]. cbn [mbind comp_bind]. unfold send_key_action. rewrite Hr. cbn [get_router unwrap mbind comp_bind].
  unfold TTYRouter.send_key_action. rewrite (press_spec _ c n s) by done. cbn [mbind comp_bind]. rewrite Ha, Hsh.
  set (r1 := mkRouter (tty_set r) (active_tty r) (key_state r)).
  destruct (send_bytes_spec (translate (vm (kernel m))) (phys (vm (kernel m))) r1 d q (if sh then s else n) Hd Hq Hlen Hroom)
    as (mem' & r' & d' & E1 & Hks & Hd' & Hq' & Hlen').
  assert (E2 : match Press c, false with Press KeyNum0, true => Ret (TTYRouter.set_active_tty (translate (vm (kernel m))) (phys (vm (kernel m))) r1 0)
    | Press KeyNum1, true => Ret (TTYRouter.set_active_tty (translate (vm (kernel m))) (phys (vm (kernel m))) r1 1)
    | _, _ => TTYRouter.send_bytes (translate (vm (kernel m))) (phys (vm (kernel m))) r1 (take (Z.to_nat 1) [if sh then s else n; 0; 0; 0]) end = Ret (mem', r'))
    by (rewrite <- E1; by destruct c).
  rewrite E2. cbn [mbind comp_bind]. eexists. split; [done|]. split; [|done].
  eapply typing_intro; (done || rewrite Hks; done).
Qed.

Lemma handles_shift code sh sh' : (code = 0x2a /\ sh' = true) \/ (code = 0xaa /\ sh' = false) -> handles code sh sh' [].
Proof.
  intros Hcode m q kbd [(kbd' & Hk' & He) (r & d & Hr & Ha & Hsh & Hd & Hq & Hlen)] Hk _. rewrite Hk in Hk'. injection Hk' as <-.
  unfold handle_data. destruct (generate_spec kbd 0x2a KeyShift He ltac:(lia) eq_refl ltac:(done)) as [E1 E2].
  destruct Hcode as [[-> ->]|[-> ->]]; [rewrite E1|change 0xaa with (0x2a + 128); rewrite E2]; cbn [mbind comp_bind];
    unfold send_key_action; rewrite Hr; cbn [get_router unwrap mbind comp_bind]; cbn; rewrite app_nil_r; eexists; (split; [done|]); (split; [|done]);
    eapply typing_intro; done.
Qed.

Lemma handles_release scan n s sh : key_ok (scan, n, s) -> handles (scan + 128) sh sh [].
Proof.
  intros (Hs & c & Hc & _ & _ & N0 & N1 & N2 & N3 & N4) m q kbd [(kbd' & Hk' & He) (r & d & Hr & Ha & Hsh & Hd & Hq & Hlen)] Hk _.
  rewrite Hk in Hk'. injection Hk' as <-. unfold handle_data. destruct (generate_spec kbd scan c He Hs Hc N0) as [_ ->]. cbn [mbind comp_bind].
  unfold send_key_action. rewrite Hr. cbn [get_router unwrap mbind comp_bind]. unfold TTYRouter.send_key_action.
  assert (E : KeyState.process_key_action (key_state r) (Release c) [0; 0; 0; 0] = Ret (key_state r, [0; 0; 0; 0], None)) by (by destruct c).
  rewrite E. cbn [mbind comp_bind]. rewrite app_nil_r. eexists. split; [done|]. split; [|done]. eapply typing_intro; done.
Qed.

(** A sequence of scan codes and all they send. *)
Inductive handles_all : bool -> list Z -> bool -> list Z -> Prop :=
| handles_none sh : handles_all sh [] sh []
| handles_next c sh sh1 sh2 out codes outs :
    handles c sh sh1 out -> handles_all sh1 codes sh2 outs -> handles_all sh (c :: codes) sh2 (out ++ outs).

Lemma handles_all_app sh codes sh1 outs codes' sh2 outs' :
  handles_all sh codes sh1 outs -> handles_all sh1 codes' sh2 outs' -> handles_all sh (codes ++ codes') sh2 (outs ++ outs').
Proof. induction 1; intros H'; [done|]. cbn. rewrite <- app_assoc. econstructor; eauto. Qed.

Lemma stroke_handled key sh : key_ok key -> handles_all false (stroke_codes (key, sh)) false [stroke_char (key, sh)].
Proof.
  destruct key as [[scan n] s]. intros Hk. pose proof (handles_press scan n s) as Hp. pose proof (handles_release scan n s) as Hr.
  destruct sh; cbn [stroke_codes stroke_char].
  - apply (handles_next _ _ true _ []); [apply handles_shift; by left|]. apply (handles_next _ _ true _ [s] _ []); [by apply (Hp true)|].
    apply (handles_next _ _ true _ [] _ []); [by apply Hr|]. apply (handles_next _ _ false _ [] _ []); [apply handles_shift; by right|constructor].
  - apply (handles_next _ _ false _ [n] _ []); [by apply (Hp false)|]. apply (handles_next _ _ false _ [] _ []); [by apply Hr|constructor].
Qed.

Lemma strokes_handled (ks : list stroke) : Forall (fun k => k.1 ∈ us_keys) ks ->
  handles_all false (concat (stroke_codes <$> ks)) false (stroke_char <$> ks).
Proof.
  induction 1 as [|[key sh] ks Hk Hks IH]; [constructor|]. cbn [fmap list_fmap concat].
  apply (handles_all_app _ _ false [stroke_char (key, sh)]); [|exact IH]. apply stroke_handled. pose proof us_keys_ok as Hall.
  rewrite Forall_forall in Hall. by apply Hall.
Qed.

(** The thread takes the codes off the buffer one by one. *)
Lemma input_loop_spec sh codes sh' outs : handles_all sh codes sh' outs -> forall m q buf,
  typing m q sh -> rep (INPUT_EVENTS m) codes -> lenZ buf = 1 -> lenZ q + lenZ outs <= 256 ->
  exists m', input_loop (length codes) m buf = Ret m' /\ typing m' (q ++ outs) sh' /\ rep (INPUT_EVENTS m') [].
Proof.
  induction 1 as [sh|c sh sh1 sh2 out codes outs Hc Hall IH]; intros m q buf Ht Hr Hb Hq.
  { exists m. by rewrite app_nil_r. }
  cbn [length input_loop]. destruct (RingBuffer.read_spec _ _ buf Hr) as (b & E1 & Hr1 & _). pose proof (lenZ_nonneg codes). pose proof (lenZ_nonneg outs).
  rewrite Hb, lenZ_cons, Z.min_l in E1, Hr1 by lia. change (Z.to_nat 1) with 1%nat in E1, Hr1. cbn [take drop app] in E1, Hr1. rewrite ?drop_0, ?take_0 in E1, Hr1. rewrite E1. cbn [mbind comp_bind].
  change (1 <? 1) with false. cbv iota. rewrite lenZ_app in Hq.
  set (m1 := with_events m b). assert (Ht1 : typing m1 q sh) by (destruct Ht as [K R]; by split).
  pose proof Ht as [(kbd & Hk & _) _]. change (KEYBOARD m1) with (KEYBOARD m). rewrite Hk. cbn [index mbind comp_bind].
  destruct (Hc m1 q kbd Ht1 Hk ltac:(lia)) as (m2 & E2 & Ht2 & Hev).
  change (take 0 codes ++ drop 1 buf) with (drop 1 buf). rewrite (index_Ret _ _ c) by done. cbn [mbind comp_bind]. rewrite E2. cbn [mbind comp_bind].
  destruct (IH m2 (q ++ out) (c :: drop 1 buf) Ht2) as (m' & -> & Ht' & Hr').
  - rewrite Hev. exact Hr1.
  - rewrite lenZ_cons. unfold lenZ in *. rewrite length_drop. lia.
  - rewrite lenZ_app. lia.
  - exists m'. by rewrite <- app_assoc in Ht'.
Qed.

(** The input thread exists; it sleeps, or ([awake]) it can run. *)
Definition thread_in (m : Machine H) (ok : RunState -> Prop) : Prop :=
  exists pm t, PROCESS_MAP (kernel m) = Some pm /\ ProcessMap.get_process pm (INPUT_THREAD_ID m) = Some t /\
    pid t = INPUT_THREAD_ID m /\ ok (run_state t).
Definition asleep_or_awake (s : RunState) : Prop := s = Paused \/ s = Running.
Definition awake (s : RunState) : Prop := s = Running.

Lemma wake_thread_spec m : thread_in m asleep_or_awake ->
  exists k, wake_thread m = Ret (with_kernel m k) /\ thread_in (with_kernel m k) awake.
Proof.
  intros (pm & t & Hpm & Ht & Hpid & Hs). unfold wake_thread, signal, Process.send_signal, Process.all_processes. rewrite Hpm. cbn [unwrap mbind comp_bind].
  rewrite Ht. unfold Signals.send_signal. cbn [Signals.send_signal_loop]. replace ((SIG_CONTINUE =? SIG_STOP) || (SIG_CONTINUE =? SIG_TSTOP)) with false by done.
  replace (SIG_CONTINUE =? SIG_CONTINUE) with true by done. cbn [Signals.locked].
  destruct Hs as [Hs|Hs]; rewrite Hs; cbn [mbind comp_bind]; eexists; (split; [done|]).
  - exists (Signals.update pm (ProcessState.with_run_state t Running)), (ProcessState.with_run_state t Running).
    split; [done|]. split; [rewrite get_update; cbn; by rewrite Hpid, Z.eqb_refl|done].
  - by exists pm, t.
Qed.

Context (feed : H -> Z -> H).

(** The keyboard controller has a scan code and interrupts. *)
Definition key_interrupt (c : Z) (m : Machine H) : comp (Machine H) := keyboard (with_hw m (feed (hw m) c)).

Hypothesis Hfeed : forall h c, exists h', inb (feed h c) KEYBOARD_PORT = (h', c).

Lemma key_interrupt_spec m e c q sh : rep (INPUT_EVENTS m) e -> lenZ (rb_data (INPUT_EVENTS m)) = 32 -> lenZ e < 32 ->
  thread_in m asleep_or_awake -> typing m q sh ->
  exists m', key_interrupt c m = Ret m' /\ rep (INPUT_EVENTS m') (e ++ [c]) /\ lenZ (rb_data (INPUT_EVENTS m')) = 32 /\
    thread_in m' awake /\ typing m' q sh.
Proof.
  intros He Hl Hlen Ht Hty. unfold key_interrupt, keyboard, Port.read_u8. cbn [inb machine_ports hw with_hw].
  destruct (Hfeed (hw m) c) as [h' ->]. cbn [INPUT_EVENTS with_hw].
  destruct (RingBuffer.write_spec _ _ [c] He) as (b & E1 & Hb & Hbl). rewrite Hl in *. change (lenZ [c]) with 1 in *. rewrite Z.min_l in * by lia.
  rewrite E1. cbn [mbind comp_bind].
  destruct (wake_thread_spec (with_events (with_hw (with_hw m (feed (hw m) c)) h') b)) as (k & -> & Hk); [exact Ht|]. cbn [mbind comp_bind].
  eexists. split; [done|]. split; [exact Hb|]. split; [exact Hbl|]. split; [exact Hk|]. destruct Hty as [K R]. by split.
Qed.

Lemma key_interrupts_spec codes : forall m e q sh, rep (INPUT_EVENTS m) e -> lenZ (rb_data (INPUT_EVENTS m)) = 32 ->
  lenZ e + lenZ codes <= 32 -> thread_in m asleep_or_awake -> typing m q sh ->
  exists m', for_each key_interrupt codes m = Ret m' /\ rep (INPUT_EVENTS m') (e ++ codes) /\
    (codes <> [] -> thread_in m' awake) /\ typing m' q sh.
Proof.
  induction codes as [|c codes IH]; intros m e q sh He Hl Hlen Ht Hty; [exists m; by rewrite app_nil_r|].
  rewrite lenZ_cons in Hlen. pose proof (lenZ_nonneg codes). cbn [for_each].
  destruct (key_interrupt_spec m e c q sh He Hl ltac:(lia) Ht Hty) as (m1 & -> & He1 & Hl1 & Ht1 & Hty1). cbn [mbind comp_bind].
  destruct (IH m1 (e ++ [c]) q sh He1 Hl1) as (m' & E' & He' & Ht' & Hty'); [rewrite lenZ_app; change (lenZ [c]) with 1; lia| |done|].
  - destruct Ht1 as (pm & t & ? & ? & ? & Hs). exists pm, t. split_and!; try done. by right.
  - exists m'. rewrite <- app_assoc in He'. split_and!; try done. intros _. destruct codes; [|by apply Ht'].
    cbn [for_each] in E'. by injection E' as <-.
Qed.
(** A program reading the active terminal gets the bytes it has for its readers. *)
Lemma typing_read m q sh buf : typing m q sh -> lenZ q <= lenZ buf ->
  exists r d, ROUTER m = Some r /\
    TTYDevice.read (mkTTYDevice (active_tty r) r) 0 buf = Ret (d, q ++ drop (length q) buf, Ok (lenZ q)).
Proof.
  intros [_ (r & d & Hr & _ & _ & Hd & Hq & _)] Hl. unfold TTYDevice.read, TTYRouter.get_tty_buffers. cbn [device_router tty_id].
  exists r. rewrite Hd. cbn [fmap option_fmap option_map]. unfold TTYReadWriteBuffers.read.
  destruct (RingBuffer.read_spec _ _ buf Hq) as (b & E & _). rewrite Z.min_r in E by lia. unfold lenZ in E at 1 2. rewrite !Nat2Z.id, firstn_all in E.
  rewrite E. cbn [mbind comp_bind]. by eexists.
Qed.

(** C3: Keys typed on a US keyboard reach the program that reads the terminal: when the strokes
    (each key with or without shift) send at most the 32 scan codes the event buffer holds,
    the keyboard interrupts they raise and one round of the input thread they wake return,
    leave no event behind and the keyboard without shift, and a read of the active terminal
    then gives the bytes that were waiting there followed by exactly the characters typed. *)
Theorem typed_text_is_read (m : Machine H) (q buf : list Z) (strokes : list stroke) :
  Forall (fun k => k.1 ∈ us_keys) strokes -> strokes <> [] ->
  rep (INPUT_EVENTS m) [] -> lenZ (rb_data (INPUT_EVENTS m)) = 32 -> lenZ (concat (stroke_codes <$> strokes)) <= 32 ->
  thread_in m asleep_or_awake -> typing m q false ->
  lenZ q + lenZ strokes <= 256 -> lenZ q + lenZ strokes <= lenZ buf ->
  exists m1 m2 r d,
    for_each key_interrupt (concat (stroke_codes <$> strokes)) m = Ret m1 /\ thread_in m1 awake /\
    input_round m1 = Ret m2 /\ rep (INPUT_EVENTS m2) [] /\ ROUTER m2 = Some r /\ shift (key_state r) = false /\
    TTYDevice.read (mkTTYDevice (active_tty r) r) 0 buf =
      Ret (d, (q ++ (stroke_char <$> strokes)) ++ drop (length q + length strokes) buf, Ok (lenZ q + lenZ strokes)).
Proof.
  intros Hks Hne He Hl Hc Ht Hty Hroom Hbuf. destruct (key_interrupts_spec (concat (stroke_codes <$> strokes)) m [] q false) as (m1 & E1 & He1 & Ht1 & Hty1); try done.
  assert (Hcs : lenZ (stroke_char <$> strokes) = lenZ strokes) by (unfold lenZ; by rewrite length_fmap).
  destruct (input_loop_spec _ _ _ _ (strokes_handled strokes Hks) m1 q [0] Hty1 He1 eq_refl ltac:(by rewrite Hcs)) as (m2 & E2 & Hty2 & He2).
  destruct (typing_read m2 _ false buf Hty2) as (r & d & Hr & E3); [rewrite lenZ_app, Hcs; lia|].
  exists m1, m2, r, d. split; [done|]. split.
  { apply Ht1. destruct strokes as [|[[[s n] s'] []] ks]; done. }
  unfold input_round. rewrite (RingBuffer.available_spec _ _ He1). unfold lenZ at 1. rewrite Nat2Z.id.
  split; [exact E2|]. split; [done|]. split; [done|]. split.
  - destruct Hty2 as [_ (r' & d' & Hr' & _ & Hs & _)]. congruence.
  - rewrite E3, lenZ_app, Hcs, length_app, length_fmap. done.
Qed.
End typing.

(** * Witness: "Hi!" typed while the input thread sleeps *)

(** A keyboard controller: the last scan code. *)
#[local] Instance demo_controller : Ports Z := { inb h _ := (h, h); outb h _ _ := h }.

Definition demo_events : RingBuffer := RingBuffer.new (replicate 32 0).
Definition demo_typist : Machine Z :=
  mkMachine 0 (mkKernel demo_vm initial_kernel_memory
      (Some (mkProcessMap 0 2 [(0, demo_process 0 0 Running); (1, demo_process 1 0 Paused)])) 0xffbfe800 0)
    (mkClock 0 false 0 false true) 1 demo_events (Some (mkKeyboard false OpenReaders.new)) (Some demo_router) (SerialPort.new 0x3f8) FloppyController.new.
Definition demo_strokes : list stroke := [(0x23, 104, 72, true); (0x17, 105, 73, false); (0x02, 49, 33, true)].

Lemma demo_events_rep : rep demo_events [].
Proof.
  split; change (lenZ (rb_data demo_events)) with 32; change (lenZ (@nil Z)) with 0; cbn [demo_events RingBuffer.new head tail].
  - split; [lia|]. exists 134217728. lia.
  - mach_unfold. lia.
  - done.
  - lia.
  - intros i x Hi%nthZ_Some. change (lenZ (@nil Z)) with 0 in Hi. lia.
Qed.

Lemma typed_text_is_read_witness :
  exists m1 m2 r d,
    for_each (key_interrupt (fun _ c => c)) (concat (stroke_codes <$> demo_strokes)) demo_typist = Ret m1 /\ thread_in m1 awake /\
    input_round m1 = Ret m2 /\ rep (INPUT_EVENTS m2) [] /\ ROUTER m2 = Some r /\ shift (key_state r) = false /\
    TTYDevice.read (mkTTYDevice (active_tty r) r) 0 [0; 0; 0; 0] = Ret (d, [72; 105; 33; 0], Ok 3).
Proof.
  refine (typed_text_is_read (fun _ c => c) _ demo_typist [] [0; 0; 0; 0] demo_strokes _ _ _ _ _ _ _ _ _).
  - intros h c. by exists c.
  - unfold demo_strokes. repeat (apply Forall_cons; split); [apply (bool_decide_unpack _); by vm_compute..|by apply Forall_nil].
  - done.
  - apply demo_events_rep.
  - done.
  - by vm_compute.
  - eexists _, _. split; [done|]. split; [done|]. split; [done|]. by left.
  - split; [by eexists|]. eexists _, _. split; [done|]. split; [done|]. split; [done|]. split; [done|]. split; [apply (demo_text_rep []); by vm_compute|by vm_compute].
  - by vm_compute.
  - by vm_compute.
Defined.
