(* ===== verification/Boot.v ===== *)
(** Starting the kernel: the memory part of [lib.rs], the memory map of
    [memory/physical/bios.rs] and the heap set-up of [memory/heap/mod.rs].

    Until paging is on, memory is physical memory.  The labels of the linker script are a
    record.  The bytes of the frame bitmap are held by the allocator ([FrameBitmap]); the heap
    is the memory its addresses show.  The reference counts are allocated on it, and if they do
    not fit it grows into pages that are not mapped yet. *)

From S2P Require Import Prelude Memory Address FrameBitmap Physical ListAllocator PageTable ProcMemory.

(** * Memory *)

Record Labels : Type := mkLabels {
  ro_physical_start : Z; rw_physical_end : Z; bss_start : Z; bss_end : Z; label_stack_start : Z
}.

Fixpoint zero_bss_loop (fuel : nat) (m : mem) (bss_iter bss_end : Z) : comp mem :=
  if bss_iter <? bss_end then
    match fuel with
    | O => OutOfFuel
    | S fuel => zero_bss_loop fuel (store8 m bss_iter 0) (bss_iter +u 1) bss_end
    end
  else Ret m.
Definition zero_bss (fuel : nat) (l : Labels) (m : mem) : comp mem := zero_bss_loop fuel m (bss_start l) (bss_end l).

(** The entries the BIOS wrote, behind their number. *)
Definition load64 (m : mem) (a : Z) : Z := load32 m a + 4294967296 * load32 m (a + 4).
Definition load_entry (m : mem) (a : Z) : MapEntry :=
  mkMapEntry (load64 m a) (load64 m (a + 8)) (load32 m (a + 16)) (load32 m (a + 20)).
Definition load_entries_at_address (m : mem) (addr : Z) : list MapEntry :=
  (fun i => load_entry m (addr + 4 + 24 * i)) <$> seqZ 0 (load32 m addr).

(** The stack pointer is moved to the page below the temporary page, at its offset in the
    frame of the stack. *)
Definition move_esp (esp stack_start : Z) : Z := esp -u stack_start +u 0xffbfe000.
Definition high_jump (eip : Z) : Z := eip |u 0xc0000000.

Definition init_memory_new (l : Labels) (m : mem) : comp VM :=
  let allocator_location := rw_physical_end l in
  st ← Physical.init_allocator (load8 m) allocator_location (load_entries_at_address m 0x1000);
  let kernel_data_bounds := mkBounds (ro_physical_start l) (rw_physical_end l) (label_stack_start l) in
  '(st, m, initial_pagedir) ← create_initial_pagedir st m;
  '(st, m) ← map_kernel st m initial_pagedir kernel_data_bounds;
  '(st, _) ← move_allocator_reference_to_highmem st;
  Ret (mkVM m initial_pagedir st []).

Definition INITIAL_HEAP_SIZE : Z := 64.

(** The location is not used. *)
Definition map_allocator (v : VM) (location initial_frame_count : Z) : comp VM :=
  for_each (fun i v =>
    '(v, heap_frame) ← vm_allocate_unwrap v;
    let heap_vaddr := 0xc0400000 +u (i *u 0x1000) in
    CurrentPageDirectory.map v heap_frame heap_vaddr 0) (seqZ 0 initial_frame_count) v.

(** The heap: what its addresses show, its allocator and the kernel's own regions. *)
Definition Heap : Type := mem * ListAllocator * KernelMemory.

(** An access to a page that is not mapped; without processes the page fault panics. *)
Definition touch (v : VM) (a : Z) : comp unit :=
  match walk (phys v) (cr3 v) a with Some _ => Ret tt | None => Panic end.

(** Growing the heap writes a node behind it. *)
Definition expand_heap (v : VM) (al : ListAllocator) (space_needed : Z) (k : KernelMemory) : comp (KernelMemory * Z) :=
  let '(k, new_size) := expand_kernel_heap space_needed k in
  _ ← touch v (ListAllocator.start al +u la_size al);
  Ret (k, new_size).

(** [Vec::with_capacity(n)] for bytes, and [n] times [push(0)].  The fuel is for the one node
    of a new heap and the one it grows by. *)
Definition zeroed_vec (v : VM) (n : Z) (h : Heap) : comp Heap :=
  let '(hm, al, k) := h in
  if n =? 0 then Ret h
  else
    '(hm, al, k, ptr) ← global_alloc (expand_heap v al) 4 hm al k (mkLayout n 1);
    if ptr =? 0 then Panic
    else Ret (store_bytes hm ptr (replicate (Z.to_nat n) 0), al, k).

(** The part of [_start] that sets up memory; [hm] is what the heap's addresses show. *)
Definition start_memory (fuel : nat) (l : Labels) (m hm : mem) (k : KernelMemory) : comp (VM * Heap) :=
  m ← zero_bss fuel l m;
  v ← init_memory_new l m;
  let heap_start := 0xc0400000 in
  let heap_size_frames := INITIAL_HEAP_SIZE in
  v ← map_allocator v heap_start heap_size_frames;
  let heap_size := heap_size_frames *u 0x1000 in
  let heap := ListAllocator.new hm heap_start heap_size in
  '(st, heap) ← init_refcount (zeroed_vec v) (frames v) (heap, k);
  Ret (set_frames v st, heap).

(** * Frames taken one after the other *)

(** [l] are the lowest frames that were free. *)
Definition lowest (l : list Z) (bm : FrameBitmap) : Prop :=
  forall j s, 0 <= j -> occupied bm j = false -> j ∉ l -> s ∈ l -> s < j.

Lemma takes_snoc l s bm bm1 bm2 :
  takes l bm bm1 -> lowest l bm -> NoDup l -> takes [s] bm1 bm2 -> (forall j, 0 <= j < s -> occupied bm1 j = true) ->
  takes (l ++ [s]) bm bm2 /\ lowest (l ++ [s]) bm /\ NoDup (l ++ [s]).
Proof.
  intros (C1 & F1 & O1) Hlow Hnd (C2 & F2 & O2) Hfirst. apply Forall_cons in F2 as [[R2 Hs] _]. rewrite O1 in Hs by lia.
  apply orb_false_iff in Hs as [Hs%bool_decide_eq_false Hsf]. split; [|split].
  - split; [congruence|]. split; [apply Forall_app; split; [done|]; constructor; [by rewrite <- C1|done]|].
    intros j Hj. rewrite O2, O1 by done. rewrite orb_assoc. f_equal. apply eq_true_iff_eq. rewrite orb_true_iff, !bool_decide_eq_true. set_solver.
  - intros j x Hj Hf Hn [Hx|Hx]%elem_of_app; [apply Hlow; set_solver|]. apply list_elem_of_singleton in Hx as ->.
    assert (j <> s) by set_solver. destruct (decide (s < j)); [done|]. pose proof (Hfirst j ltac:(lia)) as Ho.
    rewrite O1, Hf, bool_decide_eq_false_2 in Ho by (done || set_solver). done.
  - apply NoDup_app. split; [done|]. split; [set_solver|apply NoDup_singleton].
Qed.

(** * Mapping the heap *)

Lemma allocate_low v bm : vm_ok v bm -> free_frames 1 bm ->
  exists s st bm', vm_allocate_unwrap v = Ret (set_frames v st, s * 4096) /\ ALLOCATOR st = Some bm' /\
    vm_ok (set_frames v st) bm' /\ Frame.aligned (s * 4096) /\ takes [s] bm bm' /\ (forall j, 0 <= j < s -> occupied bm j = true).
Proof.
  intros Hok Hfree. pose proof (vo_bm _ _ Hok) as Hwf. pose proof Hwf as (Hc & _). destruct (free_frames_one _ _ Hfree) as (j & Hj & Hjf).
  unfold vm_allocate_unwrap, vm_allocate_frame.
  destruct (allocate_frame_cases (frames v) bm (vo_alloc _ _ Hok) Hwf)
    as [(s & bm' & -> & Hs & Hsf & Hlow & Hwf' & Hcnt & Hocc)|[_ Hfull]]; [|by rewrite Hfull in Hjf].
  cbn [mbind comp_bind]. eexists s, _, bm'. split; [done|]. split; [done|].
  split; [apply (vm_ok_frames _ bm); [done..|]; intros i Hi Ho; rewrite Hocc, Ho by done; apply orb_true_r|].
  split; [split; mlia|]. split; [by apply takes_one|done].
Qed.

(** The index of the directory entry of the heap. *)
Lemma heap_index i o : 0 <= i < 1024 -> 0 <= o < 4096 ->
  is_u32 (0xc0400000 + i * 4096 + o) /\ dir_index (0xc0400000 + i * 4096 + o) = 0x301 /\ (0xc0400000 + i * 4096 + o) / 4096 = 0xc0400 + i.
Proof.
  intros Hi Ho. split; [mach_unfold; lia|]. split; [|mlia]. unfold VirtualAddress.get_page_directory_index.
  rewrite shr_div by lia. change (2 ^ 22) with 4194304. mlia.
Qed.

(** After the first [k] pages: [pages] are their frames, [taken] all frames in use since. *)
Record heap_mapped (v0 v : VM) (bm0 bm : FrameBitmap) (k : nat) (pages taken : list Z) : Prop := {
  hm_ok : vm_ok v bm;
  hm_cr3 : cr3 v = cr3 v0;
  hm_taken : takes taken bm0 bm /\ lowest taken bm0 /\ NoDup taken;
  hm_pages : length pages = k /\ NoDup pages /\ pages ⊆ taken;
  hm_length : (length taken <= k + (if k then 0 else 1))%nat;
  hm_private : has_table (phys v) (cr3 v) 0x301 -> private v 0x301;
  hm_table : (0 < k)%nat -> has_table (phys v) (cr3 v) 0x301;
  hm_own : has_table (phys v) (cr3 v) 0x301 -> table_of (phys v) (cr3 v) 0x301 / 4096 ∈ taken;
  hm_walk : forall i f o, nthZ pages i = Some f -> 0 <= o < 4096 -> walk (phys v) (cr3 v) (0xc0400000 + i * 4096 + o) = Some (f * 4096 + o);
  hm_rest : forall w, is_u32 w -> dir_index w < 1023 -> ~ (0xc0400 <= w / 4096 < 0xc0400 + Z.of_nat k) ->
    walk (phys v) (cr3 v) w = walk (phys v0) (cr3 v0) w;
  hm_only : only_frames (cr3 v0 / 4096 :: taken) (phys v0) (phys v)
}.

(** The frames one more page takes: its own and, for the first page, one for its table. *)
Lemma heap_frames l bm bm1 bm2 f (P : Prop) :
  takes l bm bm1 -> lowest l bm -> NoDup l ->
  takes [f] bm1 bm2 -> (forall j, 0 <= j < f -> occupied bm1 j = true) ->
  forall bm3 x, (P /\ bm3 = bm2) \/ (~ P /\ exists s, takes [s] bm2 bm3 /\ (forall j, 0 <= j < s -> occupied bm2 j = true) /\ x = s * 4096) ->
  exists l', takes l' bm bm3 /\ lowest l' bm /\ NoDup l' /\ l ⊆ l' /\ f ∈ l' /\ f ∉ l /\
    (P /\ length l' = S (length l) \/ ~ P /\ length l' = S (S (length l)) /\ x / 4096 ∈ l').
Proof.
  intros T1 L1 N1 T2 F2 bm3 x H3. destruct (takes_snoc l f bm bm1 bm2 T1 L1 N1 T2 F2) as (T & L & N).
  pose proof N as (_ & Hf & _)%NoDup_app. assert (Hnf : f ∉ l) by set_solver.
  destruct H3 as [[HP ->]|(HP & s & T3 & F3 & ->)].
  - exists (l ++ [f]). rewrite length_app. cbn [length]. split_and!; try done; [set_solver..|left; split; [done|lia]].
  - destruct (takes_snoc _ s bm bm2 bm3 T L N T3 F3) as (T' & L' & N'). exists ((l ++ [f]) ++ [s]). rewrite !length_app. cbn [length].
    split_and!; try done; [set_solver..|right; split; [done|]; split; [lia|]; rewrite Z.div_mul by lia; set_solver].
Qed.

Lemma heap_step v0 v bm0 bm k pages taken :
  heap_mapped v0 v bm0 bm k pages taken -> (k < 64)%nat -> free_frames 65 bm0 ->
  exists v' bm' f taken',
    ('(v, heap_frame) ← vm_allocate_unwrap v; CurrentPageDirectory.map v heap_frame (0xc0400000 +u (Z.of_nat k *u 0x1000)) 0) = Ret v' /\
    heap_mapped v0 v' bm0 bm' (S k) (pages ++ [f]) taken'.
Proof.
  intros [Hok Hcr (T & L & N) (Pl & Pn & Ps) Hlen Hpriv Htab Hown Hwalk Hrest Honly] Hk Hfree.
  pose proof (free_frames_takes _ _ _ _ Hfree T) as Hfree1.
  destruct (allocate_low v bm Hok) as (f & st & bm1 & -> & Ha1 & Hok1 & Hfa & Tf & Lf).
  { destruct Hfree1 as (l & ? & ? & ?). exists l. split; [done|]. split; [destruct k; cbn in Hlen; lia|done]. }
  cbn [mbind comp_bind]. set (v1 := set_frames v st). set (a := 0xc0400000 +u _).
  assert (Ea : a = 0xc0400000 + Z.of_nat k * 4096 + 0) by (unfold a; mlia).
  destruct (heap_index (Z.of_nat k) 0 ltac:(lia) ltac:(lia)) as (Ha & Hd & Hp). rewrite <- Ea in Ha, Hd, Hp.
  destruct (map_current_spec v1 bm1 (f * 4096) a 0 Hok1 Ha Hfa ltac:(by rewrite Hd) ltac:(by rewrite Hd))
    as [(Hnt & Hfull & _)|(v' & bm' & Hmap & Hok' & _ & Hm & _)].
  { exfalso. rewrite Hd in Hnt. destruct k; [|by apply Hnt, Htab; lia].
    destruct (free_frames_one 63 bm1) as (j & Hj & Hjf); [|by rewrite Hfull in Hjf].
    pose proof (free_frames_takes _ _ _ _ Hfree1 Tf) as (l & ? & Hl & ?). exists l. cbn in Hlen, Hl. split; [done|]. split; [lia|done]. }
  pose proof (map_current_effect v1 bm1 (f * 4096) a 0 v' bm' Hok1 Ha Hfa ltac:(by rewrite Hd) Hmap (vo_alloc _ _ Hok')) as [Mf Mh Md Mo].
  rewrite Hd in Mf, Mh, Md, Mo. destruct Hm as (Hcr' & Hwa & Hwr).
  assert (HT : exists l', takes l' bm0 bm' /\ lowest l' bm0 /\ NoDup l' /\ taken ⊆ l' /\ f ∈ l' /\ f ∉ taken /\
    (has_table (phys v) (cr3 v) 0x301 /\ length l' = S (length taken) \/ ~ has_table (phys v) (cr3 v) 0x301 /\ length l' = S (S (length taken)) /\ table_of (phys v') (cr3 v') 0x301 / 4096 ∈ l')).
  { apply (heap_frames taken bm0 bm bm1 f _ T L N Tf Lf). destruct Mf as [Mf|(Mn & s & Ts & Fs & Et)]; [by left|right; split; [done|by exists s]]. }
  destruct HT as (l' & T' & L' & N' & Hsub & Hfl & Hfn & Hlen').
  assert (Htin : table_of (phys v') (cr3 v') 0x301 / 4096 ∈ l').
  { destruct Hlen' as [[Hh _]|(_ & _ & Hin)]; [|done]. unfold table_of. rewrite Md by (lia || by right). apply Hsub, Hown, Hh. }
  exists v', bm', f, l'. split; [exact Hmap|]. split.
  - exact Hok'.
  - by rewrite Hcr'.
  - done.
  - rewrite length_app. cbn [length]. split; [lia|]. split; [|set_solver]. apply NoDup_app. split; [done|]. split; [set_solver|apply NoDup_singleton].
  - destruct Hlen' as [[_ ->]|(Hn & -> & _)]; [destruct k; cbn in Hlen |- *; lia|]. destruct k; [cbn in Hlen |- *; lia|]. by destruct Hn; apply Htab; lia.
  - intros _ d' Hd' Hne Hh'. unfold has_table, table_of in *. rewrite Md in Hh' |- * by (lia || by left). cbn [phys cr3 set_frames v1] in *.
    destruct Mf as [[Mt _]|(Mn & s & Ts & _ & Et)].
    + rewrite Md by (lia || by right). by apply (Hpriv Mt).
    + rewrite Et. fold (table_of (phys v) (cr3 v) d'). destruct (vo_tables _ _ Hok1 d' Hd' Hh') as [_ Ho].
      destruct Ts as (_ & Fs & _). apply Forall_cons in Fs as [[Rs Hs] _]. intros E. cbn [phys cr3 set_frames v1] in Ho. rewrite E, Z.div_mul in Ho by lia. congruence.
  - done.
  - intros _. exact Htin.
  - intros i x o Hi Ho. destruct (heap_index i o) as (Hw & Hdw & Hpw); [apply nthZ_Some in Hi; unfold lenZ in Hi; rewrite length_app in Hi; cbn in Hi; lia|done|].
    destruct (decide (i = Z.of_nat k)) as [->|Hne].
    + rewrite <- Pl in Hi. fold (lenZ pages) in Hi. rewrite nthZ_snoc in Hi. injection Hi as <-.
      rewrite (walk_same_page _ _ a) by (done || rewrite Hpw, Hp; unfold lenZ; lia). rewrite Hwa. cbn. f_equal. rewrite Ea. unfold lenZ. mlia.
    + pose proof (nthZ_Some _ _ _ Hi) as Hr. unfold lenZ in Hr. rewrite length_app in Hr. cbn in Hr.
      rewrite nthZ_app_l in Hi by (unfold lenZ; lia). rewrite Hwr by (done || lia). by apply Hwalk.
  - intros w Hw Hdw Hn. rewrite Hwr by (done || lia). apply Hrest; [done..|]. lia.
  - eapply only_frames_trans; [eapply only_frames_mono; [|exact Honly]; set_solver|]. eapply only_frames_mono; [|exact Mo].
    change (cr3 v1) with (cr3 v). rewrite Hcr. set_solver.
Qed.

Lemma map_allocator_spec v0 bm0 location :
  vm_ok v0 bm0 -> ~ has_table (phys v0) (cr3 v0) 0x301 -> free_frames 65 bm0 ->
  exists v bm pages taken, map_allocator v0 location INITIAL_HEAP_SIZE = Ret v /\ heap_mapped v0 v bm0 bm 64 pages taken.
Proof.
  intros Hok Hnt Hfree.
  assert (Hloop : forall k, (k <= 64)%nat -> exists v bm pages taken, map_allocator v0 location (Z.of_nat k) = Ret v /\ heap_mapped v0 v bm0 bm k pages taken).
  { induction k as [|k IH]; intros Hk.
    - exists v0, bm0, [], []. split; [done|]. split; try done.
      + split; [apply takes_nil|]. split; [intros j s _ _ _ Hs; by apply elem_of_nil in Hs|apply NoDup_nil_2].
      + split; [done|]. split; [apply NoDup_nil_2|done].
      + lia.
      + intros i f o Hi. apply nthZ_Some in Hi. change (lenZ (@nil Z)) with 0 in Hi. lia.
    - destruct (IH ltac:(lia)) as (v & bm & pages & taken & E & Hm). destruct (heap_step v0 v bm0 bm k pages taken Hm ltac:(lia) Hfree) as (v' & bm' & f & t' & Es & Hm').
      exists v', bm', (pages ++ [f]), t'. split; [|done]. unfold map_allocator in *. rewrite Nat2Z.inj_succ, <- Z.add_1_r, seqZ_snoc, for_each_app, E by lia.
      cbn [mbind comp_bind for_each]. rewrite Z.add_0_l. by rewrite Es. }
  apply (Hloop 64%nat). lia.
Qed.

(** * The reference counts on the heap *)

(** The heap of 64 pages with the [n] counts, all zero, as its one allocation. *)
Record counts_on_heap (n : Z) (hm : mem) (al : ListAllocator) : Prop := {
  ch_region : ListAllocator.start al = 0xc0400000 /\ la_size al = 0x40000;
  ch_inv : heap_inv hm al (free_after (mkLayout n 1) [] 0xc0400000 0x40000 []) [(taken (mkLayout n 1) 0xc0400000 0x40000).1];
  ch_data : data (taken (mkLayout n 1) 0xc0400000 0x40000).1 = 0xc040000c;
  ch_zero : forall i, 0 <= i < n -> load8 hm (0xc040000c + i) = 0
}.

Section counts.
Context (v : VM) (n : Z) (hm : mem) (k : KernelMemory) (Hn : 0 < n < 1048576).
Notation layout := (mkLayout n 1).
Notation heap := (ListAllocator.new hm 0xc0400000 0x40000).

Lemma counts_layout : heap_inv heap.1 heap.2 [(0xc0400000, 0x40000)] [] /\ layout_ok heap.2 layout /\
  align_up (0xc0400000 + 12) 1 = 0xc040000c.
Proof.
  split; [apply heap_inv_new; lia || done|]. split; [|done]. split; [by exists 0|]. cbn. lia.
Qed.

Lemma zeroed_vec_fits : n + 12 <= 0x40000 ->
  exists hm' al', zeroed_vec v n (heap, k) = Ret (hm', al', k) /\ counts_on_heap n hm' al'.
Proof.
  intros Hfit. destruct counts_layout as (Hinv & Hlay & Hup). unfold zeroed_vec. rewrite (surjective_pairing heap).
  destruct (Z.eqb_spec n 0); [lia|]. unfold global_alloc.
  destruct (alloc_cases 4 heap.1 heap.2 _ [] layout Hinv Hlay) as [[Hno _]|(l1 & a & s & l2 & m' & al' & El & _ & _ & -> & E1 & E2 & Hinv' & _)].
  { cbn. lia. }
  { exfalso. inversion_clear Hno as [|? ? Hf _]. apply Z.leb_gt in Hf. cbn [fst snd layout_align layout_size] in Hf. rewrite Hup in Hf. lia. }
  destruct l1 as [|? [|]]; [|done|done]. injection El as <- <- <-. cbn [mbind comp_bind].
  assert (Hdata : data (taken layout 0xc0400000 0x40000).1 = 0xc040000c) by (rewrite take_data; exact Hup).
  rewrite Hdata. cbn [Z.eqb]. eexists _, al'. split; [reflexivity|].
  assert (Hlen : lenZ (replicate (Z.to_nat n) 0) = n) by (rewrite lenZ_replicate; lia).
  split; [by rewrite E1, E2| |exact Hdata|].
  - apply (heap_inv_fill m'); [exact Hinv'|]. intros x Hx. apply store_bytes_lookup_ne; [unfold in_space; lia|]. rewrite Hdata in Hx.
    assert (Hsz : 0xc040000c + n <= ub_addr (taken layout 0xc0400000 0x40000).1 + ub_size (taken layout 0xc0400000 0x40000).1); [|lia].
    unfold taken. cbn [layout_align layout_size]. rewrite Hup.
    destruct (align_up_spec (0xc040000c + n) 2 ltac:(lia)) as [Ha _]. change (2 ^ 2) with 4 in Ha.
    match goal with |- context [?x >? 16] => destruct (Z.gtb_spec x 16) end; cbn [fst ub_addr ub_size]; lia.
  - intros i Hi. rewrite (load8_store_bytes_in _ _ _ i 0); [done|unfold in_space; lia|]. apply nthZ_replicate. lia.
Qed.

Lemma zeroed_vec_panics : 0x40000 < n + 12 -> walk (phys v) (cr3 v) 0xc0440000 = None -> zeroed_vec v n (heap, k) = Panic.
Proof.
  intros Hbig Hw. destruct counts_layout as (Hinv & Hlay & Hup). unfold zeroed_vec. rewrite (surjective_pairing heap).
  destruct (Z.eqb_spec n 0); [lia|]. unfold global_alloc.
  destruct (alloc_cases 4 heap.1 heap.2 _ [] layout Hinv Hlay) as [[_ ->]|(l1 & a & s & l2 & m' & al' & El & _ & Hf & _)]; [cbn; lia| |].
  - cbn [mbind comp_bind Z.eqb]. unfold expand_heap. destruct (expand_kernel_heap (layout_size layout) k) as [k' sz].
    unfold touch. change (ListAllocator.start heap.2 +u la_size heap.2) with 0xc0440000. by rewrite Hw.
  - exfalso. destruct l1 as [|? [|]]; [|done|done]. injection El as <- <- <-. apply Z.leb_le in Hf. cbn [fst snd layout_align layout_size] in Hf.
    rewrite Hup in Hf. lia.
Qed.
End counts.

(** * The memory a started kernel has *)

Lemma zero_bss_spec fuel l m : 0 <= bss_start l -> bss_end l < 4294967296 -> (Z.to_nat (bss_end l - bss_start l) <= fuel)%nat ->
  exists m', zero_bss fuel l m = Ret m' /\
    forall x, m' !! x = if (bss_start l <=? x) && (x <? bss_end l) then Some 0 else m !! x.
Proof.
  unfold zero_bss. generalize (bss_start l) (bss_end l). intros a e. revert a m.
  induction fuel as [|fuel IH]; intros a m Ha He Hf; cbn [zero_bss_loop]; destruct (Z.ltb_spec a e) as [Hlt|Hge].
  - lia.
  - exists m. split; [done|]. intros x. destruct (Z.leb_spec a x), (Z.ltb_spec x e); done || lia.
  - rewrite u32_small by (mach_unfold; lia). destruct (IH (a + 1) (store8 m a 0)) as (m' & -> & Hm'); [lia..|]. exists m'. split; [done|].
    intros x. rewrite Hm'. unfold store8. rewrite u32_small by (mach_unfold; lia). destruct (decide (x = a)) as [->|Hn].
    + rewrite lookup_insert_eq. destruct (Z.leb_spec (a + 1) a), (Z.leb_spec a a), (Z.ltb_spec a e); done || lia.
    + rewrite lookup_insert_ne by congruence. destruct (Z.leb_spec (a + 1) x), (Z.leb_spec a x), (Z.ltb_spec x e); done || lia.
  - exists m. split; [done|]. intros x. destruct (Z.leb_spec a x), (Z.ltb_spec x e); done || lia.
Qed.

Lemma load_entries_ext m m' a : in_space a 4 -> in_space a (4 + 24 * load32 m a) ->
  (forall x, a <= x < a + 4 + 24 * load32 m a -> m' !! x = m !! x) -> load_entries_at_address m' a = load_entries_at_address m a.
Proof.
  intros H4 Hs Hx. pose proof (load32_range m a) as Hr. unfold load_entries_at_address.
  assert (E : forall b, a <= b -> b + 4 <= a + 4 + 24 * load32 m a -> load32 m' b = load32 m b).
  { intros b H1 H2. unfold in_space in *. apply load32_ext; [unfold in_space; lia|]. intros x Hxx. apply Hx. lia. }
  rewrite (E a) by (mach_unfold; lia). apply list_fmap_ext. intros j i Hi%list_elem_of_lookup_2%elem_of_seqZ.
  unfold load_entry, load64. f_equal; rewrite !E by lia; done.
Qed.

(** The memory map, the frames of the bitmap and the frames that can be handed out. *)
Definition memory_map (m : mem) : list MapEntry := load_entries_at_address m 0x1000.
Definition bitmap_frames (m : mem) : Z := size_in_frames (mkFrameBitmap (memory_limit (memory_map m) / 4096) 0 []).
Definition usable (l : Labels) (m : mem) (j : Z) : Prop :=
  0 <= j /\ partly_usable (memory_map m) j /\
  ~ (ro_physical_start l / 4096 <= j < rw_physical_end l / 4096 + bitmap_frames m).

(** The machine as the boot loader leaves it: the image above the first megabyte with its
    stack in the last frame, a map of at most 170 entries whose usable ones lie below 4 GiB,
    behind the image room for the bitmap, both in the four megabytes that are mapped, and 68
    usable frames, two of them below the image. *)
Record loaded (l : Labels) (m : mem) (fs : list Z) (f1 f2 : Z) : Prop := {
  ld_image : 0x100000 <= ro_physical_start l < rw_physical_end l /\ ro_physical_start l mod 4096 = 0 /\ rw_physical_end l mod 4096 = 0;
  ld_stack : label_stack_start l = rw_physical_end l - 4096 /\ ro_physical_start l <= label_stack_start l;
  ld_bss : ro_physical_start l <= bss_start l <= bss_end l /\ bss_end l <= label_stack_start l;
  ld_map : load32 m 0x1000 <= 170;
  ld_entries : Forall (entry_ok (memory_limit (memory_map m) / 4096)) (memory_map m);
  ld_bitmap : 0 < bitmap_frames m /\ rw_physical_end l / 4096 + bitmap_frames m <= memory_limit (memory_map m) / 4096;
  ld_mapped : rw_physical_end l + 4096 * bitmap_frames m <= 0x400000;
  ld_free : NoDup fs /\ (68 <= length fs)%nat /\ Forall (usable l m) fs;
  ld_low : f1 ∈ fs /\ f2 ∈ fs /\ f1 <> f2 /\ f1 < ro_physical_start l / 4096 /\ f2 < ro_physical_start l / 4096
}.

(** What [_start] has to work with: the image is as it was loaded, with [.bss] cleared; code
    and stack are where the processor continues; the heap has 64 pages of its own; and the
    frames in use are the image, the bitmap and the lowest usable ones, [taken]. *)
Record memory_ready (l : Labels) (m : mem) (v : VM) (bm : FrameBitmap) (pages taken : list Z) : Prop := {
  mr_ok : vm_ok v bm;
  mr_image : forall x, ro_physical_start l <= x < rw_physical_end l ->
    load8 (phys v) x = if (bss_start l <=? x) && (x <? bss_end l) then 0 else load8 m x;
  mr_code : forall a, 0 <= a < 0x400000 -> walk (phys v) (cr3 v) a = Some a /\ walk (phys v) (cr3 v) (high_jump a) = Some a;
  mr_stack : forall esp, label_stack_start l <= esp < rw_physical_end l ->
    walk (phys v) (cr3 v) (move_esp esp (label_stack_start l)) = Some esp;
  mr_heap : length pages = 64%nat /\ NoDup pages /\ pages ⊆ taken /\
    forall i f o, nthZ pages i = Some f -> 0 <= o < 4096 -> walk (phys v) (cr3 v) (0xc0400000 + i * 4096 + o) = Some (f * 4096 + o);
  mr_taken : (length taken <= 68)%nat /\ Forall (usable l m) taken /\
    forall j x, usable l m j -> j ∉ taken -> x ∈ taken -> x < j;
  mr_free : forall j, 0 <= j -> occupied bm j = false <-> usable l m j /\ j ∉ taken
}.

Section start.
Context (l : Labels) (m : mem) (fs : list Z) (f1 f2 : Z) (Hl : loaded l m fs f1 f2).
Notation first := (ro_physical_start l / 4096).
Notation fin := (rw_physical_end l / 4096).
Notation n := (bitmap_frames m).
Notation count := (memory_limit (memory_map m) / 4096).

Lemma image_range : let range := FrameRange.new (ro_physical_start l) (rw_physical_end l -u ro_physical_start l -u 1) in
  FrameRange.wf range /\ FrameRange.get_first_frame_index range = first /\ FrameRange.get_last_frame_index range = fin - 1.
Proof.
  destruct (ld_image _ _ _ _ _ Hl) as (Hi & Ha & Hb). destruct (ld_bitmap _ _ _ _ _ Hl) as [Hn Hc]. cbv zeta.
  pose proof (memory_limit_range (memory_map m)). assert (Hr : rw_physical_end l < 4294967296) by mlia.
  assert (E : rw_physical_end l -u ro_physical_start l -u 1 = rw_physical_end l - ro_physical_start l - 1) by mlia. rewrite E.
  assert (Hwf : FrameRange.wf (FrameRange.new (ro_physical_start l) (rw_physical_end l - ro_physical_start l - 1)))
    by (unfold FrameRange.wf, FrameRange.new; cbn [fr_start fr_length]; mlia).
  destruct (FrameRange.index_bounds _ Hwf) as (-> & -> & _). split; [done|]. cbn [FrameRange.new fr_start fr_length]. split; [done|]. mlia.
Qed.

Lemma usable_in_range j : usable l m j -> 0 <= j < count.
Proof.
  intros (Hj & (a & Ha & He) & _). split; [done|]. pose proof (ld_entries _ _ _ _ _ Hl) as Hok. apply Exists_exists in He as (e & Hin & Hfree & Hcov).
  rewrite Forall_forall in Hok. destruct (Hok e Hin Hfree). mlia.
Qed.

(** A third usable frame. *)
Lemma third_frame : exists f3, f3 ∈ fs /\ f3 <> f1 /\ f3 <> f2.
Proof.
  destruct (ld_free _ _ _ _ _ Hl) as (Hnd & Hn & _). pose proof (remove_length [f1; f2] fs Hnd) as Hr.
  destruct (filter (.∉ [f1; f2]) fs) as [|f3 r] eqn:E; [cbn in Hr; lia|]. exists f3.
  assert (Hin : f3 ∈ filter (.∉ [f1; f2]) fs) by (rewrite E; left). apply list_elem_of_filter in Hin as [Hn3 Hin]. set_solver.
Qed.

(** The frames in use once the allocator, the first directory and the kernel are set up. *)
Record frames_ready (v : VM) (bm : FrameBitmap) (s k t : Z) : Prop := {
  fr_ok : vm_ok v bm;
  fr_count : frame_count bm = count;
  fr_entries : kernel_entries (phys v) (s * 4096) (k * 4096) (t * 4096) (label_stack_start l);
  fr_cr3 : cr3 v = s * 4096;
  fr_taken : NoDup [s; k; t] /\ Forall (usable l m) [s; k; t];
  fr_lowest : forall j x, usable l m j -> j ∉ [s; k; t] -> x ∈ [s; k; t] -> x < j;
  fr_free : forall j, 0 <= j -> occupied bm j = false <-> usable l m j /\ j ∉ [s; k; t]
}.

Lemma image_in j : in_range (FrameRange.new (ro_physical_start l) (rw_physical_end l -u ro_physical_start l -u 1)) j = false <-> ~ (first <= j < fin).
Proof.
  destruct image_range as (_ & E1 & E2). unfold in_range. rewrite E1, E2, andb_false_iff, !Z.leb_gt. lia.
Qed.

Lemma usable_free bm0 : (forall j, 0 <= j -> occupied bm0 j = false <-> partly_usable (memory_map m) j /\ ~ (fin <= j < fin + n)) ->
  forall j, usable l m j <-> 0 <= j /\ occupied bm0 j = false /\ ~ (first <= j < fin).
Proof.
  intros H0 j. unfold usable. destruct (ld_bitmap _ _ _ _ _ Hl) as [Hn _].
  assert (first <= fin) by (destruct (ld_image _ _ _ _ _ Hl); mlia).
  split.
  - intros (Hj & He & Hn'). split; [done|]. rewrite H0 by done. split; [split; [done|lia]|lia].
  - intros (Hj & Ho & Hn'). rewrite H0 in Ho by done. destruct Ho as [He Ht]. split; [done|]. split; [done|lia].
Qed.

Lemma frames_taken bm0 bm s k t range :
  range = FrameRange.new (ro_physical_start l) (rw_physical_end l -u ro_physical_start l -u 1) ->
  (forall j, 0 <= j -> occupied bm0 j = false <-> partly_usable (memory_map m) j /\ ~ (fin <= j < fin + n)) ->
  boot_taken bm0 bm range s k t ->
  (NoDup [s; k; t] /\ Forall (usable l m) [s; k; t]) /\
  (forall j x, usable l m j -> j ∉ [s; k; t] -> x ∈ [s; k; t] -> x < j) /\
  (forall j, 0 <= j -> occupied bm j = false <-> usable l m j /\ j ∉ [s; k; t]).
Proof.
  intros -> H0 [_ _ Hfree (D1 & D2 & D3) Hout Hocc Hfirst Hthird]. pose proof (usable_free bm0 H0) as Hu.
  apply Forall_cons in Hfree as [(R1 & O1 & _) Hfree]. apply Forall_cons in Hfree as [(R2 & O2 & _) Hfree].
  apply Forall_cons in Hfree as [(R3 & O3 & _) _]. apply image_in in Hout.
  assert (Hsk : s < first /\ k < first).
  { destruct (ld_low _ _ _ _ _ Hl) as (I1 & I2 & Hne & L1 & L2). destruct (ld_free _ _ _ _ _ Hl) as (_ & _ & Hus). rewrite Forall_forall in Hus.
    destruct (proj1 (Hu f1) (Hus f1 I1)) as (P1 & Q1 & _). destruct (proj1 (Hu f2) (Hus f2 I2)) as (P2 & Q2 & _).
    assert (A1 : f1 = s \/ f1 = k \/ Z.max s k <= f1).
    { destruct (decide (f1 = s)); [by left|]. destruct (decide (f1 = k)); [by right; left|]. right; right.
      destruct (Z.lt_ge_cases f1 (Z.max s k)); [|lia]. rewrite Hfirst in Q1 by lia. done. }
    assert (A2 : f2 = s \/ f2 = k \/ Z.max s k <= f2).
    { destruct (decide (f2 = s)); [by left|]. destruct (decide (f2 = k)); [by right; left|]. right; right.
      destruct (Z.lt_ge_cases f2 (Z.max s k)); [|lia]. rewrite Hfirst in Q2 by lia. done. }
    lia. }
  split; [|split].
  - split; [repeat constructor; set_solver|]. repeat (apply Forall_cons; split; [apply Hu; split; [lia|]; split; [done|lia]|]). constructor.
  - intros j x Hj Hn Hx. apply Hu in Hj as (Hj & Ho & Hi). assert (Hd : j <> s /\ j <> k /\ j <> t) by set_solver. destruct Hd as (E1 & E2 & E3).
    assert (Z.max s k <= j).
    { destruct (Z.lt_ge_cases j (Z.max s k)); [|done]. rewrite Hfirst in Ho by lia. done. }
    assert (t <= j).
    { destruct (Z.lt_ge_cases j t); [|done]. rewrite Hthird in Ho; [done|lia|done|done|]. by apply image_in. }
    set_unfold in Hx. lia.
  - intros j Hj. rewrite Hocc, !orb_false_iff, !Z.eqb_neq, image_in by done. rewrite Hu. set_unfold. split; intros Hx; [|]; intuition congruence.
Qed.

Lemma init_memory_spec m' : memory_map m' = memory_map m ->
  exists v bm s k t, init_memory_new l m' = Ret v /\ frames_ready v bm s k t /\ only_frames [s; k; t] m' (phys v).
Proof.
  intros Hmm. destruct (ld_image _ _ _ _ _ Hl) as (Hi & Ha & Hb). destruct (ld_bitmap _ _ _ _ _ Hl) as [Hn Hc]. destruct image_range as (Rwf & R1 & R2).
  destruct (init_allocator_spec (load8 m') (rw_physical_end l) (memory_map m)) as (bm0 & E0 & Hwf0 & _ & Hc0 & Hocc0 & _).
  { intros a. apply load8_range. }
  { lia. }
  { done. }
  { apply (ld_entries _ _ _ _ _ Hl). }
  { exact Hn. }
  { exact Hc. }
  change (size_in_frames (at_location (load8 m') (rw_physical_end l) count)) with n in Hocc0.
  destruct (third_frame) as (f3 & I3 & N1 & N2). destruct (ld_low _ _ _ _ _ Hl) as (I1 & I2 & N3 & _). destruct (ld_free _ _ _ _ _ Hl) as (_ & _ & Hus).
  rewrite Forall_forall in Hus. pose proof (usable_free bm0 Hocc0) as Hu.
  destruct (boot_directory_built (mkPhysState (Some bm0) None) bm0 m' (mkBounds (ro_physical_start l) (rw_physical_end l) (label_stack_start l)) f1 f2 f3)
    as (s & k & t & st1 & m1 & st2 & m2 & bm2 & E1 & E2 & Ha2 & Ht & Hk & Honly); cbn [ro_start rw_end stack_start]; try done.
  { rewrite R2, Hc0. lia. }
  { rewrite R1, R2, Hc0. assert (Hf : forall f, f ∈ fs -> 0 <= f < count /\ occupied bm0 f = false /\ ~ (first <= f <= fin - 1)).
    { intros f Hin. split; [by apply usable_in_range, Hus|]. destruct (proj1 (Hu f) (Hus f Hin)) as (_ & Ho & Hn'). split; [exact Ho|lia]. }
    repeat first [apply Forall_nil_2 | apply Forall_cons_2; [by apply Hf|]]. }
  { destruct (ld_stack _ _ _ _ _ Hl) as [-> _]. pose proof (memory_limit_range (memory_map m)). split; mlia. }
  destruct (frames_taken bm0 bm2 s k t _ eq_refl Hocc0 Ht) as (T1 & T2 & T3).
  eexists _, (move_to_highmem bm2), s, k, t. split.
  { unfold init_memory_new. change (load_entries_at_address m' 0x1000) with (memory_map m'). rewrite Hmm, E0. cbn [mbind comp_bind].
    rewrite E1. cbn [mbind comp_bind]. rewrite E2. cbn [mbind comp_bind]. unfold move_allocator_reference_to_highmem, with_allocator.
    rewrite Ha2. cbn [mbind comp_bind]. reflexivity. }
  split; [|exact Honly]. split; [|by rewrite <- Hc0; apply (bt_count _ _ _ _ _ _ Ht)|exact Hk|done|exact T1|exact T2|exact T3].
  apply (vm_ok_frames _ _ (mkPhysState (Some (move_to_highmem bm2)) (REF_COUNT st2)) _ (boot_vm_ok _ _ _ _ _ _ _ _ _ Ht Ha2 Hk)); [done|exact (bt_wf _ _ _ _ _ _ Ht)|done].
Qed.

Lemma cleared_map m' :
  (forall x, m' !! x = if (bss_start l <=? x) && (x <? bss_end l) then Some 0 else m !! x) -> memory_map m' = memory_map m.
Proof.
  intros Hm'. destruct (ld_image _ _ _ _ _ Hl) as (Hi & _). destruct (ld_bss _ _ _ _ _ Hl) as [Hb _]. pose proof (ld_map _ _ _ _ _ Hl) as Hmap.
  apply load_entries_ext; [unfold in_space; lia..|]. intros x Hx. rewrite Hm'. destruct (Z.leb_spec (bss_start l) x); [lia|done].
Qed.

Lemma frames_left v bm s k t : frames_ready v bm s k t -> free_frames 65 bm.
Proof.
  intros [_ Hc _ _ _ _ Hfree]. destruct (ld_free _ _ _ _ _ Hl) as (Hnd & Hn & Hus). exists (filter (.∉ [s; k; t]) fs).
  split; [by apply NoDup_filter|]. split; [pose proof (remove_length [s; k; t] fs Hnd) as Hr; cbn [length] in Hr; lia|].
  apply Forall_forall. intros j [Hj Hin]%list_elem_of_filter. rewrite Forall_forall in Hus. pose proof (Hus j Hin) as Hu. split; [rewrite Hc; by apply usable_in_range|].
  apply Hfree; [apply (usable_in_range j Hu)|by split].
Qed.

Lemma frames_no_heap v bm s k t : frames_ready v bm s k t -> ~ has_table (phys v) (cr3 v) 0x301.
Proof.
  intros [_ _ (K0 & _) -> _ _ _]. unfold has_table. rewrite K0 by lia. by vm_compute.
Qed.

(** The translations that the heap leaves alone. *)
Lemma heap_keeps v0 v bm0 bm pages taken w : heap_mapped v0 v bm0 bm 64 pages taken ->
  is_u32 w -> dir_index w < 1023 -> w < 0xc0400000 \/ 0xc0440000 <= w -> walk (phys v) (cr3 v) w = walk (phys v0) (cr3 v0) w.
Proof. intros Hm Hw Hd Hr. apply (hm_rest _ _ _ _ _ _ _ Hm); [done..|]. change (Z.of_nat 64) with 64. mlia. Qed.

Lemma dir_index_div w : is_u32 w -> dir_index w = w / 4194304.
Proof. intros Hw. unfold VirtualAddress.get_page_directory_index. rewrite shr_div by (mach_unfold; lia). done. Qed.

Lemma heap_ready v0 v bm0 bm s k t pages taken st m' :
  (forall x, m' !! x = if (bss_start l <=? x) && (x <? bss_end l) then Some 0 else m !! x) ->
  frames_ready v0 bm0 s k t -> only_frames [s; k; t] m' (phys v0) -> heap_mapped v0 v bm0 bm 64 pages taken ->
  ALLOCATOR st = Some bm -> memory_ready l m (set_frames v st) bm pages ([s; k; t] ++ taken).
Proof.
  intros Hbss [Hok0 Hc0 Hent Hcr [Hnd Hus] Hlow Hfree] Honly Hm Hst. pose proof Hm as [Hok Hcr' (T & L & N) (Pl & Pn & Ps) Hlen _ _ _ Hwalk _ Honly'].
  assert (Htk : Forall (usable l m) taken).
  { destruct T as (_ & F & _). eapply Forall_impl; [exact F|]. intros j [Hr Ho]. by apply Hfree in Ho as [? _]; [|lia]. }
  destruct (kernel_entries_walk _ _ _ _ _ Hent) as [Hid Hstk]. rewrite <- Hcr in Hid, Hstk.
  split; cbn [phys cr3 set_frames].
  - apply (vm_ok_frames v bm); [done|done|apply Hok|done].
  - intros x Hx. assert (Hr : 0 <= x < 4294967296 /\ first <= x / 4096 < fin).
    { destruct (ld_image _ _ _ _ _ Hl) as (Hi & Ha & Hb). destruct (ld_bitmap _ _ _ _ _ Hl) as [_ Hc]. pose proof (memory_limit_range (memory_map m)). 
      destruct (ld_bitmap _ _ _ _ _ Hl). mlia. }
    destruct Hr as [Hr Hf]. destruct (ld_bitmap _ _ _ _ _ Hl) as [Hn _].
    assert (Hout : forall g, usable l m g -> x / 4096 <> g) by (intros g (_ & _ & Hg) <-; lia).
    rewrite Forall_forall in Hus, Htk. unfold load8. rewrite !u32_small by (mach_unfold; lia).
    rewrite Honly', Honly, Hbss; [by destruct ((bss_start l <=? x) && (x <? bss_end l))| |].
    + intros Hin. by apply (Hout _ (Hus _ Hin)).
    + rewrite Hcr, Z.div_mul by lia. intros [Hin|Hin]%elem_of_cons; [apply (Hout s); [apply Hus; left|done]|by apply (Hout _ (Htk _ Hin))].
  - intros a Ha. assert (Eh : high_jump a = 0xc0000000 + a).
    { unfold high_jump. change 0xc0000000 with (3 * 2 ^ 30). rewrite lor_low by lia. lia. }
    rewrite Eh, !(heap_keeps v0 v bm0 bm pages taken) by (try done; try (rewrite dir_index_div by (mach_unfold; lia)); try (mach_unfold; lia); mlia). by apply Hid.
  - intros esp He. destruct (ld_stack _ _ _ _ _ Hl) as [Es _].
    assert (Em : move_esp esp (label_stack_start l) = 0xffbfe000 + (esp - label_stack_start l)) by (unfold move_esp; mlia).
    rewrite Em, (heap_keeps v0 v bm0 bm pages taken) by (try done; try (rewrite dir_index_div by (mach_unfold; lia)); try (mach_unfold; lia); mlia).
    rewrite Hstk by lia. f_equal. lia.
  - split; [done|]. split; [done|]. split; [set_solver|]. exact Hwalk.
  - split; [rewrite length_app; cbn [length]; lia|]. split; [by apply Forall_app|]. intros j x Hj Hn [Hx|Hx]%elem_of_app.
    + apply Hlow; [done|set_solver|done].
    + apply (L j x); [apply (usable_in_range j Hj)| |set_solver|done]. apply Hfree; [apply (usable_in_range j Hj)|]. split; [done|set_solver].
  - intros j Hj. destruct T as (_ & _ & To). rewrite To, orb_false_iff, bool_decide_eq_false, Hfree by done. rewrite not_elem_of_app. tauto.
Qed.
End start.

(** Behind the heap nothing is mapped. *)
Lemma behind_heap l m v0 v bm0 bm s k t pages taken :
  frames_ready l m v0 bm0 s k t -> heap_mapped v0 v bm0 bm 64 pages taken -> walk (phys v) (cr3 v) 0xc0440000 = None.
Proof.
  intros Hfr Hm. rewrite (heap_keeps v0 v bm0 bm pages taken) by (done || mach_unfold; lia).
  pose proof (frames_no_heap _ _ _ _ _ _ _ Hfr) as Hno. unfold walk.
  change (pde (phys v0) (cr3 v0) 0xc0440000) with (dir_entry (phys v0) (cr3 v0) 0x301).
  destruct (PageTableEntry.is_present _) eqn:E; [|done]. by destruct Hno.
Qed.

Lemma start_memory_spec fuel l m hm k fs f1 f2 :
  loaded l m fs f1 f2 -> (Z.to_nat (bss_end l - bss_start l) <= fuel)%nat ->
  let count := memory_limit (memory_map m) / 4096 in
  if count + 12 <=? 0x40000 then
    exists v bm pages taken hm' al', start_memory fuel l m hm k = Ret (v, (hm', al', k)) /\
      memory_ready l m v bm pages taken /\ REF_COUNT (frames v) = Some (FrameRefcount.new count) /\ counts_on_heap count hm' al'
  else start_memory fuel l m hm k = Panic.
Proof.
  intros Hl Hf count. destruct (ld_image _ _ _ _ _ Hl) as (Hi & _). destruct (ld_bss _ _ _ _ _ Hl) as [Hb Hbe]. destruct (image_range l m fs f1 f2 Hl) as ((_ & _ & Hr) & _).
  destruct (ld_stack _ _ _ _ _ Hl) as [Hst _]. destruct (ld_bitmap _ _ _ _ _ Hl) as [Hbn Hbc]. pose proof (memory_limit_range (memory_map m)) as Hlim.
  destruct (zero_bss_spec fuel l m) as (m' & E1 & Hm'); [lia|mlia|done|].
  destruct (init_memory_spec l m fs f1 f2 Hl m' (cleared_map l m fs f1 f2 Hl m' Hm')) as (v0 & bm0 & s & kf & t & E2 & Hfr & Honly).
  destruct (map_allocator_spec v0 bm0 0xc0400000 (fr_ok _ _ _ _ _ _ _ Hfr) (frames_no_heap _ _ _ _ _ _ _ Hfr) (frames_left _ _ _ _ _ Hl _ _ _ _ _ Hfr))
    as (v & bm & pages & taken & E3 & Hm).
  pose proof (vo_alloc _ _ (hm_ok _ _ _ _ _ _ _ Hm)) as Hal. destruct (hm_taken _ _ _ _ _ _ _ Hm) as ((Hcnt & _) & _).
  assert (Hcount : FrameBitmap.get_frame_count bm = count) by (unfold FrameBitmap.get_frame_count; by rewrite Hcnt, (fr_count _ _ _ _ _ _ _ Hfr)).
  assert (Hc : 0 < count < 1048576) by (unfold count; mlia).
  assert (Es : start_memory fuel l m hm k =
    ('(st, heap) ← init_refcount (zeroed_vec v) (frames v) (ListAllocator.new hm 0xc0400000 0x40000, k); Ret (set_frames v st, heap))).
  { unfold start_memory. rewrite E1. cbn [mbind comp_bind]. rewrite E2. cbn [mbind comp_bind]. rewrite E3. reflexivity. }
  unfold init_refcount, with_allocator in Es. rewrite Hal in Es. cbn [mbind comp_bind] in Es. rewrite Hcount in Es.
  destruct (Z.leb_spec (count + 12) 0x40000) as [Hfit|Hbig].
  - destruct (zeroed_vec_fits v count hm k Hc Hfit) as (hm' & al' & Ez & Hh). rewrite Ez in Es. cbn [mbind comp_bind] in Es.
    eexists _, bm, pages, ([s; kf; t] ++ taken), hm', al'. split; [exact Es|]. split; [eapply heap_ready; eauto; done|]. by split.
  - by rewrite (zeroed_vec_panics v count hm k Hc Hbig (behind_heap _ _ _ _ _ _ _ _ _ _ _ Hfr Hm)) in Es.
Qed.


(** The frames of the archive that the boot loader puts behind the kernel are not reserved:
    once memory is set up, a frame outside the image and the bitmap is handed out again
    unless it is among the 68 lowest usable ones. *)
Theorem archive_frames_stay_free fuel l m hm k fs f1 f2 low j :
  loaded l m fs f1 f2 -> memory_limit (memory_map m) / 4096 + 12 <= 0x40000 -> (Z.to_nat (bss_end l - bss_start l) <= fuel)%nat ->
  NoDup low -> (68 <= length low)%nat -> Forall (fun i => usable l m i /\ i < j) low -> usable l m j ->
  exists v bm heap, start_memory fuel l m hm k = Ret (v, heap) /\ ALLOCATOR (frames v) = Some bm /\ occupied bm j = false.
Proof.
  intros Hl Hc Hf Hnd Hlen Hlow Hj. pose proof (start_memory_spec fuel l m hm k fs f1 f2 Hl Hf) as Hs. cbv zeta in Hs.
  apply Z.leb_le in Hc. rewrite Hc in Hs. destruct Hs as (v & bm & pages & taken & hm' & al' & E & Hr & _).
  eexists v, bm, _. split; [exact E|]. split; [apply (mr_ok _ _ _ _ _ _ Hr)|]. destruct (mr_taken _ _ _ _ _ _ Hr) as (Ht & _ & Hlt).
  apply (mr_free _ _ _ _ _ _ Hr); [apply Hj|]. split; [done|]. intros Hin. rewrite Forall_forall in Hlow.
  assert (Hsub : (length (j :: low) <= length taken)%nat).
  { apply submseteq_length, NoDup_submseteq.
    - constructor; [|done]. intros Hjl. destruct (Hlow j Hjl). lia.
    - intros i [->|Hi]%elem_of_cons; [done|]. destruct (decide (i ∈ taken)); [done|]. destruct (Hlow i Hi) as [Hu Hij]. pose proof (Hlt i j Hu ltac:(done) Hin). lia. }
  cbn [length] in Hsub. lia.
Qed.

(** * Witnesses: two megabytes of memory *)

Definition demo_labels : Labels := mkLabels 0x101000 0x105000 0x103000 0x103010 0x104000.
Definition demo_bios_memory : mem :=
  store32 (store32 (store32 (store32 ∅ 0x1000 1) 0x1004 0) 0x100c 0x200000) 0x1014 1.

Lemma demo_map : memory_map demo_bios_memory = [mkMapEntry 0 0x200000 1 0].
Proof. by vm_compute. Qed.

Lemma demo_usable j : 0 <= j < 512 -> ~ (0x101 <= j < 0x106) -> usable demo_labels demo_bios_memory j.
Proof.
  intros Hj Hn. split; [lia|]. unfold bitmap_frames. rewrite demo_map. split; [|by change (~ (0x101 <= j < 0x106))].
  exists (4096 * j). split; [mlia|]. apply Exists_cons_hd. split; [done|]. cbn. lia.
Qed.

Lemma demo_bitmap_frames : bitmap_frames demo_bios_memory = 1.
Proof. unfold bitmap_frames. by rewrite demo_map. Qed.

Lemma demo_loaded : loaded demo_labels demo_bios_memory (seqZ 0 80) 0 1.
Proof.
  split; cbn [demo_labels ro_physical_start rw_physical_end bss_start bss_end label_stack_start].
  - split; [lia|by split].
  - lia.
  - lia.
  - by vm_compute.
  - rewrite demo_map. constructor; [|done]. intros _. by vm_compute.
  - rewrite demo_bitmap_frames, demo_map. by vm_compute.
  - rewrite demo_bitmap_frames. lia.
  - split; [apply NoDup_seqZ|]. split; [rewrite length_seqZ; lia|]. apply Forall_forall. intros j Hj%elem_of_seqZ. apply demo_usable; lia.
  - split; [apply elem_of_seqZ; lia|]. split; [apply elem_of_seqZ; lia|]. split; [done|]. by vm_compute.
Qed.

(** A machine with 1 GiB, which does not come up. *)
Definition demo_large_memory : mem := store32 demo_bios_memory 0x100c 0x40000000.

Lemma demo_large_map : memory_map demo_large_memory = [mkMapEntry 0 0x40000000 1 0].
Proof. by vm_compute. Qed.

Lemma demo_large_bitmap : bitmap_frames demo_large_memory = 8.
Proof. unfold bitmap_frames. by rewrite demo_large_map. Qed.

Lemma demo_large_loaded : loaded demo_labels demo_large_memory (seqZ 0 80) 0 1.
Proof.
  split; cbn [demo_labels ro_physical_start rw_physical_end bss_start bss_end label_stack_start].
  - split; [lia|by split].
  - lia.
  - lia.
  - by vm_compute.
  - rewrite demo_large_map. constructor; [|done]. intros _. by vm_compute.
  - rewrite demo_large_bitmap, demo_large_map. by vm_compute.
  - rewrite demo_large_bitmap. lia.
  - split; [apply NoDup_seqZ|]. split; [rewrite length_seqZ; lia|]. apply Forall_forall. intros j Hj%elem_of_seqZ.
    split; [lia|]. rewrite demo_large_bitmap, demo_large_map. split; [|cbn [demo_labels ro_physical_start rw_physical_end]; mlia].
    exists (4096 * j). split; [mlia|]. apply Exists_cons_hd. split; [done|]. cbn. lia.
  - split; [apply elem_of_seqZ; lia|]. split; [apply elem_of_seqZ; lia|]. split; [done|]. by vm_compute.
Qed.


Lemma archive_frames_stay_free_witness :
  exists v bm heap, start_memory 16 demo_labels demo_bios_memory ∅ initial_kernel_memory = Ret (v, heap) /\ ALLOCATOR (frames v) = Some bm /\ occupied bm 0x120 = false.
Proof.
  refine (archive_frames_stay_free 16 demo_labels demo_bios_memory ∅ initial_kernel_memory (seqZ 0 80) 0 1 (seqZ 0 80) 0x120 demo_loaded _ _ _ _ _ _).
  - rewrite demo_map. by vm_compute.
  - cbn. lia.
  - apply NoDup_seqZ.
  - rewrite length_seqZ. lia.
  - apply Forall_forall. intros i Hi%elem_of_seqZ. split; [apply demo_usable; lia|lia].
  - apply demo_usable; lia.
Defined.
