(* ===== verification/Loader.v ===== *)
(** The boot loader: the sources under [bootloader/].

    A routine is a function of the registers it takes to those it leaves; [push] and [pop] pairs
    that save registers and pass arguments are local names.  Registers are 16 bits wide in
    real mode and 32 bits wide after it; [loop] decrements before it tests.  The BIOS is an
    interface ([Bios]).  Mode switches and segment loads change nothing but the width of
    addresses: all segments start at 0. *)

From Stdlib Require Import String Ascii.
From S2P Require Import Prelude Memory.

Definition crlf : list Z := [13; 10].

Class Bios (B : Type) : Type := {
  (** [int 0x13], [ah = 2], [al = 1]: cylinder, sector, head and drive; the bytes left at
      [es:bx] and the carry flag. *)
  int13 : B -> Z -> Z -> Z -> Z -> B * list Z * bool;
  (** [int 0x15], [eax = 0xe820], [ecx = 24]: the continuation [ebx]; the bytes left at [es:di],
      the carry flag, [eax] and [ebx]. *)
  int15 : B -> Z -> B * list Z * bool * Z * Z;
  (** [int 0x10], [ah = 0x0e]: a character on the screen. *)
  int10 : B -> Z -> B;
  port_in : B -> Z -> B * Z;
  port_out : B -> Z -> Z -> B
}.

(** How often the body of a loop that ends in [loop] runs. *)
Definition loop_count (cx : Z) : nat := Z.to_nat (if cx =? 0 then 65536 else cx).

Definition store16 (m : mem) (a x : Z) : mem := store8 (store8 m a x) (a + 1) (x / 256).

Section loader.
Context {B : Type} `{Bios B}.

(** Memory, the BIOS and the words of [disk.s]. *)
Record Loader : Type := mkLoader {
  ram : mem;
  bios : B;
  disk_no : Z;
  sector_of_root_dir : Z;
  sector_of_root_cluster : Z;
  sectors_per_cluster : Z;
  print_cursor_col : Z
}.
Definition set_ram (s : Loader) (m : mem) : Loader :=
  mkLoader m (bios s) (disk_no s) (sector_of_root_dir s) (sector_of_root_cluster s) (sectors_per_cluster s) (print_cursor_col s).
Definition set_bios (s : Loader) (b : B) : Loader :=
  mkLoader (ram s) b (disk_no s) (sector_of_root_dir s) (sector_of_root_cluster s) (sectors_per_cluster s) (print_cursor_col s).

(** * [print16.s] *)

Definition print_string_16 (s : Loader) (si : list Z) : Loader := set_bios s (foldl int10 (bios s) si).

(** * [disk.s] *)

Definition SECTORS_PER_CLUSTER : Z := 0x7c0d.
Definition RESERVED_SECTORS : Z := 0x7c0e.
Definition FAT_TABLE_COUNT : Z := 0x7c10.
Definition ROOT_DIRECTORY_ENTRIES : Z := 0x7c11.
Definition SECTORS_PER_FAT : Z := 0x7c16.
Definition SECTORS_PER_TRACK : Z := 0x7c18.
Definition DISK_HEAD_COUNT : Z := 0x7c1a.

Definition init_fat (s : Loader) (dl : Z) : Loader :=
  let m := ram s in
  let sectors_per_cluster := load8 m SECTORS_PER_CLUSTER in
  let bl := load8 m RESERVED_SECTORS in
  let cl := load8 m FAT_TABLE_COUNT in
  let bx := Nat.iter (loop_count cl) (fun bl => u8 (bl + load8 m SECTORS_PER_FAT)) bl in
  let cx := load16 m ROOT_DIRECTORY_ENTRIES >>u 4 in
  mkLoader m (bios s) dl bx (u16 (bx + cx)) sectors_per_cluster (print_cursor_col s).

(** The body runs at most [cx] times; the bytes of a failed attempt stay in memory. *)
Fixpoint try_sector_read (cx : nat) (s : Loader) (lba_track lba_sector lba_head bx : Z) : Loader :=
  match cx with
  | O => s
  | S cx =>
      let '(b, bytes, carry) := int13 (bios s) lba_track lba_sector lba_head (disk_no s) in
      let s := set_ram (set_bios s b) (store_bytes (ram s) bx bytes) in
      if carry : bool then try_sector_read cx s lba_track lba_sector lba_head bx else s
  end.

(** [div] by zero raises a divide error. *)
Definition copy_sector_at_lba (s : Loader) (ax bx : Z) : comp Loader :=
  let cx := load16 (ram s) SECTORS_PER_TRACK in
  if cx =? 0 then Panic
  else
    let lba_sector := u8 (u8 (ax mod cx) + 1) in
    let ax := ax / cx in
    let cx := load16 (ram s) DISK_HEAD_COUNT in
    if cx =? 0 then Panic
    else
      let lba_track := u8 (ax / cx) in
      let lba_head := u8 (ax mod cx) in
      Ret (try_sector_read 3 s lba_track lba_sector lba_head bx).

(** * [mbr.s] *)

(** [cx] counts the letters of the name; the name is read with [lodsb]. *)
Fixpoint check_filename (m : mem) (bx : Z) (name : list Z) : bool :=
  match name with
  | [] => true
  | al :: name => (al =? load8 m bx) && check_filename m (u16 (bx + 1)) name
  end.

Fixpoint copy_sectors (n : nat) (s : Loader) (ax bx : Z) : comp Loader :=
  match n with
  | O => Ret s
  | S n => s ← copy_sector_at_lba s ax bx; copy_sectors n s (u16 (ax + 1)) (u16 (bx + 0x200))
  end.

(** The sectors of a file by the middle bytes of its size. *)
Definition sector_count (m : mem) (size_field : Z) : Z := u16 ((load16 m size_field >>u 1) + 1).

Definition expected_filename : list Z := ascii_bytes "BOOT    BIN".
Definition msg_boot_not_found : list Z := ascii_bytes "BOOT.BIN not found".
Definition msg_load_boot : list Z := ascii_bytes "Loading Stage 1" ++ crlf.
Definition msg_start_boot : list Z := ascii_bytes "Entering Stage 1" ++ crlf.

(** Where the processor goes on; [None] when it halts. *)
Definition boot_continue (s : Loader) (dl : Z) : comp (Loader * option Z) :=
  let s := init_fat s dl in
  s ← copy_sector_at_lba s (sector_of_root_dir s) 0x7e00;
  if negb (check_filename (ram s) 0x7e00 expected_filename) then Ret (print_string_16 s msg_boot_not_found, None)
  else
    let s := print_string_16 s msg_load_boot in
    let cx := sector_count (ram s) 0x7e1d in
    s ← copy_sectors (loop_count cx) s (sector_of_root_cluster s) 0x5000;
    Ret (print_string_16 s msg_start_boot, Some 0x5000).

(** * [boot.s]: finding and copying files *)

(** [jge] after [cmp bx, y] on 16-bit registers. *)
Definition i16 (x : Z) : Z := if x <? 32768 then x else x - 65536.
Definition jge16 (x y : Z) : bool := i16 y <=? i16 x.

(** Sectors are read until the buffer up to 0xffff is full; the sectors left are returned. *)
Fixpoint copy_file_sector (fuel : nat) (s : Loader) (ax bx cx : Z) : comp (Loader * Z * Z) :=
  match fuel with
  | O => OutOfFuel
  | S fuel =>
      s ← copy_sector_at_lba s ax bx;
      let ax := u16 (ax + 1) in
      if jge16 bx 0xfe00 then Ret (s, ax, u16 (cx - 1))
      else
        let bx := u16 (bx + 0x200) in
        let cx := u16 (cx - 1) in
        if cx =? 0 then Ret (s, ax, u16 (u16 (cx + 1) - 1)) else copy_file_sector fuel s ax bx cx
  end.

(** [lodsw], a store above the first megabyte, and the two counters. *)
Fixpoint copy_to_highmem_loop (n : nat) (m : mem) (si ebx edx : Z) : mem * Z :=
  match n with
  | O => (m, edx)
  | S n => copy_to_highmem_loop n (store16 m ebx (load16 m si)) (u16 (si + 2)) (ebx +u 2) (edx +u 2)
  end.

Fixpoint copy_file (fuel : nat) (s : Loader) (ax cx edx dest : Z) : comp (Loader * Z) :=
  match fuel with
  | O => OutOfFuel
  | S fuel =>
      '(s, ax, bx) ← copy_file_sector 64 s ax 0x8000 cx;
      let sectors := u16 (cx - bx) in
      let '(m, edx) := copy_to_highmem_loop (loop_count (u16 (Z.shiftl sectors 8))) (ram s) 0x8000 (dest +u edx) edx in
      let s := set_ram s m in
      if bx =? 0 then Ret (s, edx) else copy_file fuel s ax bx edx dest
  end.

Definition file_found (s : Loader) (bx dest : Z) (found : list Z) : comp (Loader * Z) :=
  let s := print_string_16 s found in
  let cx := sector_count (ram s) (u16 (bx + 0x1d)) in
  let ax := u16 (load16 (ram s) (u16 (bx + 0x1a)) - 2) in
  let ax := u16 (ax * sectors_per_cluster s) in
  let ax := u16 (ax + sector_of_root_cluster s) in
  copy_file 1024 s ax cx 0 dest.

(** The bytes copied; [None] when the processor halts. *)
Fixpoint directory_entry_search (fuel : nat) (s : Loader) (bx dest : Z) (found not_found name : list Z) : comp (Loader * option Z) :=
  match fuel with
  | O => OutOfFuel
  | S fuel =>
      if load8 (ram s) bx =? 0 then Ret (print_string_16 s not_found, None)
      else if check_filename (ram s) bx name then
        '(s, edx) ← file_found s bx dest found;
        Ret (s, Some edx)
      else directory_entry_search fuel s (u16 (bx + 32)) dest found not_found name
  end.

(** * [memory.s] *)

Definition SMAP : Z := 0x534d4150.

(** The entries counted in [esi]. *)
Fixpoint map_memory_loop (fuel : nat) (s : Loader) (di esi ebx : Z) : comp (Loader * Z) :=
  match fuel with
  | O => OutOfFuel
  | S fuel =>
      let '(b, bytes, carry, eax, ebx) := int15 (bios s) ebx in
      let s := set_ram (set_bios s b) (store_bytes (ram s) di bytes) in
      if carry : bool then Ret (s, esi)
      else if ebx =? 0 then Ret (s, esi)
      else if negb (eax =? SMAP) then Ret (s, esi)
      else
        let di := u16 (di + 24) in
        let esi := esi +u 1 in
        if esi <? 170 then map_memory_loop fuel s di esi ebx else Ret (s, esi)
  end.

Definition map_memory (s : Loader) : comp Loader :=
  '(s, esi) ← map_memory_loop 170 s 0x1004 0 0;
  Ret (set_ram s (store32 (ram s) 0x1000 esi)).

(** * [print32.s] *)

Definition LAST_ROW : Z := 0xb8000 + 160 * 24.

Definition disable_cursor (s : Loader) : Loader :=
  set_bios s (port_out (port_out (bios s) 0x3d4 0x0a) 0x3d5 0x20).

(** [ecx] counts down to 1. *)
Fixpoint move_text_video_bytes (ecx : nat) (m : mem) : mem :=
  match ecx with
  | O => m
  | S n =>
      let eax := LAST_ROW + 160 - 4 * Z.of_nat ecx in
      move_text_video_bytes n (store32 m (eax - 160) (load32 m eax))
  end.
Fixpoint clear_last_row (ecx : nat) (m : mem) : mem :=
  match ecx with
  | O => m
  | S n => clear_last_row n (store32 m (Z.of_nat ecx * 4 + (LAST_ROW - 4)) 0x0b200b20)
  end.
Definition scroll_window (m : mem) : mem := clear_last_row 40 (move_text_video_bytes (40 * 24) m).

Definition set_cursor (s : Loader) (m : mem) (col : Z) : Loader :=
  mkLoader m (bios s) (disk_no s) (sector_of_root_dir s) (sector_of_root_cluster s) (sectors_per_cluster s) col.

Definition print_newline (s : Loader) : Loader := set_cursor s (scroll_window (ram s)) 0.

(** One character: [al] in the colour of [ah]. *)
Definition print_char_32 (s : Loader) (al : Z) : Loader :=
  let edx := print_cursor_col s + LAST_ROW in
  let m := store16 (ram s) edx (al + 256 * 0x0b) in
  if edx <? LAST_ROW + 158 then set_cursor s m (u8 (print_cursor_col s + 2))
  else set_cursor s (scroll_window m) (u8 (u8 (-2) + 2)).
Definition print_string_32 (s : Loader) (esi : list Z) : Loader := foldl print_char_32 s esi.

(** * [boot.s]: entering the kernel *)

Definition filename_kernel : list Z := ascii_bytes "KERNEL  BIN".
Definition filename_initfs : list Z := ascii_bytes "INITFS  IMG".
Definition msg_start : list Z := ascii_bytes "Booting..." ++ crlf.
Definition msg_kernel_found : list Z := ascii_bytes "Kernel found, loading into memory." ++ crlf.
Definition msg_kernel_not_found : list Z := ascii_bytes "Kernel not found!".
Definition msg_initfs_found : list Z := ascii_bytes "InitFS found, loading into memory." ++ crlf.
Definition msg_initfs_not_found : list Z := ascii_bytes "InitFS not found!".
Definition msg_set_up : list Z := ascii_bytes "System is in 32 bit protected mode! ".

Definition enable_a20 (s : Loader) : Loader :=
  let '(b, al) := port_in (bios s) 0x92 in set_bios s (port_out b 0x92 (al |u 2)).

(** The furthest end of a section of the kernel's file at 1 MiB. *)
Fixpoint read_section_header (fuel : nat) (m : mem) (ecx eax edx : Z) : comp Z :=
  match fuel with
  | O => OutOfFuel
  | S fuel =>
      let ebx := load32 m (0x100000 + eax + 0x0c) +u load32 m (0x100000 + eax + 0x14) in
      let edx := if ebx <? edx then edx else ebx in
      let eax := eax +u load16 m (0x100000 + 0x2e) in
      let ecx := ecx -u 1 in
      if ecx =? 0 then Ret edx else read_section_header fuel m ecx eax edx
  end.

(** What the kernel starts with. *)
Record Entry : Type := mkEntry { eip : Z; esp : Z; entered : Loader }.

Definition enter_kernel (s : Loader) (edx initfs_label : Z) : Entry :=
  let esp := edx -u 0xc0000004 in
  let esp := esp -u 4 in
  let m := store32 (ram s) esp initfs_label in
  let esp := esp -u 4 in
  let m := store32 m esp 0 in
  mkEntry (load32 m (0x100000 + 0x18) -u 0xc0000000) esp (set_ram s m).

Definition protected_mode (s : Loader) (initfs_label : Z) : comp Entry :=
  let s := disable_cursor s in
  let s := print_string_32 s msg_set_up in
  let m := ram s in
  edx ← read_section_header (Z.to_nat 65536) m (load16 m (0x100000 + 0x30)) (load32 m (0x100000 + 0x20)) 0;
  Ret (enter_kernel s edx initfs_label).

(** [initfs_label] is the address of the two words for the kernel, [initfs_start] and
    [initfs_size]. *)
Definition start (s : Loader) (dl initfs_label : Z) : comp (option Entry) :=
  let s := print_string_16 s msg_start in
  let s := enable_a20 s in
  let s := init_fat s dl in
  s ← copy_sector_at_lba s (sector_of_root_dir s) 0x7e00;
  '(s, copied) ← directory_entry_search 2048 s 0x7e00 0x100000 msg_kernel_found msg_kernel_not_found filename_kernel;
  match copied with
  | None => Ret None
  | Some edx =>
      let edx := edx +u 0x1000 in
      let edx := edx &u 0xfffff000 in
      let edx := edx +u 0x100000 in
      let s := set_ram s (store32 (ram s) initfs_label edx) in
      '(s, copied) ← directory_entry_search 2048 s 0x7e00 edx msg_initfs_found msg_initfs_not_found filename_initfs;
      match copied with
      | None => Ret None
      | Some edx =>
          let s := set_ram s (store32 (ram s) (initfs_label + 4) edx) in
          s ← map_memory s;
          e ← protected_mode s initfs_label;
          Ret (Some e)
      end
  end.

(** * Descriptor tables *)

(** [gdt.s], [unreal.s] and [idt.s] *)
Definition descriptor (limit_low base_low base_mid access flags base_high : Z) : list Z :=
  [u8 limit_low; limit_low / 256; u8 base_low; base_low / 256; base_mid; access; flags; base_high].
Definition gdt : list Z := replicate 8 0 ++ descriptor 0xffff 0 0 0x9a 0xcf 0 ++ descriptor 0xffff 0 0 0x92 0xcf 0.
Definition gdt_limit : Z := lenZ gdt - 1.
Definition unreal_gdt : list Z := replicate 8 0 ++ descriptor 0xffff 0 0 0x92 0xcf 0.
Definition idt_entry (addr : Z) : list Z := [u8 addr; u8 (addr / 256); 0x8; 0; 0; 0x8e; 0; 0].
Definition idt (addr : Z) : list Z := concat (replicate 20 (idt_entry addr)).

Definition msg_system_fault : list Z := ascii_bytes "System Fault! ".
Definition int_fault (s : Loader) : Loader := print_string_32 s msg_system_fault.
End loader.
Arguments Loader B : clear implicits.
Arguments Entry B : clear implicits.
