(* ===== verification/LoaderSpec.v ===== *)
(** What the boot loader does: files are copied from disk to their place above the first
    megabyte, the memory map is stored where the kernel looks for it, and the kernel is entered
    with its stack, argument and files in place.  The BIOS is any one that keeps the laws
    [DiskBios]; [Machine] is one. *)

From S2P Require Import Prelude Memory FrameBitmap Physical Descriptors Boot Loader.

(** * Memory that changes in some places only *)

Definition only_in (R : Z -> Prop) (m m' : mem) : Prop := forall x, ~ R x -> m' !! x = m !! x.
Definition span (a n : Z) : Z -> Prop := fun x => a <= x < a + n.
Definition either (R Q : Z -> Prop) : Z -> Prop := fun x => R x \/ Q x.

Lemma only_in_refl R m : only_in R m m.
Proof. done. Qed.
Lemma only_in_trans R m1 m2 m3 : only_in R m1 m2 -> only_in R m2 m3 -> only_in R m1 m3.
Proof. intros H1 H2 x Hx. by rewrite H2, H1. Qed.
Lemma only_in_mono (R Q : Z -> Prop) m m' : (forall x, R x -> Q x) -> only_in R m m' -> only_in Q m m'.
Proof. intros HR H x Hx. apply H. auto. Qed.

Lemma load8_only R m m' a : only_in R m m' -> is_u32 a -> ~ R a -> load8 m' a = load8 m a.
Proof. intros H Ha Hr. apply load8_ext. rewrite u32_small by done. by apply H. Qed.
Lemma load16_only R m m' a : only_in R m m' -> 0 <= a < 4294967295 -> ~ R a -> ~ R (a + 1) -> load16 m' a = load16 m a.
Proof. intros H Ha H1 H2. unfold load16. by rewrite !(load8_only R m m') by (done || mach_unfold; lia). Qed.
Lemma load32_only R m m' a : only_in R m m' -> in_space a 4 -> (forall i, 0 <= i < 4 -> ~ R (a + i)) -> load32 m' a = load32 m a.
Proof. intros H Ha Hr. apply load32_ext; [done|]. intros x Hx. apply H. replace x with (a + (x - a)) by lia. apply Hr. lia. Qed.

Lemma only_in_bytes m a l : in_space a (lenZ l) -> only_in (span a (lenZ l)) m (store_bytes m a l).
Proof. intros Hs x Hx. by apply store_bytes_lookup_ne. Qed.
Lemma only_in_store32 m a v : in_space a 4 -> only_in (span a 4) m (store32 m a v).
Proof. intros Hs x Hx. by apply store32_lookup_ne. Qed.
Lemma only_in_store16 m a v : in_space a 2 -> only_in (span a 2) m (store16 m a v).
Proof.
  intros [H1 H2] x Hx. unfold store16, store8, span in *. rewrite !u32_small by (mach_unfold; lia). rewrite !lookup_insert_ne by lia. done.
Qed.

Lemma bytes_at_only R m m' a l : only_in R m m' -> in_space a (lenZ l) -> (forall i, 0 <= i < lenZ l -> ~ R (a + i)) -> bytes_at m a l -> bytes_at m' a l.
Proof.
  intros Ho [Ha Hs] Hr Hb. apply bytes_at_intro. intros i x Hi. pose proof (nthZ_Some _ _ _ Hi).
  rewrite (load8_only R m m') by (done || (apply Hr; lia) || (mach_unfold; lia)). by apply (bytes_at_load _ _ _ _ _ Hb).
Qed.

(** A copy of memory in words of two bytes. *)
Lemma load8_store16 m a v x : is_u32 x -> in_space a 2 ->
  load8 (store16 m a v) x = if decide (x = a) then u8 v else if decide (x = a + 1) then u8 (v / 256) else load8 m x.
Proof.
  intros Hx [H1 H2]. unfold store16. rewrite !load8_store8, !u32_small by (mach_unfold; lia).
  destruct (Z.eqb_spec (a + 1) x), (Z.eqb_spec a x); repeat case_decide; done || lia.
Qed.

Lemma copy_to_highmem_spec n m si ebx edx :
  (0 < Z.of_nat n -> 0x8000 <= si /\ si + 2 * Z.of_nat n <= 0x10000 /\ 0x10000 <= ebx /\ ebx + 2 * Z.of_nat n <= 4294967296) ->
  0 <= edx -> edx + 2 * Z.of_nat n < 4294967296 ->
  exists m', copy_to_highmem_loop n m si ebx edx = (m', edx + 2 * Z.of_nat n) /\ only_in (span ebx (2 * Z.of_nat n)) m m' /\
    forall o, 0 <= o < 2 * Z.of_nat n -> load8 m' (ebx + o) = load8 m (si + o).
Proof.
  revert m si ebx edx. induction n as [|n IH]; intros m si ebx edx Hr He1 He2; cbn [copy_to_highmem_loop].
  - exists m. split; [f_equal; lia|]. split; [done|lia].
  - rewrite Nat2Z.inj_succ in *. destruct (Hr ltac:(lia)) as (R1 & R2 & R3 & R4).
    set (m1 := store16 m ebx (load16 m si)). assert (Ho : only_in (span ebx 2) m m1) by (apply only_in_store16; split; lia).
    destruct (IH m1 (u16 (si + 2)) (ebx +u 2) (edx +u 2)) as (m' & E & Hm' & Hb).
    { intros Hn. rewrite u16_small, !u32_small by (mach_unfold; lia). lia. }
    { mach_unfold. mlia. }
    { rewrite u32_small by (mach_unfold; lia). lia. }
    rewrite (u32_small (edx + 2)) in E |- * by (mach_unfold; lia). exists m'. split; [rewrite E; f_equal; lia|].
    destruct (decide (n = 0%nat)) as [->|Hn].
    + cbn [copy_to_highmem_loop] in E. injection E as <-. split; [exact Ho|]. intros o Hoo. pose proof (load8_range m si). pose proof (load8_range m (si + 1)).
      unfold m1. rewrite load8_store16 by (mach_unfold; unfold in_space; lia). unfold load16. repeat case_decide; try lia.
      * replace (si + o) with si by lia. mlia.
      * replace (si + o) with (si + 1) by lia. mlia.
    + rewrite u16_small, u32_small in Hb by (mach_unfold; lia). rewrite (u32_small (ebx + 2)) in Hm' by (mach_unfold; lia). split.
      * eapply only_in_trans; [eapply only_in_mono; [|exact Ho]|eapply only_in_mono; [|exact Hm']]; unfold span; lia.
      * intros o Hoo. destruct (decide (o < 2)) as [Hlt|Hge].
        -- rewrite (load8_only (span (ebx + 2) (2 * Z.of_nat n)) m1 m') by (done || (mach_unfold; lia) || (unfold span; lia)).
           pose proof (load8_range m si). pose proof (load8_range m (si + 1)).
           unfold m1. rewrite load8_store16 by (mach_unfold; unfold in_space; lia). unfold load16. repeat case_decide; try lia.
           ++ replace (si + o) with si by lia. mlia.
           ++ replace (si + o) with (si + 1) by lia. mlia.
        -- replace (ebx + o) with (ebx + 2 + (o - 2)) by lia. rewrite Hb by lia. replace (si + 2 + (o - 2)) with (si + o) by lia.
           apply (load8_only (span ebx 2)); [done|mach_unfold; lia|unfold span; lia].
Qed.

(** * Entries of the memory map *)

Definition le32 (x : Z) : list Z := [u8 x; u8 (x / 256); u8 (x / 65536); u8 (x / 16777216)].
Definition entry_bytes (e : MapEntry) : list Z :=
  le32 (base e) ++ le32 (base e / 4294967296) ++ le32 (me_length e) ++ le32 (me_length e / 4294967296) ++
  le32 (region_type e) ++ le32 (acpi e).
Definition entry_ok (e : MapEntry) : Prop := is_u64 (base e) /\ is_u64 (me_length e) /\ is_u32 (region_type e) /\ is_u32 (acpi e).

Lemma lenZ_entry_bytes e : lenZ (entry_bytes e) = 24.
Proof. done. Qed.
Lemma entry_bytes_u8 e : Forall is_u8 (entry_bytes e).
Proof. unfold entry_bytes, le32. repeat (apply Forall_cons; split; [mlia|]). apply Forall_nil_2. Qed.

Lemma load32_le32 m a x : bytes_at m a (le32 x) -> load32 m a = u32 x.
Proof.
  intros Hb. unfold load32. pose proof (bytes_at_load m a _ 0 _ Hb eq_refl) as H0. rewrite Z.add_0_r in H0.
  rewrite H0, (bytes_at_load m a _ 1 _ Hb eq_refl), (bytes_at_load m a _ 2 _ Hb eq_refl), (bytes_at_load m a _ 3 _ Hb eq_refl). mlia.
Qed.

(** The kernel reads back the entry the BIOS described. *)
Lemma load_entry_bytes m a e : bytes_at m a (entry_bytes e) -> entry_ok e -> load_entry m a = e.
Proof.
  intros Hb (H1 & H2 & H3 & H4). unfold entry_bytes in Hb. rewrite !bytes_at_app in Hb. change (lenZ (le32 _)) with 4 in Hb.
  destruct Hb as (B1 & B2 & B3 & B4 & B5 & B6). unfold load_entry, load64.
  replace (a + 8) with (a + 4 + 4) by lia. replace (a + 16) with (a + 4 + 4 + 4 + 4) by lia. replace (a + 20) with (a + 4 + 4 + 4 + 4 + 4) by lia.
  rewrite !(load32_le32 _ _ _ B1), !(load32_le32 _ _ _ B2), !(load32_le32 _ _ _ B3), !(load32_le32 _ _ _ B4), (load32_le32 _ _ _ B5), (load32_le32 _ _ _ B6).
  destruct e as [b l t c]. cbn [base me_length region_type acpi] in *. f_equal; mlia.
Qed.

(** * The disk *)

(** What is left of the BIOS's memory map: the entries, whether the last one comes with a
    continuation of 0 or is followed by a call that fails, and the continuation of the next. *)
Record E820 : Type := mkE820 { remaining : list MapEntry; last_by_zero : bool; continuation : Z }.

(** A BIOS for a drive with this geometry and these sectors; [n] is how many attempts in a row
    may still fail.  A successful read delivers the sector, and a call for the memory map
    fills the 24 bytes of the next entry. *)
Class DiskBios (B : Type) `{Bios B} : Type := {
  Disk : Z -> Z -> (Z -> list Z) -> E820 -> nat -> B -> Prop;
  disk_read : forall heads spt d em n b track sector head drive b' bytes carry,
    Disk heads spt d em n b -> 0 <= track < 256 -> 1 <= sector <= spt -> 0 <= head < heads ->
    int13 b track sector head drive = (b', bytes, carry) ->
    (carry = false /\ bytes = d ((track * heads + head) * spt + sector - 1) /\ Disk heads spt d em 2 b') \/
    (carry = true /\ lenZ bytes <= 512 /\ exists n', n = S n' /\ Disk heads spt d em n' b');
  disk_map : forall heads spt d em n b b' bytes carry eax ebx',
    Disk heads spt d em n b -> int15 b (continuation em) = (b', bytes, carry, eax, ebx') ->
    match remaining em with
    | [] => carry = true /\ bytes = [] /\ exists em', Disk heads spt d em' n b'
    | e :: es =>
        carry = false /\ eax = SMAP /\ bytes = entry_bytes e /\
        if last_by_zero em && bool_decide (es = []) then ebx' = 0 /\ exists em', Disk heads spt d em' n b'
        else ebx' <> 0 /\ Disk heads spt d (mkE820 es (last_by_zero em) ebx') n b'
    end;
  disk_text : forall heads spt d em n b c, Disk heads spt d em n b -> Disk heads spt d em n (int10 b c);
  disk_in : forall heads spt d em n b p b' x, Disk heads spt d em n b -> port_in b p = (b', x) -> Disk heads spt d em n b';
  disk_out : forall heads spt d em n b p x, Disk heads spt d em n b -> Disk heads spt d em n (port_out b p x)
}.

Definition is_sector (l : list Z) : Prop := lenZ l = 512 /\ Forall is_u8 l.

Section disk.
Context {B : Type} {BI : Bios B} {DB : DiskBios B} (heads spt : Z) (d : Z -> list Z) (em : E820).
Context (Hheads : 0 < heads < 256) (Hspt : 0 < spt < 256) (Hd : forall i, is_sector (d i)).

(** The parameters of the drive in the boot sector. *)
Definition geometry (m : mem) : Prop := load16 m SECTORS_PER_TRACK = spt /\ load16 m DISK_HEAD_COUNT = heads.

Definition vars (s : Loader B) : Z * Z * Z * Z * Z :=
  (disk_no s, sector_of_root_dir s, sector_of_root_cluster s, sectors_per_cluster s, print_cursor_col s).

(** From [s] on, only the memory in [R] has changed, and the drive works. *)
Record reads (R : Z -> Prop) (s s' : Loader B) : Prop := {
  rd_disk : Disk heads spt d em 2 (bios s');
  rd_ram : only_in R (ram s) (ram s');
  rd_vars : vars s' = vars s
}.

Lemma reads_trans R s1 s2 s3 : reads R s1 s2 -> reads R s2 s3 -> reads R s1 s3.
Proof. intros [_ A2 A3] [B1 B2 B3]. split; [done|by eapply only_in_trans|congruence]. Qed.
Lemma reads_mono (R Q : Z -> Prop) s s' : (forall x, R x -> Q x) -> reads R s s' -> reads Q s s'.
Proof. intros HR [A1 A2 A3]. split; [done|by eapply only_in_mono|done]. Qed.

Lemma geometry_reads R s s' : (forall x, R x -> ~ (0x7c00 <= x < 0x7e00)) -> reads R s s' -> geometry (ram s) -> geometry (ram s').
Proof.
  intros HR Hr [G1 G2]. split; [rewrite <- G1|rewrite <- G2]; unfold SECTORS_PER_TRACK, DISK_HEAD_COUNT; apply (load16_only R); try apply Hr; try lia;
    intros Hx; apply HR in Hx; lia.
Qed.

(** A sector in memory. *)
Lemma sector_stored m bx i : in_space bx 512 -> bytes_at (store_bytes m bx (d i)) bx (d i) /\ only_in (span bx 512) m (store_bytes m bx (d i)).
Proof.
  intros Hs. destruct (Hd i) as [Hl Hu]. rewrite <- Hl in Hs |- *. split; [|by apply only_in_bytes].
  apply bytes_at_intro. intros k x Hk. rewrite (load8_store_bytes_in _ _ _ k x) by done. apply u8_small. by apply (nthZ_Forall _ _ k x Hu).
Qed.

Lemma try_sector_read_spec n s track sector head bx :
  Disk heads spt d em n (bios s) -> 0 <= track < 256 -> 1 <= sector <= spt -> 0 <= head < heads -> in_space bx 512 ->
  let s' := try_sector_read (S n) s track sector head bx in
  reads (span bx 512) s s' /\ bytes_at (ram s') bx (d ((track * heads + head) * spt + sector - 1)).
Proof.
  intros Hb Ht Hs Hh Hsp. revert s Hb. induction n as [|n IH]; intros s Hb; cbv zeta; cbn [try_sector_read];
    destruct (int13 (bios s) track sector head (disk_no s)) as [[b bytes] carry] eqn:E;
    destruct (disk_read _ _ _ _ _ _ _ _ _ _ _ _ _ Hb Ht Hs Hh E) as [(-> & -> & Hb')|(-> & Hl & n' & En & Hb')]; try discriminate.
  1,2: destruct (sector_stored (ram s) bx ((track * heads + head) * spt + sector - 1) Hsp) as [H1 H2]; by split.
  injection En as <-. set (s1 := set_ram _ _) in *. destruct (IH s1 Hb') as [[R1 R2 R3] Hby]. cbn [try_sector_read] in *. split; [|done]. split; [done| |done].
  eapply only_in_trans; [|exact R2]. cbn [ram set_ram s1]. eapply only_in_mono; [|apply only_in_bytes].
  - unfold span. lia.
  - unfold in_space in *. lia.
Qed.

Lemma copy_sector_spec s ax bx :
  Disk heads spt d em 2 (bios s) -> geometry (ram s) -> 0 <= ax < 256 * heads * spt -> in_space bx 512 ->
  exists s', copy_sector_at_lba s ax bx = Ret s' /\ reads (span bx 512) s s' /\ bytes_at (ram s') bx (d ax).
Proof.
  intros Hb [G1 G2] Hax Hsp. unfold copy_sector_at_lba. rewrite G1, G2. destruct (Z.eqb_spec spt 0); [lia|]. destruct (Z.eqb_spec heads 0); [lia|].
  eexists. split; [reflexivity|].
  pose proof (Z.mod_pos_bound ax spt ltac:(lia)). pose proof (Z.div_mod ax spt ltac:(lia)). assert (0 <= ax / spt < 256 * heads) by nia.
  set (q := ax / spt) in *. pose proof (Z.mod_pos_bound q heads ltac:(lia)). pose proof (Z.div_mod q heads ltac:(lia)). assert (0 <= q / heads < 256) by nia.
  rewrite !(u8_small (_ mod _)), !u8_small by (mach_unfold; lia).
  destruct (try_sector_read_spec 2 s (q / heads) (ax mod spt + 1) (q mod heads) bx) as [K1 K2]; try done; [lia..|].
  split; [exact K1|]. replace ax with ((q / heads * heads + q mod heads) * spt + (ax mod spt + 1) - 1) at 2 by lia. exact K2.
Qed.

Lemma copy_file_sector_spec fuel s ax j cx :
  Disk heads spt d em 2 (bios s) -> geometry (ram s) -> 0 <= j < 64 -> 64 - j <= Z.of_nat fuel -> 1 <= cx -> 0 <= ax -> ax + cx < 65536 -> ax + cx <= 256 * heads * spt ->
  let k := Z.min cx (64 - j) in
  exists s', copy_file_sector fuel s ax (0x8000 + 512 * j) cx = Ret (s', ax + k, cx - k) /\ reads (span (0x8000 + 512 * j) (512 * k)) s s' /\
    forall i, 0 <= i < k -> bytes_at (ram s') (0x8000 + 512 * (j + i)) (d (ax + i)).
Proof.
  revert s ax j cx. induction fuel as [|fuel IH]; intros s ax j cx Hb Hg Hj Hf Hcx Hax Hw Hs; [lia|]. cbv zeta. cbn [copy_file_sector].
  destruct (copy_sector_spec s ax (0x8000 + 512 * j) Hb Hg ltac:(lia) ltac:(unfold in_space; lia)) as (s1 & -> & R1 & B1). cbn [mbind comp_bind].
  rewrite !(u16_small (ax + 1)) by (mach_unfold; lia). rewrite !(u16_small (cx - 1)) by (mach_unfold; lia).
  assert (Hone : forall k, k = 1 -> reads (span (0x8000 + 512 * j) (512 * k)) s s1 /\ forall i, 0 <= i < k -> bytes_at (ram s1) (0x8000 + 512 * (j + i)) (d (ax + i))).
  { intros k ->. split; [done|]. intros i Hi. by replace i with 0 by lia; rewrite !Z.add_0_r. }
  unfold jge16, i16. destruct (Z.ltb_spec 0xfe00 32768); [lia|]. destruct (Z.ltb_spec (0x8000 + 512 * j) 32768); [lia|].
  destruct (Z.leb_spec (0xfe00 - 65536) (0x8000 + 512 * j - 65536)).
  - exists s1. replace (Z.min cx (64 - j)) with 1 by lia. split; [done|]. by apply Hone.
  - rewrite (u16_small (0x8000 + 512 * j + 0x200)) by (mach_unfold; lia). destruct (Z.eqb_spec (cx - 1) 0) as [E|E].
    + exists s1. replace (Z.min cx (64 - j)) with 1 by lia. replace (cx - 1) with 0 by lia. split; [done|]. by apply Hone.
    + replace (0x8000 + 512 * j + 0x200) with (0x8000 + 512 * (j + 1)) by lia.
      destruct (IH s1 (ax + 1) (j + 1) (cx - 1)) as (s2 & E2 & R2 & B2); try lia; [apply R1|eapply geometry_reads; [|exact R1|done]; unfold span; lia|].
      cbv zeta in *. set (k := Z.min (cx - 1) (64 - (j + 1))) in *. assert (Hk : Z.min cx (64 - j) = k + 1) by lia. assert (1 <= k <= 63) by lia.
      exists s2. rewrite E2, Hk. split; [replace (ax + 1 + k) with (ax + (k + 1)) by lia; replace (cx - 1 - k) with (cx - (k + 1)) by lia; done|]. split.
      * eapply reads_trans; [eapply reads_mono; [|exact R1]|eapply reads_mono; [|exact R2]]; unfold span; lia.
      * intros i Hi. destruct (decide (i = 0)) as [->|Hn].
        -- rewrite !Z.add_0_r. eapply bytes_at_only; [apply R2| | |exact B1]; destruct (Hd ax) as [-> _]; [unfold in_space; lia|unfold span; lia].
        -- replace (j + i) with (j + 1 + (i - 1)) by lia. replace (ax + i) with (ax + 1 + (i - 1)) by lia. apply B2. lia.
Qed.

(** The bytes of the sectors from [lba] on. *)
Definition holds (m : mem) (a lba n : Z) : Prop := forall i, 0 <= i < n -> bytes_at m (a + 512 * i) (d (lba + i)).

Lemma holds_only R m m' a lba n : only_in R m m' -> in_space a (512 * n) -> (forall x, a <= x < a + 512 * n -> ~ R x) -> holds m a lba n -> holds m' a lba n.
Proof.
  intros Ho [Ha Hs] Hr Hh i Hi. eapply bytes_at_only; [exact Ho| | |by apply Hh]; destruct (Hd (lba + i)) as [-> _]; [unfold in_space; lia|].
  intros o Hoo. apply Hr. lia.
Qed.

Lemma copy_file_spec fuel s ax cx edx dest :
  Disk heads spt d em 2 (bios s) -> geometry (ram s) -> 1 <= cx <= 64 * Z.of_nat fuel -> 0 <= ax -> ax + cx < 65536 -> ax + cx <= 256 * heads * spt ->
  0x10000 <= dest -> 0 <= edx -> dest + edx + 512 * cx <= 4294967296 ->
  exists s', copy_file fuel s ax cx edx dest = Ret (s', edx + 512 * cx) /\
    reads (either (span 0x8000 0x8000) (span (dest + edx) (512 * cx))) s s' /\ holds (ram s') (dest + edx) ax cx.
Proof.
  revert s ax cx edx. induction fuel as [|fuel IH]; intros s ax cx edx Hb Hg Hcx Hax Hw Hs Hde He Hsp; [lia|]. cbn [copy_file].
  pose proof (copy_file_sector_spec 64 s ax 0 cx) as Hsec. change (0x8000 + 512 * 0) with 0x8000 in Hsec.
  destruct Hsec as (s1 & -> & R1 & B1); try done; [lia..|]. cbn [mbind comp_bind].
  set (k := Z.min cx (64 - 0)) in *. assert (Hk : 1 <= k <= 64 /\ k <= cx) by lia.
  replace (u16 (cx - (cx - k))) with k by mlia. replace (u16 (Z.shiftl k 8)) with (256 * k) by (rewrite Z.shiftl_mul_pow2 by lia; mlia).
  unfold loop_count. destruct (Z.eqb_spec (256 * k) 0); [lia|]. rewrite (u32_small (dest + edx)) by (mach_unfold; lia).
  destruct (copy_to_highmem_spec (Z.to_nat (256 * k)) (ram s1) 0x8000 (dest + edx) edx) as (m2 & -> & O2 & B2); [lia..|].
  rewrite Z2Nat.id in * by lia. replace (edx + 2 * (256 * k)) with (edx + 512 * k) by lia. set (s2 := set_ram s1 m2).
  set (R := either (span 0x8000 0x8000) (span (dest + edx) (512 * cx))).
  assert (R2 : reads R s s2).
  { split; [apply R1| |apply R1]. eapply only_in_trans; [eapply only_in_mono; [|apply R1]|eapply only_in_mono; [|exact O2]]; unfold R, either, span; lia. }
  assert (H2 : holds m2 (dest + edx) ax k).
  { intros i Hi. apply bytes_at_intro. intros o x Ho. pose proof (nthZ_Some _ _ _ Ho) as Hr. destruct (Hd (ax + i)) as [Hl _]. rewrite Hl in Hr.
    rewrite <- Z.add_assoc, B2 by lia. pose proof (bytes_at_load _ _ _ _ _ (B1 i ltac:(lia)) Ho) as Hx. by replace (0x8000 + (512 * i + o)) with (0x8000 + 512 * (0 + i) + o) by lia. }
  destruct (Z.eqb_spec (cx - k) 0) as [E|E].
  - assert (Ek : k = cx) by lia. rewrite Ek in *. exists s2. done.
  - destruct (IH s2 (ax + k) (cx - k) (edx + 512 * k)) as (s3 & E3 & R3 & B3); try lia; [apply R2|eapply geometry_reads; [|exact R2|done]; unfold R, either, span; lia|].
    assert (R3' : reads R s2 s3) by (eapply reads_mono; [|exact R3]; unfold R, either, span; lia).
    exists s3. rewrite E3. split; [do 2 f_equal; lia|]. split; [by eapply reads_trans|]. intros i Hi. destruct (decide (i < k)) as [Hlt|Hge].
    + eapply (holds_only _ m2 (ram s3) (dest + edx) ax k); [apply R3|unfold in_space; lia|unfold either, span; lia|exact H2|lia].
    + replace (dest + edx + 512 * i) with (dest + (edx + 512 * k) + 512 * (i - k)) by lia. replace (ax + i) with (ax + k + (i - k)) by lia. apply B3. lia.
Qed.

Lemma print_16_spec s l : Disk heads spt d em 2 (bios s) -> reads (fun _ => False) s (print_string_16 s l).
Proof.
  intros Hb. split; [|done|done]. cbn [bios set_bios print_string_16]. revert Hb. generalize (bios s). induction l as [|c l IH]; intros b Hb; [done|].
  cbn [foldl]. apply IH. by apply disk_text.
Qed.

(** The middle bytes of the size count half sectors. *)
Lemma sector_count_size m a : 0 <= a -> a + 4 <= 65536 -> load32 m a < 16777216 -> sector_count m (a + 1) = load32 m a / 512 + 1.
Proof.
  intros Ha Hs Hz. unfold sector_count, load16, load32 in *. replace (a + 1 + 1) with (a + 2) by lia.
  pose proof (load8_range m a). pose proof (load8_range m (a + 1)). pose proof (load8_range m (a + 2)). pose proof (load8_range m (a + 3)).
  rewrite shr_div by lia. change (2 ^ 1) with 2. mlia.
Qed.

(** The directory at 0x7e00 names a file: its entry [i] and the [n] sectors from [lba] on. *)
Record located (m : mem) (root_cluster per_cluster : Z) (name : list Z) (i lba n : Z) : Prop := {
  lc_index : 0 <= i < 16;
  lc_before : forall j, 0 <= j < i -> load8 m (0x7e00 + 32 * j) <> 0 /\ check_filename m (0x7e00 + 32 * j) name = false;
  lc_here : load8 m (0x7e00 + 32 * i) <> 0 /\ check_filename m (0x7e00 + 32 * i) name = true;
  lc_size : load32 m (0x7e00 + 32 * i + 0x1c) < 16777216 /\ n = load32 m (0x7e00 + 32 * i + 0x1c) / 512 + 1;
  lc_start : 2 <= load16 m (0x7e00 + 32 * i + 0x1a) /\ lba = root_cluster + (load16 m (0x7e00 + 32 * i + 0x1a) - 2) * per_cluster;
  lc_disk : 0 <= root_cluster /\ 0 <= per_cluster /\ lba + n < 65536 /\ lba + n <= 256 * heads * spt
}.

Lemma file_found_spec s name i lba n dest found :
  Disk heads spt d em 2 (bios s) -> geometry (ram s) -> located (ram s) (sector_of_root_cluster s) (sectors_per_cluster s) name i lba n ->
  0x10000 <= dest -> dest + 512 * n <= 4294967296 ->
  exists s', file_found s (0x7e00 + 32 * i) dest found = Ret (s', 512 * n) /\
    reads (either (span 0x8000 0x8000) (span dest (512 * n))) s s' /\ holds (ram s') dest lba n.
Proof.
  intros Hb Hg [Li _ _ [Lz Ln] [Ls Ll] (Ld1 & Ld2 & Ld3 & Ld4)] Hd1 Hd2. unfold file_found. pose proof (print_16_spec s found Hb) as R0.
  set (s0 := print_string_16 s found) in *. change (ram s0) with (ram s). change (sectors_per_cluster s0) with (sectors_per_cluster s).
  change (sector_of_root_cluster s0) with (sector_of_root_cluster s). set (a := 0x7e00 + 32 * i) in *.
  rewrite !(u16_small (a + _)) by (mach_unfold; lia). replace (a + 0x1d) with (a + 0x1c + 1) by lia. rewrite sector_count_size by lia. rewrite <- Ln.
  pose proof (load32_range (ram s) (a + 0x1c)). assert (Hn : 1 <= n <= 32768) by mlia. assert (Hs : load16 (ram s) (a + 0x1a) < 65536).
  { unfold load16. pose proof (load8_range (ram s) (a + 0x1a)). pose proof (load8_range (ram s) (a + 0x1a + 1)). mach_unfold. lia. }
  rewrite !(u16_small (load16 _ _ - 2)), !(u16_small (_ * _)), u16_small by (mach_unfold; nia).
  replace ((load16 (ram s) (a + 26) - 2) * sectors_per_cluster s + sector_of_root_cluster s) with lba by lia.
  destruct (copy_file_spec 1024 s0 lba n 0 dest) as (s' & E & R & Hh); try done; try lia; [apply R0|nia|].
  exists s'. rewrite Z.add_0_r in *. split; [exact E|]. split; [|exact Hh]. eapply reads_trans; [eapply reads_mono; [|exact R0]; done|exact R].
Qed.

Lemma search_spec fuel s name i lba n dest found not_found :
  Disk heads spt d em 2 (bios s) -> geometry (ram s) -> located (ram s) (sector_of_root_cluster s) (sectors_per_cluster s) name i lba n ->
  0x10000 <= dest -> dest + 512 * n <= 4294967296 -> i < Z.of_nat fuel ->
  exists s', directory_entry_search fuel s 0x7e00 dest found not_found name = Ret (s', Some (512 * n)) /\
    reads (either (span 0x8000 0x8000) (span dest (512 * n))) s s' /\ holds (ram s') dest lba n.
Proof.
  intros Hb Hg Hl Hd1 Hd2 Hf. pose proof (lc_index _ _ _ _ _ _ _ Hl) as Hi.
  assert (Hgo : forall fuel k, 0 <= k <= i -> i - k < Z.of_nat fuel -> exists s', directory_entry_search fuel s (0x7e00 + 32 * k) dest found not_found name = Ret (s', Some (512 * n)) /\
    reads (either (span 0x8000 0x8000) (span dest (512 * n))) s s' /\ holds (ram s') dest lba n).
  { clear fuel Hf. induction fuel as [|fuel IH]; intros k Hk Hf; [lia|]. cbn [directory_entry_search]. destruct (decide (k = i)) as [->|Hne].
    - destruct (lc_here _ _ _ _ _ _ _ Hl) as [H1 ->]. destruct (Z.eqb_spec (load8 (ram s) (0x7e00 + 32 * i)) 0); [done|].
      destruct (file_found_spec s name i lba n dest found Hb Hg Hl Hd1 Hd2) as (s' & -> & R & Hh). by exists s'.
    - destruct (lc_before _ _ _ _ _ _ _ Hl k ltac:(lia)) as [H1 ->]. destruct (Z.eqb_spec (load8 (ram s) (0x7e00 + 32 * k)) 0); [done|].
      rewrite u16_small by (mach_unfold; lia). replace (0x7e00 + 32 * k + 32) with (0x7e00 + 32 * (k + 1)) by lia. apply IH; lia. }
  exact (Hgo fuel 0 ltac:(lia) ltac:(lia)).
Qed.
End disk.

(** * The memory map *)

(** The entries counted: not the one that comes with a continuation of 0. *)
Definition counted (em : E820) : list MapEntry := if last_by_zero em then removelast (remaining em) else remaining em.

Section map.
Context {B : Type} {BI : Bios B} {DB : DiskBios B} (heads spt : Z) (d : Z -> list Z).

Lemma counted_cons e es z c c' : ~ (z = true /\ es = []) -> counted (mkE820 (e :: es) z c) = e :: counted (mkE820 es z c').
Proof. intros Hn. unfold counted. cbn [last_by_zero remaining]. destruct z; [|done]. destruct es; [exfalso; auto|done]. Qed.

Lemma entry_stored m a e : in_space a 24 -> bytes_at (store_bytes m a (entry_bytes e)) a (entry_bytes e) /\ only_in (span a 24) m (store_bytes m a (entry_bytes e)).
Proof.
  intros Hs. split; [|by apply (only_in_bytes m a (entry_bytes e))].
  apply bytes_at_intro. intros k x Hk. rewrite (load8_store_bytes_in _ _ _ k x) by done. apply u8_small. by apply (nthZ_Forall _ _ k x (entry_bytes_u8 e)).
Qed.

(** What a run of the loop from entry [j] on leaves. *)
Definition mapped (s s' : Loader B) (j : Z) (es : list MapEntry) : Prop :=
  only_in (span (0x1004 + 24 * j) (24 * (170 - j))) (ram s) (ram s') /\ vars s' = vars s /\ (exists em', Disk heads spt d em' 2 (bios s')) /\
  forall i e, nthZ es i = Some e -> bytes_at (ram s') (0x1004 + 24 * (j + i)) (entry_bytes e).

Lemma map_loop_spec fuel s j em :
  Disk heads spt d em 2 (bios s) -> 0 <= j < 170 -> 170 - j <= Z.of_nat fuel ->
  let es := take (Z.to_nat (170 - j)) (counted em) in
  exists s', map_memory_loop fuel s (0x1004 + 24 * j) j (continuation em) = Ret (s', j + lenZ es) /\ mapped s s' j es.
Proof.
  revert s j em. induction fuel as [|fuel IH]; intros s j em Hb Hj Hf; [lia|]. cbv zeta. cbn [map_memory_loop].
  destruct (int15 (bios s) (continuation em)) as [[[[b bytes] carry] eax] ebx] eqn:E. pose proof (disk_map _ _ _ _ _ _ _ _ _ _ _ Hb E) as Hm.
  destruct em as [[|e es] z c]; cbn [remaining last_by_zero continuation] in *.
  { destruct Hm as (-> & -> & Hb'). replace (take (Z.to_nat (170 - j)) (counted (mkE820 [] z c))) with (@nil MapEntry) by (by destruct z; unfold counted; cbn [last_by_zero remaining removelast]; rewrite take_nil).
    change (lenZ []) with 0. rewrite Z.add_0_r. eexists. split; [reflexivity|]. split; [done|]. split; [done|]. split; [exact Hb'|]. intros i x. by rewrite nthZ_nil. }
  destruct Hm as (-> & -> & -> & Hm). set (s1 := set_ram (set_bios s b) _). destruct (entry_stored (ram s) (0x1004 + 24 * j) e) as [B1 O1]; [unfold in_space; lia|].
  destruct (z && bool_decide (es = [])) eqn:Ez.
  - apply andb_true_iff in Ez as [-> Hes%bool_decide_eq_true]. subst es. destruct Hm as [-> Hb']. exists s1.
    replace (take (Z.to_nat (170 - j)) (counted (mkE820 [e] true c))) with (@nil MapEntry) by (unfold counted; cbn [last_by_zero remaining removelast]; by rewrite take_nil).
    change (lenZ []) with 0. rewrite Z.add_0_r. split; [reflexivity|]. split; [|split; [done|split; [exact Hb'|intros i x; by rewrite nthZ_nil]]]. eapply only_in_mono; [|exact O1]. unfold span. lia.
  - destruct Hm as [Hne Hb']. destruct (Z.eqb_spec ebx 0); [done|]. cbn [negb]. rewrite Z.eqb_refl. cbn [negb].
    rewrite (counted_cons e es z c ebx) by (intros [-> ->]; done). replace (Z.to_nat (170 - j)) with (S (Z.to_nat (170 - (j + 1)))) by lia. cbn [take].
    rewrite u16_small, u32_small by (mach_unfold; lia). rewrite lenZ_cons. destruct (Z.ltb_spec (j + 1) 170).
    + replace (0x1004 + 24 * j + 24) with (0x1004 + 24 * (j + 1)) by lia.
      destruct (IH s1 (j + 1) (mkE820 es z ebx) Hb' ltac:(lia) ltac:(lia)) as (s2 & E2 & O2 & V2 & D2 & L2). cbn [continuation] in E2.
      exists s2. split; [rewrite E2; do 2 f_equal; lia|]. split; [|split; [done|split; [done|]]].
      { eapply only_in_trans; [eapply only_in_mono; [|exact O1]|eapply only_in_mono; [|exact O2]]; unfold span; lia. }
      intros i x Hi. destruct (decide (i = 0)) as [->|Hi0].
      * injection Hi as <-. rewrite Z.add_0_r. eapply bytes_at_only; [exact O2| | |exact B1]; rewrite lenZ_entry_bytes; [unfold in_space; lia|unfold span; lia].
      * pose proof (nthZ_Some _ _ _ Hi). rewrite nthZ_cons in Hi by lia. replace (j + i) with (j + 1 + (i - 1)) by lia. by apply L2.
    + replace (Z.to_nat (170 - (j + 1))) with 0%nat by lia. rewrite take_0. exists s1. split; [done|]. split; [|split; [done|split; [by eexists|]]].
      { eapply only_in_mono; [|exact O1]. unfold span. lia. }
      intros i x Hi. pose proof (nthZ_Some _ _ _ Hi) as Hr. change (lenZ [e]) with 1 in Hr. replace i with 0 in * by lia. injection Hi as <-. by rewrite Z.add_0_r.
Qed.

Lemma counted_Forall P em k : Forall P (remaining em) -> Forall P (take k (counted em)).
Proof. intros Hf. apply Forall_take. unfold counted. destruct (last_by_zero em); [rewrite removelast_firstn_len; by apply Forall_take|done]. Qed.

Lemma map_memory_spec s em : Disk heads spt d em 2 (bios s) -> continuation em = 0 -> Forall entry_ok (remaining em) ->
  exists s', map_memory s = Ret s' /\ vars s' = vars s /\ only_in (span 0x1000 4084) (ram s) (ram s') /\ (exists em', Disk heads spt d em' 2 (bios s')) /\
    memory_map (ram s') = take 170 (counted em) /\ load32 (ram s') 0x1000 <= 170.
Proof.
  intros Hb Hc Hok. unfold map_memory. pose proof (map_loop_spec 170 s 0 em Hb ltac:(lia) ltac:(lia)) as (s1 & E & O & V & D & L).
  change (0x1004 + 24 * 0) with 0x1004 in *. change (24 * (170 - 0)) with 4080 in O. change (Z.to_nat (170 - 0)) with 170%nat in *. pose proof (counted_Forall entry_ok em 170 Hok) as Hes.
  rewrite Hc in E. set (es := take _ (counted em)) in *. rewrite E. cbn [mbind comp_bind].
  assert (Hlen : 0 <= lenZ es <= 170). { split; [apply lenZ_nonneg|]. unfold es, lenZ. rewrite length_take. lia. }
  rewrite Z.add_0_l in *. set (m := store32 (ram s1) 0x1000 (lenZ es)). assert (O' : only_in (span 0x1000 4) (ram s1) m) by (apply only_in_store32; unfold in_space; lia).
  assert (Hn : load32 m 0x1000 = lenZ es) by (apply load32_store32_eq; mach_unfold; lia).
  eexists. split; [reflexivity|]. split; [done|]. split; [|split; [done|]].
  { eapply only_in_trans; [eapply only_in_mono; [|exact O]|eapply only_in_mono; [|exact O']]; unfold span; lia. }
  change (ram (set_ram s1 m)) with m. split; [|lia]. unfold memory_map, load_entries_at_address. rewrite Hn. apply fmap_seqZ_nthZ. intros i e Hi.
  pose proof (nthZ_Some _ _ _ Hi). apply load_entry_bytes; [|by apply (nthZ_Forall _ _ i e Hes)]. change (0x1000 + 4) with 0x1004.
  eapply bytes_at_only; [exact O'| | |by apply L]; rewrite lenZ_entry_bytes; [unfold in_space; lia|unfold span; lia].
Qed.

(** C38: a BIOS that marks the last entry of its memory map with a continuation of 0 has that entry
    lost: the kernel sees all entries but the last. *)
Theorem last_map_entry_lost s es e :
  Disk heads spt d (mkE820 (es ++ [e]) true 0) 2 (bios s) -> Forall entry_ok (es ++ [e]) -> (length es <= 170)%nat ->
  exists s', map_memory s = Ret s' /\ memory_map (ram s') = es /\ load32 (ram s') 0x1000 = lenZ es.
Proof.
  intros Hb Hok Hl. destruct (map_memory_spec s _ Hb eq_refl Hok) as (s' & E & _ & _ & _ & M & _). exists s'. split; [exact E|].
  unfold counted in M. cbn [last_by_zero remaining] in M. rewrite removelast_last, take_ge in M by done. split; [exact M|].
  assert (lenZ (memory_map (ram s')) = lenZ es) as <- by (by rewrite M). unfold memory_map, load_entries_at_address, lenZ. rewrite length_fmap, length_seqZ.
  pose proof (load32_range (ram s') 0x1000). mach_unfold. lia.
Qed.
End map.

(** * The text screen *)

(** The rows of text. *)
Definition screen : Z -> Prop := span 0xb8000 4000.

Lemma only_in_screen32 m a v : 0xb8000 <= a -> a + 4 <= 0xb8fa0 -> only_in screen m (store32 m a v).
Proof. intros H1 H2. eapply only_in_mono; [|apply only_in_store32]; [unfold screen, span; lia|unfold in_space; lia]. Qed.

Lemma scroll_window_only m : only_in screen m (scroll_window m).
Proof.
  assert (Hmove : forall n m, (n <= 960)%nat -> only_in screen m (move_text_video_bytes n m)).
  { induction n as [|n IH]; intros k Hn; [done|]. cbn [move_text_video_bytes]. eapply only_in_trans; [|apply IH; lia]. apply only_in_screen32; unfold LAST_ROW; lia. }
  assert (Hclear : forall n m, (n <= 40)%nat -> only_in screen m (clear_last_row n m)).
  { induction n as [|n IH]; intros k Hn; [done|]. cbn [clear_last_row]. eapply only_in_trans; [|apply IH; lia]. apply only_in_screen32; unfold LAST_ROW; lia. }
  unfold scroll_window. eapply only_in_trans; [apply (Hmove (40 * 24)%nat); lia|apply Hclear; lia].
Qed.

(** A word copied, byte by byte. *)
Lemma load8_store32 m a v i : in_space a 4 -> 0 <= i < 4 -> load8 (store32 m a v) (a + i) = u8 (v / 256 ^ i).
Proof.
  intros [H1 H2] Hi. unfold store32. assert (i = 0 \/ i = 1 \/ i = 2 \/ i = 3) as [-> |[-> |[-> | ->]]] by lia; rewrite !load8_store8, !u32_small by (mach_unfold; lia);
    repeat match goal with |- context [?x =? ?y] => destruct (Z.eqb_spec x y); try lia end; first [reflexivity|by rewrite Z.pow_0_r, Z.div_1_r].
Qed.
Lemma load32_byte m e i : 0 <= i < 4 -> u8 (load32 m e / 256 ^ i) = load8 m (e + i).
Proof.
  intros Hi. unfold load32. pose proof (load8_range m e). pose proof (load8_range m (e + 1)). pose proof (load8_range m (e + 2)). pose proof (load8_range m (e + 3)).
  assert (i = 0 \/ i = 1 \/ i = 2 \/ i = 3) as [-> |[-> |[-> | ->]]] by lia; rewrite ?Z.add_0_r; cbn [Z.pow Z.pow_pos Pos.iter]; mlia.
Qed.

Lemma move_text_spec n m a : (n <= 960)%nat -> 0xb8000 <= a < LAST_ROW + 160 ->
  load8 (move_text_video_bytes n m) a = if (LAST_ROW - 4 * Z.of_nat n <=? a) && (a <? LAST_ROW) then load8 m (a + 160) else load8 m a.
Proof.
  revert m. induction n as [|n IH]; intros m Hn Ha; cbn [move_text_video_bytes].
  - change (Z.of_nat 0) with 0. destruct (Z.leb_spec (LAST_ROW - 4 * 0) a), (Z.ltb_spec a LAST_ROW); cbn [andb]; try lia; reflexivity.
  - rewrite IH by lia. rewrite Nat2Z.inj_succ. set (e := LAST_ROW + 160 - 4 * Z.succ (Z.of_nat n)). assert (He : 0xb80a0 <= e) by (unfold e, LAST_ROW; lia).
    assert (He2 : e <= 0xb8f9c) by (unfold e, LAST_ROW; lia). assert (Hs : in_space (e - 160) 4) by (unfold in_space; lia).
    pose proof (only_in_store32 m (e - 160) (load32 m e) Hs) as Ho. set (m1 := store32 m (e - 160) (load32 m e)) in *.
    assert (Hb : LAST_ROW - 4 * Z.succ (Z.of_nat n) = e - 160) by (unfold e; lia). rewrite Hb. replace (LAST_ROW - 4 * Z.of_nat n) with (e - 156) by (unfold e; lia).
    assert (Hout : forall x, 0xb8000 <= x < 0xc0000 -> ~ (e - 160 <= x < e - 156) -> load8 m1 x = load8 m x).
    { intros x Hx Hn'. apply (load8_only _ _ _ _ Ho); [mach_unfold; lia|unfold span; lia]. }
    unfold LAST_ROW in *. destruct (Z.ltb_spec a (0xb8000 + 160 * 24)); rewrite ?andb_false_r, ?andb_true_r; [|apply Hout; lia].
    destruct (Z.leb_spec (e - 156) a), (Z.leb_spec (e - 160) a); try lia; [apply Hout; lia| |apply Hout; lia].
    replace a with (e - 160 + (a - (e - 160))) at 1 by lia. unfold m1. rewrite load8_store32, load32_byte by (done || lia). f_equal. lia.
Qed.

Lemma clear_row_spec n m a : (n <= 40)%nat -> 0xb8000 <= a < LAST_ROW + 160 ->
  load8 (clear_last_row n m) a = if (LAST_ROW <=? a) && (a <? LAST_ROW + 4 * Z.of_nat n) then (if Z.even a then 0x20 else 0x0b) else load8 m a.
Proof.
  revert m. induction n as [|n IH]; intros m Hn Ha; cbn [clear_last_row].
  - change (Z.of_nat 0) with 0. destruct (Z.leb_spec LAST_ROW a), (Z.ltb_spec a (LAST_ROW + 4 * 0)); cbn [andb]; try lia; reflexivity.
  - rewrite IH by lia. rewrite Nat2Z.inj_succ. unfold LAST_ROW in *. set (e := Z.succ (Z.of_nat n) * 4 + (0xb8000 + 160 * 24 - 4)). assert (Hs : in_space e 4) by (unfold in_space, e; lia).
    pose proof (only_in_store32 m e 0x0b200b20 Hs) as Ho. replace (0xb8000 + 160 * 24 + 4 * Z.succ (Z.of_nat n)) with (e + 4) by (unfold e; lia).
    replace (0xb8000 + 160 * 24 + 4 * Z.of_nat n) with e by (unfold e; lia). assert (He : 0xb8000 + 160 * 24 <= e) by (unfold e; lia).
    assert (Hev : Z.even e = true) by (unfold e; rewrite Z.even_add, Z.even_mul; cbn [Z.even orb]; by rewrite orb_true_r). clearbody e.
    destruct (Z.leb_spec (0xb8000 + 160 * 24) a); cbn [andb]; [|apply (load8_only _ _ _ _ Ho); [mach_unfold; lia|unfold span; lia]].
    destruct (Z.ltb_spec a e), (Z.ltb_spec a (e + 4)); try lia; try reflexivity; [|apply (load8_only _ _ _ _ Ho); [mach_unfold; lia|unfold span; lia]].
    replace a with (e + (a - e)) by lia. rewrite load8_store32, Z.even_add, Hev by (done || lia).
    assert (a - e = 0 \/ a - e = 1 \/ a - e = 2 \/ a - e = 3) as [-> |[-> |[-> | ->]]] by lia; reflexivity.
Qed.

(** Scrolling moves every row up and leaves the last one blank. *)
Theorem scroll_window_spec m a : 0xb8000 <= a < LAST_ROW + 160 ->
  load8 (scroll_window m) a = if a <? LAST_ROW then load8 m (a + 160) else if Z.even a then 0x20 else 0x0b.
Proof.
  intros Ha. unfold scroll_window. rewrite clear_row_spec, move_text_spec by lia. change (Z.of_nat (40 * 24)) with 960. change (Z.of_nat 40) with 40. unfold LAST_ROW in *.
  destruct (Z.ltb_spec a (0xb8000 + 160 * 24)), (Z.leb_spec (0xb8000 + 160 * 24) a), (Z.ltb_spec a (0xb8000 + 160 * 24 + 4 * 40)), (Z.leb_spec (0xb8000 + 160 * 24 - 4 * 960) a); cbn [andb]; done || lia.
Qed.

(** The cursor stands on a cell of the last row. *)
Definition cursor_ok (col : Z) : Prop := 0 <= col < 160 /\ col mod 2 = 0.

Lemma print_string_32_only {B} (s : Loader B) l : cursor_ok (print_cursor_col s) ->
  let s' := print_string_32 s l in
  only_in screen (ram s) (ram s') /\ cursor_ok (print_cursor_col s') /\ bios s' = bios s.
Proof.
  revert s. induction l as [|c l IH]; intros s Hc; cbv zeta; [done|]. unfold print_string_32. cbn [foldl]. fold (print_string_32 (print_char_32 s c) l).
  assert (only_in screen (ram s) (ram (print_char_32 s c)) /\ cursor_ok (print_cursor_col (print_char_32 s c)) /\ bios (print_char_32 s c) = bios s) as (O & C & <-).
  { destruct Hc as [C1 C2]. unfold print_char_32. set (m := store16 _ _ _).
    assert (O : only_in screen (ram s) m).
    { eapply only_in_mono; [|apply only_in_store16]; [unfold screen, span, LAST_ROW; mlia|unfold in_space, LAST_ROW; mlia]. }
    destruct (Z.ltb_spec (print_cursor_col s + LAST_ROW) (LAST_ROW + 158)); cbn [ram print_cursor_col bios set_cursor].
    - split; [done|]. split; [|done]. unfold cursor_ok. mlia.
    - split; [|done]. eapply only_in_trans; [exact O|apply scroll_window_only]. }
  destruct (IH _ C) as (O' & C' & E'). split; [by eapply only_in_trans|done].
Qed.

(** * Entering the kernel *)

(** The end in memory of section [k] of the kernel's file at 1 MiB. *)
Definition section_end (m : mem) (k : Z) : Z :=
  let header := 0x100000 + u32 (load32 m 0x100020 + k * load16 m 0x10002e) in
  load32 m (header + 0x0c) +u load32 m (header + 0x14).
Definition furthest (m : mem) (e : Z) : Prop :=
  (exists k, 0 <= k < load16 m 0x100030 /\ e = section_end m k) /\ forall k, 0 <= k < load16 m 0x100030 -> section_end m k <= e.

Lemma read_section_spec fuel m k n edx :
  0 <= k -> 1 <= n <= Z.of_nat fuel -> n < 65536 -> 0 <= edx ->
  exists e, read_section_header fuel m n (u32 (load32 m 0x100020 + k * load16 m 0x10002e)) edx = Ret e /\
    edx <= e /\ (e = edx \/ exists i, k <= i < k + n /\ e = section_end m i) /\ forall i, k <= i < k + n -> section_end m i <= e.
Proof.
  revert k n edx. induction fuel as [|fuel IH]; intros k n edx Hk Hn Hw He; [lia|]. cbn [read_section_header].
  change (0x100000 + 0x2e) with 0x10002e. set (off := fun k => u32 (load32 m 0x100020 + k * load16 m 0x10002e)). fold (off k).
  change (load32 m (0x100000 + off k + 0x0c) +u load32 m (0x100000 + off k + 0x14)) with (section_end m k).
  replace (off k +u load16 m 0x10002e) with (off (k + 1)) by (unfold off; mlia). rewrite (u32_small (n - 1)) by (mach_unfold; lia).
  set (edx' := if section_end m k <? edx then edx else section_end m k).
  assert (Hd' : edx <= edx' /\ section_end m k <= edx' /\ (edx' = edx \/ edx' = section_end m k)) by (unfold edx'; destruct (Z.ltb_spec (section_end m k) edx); lia).
  clearbody edx'. destruct (Z.eqb_spec (n - 1) 0).
  - exists edx'. split; [done|]. split; [lia|]. split; [|intros i Hi; replace i with k by lia; lia].
    destruct Hd' as (_ & _ & [->| ->]); [by left|right]. exists k. split; [lia|done].
  - destruct (IH (k + 1) (n - 1) edx') as (e & E & L & X & U); [lia..|]. exists e. split; [exact E|]. split; [lia|]. split.
    + destruct X as [->|(i & Hi & ->)]; [|right; exists i; split; [lia|done]].
      destruct Hd' as (_ & _ & [->| ->]); [by left|right]. exists k. split; [lia|done].
    + intros i Hi. destruct (decide (i = k)) as [->|]; [lia|]. apply U. lia.
Qed.

Lemma sections_read m : 1 <= load16 m 0x100030 ->
  exists e, read_section_header (Z.to_nat 65536) m (load16 m (0x100000 + 0x30)) (load32 m (0x100000 + 0x20)) 0 = Ret e /\ furthest m e.
Proof.
  intros Hn. pose proof (load8_range m 0x100030) as R1. pose proof (load8_range m (0x100030 + 1)) as R2. pose proof (load32_range m 0x100020) as R3.
  assert (load16 m 0x100030 < 65536) by (unfold load16; mach_unfold; lia).
  destruct (read_section_spec (Z.to_nat 65536) m 0 (load16 m 0x100030) 0) as (e & E & L & X & U); [lia..|].
  exists e. rewrite Z.mul_0_l, Z.add_0_r, (u32_small (load32 _ _)) in E by (mach_unfold; lia). split; [exact E|]. rewrite Z.add_0_l in *. split; [|exact U].
  destruct X as [->|X]; [|exact X]. exists 0. split; [lia|]. pose proof (U 0 ltac:(lia)). assert (0 <= section_end m 0) by (unfold section_end; mlia). lia.
Qed.

(** * The whole of the second stage *)

Section boot.
Context {B : Type} {BI : Bios B} {DB : DiskBios B} (heads spt : Z) (d : Z -> list Z).
Context (Hheads : 0 < heads < 256) (Hspt : 0 < spt < 256) (Hd : forall i, is_sector (d i)).

(** The boot sector gives the sectors of the root directory and of the first cluster. *)
Record volume (m : mem) (root_dir root_cluster per_cluster : Z) : Prop := {
  vo_per_cluster : per_cluster = load8 m SECTORS_PER_CLUSTER;
  vo_fats : 1 <= load8 m FAT_TABLE_COUNT;
  vo_root_dir : root_dir = load8 m RESERVED_SECTORS + load8 m FAT_TABLE_COUNT * load8 m SECTORS_PER_FAT /\ root_dir < 256;
  vo_root_cluster : root_cluster = root_dir + load16 m ROOT_DIRECTORY_ENTRIES / 16
}.

Lemma volume_bounds m rd rc pc : volume m rd rc pc -> 0 <= rd < 256 /\ 0 <= rc.
Proof.
  intros [_ _ [-> Hr] ->]. pose proof (load8_range m RESERVED_SECTORS) as R1. pose proof (load8_range m FAT_TABLE_COUNT) as R2. pose proof (load8_range m SECTORS_PER_FAT) as R3.
  unfold load16. pose proof (load8_range m ROOT_DIRECTORY_ENTRIES) as R4. pose proof (load8_range m (ROOT_DIRECTORY_ENTRIES + 1)) as R5. mach_unfold.
  assert (0 <= (load8 m ROOT_DIRECTORY_ENTRIES + 256 * load8 m (ROOT_DIRECTORY_ENTRIES + 1)) / 16) by (apply Z.div_pos; lia). nia.
Qed.

Lemma iter_u8_add n x y : 0 <= x -> 0 <= y -> x + Z.of_nat n * y < 256 -> Nat.iter n (fun bl => u8 (bl + y)) x = x + Z.of_nat n * y.
Proof.
  intros Hx Hy. induction n as [|n IH]; intros Hn; [cbn; lia|]. cbn [Nat.iter nat_rect]. change (nat_rect _ x _ n) with (Nat.iter n (fun bl => u8 (bl + y)) x).
  rewrite IH by nia. rewrite u8_small by (mach_unfold; nia). lia.
Qed.

Lemma init_fat_spec (s : Loader B) dl root_dir root_cluster per_cluster : volume (ram s) root_dir root_cluster per_cluster ->
  ram (init_fat s dl) = ram s /\ bios (init_fat s dl) = bios s /\ vars (init_fat s dl) = (dl, root_dir, root_cluster, per_cluster, print_cursor_col s).
Proof.
  intros [-> Hf [Hr Hr2] ->]. split; [done|]. split; [done|]. unfold init_fat. cbv zeta. unfold vars.
  cbn [disk_no sector_of_root_dir sector_of_root_cluster sectors_per_cluster print_cursor_col].
  pose proof (load8_range (ram s) RESERVED_SECTORS) as R1. pose proof (load8_range (ram s) SECTORS_PER_FAT) as R2. pose proof (load8_range (ram s) FAT_TABLE_COUNT) as R3.
  pose proof (load8_range (ram s) ROOT_DIRECTORY_ENTRIES) as R4. pose proof (load8_range (ram s) (ROOT_DIRECTORY_ENTRIES + 1)) as R5.
  unfold loop_count. destruct (Z.eqb_spec (load8 (ram s) FAT_TABLE_COUNT) 0); [lia|].
  rewrite iter_u8_add by (rewrite ?Z2Nat.id by lia; mach_unfold; lia). rewrite Z2Nat.id, <- Hr by lia. rewrite shr_div by lia.
  unfold load16 in *. rewrite u16_small; [done|]. mlia.
Qed.

(** The directory as its sector has it. *)
Definition names (root_dir root_cluster per_cluster : Z) (name : list Z) (lba n : Z) : Prop :=
  exists i, located heads spt (store_bytes ∅ 0x7e00 (d root_dir)) root_cluster per_cluster name i lba n.

Definition same_directory (m m' : mem) : Prop := forall x, 0x7e00 <= x < 0x8000 -> load8 m' x = load8 m x.

Lemma check_filename_ext m m' bx name : same_directory m m' -> 0x7e00 <= bx -> bx + lenZ name <= 0x8000 -> check_filename m' bx name = check_filename m bx name.
Proof.
  intros Hs. revert bx. induction name as [|c name IH]; intros bx H1 H2; [done|]. pose proof (lenZ_nonneg name). rewrite lenZ_cons in H2. cbn [check_filename].
  rewrite Hs, u16_small, IH by (mach_unfold; lia). done.
Qed.

Lemma located_ext m m' rc pc name i lba n : lenZ name <= 32 -> same_directory m m' -> located heads spt m rc pc name i lba n -> located heads spt m' rc pc name i lba n.
Proof.
  intros Hl Hs [L1 L2 L3 L4 L5 L6].
  assert (E16 : load16 m' (0x7e00 + 32 * i + 0x1a) = load16 m (0x7e00 + 32 * i + 0x1a)) by (unfold load16; rewrite !Hs by lia; done).
  assert (E32 : load32 m' (0x7e00 + 32 * i + 0x1c) = load32 m (0x7e00 + 32 * i + 0x1c)) by (unfold load32; rewrite !Hs by lia; done).
  split; rewrite ?E16, ?E32; [done| |rewrite Hs, (check_filename_ext m m') by (done || lia); done|done..].
  intros j Hj. rewrite Hs, (check_filename_ext m m') by (done || lia). by apply L2.
Qed.

Lemma directory_read m root_dir : bytes_at m 0x7e00 (d root_dir) -> same_directory (store_bytes ∅ 0x7e00 (d root_dir)) m.
Proof.
  intros Hb x Hx. destruct (Hd root_dir) as [Hl _]. destruct (sector_stored d Hd ∅ 0x7e00 root_dir) as [Hb0 _]; [unfold in_space; lia|].
  destruct (nthZ_is_Some (d root_dir) (x - 0x7e00)) as [y Hy]; [lia|]. replace x with (0x7e00 + (x - 0x7e00)) by lia.
  by rewrite (bytes_at_load _ _ _ _ _ Hb Hy), (bytes_at_load _ _ _ _ _ Hb0 Hy).
Qed.

Lemma same_directory_only R m m' : only_in R m m' -> (forall x, 0x7e00 <= x < 0x8000 -> ~ R x) -> same_directory m m'.
Proof. intros Ho Hr x Hx. apply (load8_only R); [done|mach_unfold; lia|by apply Hr]. Qed.

(** The drive's state once the directory is read. *)
Record ready (em : E820) (dl root_dir root_cluster per_cluster col : Z) (s : Loader B) : Prop := {
  re_disk : Disk heads spt d em 2 (bios s);
  re_geometry : geometry heads spt (ram s);
  re_vars : vars s = (dl, root_dir, root_cluster, per_cluster, col);
  re_directory : same_directory (store_bytes ∅ 0x7e00 (d root_dir)) (ram s)
}.

Lemma ready_reads em dl rd rc pc col R s s' : ready em dl rd rc pc col s -> reads heads spt d em R s s' -> (forall x, R x -> ~ (0x7c00 <= x < 0x8000)) ->
  ready em dl rd rc pc col s'.
Proof.
  intros [D G V N] Hr HR. split; [apply Hr|eapply geometry_reads; [|exact Hr|done]; intros x Hx; apply HR in Hx; lia|by rewrite (rd_vars _ _ _ _ _ _ _ Hr)|].
  intros x Hx. rewrite <- N by done. eapply same_directory_only; [apply Hr| |done]. intros y Hy Hx'. apply HR in Hx'. lia.
Qed.

Lemma directory_loaded em s dl rd rc pc : Disk heads spt d em 2 (bios s) -> geometry heads spt (ram s) -> volume (ram s) rd rc pc ->
  exists s', copy_sector_at_lba (init_fat s dl) (sector_of_root_dir (init_fat s dl)) 0x7e00 = Ret s' /\
    ready em dl rd rc pc (print_cursor_col s) s' /\ only_in (span 0x7e00 512) (ram s) (ram s').
Proof.
  intros Hb Hg Hv. destruct (init_fat_spec s dl rd rc pc Hv) as (E1 & E2 & E3). set (s1 := init_fat s dl) in *.
  assert (Hrd : sector_of_root_dir s1 = rd) by (by injection E3). rewrite Hrd.
  destruct (volume_bounds _ _ _ _ Hv) as [Hrd0 _].
  destruct (copy_sector_spec heads spt d em Hheads Hspt Hd s1 rd 0x7e00) as (s' & -> & R & Hby); [by rewrite E2|by rewrite E1|nia|unfold in_space; lia|].
  exists s'. split; [done|]. split; [|rewrite <- E1; apply R]. split; [apply R| |by rewrite (rd_vars _ _ _ _ _ _ _ R)|by apply directory_read].
  eapply geometry_reads; [|exact R|by rewrite E1]. unfold span. lia.
Qed.

(** A file is found in the directory and copied. *)
Lemma file_loaded em dl rd rc pc col s name lba n dest found not_found :
  ready em dl rd rc pc col s -> names rd rc pc name lba n -> lenZ name <= 32 -> 0x10000 <= dest -> dest + 512 * n <= 4294967296 ->
  exists s', directory_entry_search 2048 s 0x7e00 dest found not_found name = Ret (s', Some (512 * n)) /\
    ready em dl rd rc pc col s' /\ only_in (either (span 0x8000 0x8000) (span dest (512 * n))) (ram s) (ram s') /\ holds d (ram s') dest lba n.
Proof.
  intros Hr [i Hl] Hn H1 H2. pose proof (lc_index _ _ _ _ _ _ _ _ _ Hl). pose proof (re_vars _ _ _ _ _ _ _ Hr) as Hv. unfold vars in Hv. injection Hv as V1 V2 V3 V4 V5.
  pose proof (located_ext _ _ _ _ _ _ _ _ Hn (re_directory _ _ _ _ _ _ _ Hr) Hl) as Hl'. rewrite <- V3, <- V4 in Hl'.
  destruct (search_spec heads spt d em Hheads Hspt Hd 2048 s name i lba n dest found not_found) as (s' & E & R & Hh); try done; [apply Hr..|lia|].
  exists s'. split; [exact E|]. split; [|split; [apply R|exact Hh]]. eapply ready_reads; [exact Hr|exact R|]. unfold either, span. lia.
Qed.

(** The kernel's first instruction, its stack below the end of its last section, with a return
    address of 0 and the address of the two words on it. *)
Record entered_with (m : mem) (e initfs_label : Z) (en : Entry B) : Prop := {
  ew_eip : eip en = load32 m 0x100018 -u 0xc0000000;
  ew_esp : esp en = e - 0xc000000c;
  ew_ram : only_in (span (esp en) 8) m (ram (entered en));
  ew_return : load32 (ram (entered en)) (esp en) = 0;
  ew_argument : load32 (ram (entered en)) (esp en + 4) = initfs_label
}.

(** Sections above the kernel's load address, and at least one. *)
Definition elf (m : mem) : Prop := 1 <= load16 m 0x100030 /\ forall e, furthest m e -> 0xc0100040 <= e.

Lemma enter_kernel_spec (s : Loader B) e initfs_label : is_u32 e -> 0xc0100040 <= e -> is_u32 initfs_label -> entered_with (ram s) e initfs_label (enter_kernel s e initfs_label).
Proof.
  intros He H1 Hl. unfold enter_kernel. rewrite !(u32_small (e - 0xc0000004)), !(u32_small (e - 0xc0000004 - 4)), !(u32_small (e - 0xc0000004 - 4 - 4)) by (mach_unfold; lia). replace (e - 0xc0000004 - 4 - 4) with (e - 0xc000000c) by lia.
  replace (e - 0xc0000004 - 4) with (e - 0xc000000c + 4) by lia. set (a := e - 0xc000000c). assert (Ha : 0x100034 <= a /\ a + 8 <= 4294967296) by (unfold a; mach_unfold; lia).
  set (m1 := store32 (ram s) (a + 4) initfs_label). assert (O1 : only_in (span (a + 4) 4) (ram s) m1) by (apply only_in_store32; unfold in_space; lia).
  set (m2 := store32 m1 a 0). assert (O2 : only_in (span a 4) m1 m2) by (apply only_in_store32; unfold in_space; lia).
  assert (O : only_in (span a 8) (ram s) m2) by (eapply only_in_trans; [eapply only_in_mono; [|exact O1]|eapply only_in_mono; [|exact O2]]; unfold span; lia).
  split; cbn [eip esp entered ram set_ram]; [|done|exact O| |].
  - f_equal. f_equal. apply (load32_only _ _ _ _ O); [unfold in_space; lia|unfold span; lia].
  - by apply load32_store32_eq.
  - rewrite (load32_only _ _ _ _ O2); [by apply load32_store32_eq|unfold in_space; lia|unfold span; lia].
Qed.

Lemma furthest_u32 m e : furthest m e -> is_u32 e.
Proof. intros [(k & _ & ->) _]. unfold section_end. mlia. Qed.

Lemma protected_mode_spec (s : Loader B) initfs_label : cursor_ok (print_cursor_col s) -> is_u32 initfs_label ->
  (forall m, only_in screen (ram s) m -> elf m) ->
  exists en e m, protected_mode s initfs_label = Ret en /\ only_in screen (ram s) m /\ furthest m e /\ entered_with m e initfs_label en.
Proof.
  intros Hc Hl He. unfold protected_mode. set (s1 := disable_cursor s). destruct (print_string_32_only s1 msg_set_up Hc) as (O & _ & _).
  change (ram s1) with (ram s) in O. set (s2 := print_string_32 s1 msg_set_up) in *. clearbody s2. destruct (He _ O) as [Hn Hf].
  destruct (sections_read (ram s2) Hn) as (e & E & F). rewrite E. cbn [mbind comp_bind]. eexists _, e, (ram s2). split; [reflexivity|]. split; [exact O|]. split; [exact F|].
  apply enter_kernel_spec; [by eapply furthest_u32|by apply Hf|done].
Qed.

Lemma names_size rd rc pc name lba n : names rd rc pc name lba n -> 1 <= n <= 32768 /\ 0 <= lba.
Proof. intros [i [_ _ _ [L1 L2] [L3 L4] (L5 & L6 & _)]]. pose proof (load32_range (store_bytes ∅ 0x7e00 (d rd)) (0x7e00 + 32 * i + 0x1c)). split; [mlia|nia]. Qed.

(** What the loader has brought into memory when the kernel takes over. *)
Record loaded (em : E820) (k_lba k_n i_lba i_n initfs_label initfs : Z) (m : mem) : Prop := {
  lo_kernel : holds d m 0x100000 k_lba k_n;
  lo_initfs : holds d m initfs i_lba i_n;
  lo_place : initfs mod 4096 = 0 /\ 0x100000 + 512 * k_n < initfs <= 0x100000 + 512 * k_n + 4096;
  lo_words : load32 m initfs_label = initfs /\ load32 m (initfs_label + 4) = 512 * i_n;
  lo_map : memory_map m = take 170 (counted em) /\ load32 m 0x1000 <= 170
}.

Lemma loaded_only em k_lba k_n i_lba i_n initfs_label initfs R m m' :
  only_in R m m' -> (forall x, R x -> 0x10000 <= x < 0x100000) -> 1 <= k_n <= 32768 -> 1 <= i_n <= 32768 -> 0x5000 <= initfs_label -> initfs_label + 8 <= 0x7c00 ->
  loaded em k_lba k_n i_lba i_n initfs_label initfs m -> loaded em k_lba k_n i_lba i_n initfs_label initfs m'.
Proof.
  intros Ho HR Hk Hi H1 H2 [K I [P1 P2] [W1 W2] [M1 M2]].
  assert (Hno : forall x, x < 0x10000 \/ 0x100000 <= x -> ~ R x) by (intros x Hx Hr; apply HR in Hr; lia).
  split; [eapply holds_only; [done|exact Ho|unfold in_space; lia| |exact K]|eapply holds_only; [done|exact Ho|unfold in_space; lia| |exact I]|done| |]; try (intros x Hx; apply Hno; lia).
  - split; [rewrite <- W1|rewrite <- W2]; apply (load32_only R); try done; try (unfold in_space; lia); intros i Hj; apply Hno; lia.
  - assert (E : load32 m' 0x1000 = load32 m 0x1000) by (apply (load32_only R); [done|unfold in_space; lia|intros i Hj; apply Hno; lia]).
    rewrite E, <- M1. split; [|done]. apply load_entries_ext; [unfold in_space; lia|pose proof (load32_range m 0x1000); unfold in_space; lia|].
    intros x Hx. apply Ho, Hno. lia.
Qed.

(** The page behind the kernel's file. *)
Lemma initfs_place k_n : 1 <= k_n <= 32768 ->
  let initfs := Z.land (512 * k_n +u 0x1000) 0xfffff000 +u 0x100000 in
  initfs mod 4096 = 0 /\ 0x100000 + 512 * k_n < initfs <= 0x100000 + 512 * k_n + 4096.
Proof. intros Hk. cbv zeta. rewrite land_page by mlia. mlia. Qed.

(** A machine that can boot: the boot sector describes the drive, the directory names both files,
    and the kernel's file is an executable. *)
Record bootable (em : E820) (k_lba k_n i_lba i_n initfs_label : Z) (s : Loader B) : Prop := {
  bo_disk : Disk heads spt d em 2 (bios s);
  bo_map : continuation em = 0 /\ Forall entry_ok (remaining em);
  bo_geometry : geometry heads spt (ram s);
  bo_files : exists rd rc pc, volume (ram s) rd rc pc /\ names rd rc pc filename_kernel k_lba k_n /\ names rd rc pc filename_initfs i_lba i_n;
  bo_kernel : forall m, holds d m 0x100000 k_lba k_n -> elf m;
  bo_label : 0x5000 <= initfs_label /\ initfs_label + 8 <= 0x7c00;
  bo_cursor : cursor_ok (print_cursor_col s)
}.

(** The words for the kernel are stored outside the boot sector and the directory. *)
Lemma ready_store em dl rd rc pc col s a v : ready em dl rd rc pc col s -> 0x5000 <= a -> a + 4 <= 0x7c00 -> ready em dl rd rc pc col (set_ram s (store32 (ram s) a v)).
Proof.
  intros Hr H1 H2. eapply (ready_reads em dl rd rc pc col (span a 4)); [exact Hr| |unfold span; lia].
  split; [apply Hr|apply only_in_store32; unfold in_space; lia|done].
Qed.

(** Both files and the words are in memory before the memory map is asked for. *)
Lemma files_loaded em dl rd rc pc col s k_lba k_n i_lba i_n initfs_label :
  ready em dl rd rc pc col s -> names rd rc pc filename_kernel k_lba k_n -> names rd rc pc filename_initfs i_lba i_n -> 0x5000 <= initfs_label -> initfs_label + 8 <= 0x7c00 ->
  let initfs := Z.land (512 * k_n +u 0x1000) 0xfffff000 +u 0x100000 in
  exists s1 s2,
    directory_entry_search 2048 s 0x7e00 0x100000 msg_kernel_found msg_kernel_not_found filename_kernel = Ret (s1, Some (512 * k_n)) /\
    directory_entry_search 2048 (set_ram s1 (store32 (ram s1) initfs_label initfs)) 0x7e00 initfs msg_initfs_found msg_initfs_not_found filename_initfs = Ret (s2, Some (512 * i_n)) /\
    let s' := set_ram s2 (store32 (ram s2) (initfs_label + 4) (512 * i_n)) in
    ready em dl rd rc pc col s' /\ holds d (ram s') 0x100000 k_lba k_n /\ holds d (ram s') initfs i_lba i_n /\
    load32 (ram s') initfs_label = initfs /\ load32 (ram s') (initfs_label + 4) = 512 * i_n.
Proof.
  intros Hr Hk Hi L1 L2. destruct (names_size _ _ _ _ _ _ Hk) as [Bk _]. destruct (names_size _ _ _ _ _ _ Hi) as [Bi _].
  cbv zeta. destruct (initfs_place k_n Bk) as [P1 P2]. set (a := Z.land _ _ +u _) in *. clearbody a.
  destruct (file_loaded em dl rd rc pc col s filename_kernel k_lba k_n 0x100000 msg_kernel_found msg_kernel_not_found Hr Hk) as (s1 & E1 & R1 & O1 & K1); [done|lia..|].
  pose proof (ready_store _ _ _ _ _ _ s1 initfs_label a R1 L1 ltac:(lia)) as R1'. set (s1' := set_ram s1 _) in *.
  assert (O1' : only_in (span initfs_label 4) (ram s1) (ram s1')) by (apply only_in_store32; unfold in_space; lia).
  destruct (file_loaded em dl rd rc pc col s1' filename_initfs i_lba i_n a msg_initfs_found msg_initfs_not_found R1' Hi) as (s2 & E2 & R2 & O2 & K2); [done|lia..|].
  pose proof (ready_store _ _ _ _ _ _ s2 (initfs_label + 4) (512 * i_n) R2 ltac:(lia) ltac:(lia)) as R2'. set (s2' := set_ram s2 _) in *.
  assert (O2' : only_in (span (initfs_label + 4) 4) (ram s2) (ram s2')) by (apply only_in_store32; unfold in_space; lia).
  exists s1, s2. split; [exact E1|]. split; [exact E2|]. fold s2'. split; [exact R2'|]. split.
  { eapply (holds_only d Hd _ _ _ _ _ _ O2'); [unfold in_space; lia|unfold span; lia|]. eapply (holds_only d Hd _ _ _ _ _ _ O2); [unfold in_space; lia|unfold either, span; lia|].
    eapply (holds_only d Hd _ _ _ _ _ _ O1'); [unfold in_space; lia|unfold span; lia|exact K1]. }
  split; [eapply (holds_only d Hd _ _ _ _ _ _ O2'); [unfold in_space; lia|unfold span; lia|exact K2]|]. split; [|apply load32_store32_eq; mach_unfold; lia].
  rewrite (load32_only _ _ _ _ O2'), (load32_only _ _ _ _ O2) by (unfold in_space, either, span; lia). apply load32_store32_eq. mach_unfold. lia.
Qed.

Lemma a20_enabled em (s : Loader B) : Disk heads spt d em 2 (bios s) ->
  let s' := enable_a20 (print_string_16 s msg_start) in Disk heads spt d em 2 (bios s') /\ ram s' = ram s /\ print_cursor_col s' = print_cursor_col s.
Proof.
  intros Hb. pose proof (rd_disk _ _ _ _ _ _ _ (print_16_spec heads spt d em s msg_start Hb)) as Hb1. cbv zeta. unfold enable_a20.
  destruct (port_in _ 0x92) as [b al] eqn:E. split; [|done]. apply disk_out. by eapply disk_in.
Qed.

(** The steps of [start] in a row. *)
Lemma start_steps (s : Loader B) dl initfs_label s1 s2 s3 s4 k i en :
  let s0 := init_fat (enable_a20 (print_string_16 s msg_start)) dl in
  let initfs := Z.land (k +u 0x1000) 0xfffff000 +u 0x100000 in
  copy_sector_at_lba s0 (sector_of_root_dir s0) 0x7e00 = Ret s1 ->
  directory_entry_search 2048 s1 0x7e00 0x100000 msg_kernel_found msg_kernel_not_found filename_kernel = Ret (s2, Some k) ->
  directory_entry_search 2048 (set_ram s2 (store32 (ram s2) initfs_label initfs)) 0x7e00 initfs msg_initfs_found msg_initfs_not_found filename_initfs = Ret (s3, Some i) ->
  map_memory (set_ram s3 (store32 (ram s3) (initfs_label + 4) i)) = Ret s4 ->
  protected_mode s4 initfs_label = Ret en ->
  start s dl initfs_label = Ret (Some en).
Proof.
  intros s0 initfs E1 E2 E3 E4 E5. unfold start. eapply bind_step; [exact E1|]. eapply bind_step; [exact E2|]. cbv beta iota.
  eapply bind_step; [exact E3|]. cbv beta iota. eapply bind_step; [exact E4|]. eapply bind_step; [exact E5|]. reflexivity.
Qed.

Lemma start_enters_kernel em k_lba k_n i_lba i_n initfs_label dl s :
  bootable em k_lba k_n i_lba i_n initfs_label s ->
  exists en e m initfs, start s dl initfs_label = Ret (Some en) /\
    loaded em k_lba k_n i_lba i_n initfs_label initfs m /\ furthest m e /\ entered_with m e initfs_label en.
Proof.
  intros [Hb [Hc Hok] Hg (rd & rc & pc & Hv & Hk & Hi) He [L1 L2] Hcur]. destruct (a20_enabled em s Hb) as (Hb0 & M0 & C0).
  destruct (names_size _ _ _ _ _ _ Hk) as [Bk _]. destruct (names_size _ _ _ _ _ _ Hi) as [Bi _].
  destruct (directory_loaded em (enable_a20 (print_string_16 s msg_start)) dl rd rc pc Hb0) as (s1 & E1 & R1 & _); [by rewrite M0..|]. rewrite C0 in R1.
  destruct (files_loaded em dl rd rc pc _ s1 k_lba k_n i_lba i_n initfs_label R1 Hk Hi L1 L2) as (s2 & s3 & E2 & E3 & R4 & K4 & I4 & W4 & W4').
  destruct (map_memory_spec heads spt d _ em (re_disk _ _ _ _ _ _ _ R4) Hc Hok) as (s5 & E4 & V5 & O5 & _ & MM & ML).
  pose proof (fun en => start_steps s dl initfs_label s1 s2 s3 s5 _ _ en E1 E2 E3 E4) as Hstart. clear E1 E2 E3 E4.
  destruct (initfs_place k_n Bk) as [P1 P2]. set (a := Z.land _ _ +u _) in *. clearbody a. set (s4 := set_ram s3 _) in *. clearbody s4.
  assert (Hload : loaded em k_lba k_n i_lba i_n initfs_label a (ram s5)).
  { split; [eapply (holds_only d Hd _ _ _ _ _ _ O5); [unfold in_space; lia|unfold span; lia|exact K4]|eapply (holds_only d Hd _ _ _ _ _ _ O5); [unfold in_space; lia|unfold span; lia|exact I4]|lia| |done].
    rewrite !(load32_only _ _ _ _ O5) by (unfold in_space, span; lia). done. }
  assert (Hkeep : forall m, only_in screen (ram s5) m -> loaded em k_lba k_n i_lba i_n initfs_label a m).
  { intros m Hm. eapply loaded_only; [exact Hm|unfold screen, span; lia|done..]. }
  destruct (protected_mode_spec s5 initfs_label) as (en & e & m & E5 & O6 & F & W).
  { rewrite (re_vars _ _ _ _ _ _ _ R4) in V5. unfold vars in V5. injection V5 as _ _ _ _ ->. done. }
  { mach_unfold. lia. }
  { intros m Hm. apply He. by apply (lo_kernel _ _ _ _ _ _ _ _ (Hkeep m Hm)). }
  exists en, e, m, a. split; [exact (Hstart en E5)|]. split; [by apply Hkeep|]. split; [exact F|exact W].
Qed.

(** C7: on a machine that can boot, the second stage of the loader enters the kernel: the sectors
    of the kernel's file are at 1 MiB and those of the archive at the page behind it, the two
    words handed to the kernel give the archive's place and size, the memory map is the one the
    BIOS reported (as far as it was counted), and the kernel starts at the entry point of its
    executable with a stack below the end of its last section and the address of the two words as
    its argument. *)
Theorem boot_loader_enters_kernel em k_lba k_n i_lba i_n initfs_label dl s :
  bootable em k_lba k_n i_lba i_n initfs_label s ->
  exists en e m initfs, start s dl initfs_label = Ret (Some en) /\
    loaded em k_lba k_n i_lba i_n initfs_label initfs m /\ furthest m e /\ entered_with m e initfs_label en.
Proof. apply start_enters_kernel. Qed.

(** * The first stage *)

Lemma copy_sectors_spec em dl rd rc pc col n s ax bx :
  ready em dl rd rc pc col s -> 0 <= ax -> ax + Z.of_nat n < 65536 -> ax + Z.of_nat n <= 256 * heads * spt -> 0x5000 <= bx -> bx + 512 * Z.of_nat n <= 0x7c00 ->
  exists s', copy_sectors n s ax bx = Ret s' /\ ready em dl rd rc pc col s' /\ only_in (span bx (512 * Z.of_nat n)) (ram s) (ram s') /\ holds d (ram s') bx ax (Z.of_nat n).
Proof.
  revert s ax bx. induction n as [|n IH]; intros s ax bx Hr H1 H2 H3 H4 H5; cbn [copy_sectors].
  - exists s. split; [done|]. split; [done|]. split; [done|]. intros i Hi. lia.
  - rewrite Nat2Z.inj_succ in *.
    destruct (copy_sector_spec heads spt d em Hheads Hspt Hd s ax bx (re_disk _ _ _ _ _ _ _ Hr) (re_geometry _ _ _ _ _ _ _ Hr)) as (s1 & -> & R1 & B1); [lia|unfold in_space; lia|].
    cbn [mbind comp_bind]. rewrite !u16_small by (mach_unfold; lia).
    assert (Hr1 : ready em dl rd rc pc col s1) by (eapply ready_reads; [exact Hr|exact R1|unfold span; lia]).
    destruct (IH s1 (ax + 1) (bx + 0x200) Hr1) as (s2 & -> & Hr2 & O2 & K2); [lia..|]. exists s2. split; [done|]. split; [done|]. split.
    + eapply only_in_trans; [eapply only_in_mono; [|apply R1]|eapply only_in_mono; [|exact O2]]; unfold span; lia.
    + intros i Hi. destruct (decide (i = 0)) as [->|Hn].
      * replace (ax + 0) with ax by lia. replace (bx + 512 * 0) with bx by lia.
        eapply bytes_at_only; [exact O2| | |exact B1]; destruct (Hd ax) as [-> _]; [unfold in_space; lia|unfold span; lia].
      * replace (bx + 512 * i) with (bx + 0x200 + 512 * (i - 1)) by lia. replace (ax + i) with (ax + 1 + (i - 1)) by lia. apply K2. lia.
Qed.

Lemma volume_only R m m' rd rc pc : only_in R m m' -> (forall x, 0x7c00 <= x < 0x7e00 -> ~ R x) -> volume m rd rc pc -> volume m' rd rc pc.
Proof.
  intros Ho HR [V1 V2 V3 V4]. assert (E : forall x, 0x7c00 <= x < 0x7e00 -> load8 m' x = load8 m x) by (intros x Hx; apply (load8_only R); [done|mach_unfold; lia|by apply HR]).
  split; unfold load16, SECTORS_PER_CLUSTER, FAT_TABLE_COUNT, RESERVED_SECTORS, SECTORS_PER_FAT, ROOT_DIRECTORY_ENTRIES in *; rewrite !E by lia; done.
Qed.

End boot.

(** * Descriptor tables *)

(** The entries as the processor reads them from memory. *)
Definition word_at (l : list Z) (i : Z) : Z := nth (Z.to_nat i) l 0 + 256 * nth (Z.to_nat (i + 1)) l 0.
Definition gdt_entry_at (l : list Z) (i : Z) : GDTEntry :=
  let o := 8 * i in
  mkGDTEntry (word_at l o) (word_at l (o + 2)) (nth (Z.to_nat (o + 4)) l 0) (nth (Z.to_nat (o + 5)) l 0) (nth (Z.to_nat (o + 6)) l 0) (nth (Z.to_nat (o + 7)) l 0).
Definition idt_entry_at (l : list Z) (i : Z) : IDTEntry :=
  let o := 8 * i in
  mkIDTEntry (word_at l o) (word_at l (o + 2)) (nth (Z.to_nat (o + 4)) l 0) (nth (Z.to_nat (o + 5)) l 0) (word_at l (o + 6)).

(** The segments of both modes start at 0 and span the whole of memory, so that offsets are
    addresses; every vector below 20 leads to the fault handler in the first 64 KiB. *)
Theorem loader_tables_flat addr : 0 <= addr < 65536 ->
  decode (gdt_entry_at Loader.gdt 1) = Some (mkSegment 0 0xffffffff 0 true false) /\
  decode (gdt_entry_at Loader.gdt 2) = Some (mkSegment 0 0xffffffff 0 false false) /\
  decode (gdt_entry_at unreal_gdt 1) = Some (mkSegment 0 0xffffffff 0 false false) /\
  lenZ (idt addr) = 160 /\
  forall v, 0 <= v < 20 -> decode_gate (idt_entry_at (idt addr) v) = Some (mkGate addr 8 0 true).
Proof.
  intros Ha. split; [reflexivity|]. split; [reflexivity|]. split; [reflexivity|]. split; [reflexivity|]. intros v Hv.
  assert (Hv' : v ∈ seqZ 0 20) by (apply elem_of_seqZ; lia). revert v Hv Hv'.
  assert (Hall : Forall (fun v => decode_gate (idt_entry_at (idt addr) v) = Some (mkGate (u8 addr + 256 * u8 (addr / 256) + 65536 * 0) 8 0 true)) (seqZ 0 20)).
  { change (seqZ 0 20) with [0; 1; 2; 3; 4; 5; 6; 7; 8; 9; 10; 11; 12; 13; 14; 15; 16; 17; 18; 19].
    repeat (apply Forall_cons; split; [reflexivity|]). apply Forall_nil_2. }
  intros v Hv Hin. rewrite Forall_forall in Hall. rewrite (Hall v Hin). do 2 f_equal. mlia.
Qed.

(** * A machine *)

(** A floppy with [BOOT.BIN], a kernel and an archive of one sector each, in a drive whose every
    other attempt fails. *)
Module Machine.
Definition pad (l : list Z) : list Z := l ++ replicate (512 - List.length l) 0.
Definition dir_entry (name : list Z) (cluster size : Z) : list Z := name ++ replicate 15 0 ++ [cluster; 0] ++ le32 size.
Definition directory : list Z :=
  dir_entry expected_filename 2 500 ++ dir_entry filename_kernel 3 300 ++ dir_entry filename_initfs 4 100.
Definition executable : list Z :=
  replicate 24 0 ++ le32 0xc0100100 ++ replicate 4 0 ++ le32 64 ++ replicate 10 0 ++ [40; 0] ++ [1; 0] ++ replicate 26 0 ++
  le32 0xc0100000 ++ replicate 4 0 ++ le32 0x2000.
Definition sectors (i : Z) : list Z :=
  pad (if i =? 19 then directory else if i =? 33 then [0xfa; 0xf4] else if i =? 34 then executable else if i =? 35 then [0x71; 0xc7] else []).
Definition low : MapEntry := mkMapEntry 0 0x9fc00 1 1.
Definition high : MapEntry := mkMapEntry 0x100000 0xf00000 1 1.
Definition top : MapEntry := mkMapEntry 0xfffc0000 0x40000 2 1.
Definition map_left : E820 := mkE820 [low; high; top] true 0.

(** The state says whether the next attempt fails. *)
#[export] Instance machine : Bios bool := {|
  int13 b track sector head drive :=
    if b : bool then (false, [1; 2; 3], true) else (true, sectors ((track * 2 + head) * 18 + sector - 1), false);
  int15 b ebx :=
    if ebx =? 0 then (b, entry_bytes low, false, SMAP, 1) else if ebx =? 1 then (b, entry_bytes high, false, SMAP, 2)
    else if ebx =? 2 then (b, entry_bytes top, false, SMAP, 0) else (b, [], true, 0, 0);
  int10 b c := b;
  port_in b p := (b, 0);
  port_out b p x := b
|}.

#[export] Instance machine_disk : DiskBios bool.
Proof.
  refine {| Disk heads spt d em n b := heads = 2 /\ spt = 18 /\ d = sectors /\ (em = map_left \/ em = mkE820 [high; top] true 1 \/ em = mkE820 [top] true 2) /\ (b = true -> n <> 0%nat) |}.
  - intros heads spt d em n b track sector head drive b' bytes carry (-> & -> & -> & Hm & Hn) Ht Hs Hh E. cbn in E. destruct b; injection E as <- <- <-.
    + right. split; [done|]. split; [done|]. destruct n as [|n]; [by exfalso; apply Hn|]. by exists n.
    + left. done.
  - intros heads spt d em n b b' bytes carry eax ebx' (-> & -> & -> & Hm & Hn) E.
    destruct Hm as [-> |[-> | ->]]; cbn in E; injection E as <- <- <- <- <-; cbn; (split; [done|]; split; [done|]; split; [done|]; split; [done|]).
    + split; [done|]. split; [done|]. split; [done|]. split; [by right; left|done].
    + split; [done|]. split; [done|]. split; [done|]. split; [by right; right|done].
    + exists map_left. split; [done|]. split; [done|]. split; [done|]. split; [by left|done].
  - done.
  - intros heads spt d em n b p b' x HD E. cbn in E. by injection E as <- <-.
  - done.
Defined.

Lemma sectors_ok i : is_sector (sectors i).
Proof.
  assert (Hb : forall l, forallb (fun x => (0 <=? x) && (x <? 256)) l = true -> Forall is_u8 l).
  { intros l Hl. apply List.Forall_forall. intros x Hx. pose proof (proj1 (List.forallb_forall _ _) Hl x Hx). mach_unfold. lia. }
  unfold sectors. repeat destruct (_ =? _); (split; [reflexivity|apply Hb; reflexivity]).
Qed.

(** The boot sector's description of the drive. *)
Definition boot_sector : mem := store_bytes ∅ 0x7c0d [1; 1; 0; 2; 224; 0; 0x40; 0x0b; 0xf0; 9; 0; 18; 0; 2; 0].
Definition before : Loader bool := mkLoader boot_sector true 0 0 0 0 0.

Lemma volume_ok : volume boot_sector 19 33 1.
Proof. by split; [vm_compute| vm_compute|vm_compute|vm_compute]. Qed.

Lemma names_kernel : names 2 18 sectors 19 33 1 filename_kernel 34 1.
Proof.
  exists 1. split; [lia| |by vm_compute|by vm_compute|by vm_compute|by vm_compute]. intros j Hj. replace j with 0 by lia. by vm_compute.
Qed.
Lemma names_initfs : names 2 18 sectors 19 33 1 filename_initfs 35 1.
Proof.
  exists 2. split; [lia| |by vm_compute|by vm_compute|by vm_compute|by vm_compute]. intros j Hj. assert (j = 0 \/ j = 1) as [-> | ->] by lia; by vm_compute.
Qed.

Lemma executable_sections m : holds sectors m 0x100000 34 1 -> load16 m 0x100030 = 1 /\ forall e, furthest m e -> e = 0xc0102000.
Proof.
  intros Hh. specialize (Hh 0 ltac:(lia)). change (0x100000 + 512 * 0) with 0x100000 in Hh. change (sectors (34 + 0)) with (pad executable) in Hh.
  assert (L : forall i x, nthZ (pad executable) i = Some x -> load8 m (0x100000 + i) = x) by (intros i x; by apply bytes_at_load).
  assert (L32 : forall k x, 0 <= k <= 508 -> take 4 (drop (Z.to_nat k) (pad executable)) = le32 x -> load32 m (0x100000 + k) = u32 x).
  { intros k x Hk Hx. apply load32_le32. pose proof (bytes_at_sub m 0x100000 (pad executable) k 4 Hh) as Hs. change (lenZ (pad executable)) with 512 in Hs.
    change (Z.to_nat 4) with 4%nat in Hs. rewrite Hx in Hs. apply Hs; lia. }
  assert (E1 : load16 m 0x100030 = 1). { unfold load16. rewrite (L 48 1 eq_refl : load8 m 0x100030 = 1), (L 49 0 eq_refl : load8 m (0x100030 + 1) = 0). done. }
  assert (E2 : load32 m 0x100020 = 64) by (apply (L32 32 64); [lia|reflexivity]).
  assert (E3 : load32 m 0x10004c = 0xc0100000) by (apply (L32 76 0xc0100000); [lia|reflexivity]).
  assert (E4 : load32 m 0x100054 = 0x2000) by (apply (L32 84 0x2000); [lia|reflexivity]).
  split; [exact E1|]. intros e [(k & Hk & ->) _]. rewrite E1 in Hk. replace k with 0 by lia. unfold section_end. rewrite E2, Z.mul_0_l, Z.add_0_r.
  change (0x100000 + u32 64 + 0x0c) with 0x10004c. change (0x100000 + u32 64 + 0x14) with 0x100054. rewrite E3, E4. reflexivity.
Qed.
Lemma executable_ok m : holds sectors m 0x100000 34 1 -> elf m.
Proof. intros Hh. destruct (executable_sections m Hh) as [E1 E2]. split; [lia|]. intros e He. rewrite (E2 e He). lia. Qed.

Lemma before_bootable : bootable 2 18 sectors map_left 34 1 35 1 0x6000 before.
Proof.
  split; [|split; [done|]|by vm_compute|exists 19, 33, 1; split; [apply volume_ok|split; [apply names_kernel|apply names_initfs]]|apply executable_ok|lia|by vm_compute].
  - split; [done|]. split; [done|]. split; [done|]. split; [by left|done].
  - repeat (apply Forall_cons; split; [by vm_compute|]). apply Forall_nil_2.
Qed.

(** The machine enters its kernel at 0x100100, with the archive at 0x101000; of the memory map the
    last entry is lost. *)
Lemma boot_loader_enters_kernel_witness :
  bootable 2 18 sectors map_left 34 1 35 1 0x6000 before /\
  exists en e m initfs, start before 0 0x6000 = Ret (Some en) /\
    loaded sectors map_left 34 1 35 1 0x6000 initfs m /\ furthest m e /\ entered_with m e 0x6000 en.
Proof.
  split; [exact before_bootable|].
  exact (boot_loader_enters_kernel 2 18 sectors ltac:(lia) ltac:(lia) sectors_ok _ 34 1 35 1 0x6000 0 before before_bootable).
Defined.

Lemma last_map_entry_lost_witness : exists s', map_memory before = Ret s' /\ memory_map (ram s') = [low; high] /\ load32 (ram s') 0x1000 = lenZ [low; high].
Proof.
  apply (last_map_entry_lost 2 18 sectors before [low; high] top); [by apply before_bootable| |cbn; lia].
  apply (bo_map _ _ _ _ _ _ _ _ _ _ before_bootable).
Defined.

End Machine.
