(* ===== verification/PowerOn.v ===== *)
(** From the disk to a kernel with memory: the boot loader of [LoaderSpec] followed by the start-up
    of [Boot].

    What the loader leaves is what the start-up expects, for a kernel linked as [kernel.ld] says:
    its last section is [.bss], with the stack in its last page. *)

From S2P Require Import Prelude Memory FrameBitmap Physical ListAllocator PageTable ProcMemory Boot Loader LoaderSpec.

Section power_on.
Context {B : Type} {BI : Bios B} {DB : DiskBios B} (heads spt : Z) (d : Z -> list Z).
Context (Hheads : 0 < heads < 256) (Hspt : 0 < spt < 256) (Hd : forall i, is_sector (d i)).

(** The kernel's last section ends where the linker's labels say. *)
Definition linked (l : Labels) (k_lba k_n : Z) : Prop :=
  forall m e, holds d m 0x100000 k_lba k_n -> furthest m e -> e = 0xc0000000 + rw_physical_end l.

(** The memory the BIOS reports is enough for the kernel, and its frames are few enough that
    their reference counts fit the first heap. *)
Definition frame_total (em : E820) : Z := memory_limit (take 170 (counted em)) / 4096.
Definition fits (l : Labels) (em : E820) (fs : list Z) (f1 f2 : Z) : Prop :=
  frame_total em + 12 <= 0x40000 /\
  forall m, memory_map m = take 170 (counted em) -> load32 m 0x1000 <= 170 -> Boot.loaded l m fs f1 f2.

(** The two words on the stack are above the memory map. *)
Lemma map_kept R m m' : only_in R m m' -> (forall x, R x -> 0x10000 <= x) -> load32 m 0x1000 <= 170 ->
  memory_map m' = memory_map m /\ load32 m' 0x1000 = load32 m 0x1000.
Proof.
  intros Ho HR Hm. assert (Hno : forall x, x < 0x10000 -> ~ R x) by (intros x Hx Hr; apply HR in Hr; lia). split.
  - apply load_entries_ext; [unfold in_space; lia|pose proof (load32_range m 0x1000); unfold in_space; lia|]. intros x Hx. apply Ho, Hno. lia.
  - apply (load32_only R); [done|unfold in_space; lia|]. intros i Hi. apply Hno. lia.
Qed.

End power_on.

(** * The machine of [LoaderSpec] *)

Import Machine.

(** One page of code and data and one of stack. *)
Definition machine_labels : Labels := mkLabels 0x100000 0x102000 0x100200 0x100210 0x101000.

Lemma machine_linked : linked sectors machine_labels 34 1.
Proof. intros m e Hh He. by apply (executable_sections m Hh). Qed.

Lemma machine_fits : fits machine_labels map_left (seqZ 0 80) 0 1.
Proof.
  split; [by vm_compute|]. intros m Hm Hc. change (take 170 (counted map_left)) with [low; high] in Hm.
  assert (Hu : forall j, 0 <= j < 80 -> usable machine_labels m j).
  { intros j Hj. split; [lia|]. rewrite Hm. split; [|cbn [machine_labels ro_physical_start rw_physical_end]; change (0x100000 / 4096) with 256; lia].
    exists (4096 * j). split; [mlia|]. apply Exists_cons_hd. split; [done|]. cbn. lia. }
  assert (Hb : bitmap_frames m = 1) by (unfold bitmap_frames; rewrite Hm; reflexivity).
  split; cbn [machine_labels ro_physical_start rw_physical_end bss_start bss_end label_stack_start].
  - split; [lia|by split].
  - lia.
  - lia.
  - done.
  - rewrite Hm. repeat (apply Forall_cons; split; [intros _; by vm_compute|]). apply Forall_nil_2.
  - rewrite Hb, Hm. by vm_compute.
  - rewrite Hb. lia.
  - split; [apply NoDup_seqZ|]. split; [rewrite length_seqZ; lia|]. apply Forall_forall. intros j Hj%elem_of_seqZ. apply Hu. lia.
  - split; [apply elem_of_seqZ; lia|]. split; [apply elem_of_seqZ; lia|]. split; [done|]. by vm_compute.
Qed.

